(* ===== verification/_CoqProject ===== *)
-Q . S2P
Prelude.v
Cstring.v
Queue.v
HashTable.v
Frames.v
Pmm.v
Page.v
Vmm.v
VmmPages.v
Task.v
Mutex.v
MutexRun.v
Pipe.v
Tty.v
Keyboard.v
Ports.v
Serialport.v
Printf.v
Tables.v
Lru.v
Bio.v
Bytes.v
Ext2.v
Ext2File.v
BioBlocks.v
Ext2Cache.v
Vfs.v
Inode.v
Dir.v
DirLookup.v
DirLock.v
Ext2Dir.v
Ext2Link.v
File.v
FileIO.v
Syscall.v
Boot.v
Shell.v
Stdio.v
Pic.v
Rtc.v
Descr.v
Acpi.v
Apic.v
Hpet.v
Pci.v
Ps2.v
Loader.v
Abort.v
Ide.v
IdeDisk.v
KMain.v
