(* ===== verification/Prelude.v ===== *)
(** * BulbOS: a verification library for the kernel and its C library

    BulbOS is a small 32-bit kernel (src/src) with its own C library
    (src/libc-src).  This library translates its components into executable
    Rocq definitions, from the source and function by function, and proves what
    makes them correct.  Where the code does something else than it means to,
    a theorem shows on which inputs.

    ** Conventions

    Integers are [Z]; a result that is stored in a w-bit object is cut with
    [wrap] ([u8], [u16], [u32], [u64]) exactly where C cuts it.  Code that can
    fail returns an [outcome]: a value, [Panic] (the code calls abort),
    [Undef] (an access outside an object, a null or dangling pointer, a
    division by zero, a signed overflow), or [NoFuel] for a loop run with too
    little fuel.  Fuel is an artefact of the model: the theorems say how much
    is enough, and it is always a bound the data gives (the capacity of a
    table, the length of a list, the digits of a 32-bit number, the polls a
    device needs).  State is passed explicitly; linked structures keep their
    pointers where the code depends on them (scheduler lists, semaphores, the
    lists of the caches) and are sequences where it does not (the kernel heap).
    Devices and the memory that kmalloc hands out are not part of the
    repository: they are type classes or section parameters with the laws the
    code relies on, and the witnesses give instances.  Messages the code prints
    are left out.

    ** Files, and what they model

    - Prelude: integers, outcomes, arrays, bit lemmas, tactics.
    - Cstring (libc-src/string): strings and byte memory; memmove for every
      overlap.
    - Queue (utils/queue.c): the ring buffer, as an instance of the interface
      [Fifo]; a client cannot tell it from a bounded list.
    - HashTable (utils/hashtable.c): open addressing with tombstones and
      resizing; refinement to a finite map.  Tables: the part of this contract
      the caches need, as a class, with the hash table as its instance.
    - Frames, Pmm (kernel/memory/pmm.c): the bitmap of page frames; which frame
      is handed out, that no frame is handed out twice, the set the memory map
      of the boot loader leaves free.  Frames is the interface of frame
      allocation that paging and the heap are proved against.
    - Page (kernel/memory/page.c): page tables in a memory of frames, with the
      walk the MMU makes; which page is mapped where after each operation.
    - Vmm (kernel/memory/vmm.c): the kernel heap; blocks in use never overlap,
      freeing gives back exactly the block, the growth of the heap terminates.
      VmmPages runs the heap on the page tables: every block is memory of its
      own.
    - Task (kernel/proc/task.c, task_switch.S): the lists of the scheduler, its
      locks and postponed switches, sleeping, the stack of a new task.
    - Mutex (kernel/proc/mutex.c): semaphores and condition variables.
      MutexRun: every interleaving of tasks that share a semaphore, and a
      device interrupt that comes before its task waits.
    - Pipe (kernel/fs/pipe.c): unbuffered pipes as a FIFO for every
      interleaving of readers and writers.
    - Tty (kernel/io/tty.c): the text console.
    - Keyboard (kernel/drivers/keyboard.c, part of kernel/io/stdio_handler.c):
      the command protocol and the decoding of scan codes, over [Fifo].
    - Ports, Serialport (kernel/io/serialport.c): port access as a class; the
      serial driver against the registers of a 16550.
    - Printf (libc-src/string/itoa.c, libc-src/stdio): number formatting,
      vprintf, and printf and kprintf down to the console and the serial line.
    - Lru, Bio (kernel/fs/bio.c): the list of unused buffers with its pointers,
      and the buffer cache on top of it, over the classes of Tables and a disk.
    - Bytes, Ext2, Ext2File (kernel/fs/filesystem.c): byte arrays and packed
      structures; block and inode allocation, inodes on the disk, file
      contents and truncation over the interface [Blocks]: ideal blocks, whose
      accesses never fail.  These are specifications: bio.c fails when a block
      is read again right after its release, which [Blocks] does not show.
    - BioBlocks: one access of filesystem.c to a block as its calls of bio.c, and
      that sequences of accesses the cache can serve do what [Blocks] says.
    - Ext2Cache: the functions of filesystem.c on allocation, inodes, contents
      and truncation with their calls of bio.c, buffer by buffer.  The
      accounting [touch] computes which accesses the cache serves; served
      functions do what the specifications of Ext2 say, and the sequences that
      fail (growing a file, truncating one) are shown to fail.
    - Vfs: the monad of the file layer, where a computation may also wait for a
      mutex.
    - Inode (kernel/fs/inode.c): the inode cache; one object for an inode, and
      that no inode in memory is ever valid.
    - Dir, DirLookup, DirLock (kernel/fs/dir.c): the tree of cached directory
      entries, the lookup of paths, and two tasks that lock the same entry.
    - Ext2Dir, Ext2Link (the rest of kernel/fs/filesystem.c): the start of the
      file system, parsing directories, linking and unlinking names, over
      [Blocks].
    - File, FileIO (kernel/fs/file.c): open files, descriptors, and the calls
      through the pointers of a file; two open files of one inode.
    - Syscall (kernel/usr/syscall.c): the handlers and their table.
    - Boot: the file layer run end to end on a concrete disk.
    - Shell (kernel/usr/shell.c): line editing against a reference, the commands
      as programs of system calls.
    - Stdio (kernel/io/stdio_handler.c): the tasks behind the standard files; a
      character from the scan code to the shell, and from a write to the console.
    - Pic, Apic (kernel/int): the interrupt controllers and the routing of lines.
    - Descr (kernel/boot/gdt.c, tss.c, kernel/int/idt.c, isrs.c): descriptors
      and gates as the processor decodes them.
    - Rtc (kernel/drivers/rtc.c, cmos.c): the clock against the calendar.
    - Acpi, Hpet (kernel/drivers/rsdt.c, hpet.c): the tables in memory, the
      timer, and the calibration in [apic_init].
    - Pci, Ps2, Ide (kernel/drivers/pci.c, ps2controller.c, pit.c, ide.c): the
      search of the bus, the keyboard controller, and the disk driver up to the
      point where a task waits for the transfer.  IdeDisk: the driver together
      with the transfer of the controller and its interrupt is a disk, and the
      instance of the interface the buffer cache needs.
    - Loader (kernel/proc/loader.c): the copy of a page directory.
    - Abort (libc-src/stdlib/abort.c, ssp.c, kernel/io/vbe.c, kernel/int/irq.c):
      what the kernel reports when it stops.
    - KMain (kernel/k_main.c): the initialisations that kernel_main calls, in
      their order and undisturbed, the tasks they leave, and a concrete machine
      on which they run to the end.

    How they interact: Keyboard uses Queue through [Fifo]; Page and Vmm use Pmm
    through the frame interface; Mutex uses Task; Printf uses Tty and
    Serialport; Bio uses HashTable through [KTable]; Ext2Cache uses Bio
    and is compared with Ext2 through [Blocks], Bio uses Ide through [Disk]
    (IdeDisk), Inode uses the specification Ext2 through the
    interface of a device, Dir uses Inode, File uses Inode and Pipe, Syscall and
    Stdio use File; the drivers use the classes [PortIO] and [MemIO] of Ports,
    and Ide uses Pci and Apic; KMain puts them together in the order of the
    code.

    ** What the theorems show

    Refinements of abstract objects (queue, hash table, pipe, the disk behind
    the driver, the blocks behind the cache); functional
    correctness of each operation with what it leaves alone (memory, paging,
    heap, caches, file system, console, serial line); invariants over all
    sequences of events (keyboard protocol, critical sections, semaphores,
    pipes, inode cache); equivalence with a reference (line editing, the clock); termination
    and bounds of the loops that poll devices and walk tables; composition of
    components (typing, printing, files, heap and paging, cache and driver,
    the initialisations of the kernel); round
    trips (allocation and release of heap blocks and disk blocks,
    number texts, inodes and file contents through the buffer cache); and counterexamples for the places
    where the code goes wrong, each stated as a theorem about the definitions
    that are proved correct elsewhere.

    ** Bounds

    Theorems about files are for the direct blocks (12 KiB) of a file system
    with 1024-byte blocks in its first group: behind that the code misbehaves,
    as the theorems at the end of Ext2 and Ext2File show.  The caches of
    blocks, inodes and directory entries are
    proved for objects they can serve: in use, between two others on the list of
    unused ones, or new with room in the table.  Taking the first or the last
    unused one off the list and eviction do not work in the code; theorems of
    Lru, Bio and Ext2Cache show it.  The theorems of Inode, FileIO and
    Ext2Link on the contents of the disk are about the specification over
    [Blocks].  A semaphore excludes as long as a task that has to wait finds
    another one ready: MutexRun shows where exclusion ends.  The disk driver
    leaves the direction bit of the bus master clear: on a controller that heeds
    it only writes are served.  Identity mapping is proved within one page table.
    A device that is polled answers within [at_max], [ps2_max] or a like bound
    of its law; the fuel is larger.  A transfer of the disk driver is a part of
    a KiB or one to four KiBs: for other sizes its loop does not end.  The
    lookup of paths is proved for entries in the cache: names of the root that
    are not cached are never found.

    ** Not modelled

    Boot code and interrupt stubs in assembly (but for the switch of stacks),
    the TLB, the model-specific register that enables the local interrupt
    controller, the delays of a millisecond between accesses to a device, the
    printing functions for debugging (bio_debug_print, dir_debug_print,
    vmm_print_kheap, task_print_info, task_print_list), and code that is
    commented out (the handlers of irq.c, the multi-page functions of pmm.c).
    In KMain bio_init, the sleeps of ide_detect_drive, the blocking at disk
    reads and the interrupts after STI are left out.  The file layer above
    filesystem.c (inodes, directories, files, system calls) runs over [Blocks]
    and not over the buffer cache.  Calls of task_block inside the file
    layer and the drivers end the computation: what other tasks do meanwhile is
    modelled where a theorem is about it (pipes, semaphores, directory locks,
    the standard output, the disk driver). *)

From Stdlib Require Import ZArith Lia.
From stdpp Require Import base numbers list gmap.

Declare Scope bulb_scope.
Delimit Scope bulb_scope with bulb.
#[global] Open Scope Z_scope.

(** ** Machine integers *)

(** [wrap w x] is the value stored in an unsigned [w]-bit object when the
    mathematical result of an expression is [x]. *)
Definition wrap (w x : Z) : Z := x mod 2 ^ w.
Definition u8 (x : Z) : Z := wrap 8 x.
Definition u16 (x : Z) : Z := wrap 16 x.
Definition u32 (x : Z) : Z := wrap 32 x.
Definition u64 (x : Z) : Z := wrap 64 x.

(** [sext w x]: the signed reading of the low [w] bits of [x]. *)
Definition sext (w x : Z) : Z :=
  let y := wrap w x in if y <? 2 ^ (w - 1) then y else y - 2 ^ w.
Definition s8 (x : Z) : Z := sext 8 x.
Definition s32 (x : Z) : Z := sext 32 x.

(** Unsigned bitwise complement at width [w]. *)
Definition bnot (w x : Z) : Z := 2 ^ w - 1 - wrap w x.

(** C truth values. *)
Definition b2z (b : bool) : Z := if b then 1 else 0.

(** ** Outcomes *)

(** What running a piece of kernel code produces: a value, a call of
    [abort()] (kernel panic), undefined behaviour (an access outside an
    object, a null dereference, a division by zero), or, for a loop that is
    run with fuel, not enough fuel. *)
Inductive outcome (A : Type) : Type :=
| Ret (a : A)
| Panic
| Undef
| NoFuel.
Arguments Ret {A} a.
Arguments Panic {A}.
Arguments Undef {A}.
Arguments NoFuel {A}.

Definition obind {A B} (m : outcome A) (f : A -> outcome B) : outcome B :=
  match m with
  | Ret a => f a
  | Panic => Panic
  | Undef => Undef
  | NoFuel => NoFuel
  end.

Notation "'let!' x ':=' m 'in' k" := (obind m (fun x => k))
  (at level 10, x pattern, m at level 200, k at level 200,
   format "'[v' 'let!'  x  ':='  m  'in' '//' k ']'") : bulb_scope.
#[global] Open Scope bulb_scope.

(** Array accesses: outside the object the behaviour is undefined. *)
Definition lget {A} (l : list A) (i : Z) : outcome A :=
  if i <? 0 then Undef
  else match l !! Z.to_nat i with Some x => Ret x | None => Undef end.

Definition lset {A} (l : list A) (i : Z) (x : A) : outcome (list A) :=
  if (0 <=? i) && (i <? Z.of_nat (length l))
  then Ret (<[Z.to_nat i := x]> l) else Undef.

(** Unsigned division and remainder: undefined for a zero divisor. *)
Definition udiv (x y : Z) : outcome Z := if y =? 0 then Undef else Ret (x / y).
Definition umod (x y : Z) : outcome Z := if y =? 0 then Undef else Ret (x mod y).

(** A list as a total array, with a default outside its range. *)
Definition znth {A} (d : A) (l : list A) (i : Z) : A :=
  default d (l !! Z.to_nat i).

(** How many elements satisfy a boolean test. *)
Fixpoint countb {A} (f : A -> bool) (l : list A) : Z :=
  match l with
  | [] => 0
  | x :: l => b2z (f x) + countb f l
  end.

(** ** Automation *)

Create HintDb bulb.

Ltac deex :=
  repeat match goal with
  | H : exists _, _ |- _ => destruct H
  | H : _ /\ _ |- _ => destruct H
  end.

(** Turns the boolean tests of the code in the context into propositions. *)
Ltac bprop :=
  repeat match goal with
  | H : (_ && _)%bool = true |- _ => apply andb_true_iff in H; destruct H
  | H : (_ || _)%bool = false |- _ => apply orb_false_iff in H; destruct H
  | H : negb _ = true |- _ => apply negb_true_iff in H
  | H : negb _ = false |- _ => apply negb_false_iff in H
  | H : (_ <? _) = true |- _ => apply Z.ltb_lt in H
  | H : (_ <? _) = false |- _ => apply Z.ltb_ge in H
  | H : (_ <=? _) = true |- _ => apply Z.leb_le in H
  | H : (_ <=? _) = false |- _ => apply Z.leb_gt in H
  | H : (_ =? _) = true |- _ => apply Z.eqb_eq in H
  | H : (_ =? _) = false |- _ => apply Z.eqb_neq in H
  end.

(** Case analysis on the first conditional or match of the goal. *)
Ltac bcase :=
  match goal with
  | |- context [if ?b then _ else _] => destruct b eqn:?
  | |- context [match ?x with _ => _ end] => destruct x eqn:?
  end.

(** ** Generic lemmas *)

Section Outcomes.
Context {A B : Type}.

Lemma obind_Ret (a : A) (f : A -> outcome B) : obind (Ret a) f = f a.
Proof. reflexivity. Qed.

Lemma obind_inv (m : outcome A) (f : A -> outcome B) (b : B) :
  obind m f = Ret b -> exists a, m = Ret a /\ f a = Ret b.
Proof. destruct m; simpl; naive_solver. Qed.
End Outcomes.

Lemma lget_Ret {A} (l : list A) (i : Z) (x : A) :
  lget l i = Ret x <-> 0 <= i /\ l !! Z.to_nat i = Some x.
Proof.
  unfold lget. destruct (Z.ltb_spec i 0).
  - split; [done|lia].
  - destruct (l !! Z.to_nat i); naive_solver.
Qed.

Lemma lget_znth {A} (d : A) (l : list A) (i : Z) :
  0 <= i < Z.of_nat (length l) -> lget l i = Ret (znth d l i).
Proof.
  intros Hi. apply lget_Ret. split; [lia|]. unfold znth.
  destruct (lookup_lt_is_Some_2 l (Z.to_nat i)) as [x Hx]; [lia|].
  by rewrite Hx.
Qed.

Lemma lset_Ret {A} (l : list A) (i : Z) (x : A) :
  0 <= i < Z.of_nat (length l) -> lset l i x = Ret (<[Z.to_nat i := x]> l).
Proof.
  intros Hi. unfold lset.
  replace ((0 <=? i) && (i <? Z.of_nat (length l))) with true; [done|].
  symmetry. apply andb_true_iff. split; [apply Z.leb_le|apply Z.ltb_lt]; lia.
Qed.

Lemma lset_inv {A} (l l' : list A) (i : Z) (x : A) :
  lset l i x = Ret l' ->
  0 <= i < Z.of_nat (length l) /\ l' = <[Z.to_nat i := x]> l.
Proof.
  unfold lset. intros H. case_match; simplify_eq.
  bprop. split; [lia|done].
Qed.

Lemma znth_insert {A} (d : A) (l : list A) (i j : Z) (x : A) :
  0 <= i < Z.of_nat (length l) -> 0 <= j ->
  znth d (<[Z.to_nat i := x]> l) j = if i =? j then x else znth d l j.
Proof.
  intros Hi Hj. unfold znth. destruct (Z.eqb_spec i j) as [->|Hne].
  - rewrite list_lookup_insert_eq; [done|lia].
  - rewrite list_lookup_insert_ne; [done|lia].
Qed.

(** A list is the sequence of its elements. *)
Lemma znth_list_eq (l : list Z) (n : nat) :
  length l = n -> map (fun i => znth 0 l (Z.of_nat i)) (seq 0 n) = l.
Proof.
  intros Hl. apply list_eq. intros i. rewrite list_lookup_fmap.
  destruct (decide (i < n)%nat) as [Hi|Hi].
  - rewrite lookup_seq_lt by done. cbn. unfold znth. rewrite Nat2Z.id.
    destruct (lookup_lt_is_Some_2 l i) as [x Hx]; [lia|]. by rewrite Hx.
  - rewrite lookup_seq_ge by lia. cbn. symmetry. apply lookup_ge_None_2. lia.
Qed.

Lemma wrap_small (w x : Z) : 0 <= x < 2 ^ w -> wrap w x = x.
Proof. apply Z.mod_small. Qed.

Lemma wrap_range (w x : Z) : 0 <= w -> 0 <= wrap w x < 2 ^ w.
Proof. intros. apply Z.mod_pos_bound. lia. Qed.

Lemma u32_small (x : Z) : 0 <= x < 2 ^ 32 -> u32 x = x.
Proof. exact (wrap_small 32 x). Qed.

Lemma u32_range (x : Z) : 0 <= u32 x < 2 ^ 32.
Proof. by apply wrap_range. Qed.

Lemma u8_small (x : Z) : 0 <= x < 256 -> u8 x = x.
Proof. exact (wrap_small 8 x). Qed.

Lemma u8_range (x : Z) : 0 <= u8 x < 256.
Proof. by apply (wrap_range 8 x). Qed.

Lemma umod_pos (x y : Z) : y <> 0 -> umod x y = Ret (x mod y).
Proof. intros. unfold umod. by destruct (Z.eqb_spec y 0). Qed.

Lemma udiv_pos (x y : Z) : y <> 0 -> udiv x y = Ret (x / y).
Proof. intros. unfold udiv. by destruct (Z.eqb_spec y 0). Qed.

(** Taking an element out of a list. *)
Definition without {A} `{!EqDecision A} (x : A) (l : list A) : list A := filter (fun y => y <> x) l.

Lemma without_notin {A} `{!EqDecision A} (x : A) (l : list A) : x ∉ l -> without x l = l.
Proof.
  unfold without. induction l as [|y l IH]; intros H; [done|]. apply not_elem_of_cons in H as [H1 H2].
  rewrite filter_cons. by destruct (decide (y <> x)); [rewrite IH|].
Qed.

Lemma without_mid {A} `{!EqDecision A} (x : A) (l1 l2 : list A) :
  x ∉ l1 -> x ∉ l2 -> without x (l1 ++ x :: l2) = l1 ++ l2.
Proof.
  intros H1 H2. unfold without. rewrite filter_app, filter_cons.
  destruct (decide (x <> x)); [done|]. fold (without x l1) (without x l2). by rewrite !without_notin.
Qed.

(** ** Bits *)

Lemma wrap_testbit (w x j : Z) : 0 <= j < w -> Z.testbit (wrap w x) j = Z.testbit x j.
Proof. intros. unfold wrap. by rewrite Z.mod_pow2_bits_low by lia. Qed.

Lemma wrap_testbit_high (w x j : Z) : 0 <= w <= j -> Z.testbit (wrap w x) j = false.
Proof. intros. unfold wrap. by rewrite Z.mod_pow2_bits_high by lia. Qed.

Lemma testbit_one (j k : Z) : 0 <= k -> Z.testbit (Z.shiftl 1 k) j = (j =? k).
Proof.
  intros. rewrite Z.shiftl_1_l.
  destruct (Z.eqb_spec j k) as [->|]; [by apply Z.pow2_bits_true|].
  apply Z.pow2_bits_false. lia.
Qed.

(** Joining a multiple of [2^k] with [k] low bits is an addition. *)
Lemma lor_low (x k y : Z) : 0 <= k -> 0 <= y < 2 ^ k -> Z.lor (x * 2 ^ k) y = x * 2 ^ k + y.
Proof.
  intros Hk Hy. assert (Z.land (x * 2 ^ k) y = 0).
  { apply Z.bits_inj'. intros j Hj. rewrite Z.land_spec, Z.bits_0.
    destruct (decide (j < k)); [by rewrite Z.mul_pow2_bits_low by lia|].
    rewrite (Z.testbit_eqb y) by lia. assert (2 ^ k <= 2 ^ j) by (apply Z.pow_le_mono_r; lia).
    rewrite Z.div_small by lia. apply andb_false_r. }
  by rewrite <- Z.lxor_lor, <- Z.add_nocarry_lxor by done.
Qed.

(** A mask of [k] ones is a remainder, at any width. *)
Lemma land_mask (x k : Z) : 0 <= k -> Z.land x (Z.ones k) = x mod 2 ^ k.
Proof. intros. by apply Z.land_ones. Qed.

(** [(b >> k) & 1] is bit [k] of [b]. *)
Lemma land1_testbit (b k : Z) :
  0 <= k -> negb (Z.land (Z.shiftr b k) 1 =? 0) = Z.testbit b k.
Proof.
  intros. replace (Z.land (Z.shiftr b k) 1) with (Z.b2z (Z.testbit b k)).
  - by destruct (Z.testbit b k).
  - change 1 with (Z.ones 1). rewrite Z.land_ones, Z.shiftr_div_pow2 by lia.
    symmetry. rewrite Z.testbit_spec' by lia. done.
Qed.

(** [v & (1 << i)] is zero when bit [i] of [v] is clear. *)
Lemma land_bit_zero (v i : Z) : 0 <= i -> (Z.land v (Z.shiftl 1 i) =? 0) = negb (Z.testbit v i).
Proof.
  intros Hi. destruct (Z.testbit v i) eqn:E; cbn [negb].
  - apply Z.eqb_neq. intros H. apply (f_equal (fun x => Z.testbit x i)) in H.
    rewrite Z.land_spec, E, testbit_one, Z.eqb_refl, Z.bits_0 in H by lia. done.
  - apply Z.eqb_eq. apply Z.bits_inj'. intros j Hj. rewrite Z.land_spec, Z.bits_0, testbit_one by lia.
    destruct (Z.eqb_spec j i) as [->|]; [by rewrite E|]. apply andb_false_r.
Qed.

(** [~(1 << m)] at 32 bits. *)
(** Small ranges by evaluation. *)
Lemma below_all (n : nat) (f : Z -> bool) (x : Z) :
  forallb (fun k => f (Z.of_nat k)) (seq 0 n) = true -> 0 <= x < Z.of_nat n -> f x = true.
Proof.
  rewrite forallb_forall. intros H Hx. rewrite <- (Z2Nat.id x) by lia. apply H, in_seq. lia.
Qed.

Lemma testbit_bnot (w x k : Z) : 0 <= k < w -> Z.testbit (bnot w x) k = negb (Z.testbit x k).
Proof.
  intros Hk. rewrite <- (wrap_testbit w (bnot w x)) by lia.
  assert (wrap w (bnot w x) = wrap w (Z.lnot x)) as ->.
  { unfold bnot, wrap, Z.lnot. replace (2 ^ w - 1 - x mod 2 ^ w) with (-1 - x mod 2 ^ w + 1 * 2 ^ w) by lia.
    rewrite Z_mod_plus_full, Zminus_mod_idemp_r. f_equal. lia. }
  rewrite wrap_testbit by lia. by rewrite Z.lnot_spec by lia.
Qed.

Lemma testbit_bnot_bit (m k : Z) :
  0 <= m < 32 -> 0 <= k < 32 -> Z.testbit (bnot 32 (Z.shiftl 1 m)) k = negb (k =? m).
Proof.
  intros Hm Hk. unfold bnot. rewrite wrap_small.
  2: { rewrite Z.shiftl_1_l. pose proof (Z.pow_pos_nonneg 2 m). pose proof (Z.pow_le_mono_r 2 m 31). lia. }
  replace (2 ^ 32 - 1) with (Z.ones 32) by done. rewrite Z.sub_nocarry_ldiff.
  - rewrite Z.ldiff_spec, Z.ones_spec_low, testbit_one by lia. done.
  - apply Z.ldiff_ones_r_low; [apply Z.shiftl_nonneg; lia|]. rewrite Z.shiftl_1_l, Z.log2_pow2 by lia. lia.
Qed.

(** A byte that is not [0xFF] has a clear bit. *)
Lemma byte_clear_bit (b : Z) :
  0 <= b < 256 -> b <> 255 -> exists k, 0 <= k < 8 /\ Z.testbit b k = false.
Proof.
  intros Hb Hne.
  assert (H : forall k : nat, (k <= 8)%nat ->
    (exists j, 0 <= j < 8 /\ Z.testbit b j = false) \/
    (forall j, 0 <= j < Z.of_nat k -> Z.testbit b j = true)).
  { induction k as [|k IH]; intros Hk; [right; lia|].
    destruct IH as [?|IH]; [lia|by left|].
    destruct (Z.testbit b (Z.of_nat k)) eqn:E; [|left; exists (Z.of_nat k); split; [lia|done]].
    right. intros j Hj. destruct (decide (j = Z.of_nat k)) as [->|]; [done|]. apply IH. lia. }
  destruct (H 8%nat) as [?|Hall]; [lia|done|]. destruct Hne.
  apply Z.bits_inj'. intros j Hj. destruct (decide (j < 8)).
  - rewrite Hall by lia. change 255 with (Z.ones 8). by rewrite Z.ones_spec_low by lia.
  - rewrite !Z.testbit_eqb by lia.
    assert (2 ^ 8 <= 2 ^ j) by (apply Z.pow_le_mono_r; lia).
    rewrite !Z.div_small by lia. done.
Qed.

Lemma byte_full_bit (k : Z) : 0 <= k < 8 -> Z.testbit 255 k = true.
Proof. intros. change 255 with (Z.ones 8). by apply Z.ones_spec_low. Qed.

Section Counting.
Context {A : Type} (f : A -> bool).

Lemma countb_range (l : list A) : 0 <= countb f l <= Z.of_nat (length l).
Proof. induction l as [|x l IH]; simpl; [lia|]. unfold b2z. destruct (f x); lia. Qed.

Lemma countb_insert (l : list A) (i : nat) (x y : A) :
  l !! i = Some y -> countb f (<[i := x]> l) = countb f l - b2z (f y) + b2z (f x).
Proof.
  revert i. induction l as [|z l IH]; intros [|i] H; simplify_eq/=; [lia|].
  rewrite (IH i) by done. lia.
Qed.

Lemma countb_lt (l : list A) :
  countb f l < Z.of_nat (length l) -> exists i x, l !! i = Some x /\ f x = false.
Proof.
  induction l as [|x l IH]; simpl; [lia|]. intros Hlt.
  destruct (f x) eqn:E; simpl in Hlt.
  - destruct IH as (i & y & ? & ?); [lia|]. by exists (S i), y.
  - by exists 0%nat, x.
Qed.

Lemma countb_replicate (n : nat) (x : A) :
  countb f (replicate n x) = Z.of_nat n * b2z (f x).
Proof. induction n as [|n IH]; simpl; lia. Qed.
End Counting.

(** The keys kept from a list are distinct when equal keys sit at equal places. *)
Lemma NoDup_omap_keys {A K V} (f : A -> option (K * V)) (l : list A) :
  (forall i j x y k v w, l !! i = Some x -> l !! j = Some y ->
     f x = Some (k, v) -> f y = Some (k, w) -> i = j) ->
  NoDup (omap f l).*1.
Proof.
  induction l as [|a l IH]; intros H; simpl; [constructor|].
  assert (NoDup (omap f l).*1).
  { apply IH. intros i j x y k v w Hi Hj Hx Hy.
    apply Nat.succ_inj, (H _ _ x y k v w); done. }
  destruct (f a) as [[k v]|] eqn:E; [|done]. simpl. constructor; [|done].
  intros ([k' w] & -> & (y & Hy & E')%list_elem_of_omap)%list_elem_of_fmap.
  apply list_elem_of_lookup in Hy as [j Hj].
  by specialize (H 0%nat (S j) a y k' v w eq_refl Hj E E').
Qed.

(** Positions of a ring of [c] slots, at a distance from a start slot. *)
Lemma ring_dist (h c p : Z) :
  0 < c -> 0 <= p < c -> (h + (p - h) mod c) mod c = p.
Proof.
  intros Hc Hp. rewrite Zplus_mod_idemp_r. replace (h + (p - h)) with p by lia.
  by apply Z.mod_small.
Qed.

Lemma ring_inj (h cap a b : Z) :
  0 <= a < cap -> 0 <= b < cap -> (h + a) mod cap = (h + b) mod cap -> a = b.
Proof.
  intros Ha Hb E.
  assert (cap <> 0) by lia.
  assert (Hd : (a - b) mod cap = 0).
  { replace (a - b) with ((h + a) - (h + b)) by lia.
    rewrite Zminus_mod, E, Z.sub_diag. apply Zmod_0_l. }
  apply Z.mod_divide in Hd as [k Hk]; [|done].
  assert (-1 < k < 1) by (split; nia). assert (k = 0) as -> by lia. lia.
Qed.

Lemma ring_succ (h j c : Z) : 0 < c -> ((h + j) mod c + 1) mod c = (h + (j + 1)) mod c.
Proof. intros. rewrite Zplus_mod_idemp_l. f_equal. lia. Qed.

(** A ring of [n] blocks of [m] slots each. *)
Lemma ring_scale (m n x r : Z) :
  0 < n -> 0 <= r < m -> (m * x + r) mod (m * n) = m * (x mod n) + r.
Proof.
  intros Hn Hr. symmetry. apply (Zmod_unique _ _ (x / n)).
  - pose proof (Z.mod_pos_bound x n). nia.
  - rewrite (Z.div_mod x n) at 1 by lia. lia.
Qed.

#[export] Hint Resolve u32_range u8_range : bulb.
Create Rewrite HintDb bulb.
#[export] Hint Rewrite @obind_Ret : bulb.

Lemma NoDup_app_cons_middle {A} (l1 l2 : list A) (x : A) :
  NoDup (l1 ++ l2) -> x ∉ l1 ++ l2 -> NoDup (l1 ++ x :: l2).
Proof.
  intros Hnd Hx. rewrite not_elem_of_app in Hx. destruct Hx as [H1 H2].
  apply NoDup_app in Hnd as (N1 & N12 & N2). apply NoDup_app. split_and!; [done| |].
  - intros y Hy. apply not_elem_of_cons. split; [by intros ->|]. by apply N12.
  - by constructor.
Qed.
