(* ===== verification/Cstring.v ===== *)
(** The string and memory routines of src/libc-src/string: C strings as byte
    lists, memory as a map from addresses to bytes. *)

From Stdlib Require Import ZArith Lia.
From stdpp Require Import base numbers list.
From S2P Require Import Prelude.

(** ** Strings *)

(** A [char*] is the list of the bytes from the pointed-to address on; reading
    past the listed bytes gives the terminator.  [cstr] cuts the list at the
    first terminator: the string proper. *)
Fixpoint cstr (s : list Z) : list Z :=
  match s with
  | [] => []
  | c :: s => if c =? 0 then [] else c :: cstr s
  end.

Fixpoint strlen (s : list Z) : Z :=
  match s with
  | [] => 0
  | c :: s => if c =? 0 then 0 else 1 + strlen s
  end.

(** The loop of [strcmp], entered only for strings of the same length. *)
Fixpoint strcmp_loop (a b : list Z) : Z :=
  match a with
  | [] => 0
  | x :: a' =>
      if x =? 0 then 0
      else
        let y := List.hd 0 b in
        if x <? y then -1 else if y <? x then 1 else strcmp_loop a' (List.tl b)
  end.

Definition strcmp (a b : list Z) : Z :=
  if strlen a =? strlen b then strcmp_loop a b else 1.

(** ** Memory *)

Definition mem := Z -> Z.
Definition upd (m : mem) (a v : Z) : mem := fun x => if x =? a then v else m x.

(** [n] bytes at [a], ascending. *)
Definition bytes_at (m : mem) (a : Z) (n : nat) : list Z :=
  map (fun i => m (a + Z.of_nat i)) (seq 0 n).

Fixpoint memset_loop (m : mem) (a v : Z) (i n : nat) : mem :=
  match n with
  | O => m
  | S n => memset_loop (upd m (a + Z.of_nat i) (u8 v)) a v (S i) n
  end.
Definition memset (m : mem) (a v : Z) (n : nat) : mem := memset_loop m a v 0 n.

(** The ascending copy loop shared by [memcpy] and the forward half of
    [memmove]. *)
Fixpoint copy_up (m : mem) (d s : Z) (i n : nat) : mem :=
  match n with
  | O => m
  | S n => copy_up (upd m (d + Z.of_nat i) (m (s + Z.of_nat i))) d s (S i) n
  end.
Definition memcpy (m : mem) (d s : Z) (n : nat) : mem := copy_up m d s 0 n.

Fixpoint copy_down (m : mem) (d s : Z) (n : nat) : mem :=
  match n with
  | O => m
  | S n => copy_down (upd m (d + Z.of_nat n) (m (s + Z.of_nat n))) d s n
  end.
Definition memmove (m : mem) (d s : Z) (n : nat) : mem :=
  if d <? s then copy_up m d s 0 n else copy_down m d s n.

Fixpoint memcmp_loop (m : mem) (a b : Z) (i n : nat) : Z :=
  match n with
  | O => 0
  | S n =>
      let x := m (a + Z.of_nat i) in
      let y := m (b + Z.of_nat i) in
      if x <? y then -1 else if y <? x then 1 else memcmp_loop m a b (S i) n
  end.
Definition memcmp (m : mem) (a b : Z) (n : nat) : Z := memcmp_loop m a b 0 n.

(** ** Strings: lemmas *)

Lemma strlen_cstr (s : list Z) : strlen s = Z.of_nat (length (cstr s)).
Proof. induction s as [|c s IH]; simpl; [done|]. destruct (c =? 0); simpl; lia. Qed.

Lemma strlen_nonneg (s : list Z) : 0 <= strlen s.
Proof. rewrite strlen_cstr. lia. Qed.

Lemma strcmp_loop_eq (a b : list Z) :
  strlen a = strlen b -> (strcmp_loop a b = 0 <-> cstr a = cstr b).
Proof.
  revert b. induction a as [|x a IH]; intros b Hl; simpl in *.
  - rewrite strlen_cstr in Hl. destruct (cstr b); [done|simpl in Hl; lia].
  - pose proof (strlen_nonneg a) as Ha.
    destruct (Z.eqb_spec x 0) as [->|Hx].
    { rewrite strlen_cstr in Hl. destruct (cstr b); [done|simpl in Hl; lia]. }
    destruct b as [|y b]; simpl in *; [lia|].
    destruct (Z.eqb_spec y 0) as [->|Hy]; [lia|].
    destruct (Z.ltb_spec x y); [split; [lia|intros [= ]; lia]|].
    destruct (Z.ltb_spec y x); [split; [lia|intros [= ]; lia]|].
    assert (x = y) as -> by lia. rewrite IH by lia. split; congruence.
Qed.

Lemma strcmp_eq (a b : list Z) : strcmp a b = 0 <-> cstr a = cstr b.
Proof.
  unfold strcmp. destruct (Z.eqb_spec (strlen a) (strlen b)) as [E|E].
  - by apply strcmp_loop_eq.
  - split; [done|]. intros Hc. by rewrite !strlen_cstr, Hc in E.
Qed.

(** ** Memory: lemmas *)

Lemma upd_eq (m : mem) (a v : Z) : upd m a v a = v.
Proof. unfold upd. by rewrite Z.eqb_refl. Qed.

Lemma upd_ne (m : mem) (a v x : Z) : x <> a -> upd m a v x = m x.
Proof. intros. unfold upd. by destruct (Z.eqb_spec x a). Qed.

(** The ascending copy is right whenever no byte is overwritten before it is
    read: the destination starts below the source, or the two are disjoint. *)
Lemma copy_up_spec (n : nat) (m : mem) (d s : Z) (i : nat) (x : Z) :
  d < s \/ s + Z.of_nat i + Z.of_nat n <= d + Z.of_nat i ->
  copy_up m d s i n x =
    if (d + Z.of_nat i <=? x) && (x <? d + Z.of_nat i + Z.of_nat n)
    then m (s + (x - d)) else m x.
Proof.
  revert m i. induction n as [|n IH]; intros m i Hov; cbn [copy_up].
  - destruct (Z.leb_spec (d + Z.of_nat i) x), (Z.ltb_spec x (d + Z.of_nat i + Z.of_nat 0));
      cbn [andb]; auto; lia.
  - rewrite IH by lia.
    destruct (Z.leb_spec (d + Z.of_nat (S i)) x), (Z.leb_spec (d + Z.of_nat i) x);
      try lia;
      destruct (Z.ltb_spec x (d + Z.of_nat (S i) + Z.of_nat n)),
               (Z.ltb_spec x (d + Z.of_nat i + Z.of_nat (S n)));
      cbn [andb]; try lia; try (rewrite upd_ne by lia; done).
    assert (x = d + Z.of_nat i) as -> by lia. rewrite upd_eq. f_equal. lia.
Qed.

(** The descending copy is right when the destination does not start below
    the source, overlapping or not. *)
Lemma copy_down_spec (n : nat) (m : mem) (d s x : Z) :
  s <= d ->
  copy_down m d s n x =
    if (d <=? x) && (x <? d + Z.of_nat n) then m (s + (x - d)) else m x.
Proof.
  intros Hle. revert m. induction n as [|n IH]; intros m; cbn [copy_down].
  - destruct (Z.leb_spec d x), (Z.ltb_spec x (d + Z.of_nat 0)); cbn [andb]; auto; lia.
  - rewrite IH. unfold upd.
    destruct (Z.leb_spec d x) as [Hdx|Hdx]; cbn [andb];
      [|destruct (Z.eqb_spec x (d + Z.of_nat n)); [lia|done]].
    destruct (Z.ltb_spec x (d + Z.of_nat n)), (Z.ltb_spec x (d + Z.of_nat (S n)));
      try lia.
    + destruct (Z.eqb_spec (s + (x - d)) (d + Z.of_nat n)); [lia|done].
    + destruct (Z.eqb_spec x (d + Z.of_nat n)); [f_equal; lia|lia].
    + destruct (Z.eqb_spec x (d + Z.of_nat n)); [lia|done].
Qed.

Lemma memset_loop_spec (n : nat) (m : mem) (a v : Z) (i : nat) (x : Z) :
  memset_loop m a v i n x =
    if (a + Z.of_nat i <=? x) && (x <? a + Z.of_nat i + Z.of_nat n) then u8 v else m x.
Proof.
  revert m i. induction n as [|n IH]; intros m i; cbn [memset_loop].
  - destruct (Z.leb_spec (a + Z.of_nat i) x), (Z.ltb_spec x (a + Z.of_nat i + Z.of_nat 0));
      cbn [andb]; auto; lia.
  - rewrite IH. unfold upd.
    destruct (Z.leb_spec (a + Z.of_nat (S i)) x), (Z.leb_spec (a + Z.of_nat i) x);
      try lia;
      destruct (Z.ltb_spec x (a + Z.of_nat (S i) + Z.of_nat n)),
               (Z.ltb_spec x (a + Z.of_nat i + Z.of_nat (S n)));
      cbn [andb]; try lia; destruct (Z.eqb_spec x (a + Z.of_nat i)); auto; lia.
Qed.

(** [memmove] copies the block as it was before the call, for every
    placement of source and destination, overlapping in either direction,
    and changes no byte outside the destination. *)
Theorem memmove_correct (m : mem) (d s : Z) (n : nat) (x : Z) :
  memmove m d s n x =
    if (d <=? x) && (x <? d + Z.of_nat n) then m (s + (x - d)) else m x.
Proof.
  unfold memmove. destruct (Z.ltb_spec d s).
  - rewrite copy_up_spec by lia. by rewrite !Z.add_0_r.
  - by apply copy_down_spec.
Qed.
