(* ===== verification/Queue.v ===== *)
(** The ring buffer of src/src/utils/queue.c: its representation, its three
    operations, and the proof that it implements a bounded FIFO.  The bounded
    FIFO is the interface [Fifo] that clients (the keyboard driver) use. *)

From Stdlib Require Import ZArith Lia.
From stdpp Require Import base numbers list.
From S2P Require Import Prelude.

(** ** The interface *)

(** What a queue of machine words promises to its clients: every operation
    acts on the abstract contents [fifo_list] as on a list of at most
    [fifo_cap] elements. *)
Class Fifo (Q : Type) := {
  fifo_ok : Q -> Prop;
  fifo_list : Q -> list Z;
  fifo_cap : Q -> Z;
  fifo_push : Q -> Z -> outcome (Z * Q);
  fifo_pop : Q -> outcome Q;
  fifo_top : Q -> outcome Z;
  fifo_size : Q -> Z;
}.

Class FifoLaws (Q : Type) `{Fifo Q} := {
  fifo_size_spec q : fifo_ok q -> fifo_size q = Z.of_nat (length (fifo_list q));
  fifo_push_room q v :
    fifo_ok q -> Z.of_nat (length (fifo_list q)) < fifo_cap q ->
    exists q', fifo_push q v = Ret (0, q') /\ fifo_ok q' /\
      fifo_cap q' = fifo_cap q /\ fifo_list q' = fifo_list q ++ [v];
  fifo_push_full q v :
    fifo_ok q -> fifo_cap q <= Z.of_nat (length (fifo_list q)) ->
    fifo_push q v = Ret (-1, q);
  fifo_pop_spec q :
    fifo_ok q ->
    exists q', fifo_pop q = Ret q' /\ fifo_ok q' /\
      fifo_cap q' = fifo_cap q /\ fifo_list q' = tail (fifo_list q);
  fifo_top_spec q v l :
    fifo_ok q -> fifo_list q = v :: l -> fifo_top q = Ret v;
}.

(** ** The implementation *)

Record queue_t := mk_queue {
  queue : list Z;
  capacity : Z;
  size : Z;
  head : Z;
}.

(** [queue_init capacity]: the two [kmalloc] calls give a header and an array
    of [sizeof(void* )*capacity] bytes (a 32-bit product) whose contents are
    whatever the allocator returned ([garbage]). *)
Definition queue_init (garbage : nat -> Z) (cap : Z) : queue_t :=
  {| queue := map garbage (seq 0 (Z.to_nat (u32 (4 * cap) / 4)));
     capacity := cap; size := 0; head := 0 |}.

Definition queue_push (q : queue_t) (value : Z) : outcome (Z * queue_t) :=
  if capacity q <? u32 (size q + 1) then Ret (-1, q)
  else
    let! idx := umod (u32 (head q + size q)) (capacity q) in
    let! arr := lset (queue q) idx value in
    Ret (0, {| queue := arr; capacity := capacity q;
               size := u32 (size q + 1); head := head q |}).

Definition queue_pop (q : queue_t) : outcome queue_t :=
  if size q =? 0 then Ret q
  else
    let! h := umod (u32 (head q + 1)) (capacity q) in
    Ret {| queue := queue q; capacity := capacity q;
           size := u32 (size q - 1); head := h |}.

Definition queue_top (q : queue_t) : outcome Z := lget (queue q) (head q).

(** ** Representation *)

(** The slot that holds the [i]-th oldest element. *)
Definition slot (q : queue_t) (i : nat) : Z :=
  (head q + Z.of_nat i) mod capacity q.

Definition q_list (q : queue_t) : list Z :=
  map (fun i => znth 0 (queue q) (slot q i)) (seq 0 (Z.to_nat (size q))).

(** Capacities whose array fits the 32-bit address space. *)
Definition queue_ok (q : queue_t) : Prop :=
  0 < capacity q <= 2 ^ 30 /\
  Z.of_nat (length (queue q)) = capacity q /\
  0 <= size q <= capacity q /\
  0 <= head q < capacity q.

#[export] Instance queue_Fifo : Fifo queue_t := {
  fifo_ok := queue_ok;
  fifo_list := q_list;
  fifo_cap := capacity;
  fifo_push := queue_push;
  fifo_pop := queue_pop;
  fifo_top := queue_top;
  fifo_size := size;
}.

(** Client programs over a queue and over the abstract bounded FIFO. *)
Inductive qop :=
| QPush (v : Z)
| QPop
| QTop.

(** What an operation lets its caller observe. *)
Definition q_step (q : queue_t) (o : qop) : outcome (option Z * queue_t) :=
  match o with
  | QPush v => let! (r, q') := queue_push q v in Ret (Some r, q')
  | QPop => let! q' := queue_pop q in Ret (None, q')
  | QTop => let! v := queue_top q in Ret (Some v, q)
  end.

Fixpoint q_run (q : queue_t) (os : list qop) : outcome (list (option Z) * queue_t) :=
  match os with
  | [] => Ret ([], q)
  | o :: os =>
      let! (r, q') := q_step q o in
      let! (rs, q'') := q_run q' os in
      Ret (r :: rs, q'')
  end.

(** What a bounded FIFO list answers. Nothing is said about the value of a peek at
    an empty list. *)
Inductive answer := ANone | AVal (v : Z) | AAny.

Definition agrees (r : option Z) (a : answer) : Prop :=
  match a with ANone => r = None | AVal v => r = Some v | AAny => is_Some r end.

Definition fifo_step (cap : Z) (l : list Z) (o : qop) : answer * list Z :=
  match o with
  | QPush v => if Z.of_nat (length l) <? cap then (AVal 0, l ++ [v])
               else (AVal (-1), l)
  | QPop => (ANone, tail l)
  | QTop => (match l with [] => AAny | v :: _ => AVal v end, l)
  end.

Fixpoint fifo_run (cap : Z) (l : list Z) (os : list qop) : list answer * list Z :=
  match os with
  | [] => ([], l)
  | o :: os =>
      let '(r, l') := fifo_step cap l o in
      let '(rs, l'') := fifo_run cap l' os in
      (r :: rs, l'')
  end.

(** ** Proofs *)

Lemma length_q_list (q : queue_t) :
  queue_ok q -> Z.of_nat (length (q_list q)) = size q.
Proof. intros (_ & _ & ? & _). unfold q_list. rewrite length_map, length_seq. lia. Qed.

Lemma slot_range (q : queue_t) (i : nat) :
  queue_ok q -> 0 <= slot q i < capacity q.
Proof. intros (? & _). apply Z.mod_pos_bound. lia. Qed.

Lemma queue_init_ok (g : nat -> Z) (cap : Z) :
  0 < cap <= 2 ^ 30 - 1 -> queue_ok (queue_init g cap) /\ q_list (queue_init g cap) = [].
Proof.
  intros Hc. split; [|done].
  unfold queue_ok, queue_init; simpl. rewrite length_map, length_seq, u32_small by lia.
  rewrite Z.mul_comm, Z.div_mul by lia. lia.
Qed.

Lemma queue_push_room (q : queue_t) (v : Z) :
  queue_ok q -> size q < capacity q ->
  exists q', queue_push q v = Ret (0, q') /\ queue_ok q' /\
    capacity q' = capacity q /\ q_list q' = q_list q ++ [v].
Proof.
  intros Hok Hroom. pose proof Hok as (Hc & Hl & Hs & Hh).
  unfold queue_push. rewrite !u32_small by lia.
  destruct (Z.ltb_spec (capacity q) (size q + 1)); [lia|].
  rewrite umod_pos by lia. simpl.
  pose proof (Z.mod_pos_bound (head q + size q) (capacity q)) as Hm.
  rewrite lset_Ret by lia. simpl. eexists. split; [done|]. split.
  { unfold queue_ok; simpl. rewrite length_insert. lia. }
  split; [done|]. unfold q_list; simpl.
  replace (Z.to_nat (size q + 1)) with (S (Z.to_nat (size q))) by lia.
  rewrite seq_S, map_app. simpl. f_equal.
  - apply map_ext_in. intros i Hi%in_seq. unfold slot; simpl.
    pose proof (Z.mod_pos_bound (head q + Z.of_nat i) (capacity q)).
    rewrite znth_insert by lia.
    destruct (Z.eqb_spec ((head q + size q) mod capacity q)
                ((head q + Z.of_nat i) mod capacity q)) as [E|]; [|done].
    apply ring_inj in E; lia.
  - f_equal. unfold slot; simpl. rewrite Z2Nat.id by lia.
    rewrite znth_insert by lia. by rewrite Z.eqb_refl.
Qed.

Lemma queue_push_full (q : queue_t) (v : Z) :
  queue_ok q -> capacity q <= size q -> queue_push q v = Ret (-1, q).
Proof.
  intros (Hc & _ & Hs & _) Hf. unfold queue_push. rewrite u32_small by lia.
  destruct (Z.ltb_spec (capacity q) (size q + 1)); [done|lia].
Qed.

Lemma queue_pop_spec (q : queue_t) :
  queue_ok q ->
  exists q', queue_pop q = Ret q' /\ queue_ok q' /\
    capacity q' = capacity q /\ q_list q' = tail (q_list q).
Proof.
  intros Hok. pose proof Hok as (Hc & Hl & Hs & Hh). unfold queue_pop.
  destruct (Z.eqb_spec (size q) 0) as [E|Hne].
  { exists q. repeat split; try done; try lia. unfold q_list. by rewrite E. }
  rewrite !u32_small, umod_pos by lia. simpl. eexists. split; [done|].
  pose proof (Z.mod_pos_bound (head q + 1) (capacity q)).
  split; [unfold queue_ok; simpl; lia|]. split; [done|].
  unfold q_list; simpl.
  replace (Z.to_nat (size q)) with (S (Z.to_nat (size q - 1))) by lia. simpl.
  rewrite <- seq_shift, map_map. apply map_ext. intros i. unfold slot; simpl.
  rewrite Zplus_mod_idemp_l. do 2 f_equal. lia.
Qed.

Lemma queue_top_spec (q : queue_t) (v : Z) (l : list Z) :
  queue_ok q -> q_list q = v :: l -> queue_top q = Ret v.
Proof.
  intros (Hc & Hl & Hs & Hh) E. unfold queue_top. rewrite (lget_znth 0) by lia.
  f_equal. unfold q_list in E. destruct (Z.to_nat (size q)); [done|].
  injection E as E _. unfold slot in E. by rewrite Z.add_0_r, Z.mod_small in E by lia.
Qed.

#[export] Instance queue_FifoLaws : FifoLaws queue_t.
Proof.
  split; simpl.
  - intros q Hok. symmetry. by apply length_q_list.
  - intros q v Hok. rewrite length_q_list by done. by apply queue_push_room.
  - intros q v Hok. rewrite length_q_list by done. by apply queue_push_full.
  - apply queue_pop_spec.
  - apply queue_top_spec.
Qed.

(** The slot at the head is in the array also when the queue is empty. *)
Lemma queue_top_slot (q : queue_t) : queue_ok q -> exists v, queue_top q = Ret v.
Proof. intros (Hc & Hl & Hs & Hh). unfold queue_top. rewrite (lget_znth 0) by lia. by eexists. Qed.

Lemma q_step_refines (q : queue_t) (o : qop) :
  queue_ok q ->
  exists r q', q_step q o = Ret (r, q') /\ agrees r (fst (fifo_step (capacity q) (q_list q) o)) /\
    queue_ok q' /\ capacity q' = capacity q /\
    q_list q' = snd (fifo_step (capacity q) (q_list q) o).
Proof.
  intros Hok. destruct o as [v| |]; simpl.
  - destruct (Z.ltb_spec (Z.of_nat (length (q_list q))) (capacity q)) as [Hlt|Hge].
    + rewrite length_q_list in Hlt by done.
      destruct (queue_push_room q v Hok Hlt) as (q' & -> & ?). eexists _, q'. split; [done|]. by split; [done|].
    + rewrite length_q_list in Hge by done. rewrite queue_push_full by done. by eexists _, q.
  - destruct (queue_pop_spec q Hok) as (q' & -> & ?). eexists _, q'. split; [done|]. by split; [done|].
  - destruct (q_list q) as [|v l] eqn:E.
    + destruct (queue_top_slot q Hok) as [w ->]. eexists _, q. split; [done|]. split; [by eexists|done].
    + rewrite (queue_top_spec q v l Hok E). by eexists _, q.
Qed.

(** C22: every sequence of pushes, pops and peeks run on a ring buffer observes
    what it would observe on a bounded FIFO list holding the same elements: the
    run never leaves the array, the results agree step by step and the final
    contents agree. The one result that is left open is the value of a peek at
    an empty queue, which returns the word in the slot and changes nothing. *)
Theorem queue_refines_fifo (os : list qop) (q : queue_t) :
  queue_ok q ->
  exists rs q', q_run q os = Ret (rs, q') /\ Forall2 agrees rs (fst (fifo_run (capacity q) (q_list q) os)) /\
    queue_ok q' /\ q_list q' = snd (fifo_run (capacity q) (q_list q) os).
Proof.
  revert q. induction os as [|o os IH]; intros q Hok; simpl; [by eexists _, q|].
  destruct (q_step_refines q o Hok) as (r & q1 & -> & Ha & Hok1 & Hc1 & Hl1). simpl.
  destruct (IH q1 Hok1) as (rs & q2 & -> & Hrs & Hok2 & Hl2). simpl.
  rewrite Hc1, Hl1 in *.
  destruct (fifo_step (capacity q) (q_list q) o) as [a l1]. simpl in *.
  destruct (fifo_run (capacity q) l1 os) as [as' l2]. simpl in *. eexists _, q2. split; [done|]. split_and!; [by constructor|done|done].
Qed.

Lemma queue_refines_fifo_witness :
  exists rs q', q_run (queue_init (fun _ => 7) 2) [QTop; QPush 5; QPush 6; QPush 9; QTop; QPop; QTop] = Ret (rs, q') /\
    queue_ok q' /\ q_list q' = [6].
Proof.
  destruct (queue_refines_fifo [QTop; QPush 5; QPush 6; QPush 9; QTop; QPop; QTop] (queue_init (fun _ => 7) 2))
    as (rs & q' & E & _ & H); [apply queue_init_ok; lia|].
  exact (ex_intro _ rs (ex_intro _ q' (conj E H))).
Defined.
