(* ===== verification/HashTable.v ===== *)
(** The open-addressing hash table of src/src/utils/hashtable.c (linear
    probing with tombstones), its refinement to a finite map, and the cases in
    which the code leaves that contract. *)

From Stdlib Require Import ZArith Lia.
From stdpp Require Import base numbers list gmap.
From S2P Require Import Prelude Cstring.

(** ** Data *)

Definition HT_EMPTY : Z := 0.
Definition HT_VALID : Z := 1.
Definition HT_TOMBSTONE : Z := 2.

Definition HT_RESIZE : Z := 1.
Definition HT_PTRKEY : Z := 2.

(** [hash_entry_t]: the key union as its 64-bit content (a [char*] key is its
    low 32 bits), the value pointer and the state word. *)
Record hash_entry_t := mk_entry {
  e_key : Z;
  e_value : Z;
  e_state : Z;
}.

Definition e_zero : hash_entry_t := mk_entry 0 0 HT_EMPTY.

Record hash_table_t := mk_table {
  entries : list hash_entry_t;
  ht_capacity : Z;
  ht_size : Z;
  max_load : Z;
  flag : Z;
}.

Definition HASH_OFFSET : Z := 14695981039346656037.
Definition HASH_PRIME : Z := 1099511628211.

Definition prime_numbers : list Z :=
  [2; 3; 5; 7; 11; 13; 17; 19; 23; 29; 31; 37; 41; 43;
   47; 53; 59; 61; 67; 71; 73; 79; 83; 89; 97; 101; 103;
   107; 109; 113; 127; 131; 137; 139; 149; 151; 157; 163;
   167; 173; 179; 181; 191; 193; 197; 199; 211; 223; 227;
   229; 233; 239; 241; 251; 257; 263; 269; 271; 277; 281;
   283; 293; 307; 311].

Fixpoint find_prime_loop (ps : list Z) (n : Z) : outcome Z :=
  match ps with
  | [] => Panic
  | p :: ps => if n <? p then Ret p else find_prime_loop ps n
  end.
Definition ht_find_prime (n : Z) : outcome Z := find_prime_loop prime_numbers n.

(** ** Operations *)

Definition ht_create (max_size ml fl : Z) : outcome hash_table_t :=
  let! n := udiv (u32 (max_size * 100)) ml in
  let! cap := ht_find_prime n in
  Ret (mk_table (replicate (Z.to_nat cap) e_zero) cap 0 ml fl).

Fixpoint key64_loop (n : nat) (hash key : Z) : Z :=
  match n with
  | O => hash
  | S n => key64_loop n (u64 (Z.lxor hash key * HASH_PRIME)) key
  end.
Definition ht_key64 (key : Z) : Z := key64_loop 8 HASH_OFFSET key.

(** [char] is signed: [*key] is sign-extended to 64 bits before the xor. *)
Fixpoint key32_loop (s : list Z) (hash : Z) : Z :=
  match s with
  | [] => hash
  | c :: s =>
      if c =? 0 then hash
      else key32_loop s (u64 (Z.lxor hash (u64 (s8 c)) * HASH_PRIME))
  end.
Definition ht_key32 (s : list Z) : Z := key32_loop s HASH_OFFSET.

Section Table.

(** The bytes a [char*] key points to. *)
Variable str : Z -> list Z.

(** The array [kmalloc] hands out in [ht_resize]: not initialised. *)
Variable fresh_entries : Z -> list hash_entry_t.

Definition is_ptrkey (t : hash_table_t) : bool :=
  negb (Z.land (flag t) HT_PTRKEY =? 0).
Definition is_resize (t : hash_table_t) : bool :=
  negb (Z.land (flag t) HT_RESIZE =? 0).

Definition ht_key (t : hash_table_t) (key : Z) : Z :=
  if is_ptrkey t then ht_key32 (str (u32 key)) else ht_key64 key.

Definition ht_compare (t : hash_table_t) (e : hash_entry_t) (key : Z) : bool :=
  if is_ptrkey t then strcmp (str (u32 (e_key e))) (str (u32 key)) =? 0
  else e_key e =? key.

(** Assigning the [char*] member leaves the upper half of the union. *)
Definition ht_assign (t : hash_table_t) (e : hash_entry_t) (key : Z) : hash_entry_t :=
  mk_entry (if is_ptrkey t then e_key e - u32 (e_key e) + u32 key else key)
    (e_value e) (e_state e).

Definition with_entries (t : hash_table_t) (es : list hash_entry_t) (sz : Z) :=
  mk_table es (ht_capacity t) sz (max_load t) (flag t).

(** [index] is a [size_t]; the entry inspected is [index % capacity]. *)
Fixpoint ht_get_loop (fuel : nat) (t : hash_table_t) (key index : Z) : outcome Z :=
  match fuel with
  | O => NoFuel
  | S fuel =>
      let! i := umod index (ht_capacity t) in
      let! e := lget (entries t) i in
      if e_state e =? HT_EMPTY then Ret 0
      else if (e_state e =? HT_VALID) && ht_compare t e key then Ret (e_value e)
      else ht_get_loop fuel t key (u32 (index + 1))
  end.

(** The probe sequence has period [capacity]: a loop that inspected that many
    slots without stopping never stops, so [capacity] is enough fuel. *)
Definition probe_fuel (t : hash_table_t) : nat := Z.to_nat (ht_capacity t).

Definition ht_get (t : hash_table_t) (key : Z) : outcome Z :=
  let! index := umod (ht_key t key) (ht_capacity t) in
  ht_get_loop (probe_fuel t) t key index.

(** The slot the loop of [ht_set] stops at, and whether it holds the key. *)
Fixpoint ht_set_loop (fuel : nat) (t : hash_table_t) (key index : Z) :
    outcome (Z * bool) :=
  match fuel with
  | O => NoFuel
  | S fuel =>
      let! i := umod index (ht_capacity t) in
      let! e := lget (entries t) i in
      if e_state e =? HT_VALID then
        if ht_compare t e key then Ret (i, true)
        else ht_set_loop fuel t key (u32 (index + 1))
      else Ret (i, false)
  end.

(** The part of [ht_set] after the load test. *)
Definition ht_insert (t : hash_table_t) (key value : Z) : outcome (Z * hash_table_t) :=
  let! index := umod (ht_key t key) (ht_capacity t) in
  let! (i, found) := ht_set_loop (probe_fuel t) t key index in
  let! e := lget (entries t) i in
  if found then
    let! es := lset (entries t) i (mk_entry (e_key e) value (e_state e)) in
    Ret (0, with_entries t es (ht_size t))
  else
    let e' := ht_assign t e key in
    let sz := if e_state e =? HT_EMPTY then u32 (ht_size t + 1) else ht_size t in
    let! es := lset (entries t) i (mk_entry (e_key e') value HT_VALID) in
    Ret (0, with_entries t es sz).

Fixpoint reinsert (set : hash_table_t -> Z -> Z -> outcome (Z * hash_table_t))
    (t : hash_table_t) (old : list hash_entry_t) : outcome hash_table_t :=
  match old with
  | [] => Ret t
  | e :: old =>
      if e_state e =? HT_VALID then
        let! (r, t') := set t (e_key e) (e_value e) in reinsert set t' old
      else reinsert set t old
  end.

Definition ht_resize_with (set : hash_table_t -> Z -> Z -> outcome (Z * hash_table_t))
    (t : hash_table_t) : outcome hash_table_t :=
  let! cap := ht_find_prime (u32 (ht_capacity t * 2)) in
  reinsert set (mk_table (fresh_entries cap) cap 0 (max_load t) (flag t)) (entries t).

(** [ht_set] and [ht_resize] call each other; [depth] bounds the nesting. *)
Fixpoint ht_set (depth : nat) (t : hash_table_t) (key value : Z) :
    outcome (Z * hash_table_t) :=
  match depth with
  | O => NoFuel
  | S depth =>
      if u32 (ht_capacity t * max_load t) <? u32 (ht_size t * 100) then
        if is_resize t then
          let! t' := ht_resize_with (ht_set depth) t in ht_insert t' key value
        else Ret (-1, t)
      else ht_insert t key value
  end.
Definition ht_resize (depth : nat) (t : hash_table_t) : outcome hash_table_t :=
  ht_resize_with (ht_set depth) t.

(** The slot [ht_remove] stops at: [None] when it meets an empty one. *)
Fixpoint ht_remove_loop (fuel : nat) (t : hash_table_t) (key index : Z) :
    outcome (option Z) :=
  match fuel with
  | O => NoFuel
  | S fuel =>
      let! i := umod index (ht_capacity t) in
      let! e := lget (entries t) i in
      if e_state e =? HT_EMPTY then Ret None
      else if negb (e_state e =? HT_VALID) || negb (ht_compare t e key)
      then ht_remove_loop fuel t key (u32 (index + 1))
      else Ret (Some index)
  end.

Definition ht_remove (t : hash_table_t) (key : Z) : outcome (Z * hash_table_t) :=
  let! index0 := umod (ht_key t key) (ht_capacity t) in
  let! r := ht_remove_loop (probe_fuel t) t key index0 in
  match r with
  | None => Ret (-1, t)
  | Some index =>
      let! i := umod index (ht_capacity t) in
      let! e := lget (entries t) i in
      let e' := ht_assign t e 0 in
      let! n := umod (u32 (index + 1)) (ht_capacity t) in
      let! next := lget (entries t) n in
      if e_state next =? HT_EMPTY then
        let! es := lset (entries t) i (mk_entry (e_key e') (e_value e') HT_EMPTY) in
        Ret (0, with_entries t es (u32 (ht_size t - 1)))
      else
        let! es := lset (entries t) i (mk_entry (e_key e') (e_value e') HT_TOMBSTONE) in
        Ret (0, with_entries t es (ht_size t))
  end.

(** ** The abstract map *)

(** What a key denotes: the string for a [char*] key, the number otherwise. *)
Definition kid (t : hash_table_t) (key : Z) : list Z + Z :=
  if is_ptrkey t then inl (cstr (str (u32 key))) else inr key.

Definition valid_pair (t : hash_table_t) (e : hash_entry_t) : option ((list Z + Z) * Z) :=
  if e_state e =? HT_VALID then Some (kid t (e_key e), e_value e) else None.

Definition ht_map (t : hash_table_t) : gmap (list Z + Z) Z :=
  list_to_map (omap (valid_pair t) (entries t)).

Definition ent (t : hash_table_t) (p : Z) : hash_entry_t := znth e_zero (entries t) p.

Definition home (t : hash_table_t) (key : Z) : Z := ht_key t key mod ht_capacity t.

Definition occupied (e : hash_entry_t) : bool := negb (e_state e =? HT_EMPTY).

(** The invariant of a table: the array has [capacity] entries, [size] counts
    the occupied ones and respects the load bound, every valid entry can be
    reached by probing from its home slot, and no key is stored twice. *)
Record ht_wf (t : hash_table_t) : Prop := {
  wf_cap : 0 < ht_capacity t <= 2 ^ 20;
  wf_len : Z.of_nat (length (entries t)) = ht_capacity t;
  wf_size : ht_size t = countb occupied (entries t);
  wf_load : 0 <= max_load t /\ ht_capacity t * max_load t < 100 * (ht_capacity t - 1);
  wf_room : 100 * (ht_size t - 1) <= ht_capacity t * max_load t;
  wf_probe p j :
    0 <= p < ht_capacity t -> e_state (ent t p) = HT_VALID ->
    0 <= j < (p - home t (e_key (ent t p))) mod ht_capacity t ->
    e_state (ent t ((home t (e_key (ent t p)) + j) mod ht_capacity t)) <> HT_EMPTY;
  wf_uniq p q :
    0 <= p < ht_capacity t -> 0 <= q < ht_capacity t ->
    e_state (ent t p) = HT_VALID -> e_state (ent t q) = HT_VALID ->
    kid t (e_key (ent t p)) = kid t (e_key (ent t q)) -> p = q;
}.

(** A key is stored with a value. *)
Definition maps (t : hash_table_t) (k : list Z + Z) (v : Z) : Prop :=
  exists p, 0 <= p < ht_capacity t /\ e_state (ent t p) = HT_VALID /\
    kid t (e_key (ent t p)) = k /\ e_value (ent t p) = v.

(** The scan shared by the three probing loops: the first index, from [index]
    on, whose entry satisfies [stop]. *)
Fixpoint probe (stop : hash_entry_t -> bool) (fuel : nat) (t : hash_table_t)
    (index : Z) : outcome Z :=
  match fuel with
  | O => NoFuel
  | S fuel =>
      let! i := umod index (ht_capacity t) in
      let! e := lget (entries t) i in
      if stop e then Ret index else probe stop fuel t (u32 (index + 1))
  end.

Definition stop_get (t : hash_table_t) (key : Z) (e : hash_entry_t) : bool :=
  (e_state e =? HT_EMPTY) || ((e_state e =? HT_VALID) && ht_compare t e key).
Definition stop_set (t : hash_table_t) (key : Z) (e : hash_entry_t) : bool :=
  negb (e_state e =? HT_VALID) || ht_compare t e key.

(** ** Keys *)

Lemma key32_loop_cstr (s : list Z) (h : Z) : key32_loop s h = key32_loop (cstr s) h.
Proof.
  revert h. induction s as [|c s IH]; intros h; simpl; [done|].
  destruct (Z.eqb_spec c 0); simpl; [done|].
  destruct (Z.eqb_spec c 0); [done|]. by rewrite IH.
Qed.

Lemma compare_kid (t : hash_table_t) (e : hash_entry_t) (key : Z) :
  ht_compare t e key = true <-> kid t (e_key e) = kid t key.
Proof.
  unfold ht_compare, kid. destruct (is_ptrkey t); rewrite Z.eqb_eq.
  - rewrite strcmp_eq. split; congruence.
  - split; congruence.
Qed.

Lemma home_kid (t : hash_table_t) (a b : Z) : kid t a = kid t b -> home t a = home t b.
Proof.
  unfold kid, home, ht_key, ht_key32. destruct (is_ptrkey t); intros [= E]; [|by subst].
  by rewrite (key32_loop_cstr (str (u32 a))), (key32_loop_cstr (str (u32 b))), E.
Qed.

Lemma assign_kid (t : hash_table_t) (e : hash_entry_t) (key : Z) :
  kid t (e_key (ht_assign t e key)) = kid t key.
Proof.
  unfold kid, ht_assign; simpl. destruct (is_ptrkey t); [|done]. do 3 f_equal.
  unfold u32, wrap. rewrite Zplus_mod_idemp_r, <- (Zplus_mod_idemp_l (_ - _)).
  by rewrite Zminus_mod_idemp_r, Z.sub_diag, Zmod_0_l.
Qed.

(** ** Probing *)

Lemma get_loop_probe (fuel : nat) (t : hash_table_t) (key index : Z) :
  ht_get_loop fuel t key index =
  let! index := probe (stop_get t key) fuel t index in
  let! i := umod index (ht_capacity t) in
  let! e := lget (entries t) i in
  Ret (if e_state e =? HT_EMPTY then 0 else e_value e).
Proof.
  revert index. induction fuel as [|fuel IH]; intros index; simpl; [done|].
  destruct (umod index (ht_capacity t)) as [i| | |] eqn:Ei; simpl; try done.
  destruct (lget (entries t) i) as [e| | |] eqn:Ee; simpl; try done.
  unfold stop_get at 1.
  destruct (e_state e =? HT_EMPTY) eqn:E1; simpl; [by rewrite Ei; simpl; rewrite Ee; simpl; rewrite E1|].
  destruct ((e_state e =? HT_VALID) && ht_compare t e key); simpl; [|apply IH].
  by rewrite Ei; simpl; rewrite Ee; simpl; rewrite E1.
Qed.

Lemma set_loop_probe (fuel : nat) (t : hash_table_t) (key index : Z) :
  ht_set_loop fuel t key index =
  let! index := probe (stop_set t key) fuel t index in
  let! i := umod index (ht_capacity t) in
  let! e := lget (entries t) i in
  Ret (i, e_state e =? HT_VALID).
Proof.
  revert index. induction fuel as [|fuel IH]; intros index; simpl; [done|].
  destruct (umod index (ht_capacity t)) as [i| | |] eqn:Ei; simpl; try done.
  destruct (lget (entries t) i) as [e| | |] eqn:Ee; simpl; try done.
  unfold stop_set at 1.
  destruct (e_state e =? HT_VALID) eqn:E1; simpl;
    [|by rewrite Ei; simpl; rewrite Ee; simpl; rewrite E1].
  destruct (ht_compare t e key); simpl; [|apply IH].
  by rewrite Ei; simpl; rewrite Ee; simpl; rewrite E1.
Qed.

Lemma remove_loop_probe (fuel : nat) (t : hash_table_t) (key index : Z) :
  ht_remove_loop fuel t key index =
  let! index := probe (stop_get t key) fuel t index in
  let! i := umod index (ht_capacity t) in
  let! e := lget (entries t) i in
  Ret (if e_state e =? HT_EMPTY then None else Some index).
Proof.
  revert index. induction fuel as [|fuel IH]; intros index; simpl; [done|].
  destruct (umod index (ht_capacity t)) as [i| | |] eqn:Ei; simpl; try done.
  destruct (lget (entries t) i) as [e| | |] eqn:Ee; simpl; try done.
  unfold stop_get at 1.
  destruct (e_state e =? HT_EMPTY) eqn:E1; simpl; [by rewrite Ei; simpl; rewrite Ee; simpl; rewrite E1|].
  destruct (e_state e =? HT_VALID), (ht_compare t e key); simpl; try apply IH.
  by rewrite Ei; simpl; rewrite Ee; simpl; rewrite E1.
Qed.

Lemma lget_ent (t : hash_table_t) (p : Z) :
  Z.of_nat (length (entries t)) = ht_capacity t ->
  0 <= p < ht_capacity t -> lget (entries t) p = Ret (ent t p).
Proof. intros Hl Hp. apply lget_znth. lia. Qed.

Section Probing.
Context (t : hash_table_t) (stop : hash_entry_t -> bool) (h : Z).
Hypothesis Hcap : 0 < ht_capacity t <= 2 ^ 20.
Hypothesis Hlen : Z.of_nat (length (entries t)) = ht_capacity t.
Hypothesis Hh : 0 <= h < ht_capacity t.

Definition at_dist (j : Z) : hash_entry_t := ent t ((h + j) mod ht_capacity t).

(** The scan stops at the first slot of the probe sequence that satisfies
    [stop], if the first [capacity] slots have one. *)
Lemma probe_from (fuel : nat) (j0 k : Z) :
  0 <= j0 -> j0 + Z.of_nat fuel = ht_capacity t ->
  j0 <= k < ht_capacity t -> stop (at_dist k) = true ->
  exists j, j0 <= j < ht_capacity t /\ probe stop fuel t (h + j0) = Ret (h + j) /\
    stop (at_dist j) = true /\ (forall i, j0 <= i < j -> stop (at_dist i) = false).
Proof.
  revert j0. induction fuel as [|fuel IH]; intros j0 H0 Hf Hk Hs; simpl; [lia|].
  rewrite umod_pos by lia. simpl.
  rewrite lget_ent by (auto; apply Z.mod_pos_bound; lia). simpl.
  change (ent t ((h + j0) mod ht_capacity t)) with (at_dist j0).
  destruct (stop (at_dist j0)) eqn:E.
  { exists j0. repeat split; try done; lia. }
  assert (j0 <> k) by congruence.
  rewrite u32_small by lia. rewrite <- Z.add_assoc.
  destruct (IH (j0 + 1)) as (j & ? & -> & ? & Hall); [lia..|done|].
  exists j. repeat split; try done; [lia..|]. intros i Hi.
  destruct (decide (i = j0)) as [->|]; [done|]. apply Hall. lia.
Qed.

Lemma probe_first (p : Z) :
  0 <= p < ht_capacity t -> stop (ent t p) = true ->
  exists j, 0 <= j < ht_capacity t /\ probe stop (probe_fuel t) t h = Ret (h + j) /\
    stop (at_dist j) = true /\ (forall i, 0 <= i < j -> stop (at_dist i) = false).
Proof.
  intros Hp Hs.
  pose proof (Z.mod_pos_bound (p - h) (ht_capacity t)).
  destruct (probe_from (probe_fuel t) 0 ((p - h) mod ht_capacity t)) as (j & Hj);
    unfold probe_fuel; try lia.
  { unfold at_dist. by rewrite ring_dist by lia. }
  exists j. by rewrite Z.add_0_r in Hj.
Qed.
End Probing.

(** ** The map and the array *)

Lemma ent_lookup (t : hash_table_t) (p : Z) :
  ht_wf t -> 0 <= p < ht_capacity t -> entries t !! Z.to_nat p = Some (ent t p).
Proof.
  intros W Hp. pose proof (wf_len t W). unfold ent, znth.
  destruct (lookup_lt_is_Some_2 (entries t) (Z.to_nat p)) as [e He]; [lia|].
  by rewrite He.
Qed.

Lemma ht_map_maps (t : hash_table_t) (k : list Z + Z) (v : Z) :
  ht_wf t -> (ht_map t !! k = Some v <-> maps t k v).
Proof.
  intros W. unfold ht_map.
  assert (Hin : forall v, (k, v) ∈ omap (valid_pair t) (entries t) <-> maps t k v).
  { intros w. rewrite list_elem_of_omap. unfold valid_pair. split.
    - intros (e & (i & Hi)%list_elem_of_lookup & He). case_match; simplify_eq. bprop.
      pose proof (lookup_lt_Some _ _ _ Hi). pose proof (wf_len t W).
      exists (Z.of_nat i). unfold ent, znth. rewrite Nat2Z.id, Hi. simpl.
      repeat split; try done; lia.
    - intros (p & Hp & Hs & Hk & Hv). exists (ent t p). split.
      + eapply list_elem_of_lookup_2. by apply ent_lookup.
      + rewrite Hs. simpl. congruence. }
  rewrite <- Hin. split; [apply elem_of_list_to_map_2|].
  intros H. apply elem_of_list_to_map_1'; [|done].
  intros w (q & Hq & Hs & Hk & <-)%Hin. apply Hin in H as (p & Hp & Hs' & Hk' & <-).
  assert (p = q) as -> by (eapply wf_uniq; eauto; congruence). done.
Qed.

Lemma wf_NoDup (t : hash_table_t) :
  ht_wf t -> NoDup (omap (valid_pair t) (entries t)).*1.
Proof.
  intros W. apply NoDup_omap_keys. intros i j x y k v w Hi Hj. unfold valid_pair.
  intros Ex Ey. do 2 (case_match; simplify_eq; bprop).
  pose proof (wf_len t W). pose proof (lookup_lt_Some _ _ _ Hi). pose proof (lookup_lt_Some _ _ _ Hj).
  assert (Ei : ent t (Z.of_nat i) = x) by (unfold ent, znth; by rewrite Nat2Z.id, Hi).
  assert (Ej : ent t (Z.of_nat j) = y) by (unfold ent, znth; by rewrite Nat2Z.id, Hj).
  apply Nat2Z.inj, (wf_uniq t W); [lia..| | |]; by rewrite ?Ei, ?Ej.
Qed.

Lemma ht_map_None (t : hash_table_t) (k : list Z + Z) :
  ht_wf t -> (ht_map t !! k = None <-> (forall v, ~ maps t k v)).
Proof.
  intros W. rewrite eq_None_not_Some. split.
  - intros Hn v Hm. apply Hn. exists v. by apply ht_map_maps.
  - intros Hn [v Hv]. apply (Hn v). by apply ht_map_maps.
Qed.

(** A map is what [maps] says. *)
Lemma ht_map_ext (t : hash_table_t) (m : gmap (list Z + Z) Z) :
  ht_wf t -> (forall k v, maps t k v <-> m !! k = Some v) -> ht_map t = m.
Proof.
  intros W Hm. apply map_eq. intros k. apply option_eq. intros v.
  by rewrite ht_map_maps, Hm.
Qed.

Lemma ht_has_empty (t : hash_table_t) :
  ht_wf t -> exists p, 0 <= p < ht_capacity t /\ e_state (ent t p) = HT_EMPTY.
Proof.
  intros W. pose proof (wf_len t W). pose proof (wf_load t W). pose proof (wf_room t W).
  pose proof (wf_size t W).
  destruct (countb_lt occupied (entries t)) as (i & e & Hi & He); [lia|].
  pose proof (lookup_lt_Some _ _ _ Hi).
  exists (Z.of_nat i). split; [lia|]. unfold ent, znth. rewrite Nat2Z.id, Hi. simpl.
  unfold occupied in He. by bprop.
Qed.

Lemma home_range (t : hash_table_t) (key : Z) :
  0 < ht_capacity t -> 0 <= home t key < ht_capacity t.
Proof. intros. by apply Z.mod_pos_bound. Qed.

(** A key whose probe sequence meets an empty slot before any entry with that
    key is not stored. *)
Lemma absent_at_empty (t : hash_table_t) (key j : Z) :
  ht_wf t -> 0 <= j < ht_capacity t ->
  e_state (at_dist t (home t key) j) = HT_EMPTY ->
  (forall k, 0 <= k < j -> e_state (at_dist t (home t key) k) = HT_VALID ->
     ht_compare t (at_dist t (home t key) k) key = false) ->
  ht_map t !! kid t key = None.
Proof.
  intros W Hj He Hall. pose proof (wf_cap t W). apply ht_map_None; [done|].
  intros v (q & Hq & Hqv & Hk & _).
  pose proof (home_kid t _ _ Hk) as Hhk.
  pose proof (wf_probe t W q j Hq Hqv) as Hpb. rewrite Hhk in Hpb.
  set (d := (q - home t key) mod ht_capacity t) in *.
  assert (Hd : (home t key + d) mod ht_capacity t = q) by (apply ring_dist; lia).
  assert (0 <= d < ht_capacity t) by (apply Z.mod_pos_bound; lia).
  unfold at_dist in *.
  destruct (Z.lt_trichotomy j d) as [Hjd|[->|Hjd]].
  - by apply Hpb; [lia|].
  - by rewrite Hd, Hqv in He.
  - specialize (Hall d ltac:(lia)). rewrite Hd in Hall.
    apply compare_kid in Hk. rewrite Hall in Hk; done.
Qed.

(** Where the search for a key ends: at the entry that stores it, or at an
    empty slot when no entry does. *)
Lemma search_spec (t : hash_table_t) (key : Z) :
  ht_wf t ->
  exists j, 0 <= j < ht_capacity t /\
    probe (stop_get t key) (probe_fuel t) t (home t key) = Ret (home t key + j) /\
    (let e := at_dist t (home t key) j in
     (e_state e = HT_EMPTY /\ ht_map t !! kid t key = None) \/
     (e_state e = HT_VALID /\ kid t (e_key e) = kid t key /\
      ht_map t !! kid t key = Some (e_value e))).
Proof.
  intros W. pose proof (wf_cap t W) as Hc. pose proof (wf_len t W) as Hl.
  pose proof (home_range t key ltac:(lia)) as Hh.
  destruct (ht_has_empty t W) as (p & Hp & He).
  destruct (probe_first t (stop_get t key) (home t key) Hc Hl Hh p Hp) as
    (j & Hj & Hpr & Hs & Hall).
  { unfold stop_get. by rewrite He. }
  exists j. split; [done|]. split; [done|]. simpl.
  assert (Hr : 0 <= (home t key + j) mod ht_capacity t < ht_capacity t)
    by (apply Z.mod_pos_bound; lia).
  unfold stop_get in Hs. apply orb_true_iff in Hs as [Hs|[Hs Hcmp]%andb_true_iff]; apply Z.eqb_eq in Hs.
  - left. split; [done|]. apply (absent_at_empty t key j); try done.
    intros k Hk Hkv. specialize (Hall k Hk). unfold stop_get in Hall.
    rewrite Hkv in Hall. exact Hall.
  - right. apply compare_kid in Hcmp.
    split; [done|]. split; [done|].
    apply ht_map_maps; [done|]. by exists ((home t key + j) mod ht_capacity t).
Qed.

(** ** Updating one slot *)

Section Update.
Context (t : hash_table_t) (W : ht_wf t) (i : Z) (e' : hash_entry_t) (sz : Z).
Hypothesis Hi : 0 <= i < ht_capacity t.

Definition updated : hash_table_t :=
  with_entries t (<[Z.to_nat i := e']> (entries t)) sz.

Lemma ent_updated (p : Z) :
  0 <= p -> ent updated p = if i =? p then e' else ent t p.
Proof. intros. pose proof (wf_len t W). apply znth_insert; lia. Qed.

Lemma wf_updated :
  sz = ht_size t - b2z (occupied (ent t i)) + b2z (occupied e') ->
  100 * (sz - 1) <= ht_capacity t * max_load t ->
  (e_state e' = HT_VALID -> forall j, 0 <= j < (i - home t (e_key e')) mod ht_capacity t ->
    e_state (ent t ((home t (e_key e') + j) mod ht_capacity t)) <> HT_EMPTY) ->
  (e_state e' = HT_EMPTY -> forall p j, p <> i -> 0 <= p < ht_capacity t ->
    e_state (ent t p) = HT_VALID ->
    0 <= j < (p - home t (e_key (ent t p))) mod ht_capacity t ->
    (home t (e_key (ent t p)) + j) mod ht_capacity t <> i) ->
  (e_state e' = HT_VALID -> forall p, p <> i -> 0 <= p < ht_capacity t ->
    e_state (ent t p) = HT_VALID -> kid t (e_key (ent t p)) <> kid t (e_key e')) ->
  ht_wf updated.
Proof.
  intros Hsz Hroom HA HB HU.
  assert (HM : forall x, 0 <= x mod ht_capacity t < ht_capacity t)
    by (intros; apply Z.mod_pos_bound; lia).
  split; [exact (wf_cap t W)| | |exact (wf_load t W)|exact Hroom| |].
  - simpl. rewrite length_insert. apply (wf_len t W).
  - simpl. rewrite (countb_insert _ _ _ _ (ent t i)) by (by apply ent_lookup).
    by rewrite <- (wf_size t W).
  - intros p j Hp. change (ht_capacity updated) with (ht_capacity t) in *.
    change (home updated) with (home t).
    pose proof (wf_probe t W p j Hp) as Hpr.
    rewrite (ent_updated p) by lia.
    assert (Heq : forall x, ent updated (x mod ht_capacity t) =
        if i =? x mod ht_capacity t then e' else ent t (x mod ht_capacity t))
      by (intros; apply ent_updated, HM).
    rewrite Heq. destruct (Z.eqb_spec i p) as [->|Hne].
    + intros Hv Hj. case_match; [by rewrite Hv|]. by apply HA.
    + intros Hv Hj. destruct (Z.eqb_spec i ((home t (e_key (ent t p)) + j) mod ht_capacity t));
        [|by apply Hpr].
      intros He. eapply HB; eauto.
  - intros p q Hp Hq. change (ht_capacity updated) with (ht_capacity t) in *.
    change (kid updated) with (kid t).
    rewrite !ent_updated by lia.
    destruct (Z.eqb_spec i p) as [<-|], (Z.eqb_spec i q) as [<-|]; intros Hv Hw Hk; try done.
    + by destruct (HU Hv q).
    + by destruct (HU Hw p).
    + by apply (wf_uniq t W).
Qed.

Lemma maps_updated (k : list Z + Z) (v : Z) :
  maps updated k v <->
    (e_state e' = HT_VALID /\ kid t (e_key e') = k /\ e_value e' = v) \/
    (exists p, p <> i /\ 0 <= p < ht_capacity t /\ e_state (ent t p) = HT_VALID /\
      kid t (e_key (ent t p)) = k /\ e_value (ent t p) = v).
Proof.
  unfold maps. change (ht_capacity updated) with (ht_capacity t).
  change (kid updated) with (kid t). split.
  - intros (p & Hp & Hm). rewrite ent_updated in Hm by lia.
    destruct (Z.eqb_spec i p) as [->|]; [by left|right; by exists p].
  - intros [Hm|(p & Hne & Hp & Hm)].
    + exists i. rewrite ent_updated by lia. by rewrite Z.eqb_refl.
    + exists p. rewrite ent_updated by lia. by destruct (Z.eqb_spec i p).
Qed.
End Update.

(** ** The operations *)

Lemma ht_get_map (t : hash_table_t) (key : Z) :
  ht_wf t -> ht_get t key = Ret (default 0 (ht_map t !! kid t key)).
Proof.
  intros W. pose proof (wf_cap t W). unfold ht_get. rewrite umod_pos by lia.
  rewrite obind_Ret. fold (home t key). rewrite get_loop_probe.
  destruct (search_spec t key W) as (j & Hj & -> & Hcase). cbn [obind].
  rewrite umod_pos by lia. cbn [obind].
  rewrite lget_ent by (try apply (wf_len t W); apply Z.mod_pos_bound; lia). cbn [obind].
  unfold at_dist in Hcase. destruct Hcase as [[-> ->]|(-> & _ & ->)]; done.
Qed.

(** Writing a value over the entry that holds the key. *)
Lemma overwrite_map (t : hash_table_t) (key v i : Z) :
  ht_wf t -> 0 <= i < ht_capacity t ->
  e_state (ent t i) = HT_VALID -> kid t (e_key (ent t i)) = kid t key ->
  let t' := updated t i (mk_entry (e_key (ent t i)) v (e_state (ent t i))) (ht_size t) in
  ht_wf t' /\ ht_map t' = <[kid t key := v]> (ht_map t).
Proof.
  intros W Hi Hv Hs t'.
  assert (W' : ht_wf t').
  { apply wf_updated; try done.
    - unfold occupied; simpl. lia.
    - apply (wf_room t W).
    - intros _ k Hk. by apply (wf_probe t W i).
    - simpl. by rewrite Hv.
    - intros _ q Hne Hq Hqv Hk. apply Hne. by apply (wf_uniq t W). }
  split; [done|].
  apply ht_map_ext; [done|]. intros k w. subst t'. rewrite (maps_updated t W i) by done. simpl.
  destruct (decide (kid t key = k)) as [<-|Hk].
  - rewrite lookup_insert_eq. split; [|by intros [= ->]; left].
    intros [(? & ? & ->)|(q & Hne & Hq & Hqv & Hqk & _)]; [done|].
    destruct Hne. apply (wf_uniq t W); try done. congruence.
  - rewrite lookup_insert_ne, ht_map_maps by done. split.
    + intros [(? & ? & ->)|(q & ? & ?)]; [congruence|by exists q].
    + intros (q & Hq & Hqv & Hqk & Hqw). right. exists q. split; [|done].
      intros ->. congruence.
Qed.

(** Storing a new key at the [j]-th slot of its probe sequence, all earlier
    slots being taken. *)
Lemma store_map (t : hash_table_t) (key v j sz : Z) (e' : hash_entry_t) :
  ht_wf t -> 0 <= j < ht_capacity t -> ht_map t !! kid t key = None ->
  (forall k, 0 <= k < j -> e_state (at_dist t (home t key) k) <> HT_EMPTY) ->
  let i := (home t key + j) mod ht_capacity t in
  e_state (ent t i) <> HT_VALID -> e_state e' = HT_VALID -> e_value e' = v ->
  kid t (e_key e') = kid t key ->
  sz = ht_size t - b2z (occupied (ent t i)) + b2z (occupied e') ->
  100 * (sz - 1) <= ht_capacity t * max_load t ->
  ht_wf (updated t i e' sz) /\ ht_map (updated t i e' sz) = <[kid t key := v]> (ht_map t).
Proof.
  intros W Hj Habs Hall i Hv He' Hval Hke Hsz Hroom.
  pose proof (wf_cap t W). pose proof (home_range t key ltac:(lia)) as Hh.
  assert (Hi : 0 <= i < ht_capacity t) by (apply Z.mod_pos_bound; lia).
  pose proof (home_kid t _ _ Hke) as Hhe.
  rewrite ht_map_None in Habs by done.
  assert (W' : ht_wf (updated t i e' sz)).
  { apply wf_updated; try done.
    - intros _ k. rewrite Hhe. intros Hk.
      assert (Ei : (i - home t key) mod ht_capacity t = j).
      { apply (ring_inj (home t key) (ht_capacity t)); [apply Z.mod_pos_bound; lia|lia|].
        by apply ring_dist; lia. }
      apply Hall. lia.
    - by rewrite He'.
    - intros _ q Hne Hq Hqv Hk. apply (Habs (e_value (ent t q))). exists q.
      split; [done|]. split; [done|]. split; [congruence|done]. }
  split; [done|].
  apply ht_map_ext; [done|]. intros k w. rewrite (maps_updated t W i) by done.
  destruct (decide (kid t key = k)) as [<-|Hk].
  - rewrite lookup_insert_eq. split; [|intros [= <-]; by left].
    intros [(? & ? & <-)|(q & Hne & Hq & Hqv & Hqk & Hqw)]; [congruence|].
    destruct (Habs w). by exists q.
  - rewrite lookup_insert_ne, ht_map_maps by done. split.
    + intros [(? & ? & ?)|(q & ? & ?)]; [congruence|by exists q].
    + intros (q & Hq & Hqv & Hqk & Hqw). right. exists q. split; [|done].
      intros ->. congruence.
Qed.

(** No slot is a tombstone. *)
Definition no_tombstones (t : hash_table_t) : Prop :=
  forall p, 0 <= p < ht_capacity t ->
    e_state (ent t p) = HT_VALID \/ e_state (ent t p) = HT_EMPTY.

(** The relation between a table and the table an operation leaves. *)
Definition same_shape (t t' : hash_table_t) : Prop :=
  ht_capacity t' = ht_capacity t /\ max_load t' = max_load t /\ flag t' = flag t.

Lemma ht_insert_map (t : hash_table_t) (key v : Z) :
  ht_wf t -> 100 * ht_size t <= ht_capacity t * max_load t ->
  ht_map t !! kid t key = None \/ no_tombstones t ->
  exists t', ht_insert t key v = Ret (0, t') /\ ht_wf t' /\
    ht_map t' = <[kid t key := v]> (ht_map t) /\ same_shape t t' /\
    ht_size t' <= ht_size t + 1.
Proof.
  intros W Hroom Htomb. pose proof (wf_cap t W) as Hc. pose proof (wf_len t W) as Hl.
  pose proof (home_range t key ltac:(lia)) as Hh.
  destruct (ht_has_empty t W) as (p & Hp & He).
  destruct (probe_first t (stop_set t key) (home t key) Hc Hl Hh p Hp) as
    (j & Hj & Hpr & Hs & Hall); [unfold stop_set; by rewrite He|].
  unfold ht_insert. rewrite umod_pos by lia. rewrite obind_Ret. fold (home t key).
  rewrite set_loop_probe, Hpr. cbn [obind]. rewrite umod_pos by lia. cbn [obind].
  set (i := (home t key + j) mod ht_capacity t) in *.
  assert (Hi : 0 <= i < ht_capacity t) by (apply Z.mod_pos_bound; lia).
  rewrite lget_ent by done. cbn [obind]. unfold at_dist in Hs. fold i in Hs.
  rewrite lget_ent by done. cbn [obind]. rewrite !lset_Ret by lia.
  unfold stop_set in Hall.
  destruct (Z.eqb_spec (e_state (ent t i)) HT_VALID) as [Hv|Hv]; cbn [obind].
  - unfold stop_set in Hs. rewrite Hv in Hs. apply compare_kid in Hs.
    destruct (overwrite_map t key v i W Hi Hv Hs) as [W' HM].
    eexists. split; [done|]. split; [done|]. split; [done|]. split; [done|]. simpl. lia.
  - assert (Hk : forall k, 0 <= k < j -> e_state (at_dist t (home t key) k) = HT_VALID /\
        ht_compare t (at_dist t (home t key) k) key = false).
    { intros k Hk. specialize (Hall k Hk). bprop. auto. }
    assert (Habs : ht_map t !! kid t key = None).
    { destruct Htomb as [?|Hnt]; [done|]. destruct (Hnt i Hi) as [?|Hie]; [done|].
      apply (absent_at_empty t key j); try done. intros k Hk' _. by apply Hk. }
    set (e' := mk_entry _ v HT_VALID).
    set (sz := if e_state (ent t i) =? HT_EMPTY then u32 (ht_size t + 1) else ht_size t).
    assert (Hsz : 0 <= ht_size t <= ht_capacity t)
      by (rewrite (wf_size t W); pose proof (countb_range occupied (entries t)); lia).
    assert (Esz : sz = ht_size t - b2z (occupied (ent t i)) + b2z (occupied e')).
    { subst sz. unfold occupied at 1. destruct (e_state (ent t i) =? HT_EMPTY); simpl;
        [rewrite u32_small by lia|]; lia. }
    assert (sz <= ht_size t + 1) by (rewrite Esz; unfold b2z; repeat case_match; lia).
    destruct (store_map t key v j sz e' W Hj Habs) as [W' HM]; try done; try lia.
    { intros k Hk'. destruct (Hk k Hk') as [-> _]. done. }
    { apply assign_kid. }
    eexists. split; [done|]. split; [done|]. split; [done|]. split; [done|]. simpl. lia.
Qed.

(** Taking the entry at slot [i] out: the slot becomes [st], which may be
    empty only when the following slot is. *)
Lemma erase_map (t : hash_table_t) (key i sz : Z) (e' : hash_entry_t) :
  ht_wf t -> 0 <= i < ht_capacity t ->
  e_state (ent t i) = HT_VALID -> kid t (e_key (ent t i)) = kid t key ->
  e_state e' <> HT_VALID ->
  (e_state e' = HT_EMPTY -> e_state (ent t ((i + 1) mod ht_capacity t)) = HT_EMPTY) ->
  sz = ht_size t - 1 + b2z (occupied e') ->
  ht_wf (updated t i e' sz) /\ ht_map (updated t i e' sz) = delete (kid t key) (ht_map t).
Proof.
  intros W Hi Hv Hk He' Hnext Hsz. pose proof (wf_cap t W).
  assert (W' : ht_wf (updated t i e' sz)).
  { apply wf_updated; try done.
    - unfold occupied at 1. rewrite Hv. simpl. lia.
    - pose proof (wf_room t W). unfold b2z in Hsz. case_match; lia.
    - intros He p j Hne Hp Hpv Hj E. specialize (Hnext He).
      pose proof (Z.mod_pos_bound (p - home t (e_key (ent t p))) (ht_capacity t)).
      rewrite <- E, ring_succ in Hnext by lia.
      destruct (decide (j + 1 = (p - home t (e_key (ent t p))) mod ht_capacity t)) as [Ed|Hd].
      + rewrite Ed, ring_dist in Hnext by lia. congruence.
      + revert Hnext. apply (wf_probe t W p); [done..|lia]. }
  split; [done|].
  apply ht_map_ext; [done|]. intros k w. rewrite (maps_updated t W i) by done.
  destruct (decide (kid t key = k)) as [<-|Hne].
  - rewrite lookup_delete_eq. split; [|done].
    intros [(? & _)|(q & Hne & Hq & Hqv & Hqk & _)]; [done|].
    destruct Hne. apply (wf_uniq t W); try done. congruence.
  - rewrite lookup_delete_ne, ht_map_maps by done. split.
    + intros [(? & _)|(q & ? & ?)]; [done|by exists q].
    + intros (q & Hq & Hqv & Hqk & Hqw). right. exists q. split; [|done].
      intros ->. congruence.
Qed.

Lemma ht_remove_map (t : hash_table_t) (key : Z) :
  ht_wf t ->
  match ht_map t !! kid t key with
  | None => ht_remove t key = Ret (-1, t)
  | Some _ => exists t', ht_remove t key = Ret (0, t') /\ ht_wf t' /\
      ht_map t' = delete (kid t key) (ht_map t) /\ same_shape t t'
  end.
Proof.
  intros W. pose proof (wf_cap t W) as Hc. pose proof (wf_len t W) as Hl.
  pose proof (home_range t key ltac:(lia)) as Hh.
  unfold ht_remove. rewrite umod_pos by lia. rewrite obind_Ret. fold (home t key).
  rewrite remove_loop_probe.
  destruct (search_spec t key W) as (j & Hj & -> & Hcase). cbn [obind].
  rewrite umod_pos by lia. cbn [obind]. unfold at_dist in Hcase.
  set (i := (home t key + j) mod ht_capacity t) in *.
  assert (Hi : 0 <= i < ht_capacity t) by (apply Z.mod_pos_bound; lia).
  rewrite lget_ent by done. cbn [obind].
  destruct Hcase as [[-> ->]|(Hv & Hk & ->)]; [done|].
  rewrite Hv. cbn [obind Z.eqb HT_VALID HT_EMPTY]. rewrite umod_pos by lia. cbn [obind].
  fold i. rewrite lget_ent by done. cbn [obind].
  rewrite u32_small, umod_pos by lia. cbn [obind].
  rewrite <- Z.add_assoc, <- ring_succ by lia. fold i.
  assert (Hn : 0 <= (i + 1) mod ht_capacity t < ht_capacity t) by (apply Z.mod_pos_bound; lia).
  rewrite lget_ent by done. cbn [obind]. rewrite !lset_Ret by lia. cbn [obind].
  assert (Hpos : 1 <= ht_size t).
  { rewrite (wf_size t W).
    pose proof (countb_insert occupied _ _ e_zero _ (ent_lookup t i W Hi)) as Hci.
    unfold occupied at 3 4 in Hci. rewrite Hv in Hci. simpl in Hci.
    pose proof (countb_range occupied (<[Z.to_nat i := e_zero]> (entries t))). lia. }
  assert (Hle : ht_size t <= ht_capacity t).
  { rewrite (wf_size t W). pose proof (countb_range occupied (entries t)). lia. }
  destruct (Z.eqb_spec (e_state (ent t ((i + 1) mod ht_capacity t))) HT_EMPTY) as [He|He].
  - rewrite u32_small by lia.
    destruct (erase_map t key i (ht_size t - 1)
      (mk_entry (e_key (ht_assign t (ent t i) 0)) (e_value (ht_assign t (ent t i) 0)) HT_EMPTY))
      as [W' HM]; try done; [simpl; lia|]. eexists. split_and!; done.
  - destruct (erase_map t key i (ht_size t)
      (mk_entry (e_key (ht_assign t (ent t i) 0)) (e_value (ht_assign t (ent t i) 0)) HT_TOMBSTONE))
      as [W' HM]; try done; [simpl; lia|]. eexists. split_and!; done.
Qed.

(** The load test on tables of the sizes in use. *)
Lemma load_test (t : hash_table_t) :
  ht_wf t ->
  (u32 (ht_capacity t * max_load t) <? u32 (ht_size t * 100)) =
  (ht_capacity t * max_load t <? ht_size t * 100).
Proof.
  intros W. pose proof (wf_cap t W). pose proof (wf_load t W). pose proof (wf_len t W).
  pose proof (countb_range occupied (entries t)) as Hr. rewrite <- (wf_size t W) in Hr.
  rewrite !u32_small by nia. done.
Qed.

Lemma ht_set_unfold (depth : nat) (t : hash_table_t) (key v : Z) :
  ht_set (S depth) t key v =
  if u32 (ht_capacity t * max_load t) <? u32 (ht_size t * 100) then
    if is_resize t then let! t' := ht_resize depth t in ht_insert t' key v else Ret (-1, t)
  else ht_insert t key v.
Proof. reflexivity. Qed.

Lemma ht_set_load_ok (depth : nat) (t : hash_table_t) (key v : Z) :
  ht_wf t -> 100 * ht_size t <= ht_capacity t * max_load t ->
  ht_set (S depth) t key v = ht_insert t key v.
Proof.
  intros W Hl. cbn [ht_set]. rewrite load_test by done.
  destruct (Z.ltb_spec (ht_capacity t * max_load t) (ht_size t * 100)); [lia|done].
Qed.

Lemma find_prime_gt (ps : list Z) (n p : Z) :
  find_prime_loop ps n = Ret p -> n < p /\ p ∈ ps.
Proof using.
  induction ps as [|q ps IH]; simpl; [done|].
  destruct (Z.ltb_spec n q); [intros [= ->]; split; [done|by left]|].
  intros [? ?]%IH. split; [done|by right].
Qed.

Lemma find_prime_total (n : Z) : n < 311 -> exists p, ht_find_prime n = Ret p.
Proof using.
  assert (H : forall ps, 311 ∈ ps -> n < 311 -> exists p, find_prime_loop ps n = Ret p).
  { induction ps as [|q ps IH]; simpl; [set_solver|]. intros Hin Hn.
    destruct (Z.ltb_spec n q); [by eexists|]. apply IH; [|done].
    apply elem_of_cons in Hin as [Hq|]; [lia|done]. }
  apply H. apply (list_elem_of_lookup_2 _ 63). reflexivity.
Qed.

Lemma primes_bound (p : Z) : p ∈ prime_numbers -> 2 <= p <= 311.
Proof using.
  assert (H : forallb (fun p => (2 <=? p) && (p <=? 311)) prime_numbers = true)
    by reflexivity.
  rewrite list_elem_of_In. intros Hp. rewrite forallb_forall in H.
  specialize (H p Hp). simpl in H. bprop. lia.
Qed.

(** ** Resizing *)

Lemma fresh_wf (cap ml fl : Z) :
  0 < cap <= 2 ^ 20 -> 0 <= ml -> cap * ml < 100 * (cap - 1) ->
  let t := mk_table (replicate (Z.to_nat cap) e_zero) cap 0 ml fl in
  ht_wf t /\ ht_map t = ∅.
Proof.
  intros Hc Hm Hl t.
  assert (He : forall p, ent t p = e_zero).
  { intros p. unfold ent, znth. simpl. destruct (replicate _ _ !! _) eqn:E; [|done].
    by apply lookup_replicate in E as [-> _]. }
  assert (W : ht_wf t).
  { split; simpl; try lia.
    - rewrite length_replicate. lia.
    - rewrite countb_replicate. unfold occupied. simpl. lia.
    - intros p j _. by rewrite He.
    - intros p q _ _. by rewrite He. }
  split; [done|]. apply ht_map_ext; [done|]. intros k v. rewrite lookup_empty.
  split; [|done]. intros (p & _ & Hv & _). by rewrite He in Hv.
Qed.

Definition is_valid (e : hash_entry_t) : bool := e_state e =? HT_VALID.

#[local] Opaque ht_set.

(** Re-inserting a list of entries with pairwise distinct keys into a table
    that has none of them and enough room adds exactly those keys. *)
Lemma reinsert_map (depth : nat) (old : list hash_entry_t) (t : hash_table_t) (K : Z) :
  ht_wf t ->
  NoDup (omap (valid_pair t) old).*1 ->
  (forall k, k ∈ (omap (valid_pair t) old).*1 -> ht_map t !! k = None) ->
  ht_size t + countb is_valid old <= K ->
  100 * (K - 1) <= ht_capacity t * max_load t ->
  exists t', reinsert (ht_set (S depth)) t old = Ret t' /\ ht_wf t' /\ same_shape t t' /\
    ht_map t' = list_to_map (omap (valid_pair t) old) ∪ ht_map t /\ ht_size t' <= K.
Proof.
  revert t. induction old as [|e old IH]; intros t W Hnd Habs HK Hload; simpl.
  { exists t. split_and!; try done; [by rewrite (left_id_L ∅ (∪))|]. simpl in HK. lia. }
  pose proof (countb_range is_valid old) as Hcr.
  simpl in Hnd, Habs, HK. unfold is_valid at 1 in HK. unfold valid_pair at 1.
  unfold valid_pair at 1 in Hnd. unfold valid_pair at 1 in Habs.
  destruct (e_state e =? HT_VALID) eqn:Ev; simpl in *; [|apply IH; done || lia].
  apply NoDup_cons in Hnd as [Hni Hnd].
  rewrite ht_set_load_ok by (try done; lia).
  destruct (ht_insert_map t (e_key e) (e_value e) W) as (t1 & -> & W1 & HM1 & Hsh & Hs1);
    [lia|left; apply Habs; by left|]. simpl.
  assert (Hvp : valid_pair t1 = valid_pair t).
  { destruct Hsh as (_ & _ & Hf). unfold valid_pair, kid, is_ptrkey. by rewrite Hf. }
  destruct Hsh as (Hc & Hm & Hf).
  destruct (IH t1 W1) as (t2 & -> & W2 & (Hc2 & Hm2 & Hf2) & HM2 & Hs2);
    [by rewrite Hvp| |lia|rewrite Hc, Hm; lia|].
  { intros k Hk. rewrite Hvp in Hk. rewrite HM1, lookup_insert_ne.
    - apply Habs. by right.
    - intros <-. done. }
  exists t2. split; [done|]. split; [done|]. split; [split_and!; congruence|]. split; [|done].
  rewrite HM2, HM1, Hvp. rewrite <- insert_union_r by (by apply not_elem_of_list_to_map).
  by rewrite insert_union_l.
Qed.
#[local] Transparent ht_set.

Lemma valid_le_occupied (l : list hash_entry_t) : countb is_valid l <= countb occupied l.
Proof.
  induction l as [|e l IH]; simpl; [lia|]. unfold is_valid at 1, occupied at 1.
  destruct (Z.eqb_spec (e_state e) HT_VALID) as [->|]; simpl; [lia|].
  unfold b2z. case_match; lia.
Qed.

(** A resize keeps the map and leaves room for one more entry. *)
Lemma ht_resize_map (depth : nat) (t : hash_table_t) :
  ht_wf t -> ht_capacity t <= 155 -> 100 <= (ht_capacity t + 1) * max_load t ->
  (forall c, fresh_entries c = replicate (Z.to_nat c) e_zero) ->
  exists t', ht_resize (S depth) t = Ret t' /\ ht_wf t' /\ ht_map t' = ht_map t /\
    2 * ht_capacity t < ht_capacity t' /\ max_load t' = max_load t /\ flag t' = flag t /\
    100 * ht_size t' <= ht_capacity t' * max_load t'.
Proof.
  intros W Hc Hml Hfresh. pose proof (wf_cap t W). pose proof (wf_load t W) as [? Hload].
  unfold ht_resize, ht_resize_with. rewrite (u32_small (ht_capacity t * 2)) by lia.
  destruct (find_prime_total (ht_capacity t * 2)) as [cap Hp]; [lia|]. rewrite Hp.
  destruct (find_prime_gt _ _ _ Hp) as [Hgt Hin]. apply primes_bound in Hin. cbn [obind].
  rewrite Hfresh.
  destruct (fresh_wf cap (max_load t) (flag t)) as [W0 HM0]; [lia..|nia|].
  set (t0 := mk_table _ cap 0 (max_load t) (flag t)) in *.
  pose proof (wf_room t W) as Hroom. pose proof (valid_le_occupied (entries t)) as Hvo.
  rewrite <- (wf_size t W) in Hvo.
  assert (Hvp : valid_pair t0 = valid_pair t) by done.
  destruct (reinsert_map depth (entries t) t0 (ht_size t) W0) as
    (t' & Hr & W' & (Hc' & Hm' & Hf') & HM' & Hs').
  - rewrite Hvp. by apply wf_NoDup.
  - intros k _. by rewrite HM0.
  - simpl. lia.
  - simpl. nia.
  - exists t'. split; [done|]. split; [done|]. split.
    + rewrite HM', HM0, (right_id_L ∅ (∪)). done.
    + rewrite Hc', Hm'. simpl in *. split_and!; try done; nia.
Qed.

(** ** The contract of the table *)

(** C11: On a well-formed table every lookup terminates with the value the
    abstract map has for the key, [NULL] when it has none; a removal deletes
    exactly that key, or returns [-1] and changes nothing; and a store on a
    table below its load bound binds the key, when the key is not bound yet or
    the table has no tombstone. All three keep the table well formed. *)
Theorem hash_table_refines_map (depth : nat) (t : hash_table_t) (key v : Z) :
  ht_wf t ->
  ht_get t key = Ret (default 0 (ht_map t !! kid t key)) /\
  (ht_map t !! kid t key = None -> ht_remove t key = Ret (-1, t)) /\
  (is_Some (ht_map t !! kid t key) -> exists t', ht_remove t key = Ret (0, t') /\
     ht_wf t' /\ ht_map t' = delete (kid t key) (ht_map t)) /\
  (100 * ht_size t <= ht_capacity t * max_load t ->
   ht_map t !! kid t key = None \/ no_tombstones t ->
   exists t', ht_set (S depth) t key v = Ret (0, t') /\ ht_wf t' /\
     ht_map t' = <[kid t key := v]> (ht_map t)) /\
  (ht_capacity t * max_load t < 100 * ht_size t -> is_resize t = false ->
   ht_set (S depth) t key v = Ret (-1, t)).
Proof.
  intros W. pose proof (ht_remove_map t key W) as HR. split_and!.
  - by apply ht_get_map.
  - intros Hn. by rewrite Hn in HR.
  - intros [w Hw]. rewrite Hw in HR. destruct HR as (t' & ? & ? & ? & _). by exists t'.
  - intros Hl Ht. rewrite ht_set_load_ok by done.
    destruct (ht_insert_map t key v W Hl Ht) as (t' & ? & ? & ? & _). by exists t'.
  - intros Hl Hr. cbn [ht_set]. rewrite load_test by done.
    destruct (Z.ltb_spec (ht_capacity t * max_load t) (ht_size t * 100)); [by rewrite Hr|lia].
Qed.

(** A store on a table above its load bound whose flags allow resizing
    moves every binding to a table of more than twice the capacity and then
    binds the key, provided the memory of the new array is zeroed, the
    capacity is within the table of primes and the load factor leaves room. *)
Theorem ht_set_resizes (depth : nat) (t : hash_table_t) (key v : Z) :
  ht_wf t -> is_resize t = true ->
  ht_capacity t * max_load t < 100 * ht_size t ->
  ht_capacity t <= 155 -> 100 <= (ht_capacity t + 1) * max_load t ->
  (forall c, fresh_entries c = replicate (Z.to_nat c) e_zero) ->
  ht_map t !! kid t key = None ->
  exists t', ht_set (S (S depth)) t key v = Ret (0, t') /\ ht_wf t' /\
    2 * ht_capacity t < ht_capacity t' /\
    ht_map t' = <[kid t key := v]> (ht_map t).
Proof.
  intros W Hr Hl Hc Hml Hf Hn.
  destruct (ht_resize_map depth t W Hc Hml Hf) as (t1 & Ht1 & W1 & HM1 & Hc1 & _ & Hf1 & Hl1).
  assert (Hk : kid t1 key = kid t key) by (unfold kid, is_ptrkey; by rewrite Hf1).
  destruct (ht_insert_map t1 key v W1 Hl1) as (t2 & Ht2 & W2 & HM2 & (Hc2 & _) & _);
    [left; by rewrite HM1, Hk|].
  exists t2. split_and!; [|done|lia|by rewrite HM2, HM1, Hk].
  rewrite ht_set_unfold, load_test by done.
  destruct (Z.ltb_spec (ht_capacity t * max_load t) (ht_size t * 100)); [|lia].
  by rewrite Hr, Ht1.
Qed.

(** A table made by [ht_create] is empty and well formed, and its
    capacity is large enough that [max_size] distinct keys stay below the
    load bound. *)
Theorem ht_create_ok (max_size ml fl : Z) (t : hash_table_t) :
  0 <= max_size < 2 ^ 25 -> 0 < ml -> ht_create max_size ml fl = Ret t ->
  ht_capacity t * ml < 100 * (ht_capacity t - 1) ->
  ht_wf t /\ ht_map t = ∅ /\ flag t = fl /\ 100 * max_size < ht_capacity t * max_load t.
Proof using str.
  intros Hs Hm. unfold ht_create. rewrite u32_small, udiv_pos by lia. cbn [obind].
  intros (cap & Hp & [= <-])%obind_inv. simpl. intros Hl.
  destruct (find_prime_gt _ _ _ Hp) as [Hgt Hin]. apply primes_bound in Hin.
  destruct (fresh_wf cap ml fl) as [W HM]; [lia..|].
  split_and!; try done.
  pose proof (Z.mul_succ_div_gt (max_size * 100) ml Hm). nia.
Qed.
End Table.

(** ** Concrete tables *)

Definition no_str (_ : Z) : list Z := [0].
Definition zeroed (c : Z) : list hash_entry_t := replicate (Z.to_nat c) e_zero.

(** What [kmalloc] may return when the heap was used before. *)
Definition dirty (c : Z) : list hash_entry_t :=
  replicate (Z.to_nat c) (mk_entry 12345 0 HT_VALID).

Definition small_table (cap ml fl : Z) : hash_table_t := mk_table (zeroed cap) cap 0 ml fl.

(** A table with one binding, as [ht_set] makes it. *)
Definition one_entry (cap ml fl key v : Z) : hash_table_t :=
  match ht_insert no_str (small_table cap ml fl) key v with
  | Ret (_, t) => t
  | _ => small_table cap ml fl
  end.

Lemma one_entry_wf (cap ml fl key v : Z) :
  0 < cap <= 2 ^ 20 -> 0 <= ml -> cap * ml < 100 * (cap - 1) ->
  ht_wf no_str (one_entry cap ml fl key v) /\
  ht_map no_str (one_entry cap ml fl key v) = {[kid no_str (small_table cap ml fl) key := v]}.
Proof.
  intros Hc Hm Hl. destruct (fresh_wf no_str cap ml fl Hc Hm Hl) as [W HM].
  destruct (ht_insert_map no_str (small_table cap ml fl) key v W) as (t & Ht & Wt & HMt & _).
  - simpl. nia.
  - left. unfold small_table, zeroed. by rewrite HM.
  - unfold one_entry. rewrite Ht. split; [done|]. rewrite HMt.
    unfold small_table, zeroed. by rewrite HM.
Qed.

Lemma hash_table_refines_map_witness :
  let t := one_entry 7 75 0 42 1000 in
  ht_get no_str t 42 = Ret 1000 /\ ht_get no_str t 43 = Ret 0.
Proof.
  destruct (one_entry_wf 7 75 0 42 1000) as [W HM]; [lia..|].
  destruct (hash_table_refines_map no_str zeroed 0 _ 42 0 W) as [H1 _].
  destruct (hash_table_refines_map no_str zeroed 0 _ 43 0 W) as [H2 _].
  split; [rewrite H1|rewrite H2]; rewrite HM; reflexivity.
Defined.

Lemma ht_set_resizes_witness :
  exists t', ht_set no_str zeroed 2 (one_entry 2 40 HT_RESIZE 1 10) 2 20 = Ret (0, t') /\
    ht_wf no_str t' /\ 2 * ht_capacity (one_entry 2 40 HT_RESIZE 1 10) < ht_capacity t'.
Proof.
  destruct (one_entry_wf 2 40 HT_RESIZE 1 10) as [W HM]; [lia..|].
  destruct (ht_set_resizes no_str zeroed 0 (one_entry 2 40 HT_RESIZE 1 10) 2 20 W)
    as (t' & H1 & H2 & H3 & _); [by vm_compute..|done|by rewrite HM|].
  exact (ex_intro _ t' (conj H1 (conj H2 H3))).
Defined.

Lemma ht_create_ok_witness :
  exists t, ht_create 50 75 0 = Ret t /\ ht_wf no_str t /\ ht_map no_str t = ∅ /\
    100 * 50 < ht_capacity t * max_load t.
Proof.
  eexists. split; [reflexivity|].
  destruct (ht_create_ok no_str 50 75 0 (small_table 67 75 0)) as (H1 & H2 & _ & H3);
    [lia|lia|reflexivity|reflexivity|]. done.
Defined.

(** Storing a bound key again can leave two entries for it. Keys 1 and 4
    share their home slot in a table of capacity 7: after [4] is removed its
    slot is a tombstone, the second store of [1] takes it without looking
    further, and the removal of [1] then uncovers the value stored first. *)
Theorem ht_set_duplicates_key :
  (let! t := ht_create 4 75 0 in
   let! (_, t) := ht_set no_str zeroed 1 t 4 40 in
   let! (_, t) := ht_set no_str zeroed 1 t 1 10 in
   let! (_, t) := ht_remove no_str t 4 in
   let! (_, t) := ht_set no_str zeroed 1 t 1 11 in
   let! v := ht_get no_str t 1 in
   let! (r, t) := ht_remove no_str t 1 in
   let! v' := ht_get no_str t 1 in
   Ret (v, r, v')) = Ret (11, 0, 10).
Proof. vm_compute. reflexivity. Qed.

(** [ht_resize] never clears the array it gets from [kmalloc]: when that
    memory holds what reads as valid entries, the store that triggered the
    resize probes forever. *)
Theorem ht_resize_uninitialised (depth : nat) :
  ht_set no_str dirty (S (S depth)) (one_entry 2 40 HT_RESIZE 1 10) 2 20 = NoFuel.
Proof. reflexivity. Qed.
