(* ===== verification/Frames.v ===== *)
(** The contract between the physical-memory allocator and its client, the
    paging code: frames are numbered, an allocation hands out the address of a
    frame that was free and takes it out of the free set, and [NULL] (0) is
    returned only when no frame is free. *)

From Stdlib Require Import ZArith.
From stdpp Require Import base.
From S2P Require Import Prelude.

Class FrameAllocator (st : Type) := {
  frame_alloc : st -> outcome (Z * st);
  frame_ok : st -> Prop;
  frame_free : st -> Z -> Prop;
  frame_alloc_spec s : frame_ok s ->
    (exists f s', frame_alloc s = Ret (f * 4096, s') /\ frame_free s f /\ frame_ok s' /\
       forall g, frame_free s' g <-> frame_free s g /\ g <> f) \/
    (exists s', frame_alloc s = Ret (0, s') /\ forall g, ~ frame_free s g);
  frame_range s f : frame_ok s -> frame_free s f -> 0 < f < 2 ^ 20;
}.
