(* ===== verification/Pmm.v ===== *)
(** The physical page-frame allocator of src/src/kernel/memory/pmm.c: the
    bitmap, the two search loops of [pmm_alloc], [pmm_free], and the set-up
    of the bitmap from the multiboot memory map. *)

From Stdlib Require Import ZArith Lia.
From stdpp Require Import base numbers list.
From S2P Require Import Prelude Frames.

(** ** Data *)

Definition BIT32_MAX : Z := 2 ^ 32 - 1.
Definition PAGE_FRAME_SIZE : Z := 4096.
Definition UPPER_MEMORY_START : Z := 0x100000.
Definition KERNEL_OFFSET : Z := 0xC0000000.

(** The static variables of the file, [last_alloc] of [pmm_alloc] included.
    The bitmap object is the [bitmap_size] bytes that [pmm_init] sets up. *)
Record pmm := mk_pmm {
  mem_bitmap : list Z;
  num_of_pages : Z;
  last_alloc : Z;
}.

Definition with_bitmap (s : pmm) (b : list Z) : pmm := mk_pmm b (num_of_pages s) (last_alloc s).

(** ** Single bits *)

(** The byte a page's bit is in, and the bit's position. *)
Definition pmm_index_to_bitmap_ptr (page_index : Z) : Z * Z :=
  (page_index / 8, u8 (page_index mod 8)).

Definition pmm_set_bit (s : pmm) (page_index : Z) : outcome pmm :=
  let (page, bit) := pmm_index_to_bitmap_ptr page_index in
  let! b := lget (mem_bitmap s) page in
  let! bm := lset (mem_bitmap s) page (u8 (Z.lor b (Z.shiftl 1 bit))) in
  Ret (with_bitmap s bm).

Definition pmm_clear_bit (s : pmm) (page_index : Z) : outcome pmm :=
  let (page, bit) := pmm_index_to_bitmap_ptr page_index in
  let! b := lget (mem_bitmap s) page in
  let! bm := lset (mem_bitmap s) page (u8 (Z.land b (Z.lnot (Z.shiftl 1 bit)))) in
  Ret (with_bitmap s bm).

Definition pmm_is_set (s : pmm) (page_index : Z) : outcome bool :=
  let (page, bit) := pmm_index_to_bitmap_ptr page_index in
  let! b := lget (mem_bitmap s) page in
  Ret (negb (Z.land (Z.shiftr b bit) 1 =? 0)).

(** ** Searching *)

Definition pmm_add (s : pmm) (last value : Z) : outcome Z :=
  umod (u32 (last + value)) (num_of_pages s).

(** The 32-bit little-endian word with a page's bit. *)
Definition pmm_get_dword (s : pmm) (page_index : Z) : outcome Z :=
  let o := page_index / 32 * 4 in
  let! b0 := lget (mem_bitmap s) o in
  let! b1 := lget (mem_bitmap s) (o + 1) in
  let! b2 := lget (mem_bitmap s) (o + 2) in
  let! b3 := lget (mem_bitmap s) (o + 3) in
  Ret (b0 + 2 ^ 8 * b1 + 2 ^ 16 * b2 + 2 ^ 24 * b3).

(** First loop: [None] when it is back at [start]. *)
Fixpoint search_dword (fuel : nat) (s : pmm) (start last : Z) : outcome (option Z) :=
  match fuel with
  | O => NoFuel
  | S fuel =>
      let! page := pmm_get_dword s last in
      if page =? BIT32_MAX then
        let! last := pmm_add s last 32 in
        if last =? start then Ret None else search_dword fuel s start last
      else Ret (Some last)
  end.

(** Second loop. *)
Fixpoint search_bit (fuel : nat) (s : pmm) (last : Z) : outcome Z :=
  match fuel with
  | O => NoFuel
  | S fuel =>
      let! b := pmm_is_set s last in
      if b then let! last := pmm_add s last 1 in search_bit fuel s last
      else Ret last
  end.

(** Both loops move round a ring of [num_of_pages] pages; that many turns
    visit every page the loop can visit. *)
Definition search_fuel (s : pmm) : nat := S (Z.to_nat (num_of_pages s)).

Definition pmm_search_free_page (s : pmm) (last : Z) : outcome Z :=
  let! r := search_dword (search_fuel s) s last last in
  match r with
  | None => Ret BIT32_MAX
  | Some last => search_bit (search_fuel s) s last
  end.

(** Returns the physical address of the frame, [NULL] (0) when there is none. *)
Definition pmm_alloc (s : pmm) : outcome (Z * pmm) :=
  let! last := pmm_search_free_page s (last_alloc s) in
  let s := mk_pmm (mem_bitmap s) (num_of_pages s) last in
  if last =? BIT32_MAX then Ret (0, s)
  else
    let! s := pmm_set_bit s last in
    Ret (u32 (last * PAGE_FRAME_SIZE), s).

Definition pmm_free (s : pmm) (page : Z) : outcome pmm :=
  pmm_clear_bit s (page / PAGE_FRAME_SIZE).

(** ** Start-up *)

Definition MULTIBOOT_INFO_MEMORY : Z := 1.
Definition MULTIBOOT_INFO_MEM_MAP : Z := 64.
Definition MULTIBOOT_MEM_AVAILABLE : Z := 1.

Record mb_mmap_entry_t := mk_mmap {
  addr_low : Z; addr_high : Z; len_low : Z; len_high : Z; mm_type : Z;
}.

(** The fields of [multiboot_info_t] the allocator reads; [mmap_entries] is
    the array at [mmap_addr], [mmap_length / sizeof(mb_mmap_entry_t)] long. *)
Record multiboot_info_t := mk_mbinfo {
  mb_flags : Z; mem_lower : Z; mem_upper : Z; mmap_entries : list mb_mmap_entry_t;
}.

Definition pmm_detect_upper_memory_size (mb : multiboot_info_t) : outcome Z :=
  if Z.land (mb_flags mb) MULTIBOOT_INFO_MEMORY =? 0 then Panic else Ret (mem_upper mb).

Definition pmm_detect_mmap_ptr (mb : multiboot_info_t) : outcome (list mb_mmap_entry_t) :=
  if Z.land (mb_flags mb) MULTIBOOT_INFO_MEM_MAP =? 0 then Panic else Ret (mmap_entries mb).

(** [for (; bit <= end; ++bit) pmm_clear_bit(bit);] *)
Fixpoint clear_loop (fuel : nat) (s : pmm) (bit end_ : Z) : outcome pmm :=
  match fuel with
  | O => NoFuel
  | S fuel =>
      if bit <=? end_ then
        let! s := pmm_clear_bit s bit in clear_loop fuel s (u32 (bit + 1)) end_
      else Ret s
  end.

(** One turn of the loop of [pmm_setup_bitmap]. The message printed for the
    entry indexes a two-element array of names with [type - 1]. *)
Definition setup_entry (occupied_size : Z) (s : pmm) (e : mb_mmap_entry_t) : outcome pmm :=
  let addr := u64 (addr_low e + Z.shiftl (addr_high e) 32) in
  let size := u64 (len_low e + Z.shiftl (len_high e) 32) in
  let! _ := lget [tt; tt] (mm_type e - 1) in
  if addr <? UPPER_MEMORY_START then Ret s
  else if negb (mm_type e =? MULTIBOOT_MEM_AVAILABLE) then Ret s
  else
    let '(addr, size) :=
      if addr =? UPPER_MEMORY_START
      then (u64 (addr + occupied_size), u64 (size - occupied_size)) else (addr, size) in
    let bit := u32 (addr / PAGE_FRAME_SIZE) in
    let end_ := u32 (u64 (addr + size) / PAGE_FRAME_SIZE + 1) in
    clear_loop (S (S (Z.to_nat (end_ - bit)))) s bit end_.

Fixpoint pmm_setup_bitmap (s : pmm) (mmap : list mb_mmap_entry_t) (occupied_size : Z) :
    outcome pmm :=
  match mmap with
  | [] => Ret s
  | e :: mmap =>
      let! s := setup_entry occupied_size s e in pmm_setup_bitmap s mmap occupied_size
  end.

(** [kernel_start], [kernel_end]: the addresses of the linker symbols. *)
Definition pmm_init (mb : multiboot_info_t) (kernel_start kernel_end : Z) : outcome pmm :=
  let! upper := pmm_detect_upper_memory_size mb in
  let memory_size := u32 (upper + Z.shiftr UPPER_MEMORY_START 10) in
  let pages := Z.shiftr memory_size 2 in
  let bitmap_size := Z.shiftr pages 3 in
  let kernel_size := u32 (kernel_end - (kernel_start + KERNEL_OFFSET)) in
  let total_size := u32 (bitmap_size + kernel_size + kernel_start) in
  let s := mk_pmm (replicate (Z.to_nat bitmap_size) 0xFF) pages 0 in
  let! mmap := pmm_detect_mmap_ptr mb in
  pmm_setup_bitmap s mmap total_size.

(** ** The set of free frames *)

Definition bit_of (s : pmm) (p : Z) : bool := Z.testbit (znth 0xFF (mem_bitmap s) (p / 8)) (p mod 8).

(** A frame is free when its bit is clear. *)
Definition free_page (s : pmm) (p : Z) : Prop := 0 <= p < num_of_pages s /\ bit_of s p = false.

Record pmm_wf (s : pmm) : Prop := {
  wf_pages : 0 < num_of_pages s <= 2 ^ 20;
  wf_words : (32 | num_of_pages s);
  wf_length : Z.of_nat (length (mem_bitmap s)) * 8 = num_of_pages s;
  wf_bytes b : b ∈ mem_bitmap s -> 0 <= b < 256;
}.

(** ** Bits of the bitmap *)

Section Bits.
Context (s : pmm) (W : pmm_wf s).

Lemma byte_index (p : Z) : 0 <= p < num_of_pages s ->
  0 <= p / 8 < Z.of_nat (length (mem_bitmap s)) /\ 0 <= p mod 8 < 8.
Proof.
  intros Hp. pose proof (wf_length s W). pose proof (Z.mod_pos_bound p 8).
  pose proof (Z.div_mod p 8). lia.
Qed.

Lemma byte_at (p : Z) : 0 <= p < num_of_pages s -> 0 <= znth 0xFF (mem_bitmap s) (p / 8) < 256.
Proof.
  intros Hp%byte_index. apply (wf_bytes s W). unfold znth.
  destruct (lookup_lt_is_Some_2 (mem_bitmap s) (Z.to_nat (p / 8))) as [b Hb]; [lia|].
  rewrite Hb. by eapply list_elem_of_lookup_2.
Qed.

Lemma index_ptr (p : Z) : pmm_index_to_bitmap_ptr p = (p / 8, p mod 8).
Proof.
  unfold pmm_index_to_bitmap_ptr. rewrite u8_small; [done|].
  pose proof (Z.mod_pos_bound p 8). lia.
Qed.

(** Replacing the byte of page [p] by [y]. *)
Lemma bit_of_update (p q y : Z) :
  0 <= p < num_of_pages s -> 0 <= q ->
  bit_of (with_bitmap s (<[Z.to_nat (p / 8) := y]> (mem_bitmap s))) q =
  if p / 8 =? q / 8 then Z.testbit y (q mod 8) else bit_of s q.
Proof.
  intros Hp Hq. destruct (byte_index p Hp) as [? _]. unfold bit_of. simpl.
  rewrite znth_insert; [|lia|apply Z.div_pos; lia]. by case_match.
Qed.

Lemma wf_update (p y : Z) :
  0 <= y < 256 -> pmm_wf (with_bitmap s (<[Z.to_nat (p / 8) := y]> (mem_bitmap s))).
Proof.
  intros Hy. destruct W as [H1 H2 H3 H4]. split; simpl; try done.
  - by rewrite length_insert.
  - intros b [i Hb]%list_elem_of_lookup. apply list_lookup_insert_Some in Hb as [(_ & <- & _)|[_ Hb]];
      [done|]. by eapply H4, list_elem_of_lookup_2.
Qed.

Lemma same_byte (p q : Z) : p / 8 = q / 8 -> (q mod 8 =? p mod 8) = (q =? p).
Proof.
  intros E. pose proof (Z.div_mod p 8). pose proof (Z.div_mod q 8).
  destruct (Z.eqb_spec (q mod 8) (p mod 8)), (Z.eqb_spec q p); try done; [lia|congruence].
Qed.

Lemma is_set_bit (p : Z) : 0 <= p < num_of_pages s -> pmm_is_set s p = Ret (bit_of s p).
Proof.
  intros Hp. destruct (byte_index p Hp). unfold pmm_is_set. rewrite index_ptr.
  rewrite (lget_znth 0xFF) by done. cbn [obind]. by rewrite land1_testbit by lia.
Qed.

(** [pmm_set_bit] sets one bit and leaves the others. *)
Lemma set_bit_spec (p : Z) :
  0 <= p < num_of_pages s ->
  exists s', pmm_set_bit s p = Ret s' /\ pmm_wf s' /\
    num_of_pages s' = num_of_pages s /\ last_alloc s' = last_alloc s /\
    forall q, 0 <= q -> bit_of s' q = (q =? p) || bit_of s q.
Proof.
  intros Hp. destruct (byte_index p Hp) as [Hi Hb]. unfold pmm_set_bit.
  rewrite index_ptr, (lget_znth 0xFF), obind_Ret, lset_Ret by done. cbn [obind].
  eexists. split; [done|]. split; [by apply wf_update, u8_range|].
  split; [done|]. split; [done|]. intros q Hq.
  rewrite bit_of_update by done.
  destruct (Z.eqb_spec (p / 8) (q / 8)) as [E|E].
  - unfold u8. rewrite wrap_testbit by (apply Z.mod_pos_bound; lia).
    rewrite Z.lor_spec, testbit_one, same_byte, orb_comm by (done || lia).
    unfold bit_of. by rewrite E.
  - by destruct (Z.eqb_spec q p) as [->|].
Qed.

(** [pmm_clear_bit] clears one bit and leaves the others. *)
Lemma clear_bit_spec (p : Z) :
  0 <= p < num_of_pages s ->
  exists s', pmm_clear_bit s p = Ret s' /\ pmm_wf s' /\
    num_of_pages s' = num_of_pages s /\ last_alloc s' = last_alloc s /\
    forall q, 0 <= q -> bit_of s' q = negb (q =? p) && bit_of s q.
Proof.
  intros Hp. destruct (byte_index p Hp) as [Hi Hb]. unfold pmm_clear_bit.
  rewrite index_ptr, (lget_znth 0xFF), obind_Ret, lset_Ret by done. cbn [obind].
  eexists. split; [done|]. split; [by apply wf_update, u8_range|].
  split; [done|]. split; [done|]. intros q Hq.
  rewrite bit_of_update by done.
  destruct (Z.eqb_spec (p / 8) (q / 8)) as [E|E].
  - unfold u8. rewrite wrap_testbit by (apply Z.mod_pos_bound; lia).
    rewrite Z.land_spec, Z.lnot_spec, testbit_one, same_byte, andb_comm
      by (done || lia || apply Z.mod_pos_bound; lia).
    unfold bit_of. by rewrite E.
  - by destruct (Z.eqb_spec q p) as [->|].
Qed.

(** ** The searches *)

Definition word_full (p : Z) : Prop :=
  forall q, q / 32 = p / 32 -> bit_of s q = true.

(** The dword test of the first loop. *)
Lemma get_dword_spec (p : Z) :
  0 <= p < num_of_pages s ->
  exists w, pmm_get_dword s p = Ret w /\
    (w = BIT32_MAX -> word_full p) /\
    (w <> BIT32_MAX -> exists q, free_page s q).
Proof.
  intros Hp. destruct (wf_words s W) as [M HM]. pose proof (wf_length s W) as Hl.
  set (o := p / 32 * 4). pose proof (Z.div_mod p 32). pose proof (Z.mod_pos_bound p 32).
  assert (Ho : 0 <= o /\ o + 3 < Z.of_nat (length (mem_bitmap s))) by lia.
  assert (Hb : forall k, 0 <= k < 4 -> 0 <= znth 0xFF (mem_bitmap s) (o + k) < 256).
  { intros k Hk. replace (o + k) with (8 * (o + k) / 8) by (rewrite Z.mul_comm; by apply Z.div_mul).
    apply byte_at. lia. }
  pose proof (Hb 0 ltac:(lia)) as Hb0. rewrite Z.add_0_r in Hb0.
  pose proof (Hb 1 ltac:(lia)). pose proof (Hb 2 ltac:(lia)). pose proof (Hb 3 ltac:(lia)).
  unfold pmm_get_dword. fold o. rewrite !(lget_znth 0xFF) by lia. cbn [obind].
  eexists. split; [done|]. unfold BIT32_MAX. split.
  - intros Hw q Hq. unfold bit_of.
    assert (Hk : exists k, 0 <= k < 4 /\ q / 8 = o + k).
    { exists (q / 8 - o). pose proof (Z.div_mod q 8). pose proof (Z.div_mod q 32).
      pose proof (Z.mod_pos_bound q 32). pose proof (Z.mod_pos_bound q 8). lia. }
    destruct Hk as (k & Hk & ->).
    replace (znth 0xFF (mem_bitmap s) (o + k)) with 255;
      [by apply byte_full_bit, Z.mod_pos_bound|].
    assert (k = 0 \/ k = 1 \/ k = 2 \/ k = 3) as [-> | [-> | [-> | ->]]] by lia;
      rewrite ?Z.add_0_r; lia.
  - intros Hw.
    assert (Hk : exists k, 0 <= k < 4 /\ znth 0xFF (mem_bitmap s) (o + k) <> 255).
    { destruct (decide (znth 0xFF (mem_bitmap s) o = 255)); [|by exists 0; rewrite Z.add_0_r].
      destruct (decide (znth 0xFF (mem_bitmap s) (o + 1) = 255)); [|by exists 1].
      destruct (decide (znth 0xFF (mem_bitmap s) (o + 2) = 255)); [|by exists 2].
      exists 3. split; [lia|]. lia. }
    destruct Hk as (k & Hk & Hne).
    destruct (byte_clear_bit _ (Hb k Hk) Hne) as (j & Hj & Hbit).
    exists (j + (o + k) * 8). unfold free_page, bit_of.
    rewrite Z.div_add, Z.mod_add, Z.div_small, Z.mod_small by lia. split; [lia|done].
Qed.

Lemma add_ring (p v : Z) :
  0 <= p < num_of_pages s -> 0 <= v <= 32 ->
  pmm_add s p v = Ret ((p + v) mod num_of_pages s).
Proof.
  intros. pose proof (wf_pages s W). unfold pmm_add. rewrite u32_small, umod_pos by lia. done.
Qed.

(** The first loop, at the [i]-th word from the start [32 * a + r]. *)
Lemma search_dword_spec (M a r : Z) (fuel : nat) (i : Z) :
  num_of_pages s = 32 * M -> 0 <= a < M -> 0 <= r < 32 ->
  0 <= i < M -> M - i <= Z.of_nat fuel ->
  let at_ j := 32 * ((a + j) mod M) + r in
  (exists j, i <= j < M /\ search_dword fuel s (32 * a + r) (at_ i) = Ret (Some (at_ j)) /\
     exists q, free_page s q) \/
  (search_dword fuel s (32 * a + r) (at_ i) = Ret None /\
   forall j, i <= j < M -> word_full (at_ j)).
Proof.
  intros HN Ha Hr. revert i. induction fuel as [|fuel IH]; intros i Hi Hf at_; [lia|].
  assert (Hat : forall j, 0 <= at_ j < num_of_pages s).
  { intros j. unfold at_. pose proof (Z.mod_pos_bound (a + j) M). lia. }
  cbn [search_dword].
  destruct (get_dword_spec (at_ i) (Hat i)) as (w & -> & Hfull & Hfree). cbn [obind].
  destruct (Z.eqb_spec w BIT32_MAX) as [Hw|Hw];
    [|left; exists i; split; [lia|]; split; [done|by apply Hfree]].
  rewrite add_ring by (done || lia). cbn [obind].
  replace ((at_ i + 32) mod num_of_pages s) with (at_ (i + 1)).
  2:{ unfold at_. rewrite HN.
      replace (32 * ((a + i) mod M) + r + 32) with (32 * ((a + i) mod M + 1) + r) by lia.
      by rewrite ring_scale, ring_succ by lia. }
  destruct (decide (i + 1 = M)) as [Hlast|Hlast].
  - assert (E : at_ (i + 1) = 32 * a + r).
    { unfold at_. rewrite Hlast. replace (a + M) with (a + 1 * M) by lia.
      by rewrite Z.mod_add, Z.mod_small by lia. }
    rewrite E, Z.eqb_refl. right. split; [done|]. intros j Hj. replace j with i by lia. auto.
  - destruct (Z.eqb_spec (at_ (i + 1)) (32 * a + r)) as [E|_].
    + exfalso. assert (E' : (a + (i + 1)) mod M = (a + 0) mod M)
        by (rewrite Z.add_0_r, (Z.mod_small a) by lia; unfold at_ in E; lia).
      apply ring_inj in E'; lia.
    + destruct (IH (i + 1)) as [(j & Hj & Hs & Hq)|[Hs Hall]]; [lia..| |].
      * left. exists j. split; [lia|done].
      * right. split; [done|]. intros j Hj. destruct (decide (j = i)) as [->|]; [auto|].
        apply Hall. lia.
Qed.

(** The second loop finds the first free page at or after its start. *)
Lemma search_bit_spec (fuel d : nat) (last : Z) :
  0 <= last < num_of_pages s -> (d < fuel)%nat ->
  bit_of s ((last + Z.of_nat d) mod num_of_pages s) = false ->
  exists p, search_bit fuel s last = Ret p /\ free_page s p.
Proof.
  revert d last. induction fuel as [|fuel IH]; intros d last Hl Hd Hb; [lia|]. cbn [search_bit].
  rewrite is_set_bit by done. cbn [obind]. destruct (bit_of s last) eqn:E; [|by exists last].
  rewrite add_ring by (done || lia). cbn [obind].
  destruct d as [|d]; [rewrite Z.add_0_r, Z.mod_small in Hb by lia; congruence|].
  apply (IH d); [apply Z.mod_pos_bound; lia|lia|].
  rewrite Zplus_mod_idemp_l. by replace (last + 1 + Z.of_nat d) with (last + Z.of_nat (S d)) by lia.
Qed.

(** The whole search: a free page when there is one. *)
Lemma free_search_spec (last : Z) :
  0 <= last < num_of_pages s ->
  (exists p, pmm_search_free_page s last = Ret p /\ free_page s p) \/
  (pmm_search_free_page s last = Ret BIT32_MAX /\ forall p, ~ free_page s p).
Proof.
  intros Hl. destruct (wf_words s W) as [M HM]. rewrite Z.mul_comm in HM.
  pose proof (Z.div_mod last 32). pose proof (Z.mod_pos_bound last 32).
  set (a := last / 32) in *. set (r := last mod 32) in *.
  assert (Ha : 0 <= a < M) by lia.
  unfold pmm_search_free_page.
  pose proof (search_dword_spec M a r (search_fuel s) 0 HM Ha ltac:(lia) ltac:(lia)) as Hs.
  cbn beta zeta in Hs. rewrite Z.add_0_r, (Z.mod_small a) in Hs by lia.
  replace last with (32 * a + r) by lia.
  destruct Hs as [(j & Hj & -> & q & Hq & Hqb)|[-> Hall]]; [unfold search_fuel; lia| |].
  - left. cbn [obind]. set (l := 32 * ((a + j) mod M) + r).
    assert (Hlr : 0 <= l < num_of_pages s)
      by (unfold l; pose proof (Z.mod_pos_bound (a + j) M); lia).
    pose proof (Z.mod_pos_bound (q - l) (num_of_pages s)).
    apply (search_bit_spec _ (Z.to_nat ((q - l) mod num_of_pages s))); [done| |].
    + unfold search_fuel. lia.
    + by rewrite Z2Nat.id, ring_dist by lia.
  - right. split; [done|]. intros p [Hp Hpb].
    pose proof (Z.div_mod p 32). pose proof (Z.mod_pos_bound p 32).
    pose proof (Z.mod_pos_bound (p / 32 - a) M).
    rewrite (Hall ((p / 32 - a) mod M)) in Hpb; [done|lia|].
    rewrite ring_dist by lia. symmetry. rewrite Z.mul_comm, Z.div_add_l, (Z.div_small r) by lia. lia.
Qed.
End Bits.

(** ** Allocation *)

(** The effect of a successful allocation. *)
Lemma alloc_spec (s : pmm) :
  pmm_wf s -> 0 <= last_alloc s < num_of_pages s ->
  (exists p s', pmm_alloc s = Ret (p * PAGE_FRAME_SIZE, s') /\ free_page s p /\ pmm_wf s' /\
     num_of_pages s' = num_of_pages s /\ last_alloc s' = p /\
     forall q, 0 <= q -> bit_of s' q = (q =? p) || bit_of s q) \/
  ((forall p, ~ free_page s p) /\
   pmm_alloc s = Ret (0, mk_pmm (mem_bitmap s) (num_of_pages s) BIT32_MAX)).
Proof.
  intros W Hl. pose proof (wf_pages s W). unfold pmm_alloc.
  destruct (free_search_spec s W (last_alloc s) Hl) as [(p & -> & Hp)|[-> Hn]]; cbn [obind].
  - left. destruct Hp as [Hp Hb].
    destruct (Z.eqb_spec p BIT32_MAX) as [E|_]; [unfold BIT32_MAX in E; lia|].
    assert (W' : pmm_wf (mk_pmm (mem_bitmap s) (num_of_pages s) p)) by (destruct W; by split).
    destruct (set_bit_spec _ W' p Hp) as (s' & -> & Ws & Hn & Hla & Hbits). cbn [obind].
    exists p, s'. unfold PAGE_FRAME_SIZE. rewrite u32_small by lia.
    split_and!; try done.
  - right. split; [done|]. done.
Qed.

(** Reading the free set off the bits. *)
Lemma free_after_set (s s' : pmm) (p : Z) :
  num_of_pages s' = num_of_pages s ->
  (forall q, 0 <= q -> bit_of s' q = (q =? p) || bit_of s q) ->
  forall q, free_page s' q <-> free_page s q /\ q <> p.
Proof.
  intros Hn Hb q. unfold free_page. rewrite Hn. split.
  - intros [Hq E]. rewrite Hb, orb_false_iff, Z.eqb_neq in E by lia. tauto.
  - intros [[Hq E] Hne]. split; [done|]. rewrite Hb, E by lia. by apply Z.eqb_neq in Hne as ->.
Qed.

Lemma free_after_clear (s s' : pmm) (p : Z) :
  0 <= p < num_of_pages s -> num_of_pages s' = num_of_pages s ->
  (forall q, 0 <= q -> bit_of s' q = negb (q =? p) && bit_of s q) ->
  forall q, free_page s' q <-> free_page s q \/ q = p.
Proof.
  intros Hp Hn Hb q. unfold free_page. rewrite Hn. split.
  - intros [Hq E]. rewrite Hb in E by lia. destruct (Z.eqb_spec q p); [by right|by left].
  - intros [[Hq E]| ->]; (split; [done|]); rewrite Hb by lia; [rewrite E; apply andb_false_r|].
    by rewrite Z.eqb_refl.
Qed.

(** The states between two calls of [pmm_alloc]: the cursor is a page, and
    page 0, whose address is [NULL], is never free. *)
Record pmm_ok (s : pmm) : Prop := {
  ok_wf : pmm_wf s;
  ok_cursor : 0 <= last_alloc s < num_of_pages s;
  ok_null : ~ free_page s 0;
}.

Lemma ok_alloc (s : pmm) :
  pmm_ok s ->
  (exists p s', pmm_alloc s = Ret (p * PAGE_FRAME_SIZE, s') /\ free_page s p /\ pmm_ok s' /\
     num_of_pages s' = num_of_pages s /\ forall q, free_page s' q <-> free_page s q /\ q <> p) \/
  ((forall p, ~ free_page s p) /\
   exists s', pmm_alloc s = Ret (0, s') /\ mem_bitmap s' = mem_bitmap s).
Proof.
  intros [W Hc H0].
  destruct (alloc_spec s W Hc) as [(p & s' & -> & Hp & W' & Hn & Hla & Hb)|[Hn ->]].
  - left. pose proof (free_after_set s s' p Hn Hb) as Hf. exists p, s'.
    split_and!; try done. split; [done| |].
    + rewrite Hla, Hn. apply Hp.
    + intros [? _]%Hf. done.
  - right. split; [done|]. by eexists.
Qed.

Lemma ok_range (s : pmm) (f : Z) : pmm_ok s -> free_page s f -> 0 < f < 2 ^ 20.
Proof.
  intros [W _ H0] Hf. pose proof (wf_pages s W). destruct Hf as [Hf Hb].
  assert (f <> 0) by (intros ->; apply H0; by split). lia.
Qed.

#[export] Program Instance pmm_frames : FrameAllocator pmm := {|
  frame_alloc := pmm_alloc;
  frame_ok := pmm_ok;
  frame_free := free_page;
|}.
Next Obligation.
  intros s H. destruct (ok_alloc s H) as [(p & s' & ? & ? & ? & _ & ?)|(Hn & s' & E & _)].
  - left. by exists p, s'.
  - right. by exists s'.
Qed.
Next Obligation. exact ok_range. Qed.

(** A client that allocates until it has [n] frames or is refused one. *)
Fixpoint alloc_upto (n : nat) (s : pmm) : outcome (list Z * pmm) :=
  match n with
  | O => Ret ([], s)
  | S n =>
      let! (a, s) := pmm_alloc s in
      if a =? 0 then Ret ([], s)
      else let! (l, s) := alloc_upto n s in Ret (a :: l, s)
  end.

Definition free_frame (s : pmm) (a : Z) : Prop := exists p, a = p * PAGE_FRAME_SIZE /\ free_page s p.

(** C12: [pmm_alloc] returns the address of a frame whose bit was clear, sets
    that bit and no other, and keeps the allocator's invariant; it returns
    [NULL] exactly when no frame is free, and then leaves the bitmap alone. *)
Theorem pmm_alloc_correct (s : pmm) :
  pmm_ok s ->
  (exists p s', pmm_alloc s = Ret (p * PAGE_FRAME_SIZE, s') /\ 0 < p /\ free_page s p /\
     pmm_ok s' /\ forall q, free_page s' q <-> free_page s q /\ q <> p) \/
  ((forall p, ~ free_page s p) /\
   exists s', pmm_alloc s = Ret (0, s') /\ mem_bitmap s' = mem_bitmap s).
Proof.
  intros H. destruct (ok_alloc s H) as [(p & s' & ? & Hp & ? & _ & ?)|?]; [|by right].
  left. exists p, s'. pose proof (ok_range s p H Hp). split_and!; done || lia.
Qed.

(** C32: However many frames a client asks for, the frames it gets are
    pairwise distinct and were all free at the start; it gets fewer than it
    asked for only when every free frame was handed out. *)
Theorem pmm_allocs_distinct (n : nat) (s : pmm) :
  pmm_ok s ->
  exists l s', alloc_upto n s = Ret (l, s') /\ NoDup l /\
    (forall a, a ∈ l -> free_frame s a) /\
    ((length l < n)%nat -> forall a, free_frame s a -> a ∈ l).
Proof.
  revert s. induction n as [|n IH]; intros s H; cbn [alloc_upto].
  { exists [], s. split_and!; try done; [constructor|by intros a ?%elem_of_nil|simpl; lia]. }
  destruct (ok_alloc s H) as [(p & s1 & -> & Hp & H1 & _ & Hf)|(Hn & s1 & -> & _)]; cbn [obind].
  - pose proof (ok_range s p H Hp) as Hr. unfold PAGE_FRAME_SIZE.
    destruct (Z.eqb_spec (p * 4096) 0); [lia|].
    destruct (IH s1 H1) as (l & s2 & -> & Hnd & Hin & Hall). cbn [obind].
    exists (p * 4096 :: l), s2. split_and!; [done| | |].
    + constructor; [|done]. intros (q & Eq & Hq)%Hin. unfold PAGE_FRAME_SIZE in Eq.
      assert (q = p) as -> by lia. by apply Hf in Hq as [_ ?].
    + intros a [->|Ha]%elem_of_cons; [by exists p|].
      apply Hin in Ha as (q & -> & [Hq _]%Hf). by exists q.
    + intros Hlen a (q & -> & Hq). apply elem_of_cons.
      destruct (Z.eq_dec q p) as [->|]; [by left|right].
      apply Hall; [simpl in Hlen; lia|]. exists q. split; [done|]. by apply Hf.
  - exists [], s1. split_and!; try done; [constructor|by intros a ?%elem_of_nil|].
    intros _ a (q & _ & Hq). by destruct (Hn q).
Qed.

(** Freeing the frame an allocation returned restores the free set. *)
Theorem pmm_alloc_free (s : pmm) (a : Z) (s' : pmm) :
  pmm_ok s -> pmm_alloc s = Ret (a, s') -> a <> 0 ->
  exists s'', pmm_free s' a = Ret s'' /\ pmm_wf s'' /\
    forall q, free_page s'' q <-> free_page s q.
Proof.
  intros H E Ha.
  destruct (ok_alloc s H) as [(p & s1 & E1 & Hp & [W1 _ _] & Hn & Hf)|(_ & s1 & E1 & _)];
    rewrite E in E1; simplify_eq.
  assert (Hr : 0 <= p < num_of_pages s1) by (rewrite Hn; apply Hp).
  unfold pmm_free, PAGE_FRAME_SIZE. rewrite Z.div_mul by done.
  destruct (clear_bit_spec s1 W1 p Hr) as (s2 & -> & W2 & Hn2 & _ & Hb).
  exists s2. split_and!; try done. intros q.
  rewrite (free_after_clear s1 s2 p Hr Hn2 Hb), Hf.
  destruct (Z.eq_dec q p) as [->|]; tauto.
Qed.

(** Once an allocation has failed, the static cursor holds [BIT32_MAX],
    and the next allocation reads the bitmap out of its bounds, even when
    frames have been freed meanwhile. *)
Theorem pmm_alloc_after_failure (s : pmm) (b : list Z) :
  pmm_wf s -> Z.of_nat (length b) = Z.of_nat (length (mem_bitmap s)) ->
  pmm_alloc (mk_pmm b (num_of_pages s) BIT32_MAX) = Undef.
Proof.
  intros W Hl. pose proof (wf_pages s W). pose proof (wf_length s W).
  unfold pmm_alloc, pmm_search_free_page, search_fuel. cbn [search_dword last_alloc].
  unfold pmm_get_dword.
  assert (E : lget b (BIT32_MAX / 32 * 4) = Undef).
  { unfold lget. change (BIT32_MAX / 32 * 4) with 536870908. cbn [Z.ltb Z.compare].
    rewrite lookup_ge_None_2 by lia. done. }
  cbn [mem_bitmap]. by rewrite E.
Qed.

(** ** Start-up *)

Definition entry_addr (e : mb_mmap_entry_t) : Z := addr_low e + 2 ^ 32 * addr_high e.
Definition entry_len (e : mb_mmap_entry_t) : Z := len_low e + 2 ^ 32 * len_high e.

(** The entry is one the allocator takes frames from. *)
Definition usable (e : mb_mmap_entry_t) : Prop :=
  mm_type e = MULTIBOOT_MEM_AVAILABLE /\ UPPER_MEMORY_START <= entry_addr e.

(** The address frames are taken from: after the kernel and the bitmap in the
    region at 1 MiB. *)
Definition entry_start (occ : Z) (e : mb_mmap_entry_t) : Z :=
  if entry_addr e =? UPPER_MEMORY_START then entry_addr e + occ else entry_addr e.

Definition entry_takes (occ : Z) (e : mb_mmap_entry_t) (p : Z) : Prop :=
  usable e /\
  entry_start occ e / PAGE_FRAME_SIZE <= p <= (entry_addr e + entry_len e) / PAGE_FRAME_SIZE + 1.

(** What the start-up code needs of a memory-map entry: one of the two types
    it has a name for, and, when it is usable, room for the kernel and at least
    two pages between its end and the end of memory. *)
Record entry_ok (occ pages : Z) (e : mb_mmap_entry_t) : Prop := {
  eo_type : 1 <= mm_type e <= 2;
  eo_fields : 0 <= addr_low e /\ 0 <= addr_high e /\ 0 <= len_low e /\ 0 <= len_high e;
  eo_64 : entry_addr e + entry_len e < 2 ^ 64;
  eo_room : usable e -> (entry_addr e = UPPER_MEMORY_START -> occ <= entry_len e) /\
    (entry_addr e + entry_len e) / PAGE_FRAME_SIZE + 1 < pages;
}.

Lemma clear_loop_spec (fuel : nat) (s : pmm) (bit end_ : Z) :
  pmm_wf s -> 0 <= bit -> end_ < num_of_pages s -> end_ - bit + 2 <= Z.of_nat fuel ->
  (0 < fuel)%nat ->
  exists s', clear_loop fuel s bit end_ = Ret s' /\ pmm_wf s' /\
    num_of_pages s' = num_of_pages s /\ last_alloc s' = last_alloc s /\
    forall q, free_page s' q <-> free_page s q \/ bit <= q <= end_.
Proof.
  revert s bit. induction fuel as [|fuel IH]; intros s bit W Hb He Hf Hf0; [lia|].
  pose proof (wf_pages s W). cbn [clear_loop].
  destruct (Z.leb_spec bit end_).
  - destruct (clear_bit_spec s W bit) as (s1 & -> & W1 & Hn1 & Hl1 & Hb1); [lia|]. cbn [obind].
    rewrite u32_small by lia.
    destruct (IH s1 (bit + 1) W1) as (s2 & -> & W2 & Hn2 & Hl2 & Hq2); [lia..|].
    exists s2. split_and!; try done; try lia. intros q.
    rewrite Hq2, (free_after_clear s s1 bit) by (done || lia).
    split; [intros [[?| ->]|?]; [by left|right; lia|right; lia]|].
    intros [?|?]; [by left; left|]. destruct (Z.eq_dec q bit); [by left; right|right; lia].
  - exists s. split_and!; try done. intros q. split; [by left|]. intros [?|?]; [done|lia].
Qed.

Lemma setup_entry_spec (occ : Z) (s : pmm) (e : mb_mmap_entry_t) :
  pmm_wf s -> 0 <= occ -> entry_ok occ (num_of_pages s) e ->
  exists s', setup_entry occ s e = Ret s' /\ pmm_wf s' /\
    num_of_pages s' = num_of_pages s /\ last_alloc s' = last_alloc s /\
    forall q, free_page s' q <-> free_page s q \/ entry_takes occ e q.
Proof.
  intros W Hocc [Ht (? & ? & ? & ?) H64 Hroom]. pose proof (wf_pages s W).
  unfold setup_entry. rewrite !Z.shiftl_mul_pow2 by lia.
  assert (0 <= entry_addr e) by (unfold entry_addr; lia).
  assert (0 <= entry_len e) by (unfold entry_len; lia).
  replace (u64 (addr_low e + addr_high e * 2 ^ 32)) with (entry_addr e)
    by (unfold u64; rewrite wrap_small; unfold entry_addr in *; lia).
  replace (u64 (len_low e + len_high e * 2 ^ 32)) with (entry_len e)
    by (unfold u64; rewrite wrap_small; unfold entry_len in *; lia).
  rewrite (lget_znth tt) by (simpl; lia). cbn [obind].
  assert (Hskip : ~ usable e -> exists s', Ret s = Ret s' /\ pmm_wf s' /\
    num_of_pages s' = num_of_pages s /\ last_alloc s' = last_alloc s /\
    forall q, free_page s' q <-> free_page s q \/ entry_takes occ e q).
  { intros Hu. exists s. split_and!; try done. unfold entry_takes. tauto. }
  destruct (Z.ltb_spec (entry_addr e) UPPER_MEMORY_START);
    [apply Hskip; unfold usable; lia|].
  destruct (Z.eqb_spec (mm_type e) MULTIBOOT_MEM_AVAILABLE); cbn [negb];
    [|apply Hskip; unfold usable; tauto].
  assert (Hu : usable e) by done. destruct (Hroom Hu) as [Hk Hend]. unfold PAGE_FRAME_SIZE in *.
  set (E := (entry_addr e + entry_len e) / 4096) in *.
  assert (Hlast : entry_addr e + entry_len e < 4096 * (E + 1))
    by (pose proof (Z.mul_succ_div_gt (entry_addr e + entry_len e) 4096); lia).
  assert (Hstart : 0 <= entry_start occ e <= entry_addr e + entry_len e).
  { unfold entry_start. destruct (Z.eqb_spec (entry_addr e) UPPER_MEMORY_START); lia. }
  assert (Hpair : (if entry_addr e =? UPPER_MEMORY_START
      then (u64 (entry_addr e + occ), u64 (entry_len e - occ)) else (entry_addr e, entry_len e)) =
      (entry_start occ e, entry_addr e + entry_len e - entry_start occ e)).
  { unfold entry_start in *. unfold u64.
    destruct (Z.eqb_spec (entry_addr e) UPPER_MEMORY_START); [rewrite !wrap_small by lia|]; f_equal; lia. }
  rewrite Hpair. replace (entry_start occ e + _) with (entry_addr e + entry_len e) by lia.
  unfold u64. rewrite (wrap_small 64) by lia. fold E.
  assert (0 <= entry_start occ e / 4096 <= E) by (split; [apply Z.div_pos|apply Z.div_le_mono]; lia).
  rewrite (u32_small (entry_start occ e / 4096)), (u32_small (E + 1)) by lia.
  edestruct (clear_loop_spec (S (S (Z.to_nat (E + 1 - entry_start occ e / 4096)))) s
    (entry_start occ e / 4096) (E + 1)) as (s' & -> & W' & Hn & Hl & Hq); [done|lia..|].
  exists s'. split_and!; try done. intros q. rewrite Hq. unfold entry_takes, PAGE_FRAME_SIZE.
  fold E. tauto.
Qed.

Lemma setup_bitmap_spec (occ : Z) (s : pmm) (mmap : list mb_mmap_entry_t) :
  pmm_wf s -> 0 <= occ -> Forall (entry_ok occ (num_of_pages s)) mmap ->
  exists s', pmm_setup_bitmap s mmap occ = Ret s' /\ pmm_wf s' /\
    num_of_pages s' = num_of_pages s /\ last_alloc s' = last_alloc s /\
    forall q, free_page s' q <-> free_page s q \/ Exists (fun e => entry_takes occ e q) mmap.
Proof.
  intros W Hocc. revert s W. induction mmap as [|e mmap IH]; intros s W Hok; cbn [pmm_setup_bitmap].
  - exists s. split_and!; try done. intros q. by rewrite Exists_nil, (right_id False (∨)).
  - apply Forall_cons in Hok as [He Hok].
    destruct (setup_entry_spec occ s e W Hocc He) as (s1 & -> & W1 & Hn1 & Hl1 & Hq1). cbn [obind].
    destruct (IH s1 W1) as (s2 & -> & W2 & Hn2 & Hl2 & Hq2); [by rewrite Hn1|].
    exists s2. split_and!; try done; [congruence..|].
    intros q. rewrite Hq2, Hq1, Exists_cons. tauto.
Qed.

(** The bytes occupied by the kernel and the bitmap, from address 0. *)
Definition occupied_size (mb : multiboot_info_t) (kernel_end : Z) : Z :=
  (mem_upper mb + 1024) / 4 / 8 + (kernel_end - KERNEL_OFFSET).

(** On a memory map whose usable regions end two pages below the end of
    memory, [pmm_init] leaves the allocator in its invariant, and the free
    frames are those from the start of each usable region (after the kernel and
    the bitmap in the region at 1 MiB) up to and including the second frame
    after its end. *)
Theorem pmm_init_free_set (mb : multiboot_info_t) (ks ke : Z) :
  let pages := (mem_upper mb + 1024) / 4 in
  let occ := occupied_size mb ke in
  Z.land (mb_flags mb) 65 = 65 -> 0 <= mem_upper mb -> 0 < pages <= 2 ^ 20 -> (32 | pages) ->
  0 <= ks -> ks + KERNEL_OFFSET <= ke < 2 ^ 32 - 2 ^ 17 ->
  Forall (entry_ok occ pages) (mmap_entries mb) ->
  exists s, pmm_init mb ks ke = Ret s /\ pmm_ok s /\ num_of_pages s = pages /\
    forall p, free_page s p <-> Exists (fun e => entry_takes occ e p) (mmap_entries mb).
Proof.
  intros pages occ Hfl Hup Hpages H32 Hks Hke Hent.
  assert (Hmem : 0 <= mem_upper mb + 1024 < 2 ^ 32).
  { pose proof (Z.mul_succ_div_gt (mem_upper mb + 1024) 4). fold pages in H. lia. }
  assert (Hf1 : Z.land (mb_flags mb) 1 = 1).
  { change 1 with (Z.land 65 1). by rewrite Z.land_assoc, Hfl. }
  assert (Hf2 : Z.land (mb_flags mb) 64 = 64).
  { change 64 with (Z.land 65 64). by rewrite Z.land_assoc, Hfl. }
  unfold pmm_init, pmm_detect_upper_memory_size, pmm_detect_mmap_ptr,
    MULTIBOOT_INFO_MEMORY, MULTIBOOT_INFO_MEM_MAP.
  rewrite Hf1, Hf2. cbn [obind Z.eqb].
  change (Z.shiftr UPPER_MEMORY_START 10) with 1024. rewrite (u32_small (mem_upper mb + 1024)) by lia.
  rewrite !Z.shiftr_div_pow2 by lia. change (2 ^ 2) with 4. change (2 ^ 3) with 8. fold pages.
  destruct H32 as [M HM].
  assert (Hlen : pages / 8 * 8 = pages) by (rewrite HM; replace (M * 32) with (M * 4 * 8) by lia; by rewrite Z.div_mul).
  unfold KERNEL_OFFSET in *.
  replace (u32 (pages / 8 + u32 (ke - (ks + 3221225472)) + ks)) with occ.
  2:{ unfold occ, occupied_size, KERNEL_OFFSET. fold pages.
      rewrite (u32_small (ke - _)), u32_small by lia. lia. }
  assert (W0 : pmm_wf (mk_pmm (replicate (Z.to_nat (pages / 8)) 255) pages 0)).
  { split; simpl; try done.
    - by exists M.
    - rewrite length_replicate. lia.
    - intros b Hb. apply elem_of_replicate in Hb as [-> _]. lia. }
  assert (H0 : forall p, ~ free_page (mk_pmm (replicate (Z.to_nat (pages / 8)) 255) pages 0) p).
  { intros p [Hp Hb]. unfold bit_of, znth in Hb. simpl in Hb.
    assert (E : default 255 (replicate (Z.to_nat (pages / 8)) 255 !! Z.to_nat (p / 8)) = 255).
    { destruct (replicate _ _ !! _) eqn:E; [|done]. by apply lookup_replicate in E as [-> _]. }
    rewrite E, byte_full_bit in Hb; [done|]. by apply Z.mod_pos_bound. }
  assert (Hocc : 0 <= occ) by (unfold occ, occupied_size, KERNEL_OFFSET; fold pages; lia).
  destruct (setup_bitmap_spec occ _ (mmap_entries mb) W0 Hocc Hent) as (s & -> & W & Hn & Hl & Hq).
  simpl in Hn, Hl. exists s.
  assert (Hfree : forall p, free_page s p <-> Exists (fun e => entry_takes occ e p) (mmap_entries mb)).
  { intros p. rewrite Hq. pose proof (H0 p). tauto. }
  split_and!; try done. split; [done|lia|].
  rewrite Hfree, Exists_exists. intros (e & _ & [_ Hu] & Hs & _).
  unfold entry_start, UPPER_MEMORY_START in *.
  assert (1 <= (if entry_addr e =? 1048576 then entry_addr e + occ else entry_addr e) / PAGE_FRAME_SIZE); [|lia].
  apply Z.div_le_lower_bound; [done|]. unfold PAGE_FRAME_SIZE. case_match; lia.
Qed.

(** ** Concrete machines *)

(** 64 pages, of which 40 and 41 are free. *)
Definition demo_pmm : pmm := mk_pmm [255; 255; 255; 255; 255; 0xFC; 255; 255] 64 3.

Lemma demo_ok : pmm_ok demo_pmm.
Proof.
  split; [split; simpl; [lia|by exists 2|lia|]|simpl; lia|by intros [_ ?]].
  intros b Hb. repeat (apply elem_of_cons in Hb as [->|Hb]; [lia|]). by apply elem_of_nil in Hb.
Qed.

Lemma pmm_alloc_correct_witness :
  pmm_ok demo_pmm /\ exists s', pmm_alloc demo_pmm = Ret (0x28000, s').
Proof.
  split; [exact demo_ok|].
  destruct (pmm_alloc_correct demo_pmm demo_ok) as [(p & s' & E & _)|[H _]].
  - vm_compute in E. eexists. reflexivity.
  - destruct (H 40). by vm_compute.
Defined.

Lemma pmm_allocs_distinct_witness :
  exists l s', alloc_upto 3 demo_pmm = Ret (l, s') /\ NoDup l.
Proof.
  destruct (pmm_allocs_distinct 3 demo_pmm demo_ok) as (l & s' & E & Hl & _).
  exact (ex_intro _ l (ex_intro _ s' (conj E Hl))).
Defined.

Lemma pmm_alloc_free_witness :
  exists s' s'', pmm_alloc demo_pmm = Ret (0x28000, s') /\ pmm_free s' 0x28000 = Ret s''.
Proof.
  eexists (mk_pmm [255; 255; 255; 255; 255; 0xFD; 255; 255] 64 40).
  destruct (pmm_alloc_free demo_pmm 0x28000
    (mk_pmm [255; 255; 255; 255; 255; 0xFD; 255; 255] 64 40) demo_ok) as (s'' & E & _);
    [by vm_compute|done|].
  exists s''. split; [by vm_compute|exact E].
Defined.

Lemma pmm_alloc_after_failure_witness :
  pmm_alloc (mk_pmm [0; 0; 0; 0; 0; 0; 0; 0] 64 BIT32_MAX) = Undef.
Proof.
  apply (pmm_alloc_after_failure demo_pmm [0; 0; 0; 0; 0; 0; 0; 0]); [apply demo_ok|reflexivity].
Defined.

(** A machine with 8 MiB and one usable region, from 1 MiB to 7 MiB. *)
Definition demo_mb : multiboot_info_t :=
  mk_mbinfo 65 640 7168 [mk_mmap 0 0 0xA0000 0 1; mk_mmap 0x100000 0 0x600000 0 1;
                         mk_mmap 0x700000 0 0x100000 0 2].

Lemma pmm_init_free_set_witness :
  exists s, pmm_init demo_mb 0x100000 0xC0200000 = Ret s /\ pmm_ok s /\ num_of_pages s = 2048.
Proof.
  destruct (pmm_init_free_set demo_mb 0x100000 0xC0200000) as (s & E & Hs & Hn & _);
    [reflexivity|by vm_compute|by vm_compute|by exists 64|lia|by vm_compute| |].
  - change (occupied_size demo_mb 0xC0200000) with 2097408.
    change ((mem_upper demo_mb + 1024) / 4) with 2048.
    apply Forall_cons_2; [|apply Forall_cons_2; [|apply Forall_singleton]];
      (split; [simpl; lia|simpl; lia|by vm_compute|]).
    + intros [_ H]. by destruct H.
    + intros _. split; [intros _|]; by vm_compute.
    + by intros [H _].
  - exact (ex_intro _ s (conj E (conj Hs Hn))).
Defined.

(** [pmm_init] makes the two frames after the end of a usable region
    allocatable, whatever the memory map says of them: here the frames at
    7 MiB, which the map reports as reserved. *)
Theorem pmm_init_frees_reserved :
  exists s, pmm_init demo_mb 0x100000 0xC0200000 = Ret s /\
    free_page s (0x700000 / PAGE_FRAME_SIZE) /\ free_page s (0x701000 / PAGE_FRAME_SIZE).
Proof. eexists. split; [vm_compute; reflexivity|]. split; vm_compute; done. Qed.

(** When the last usable region ends where memory ends, which is what
    boot loaders report, the same two clears are out of the bitmap. *)
Theorem pmm_init_out_of_bitmap :
  pmm_init (mk_mbinfo 65 640 7168 [mk_mmap 0x100000 0 0x700000 0 1]) 0x100000 0xC0200000 = Undef.
Proof. vm_compute. reflexivity. Qed.
