(* ===== verification/Page.v ===== *)
(** Two-level paging, src/src/kernel/memory/page.c: page tables are reached
    through the recursive entry of the directory, so every access to one is a
    walk of the MMU over the same memory the code is changing. *)

From Stdlib Require Import ZArith Lia.
From stdpp Require Import base numbers list.
From S2P Require Import Prelude Frames Pmm.

Definition NUM_OF_ENTRIES : Z := 1024.
Definition PAGE_MEMORY : Z := NUM_OF_ENTRIES * PAGE_FRAME_SIZE.
Definition PDE_LAST_INDEX_START : Z := 0xFFC00000.
Definition PD_PRESENT : Z := 1.
Definition PD_READ_WRITE : Z := 2.
Definition PD_USER : Z := 4.
Definition PT_PRESENT : Z := 1.
Definition PT_READ_WRITE : Z := 2.
Definition PT_USER : Z := 4.
Definition NO_ALLOC : Z := 0.
Definition PAGE_ALLOC : Z := 1.

Definition RECURSIVE_INDEX (index : Z) : Z :=
  u32 (PDE_LAST_INDEX_START + index * PAGE_FRAME_SIZE).

Definition page_get_pt_index (addr : Z) : Z := Z.land (Z.shiftr addr 12) 0x3FF.
Definition page_get_pd_index (addr : Z) : Z := Z.shiftr addr 22.

Section Paging.
Context {st : Type} `{!FrameAllocator st}.

(** Physical memory as frames of 1024 words, the frame of the directory the
    processor uses, and the state of the frame allocator. *)
Record vm := mk_vm {
  cr3 : Z;
  fmem : Z -> Z -> Z;
  frames : st;
}.

Definition fstore (m : vm) (f i v : Z) : vm :=
  mk_vm (cr3 m) (fun g j => if (g =? f) && (j =? i) then v else fmem m g j) (frames m).
Definition fclear (m : vm) (f : Z) : vm :=
  mk_vm (cr3 m) (fun g j => if g =? f then 0 else fmem m g j) (frames m).

(** ** The MMU *)

Definition present (e : Z) : bool := Z.testbit e 0.

(** The frame a virtual address is mapped to. *)
Definition walk (m : vm) (v : Z) : option Z :=
  let pde := fmem m (cr3 m) (page_get_pd_index v) in
  if present pde then
    let pte := fmem m (Z.shiftr pde 12) (page_get_pt_index v) in
    if present pte then Some (Z.shiftr pte 12) else None
  else None.

(** The word a pointer designates; a null pointer or an unmapped address has
    none. *)
Definition word_at (m : vm) (v : Z) : outcome (Z * Z) :=
  if v =? 0 then Undef
  else match walk m v with
  | Some f => Ret (f, Z.shiftr (Z.land v 0xFFF) 2)
  | None => Undef
  end.

(** ** Operations *)

(** [page_dir] is the frame of the directory passed by the caller, whose
    entries are written directly; page tables are written through pointers. *)
Definition pd_add_table (m : vm) (page_dir pd_index page_entry flags : Z) : vm :=
  fstore m page_dir pd_index (Z.lor page_entry flags).

Definition pt_add_entry (m : vm) (pt_entry page flags : Z) : outcome vm :=
  let! (f, i) := word_at m pt_entry in Ret (fstore m f i (Z.lor page flags)).

(** [memset(page_table, 0, PAGE_FRAME_SIZE)] for a page-aligned table. *)
Definition clear_table (m : vm) (page_table : Z) : outcome vm :=
  let! (f, _) := word_at m page_table in Ret (fclear m f).

Definition page_get_pt (m : vm) (page_dir addr alloc_flag : Z) : outcome (Z * vm) :=
  let pd_index := page_get_pd_index addr in
  let page_table := RECURSIVE_INDEX pd_index in
  if negb (present (fmem m page_dir pd_index)) then
    if alloc_flag =? 0 then Ret (0, m)
    else
      let! (a, s) := frame_alloc (frames m) in
      let m := mk_vm (cr3 m) (fmem m) s in
      let m := pd_add_table m page_dir pd_index a
                 (Z.lor (Z.lor PD_PRESENT PD_READ_WRITE) PD_USER) in
      let! m := clear_table m page_table in
      Ret (page_table, m)
  else Ret (page_table, m).

Definition page_get_pt_entry (m : vm) (page_dir addr alloc_flag : Z) : outcome (Z * vm) :=
  let pt_index := page_get_pt_index addr in
  let! (page_table, m) := page_get_pt m page_dir addr PAGE_ALLOC in
  let page_entry := u32 (page_table + 4 * pt_index) in
  let! (f, i) := word_at m page_entry in
  if negb (present (fmem m f i)) then
    if alloc_flag =? 0 then Ret (0, m)
    else
      let! (a, s) := frame_alloc (frames m) in
      let m := mk_vm (cr3 m) (fmem m) s in
      let! m := pt_add_entry m page_entry a (Z.lor (Z.lor PT_PRESENT PT_READ_WRITE) PT_USER) in
      Ret (page_entry, m)
  else Ret (page_entry, m).

Definition page_get_phys_addr (m : vm) (page_dir addr : Z) : outcome (Z * vm) :=
  let! (pt_entry, m) := page_get_pt_entry m page_dir addr NO_ALLOC in
  let! (f, i) := word_at m pt_entry in
  Ret (Z.lor (Z.land (fmem m f i) 0xFFFFF000) (Z.land addr 0xFFF), m).

(** The loop of [page_identity_pte]: entries [i .. last] of a table. *)
Fixpoint identity_loop (fuel : nat) (m : vm) (page_table i last addr : Z) : outcome vm :=
  match fuel with
  | O => NoFuel
  | S fuel =>
      if i <=? last then
        let! m := pt_add_entry m (u32 (page_table + 4 * i)) addr
                    (Z.lor (Z.lor PT_PRESENT PT_READ_WRITE) PT_USER) in
        identity_loop fuel m page_table (i + 1) last (u32 (addr + PAGE_FRAME_SIZE))
      else Ret m
  end.

(** At most 1024 entries are written. *)
Definition page_identity_pte (m : vm) (page_table addr size : Z) : outcome vm :=
  identity_loop 1025 m page_table (page_get_pt_index addr)
    (page_get_pt_index (u32 (addr + size))) addr.

Fixpoint identity_map_loop (fuel : nat) (m : vm) (page_dir addr size end_addr : Z) : outcome vm :=
  match fuel with
  | O => NoFuel
  | S fuel =>
      if addr <? end_addr then
        let! (page_table, m) := page_get_pt m page_dir addr PAGE_ALLOC in
        let max_size := u32 (PAGE_MEMORY - Z.land addr 0xFFF) in
        let page_size := if max_size <? size then max_size else size in
        let! m := page_identity_pte m page_table addr page_size in
        identity_map_loop fuel m page_dir (u32 (addr + page_size)) (u32 (size - page_size)) end_addr
      else Ret m
  end.

(** Every turn but the last advances by more than 4 MiB - 4 KiB, so 1027
    turns cover the address space. *)
Definition page_identity_map (m : vm) (page_dir addr size : Z) : outcome vm :=
  identity_map_loop 1027 m page_dir addr size (u32 (addr + size)).

(** [page_init]: the directory is the boot directory at [page_directory],
    [page_table1] is the static table; both are kernel objects, so their
    physical addresses are [VIR2PHY] of their virtual ones. *)
Definition VIR2PHY (addr : Z) : Z := u32 (addr - KERNEL_OFFSET).

Definition page_init (m : vm) (page_directory page_table1 : Z) : outcome vm :=
  let flags := Z.lor (Z.lor PD_PRESENT PD_READ_WRITE) PD_USER in
  let dir := Z.shiftr (VIR2PHY page_directory) 12 in
  let m := pd_add_table m dir (NUM_OF_ENTRIES - 1) (VIR2PHY page_directory) flags in
  let m := pd_add_table m dir 0 (VIR2PHY page_table1) flags in
  page_identity_pte m page_table1 0 UPPER_MEMORY_START.

(** ** The invariant *)

(** The table of a directory slot. *)
Definition table_of (m : vm) (i : Z) : Z := Z.shiftr (fmem m (cr3 m) i) 12.
Definition has_table (m : vm) (i : Z) : Prop := present (fmem m (cr3 m) i) = true.

(** Virtual addresses below the recursive window. *)
Definition user_addr (v : Z) : Prop := 0 <= v < PDE_LAST_INDEX_START.

Record vm_ok (m : vm) : Prop := {
  ok_frames : frame_ok (frames m);
  ok_recursive : fmem m (cr3 m) 1023 = cr3 m * 4096 + 7;
  ok_cr3 : 0 < cr3 m < 2 ^ 20 /\ ~ frame_free (frames m) (cr3 m);
  ok_table i : 0 <= i < 1023 -> has_table m i ->
    table_of m i <> cr3 m /\ ~ frame_free (frames m) (table_of m i);
  ok_distinct i j : 0 <= i < 1023 -> 0 <= j < 1023 -> has_table m i -> has_table m j ->
    table_of m i = table_of m j -> i = j;
  ok_leaf v f : user_addr v -> walk m v = Some f -> ~ frame_free (frames m) f;
}.

(** ** Index arithmetic *)

Lemma pd_index_div (v : Z) : page_get_pd_index v = v / 2 ^ 22.
Proof. unfold page_get_pd_index. by rewrite Z.shiftr_div_pow2. Qed.

Lemma pt_index_mod (v : Z) : page_get_pt_index v = v / 2 ^ 12 mod 2 ^ 10.
Proof. unfold page_get_pt_index. change 0x3FF with (Z.ones 10). by rewrite land_mask, Z.shiftr_div_pow2. Qed.

Lemma pt_index_range (v : Z) : 0 <= page_get_pt_index v < 1024.
Proof. rewrite pt_index_mod. by apply Z.mod_pos_bound. Qed.

Lemma pd_index_user (v : Z) : user_addr v -> 0 <= page_get_pd_index v < 1023.
Proof.
  unfold user_addr, PDE_LAST_INDEX_START. rewrite pd_index_div. intros Hv.
  split; [apply Z.div_pos; lia|]. apply Z.div_lt_upper_bound; lia.
Qed.

(** The two indices determine the page. *)
Lemma page_of_indices (v : Z) : v / 4096 = page_get_pd_index v * 1024 + page_get_pt_index v.
Proof.
  rewrite pd_index_div, pt_index_mod. change (2 ^ 22) with (4096 * 1024).
  rewrite <- Z.div_div by lia. change (2 ^ 12) with 4096. change (2 ^ 10) with 1024.
  pose proof (Z.div_mod (v / 4096) 1024). lia.
Qed.

Lemma indices_eq (v w : Z) :
  (page_get_pd_index w =? page_get_pd_index v) && (page_get_pt_index w =? page_get_pt_index v) =
  (w / 4096 =? v / 4096).
Proof.
  rewrite !page_of_indices. pose proof (pt_index_range v). pose proof (pt_index_range w).
  repeat match goal with |- context [?x =? ?y] => destruct (Z.eqb_spec x y) end; simpl; lia.
Qed.

Lemma entry_7 (f : Z) : Z.lor (f * 4096) 7 = f * 4096 + 7.
Proof. apply (lor_low f 12 7); lia. Qed.

Lemma present_7 (f : Z) : present (f * 4096 + 7) = true.
Proof.
  unfold present. rewrite Z.bit0_odd. replace (f * 4096 + 7) with (1 + 2 * (f * 2048 + 3)) by lia.
  by rewrite Z.odd_add_mul_2.
Qed.

Lemma frame_7 (f : Z) : Z.shiftr (f * 4096 + 7) 12 = f.
Proof. rewrite Z.shiftr_div_pow2 by lia. change (2 ^ 12) with 4096.
  rewrite Z.div_add_l by lia. apply Z.add_0_r.
Qed.

(** ** The recursive window *)

Lemma window_addr (i j : Z) :
  0 <= i < 1024 -> 0 <= j < 1024 ->
  u32 (RECURSIVE_INDEX i + 4 * j) = PDE_LAST_INDEX_START + i * 4096 + 4 * j.
Proof.
  intros. unfold RECURSIVE_INDEX, PDE_LAST_INDEX_START, PAGE_FRAME_SIZE.
  rewrite (u32_small (_ + i * _)) by lia. apply u32_small. lia.
Qed.

Lemma window_word (m : vm) (i j : Z) :
  fmem m (cr3 m) 1023 = cr3 m * 4096 + 7 -> has_table m i ->
  0 <= i < 1024 -> 0 <= j < 1024 ->
  word_at m (u32 (RECURSIVE_INDEX i + 4 * j)) = Ret (table_of m i, j).
Proof.
  intros Hrec Ht Hi Hj. rewrite window_addr by done. unfold word_at, PDE_LAST_INDEX_START.
  destruct (Z.eqb_spec (0xFFC00000 + i * 4096 + 4 * j) 0); [lia|].
  set (v := 0xFFC00000 + i * 4096 + 4 * j) in *.
  assert (E1 : page_get_pd_index v = 1023).
  { rewrite pd_index_div. symmetry. apply (Z.div_unique v _ _ (i * 4096 + 4 * j)); lia. }
  assert (E2 : page_get_pt_index v = i).
  { pose proof (page_of_indices v) as E. rewrite E1 in E.
    assert (v / 4096 = 1023 * 1024 + i); [|lia].
    symmetry. apply (Z.div_unique v _ _ (4 * j)); lia. }
  unfold walk. rewrite E1, E2, Hrec, present_7, frame_7. unfold has_table in Ht. rewrite Ht.
  do 2 f_equal. change 0xFFF with (Z.ones 12). rewrite land_mask, Z.shiftr_div_pow2 by lia.
  replace (v mod 2 ^ 12) with (4 * j).
  - change (2 ^ 2) with 4. rewrite Z.mul_comm. by apply Z.div_mul.
  - apply (Z.mod_unique v _ (0xFFC00 + i)); lia.
Qed.

(** ** Writing a table entry *)

Section Store.
Context (m : vm) (i j e : Z).
Hypothesis (OK : vm_ok m) (Hi : 0 <= i < 1023) (Ht : has_table m i).

Let m' := fstore m (table_of m i) j e.

Lemma store_dir (k : Z) : fmem m' (cr3 m) k = fmem m (cr3 m) k.
Proof using OK Hi Ht.
  destruct (ok_table m OK i Hi Ht) as [Hne _]. subst m'. cbn [fmem fstore].
  destruct (Z.eqb_spec (cr3 m) (table_of m i)); [congruence|done].
Qed.

Lemma store_walk (v : Z) :
  user_addr v ->
  walk m' v = if (page_get_pd_index v =? i) && (page_get_pt_index v =? j)
              then (if present e then Some (Z.shiftr e 12) else None) else walk m v.
Proof using OK Hi Ht.
  intros Hv. pose proof (pd_index_user v Hv) as Hp. unfold walk. change (cr3 m') with (cr3 m).
  rewrite !store_dir. destruct (present (fmem m (cr3 m) (page_get_pd_index v))) eqn:E.
  - fold (table_of m (page_get_pd_index v)). subst m'. cbn [fmem fstore].
    destruct (Z.eqb_spec (table_of m (page_get_pd_index v)) (table_of m i)) as [Et|Et].
    + apply (ok_distinct m OK) in Et; [|assumption..]. rewrite Et, Z.eqb_refl. cbn [andb].
      by destruct (page_get_pt_index v =? j).
    + destruct (Z.eqb_spec (page_get_pd_index v) i) as [Ei|]; [by rewrite Ei in Et|done].
  - destruct (Z.eqb_spec (page_get_pd_index v) i) as [Ei|]; [|done].
    unfold has_table in Ht. rewrite Ei in E. congruence.
Qed.

Lemma store_ok : (present e = true -> ~ frame_free (frames m) (Z.shiftr e 12)) -> vm_ok m'.
Proof using OK Hi Ht.
  intros He. destruct OK as [H1 H2 H3 H4 H5 H6].
  assert (HT : forall k, table_of m' k = table_of m k)
    by (intros k; unfold table_of; change (cr3 m') with (cr3 m); by rewrite store_dir).
  assert (HH : forall k, has_table m' k <-> has_table m k)
    by (intros k; unfold has_table; change (cr3 m') with (cr3 m); by rewrite store_dir).
  split; try done.
  - change (cr3 m') with (cr3 m). by rewrite store_dir.
  - intros k Hk Hh%HH. rewrite HT. auto.
  - intros k l Hk Hl Hh%HH Hh'%HH. rewrite !HT. auto.
  - intros v f Hv. rewrite store_walk by done. case_match; [|by apply H6].
    destruct (present e); [|done]. intros [= <-]. auto.
Qed.
End Store.

(** Changing only the allocator, towards fewer free frames. *)
Lemma alloc_ok (m : vm) (s : st) (f : Z) :
  vm_ok m -> frame_ok s ->
  (forall g, frame_free s g <-> frame_free (frames m) g /\ g <> f) ->
  vm_ok (mk_vm (cr3 m) (fmem m) s).
Proof.
  intros [H1 H2 [H3 H3'] H4 H5 H6] Hs Hf. split; cbn [fmem cr3 frames]; try done.
  - split; [done|]. rewrite Hf. tauto.
  - intros i Hi Ht. destruct (H4 i Hi Ht). split; [done|]. unfold table_of in *. cbn [fmem cr3] in *.
    rewrite Hf. tauto.
  - intros v g Hv Hw%H6; [|done]. rewrite Hf. tauto.
Qed.

(** ** Getting a table *)

(** A table for slot [i] in the free frame [f], zeroed. *)
Lemma new_table_ok (m : vm) (s : st) (i f : Z) :
  vm_ok m -> 0 <= i < 1023 -> ~ has_table m i -> frame_free (frames m) f -> frame_ok s ->
  (forall g, frame_free s g <-> frame_free (frames m) g /\ g <> f) ->
  let m' := fclear (fstore (mk_vm (cr3 m) (fmem m) s) (cr3 m) i (f * 4096 + 7)) f in
  vm_ok m' /\ has_table m' i /\ forall v, user_addr v -> walk m' v = walk m v.
Proof.
  intros OK Hi Ht Hf Hs Hfree m'. pose proof OK as [H1 H2 [H3 H3'] H4 H5 H6].
  assert (Hfc : f <> cr3 m) by (intros ->; done).
  assert (Hdir : forall k, fmem m' (cr3 m) k = if k =? i then f * 4096 + 7 else fmem m (cr3 m) k).
  { intros k. subst m'. cbn [fmem fclear fstore].
    destruct (Z.eqb_spec (cr3 m) f); [congruence|]. by rewrite Z.eqb_refl. }
  assert (HT : forall k, table_of m' k = if k =? i then f else table_of m k).
  { intros k. unfold table_of. change (cr3 m') with (cr3 m). rewrite Hdir.
    case_match; [apply frame_7|done]. }
  assert (HH : forall k, has_table m' k <-> k = i \/ has_table m k).
  { intros k. unfold has_table. change (cr3 m') with (cr3 m). rewrite Hdir.
    destruct (Z.eqb_spec k i); [rewrite present_7; tauto|tauto]. }
  assert (Hw : forall v, user_addr v -> walk m' v = walk m v).
  { intros v Hv. pose proof (pd_index_user v Hv) as Hp. unfold walk.
    change (cr3 m') with (cr3 m). rewrite Hdir.
    destruct (Z.eqb_spec (page_get_pd_index v) i) as [Ei|Ei].
    - rewrite present_7, frame_7, Ei. unfold has_table in Ht. apply not_true_is_false in Ht.
      rewrite Ht. subst m'. cbn [fmem fclear]. by rewrite Z.eqb_refl.
    - destruct (present (fmem m (cr3 m) (page_get_pd_index v))) eqn:E; [|done].
      fold (table_of m (page_get_pd_index v)). destruct (H4 _ Hp E) as [Hn1 Hn2].
      subst m'. cbn [fmem fclear fstore].
      destruct (Z.eqb_spec (table_of m (page_get_pd_index v)) f); [congruence|].
      destruct (Z.eqb_spec (table_of m (page_get_pd_index v)) (cr3 m)); [congruence|done]. }
  split; [|split; [apply HH; by left|done]]. split; try done.
  - change (cr3 m') with (cr3 m). rewrite Hdir. destruct (Z.eqb_spec 1023 i); [lia|done].
  - split; [done|]. subst m'. cbn [frames fclear fstore]. change (cr3 _) with (cr3 m).
    rewrite Hfree. tauto.
  - intros k Hk Hh. rewrite HT. change (frames m') with s. change (cr3 m') with (cr3 m).
    rewrite Hfree. destruct (Z.eqb_spec k i); [tauto|].
    apply HH in Hh as [?|Hh]; [done|]. destruct (H4 k Hk Hh). tauto.
  - intros k l Hk Hl Hhk Hhl. rewrite !HT. apply HH in Hhk. apply HH in Hhl.
    destruct (Z.eqb_spec k i), (Z.eqb_spec l i); try congruence; intros E.
    + destruct Hhl as [?|Hhl]; [done|]. destruct (H4 l Hl Hhl). congruence.
    + destruct Hhk as [?|Hhk]; [done|]. destruct (H4 k Hk Hhk). congruence.
    + destruct Hhl, Hhk; try done. auto.
  - intros v g Hv Hg. rewrite Hw in Hg by done. change (frames m') with s. rewrite Hfree.
    pose proof (H6 v g Hv Hg). tauto.
Qed.

Lemma get_pt_spec (m : vm) (addr : Z) :
  vm_ok m -> user_addr addr ->
  has_table m (page_get_pd_index addr) \/ (exists g, frame_free (frames m) g) ->
  exists m', page_get_pt m (cr3 m) addr PAGE_ALLOC = Ret (RECURSIVE_INDEX (page_get_pd_index addr), m') /\
    vm_ok m' /\ has_table m' (page_get_pd_index addr) /\ cr3 m' = cr3 m /\
    (forall v, user_addr v -> walk m' v = walk m v) /\
    (exists a, forall g, g <> a -> frame_free (frames m) g -> frame_free (frames m') g) /\
    (forall g, frame_free (frames m') g -> frame_free (frames m) g) /\
    (has_table m (page_get_pd_index addr) -> m' = m).
Proof.
  intros OK Ha Hfree. pose proof (pd_index_user addr Ha) as Hp. unfold page_get_pt.
  set (i := page_get_pd_index addr) in *.
  destruct (present (fmem m (cr3 m) i)) eqn:E; cbn [negb].
  { exists m. split_and!; try done. by exists 0. }
  assert (Hn : ~ has_table m i) by (unfold has_table; congruence).
  destruct Hfree as [?|[g Hg]]; [done|]. change (PAGE_ALLOC =? 0) with false. cbn match.
  destruct (frame_alloc_spec (frames m) (ok_frames m OK)) as
    [(f & s & -> & Hf & Hs & Hfs)|(s & _ & Hno)]; [|by destruct (Hno g)].
  cbn [obind]. pose proof (new_table_ok m s i f OK Hp Hn Hf Hs Hfs) as (OK' & Ht' & Hw).
  unfold pd_add_table. change (Z.lor (Z.lor PD_PRESENT PD_READ_WRITE) PD_USER) with 7. rewrite entry_7.
  set (m1 := fstore _ (cr3 m) i _) in *. unfold clear_table.
  assert (Hd1 : forall k, fmem m1 (cr3 m) k = if k =? i then f * 4096 + 7 else fmem m (cr3 m) k).
  { intros k. subst m1. cbn [fmem fstore]. by rewrite Z.eqb_refl. }
  assert (Hw1 : word_at m1 (RECURSIVE_INDEX i) = Ret (f, 0)).
  { replace (RECURSIVE_INDEX i) with (u32 (RECURSIVE_INDEX i + 4 * 0)).
    2:{ rewrite Z.add_0_r. apply u32_small. unfold RECURSIVE_INDEX. apply u32_range. }
    rewrite window_word; [|..|lia|lia]; change (cr3 m1) with (cr3 m).
    - unfold table_of. change (cr3 m1) with (cr3 m). by rewrite Hd1, Z.eqb_refl, frame_7.
    - rewrite Hd1. destruct (Z.eqb_spec 1023 i); [lia|apply OK].
    - unfold has_table. change (cr3 m1) with (cr3 m). by rewrite Hd1, Z.eqb_refl, present_7. }
  rewrite Hw1. cbn [obind]. eexists. split; [reflexivity|]. split_and!; try done.
  - exists f. intros a Ha' Hfa. change (frames (fclear m1 f)) with s. by apply Hfs.
  - intros a. change (frames (fclear m1 f)) with s. rewrite Hfs. tauto.
Qed.

(** ** Getting an entry *)

Lemma get_pt_entry_spec (m : vm) (addr : Z) :
  vm_ok m -> user_addr addr ->
  (exists g h, g <> h /\ frame_free (frames m) g /\ frame_free (frames m) h) ->
  exists m' f, page_get_pt_entry m (cr3 m) addr PAGE_ALLOC =
      Ret (u32 (RECURSIVE_INDEX (page_get_pd_index addr) + 4 * page_get_pt_index addr), m') /\
    vm_ok m' /\ walk m' addr = Some f /\
    (walk m addr = Some f \/ (walk m addr = None /\ frame_free (frames m) f)) /\
    (forall v, user_addr v -> v / 4096 <> addr / 4096 -> walk m' v = walk m v) /\
    cr3 m' = cr3 m /\ (exists a b, forall g, g <> a -> g <> b -> frame_free (frames m) g -> frame_free (frames m') g) /\
    (forall g, frame_free (frames m') g -> frame_free (frames m) g).
Proof.
  intros OK Ha (g & h & Hgh & Hg & Hh). unfold page_get_pt_entry.
  pose proof (pd_index_user addr Ha) as Hp. pose proof (pt_index_range addr) as Hj.
  destruct (get_pt_spec m addr OK Ha) as (m1 & -> & OK1 & Ht1 & Hc1 & Hw1 & [a Hmore] & Hless & _);
    [right; by exists g|]. cbn [obind].
  set (i := page_get_pd_index addr) in *. set (j := page_get_pt_index addr) in *.
  rewrite window_word by (done || lia || apply OK1). cbn [obind].
  assert (Hwa : walk m1 addr = if present (fmem m1 (table_of m1 i) j)
     then Some (Z.shiftr (fmem m1 (table_of m1 i) j) 12) else None).
  { unfold walk. fold i j. unfold has_table in Ht1. rewrite Ht1. done. }
  destruct (present (fmem m1 (table_of m1 i) j)) eqn:E; cbn [negb].
  - exists m1. eexists. split; [reflexivity|]. split; [done|]. split; [done|].
    split; [left; by rewrite <- Hw1|]. split_and!; [auto|done|exists a, a; auto|done].
  - change (PAGE_ALLOC =? 0) with false. cbn match.
    assert (Hk : exists k, frame_free (frames m1) k).
    { destruct (decide (g = a)) as [->|]; [exists h|exists g]; apply Hmore; congruence. }
    destruct Hk as [k Hk].
    destruct (frame_alloc_spec (frames m1) (ok_frames m1 OK1)) as
      [(f & s & -> & Hf & Hs & Hfs)|(s & _ & Hno)]; [|by destruct (Hno k)].
    cbn [obind]. pose proof (alloc_ok m1 s f OK1 Hs Hfs) as OK2.
    set (m2 := mk_vm (cr3 m1) (fmem m1) s) in *. unfold pt_add_entry.
    rewrite (window_word m2) by (done || lia || apply OK2). cbn [obind].
    change (Z.lor (Z.lor PT_PRESENT PT_READ_WRITE) PT_USER) with 7. rewrite entry_7.
    assert (Hfx : ~ frame_free s f) by (rewrite Hfs; tauto).
    exists (fstore m2 (table_of m2 i) j (f * 4096 + 7)), f. split; [reflexivity|]. split_and!.
    + apply store_ok; try done. rewrite frame_7. done.
    + rewrite store_walk by done. fold i j. by rewrite !Z.eqb_refl, present_7, frame_7.
    + right. rewrite <- Hw1 by done. split; [done|]. auto.
    + intros v Hv Hne. rewrite store_walk, <- (Hw1 v) by done. unfold i, j.
      rewrite indices_eq. by destruct (Z.eqb_spec (v / 4096) (addr / 4096)).
    + done.
    + exists a, f. intros x Hxa Hxf Hx. apply Hfs. auto.
    + intros x [Hx _]%Hfs. auto.
Qed.

(** ** Identity mapping *)

Lemma flags_present (a : Z) : present (Z.lor a 7) = true.
Proof. unfold present. rewrite Z.lor_spec. change (Z.testbit 7 0) with true. apply orb_true_r. Qed.

Lemma flags_frame (a : Z) : Z.shiftr (Z.lor a 7) 12 = a / 4096.
Proof.
  rewrite Z.shiftr_lor. change (Z.shiftr 7 12) with 0. by rewrite Z.lor_0_r, Z.shiftr_div_pow2 by lia.
Qed.

Lemma identity_loop_spec (fuel : nat) (m : vm) (i j last addr : Z) :
  vm_ok m -> 0 <= i < 1023 -> has_table m i -> 0 <= j -> last < 1024 ->
  last - j + 2 <= Z.of_nat fuel -> (0 < fuel)%nat ->
  0 <= addr -> addr + 4096 * (last - j) < 2 ^ 32 ->
  (forall k, j <= k <= last -> ~ frame_free (frames m) (addr / 4096 + (k - j))) ->
  exists m', identity_loop fuel m (RECURSIVE_INDEX i) j last addr = Ret m' /\ vm_ok m' /\
    cr3 m' = cr3 m /\ frames m' = frames m /\
    forall v, user_addr v -> walk m' v =
      if (page_get_pd_index v =? i) && (j <=? page_get_pt_index v) && (page_get_pt_index v <=? last)
      then Some (addr / 4096 + (page_get_pt_index v - j)) else walk m v.
Proof.
  revert m j addr. induction fuel as [|fuel IH];
    intros m j addr OK Hi Ht Hj Hlast Hf Hf0 Ha Hend Hnf; [lia|]. cbn [identity_loop].
  destruct (Z.leb_spec j last).
  2:{ exists m. split_and!; try done. intros v _.
      destruct (Z.leb_spec j (page_get_pt_index v)), (Z.leb_spec (page_get_pt_index v) last);
        rewrite ?andb_false_r; try done; lia. }
  unfold pt_add_entry. rewrite window_word by (done || lia || apply OK). cbn [obind].
  change (Z.lor (Z.lor PT_PRESENT PT_READ_WRITE) PT_USER) with 7.
  assert (OK1 : vm_ok (fstore m (table_of m i) j (Z.lor addr 7))).
  { apply store_ok; try done. intros _. rewrite flags_frame.
    specialize (Hnf j). rewrite Z.sub_diag, Z.add_0_r in Hnf. apply Hnf. lia. }
  set (m1 := fstore _ _ _ _) in *.
  assert (Ht1 : has_table m1 i).
  { unfold has_table. change (cr3 m1) with (cr3 m). subst m1. by rewrite store_dir. }
  assert (Hw1 : forall v, user_addr v -> walk m1 v =
    if (page_get_pd_index v =? i) && (page_get_pt_index v =? j) then Some (addr / 4096) else walk m v).
  { intros v Hv. subst m1. by rewrite store_walk, flags_present, flags_frame. }
  destruct (decide (j = last)) as [->|Hjl].
  - destruct fuel; [lia|]. cbn [identity_loop]. destruct (Z.leb_spec (last + 1) last); [lia|].
    exists m1. split_and!; try done. intros v Hv. rewrite Hw1 by done.
    rewrite <- andb_assoc. replace ((last <=? page_get_pt_index v) && (page_get_pt_index v <=? last))
      with (page_get_pt_index v =? last).
    + destruct (Z.eqb_spec (page_get_pd_index v) i), (Z.eqb_spec (page_get_pt_index v) last) as [->|];
        cbn [andb]; try done. f_equal. lia.
    + destruct (Z.eqb_spec (page_get_pt_index v) last), (Z.leb_spec last (page_get_pt_index v)),
        (Z.leb_spec (page_get_pt_index v) last); cbn; lia.
  - unfold PAGE_FRAME_SIZE. rewrite u32_small by lia.
    assert (Hd : (addr + 4096) / 4096 = addr / 4096 + 1).
    { replace (addr + 4096) with (addr + 1 * 4096) by lia. by rewrite Z.div_add. }
    destruct (IH m1 (j + 1) (addr + 4096)) as (m2 & -> & OK2 & Hc2 & Hf2 & Hw2); try done; try lia.
    { intros k Hk. rewrite Hd. specialize (Hnf k ltac:(lia)).
      by replace (addr / 4096 + 1 + (k - (j + 1))) with (addr / 4096 + (k - j)) by lia. }
    exists m2. split_and!; try done. intros v Hv. rewrite Hw2, Hw1, Hd by done.
    destruct (Z.eqb_spec (page_get_pd_index v) i); cbn [andb]; [|done].
    destruct (Z.leb_spec (j + 1) (page_get_pt_index v)), (Z.leb_spec (page_get_pt_index v) last),
      (Z.eqb_spec (page_get_pt_index v) j), (Z.leb_spec j (page_get_pt_index v));
      cbn [andb]; try done; try lia; f_equal; lia.
Qed.

(** ** Correctness *)

(** C13: Asking for the entry of an address with [PAGE_ALLOC] leaves the
    address mapped. A page that was mapped keeps its frame; otherwise it gets a
    frame that was free. No other page changes its mapping, even when a page
    table had to be made for it, and the paging structures stay well formed. *)
Theorem page_get_pt_entry_maps (m : vm) (addr : Z) :
  vm_ok m -> user_addr addr ->
  (exists g h, g <> h /\ frame_free (frames m) g /\ frame_free (frames m) h) ->
  exists e m' f, page_get_pt_entry m (cr3 m) addr PAGE_ALLOC = Ret (e, m') /\
    vm_ok m' /\ walk m' addr = Some f /\
    (walk m addr = Some f \/ (walk m addr = None /\ frame_free (frames m) f)) /\
    (forall v, user_addr v -> v / 4096 <> addr / 4096 -> walk m' v = walk m v).
Proof.
  intros OK Ha Hf. destruct (get_pt_entry_spec m addr OK Ha Hf) as (m' & f & E & OK' & Hw & Hf' & Hv & _).
  by eexists _, m', f.
Qed.

(** The physical address computed for a mapped address is the one the
    MMU uses, and nothing is changed. *)
Theorem page_get_phys_addr_correct (m : vm) (addr f : Z) :
  vm_ok m -> user_addr addr -> walk m addr = Some f -> 0 <= f < 2 ^ 20 ->
  page_get_phys_addr m (cr3 m) addr = Ret (f * 4096 + addr mod 4096, m).
Proof.
  intros OK Ha Hw Hf. pose proof (pd_index_user addr Ha) as Hp. pose proof (pt_index_range addr) as Hj.
  unfold page_get_phys_addr, page_get_pt_entry.
  unfold walk in Hw. set (i := page_get_pd_index addr) in *. set (j := page_get_pt_index addr) in *.
  destruct (present (fmem m (cr3 m) i)) eqn:Ht; [|done]. fold (table_of m i) in Hw.
  destruct (present (fmem m (table_of m i) j)) eqn:He; [|done]. injection Hw as Hw.
  destruct (get_pt_spec m addr OK Ha) as (m1 & -> & _ & _ & _ & _ & _ & _ & Heq); [by left|].
  rewrite (Heq Ht). cbn [obind]. fold i j. rewrite window_word by (done || lia || apply OK). cbn [obind].
  rewrite He. cbn [negb obind]. rewrite window_word by (done || lia || apply OK). cbn [obind].
  do 2 f_equal. set (e := fmem m (table_of m i) j) in *.
  change 0xFFF with (Z.ones 12). rewrite land_mask by lia.
  assert (E : Z.land e 0xFFFFF000 = f * 2 ^ 12).
  { rewrite <- Hw. apply Z.bits_inj'. intros k Hk. rewrite Z.land_spec.
    change 0xFFFFF000 with (Z.ones 20 * 2 ^ 12).
    destruct (decide (k < 12)).
    - rewrite !Z.mul_pow2_bits_low by lia. apply andb_false_r.
    - rewrite !Z.mul_pow2_bits by lia. rewrite Z.shiftr_spec by lia.
      replace (k - 12 + 12) with k by lia.
      destruct (decide (k - 12 < 20)); [rewrite Z.ones_spec_low by lia; apply andb_true_r|].
      rewrite Z.ones_spec_high, andb_false_r by lia.
      assert (Hz : Z.testbit (Z.shiftr e 12) (k - 12) = false).
      { rewrite Hw. rewrite Z.testbit_eqb by lia.
        assert (2 ^ 20 <= 2 ^ (k - 12)) by (apply Z.pow_le_mono_r; lia).
        by rewrite Z.div_small by lia. }
      rewrite Z.shiftr_spec in Hz by lia. by replace (k - 12 + 12) with k in Hz by lia. }
  rewrite E. rewrite lor_low; [done|lia|]. by apply Z.mod_pos_bound.
Qed.

(** Identity-mapping a range that lies within the reach of one page table
    maps every page the range touches, its last byte's successor included, to
    the frame with the same number, and changes no other page. *)
Theorem page_identity_map_correct (m : vm) (addr size : Z) :
  vm_ok m -> user_addr addr -> 0 < size ->
  page_get_pd_index (addr + size) = page_get_pd_index addr ->
  has_table m (page_get_pd_index addr) \/ (exists g, frame_free (frames m) g) ->
  (forall f, addr / 4096 <= f <= (addr + size) / 4096 -> ~ frame_free (frames m) f) ->
  exists m', page_identity_map m (cr3 m) addr size = Ret m' /\ vm_ok m' /\
    forall v, user_addr v -> walk m' v =
      if (addr / 4096 <=? v / 4096) && (v / 4096 <=? (addr + size) / 4096)
      then Some (v / 4096) else walk m v.
Proof.
  intros OK Ha Hs Hpd Hfree Hnf. pose proof (pd_index_user addr Ha) as Hp.
  pose proof (pt_index_range addr). pose proof (pt_index_range (addr + size)).
  assert (Hr : 0 <= addr /\ addr + size < 2 ^ 32 /\ size <= 2 ^ 22 - addr mod 2 ^ 12).
  { rewrite !pd_index_div in Hpd. unfold user_addr, PDE_LAST_INDEX_START in Ha.
    pose proof (Z.div_mod addr (2 ^ 22)). pose proof (Z.div_mod (addr + size) (2 ^ 22)).
    pose proof (Z.mod_pos_bound (addr + size) (2 ^ 22)). pose proof (Z.mod_pos_bound addr (2 ^ 22)).
    pose proof (Z.div_mod addr (2 ^ 12)). pose proof (Z.mod_pos_bound addr (2 ^ 12)).
    assert (Hd : addr / 2 ^ 22 = addr / 2 ^ 12 / 2 ^ 10) by (by rewrite Z.div_div).
    pose proof (Z.div_mod (addr / 2 ^ 12) (2 ^ 10)). pose proof (Z.mod_pos_bound (addr / 2 ^ 12) (2 ^ 10)).
    assert (addr / 2 ^ 22 < 1023) by (apply Z.div_lt_upper_bound; lia). lia. }
  destruct Hr as (Ha0 & Hlt & Hmax). pose proof (Z.mod_pos_bound addr (2 ^ 12)).
  unfold page_identity_map.
  assert (Hn : exists n, 1027%nat = S (S n)) by (by exists 1025%nat). destruct Hn as [n ->].
  cbn [identity_map_loop]. rewrite (u32_small (addr + size)) by lia.
  destruct (Z.ltb_spec addr (addr + size)); [|lia].
  destruct (get_pt_spec m addr OK Ha Hfree) as (m1 & -> & OK1 & Ht1 & Hc1 & Hw1 & _ & Hless & _).
  cbn [obind]. change 0xFFF with (Z.ones 12). rewrite land_mask by lia.
  unfold PAGE_MEMORY, NUM_OF_ENTRIES, PAGE_FRAME_SIZE. rewrite (u32_small (1024 * 4096 - _)) by lia.
  destruct (Z.ltb_spec (1024 * 4096 - addr mod 2 ^ 12) size); [lia|].
  unfold page_identity_pte. rewrite (u32_small (addr + size)) by lia.
  pose proof (page_of_indices addr) as Pa. pose proof (page_of_indices (addr + size)) as Pe. rewrite Hpd in Pe.
  assert (Hle : addr / 4096 <= (addr + size) / 4096) by (apply Z.div_le_mono; lia).
  destruct (identity_loop_spec 1025 m1 (page_get_pd_index addr) (page_get_pt_index addr)
    (page_get_pt_index (addr + size)) addr OK1 Hp Ht1) as (m2 & -> & OK2 & Hc2 & Hf2 & Hw2); try lia.
  { assert (addr / 4096 * 4096 <= addr) by (rewrite Z.mul_comm; apply Z.mul_div_le; lia).
    pose proof (Z.div_mod addr 4096). pose proof (Z.div_mod (addr + size) 4096).
    pose proof (Z.mod_pos_bound addr 4096). pose proof (Z.mod_pos_bound (addr + size) 4096). lia. }
  { intros k Hk Hkf. apply Hless in Hkf. revert Hkf. apply Hnf. lia. }
  cbn [obind identity_map_loop]. rewrite Z.ltb_irrefl. exists m2. split_and!; [done|done|].
  intros v Hv. rewrite Hw2, Hw1 by done. pose proof (page_of_indices v) as Pv.
  pose proof (pt_index_range v).
  rewrite <- andb_assoc.
  destruct (Z.eqb_spec (page_get_pd_index v) (page_get_pd_index addr)) as [Ei|Ei];
  destruct (Z.leb_spec (page_get_pt_index addr) (page_get_pt_index v)),
    (Z.leb_spec (page_get_pt_index v) (page_get_pt_index (addr + size)));
  destruct (Z.leb_spec (addr / 4096) (v / 4096)), (Z.leb_spec (v / 4096) ((addr + size) / 4096));
    cbn [andb]; try done; try lia; f_equal; lia.
Qed.

(** C38: With [NO_ALLOC] and no page table for the address, the code returns
    [NULL] but has allocated a page table: the flag is not passed on. *)
Theorem page_get_pt_entry_no_alloc (m : vm) (addr g : Z) :
  vm_ok m -> user_addr addr -> ~ has_table m (page_get_pd_index addr) -> frame_free (frames m) g ->
  exists m', page_get_pt_entry m (cr3 m) addr NO_ALLOC = Ret (0, m') /\
    has_table m' (page_get_pd_index addr) /\
    page_get_phys_addr m (cr3 m) addr = Undef.
Proof.
  intros OK Ha Hn Hg. pose proof (pd_index_user addr Ha) as Hp. pose proof (pt_index_range addr) as Hj.
  destruct (get_pt_spec m addr OK Ha) as (m1 & E & OK1 & Ht1 & Hc1 & Hw1 & _);
    [right; by exists g|]. exists m1.
  assert (E0 : page_get_pt_entry m (cr3 m) addr NO_ALLOC = Ret (0, m1)).
  { unfold page_get_pt_entry. rewrite E. cbn [obind].
    rewrite window_word by (done || lia || apply OK1). cbn [obind].
    assert (Hnone : walk m addr = None).
    { unfold walk. unfold has_table in Hn. apply not_true_is_false in Hn. by rewrite Hn. }
    rewrite <- Hw1 in Hnone by done. unfold walk in Hnone. unfold has_table in Ht1.
    rewrite Ht1 in Hnone. fold (table_of m1 (page_get_pd_index addr)) in Hnone.
    by destruct (present (fmem m1 (table_of m1 (page_get_pd_index addr)) (page_get_pt_index addr))). }
  split_and!; [done|done|]. unfold page_get_phys_addr. by rewrite E0.
Qed.
End Paging.
Arguments vm st : clear implicits.

(** ** A concrete address space *)

Lemma demo_free (p : Z) : free_page demo_pmm p <-> p = 40 \/ p = 41.
Proof.
  split; [|by intros [-> | ->]; vm_compute]. intros [Hp Hb]. simpl in Hp.
  assert (H : forallb (fun p => bit_of demo_pmm p || (p =? 40) || (p =? 41)) (seqZ 0 64) = true)
    by (by vm_compute).
  rewrite forallb_forall in H. specialize (H p). rewrite Hb in H. cbn [orb] in H.
  apply orb_true_iff in H as [H|H]; [bprop; auto..|].
  apply list_elem_of_In, elem_of_seqZ. lia.
Qed.

(** The directory is in frame 5; the table in frame 6 maps the first 16 pages
    to themselves; everything else holds old data. *)
Definition demo_mem (f i : Z) : Z :=
  if f =? 5 then (if i =? 0 then 6 * 4096 + 7 else if i =? 1023 then 5 * 4096 + 7 else 0)
  else if f =? 6 then (if i <? 16 then i * 4096 + 7 else 0)
  else 0xDEADBEEF.
Definition demo_vm : vm pmm := mk_vm 5 demo_mem demo_pmm.

Lemma demo_table (i : Z) : 0 <= i < 1023 -> has_table demo_vm i -> i = 0.
Proof.
  intros Hi. unfold has_table. cbn [cr3 fmem demo_vm]. unfold demo_mem. cbn [Z.eqb Pos.eqb].
  destruct (Z.eqb_spec i 0); [done|]. destruct (Z.eqb_spec i 1023); [lia|done].
Qed.

(** These tables are well formed with any allocator that has given out the first
    32 frames. *)
Lemma demo_mem_ok (s : pmm) : pmm_ok s -> (forall p, free_page s p -> 32 <= p) -> vm_ok (mk_vm 5 demo_mem s).
Proof.
  intros Hs Hfree. split.
  - exact Hs.
  - reflexivity.
  - split; [cbn; lia|]. intros H%Hfree. cbn in H. lia.
  - intros i Hi Hti. rewrite (demo_table i Hi Hti). split; [done|]. intros H%Hfree. assert (32 <= 6) by exact H. lia.
  - intros i j Hi Hj Hti Htj _. by rewrite (demo_table i Hi Hti), (demo_table j Hj Htj).
  - intros v f Hv. unfold walk. cbn [cr3 fmem].
    pose proof (pd_index_user v Hv) as Hp. pose proof (pt_index_range v).
    destruct (Z.eqb_spec (page_get_pd_index v) 0) as [E0|Hne].
    + rewrite E0. change (demo_mem 5 0) with (6 * 4096 + 7). rewrite present_7, frame_7.
      change (demo_mem 6 (page_get_pt_index v)) with
        (if page_get_pt_index v <? 16 then page_get_pt_index v * 4096 + 7 else 0).
      destruct (Z.ltb_spec (page_get_pt_index v) 16); [|intros E; discriminate E].
      rewrite present_7, frame_7. intros [= <-] H'%Hfree. lia.
    + destruct (present (demo_mem 5 (page_get_pd_index v))) eqn:E; [|intros E'; discriminate E'].
      by apply (demo_table _ Hp) in E.
Qed.

Lemma demo_vm_ok : vm_ok demo_vm.
Proof. apply demo_mem_ok; [exact demo_ok|]. intros p [->| ->]%demo_free; lia. Qed.

Lemma demo_two_free : exists g h, g <> h /\ frame_free (frames demo_vm) g /\ frame_free (frames demo_vm) h.
Proof. exists 40, 41. split; [done|]. split; apply demo_free; auto. Qed.

Lemma page_get_pt_entry_maps_witness :
  exists e m' f, page_get_pt_entry demo_vm 5 0xD0000000 PAGE_ALLOC = Ret (e, m') /\
    walk demo_vm 0xD0000000 = None /\ walk m' 0xD0000000 = Some f.
Proof.
  destruct (page_get_pt_entry_maps demo_vm 0xD0000000 demo_vm_ok ltac:(by vm_compute) demo_two_free)
    as (e & m' & f & E & _ & Hw & _).
  exact (ex_intro _ e (ex_intro _ m' (ex_intro _ f (conj E (conj eq_refl Hw))))).
Defined.

Lemma page_get_phys_addr_correct_witness :
  page_get_phys_addr demo_vm 5 0x3123 = Ret (0x3123, demo_vm).
Proof.
  exact (page_get_phys_addr_correct demo_vm 0x3123 3 demo_vm_ok
    ltac:(by vm_compute) eq_refl ltac:(lia)).
Defined.

Lemma page_identity_map_correct_witness :
  exists m', page_identity_map demo_vm 5 0x20000 0x3000 = Ret m' /\ walk m' 0x21ABC = Some 0x21.
Proof.
  assert (Hu : user_addr 0x21ABC) by (by vm_compute).
  destruct (page_identity_map_correct demo_vm 0x20000 0x3000 demo_vm_ok) as (m' & E & _ & Hw);
    [by vm_compute|lia|reflexivity|left; reflexivity| |].
  - change (0x20000 / 4096) with 32. change ((0x20000 + 0x3000) / 4096) with 35.
    intros f Hf [?|?]%demo_free; lia.
  - exists m'. split; [exact E|]. exact (Hw 0x21ABC Hu).
Defined.

Lemma page_get_pt_entry_no_alloc_witness :
  exists m', page_get_pt_entry demo_vm 5 0xD0000000 NO_ALLOC = Ret (0, m') /\
    has_table m' (page_get_pd_index 0xD0000000) /\
    page_get_phys_addr demo_vm 5 0xD0000000 = Undef.
Proof.
  exact (page_get_pt_entry_no_alloc demo_vm 0xD0000000 40 demo_vm_ok ltac:(by vm_compute)
    ltac:(by vm_compute) (proj2 (demo_free 40) (or_introl eq_refl))).
Defined.

(** A range that crosses a 4 MiB boundary is not mapped: the size is
    cut by the offset in the page, not in the table, and the index of the end
    is then below the index of the start. *)
Theorem page_identity_map_crossing :
  exists m', page_identity_map demo_vm 5 0x3FF000 0x2000 = Ret m' /\
    walk m' 0x3FF000 = None /\ walk m' 0x400000 = None.
Proof. eexists. split; [vm_compute; reflexivity|]. split; reflexivity. Qed.
