(* ===== verification/Vmm.v ===== *)
(** The kernel heap, src/src/kernel/memory/vmm.c: a first-fit allocator over
    an address-ordered list of free nodes, and a stack of free pages for
    requests of exactly one page. *)

From Stdlib Require Import ZArith Lia.
From stdpp Require Import base numbers list gmap.
From S2P Require Import Prelude Pmm.

(** ** Data *)

Definition sizeof_node : Z := 8.
Definition sizeof_size_t : Z := 4.
Definition KHEAP_LIST_START : Z := 0xD0000000.
Definition KHEAP_BLOCK_START : Z := 0xE0000000 - 0x1000.

(** [kheap_stack_last]: a chain of nodes that live on the heap, or a pointer
    to the stack frame of a call that has returned. *)
Inductive stack_list :=
| SNull
| SNode (node addr : Z) (next : stack_list)
| SDangling.

(** The free list as the nodes [kheap_head] leads to, in order, each with its
    address and size; [headers] holds the size words in front of the blocks in
    use; [mapped] lists the pages the heap asked the paging code for. *)
Record kheap := mk_kheap {
  free_list : list (Z * Z);
  headers : gmap Z Z;
  kheap_start : Z;
  kheap_end : Z;
  kheap_stack_last : stack_list;
  kheap_stack_start : Z;
  kheap_stack_end : Z;
  mapped : list Z;
}.

Definition set_list (h : kheap) (l : list (Z * Z)) (hd : gmap Z Z) : kheap :=
  mk_kheap l hd (kheap_start h) (kheap_end h) (kheap_stack_last h)
    (kheap_stack_start h) (kheap_stack_end h) (mapped h).
Definition grow (h : kheap) (l : list (Z * Z)) (e : Z) : kheap :=
  mk_kheap l (headers h) (kheap_start h) e (kheap_stack_last h)
    (kheap_stack_start h) (kheap_stack_end h) (kheap_end h :: mapped h).
Definition set_stack (h : kheap) (s : stack_list) : kheap :=
  mk_kheap (free_list h) (headers h) (kheap_start h) (kheap_end h) s
    (kheap_stack_start h) (kheap_stack_end h) (mapped h).

(** ** The free list *)

Definition vmm_node_ret_addr (n : Z * Z) : Z := u32 (n.1 + sizeof_node + n.2).

Fixpoint insert_after (x : Z * Z) (l : list (Z * Z)) : list (Z * Z) :=
  match l with
  | [] => [x]
  | y :: l => if x.1 <? y.1 then x :: y :: l else y :: insert_after x l
  end.

(** The head is never compared: the new node goes after it. *)
Definition vmm_sorted_insert (l : list (Z * Z)) (x : Z * Z) : outcome (list (Z * Z)) :=
  match l with
  | [] => Undef
  | h :: l => Ret (h :: insert_after x l)
  end.

Fixpoint merge_from (a s : Z) (l : list (Z * Z)) : list (Z * Z) :=
  match l with
  | [] => [(a, s)]
  | (b, t) :: l =>
      if u32 (a + s + sizeof_node) =? b then merge_from a (u32 (s + t + sizeof_node)) l
      else (a, s) :: merge_from b t l
  end.
Definition vmm_merge_free_block (l : list (Z * Z)) : outcome (list (Z * Z)) :=
  match l with
  | [] => Undef
  | (a, s) :: l => Ret (merge_from a s l)
  end.

(** The nodes before the one found, the node, and the nodes after it; and the
    node [*prev] points to at the end, given where it pointed before. *)
Fixpoint vmm_get_node (l : list (Z * Z)) (prev : option (Z * Z)) (size : Z) :
    option (list (Z * Z) * (Z * Z) * list (Z * Z)) * option (Z * Z) :=
  match l with
  | [] => (None, prev)
  | n :: l =>
      if size <? n.2 then (Some ([], n, l), prev)
      else match vmm_get_node l (Some n) size with
           | (Some (pre, m, post), p) => (Some (n :: pre, m, post), p)
           | (None, p) => (None, p)
           end
  end.

(** ** General allocation *)

(** The loop that enlarges the heap until a node is large enough; [None] when
    the heap met the page stack. *)
Fixpoint enlarge (fuel : nat) (h : kheap) (prev : option (Z * Z)) (size : Z) :
    outcome (kheap * option (list (Z * Z) * (Z * Z) * list (Z * Z) * option (Z * Z))) :=
  match fuel with
  | O => NoFuel
  | S fuel =>
      if kheap_stack_end h <? kheap_end h then Ret (h, None)
      else
        match free_list h with
        | [] => Undef
        | _ =>
            let l := free_list h ++ [(kheap_end h, PAGE_FRAME_SIZE - sizeof_node)] in
            let! l := vmm_merge_free_block l in
            let h := grow h l (u32 (kheap_end h + PAGE_FRAME_SIZE)) in
            match vmm_get_node l prev size with
            | (Some (pre, n, post), p) => Ret (h, Some (pre, n, post, p))
            | (None, p) => enlarge fuel h p size
            end
        end
  end.

(** One turn per page between the two ends, and one to notice the end. *)
Definition enlarge_fuel (h : kheap) : nat :=
  S (S (Z.to_nat ((kheap_stack_end h - kheap_end h) / PAGE_FRAME_SIZE))).

(** The node is shortened at its end and the block is what it gave up. A node
    left with size 0 is replaced by the block; [prev] then loses its successor. *)
Definition carve (h : kheap) (size : Z) (pre : list (Z * Z)) (n : Z * Z)
    (post : list (Z * Z)) (prev : option (Z * Z)) : outcome (Z * kheap) :=
  let n := (n.1, u32 (n.2 - size)) in
  let size_ptr := vmm_node_ret_addr n in
  match prev with
  | Some p =>
      if n.2 =? 0 then
        let size_ptr := u32 (size_ptr - sizeof_node) in
        let size := u32 (size + sizeof_node) in
        match last pre with
        | Some q =>
            (* [prev] may be a node seen by an earlier call; only when it is the
               node's predecessor is the list still a list *)
            if decide (p = q)
            then Ret (u32 (size_ptr + sizeof_size_t),
                      set_list h (pre ++ post) (<[size_ptr := size]> (headers h)))
            else Undef
        | None => Undef
        end
      else Ret (u32 (size_ptr + sizeof_size_t),
                set_list h (pre ++ n :: post) (<[size_ptr := size]> (headers h)))
  | None =>
      Ret (u32 (size_ptr + sizeof_size_t),
           set_list h (pre ++ n :: post) (<[size_ptr := size]> (headers h)))
  end.

Definition vmm_list_alloc (h : kheap) (size : Z) : outcome (Z * kheap) :=
  let size := u32 (size + sizeof_size_t) in
  match vmm_get_node (free_list h) None size with
  | (Some (pre, n, post), prev) => carve h size pre n post prev
  | (None, prev) =>
      let! (h, r) := enlarge (enlarge_fuel h) h prev size in
      match r with
      | None => Ret (0, h)
      | Some (pre, n, post, prev) => carve h size pre n post prev
      end
  end.

(** ** Freeing *)

(** In the page branch the node that [kmalloc(4)] returned is dropped and the
    address of a compound literal is kept. [kmalloc] of 4 bytes is neither 0 nor
    a page, so it is [vmm_list_alloc]. *)
Definition kfree (h : kheap) (ptr : Z) : outcome kheap :=
  if (ptr <? kheap_start h) || (kheap_stack_start h <=? ptr) then Ret h
  else if kheap_end h <? ptr then
    let! (_, h) := vmm_list_alloc h 4 in
    Ret (set_stack h SDangling)
  else
    let node := ptr - sizeof_size_t in
    match headers h !! node with
    | None => Undef
    | Some size =>
        let! l := vmm_sorted_insert (free_list h) (node, u32 (size - sizeof_node)) in
        let! l := vmm_merge_free_block l in
        Ret (set_list h l (delete node (headers h)))
    end.

(** ** Pages *)

Definition vmm_block_alloc (h : kheap) : outcome (Z * kheap) :=
  if kheap_stack_end h <? kheap_end h then Ret (0, h)
  else match kheap_stack_last h with
  | SDangling => Undef
  | SNode node addr next =>
      let! h := kfree (set_stack h next) node in Ret (addr, h)
  | SNull =>
      let e := u32 (kheap_stack_end h - PAGE_FRAME_SIZE) in
      Ret (e, mk_kheap (free_list h) (headers h) (kheap_start h) (kheap_end h) SNull
                (kheap_stack_start h) e (e :: mapped h))
  end.

Definition kmalloc (h : kheap) (size : Z) : outcome (Z * kheap) :=
  if size =? 0 then Ret (0, h)
  else if size =? PAGE_FRAME_SIZE then
    let! (ptr, h) := vmm_block_alloc h in
    if ptr =? 0 then vmm_list_alloc h size else Ret (ptr, h)
  else vmm_list_alloc h size.

(** ** Start-up *)

Definition vmm_kheap_list_init (heap_start : Z) : kheap :=
  mk_kheap [(heap_start, PAGE_FRAME_SIZE - sizeof_node)] ∅ heap_start
    (u32 (heap_start + PAGE_FRAME_SIZE)) SNull 0 0 [heap_start].

Definition vmm_kheap_stack_init (h : kheap) (heap_stack_start : Z) : outcome kheap :=
  let h := mk_kheap (free_list h) (headers h) (kheap_start h) (kheap_end h) (kheap_stack_last h)
             (u32 (heap_stack_start + PAGE_FRAME_SIZE)) heap_stack_start
             (heap_stack_start :: mapped h) in
  let! (node, h) := kmalloc h sizeof_node in
  Ret (set_stack h (SNode node heap_stack_start SNull)).

Definition vmm_init : outcome kheap :=
  vmm_kheap_stack_init (vmm_kheap_list_init KHEAP_LIST_START) KHEAP_BLOCK_START.

(** ** The heap as a sequence of tiles *)

(** The memory from [kheap_start] to [kheap_end] is cut into consecutive tiles:
    a free one holds a node and its free bytes, a used one a size word and the
    block behind it. *)
Inductive tile := TFree (n : Z) | TUsed (n : Z).

Definition tlen (t : tile) : Z := match t with TFree n | TUsed n => n end.
Fixpoint tsum (ts : list tile) : Z := match ts with [] => 0 | t :: ts => tlen t + tsum ts end.

Definition tile_ok (t : tile) : Prop := match t with TFree n => 8 <= n | TUsed n => 4 < n end.

Fixpoint free_of (a : Z) (ts : list tile) : list (Z * Z) :=
  match ts with
  | [] => []
  | TFree n :: ts => (a, n - 8) :: free_of (a + n) ts
  | TUsed n :: ts => free_of (a + n) ts
  end.

Fixpoint used_of (a : Z) (ts : list tile) : list (Z * Z) :=
  match ts with
  | [] => []
  | TFree n :: ts => used_of (a + n) ts
  | TUsed n :: ts => (a, n) :: used_of (a + n) ts
  end.

(** Joining neighbouring free tiles; the argument is the free tile that ends
    where the list starts. *)
Fixpoint coal (acc : option Z) (ts : list tile) : list tile :=
  match ts, acc with
  | [], None => []
  | [], Some n => [TFree n]
  | TFree m :: ts, None => coal (Some m) ts
  | TFree m :: ts, Some n => coal (Some (n + m)) ts
  | TUsed m :: ts, None => TUsed m :: coal None ts
  | TUsed m :: ts, Some n => TFree n :: TUsed m :: coal None ts
  end.

Record tiled (h : kheap) (ts : list tile) : Prop := {
  tl_ok : Forall tile_ok ts;
  tl_sum : kheap_start h + tsum ts = kheap_end h;
  tl_first : exists n ts', ts = TFree n :: ts';
  tl_free : free_list h = free_of (kheap_start h) ts;
  tl_used : map_to_list (headers h) ≡ₚ used_of (kheap_start h) ts;
}.

Record heap_ok (h : kheap) : Prop := {
  hp_tiles : exists ts, tiled h ts;
  hp_low : 4096 <= kheap_start h;
  hp_high : kheap_end h <= kheap_stack_end h + PAGE_FRAME_SIZE;
  hp_stack : kheap_stack_end h + PAGE_FRAME_SIZE <= kheap_stack_start h < 2 ^ 32 - PAGE_FRAME_SIZE;
}.

Section Tiles.
Implicit Types (ts : list tile) (a b n s : Z).

Lemma tile_len_pos (t : tile) : tile_ok t -> 4 < tlen t.
Proof. destruct t; simpl; lia. Qed.

Lemma tsum_nonneg ts : Forall tile_ok ts -> 0 <= tsum ts.
Proof. induction 1 as [|t ts Ht _ IH]; simpl; [lia|]. pose proof (tile_len_pos t Ht). lia. Qed.

Lemma tsum_app ts ts' : tsum (ts ++ ts') = tsum ts + tsum ts'.
Proof. induction ts; simpl; lia. Qed.

Lemma free_of_app a ts ts' : free_of a (ts ++ ts') = free_of a ts ++ free_of (a + tsum ts) ts'.
Proof.
  revert a. induction ts as [|[n|n] ts IH]; intros a; simpl; [by rewrite Z.add_0_r| |];
    by rewrite IH, Z.add_assoc.
Qed.

Lemma used_of_app a ts ts' : used_of a (ts ++ ts') = used_of a ts ++ used_of (a + tsum ts) ts'.
Proof.
  revert a. induction ts as [|[n|n] ts IH]; intros a; simpl; [by rewrite Z.add_0_r| |];
    by rewrite IH, Z.add_assoc.
Qed.

(** Where the nodes and the blocks of a run of tiles lie. *)
Lemma free_of_range a ts x :
  Forall tile_ok ts -> x ∈ free_of a ts -> a <= x.1 /\ 0 <= x.2 /\ x.1 + x.2 + 8 <= a + tsum ts.
Proof.
  intros Hok. revert a. induction Hok as [|t ts Ht Hts IH]; intros a; simpl; [by intros ?%elem_of_nil|].
  pose proof (tile_len_pos t Ht). pose proof (tsum_nonneg ts Hts).
  destruct t as [n|n]; simpl in *; [|intros Hx%IH; lia].
  intros [->|Hx%IH]%elem_of_cons; simpl; lia.
Qed.

Lemma used_of_range a ts x :
  Forall tile_ok ts -> x ∈ used_of a ts -> a <= x.1 /\ 4 < x.2 /\ x.1 + x.2 <= a + tsum ts.
Proof.
  intros Hok. revert a. induction Hok as [|t ts Ht Hts IH]; intros a; simpl; [by intros ?%elem_of_nil|].
  pose proof (tile_len_pos t Ht). pose proof (tsum_nonneg ts Hts).
  destruct t as [n|n]; simpl in *; [intros Hx%IH; lia|].
  intros [->|Hx%IH]%elem_of_cons; simpl; lia.
Qed.

(** A node of the list is a free tile, a header a used one. *)
Lemma free_of_split a ts pre b s post :
  free_of a ts = pre ++ (b, s) :: post ->
  exists ts1 ts2, ts = ts1 ++ TFree (s + 8) :: ts2 /\ pre = free_of a ts1 /\
    b = a + tsum ts1 /\ post = free_of (b + (s + 8)) ts2.
Proof.
  revert a pre. induction ts as [|[n|n] ts IH]; intros a pre; simpl.
  - by destruct pre.
  - destruct pre as [|y pre]; simpl.
    + intros [= <- <- <-]. exists [], ts. replace (n - 8 + 8) with n by lia. simpl.
      split_and!; try done; lia.
    + intros [= E1 E2]. apply IH in E2 as (ts1 & ts2 & -> & -> & -> & ->). exists (TFree n :: ts1), ts2. simpl.
      subst y. split_and!; try done; lia || (f_equal; lia).
  - intros E. apply IH in E as (ts1 & ts2 & -> & -> & -> & ->). exists (TUsed n :: ts1), ts2. simpl.
    split_and!; try done; lia || (f_equal; lia).
Qed.

Lemma used_of_split a ts b n :
  (b, n) ∈ used_of a ts ->
  exists ts1 ts2, ts = ts1 ++ TUsed n :: ts2 /\ b = a + tsum ts1.
Proof.
  revert a. induction ts as [|[m|m] ts IH]; intros a; simpl; [by intros ?%elem_of_nil| |].
  - intros (ts1 & ts2 & -> & ->)%IH. exists (TFree m :: ts1), ts2. simpl. split; [done|lia].
  - intros [[= -> ->]|(ts1 & ts2 & -> & ->)%IH]%elem_of_cons.
    + exists [], ts. simpl. split; [done|lia].
    + exists (TUsed m :: ts1), ts2. simpl. split; [done|lia].
Qed.

(** ** Merging is joining tiles *)

Lemma coal_sum acc ts : tsum (coal acc ts) = default 0 acc + tsum ts.
Proof. revert acc. induction ts as [|[n|n] ts IH]; intros [m|]; simpl; rewrite ?IH; simpl; lia. Qed.

Lemma coal_ok acc ts :
  Forall tile_ok ts -> (forall n, acc = Some n -> 8 <= n) -> Forall tile_ok (coal acc ts).
Proof.
  intros Hok. revert acc. induction Hok as [|t ts Ht _ IH]; intros [n|] Hn; simpl.
  - constructor; [by apply Hn|constructor].
  - constructor.
  - destruct t as [m|m]; simpl in Ht.
    + apply IH. intros k [= <-]. specialize (Hn n eq_refl). lia.
    + constructor; [by apply Hn|]. constructor; [done|]. by apply IH.
  - destruct t as [m|m]; simpl in Ht.
    + apply IH. by intros k [= <-].
    + constructor; [done|]. by apply IH.
Qed.

Lemma coal_used acc a ts :
  used_of a (coal acc ts) = used_of (a + default 0 acc) ts.
Proof.
  revert acc a. induction ts as [|[n|n] ts IH]; intros [m|] a; simpl; rewrite ?IH; simpl;
    by rewrite ?Z.add_0_r, ?Z.add_assoc.
Qed.

Lemma coal_first ts n : exists m ts', coal None (TFree n :: ts) = TFree m :: ts'.
Proof.
  simpl. revert n. induction ts as [|[m|m] ts IH]; intros n; simpl; [by eexists _, _| |by eexists _, _].
  apply IH.
Qed.

Lemma coal_no_free a ts : free_of a ts = [] -> free_of a (coal None ts) = [].
Proof. revert a. induction ts as [|[n|n] ts IH]; intros a; simpl; [done|done|]. apply IH. Qed.

Lemma merge_tiles ts :
  Forall tile_ok ts ->
  (forall a n, 0 <= a -> 8 <= n -> a + n + tsum ts < 2 ^ 32 ->
     merge_from a (n - 8) (free_of (a + n) ts) = free_of a (coal (Some n) ts)) /\
  (forall a b s l, 0 <= a -> a + tsum ts < 2 ^ 32 -> free_of a ts = (b, s) :: l ->
     merge_from b s l = free_of a (coal None ts)).
Proof.
  induction 1 as [|t ts Ht Hts [IH1 IH2]]; simpl; [by split|].
  pose proof (tsum_nonneg ts Hts). destruct t as [m|m]; simpl in *; split.
  - intros a n Ha Hn Hs. unfold sizeof_node.
    rewrite (u32_small (a + (n - 8) + 8)), (u32_small (n - 8 + (m - 8) + 8)) by lia.
    destruct (Z.eqb_spec (a + (n - 8) + 8) (a + n)); [|lia].
    rewrite <- (IH1 a (n + m)) by lia. f_equal; [lia|f_equal; lia].
  - intros a b s l Ha Hs [= <- <- <-]. apply IH1; lia.
  - intros a n Ha Hn Hs. destruct (free_of (a + n + m) ts) as [|[b s] l] eqn:E; simpl.
    + by rewrite coal_no_free.
    + assert (Hb : (b, s) ∈ free_of (a + n + m) ts) by (rewrite E; by left).
      apply free_of_range in Hb; [|done]. simpl in Hb. unfold sizeof_node. rewrite u32_small by lia.
      destruct (Z.eqb_spec (a + (n - 8) + 8) b); [lia|]. f_equal.
      apply (IH2 (a + n + m)); [lia|lia|done].
  - intros a b s l Ha Hs E. apply (IH2 (a + m)); [lia|lia|done].
Qed.
End Tiles.

(** ** The operations on tiles *)

Lemma get_node_found (l : list (Z * Z)) (prev : option (Z * Z)) (size : Z) pre n post p :
  vmm_get_node l prev size = (Some (pre, n, post), p) -> l = pre ++ n :: post /\ size < n.2.
Proof.
  revert prev pre. induction l as [|m l IH]; intros prev pre; simpl; [done|].
  destruct (Z.ltb_spec size m.2); [by intros [= <- <- <- <-]|].
  destruct (vmm_get_node l (Some m) size) as [[[[pre' m'] post']|] p'] eqn:E; [|done].
  intros [= <- <- <- <-]. destruct (IH _ _ E) as [-> ?]. done.
Qed.

Lemma get_node_none (l : list (Z * Z)) (prev : option (Z * Z)) (size : Z) p :
  vmm_get_node l prev size = (None, p) -> Forall (fun n => n.2 <= size) l.
Proof.
  revert prev. induction l as [|m l IH]; intros prev; simpl; [constructor|].
  destruct (Z.ltb_spec size m.2); [intros [=]|].
  destruct (vmm_get_node l (Some m) size) as [[[[pre' m'] post']|] p'] eqn:E; intros [= <-].
  constructor; [done|]. by eapply IH.
Qed.

Lemma tiled_end (h : kheap) (ts ts1 ts2 : list tile) :
  tiled h ts -> ts = ts1 ++ ts2 -> kheap_start h + tsum ts1 + tsum ts2 = kheap_end h.
Proof. intros T ->. rewrite <- (tl_sum h _ T), tsum_app. lia. Qed.

(** Taking a block off a node. *)
Lemma carve_spec (h : kheap) (ts : list tile) (size : Z) pre n post prev :
  tiled h ts -> 0 <= kheap_start h -> kheap_end h < 2 ^ 32 ->
  free_list h = pre ++ n :: post -> 4 < size < n.2 ->
  exists p h', carve h size pre n post prev = Ret (p + 4, h') /\
    headers h !! p = None /\ headers h' = <[p := size]> (headers h) /\
    (exists ts1 ts2 m, ts = ts1 ++ TFree m :: ts2 /\ p = kheap_start h + tsum ts1 + (m - size) /\
       tiled h' (ts1 ++ TFree (m - size) :: TUsed size :: ts2)) /\
    kheap_start h <= p /\ p + size <= kheap_end h /\
    h' = set_list h (free_list h') (headers h').
Proof.
  intros T Hlo Hhi Hl [Hs Hn]. destruct n as [b s]. simpl in Hn.
  pose proof (tl_free h ts T) as Hf. rewrite Hl in Hf. symmetry in Hf.
  apply free_of_split in Hf as (ts1 & ts2 & Ets & -> & -> & ->).
  pose proof (tiled_end h ts ts1 _ T Ets) as Hend. simpl in Hend.
  pose proof (tl_ok h ts T) as Hok. rewrite Ets in Hok.
  apply Forall_app in Hok as [Hok1 [Hok2 Hok3]%Forall_cons]. simpl in Hok2.
  pose proof (tsum_nonneg ts1 Hok1). pose proof (tsum_nonneg ts2 Hok3).
  set (a := kheap_start h) in *. set (p := a + tsum ts1 + (s + 8) - size).
  assert (Hfresh : headers h !! p = None).
  { apply eq_None_not_Some. intros [w Hw]. apply elem_of_map_to_list in Hw.
    rewrite (tl_used h ts T), Ets, used_of_app, elem_of_app in Hw. simpl in Hw. fold a in Hw.
    destruct Hw as [Hw|Hw]; apply used_of_range in Hw; try done; simpl in Hw; lia. }
  assert (Hc : carve h size (free_of a ts1) (a + tsum ts1, s) (free_of (a + tsum ts1 + (s + 8)) ts2) prev =
    Ret (p + 4, set_list h (free_of a ts1 ++ (a + tsum ts1, s - size) :: free_of (a + tsum ts1 + (s + 8)) ts2)
      (<[p := size]> (headers h)))).
  { unfold carve, vmm_node_ret_addr, sizeof_node, sizeof_size_t. cbn [fst snd].
    rewrite (u32_small (s - size)) by lia. rewrite (u32_small (a + tsum ts1 + 8 + (s - size))) by lia.
    replace (a + tsum ts1 + 8 + (s - size)) with p by (unfold p; lia).
    rewrite (u32_small (p + 4)) by (unfold p; lia).
    destruct prev as [q|]; [|done]. destruct (Z.eqb_spec (s - size) 0); [lia|done]. }
  rewrite Hc. eexists p, _. split; [done|]. split; [done|]. split; [done|].
  split; [|split; [unfold p; lia|split; [unfold p; lia|done]]].
  exists ts1, ts2, (s + 8). split; [done|]. split; [fold a; unfold p; lia|]. split; simpl.
  - apply Forall_app. split; [done|]. constructor; [simpl; lia|]. constructor; [simpl; lia|done].
  - fold a. rewrite tsum_app. simpl. lia.
  - destruct (tl_first h ts T) as (n0 & ts0 & E0). rewrite E0 in Ets.
    destruct ts1 as [|t1 ts1]; simpl; [by eexists _, _|]. injection Ets as <- _. by eexists _, _.
  - fold a. rewrite free_of_app. simpl.
    replace (a + tsum ts1 + (s + 8 - size) + size) with (a + tsum ts1 + (s + 8)) by lia.
    by replace (s + 8 - size - 8) with (s - size) by lia.
  - fold a. rewrite map_to_list_insert by done. rewrite (tl_used h ts T), Ets, !used_of_app. simpl.
    fold a. replace (a + tsum ts1 + (s + 8 - size) + size) with (a + tsum ts1 + (s + 8)) by lia.
    replace (a + tsum ts1 + (s + 8 - size)) with p by (unfold p; lia).
    by rewrite Permutation_middle.
Qed.

(** Adding a page at the end of the heap. *)
Lemma grow_spec (h : kheap) (ts : list tile) :
  tiled h ts -> 0 <= kheap_start h -> kheap_end h < 2 ^ 32 - 4096 ->
  exists l, free_list h <> [] /\
    vmm_merge_free_block (free_list h ++ [(kheap_end h, PAGE_FRAME_SIZE - sizeof_node)]) = Ret l /\
    let h' := grow h l (u32 (kheap_end h + PAGE_FRAME_SIZE)) in
    tiled h' (coal None (ts ++ [TFree 4096])) /\ kheap_end h' = kheap_end h + 4096.
Proof.
  intros T Hlo Hhi. destruct (tl_first h ts T) as (n0 & ts0 & E0).
  pose proof (tl_sum h ts T) as Hsum. pose proof (tsum_nonneg ts (tl_ok h ts T)).
  assert (Hok : Forall tile_ok (ts ++ [TFree 4096])).
  { apply Forall_app. split; [apply T|]. constructor; [simpl; lia|constructor]. }
  assert (Hl : free_list h ++ [(kheap_end h, PAGE_FRAME_SIZE - sizeof_node)] =
    free_of (kheap_start h) (ts ++ [TFree 4096])).
  { rewrite free_of_app, <- (tl_free h ts T). simpl. by rewrite Hsum. }
  assert (Hm : vmm_merge_free_block (free_list h ++ [(kheap_end h, PAGE_FRAME_SIZE - sizeof_node)]) =
    Ret (free_of (kheap_start h) (coal None (ts ++ [TFree 4096])))).
  { rewrite Hl. destruct (merge_tiles _ Hok) as [_ M]. rewrite E0 in *. simpl in M |- *.
    f_equal. apply (M (kheap_start h)); [lia| |done]. rewrite tsum_app. simpl in *. lia. }
  eexists. split; [|split; [exact Hm|]].
  - rewrite (tl_free h ts T), E0. done.
  - unfold PAGE_FRAME_SIZE. rewrite u32_small by lia. split; [|done]. split; simpl.
    + by apply coal_ok.
    + rewrite coal_sum, tsum_app. simpl. lia.
    + rewrite E0. apply coal_first.
    + done.
    + rewrite coal_used, used_of_app, (tl_used h ts T). simpl. by rewrite Z.add_0_r, app_nil_r.
Qed.

(** The enlarging loop ends, with a node that is large enough or with the heap
    at the page stack. *)
Lemma enlarge_spec (fuel : nat) (h : kheap) (prev : option (Z * Z)) (size : Z) :
  heap_ok h -> (0 < fuel)%nat -> kheap_stack_end h - kheap_end h < 4096 * (Z.of_nat fuel - 1) ->
  exists h' r, enlarge fuel h prev size = Ret (h', r) /\ heap_ok h' /\
    headers h' = headers h /\ kheap_start h' = kheap_start h /\
    kheap_stack_last h' = kheap_stack_last h /\
    match r with
    | None => kheap_stack_end h' < kheap_end h'
    | Some (pre, n, post, p) => free_list h' = pre ++ n :: post /\ size < n.2
    end.
Proof.
  revert h prev. induction fuel as [|fuel IH]; intros h prev H Hf Hd; [lia|]. cbn [enlarge].
  destruct (Z.ltb_spec (kheap_stack_end h) (kheap_end h)).
  { exists h, None. split_and!; done. }
  destruct H as [[ts T] Hlo Hhi Hst]. unfold PAGE_FRAME_SIZE in *.
  destruct (grow_spec h ts T) as (l & Hne & Hm & T' & Hend); [lia..|].
  destruct (free_list h) as [|x l0] eqn:E; [done|]. unfold PAGE_FRAME_SIZE in *. rewrite Hm. cbn [obind].
  set (h' := grow h l _) in *.
  assert (H' : heap_ok h').
  { split; [by eexists|done|rewrite Hend; unfold h', PAGE_FRAME_SIZE; simpl; lia|done]. }
  destruct (vmm_get_node l prev size) as [[[[pre n] post]|] p] eqn:Eg.
  - apply get_node_found in Eg as [? ?].
    exists h', (Some (pre, n, post, p)). split_and!; done.
  - destruct (IH h' p H') as (h2 & r & -> & H2 & Hh2 & Hs2 & Hl2 & Hr); [|change (kheap_stack_end h') with (kheap_stack_end h); lia|].
    + destruct fuel; [|lia]. lia.
    + exists h2, r. split_and!; done.
Qed.

(** A node found after enlarging means the end of the heap has moved. *)
Definition enlarge_grows (h h' : kheap)
    (r : option (list (Z * Z) * (Z * Z) * list (Z * Z) * option (Z * Z))) : Prop :=
  match r with Some _ => kheap_end h < kheap_end h' | None => kheap_end h <= kheap_end h' end.

Lemma enlarge_monotone (fuel : nat) (h h' : kheap) (prev : option (Z * Z)) (size : Z) r :
  heap_ok h -> enlarge fuel h prev size = Ret (h', r) -> enlarge_grows h h' r.
Proof.
  revert h prev. induction fuel as [|fuel IH]; intros h prev H; cbn [enlarge]; [done|].
  destruct (Z.ltb_spec (kheap_stack_end h) (kheap_end h)).
  { intros [= <- <-]. simpl. lia. }
  destruct H as [[ts T] Hlo Hhi Hst]. unfold PAGE_FRAME_SIZE in *.
  destruct (grow_spec h ts T) as (l & Hne & Hm & T' & Hend); [lia..|].
  destruct (free_list h) as [|x l0] eqn:E; [done|]. unfold PAGE_FRAME_SIZE in *. rewrite Hm. cbn [obind].
  set (h1 := grow h l _) in *.
  assert (H1 : heap_ok h1).
  { split; [by eexists|done|rewrite Hend; unfold h1, PAGE_FRAME_SIZE; simpl; lia|done]. }
  destruct (vmm_get_node l prev size) as [[[[pre n] post]|] p] eqn:Eg.
  - intros [= <- <-]. unfold enlarge_grows. lia.
  - intros Hr%IH; [|done]. unfold enlarge_grows in *. destruct r; lia.
Qed.

Lemma carve_heap_ok (h h' : kheap) :
  heap_ok h -> h' = set_list h (free_list h') (headers h') -> (exists ts, tiled h' ts) -> heap_ok h'.
Proof. intros [_ ? ? ?] E ?. rewrite E in *. by split. Qed.

Lemma list_alloc_spec (h : kheap) (size : Z) :
  heap_ok h -> 0 < size < 2 ^ 31 ->
  exists r h', vmm_list_alloc h size = Ret (r, h') /\ heap_ok h' /\ kheap_start h' = kheap_start h /\
    kheap_stack_last h' = kheap_stack_last h /\
    ((r = 0 /\ headers h' = headers h /\ kheap_stack_end h' < kheap_end h') \/
     (exists p, r = p + 4 /\ headers h !! p = None /\
        headers h' = <[p := size + 4]> (headers h) /\
        kheap_start h' <= p /\ p + (size + 4) <= kheap_end h')).
Proof.
  intros H Hs. unfold vmm_list_alloc, sizeof_size_t. rewrite u32_small by lia.
  assert (Hcarve : forall h0 pre n post prev, heap_ok h0 -> free_list h0 = pre ++ n :: post ->
    size + 4 < n.2 -> exists p h', carve h0 (size + 4) pre n post prev = Ret (p + 4, h') /\
      headers h0 !! p = None /\ headers h' = <[p := size + 4]> (headers h0) /\ heap_ok h' /\
      kheap_start h' <= p /\ p + (size + 4) <= kheap_end h' /\ kheap_start h' = kheap_start h0 /\
      kheap_stack_last h' = kheap_stack_last h0).
  { intros h0 pre n post prev H0 El Hn. pose proof H0 as [[ts T] Hlo Hhi Hst].
    unfold PAGE_FRAME_SIZE in *.
    destruct (carve_spec h0 ts (size + 4) pre n post prev T) as
      (p & h' & ? & ? & ? & (ts1 & ts2 & m & _ & _ & T') & ? & ? & E); [lia|lia|done|lia|].
    assert (heap_ok h') by (apply (carve_heap_ok h0); [done..|by eexists]).
    exists p, h'. split_and!; try done; by rewrite E. }
  destruct (vmm_get_node (free_list h) None (size + 4)) as [[[[pre n] post]|] p] eqn:E.
  - destruct (get_node_found _ _ _ _ _ _ _ E) as [El Hn].
    destruct (Hcarve h pre n post p H El Hn) as (q & h' & -> & ? & ? & ? & ? & ? & ? & ?).
    eexists _, h'. split_and!; try done. right. by exists q.
  - assert (Hd : kheap_stack_end h - kheap_end h < 4096 * (Z.of_nat (enlarge_fuel h) - 1)).
    { unfold enlarge_fuel, PAGE_FRAME_SIZE.
      pose proof (Z.mul_succ_div_gt (kheap_stack_end h - kheap_end h) 4096). lia. }
    destruct (enlarge_spec (enlarge_fuel h) h p (size + 4) H) as
      (h1 & r & -> & H1 & Hh1 & Hs1 & Hl1 & Hr); [unfold enlarge_fuel; lia|done|]. cbn [obind].
    destruct r as [[[[pre n] post] p1]|].
    + destruct Hr as [El Hn].
      destruct (Hcarve h1 pre n post p1 H1 El Hn) as (q & h' & -> & ? & ? & ? & ? & ? & ? & ?).
      eexists _, h'. split_and!; try done; try congruence. right. exists q.
      rewrite <- Hh1. done.
    + exists 0, h1. split_and!; try done. by left.
Qed.

(** ** Freeing on tiles *)

Lemma insert_after_split (x : Z * Z) (l1 l2 : list (Z * Z)) :
  (forall y, y ∈ l1 -> y.1 <= x.1) -> (forall y, y ∈ l2 -> x.1 < y.1) ->
  insert_after x (l1 ++ l2) = l1 ++ x :: l2.
Proof.
  intros H1 H2. induction l1 as [|y l1 IH]; simpl.
  - destruct l2 as [|z l2]; simpl; [done|].
    destruct (Z.ltb_spec x.1 z.1); [done|]. specialize (H2 z ltac:(by left)). lia.
  - destruct (Z.ltb_spec x.1 y.1); [specialize (H1 y ltac:(by left)); lia|].
    rewrite IH; [done|]. intros z Hz. apply H1. by right.
Qed.

(** The size word of a block in use, and the blocks left when it is taken away. *)
Lemma used_header (h : kheap) (ts1 ts2 : list tile) (n : Z) :
  tiled h (ts1 ++ TUsed n :: ts2) -> headers h !! (kheap_start h + tsum ts1) = Some n.
Proof.
  intros T. apply elem_of_map_to_list. rewrite (tl_used h _ T), used_of_app. apply elem_of_app. right. by left.
Qed.

Lemma delete_header (h : kheap) (ts1 ts2 : list tile) (n : Z) :
  tiled h (ts1 ++ TUsed n :: ts2) ->
  map_to_list (delete (kheap_start h + tsum ts1) (headers h)) ≡ₚ used_of (kheap_start h) (ts1 ++ TFree n :: ts2).
Proof.
  intros T. pose proof (map_to_list_delete (headers h) _ n (used_header h ts1 ts2 n T)) as Hd.
  rewrite (tl_used h _ T), used_of_app in Hd. simpl in Hd. rewrite <- Permutation_middle in Hd.
  apply Permutation_cons_inv in Hd. by rewrite used_of_app.
Qed.

Lemma kfree_tiles (h : kheap) (ts1 ts2 : list tile) (n : Z) :
  heap_ok h -> tiled h (ts1 ++ TUsed n :: ts2) -> 8 <= n ->
  let p := kheap_start h + tsum ts1 in
  exists h', kfree h (p + 4) = Ret h' /\ headers h !! p = Some n /\
    headers h' = delete p (headers h) /\ tiled h' (coal None (ts1 ++ TFree n :: ts2)) /\
    h' = set_list h (free_list h') (headers h').
Proof.
  intros H T Hn p. destruct H as [_ Hlo Hhi Hst]. unfold PAGE_FRAME_SIZE in *.
  pose proof (tl_ok h _ T) as Hok. apply Forall_app in Hok as [Hok1 [_ Hok2]%Forall_cons].
  pose proof (tsum_nonneg ts1 Hok1). pose proof (tsum_nonneg ts2 Hok2).
  pose proof (tl_sum h _ T) as Hsum. rewrite tsum_app in Hsum. simpl in Hsum.
  destruct (tl_first h _ T) as (n0 & ts0 & E0).
  destruct ts1 as [|t1 ts1]; [done|]. injection E0 as -> _.
  apply Forall_cons in Hok1 as [Hn0 Hok1]. simpl in Hn0. pose proof (tsum_nonneg ts1 Hok1).
  set (a := kheap_start h) in *. simpl in p.
  assert (Hhd : headers h !! p = Some n) by exact (used_header h _ _ _ T).
  assert (Hok' : Forall tile_ok ((TFree n0 :: ts1) ++ TFree n :: ts2)).
  { apply Forall_app. split; [by constructor|]. by constructor. }
  assert (Hins : vmm_sorted_insert (free_list h) (p, n - 8) =
    Ret (free_of a ((TFree n0 :: ts1) ++ TFree n :: ts2))).
  { rewrite (tl_free h _ T). fold a. rewrite !free_of_app. simpl. fold p. do 2 f_equal.
    apply insert_after_split.
    - intros y Hy. apply free_of_range in Hy; [|done]. simpl. unfold p. lia.
    - intros y Hy. apply free_of_range in Hy; [|done]. simpl. unfold p. lia. }
  assert (Hmrg : vmm_merge_free_block (free_of a ((TFree n0 :: ts1) ++ TFree n :: ts2)) =
    Ret (free_of a (coal None ((TFree n0 :: ts1) ++ TFree n :: ts2)))).
  { destruct (merge_tiles _ Hok') as [_ M]. simpl in M |- *. f_equal.
    apply (M a); [lia| |done]. rewrite tsum_app. simpl in *. lia. }
  simpl in Hsum.
  unfold kfree. fold a. destruct (Z.ltb_spec (p + 4) a); [unfold p in *; lia|].
  destruct (Z.leb_spec (kheap_stack_start h) (p + 4)); [unfold p in *; lia|]. cbn [orb].
  destruct (Z.ltb_spec (kheap_end h) (p + 4)); [unfold p in *; lia|].
  unfold sizeof_size_t, sizeof_node. replace (p + 4 - 4) with p by lia. rewrite Hhd.
  rewrite u32_small, Hins by (unfold p in *; lia). cbn [obind]. rewrite Hmrg. cbn [obind].
  eexists. split; [done|]. split; [done|]. split; [done|]. split; [|done]. split; simpl.
  - apply (coal_ok None (TFree n0 :: ts1 ++ TFree n :: ts2)); [done|]. intros k [=].
  - fold a. change (coal (Some n0) (ts1 ++ TFree n :: ts2)) with
      (coal None (TFree n0 :: ts1 ++ TFree n :: ts2)). rewrite coal_sum. simpl.
    rewrite tsum_app. simpl. lia.
  - apply (coal_first (ts1 ++ TFree n :: ts2) n0).
  - done.
  - fold a. change (coal (Some n0) (ts1 ++ TFree n :: ts2)) with
      (coal None (TFree n0 :: ts1 ++ TFree n :: ts2)). rewrite coal_used. simpl.
    rewrite Z.add_0_r. exact (delete_header h _ _ _ T).
Qed.

(** Blocks in use are disjoint. *)
Lemma blocks_disjoint (h : kheap) (p n q m : Z) :
  heap_ok h -> headers h !! p = Some n -> headers h !! q = Some m -> p <> q ->
  p + n <= q \/ q + m <= p.
Proof.
  intros [[ts T] _ _ _] Hp Hq Hne. pose proof (tl_ok h ts T) as Hok.
  apply elem_of_map_to_list in Hp, Hq. rewrite (tl_used h ts T) in Hp, Hq.
  apply used_of_split in Hp as (ts1 & ts2 & -> & ->).
  apply Forall_app in Hok as [Hok1 [_ Hok2]%Forall_cons].
  rewrite used_of_app in Hq. simpl in Hq. apply elem_of_app in Hq as [Hq|Hq].
  - apply used_of_range in Hq; [|done]. simpl in Hq. lia.
  - apply elem_of_cons in Hq as [[= -> ->]|Hq]; [done|].
    apply used_of_range in Hq; [|done]. simpl in Hq. lia.
Qed.

Lemma coal_join (acc : option Z) (ts1 ts2 : list tile) (a b : Z) :
  coal acc (ts1 ++ TFree a :: TFree b :: ts2) = coal acc (ts1 ++ TFree (a + b) :: ts2).
Proof.
  revert acc. induction ts1 as [|[n|n] ts1 IH]; intros [m|]; simpl; rewrite ?IH; try done.
  by rewrite Z.add_assoc.
Qed.

Lemma coal_covers (acc : option Z) (a : Z) (ts : list tile) (p n : Z) :
  Forall tile_ok ts -> 8 <= n -> 0 <= default 0 acc ->
  (p, n - 8) ∈ free_of (a + default 0 acc) ts \/
  (exists k, acc = Some k /\ a <= p /\ p + n <= a + k) ->
  exists b s, (b, s) ∈ free_of a (coal acc ts) /\ b <= p /\ p + n <= b + 8 + s.
Proof.
  intros Hok Hn. revert acc a.
  induction Hok as [|t ts Ht Hts IH]; intros acc a Hacc Hp; simpl.
  - destruct Hp as [Hp|(k & -> & ? & ?)]; [by apply elem_of_nil in Hp|].
    exists a, (k - 8). split; [by left|lia].
  - destruct t as [m|m], acc as [k|]; simpl in *.
    + apply IH; simpl; [lia|]. rewrite Z.add_assoc. destruct Hp as [Hp|(? & [= <-] & ? & ?)].
      * apply elem_of_cons in Hp as [[= -> ?]|Hp]; [right; eexists; split; [done|]; lia|by left].
      * right. eexists. split; [done|]. lia.
    + apply IH; simpl; [lia|]. rewrite Z.add_0_r in Hp. destruct Hp as [Hp|(? & [=] & _)].
      apply elem_of_cons in Hp as [[= -> ?]|Hp]; [right; eexists; split; [done|]; lia|by left].
    + destruct Hp as [Hp|(? & [= <-] & ? & ?)].
      * destruct (IH None (a + k + m)) as (b & s & Hb & ?); [done|left; by rewrite Z.add_0_r|].
        exists b, s. split; [by right|done].
      * exists a, (k - 8). split; [by left|lia].
    + destruct Hp as [Hp|(? & [=] & _)]. rewrite Z.add_0_r in Hp. apply IH; [done|]. left.
      by rewrite Z.add_0_r.
Qed.

(** An allocation that did not move the end of the heap took a node of the
    list as it was. *)
Lemma no_growth (h : kheap) (size r : Z) (h' : kheap) :
  heap_ok h -> 0 < size < 2 ^ 31 -> size <> PAGE_FRAME_SIZE ->
  kmalloc h size = Ret (r, h') -> kheap_end h' = kheap_end h -> r <> 0 ->
  exists pre n post prev, free_list h = pre ++ n :: post /\ size + 4 < n.2 /\
    carve h (size + 4) pre n post prev = Ret (r, h').
Proof.
  intros H Hs Hp. unfold kmalloc, vmm_list_alloc, sizeof_size_t.
  destruct (Z.eqb_spec size 0); [lia|]. destruct (Z.eqb_spec size PAGE_FRAME_SIZE); [done|].
  rewrite u32_small by lia.
  destruct (vmm_get_node (free_list h) None (size + 4)) as [[[[pre n1] post]|] p] eqn:E.
  { apply get_node_found in E as [? ?]. intros Hc _ _. by exists pre, n1, post, p. }
  intros Hc He Hr. exfalso. revert Hc.
  destruct (enlarge (enlarge_fuel h) h p (size + 4)) as [[h1 r1]| | |] eqn:Ee; simpl; try done.
  assert (Hge : enlarge_grows h h1 r1) by (by eapply enlarge_monotone).
  destruct r1 as [[[[pre n1] post] p1]|]; [|intros [= <- <-]; done].
  unfold carve. intros Hc. assert (kheap_end h' = kheap_end h1); [|simpl in Hge; lia].
  destruct p1; repeat case_match; by simplify_eq.
Qed.

(** ** Correctness *)

(** General allocation does not touch the page stack. *)
Lemma enlarge_stack (fuel : nat) (h h' : kheap) (prev : option (Z * Z)) (size : Z) r :
  enlarge fuel h prev size = Ret (h', r) -> kheap_stack_end h' = kheap_stack_end h.
Proof.
  revert h prev. induction fuel as [|fuel IH]; intros h prev; cbn [enlarge]; [done|].
  destruct (kheap_stack_end h <? kheap_end h); [by intros [= <- <-]|]. destruct (free_list h) as [|x l]; [done|].
  intros (l1 & _ & E)%obind_inv. destruct (vmm_get_node l1 prev size) as [[[[pre n] post]|] p]; [by injection E as <- <-|].
  by apply IH in E.
Qed.

Lemma list_alloc_stack (h h' : kheap) (size r : Z) :
  vmm_list_alloc h size = Ret (r, h') -> kheap_stack_end h' = kheap_stack_end h.
Proof.
  assert (Hc : forall h0 n pre x post prev, carve h0 n pre x post prev = Ret (r, h') -> kheap_stack_end h' = kheap_stack_end h0).
  { intros h0 n pre x post prev. unfold carve. intros E. repeat case_match; by simplify_eq. }
  unfold vmm_list_alloc. destruct (vmm_get_node _ _ _) as [[[[pre n] post]|] p]; [by intros ?%Hc|].
  intros ([h1 res] & E1%enlarge_stack & E)%obind_inv. destruct res as [[[[pre n] post] q]|]; [apply Hc in E; congruence|].
  by injection E as _ <-.
Qed.

(** C10: A request for 0 bytes returns [NULL].  A request below 2 GiB for anything
    but a whole page (4096 bytes) returns a block inside the list part of the
    heap that overlaps no other block of the list, its size word included, and
    records its size; all other blocks keep theirs.  The page stack is left
    alone: the block ends below it if the heap does, and otherwise reaches at
    most into its lowest page, because the loop that enlarges the heap stops one
    page late.  The result is [NULL] only when the heap has grown into the page
    stack.  The heap stays well formed, and the loop terminates. *)
Theorem kmalloc_correct (h : kheap) (size : Z) :
  heap_ok h -> 0 <= size < 2 ^ 31 -> size <> PAGE_FRAME_SIZE ->
  exists r h', kmalloc h size = Ret (r, h') /\ heap_ok h' /\
    kheap_stack_end h' = kheap_stack_end h /\ kheap_stack_last h' = kheap_stack_last h /\
    if decide (size = 0) then r = 0 /\ h' = h
    else
      (r = 0 /\ headers h' = headers h /\ kheap_stack_end h' < kheap_end h') \/
      (kheap_start h' + 4 <= r /\ r + size <= kheap_end h' /\
       r + size <= kheap_stack_end h + PAGE_FRAME_SIZE /\
       headers h' = <[r - 4 := size + 4]> (headers h) /\
       forall q m, headers h !! q = Some m -> r + size <= q \/ q + m <= r - 4).
Proof.
  intros H Hs Hp. unfold kmalloc.
  destruct (Z.eqb_spec size 0) as [->|Hz]; [by exists 0, h; rewrite decide_True|].
  destruct (Z.eqb_spec size PAGE_FRAME_SIZE); [done|].
  destruct (list_alloc_spec h size H ltac:(lia)) as (r & h' & E & H' & _ & Hl & D). pose proof (list_alloc_stack _ _ _ _ E) as Hse.
  rewrite E. destruct D as [?|(p & -> & Hn & Hh & Hlo & Hhi)].
  - exists r, h'. rewrite decide_False by done. split_and!; try done. by left.
  - exists (p + 4), h'. rewrite decide_False by done. split_and!; try done. right. pose proof (hp_high h' H'). rewrite Hse in *.
    replace (p + 4 - 4) with p by lia. split_and!; [lia|lia|lia|done|].
    intros q m Hq. assert (Hpq : p <> q) by (intros ->; congruence).
    destruct (blocks_disjoint h' p (size + 4) q m H'); [|rewrite Hh|done|lia|lia].
    + by rewrite Hh, lookup_insert_eq.
    + by rewrite lookup_insert_ne.
Qed.

(** C24: Freeing a block of at least eight bytes, size word included, removes
    its size word and no other, and keeps the heap well formed: its memory is a
    node of the free list again, joined with free neighbours. *)
Theorem kfree_correct (h : kheap) (p n : Z) :
  heap_ok h -> headers h !! p = Some n -> 8 <= n ->
  exists h', kfree h (p + 4) = Ret h' /\ heap_ok h' /\ headers h' = delete p (headers h) /\
    exists a s, (a, s) ∈ free_list h' /\ a <= p /\ p + n <= a + 8 + s.
Proof.
  intros H Hp Hn. pose proof H as [[ts T] _ _ _].
  apply elem_of_map_to_list in Hp. rewrite (tl_used h ts T) in Hp.
  apply used_of_split in Hp as (ts1 & ts2 & -> & ->).
  destruct (kfree_tiles h ts1 ts2 n H T Hn) as (h' & E & Hh & Hd & T' & Es).
  exists h'. split; [done|]. split; [apply (carve_heap_ok h); [done..|by eexists]|].
  split; [done|]. rewrite (tl_free h' _ T').
  replace (kheap_start h') with (kheap_start h) by (by rewrite Es).
  apply coal_covers; [|done|done|].
  - pose proof (tl_ok h _ T) as Hok. apply Forall_app in Hok as [? [_ ?]%Forall_cons].
    apply Forall_app. split; [done|]. by constructor.
  - left. simpl. rewrite Z.add_0_r, free_of_app. apply elem_of_app. right. by left.
Qed.

(** When the free list has no adjacent nodes and the heap need not grow,
    freeing a block of at least four bytes right after its allocation gives back
    the free list and the size words as they were. *)
Theorem kmalloc_kfree (h : kheap) (ts : list tile) (size r : Z) (h' : kheap) :
  heap_ok h -> tiled h ts -> coal None ts = ts ->
  4 <= size < 2 ^ 31 -> size <> PAGE_FRAME_SIZE ->
  kmalloc h size = Ret (r, h') -> kheap_end h' = kheap_end h -> r <> 0 ->
  exists h'', kfree h' r = Ret h'' /\ free_list h'' = free_list h /\ headers h'' = headers h.
Proof.
  intros H T Hc Hs Hp E Hend Hr. pose proof H as [_ Hlo Hhi Hst]. unfold PAGE_FRAME_SIZE in *.
  destruct (no_growth h size r h' H) as (pre & n & post & prev & El & Hn & Ec); try done; [lia|].
  destruct (carve_spec h ts (size + 4) pre n post prev T) as
    (p & h1 & Ec' & Hf & Hh & (ts1 & ts2 & m & -> & -> & T1) & _ & _ & E1); [lia|lia|done|lia|].
  rewrite Ec in Ec'. injection Ec' as -> ->.
  assert (Hst1 : kheap_start h1 = kheap_start h) by (by rewrite E1).
  assert (H1 : heap_ok h1) by (apply (carve_heap_ok h); [done..|by eexists]).
  rewrite cons_middle, app_assoc in T1.
  destruct (kfree_tiles h1 _ ts2 (size + 4) H1 T1) as (h2 & E2 & _ & Hd & T2 & Es); [lia|].
  rewrite tsum_app in E2, Hd. simpl in E2, Hd. rewrite Z.add_0_r, Z.add_assoc, Hst1 in E2, Hd.
  exists h2. split; [done|]. split.
  - rewrite (tl_free h2 _ T2), (tl_free h _ T), <- app_assoc. cbn [app].
    rewrite coal_join. replace (m - (size + 4) + (size + 4)) with m by lia. rewrite Hc.
    by rewrite Es, <- Hst1.
  - rewrite Hd, Hh. by rewrite delete_insert_id.
Qed.

(** ** The heap the kernel starts with *)

Definition heap0 : kheap :=
  match vmm_init with Ret h => h | _ => vmm_kheap_list_init KHEAP_LIST_START end.

Lemma heap0_tiled : tiled heap0 [TFree 4084; TUsed 12].
Proof.
  split.
  - repeat constructor; simpl; lia.
  - by vm_compute.
  - by eexists _, _.
  - by vm_compute.
  - replace (headers heap0) with ({[0xD0000FF4 := 12]} : gmap Z Z) by (by vm_compute).
    rewrite map_to_list_singleton. by vm_compute.
Qed.

(** [vmm_init] leaves a well-formed heap in which the only block in use is
    the node of the page stack. *)
Theorem vmm_init_ok :
  exists h, vmm_init = Ret h /\ heap_ok h /\ headers h = {[0xD0000FF4 := 12]} /\
    kheap_stack_last h = SNode 0xD0000FF8 KHEAP_BLOCK_START SNull.
Proof.
  exists heap0. split; [by vm_compute|]. split; [|split; by vm_compute].
  split; [eexists; exact heap0_tiled|by vm_compute..].
Qed.

Lemma heap0_ok : heap_ok heap0.
Proof. split; [eexists; exact heap0_tiled|by vm_compute..]. Qed.

Lemma kmalloc_correct_witness :
  exists r h', kmalloc heap0 5000 = Ret (r, h') /\ heap_ok h'.
Proof.
  destruct (kmalloc_correct heap0 5000 heap0_ok) as (r & h' & E & H & _); [lia|done|].
  exact (ex_intro _ r (ex_intro _ h' (conj E H))).
Defined.

Lemma kfree_correct_witness :
  exists h', kfree heap0 0xD0000FF8 = Ret h' /\ heap_ok h'.
Proof.
  destruct (kfree_correct heap0 0xD0000FF4 12 heap0_ok) as (h' & E & H & _); [by vm_compute|lia|].
  exact (ex_intro _ h' (conj E H)).
Defined.

Lemma kmalloc_kfree_witness :
  exists r h' h'', kmalloc heap0 100 = Ret (r, h') /\ kfree h' r = Ret h'' /\
    free_list h'' = free_list heap0.
Proof.
  destruct (kmalloc heap0 100) as [[r h']| | |] eqn:E; [|by vm_compute in E ..].
  destruct (kmalloc_kfree heap0 _ 100 r h' heap0_ok heap0_tiled) as (h'' & E' & Hf & _);
    [done|lia|done|exact E|vm_compute in E; by injection E as <- <-|
     vm_compute in E; by injection E as <- <-|].
  exact (ex_intro _ r (ex_intro _ h' (ex_intro _ h'' (conj eq_refl (conj E' Hf))))).
Defined.

(** A block of fewer than four bytes is smaller than a node. Freeing it while
    its neighbours are in use makes a node whose size has wrapped round, and
    the next large request is served from below the heap. *)
Theorem kfree_small_block :
  (let! h := vmm_init in
   let! (p, h) := kmalloc h 1 in
   let! (q, h) := kmalloc h 16 in
   let! h := kfree h p in
   let! (r, h') := kmalloc h 0x10000000 in
   Ret (free_list h, kheap_start h', r)) =
  Ret ([(0xD0000000, 4051); (0xD0000FEF, 2 ^ 32 - 3)], 0xD0000000, 0xC0000FF4).
Proof. vm_compute. reflexivity. Qed.

(** A page given back leaves [kheap_stack_last] pointing into the stack frame
    of [kfree]: the next page request follows it. *)
Theorem kfree_page_dangling :
  (let! h := vmm_init in
   let! (p, h) := kmalloc h PAGE_FRAME_SIZE in
   let! h := kfree h p in
   kmalloc h PAGE_FRAME_SIZE) = Undef.
Proof. vm_compute. reflexivity. Qed.
