(* ===== verification/VmmPages.v ===== *)
(** The kernel heap on top of paging: src/src/kernel/memory/vmm.c asks
    [page_get_pt_entry] for every page by which it grows.  Vmm.v keeps these
    calls in [mapped]; here they run on the page tables of Page.v, so that the
    memory [kmalloc] returns is memory the MMU reaches. *)

From Stdlib Require Import ZArith Lia.
From stdpp Require Import base numbers list gmap.
From S2P Require Import Prelude Frames Pmm Page Vmm.

Section HeapPages.
Context {st : Type} `{!FrameAllocator st}.
Local Notation vm := (vm st).

(** ** Operations *)

(** [page_get_pt_entry(page_directory, a, PAGE_ALLOC)] for one page after the
    other. *)
Fixpoint map_calls (m : vm) (page_directory : Z) (l : list Z) : outcome vm :=
  match l with
  | [] => Ret m
  | a :: l => let! (_, m) := page_get_pt_entry m page_directory a PAGE_ALLOC in map_calls m page_directory l
  end.

Lemma map_calls_app (m m1 : vm) (d : Z) (l l' : list Z) :
  map_calls m d l = Ret m1 -> map_calls m d (l ++ l') = map_calls m1 d l'.
Proof.
  revert m. induction l as [|a l IH]; intros m; cbn [map_calls app]; [by intros [= ->]|].
  intros (p & Ep & E)%obind_inv. rewrite Ep. destruct p as [e m']. cbn [obind]. by apply IH.
Qed.

(** The calls made between two states of the heap, in their order. *)
Definition new_calls (h h' : kheap) : list Z := rev (take (length (mapped h') - length (mapped h)) (mapped h')).

Definition kmalloc_paged (m : vm) (h : kheap) (size : Z) : outcome (Z * kheap * vm) :=
  let! (r, h') := kmalloc h size in
  let! m := map_calls m (cr3 m) (new_calls h h') in
  Ret (r, h', m).

Definition vmm_init_paged (m : vm) : outcome (kheap * vm) :=
  let! h := vmm_init in
  let! m := map_calls m (cr3 m) (rev (mapped h)) in
  Ret (h, m).

Fixpoint kmallocs (m : vm) (h : kheap) (sizes : list Z) : outcome (list Z * kheap * vm) :=
  match sizes with
  | [] => Ret ([], h, m)
  | size :: sizes =>
      let! (r, h, m) := kmalloc_paged m h size in
      let! (rs, h, m) := kmallocs m h sizes in
      Ret (r :: rs, h, m)
  end.

(** ** Memory that belongs to one page *)

(** The address is mapped, and no address of another page to the same frame. *)
Definition private (m : vm) (v : Z) : Prop :=
  exists f, walk m v = Some f /\ forall w, user_addr w -> walk m w = Some f -> w / 4096 = v / 4096.

(** At least [n] frames are free. *)
Definition supply (m : vm) (n : nat) : Prop :=
  exists l, NoDup l /\ Forall (frame_free (frames m)) l /\ (n <= length l)%nat.

Lemma walk_page (m : vm) (v w : Z) : v / 4096 = w / 4096 -> walk m v = walk m w.
Proof.
  intros E. pose proof (indices_eq v w) as I. rewrite E, Z.eqb_refl in I.
  apply andb_true_iff in I as [I1%Z.eqb_eq I2%Z.eqb_eq]. unfold walk. by rewrite I1, I2.
Qed.

Lemma private_page (m : vm) (v w : Z) : v / 4096 = w / 4096 -> private m v -> private m w.
Proof. intros E (f & Hf & Hu). exists f. rewrite <- (walk_page m v w E), <- E. done. Qed.

Lemma without_absent (l : list Z) (a : Z) : a ∉ l -> filter (.≠ a) l = l.
Proof.
  induction l as [|x l IH]; [done|]. rewrite not_elem_of_cons. intros [Hx Hl]. rewrite filter_cons, IH by done.
  by rewrite decide_True.
Qed.

Lemma length_without (l : list Z) (a : Z) : NoDup l -> (length l <= S (length (filter (.≠ a) l)))%nat.
Proof.
  induction 1 as [|x l Hx _ IH]; [simpl; lia|]. rewrite filter_cons. case_decide as E; simpl; [lia|].
  destruct (decide (x = a)) as [->|]; [|done]. by rewrite without_absent.
Qed.

Lemma supply_step (m m' : vm) (n : nat) (a b : Z) :
  (forall g, g <> a -> g <> b -> frame_free (frames m) g -> frame_free (frames m') g) -> supply m (S (S n)) -> supply m' n.
Proof.
  intros Hk (l & Hnd & Hl & Hn). exists (filter (.≠ b) (filter (.≠ a) l)). split_and!.
  - by do 2 apply NoDup_filter.
  - rewrite Forall_forall in Hl |- *. intros g. rewrite !list_elem_of_filter. intros (Hb & Ha & Hg). auto.
  - pose proof (length_without l a Hnd). pose proof (length_without _ b (NoDup_filter (.≠ a) l Hnd)). lia.
Qed.

Lemma supply_two (m : vm) (n : nat) :
  supply m (S (S n)) -> exists g h, g <> h /\ frame_free (frames m) g /\ frame_free (frames m) h.
Proof.
  intros ([|g [|h l]] & Hnd & Hl & Hn); simpl in Hn; try lia.
  apply NoDup_cons in Hnd as [Hg _]. apply Forall_cons in Hl as [? [? _]%Forall_cons].
  exists g, h. split_and!; [|done..]. intros ->. by apply Hg; left.
Qed.

(** ** A run of pages *)

Fixpoint page_run (a : Z) (n : nat) : list Z :=
  match n with O => [] | S n => a :: page_run (a + 4096) n end.

Lemma length_page_run (a : Z) (n : nat) : length (page_run a n) = n.
Proof. revert a. induction n; intros a; simpl; [done|]. by rewrite IHn. Qed.

(** Mapping a stretch changes nothing outside it and fills it with frames that
    were free. *)
Definition mapped_range (m m' : vm) (a b : Z) : Prop :=
  (forall v, user_addr v -> ~ a <= v < b -> walk m' v = walk m v) /\
  (forall v, a <= v < b -> exists f, walk m' v = Some f /\ frame_free (frames m) f) /\
  (forall g, frame_free (frames m') g -> frame_free (frames m) g).

Lemma private_kept (m m' : vm) (a b v : Z) :
  vm_ok m -> mapped_range m m' a b -> user_addr v -> ~ a <= v < b -> private m v -> private m' v.
Proof.
  intros OK (Ho & Hi & _) Hv Hn (f & Hf & Hu). exists f. rewrite Ho by done. split; [done|]. intros w Hw Ew.
  destruct (decide (a <= w < b)) as [Hr|Hr]; [|apply Hu; [done|]; by rewrite <- Ho].
  destruct (Hi w Hr) as (g & Eg & Hg). rewrite Ew in Eg. injection Eg as <-. by destruct (ok_leaf m OK v f Hv Hf).
Qed.

Lemma aligned_page (a v : Z) : a mod 4096 = 0 -> (v / 4096 = a / 4096 <-> a <= v < a + 4096).
Proof.
  intros Ha. pose proof (Z.div_mod a 4096). split.
  - intros E. pose proof (Z.div_mod v 4096). pose proof (Z.mod_pos_bound v 4096). lia.
  - intros Hv. symmetry. apply (Z.div_unique v _ _ (v - a)); lia.
Qed.

Lemma aligned_next (a : Z) : a mod 4096 = 0 -> (a + 4096) mod 4096 = 0.
Proof. intros H. by rewrite <- (Z.mul_1_l 4096), Z.mod_add, Z.mul_1_l by lia. Qed.

Lemma map_one (m : vm) (a : Z) (n : nat) :
  vm_ok m -> user_addr a -> a mod 4096 = 0 -> walk m a = None -> supply m (S (S n)) ->
  exists m1, map_calls m (cr3 m) [a] = Ret m1 /\ vm_ok m1 /\ cr3 m1 = cr3 m /\ supply m1 n /\
    mapped_range m m1 a (a + 4096) /\ private m1 a.
Proof.
  intros OK Ha Hal Hna Hsup.
  destruct (get_pt_entry_spec m a OK Ha (supply_two m _ Hsup)) as (m1 & f & E & OK1 & Hw & [?|[_ Hf]] & Ho & Hc & (x & y & Hk) & Hless);
    [congruence|].
  exists m1. simpl. rewrite E. split_and!; try done; [|split; [|split; [|done]]|].
  - exact (supply_step m m1 n x y Hk Hsup).
  - intros v Hv Hn. apply Ho; [done|]. by rewrite aligned_page.
  - intros v Hv. exists f. split; [|done]. by rewrite (walk_page m1 v a) by (by apply aligned_page).
  - exists f. split; [done|]. intros w Hw' Ew. destruct (decide (w / 4096 = a / 4096)) as [|Hne]; [done|].
    rewrite Ho in Ew by done. by destruct (ok_leaf m OK w f Hw' Ew).
Qed.

Lemma range_join (m m1 m2 : vm) (a b c : Z) :
  0 <= a -> a <= b <= c -> c <= PDE_LAST_INDEX_START -> mapped_range m m1 a b -> mapped_range m1 m2 b c -> mapped_range m m2 a c.
Proof.
  intros H0 Hb Hc (O1 & I1 & L1) (O2 & I2 & L2). split_and!; [|intros v Hv|auto].
  - intros v Hv Hn. rewrite O2 by (done || lia). apply O1; [done|lia].
  - destruct (decide (v < b)).
    + destruct (I1 v) as (f & Ef & Hf); [lia|]. exists f. rewrite O2; [done|unfold user_addr; lia|lia].
    + destruct (I2 v) as (f & Ef & Hf); [lia|]. exists f. auto.
Qed.

Lemma map_run (n : nat) : forall (m : vm) (a : Z) (k : nat),
  vm_ok m -> 0 <= a -> a + 4096 * Z.of_nat n <= PDE_LAST_INDEX_START -> a mod 4096 = 0 ->
  (forall v, a <= v < a + 4096 * Z.of_nat n -> walk m v = None) -> supply m (2 * n + k) ->
  exists m', map_calls m (cr3 m) (page_run a n) = Ret m' /\ vm_ok m' /\ cr3 m' = cr3 m /\ supply m' k /\
    mapped_range m m' a (a + 4096 * Z.of_nat n) /\
    (forall v, a <= v < a + 4096 * Z.of_nat n -> private m' v).
Proof.
  induction n as [|n IH]; intros m a k OK H0 Hm Hal Hnone Hsup.
  { exists m. simpl. split_and!; try done; [unfold mapped_range; split_and!; [done| |done]|]; intros; lia. }
  replace (2 * S n + k)%nat with (S (S (2 * n + k))) in Hsup by lia.
  destruct (map_one m a (2 * n + k) OK) as (m1 & E1 & OK1 & C1 & S1 & M1 & P1);
    [unfold user_addr; lia|done|apply Hnone; lia|exact Hsup|].
  destruct (IH m1 (a + 4096) k OK1) as (m2 & E2 & OK2 & C2 & S2 & M2 & P2);
    [lia|lia|by apply aligned_next| |done|].
  { intros v Hv. rewrite (proj1 M1); [apply Hnone; lia|unfold user_addr; lia|lia]. }
  exists m2. cbn [page_run map_calls] in *. apply obind_inv in E1 as ([e m0] & -> & [= ->]). cbn [obind].
  rewrite C1 in E2. split_and!; try done; [congruence| |].
  { apply (range_join m m1 m2 a (a + 4096)); [lia|lia|lia|done|]. by replace (a + 4096 * Z.of_nat (S n)) with (a + 4096 + 4096 * Z.of_nat n) by lia. }
  intros v Hv. destruct (decide (v < a + 4096)) as [Hl|Hl]; [|apply P2; lia].
  eapply private_kept; [exact OK1|exact M2|unfold user_addr; lia|lia|].
  eapply private_page, P1. symmetry. apply aligned_page; [done|lia].
Qed.
End HeapPages.

(** ** How far the heap grows *)

(** Joining keeps what is free at the end together. *)
Lemma coal_last (acc : option Z) (ts : list tile) (k : Z) :
  0 <= default 0 acc -> Forall tile_ok ts ->
  exists ts' k', coal acc (ts ++ [TFree k]) = ts' ++ [TFree k'] /\ k <= k'.
Proof.
  intros Ha Hts. revert acc Ha. induction Hts as [|t ts Ht _ IH]; intros acc Ha.
  - destruct acc as [n|]; simpl in *; [exists [], (n + k)|exists [], k]; split; try done; lia.
  - destruct t as [n|n]; simpl in Ht.
    + destruct acc as [m|]; simpl in *; apply IH; simpl; lia.
    + destruct (IH None) as (ts' & k' & E & Hk); [done|].
      destruct acc as [m|]; simpl; rewrite E; [exists (TFree m :: TUsed n :: ts'), k'|exists (TUsed n :: ts'), k']; done.
Qed.

(** At least [n] bytes are free at the end of the heap. *)
Definition tail_free (h : kheap) (n : Z) : Prop := n = 0 \/ exists ts k, tiled h (ts ++ [TFree k]) /\ n <= k.

Lemma grow_tail (h : kheap) (n : Z) :
  heap_ok h -> kheap_end h < 2 ^ 32 - 4096 -> 0 <= n -> tail_free h n ->
  exists l, free_list h <> [] /\
    vmm_merge_free_block (free_list h ++ [(kheap_end h, PAGE_FRAME_SIZE - sizeof_node)]) = Ret l /\
    let h' := grow h l (u32 (kheap_end h + PAGE_FRAME_SIZE)) in
    kheap_end h' = kheap_end h + 4096 /\ tail_free h' (n + 4096) /\ exists ts, tiled h' ts.
Proof.
  intros [[ts T] Hlo _ _] He Hn Ht.
  assert (Hcut : exists ts k, tiled h ts /\ coal None (ts ++ [TFree 4096]) = coal None (k.1 ++ [TFree k.2]) /\
    Forall tile_ok k.1 /\ n + 4096 <= k.2).
  { destruct Ht as [->|(ts1 & k & T1 & Hk)].
    - exists ts, (ts, 4096). split_and!; [done|done|apply T|simpl; lia].
    - exists (ts1 ++ [TFree k]), (ts1, k + 4096). split_and!; [done| | |simpl; lia].
      + rewrite <- app_assoc. apply coal_join.
      + pose proof (tl_ok h _ T1) as Hok. by apply Forall_app in Hok as [? _]. }
  destruct Hcut as (ts0 & [ts1 k] & T0 & E & Hok & Hk). simpl in *.
  destruct (grow_spec h ts0 T0) as (l & Hne & Hm & T' & Hend); [lia|done|].
  destruct (coal_last None ts1 k) as (ts' & k' & E' & Hk'); [done|done|].
  exists l. split_and!; try done; [|by eexists]. right. rewrite E, E' in T'. exists ts', k'. split; [done|lia].
Qed.

Lemma tail_node (h : kheap) (n : Z) : 0 < n -> tail_free h n -> exists p s, (p, s) ∈ free_list h /\ n <= s + 8.
Proof.
  intros Hn [->|(ts & k & T & Hk)]; [lia|]. exists (kheap_start h + tsum ts), (k - 8). rewrite (tl_free h _ T), free_of_app.
  split; [|lia]. apply elem_of_app. right. by left.
Qed.

(** The loop adds pages one after the other, and no more than the request
    needs. *)
Lemma enlarge_pages (fuel : nat) : forall (h h' : kheap) (prev : option (Z * Z)) (size j k : Z) r,
  heap_ok h -> enlarge fuel h prev size = Ret (h', r) -> 0 <= j < k -> tail_free h (4096 * j) ->
  size + 8 < 4096 * k -> kheap_end h + 4096 * (k - j) <= kheap_stack_end h ->
  exists n : nat, (1 <= n)%nat /\ Z.of_nat n <= k - j /\ kheap_end h' = kheap_end h + 4096 * Z.of_nat n /\
    mapped h' = rev (page_run (kheap_end h) n) ++ mapped h /\
    kheap_stack_end h' = kheap_stack_end h /\ kheap_stack_start h' = kheap_stack_start h /\ r <> None.
Proof.
  induction fuel as [|fuel IH]; intros h h' prev size j k r H E Hj Ht Hk Hroom; [done|]. cbn [enlarge] in E.
  destruct (Z.ltb_spec (kheap_stack_end h) (kheap_end h)); [lia|].
  pose proof H as [_ Hlo Hhi Hst]. unfold PAGE_FRAME_SIZE in Hst.
  destruct (grow_tail h (4096 * j) H) as (l & Hne & Hm & Hend & Ht' & Hts); [lia|lia|done|].
  destruct (free_list h) as [|x l0] eqn:El; [done|]. rewrite Hm in E. cbn [obind] in E.
  set (h1 := grow h l _) in *.
  assert (H1 : heap_ok h1).
  { split; [done|done|rewrite Hend; unfold PAGE_FRAME_SIZE; change (kheap_stack_end h1) with (kheap_stack_end h); lia|done]. }
  destruct (vmm_get_node l prev size) as [[[[pre n] post]|] p] eqn:Eg.
  - injection E as <- <-. exists 1%nat. split_and!; try done; lia.
  - assert (Hj1 : j + 1 < k).
    { destruct (tail_node h1 (4096 * j + 4096)) as (a & s & Hin & Hs); [lia|done|].
      pose proof (proj1 (Forall_forall _ _) (get_node_none _ _ _ _ Eg) (a, s) Hin) as Hle. simpl in Hle. lia. }
    destruct (IH h1 h' p size (j + 1) k r H1 E) as (n & Hn & Hle & He & Hmap & Hse & Hss & Hr);
      [lia|by replace (4096 * (j + 1)) with (4096 * j + 4096) by lia|done|
       rewrite Hend; change (kheap_stack_end h1) with (kheap_stack_end h); lia|].
    exists (S n). rewrite He, Hend, Hmap, Hend. split_and!; try done; try lia.
    simpl. by rewrite <- app_assoc.
Qed.

Lemma carve_fields (h h' : kheap) (size r : Z) (pre : list (Z * Z)) (n : Z * Z) (post : list (Z * Z)) (prev : option (Z * Z)) :
  carve h size pre n post prev = Ret (r, h') -> h' = set_list h (free_list h') (headers h').
Proof. unfold carve. intros E. repeat case_match; by simplify_eq. Qed.

(** The pages a request needs at most, when nothing is free at the end. *)
Definition pages_for (size : Z) : Z := (size + 12) / 4096 + 1.

Lemma pages_for_pos (size : Z) : 0 < size -> 1 <= pages_for size.
Proof. intros. unfold pages_for. pose proof (Z.div_pos (size + 12) 4096). lia. Qed.

(** A request for which the heap has room succeeds and grows the heap by a run
    of pages. *)
Lemma list_alloc_pages (h : kheap) (size : Z) :
  heap_ok h -> 0 < size < 2 ^ 31 -> kheap_end h + 4096 * pages_for size <= kheap_stack_end h ->
  exists p h' (n : nat), vmm_list_alloc h size = Ret (p + 4, h') /\ heap_ok h' /\
    headers h !! p = None /\ headers h' = <[p := size + 4]> (headers h) /\ kheap_start h' <= p /\ p + (size + 4) <= kheap_end h' /\
    Z.of_nat n <= pages_for size /\ kheap_start h' = kheap_start h /\ kheap_end h' = kheap_end h + 4096 * Z.of_nat n /\
    mapped h' = rev (page_run (kheap_end h) n) ++ mapped h /\
    kheap_stack_end h' = kheap_stack_end h /\ kheap_stack_start h' = kheap_stack_start h /\
    kheap_stack_last h' = kheap_stack_last h.
Proof.
  intros H Hs Hroom. pose proof (pages_for_pos size).
  destruct (list_alloc_spec h size H Hs) as (r & h' & E & H' & Hst & Hsl & Hr).
  assert (Hg : exists n : nat, Z.of_nat n <= pages_for size /\ kheap_end h' = kheap_end h + 4096 * Z.of_nat n /\
    mapped h' = rev (page_run (kheap_end h) n) ++ mapped h /\
    kheap_stack_end h' = kheap_stack_end h /\ kheap_stack_start h' = kheap_stack_start h).
  { pose proof E as E0. unfold vmm_list_alloc, sizeof_size_t in E0. rewrite u32_small in E0 by lia.
    destruct (vmm_get_node (free_list h) None (size + 4)) as [[[[pre x] post]|] q] eqn:Eg.
    - apply carve_fields in E0 as ->. exists O. simpl. split_and!; try done; lia.
    - apply obind_inv in E0 as ([h1 res] & Ee & E0).
      destruct (enlarge_pages _ h h1 q (size + 4) 0 (pages_for size) res H Ee) as (n & _ & Hn & He & Hm & Hse & Hss & Hne);
        [lia|by left| |by rewrite Z.sub_0_r|].
      { unfold pages_for. pose proof (Z.mul_succ_div_gt (size + 12) 4096). lia. }
      destruct res as [[[[pre y] post] q']|]; [|done]. apply carve_fields in E0 as ->.
      exists n. simpl. split_and!; try done; lia. }
  destruct Hg as (n & Hn & He & Hm & Hse & Hss).
  destruct Hr as [(_ & _ & Hov)|(p & -> & Hf & Hh & Hlo & Hhi)]; [lia|].
  exists p, h', n. split_and!; done.
Qed.

(** ** The heap in memory *)

Section Backed.
Context {st : Type} `{!FrameAllocator st}.
Local Notation vm := (vm st).

(** Every page of the two parts of the heap is mapped, to a frame of its own;
    nothing is mapped between them yet. *)
Record backed (m : vm) (h : kheap) : Prop := {
  bk_aligned : kheap_end h mod 4096 = 0;
  bk_top : kheap_stack_start h <= PDE_LAST_INDEX_START;
  bk_list v : kheap_start h <= v < kheap_end h -> private m v;
  bk_stack v : kheap_stack_end h <= v < kheap_stack_start h -> private m v;
  bk_gap v : kheap_end h <= v < kheap_stack_end h -> walk m v = None;
}.

Lemma new_calls_run (h h' : kheap) (l : list Z) : mapped h' = rev l ++ mapped h -> new_calls h h' = l.
Proof.
  intros E. unfold new_calls. rewrite E, length_app, Nat.add_sub, take_app_length. apply rev_involutive.
Qed.

Lemma kmalloc_paged_ok (m : vm) (h : kheap) (size : Z) (k : nat) :
  vm_ok m -> heap_ok h -> backed m h -> 0 < size < 2 ^ 31 -> size <> PAGE_FRAME_SIZE ->
  kheap_end h + 4096 * pages_for size <= kheap_stack_end h ->
  supply m (2 * Z.to_nat (pages_for size) + k) ->
  exists p h' m', kmalloc_paged m h size = Ret (p + 4, h', m') /\ vm_ok m' /\ heap_ok h' /\ backed m' h' /\
    headers h !! p = None /\ headers h' = <[p := size + 4]> (headers h) /\ kheap_start h' <= p /\ p + (size + 4) <= kheap_end h' /\
    kheap_end h <= kheap_end h' <= kheap_end h + 4096 * pages_for size /\ kheap_stack_end h' = kheap_stack_end h /\
    kheap_start h' = kheap_start h /\ supply m' k /\
    (forall v, user_addr v -> ~ kheap_end h <= v < kheap_stack_end h -> walk m' v = walk m v) /\
    kheap_stack_start h' = kheap_stack_start h /\ kheap_stack_last h' = kheap_stack_last h.
Proof.
  intros OK H [Ba Bt Bl Bs Bg] Hs Hp Hroom Hsup.
  destruct (list_alloc_pages h size H Hs Hroom) as (p & h' & n & E & H' & Hf & Hh & Hlo & Hhi & Hn & Hst & He & Hm & Hse & Hss & Hsl).
  pose proof H as [_ Hlow _ Hstk]. unfold PAGE_FRAME_SIZE in Hstk. destruct H as [[ts T] _ _ _].
  pose proof (tsum_nonneg ts (tl_ok h ts T)). pose proof (tl_sum h ts T).
  destruct (map_run n m (kheap_end h) (k + 2 * (Z.to_nat (pages_for size) - n)) OK) as (m' & Em & OK' & C' & S' & M' & P');
    [lia|lia|done|intros v Hv; apply Bg; lia|by replace (2 * n + (k + 2 * (Z.to_nat (pages_for size) - n)))%nat
      with (2 * Z.to_nat (pages_for size) + k)%nat by lia|].
  exists p, h', m'. unfold kmalloc_paged, kmalloc.
  destruct (Z.eqb_spec size 0); [lia|]. destruct (Z.eqb_spec size PAGE_FRAME_SIZE); [done|].
  rewrite E. cbn [obind]. rewrite (new_calls_run h h' _ Hm), Em. split_and!; try done; try lia.
  - assert (Hkeep : forall v, user_addr v -> ~ kheap_end h <= v < kheap_end h' -> private m v -> private m' v).
    { intros v Hv Hn' Hpv. eapply private_kept; [exact OK|exact M'|done|lia|done]. }
    split.
    + rewrite He. replace (4096 * Z.of_nat n) with (Z.of_nat n * 4096) by lia. by rewrite Z.mod_add by lia.
    + by rewrite Hss.
    + intros v Hv. rewrite He, Hst in Hv. destruct (decide (v < kheap_end h)).
      * apply Hkeep; [unfold user_addr; lia|lia|apply Bl; lia].
      * apply P'. lia.
    + intros v Hv. rewrite Hse, Hss in Hv. apply Hkeep; [unfold user_addr; lia|lia|by apply Bs].
    + intros v Hv. rewrite Hse in Hv. rewrite (proj1 M'); [apply Bg; lia|unfold user_addr; lia|lia].
  - destruct S' as (l & ? & ? & ?). exists l. split_and!; try done. lia.
  - intros v Hv Hg. apply (proj1 M'); [done|lia].
Qed.
End Backed.

(** ** From the start of the heap *)

Section HeapRun.
Context {st : Type} `{!FrameAllocator st}.
Local Notation vm := (vm st).

(** The window of the heap. *)
Definition in_window (v : Z) : Prop := KHEAP_LIST_START <= v < 0xE0000000.

Lemma vmm_init_backed (m : vm) (k : nat) :
  vm_ok m -> (forall v, in_window v -> walk m v = None) -> supply m (4 + k) ->
  exists m', vmm_init_paged m = Ret (heap0, m') /\ vm_ok m' /\ backed m' heap0 /\ supply m' k /\
    (forall v, user_addr v -> ~ in_window v -> walk m' v = walk m v).
Proof.
  intros OK Hw Hsup. unfold in_window, KHEAP_LIST_START in *.
  destruct (map_run 1 m 0xD0000000 (2 + k) OK) as (m1 & E1 & OK1 & C1 & S1 & M1 & P1);
    [done|done|done|intros v Hv; apply Hw; lia|exact Hsup|].
  destruct (map_run 1 m1 0xDFFFF000 k OK1) as (m2 & E2 & OK2 & C2 & S2 & M2 & P2); [done|done|done| |exact S1|].
  { intros v Hv. rewrite (proj1 M1); [apply Hw; lia|unfold user_addr, PDE_LAST_INDEX_START; lia|lia]. }
  exists m2. unfold vmm_init_paged. replace vmm_init with (Ret heap0) by (by vm_compute). cbn [obind].
  change (rev (mapped heap0)) with ([0xD0000000] ++ [0xDFFFF000]).
  rewrite (map_calls_app m m1 _ _ _ E1), <- C1. cbn [page_run] in E2. rewrite E2. cbn [obind].
  assert (Hend : kheap_end heap0 = 0xD0001000 /\ kheap_start heap0 = 0xD0000000 /\ kheap_stack_end heap0 = 0xDFFFF000 /\
    kheap_stack_start heap0 = 0xE0000000) by (by vm_compute).
  destruct Hend as (He & Hs & Hse & Hss). split_and!; try done; [split|]; rewrite ?He, ?Hs, ?Hse, ?Hss; try done.
  - intros v Hv. eapply private_kept; [exact OK1|exact M2|unfold user_addr, PDE_LAST_INDEX_START; lia|lia|apply P1; lia].
  - intros v Hv. rewrite (proj1 M2), (proj1 M1); [apply Hw; lia|unfold user_addr, PDE_LAST_INDEX_START; lia|lia|
      unfold user_addr, PDE_LAST_INDEX_START; lia|lia].
  - intros v Hv Hn. rewrite (proj1 M2), (proj1 M1); [done|done|lia|done|lia].
Qed.

Definition total_pages (sizes : list Z) : Z := foldr (fun s n => pages_for s + n) 0 sizes.
Definition request (s : Z) : Prop := 0 < s < 2 ^ 31.

Lemma total_pages_pos (sizes : list Z) : Forall request sizes -> 0 <= total_pages sizes.
Proof. induction 1 as [|s l Hs _ IH]; simpl; [done|]. pose proof (pages_for_pos s). unfold request in Hs. lia. Qed.

(** A block in use lies in the heap. *)
Lemma header_range (h : kheap) (p n : Z) :
  heap_ok h -> headers h !! p = Some n -> kheap_start h <= p /\ p + n <= kheap_end h /\ 4 < n.
Proof.
  intros [[ts T] _ _ _] Hp%elem_of_map_to_list. rewrite (tl_used h ts T) in Hp.
  apply used_of_range in Hp as (H1 & H3 & H2); [|apply T]. pose proof (tl_sum h ts T). simpl in *. lia.
Qed.

(** ** Blocks and pages *)

(** A page of the page stack. *)
Definition stack_page (h : kheap) (r : Z) : Prop :=
  kheap_stack_end h <= r /\ r + 4096 <= kheap_stack_start h /\ r mod 4096 = 0.

(** Where the memory a request got lies: a whole page on the page stack, other
    blocks behind their size words. *)
Definition block_at (h : kheap) (x : Z * Z) : Prop :=
  if decide (x.2 = PAGE_FRAME_SIZE) then stack_page h x.1 else headers h !! (x.1 - 4) = Some (x.2 + 4).

(** The heap with the blocks [bs] in use.  The page stack is as vmm_init left it,
    with one free page described by a node on the heap, or empty. *)
Record serving (m : vm) (h : kheap) (bs : list (Z * Z)) : Prop := {
  sv_vm : vm_ok m;
  sv_heap : heap_ok h;
  sv_backed : backed m h;
  sv_ends : kheap_end h <= kheap_stack_end h /\ kheap_stack_end h mod 4096 = 0;
  sv_blocks : Forall (block_at h) bs;
  sv_distinct : NoDup bs.*1;
  sv_stack : match kheap_stack_last h with
    | SNull => True
    | SNode node addr SNull => headers h !! (node - 4) = Some 12 /\ node ∉ bs.*1 /\ stack_page h addr /\ addr ∉ bs.*1
    | _ => False
    end;
}.

(** A block of the list lies below every page. *)
Lemma block_below (h : kheap) (r n p : Z) :
  heap_ok h -> kheap_end h <= kheap_stack_end h -> headers h !! (r - 4) = Some (n + 4) -> stack_page h p -> r + n <= p.
Proof. intros H He Hr [Hp _]. destruct (header_range h _ _ H Hr). lia. Qed.

Lemma stack_page_frame (h h' : kheap) (r : Z) :
  kheap_stack_end h' <= kheap_stack_end h -> kheap_stack_start h' = kheap_stack_start h -> stack_page h r -> stack_page h' r.
Proof. intros He Hs (H1 & H2 & H3). unfold stack_page. rewrite Hs. split_and!; try done; lia. Qed.

(** A request that is not a whole page. *)
Lemma serve_block (m : vm) (h : kheap) (bs : list (Z * Z)) (s : Z) (k : nat) :
  serving m h bs -> request s -> s <> PAGE_FRAME_SIZE -> kheap_end h + 4096 * pages_for s <= kheap_stack_end h ->
  supply m (2 * Z.to_nat (pages_for s) + k) ->
  exists r h' m', kmalloc_paged m h s = Ret (r, h', m') /\ serving m' h' ((r, s) :: bs) /\ supply m' k /\
    kheap_start h' = kheap_start h /\ kheap_stack_start h' = kheap_stack_start h /\
    kheap_end h <= kheap_end h' /\ kheap_stack_end h' <= kheap_stack_end h /\
    kheap_stack_end h - kheap_end h - 4096 * pages_for s <= kheap_stack_end h' - kheap_end h' /\
    (forall v, user_addr v -> ~ kheap_end h <= v < kheap_stack_end h -> walk m' v = walk m v).
Proof.
  intros [OK H B [He Hal] Hb Hd Hst] Hs Hp Hroom Hsup.
  destruct (kmalloc_paged_ok m h s k OK H B Hs Hp Hroom Hsup)
    as (p & h1 & m1 & E1 & OK1 & H1 & B1 & Hf & Hh & Hlo & Hhi & He1 & Hse1 & Hst1 & S1 & W1 & Hss1 & Hl1).
  assert (Hpage : forall r, stack_page h r -> stack_page h1 r) by (intros r; by apply stack_page_frame; rewrite ?Hse1).
  assert (Hnp : forall r, stack_page h r -> r <> p + 4) by (intros r [Hr _]; unfold request in Hs; lia).
  assert (Hhd : forall q n, headers h !! q = Some n -> headers h1 !! q = Some n /\ q <> p).
  { intros q n Hq. assert (q <> p) by (intros ->; congruence). by rewrite Hh, lookup_insert_ne. }
  exists (p + 4), h1, m1. split_and!; try done; try lia. split; try done; [split; [lia|by rewrite Hse1]| | |].
  - constructor; [unfold block_at; simpl; rewrite decide_False by done; by rewrite Hh, Z.add_simpl_r, lookup_insert_eq|].
    eapply Forall_impl; [exact Hb|]. intros [r n]. unfold block_at. simpl. case_decide; [auto|]. intros ?%Hhd. tauto.
  - simpl. constructor; [|done]. intros ([r n] & Er & Hin)%list_elem_of_fmap. simpl in Er. subst r.
    pose proof (proj1 (Forall_forall _ _) Hb _ Hin) as Hx. unfold block_at in Hx. simpl in Hx. case_decide; [by apply (Hnp _ Hx)|].
    rewrite Z.add_simpl_r in Hx. congruence.
  - rewrite Hl1. destruct (kheap_stack_last h) as [|node addr [| |]|]; try done. destruct Hst as (N1 & N2 & A1 & A2).
    apply Hhd in N1 as [N1 Np]. split_and!; try done; [simpl; rewrite not_elem_of_cons; split; [lia|done]|auto|].
    simpl. rewrite not_elem_of_cons. split; [|done]. by apply Hnp.
Qed.

(** A request of one page with the stack of pages empty: the page below the
    stack, mapped to a frame of its own; the list of the heap stays as it is. *)
Lemma new_page_paged (m : vm) (h : kheap) (k : nat) :
  vm_ok m -> heap_ok h -> backed m h -> kheap_stack_last h = SNull -> kheap_stack_end h mod 4096 = 0 ->
  kheap_end h + PAGE_FRAME_SIZE <= kheap_stack_end h -> supply m (2 + k) ->
  let r := kheap_stack_end h - PAGE_FRAME_SIZE in
  exists h' m', kmalloc_paged m h PAGE_FRAME_SIZE = Ret (r, h', m') /\ vm_ok m' /\ heap_ok h' /\ backed m' h' /\
    headers h' = headers h /\ kheap_start h' = kheap_start h /\ kheap_stack_start h' = kheap_stack_start h /\
    kheap_end h' = kheap_end h /\ kheap_stack_end h' = r /\ kheap_stack_last h' = SNull /\ supply m' k /\
    (forall v, user_addr v -> ~ kheap_end h <= v < kheap_stack_end h -> walk m' v = walk m v).
Proof.
  intros OK H [Ba Bt Bl Bs Bg] Hnull Hal Hroom Hsup r. unfold PAGE_FRAME_SIZE in *.
  destruct H as [[ts T] Hlo Hhi Hst]. unfold PAGE_FRAME_SIZE in *.
  pose proof (tsum_nonneg ts (tl_ok h ts T)). pose proof (tl_sum h ts T).
  destruct (map_run 1 m r k OK) as (m' & E & OK' & _ & S' & M & P); [lia|lia| |intros v Hv; apply Bg; lia|done|].
  { unfold r. rewrite <- (Z.mod_add _ 1) by done. by replace (kheap_stack_end h - 4096 + 1 * 4096) with (kheap_stack_end h) by lia. }
  unfold kmalloc_paged, kmalloc, vmm_block_alloc. change (4096 =? 0) with false. rewrite Z.eqb_refl, Hnull. cbn match.
  destruct (Z.ltb_spec (kheap_stack_end h) (kheap_end h)); [lia|]. cbn [obind]. unfold PAGE_FRAME_SIZE.
  rewrite u32_small by lia. fold r. destruct (Z.eqb_spec r 0); [lia|]. cbn [obind].
  set (h' := mk_kheap _ _ _ _ _ _ _ _). rewrite (new_calls_run h h' [r]) by done. cbn [page_run] in E. rewrite E. cbn [obind].
  assert (Hkeep : forall v, user_addr v -> ~ r <= v < kheap_stack_end h -> private m v -> private m' v).
  { intros v Hv Hn. eapply private_kept; [exact OK|exact M|done|lia]. }
  exists h', m'. split_and!; try done; [split|split|]; try (simpl; unfold PAGE_FRAME_SIZE; lia).
  - exists ts. by destruct T.
  - intros v Hv. apply Hkeep; [unfold user_addr; simpl in Hv; lia|simpl in Hv; lia|by apply Bl].
  - intros v Hv. simpl in Hv. destruct (decide (v < kheap_stack_end h)); [apply P; lia|].
    apply Hkeep; [unfold user_addr; lia|lia|apply Bs; lia].
  - intros v Hv. simpl in Hv. rewrite (proj1 M); [apply Bg; lia|unfold user_addr; lia|lia].
  - intros v Hv Hg. apply (proj1 M); [done|lia].
Qed.

(** The first page comes from the page stack: its node is freed. *)
Lemma serve_stacked (m : vm) (h : kheap) (bs : list (Z * Z)) (node addr : Z) :
  serving m h bs -> kheap_stack_last h = SNode node addr SNull ->
  exists h', kmalloc_paged m h PAGE_FRAME_SIZE = Ret (addr, h', m) /\ serving m h' ((addr, PAGE_FRAME_SIZE) :: bs) /\
    kheap_start h' = kheap_start h /\ kheap_stack_start h' = kheap_stack_start h /\ kheap_end h' = kheap_end h /\
    kheap_stack_end h' = kheap_stack_end h.
Proof.
  intros [OK H [Ba Bt Bl Bs Bg] [He Hal] Hb Hd Hst] El. rewrite El in Hst. destruct Hst as (N1 & N2 & A1 & A2).
  set (h0 := set_stack h SNull). assert (H0 : heap_ok h0) by (destruct H as [[ts [? ? ? ? ?]] ? ? ?]; by split; [exists ts; split|..]).
  pose proof N1 as Hin%elem_of_map_to_list. destruct H0 as [[ts T] L0 U0 S0] eqn:EH0. clear EH0.
  change (headers h) with (headers h0) in Hin. rewrite (tl_used h0 ts T) in Hin. apply used_of_split in Hin as (ts1 & ts2 & -> & Ep).
  destruct (kfree_tiles h0 ts1 ts2 12 H0 T ltac:(lia)) as (h' & Ef & _ & Hdel & T' & Es). rewrite <- Ep in Ef, Hdel.
  replace (node - 4 + 4) with node in Ef by lia.
  assert (H' : heap_ok h') by (apply (carve_heap_ok h0 h' H0 Es); by eexists). pose proof (hp_low h H).
  exists h'. unfold kmalloc_paged, kmalloc, vmm_block_alloc. change (PAGE_FRAME_SIZE =? 0) with false. rewrite Z.eqb_refl, El.
  destruct (Z.ltb_spec (kheap_stack_end h) (kheap_end h)); [lia|]. fold h0. rewrite Ef. cbn [obind].
  destruct (Z.eqb_spec addr 0); [destruct A1, (header_range h _ _ H N1); lia|]. cbn [obind].
  rewrite (new_calls_run h h' []) by (by rewrite Es). split; [done|]. rewrite Es. split_and!; try done.
  split; simpl; try done; [by rewrite <- Es| |].
  - constructor; [unfold block_at; rewrite decide_True by done; done|]. apply Forall_forall. intros [r sz] Hin.
    pose proof (proj1 (Forall_forall _ _) Hb _ Hin) as Hx. unfold block_at in *. simpl in *. case_decide; [done|].
    rewrite Hdel, lookup_delete_ne; [done|]. intros E. apply N2. apply list_elem_of_fmap. exists (r, sz). split; [simpl; lia|done].
  - by constructor.
Qed.

(** Later pages are taken from below the page stack. *)
Lemma serve_new_page (m : vm) (h : kheap) (bs : list (Z * Z)) (k : nat) :
  serving m h bs -> kheap_stack_last h = SNull -> kheap_end h + PAGE_FRAME_SIZE <= kheap_stack_end h -> supply m (2 + k) ->
  let r := kheap_stack_end h - PAGE_FRAME_SIZE in
  exists h' m', kmalloc_paged m h PAGE_FRAME_SIZE = Ret (r, h', m') /\ serving m' h' ((r, PAGE_FRAME_SIZE) :: bs) /\ supply m' k /\
    kheap_start h' = kheap_start h /\ kheap_stack_start h' = kheap_stack_start h /\ kheap_end h' = kheap_end h /\
    kheap_stack_end h' = r /\ (forall v, user_addr v -> ~ kheap_end h <= v < kheap_stack_end h -> walk m' v = walk m v).
Proof.
  intros [OK H B [He Hal] Hb Hd Hst] Hnull Hroom Hsup r.
  destruct (new_page_paged m h k OK H B Hnull Hal Hroom Hsup) as (h' & m' & E & OK' & H' & B' & Hh & Hs & Hss & He' & Hse & Hl & S' & W').
  fold r in E, Hse. assert (Hal' : r mod 4096 = 0).
  { unfold r, PAGE_FRAME_SIZE. rewrite <- (Z.mod_add _ 1) by done. by replace (kheap_stack_end h - 4096 + 1 * 4096) with (kheap_stack_end h) by lia. }
  unfold PAGE_FRAME_SIZE in *. pose proof (hp_stack h H) as Hsk. unfold PAGE_FRAME_SIZE in Hsk.
  assert (Hnew : forall x, x ∈ bs -> x.1 <> r).
  { intros [q n] Hin. pose proof (proj1 (Forall_forall _ _) Hb _ Hin) as Hx. unfold block_at in Hx. simpl in *. case_decide.
    - destruct Hx. lia.
    - pose proof (header_range h _ _ H Hx). intros ->. unfold PAGE_FRAME_SIZE in *. lia. }
  exists h', m'. split_and!; try done. split; try done; [split; [lia|by rewrite Hse]| | |by rewrite Hl].
  - constructor; [unfold block_at; rewrite decide_True by done; unfold stack_page; simpl; rewrite Hse, Hss; split_and!; [lia|lia|done]|].
    eapply Forall_impl; [exact Hb|]. intros [q n]. unfold block_at. simpl. case_decide; [|by rewrite Hh].
    apply stack_page_frame; [lia|done].
  - simpl. constructor; [|done]. intros (x & Ex & Hin)%list_elem_of_fmap. by apply (Hnew x Hin).
Qed.

Lemma serve_ok (m : vm) (h : kheap) (bs : list (Z * Z)) (s : Z) (k : nat) :
  serving m h bs -> request s -> kheap_end h + 4096 * pages_for s <= kheap_stack_end h ->
  supply m (2 * Z.to_nat (pages_for s) + k) ->
  exists r h' m', kmalloc_paged m h s = Ret (r, h', m') /\ serving m' h' ((r, s) :: bs) /\ supply m' k /\
    kheap_start h' = kheap_start h /\ kheap_stack_start h' = kheap_stack_start h /\
    kheap_end h <= kheap_end h' /\ kheap_stack_end h' <= kheap_stack_end h /\
    kheap_stack_end h - kheap_end h - 4096 * pages_for s <= kheap_stack_end h' - kheap_end h' /\
    (forall v, user_addr v -> ~ kheap_end h <= v < kheap_stack_end h -> walk m' v = walk m v).
Proof.
  intros S Hs Hroom Hsup. pose proof (pages_for_pos s ltac:(destruct Hs; lia)).
  destruct (decide (s = PAGE_FRAME_SIZE)) as [->|]; [|by apply serve_block].
  pose proof (sv_stack _ _ _ S) as Hst. destruct (kheap_stack_last h) as [|node addr [| |]|] eqn:El; try done.
  - destruct (serve_new_page m h bs (2 * Z.to_nat (pages_for PAGE_FRAME_SIZE) - 2 + k) S El) as (h' & m' & E & S' & Q & ? & ? & He & Hse & W).
    + unfold PAGE_FRAME_SIZE in *. lia.
    + by replace (2 + (2 * Z.to_nat (pages_for PAGE_FRAME_SIZE) - 2 + k))%nat with (2 * Z.to_nat (pages_for PAGE_FRAME_SIZE) + k)%nat by lia.
    + exists (kheap_stack_end h - PAGE_FRAME_SIZE), h', m'. rewrite He, Hse. unfold PAGE_FRAME_SIZE in *. split_and!; try done; try lia.
      destruct Q as (l & ? & ? & ?). exists l. split_and!; try done. lia.
  - destruct (serve_stacked m h bs node addr S El) as (h' & E & S' & ? & ? & He & Hse).
    exists addr, h', m. rewrite He, Hse. split_and!; try done; try lia.
    destruct Hsup as (l & ? & ? & ?). exists l. split_and!; try done. lia.
Qed.

Lemma kmallocs_ok (sizes : list Z) : forall (m : vm) (h : kheap) (bs : list (Z * Z)) (k : nat),
  serving m h bs -> Forall request sizes -> kheap_end h + 4096 * total_pages sizes <= kheap_stack_end h ->
  supply m (2 * Z.to_nat (total_pages sizes) + k) ->
  exists rs h' m', kmallocs m h sizes = Ret (rs, h', m') /\ length rs = length sizes /\
    serving m' h' (reverse (zip rs sizes) ++ bs) /\ kheap_start h' = kheap_start h /\ kheap_stack_start h' = kheap_stack_start h /\
    (forall v, user_addr v -> ~ kheap_end h <= v < kheap_stack_end h -> walk m' v = walk m v).
Proof.
  induction sizes as [|s sizes IH]; intros m h bs k S Hs Hroom Hsup.
  { by exists [], h, m. }
  apply Forall_cons in Hs as [Hs Hss]. simpl in Hroom, Hsup. pose proof (pages_for_pos s ltac:(destruct Hs; lia)) as Hps.
  pose proof (total_pages_pos sizes Hss) as Hts.
  destruct (serve_ok m h bs s (2 * Z.to_nat (total_pages sizes) + k) S Hs)
    as (r & h1 & m1 & E1 & S1 & Q1 & Hst1 & Hss1 & He1 & Hse1 & Hg1 & W1);
    [lia|by replace (2 * Z.to_nat (pages_for s) + (2 * Z.to_nat (total_pages sizes) + k))%nat
      with (2 * Z.to_nat (pages_for s + total_pages sizes) + k)%nat by lia|].
  destruct (IH m1 h1 ((r, s) :: bs) k S1 Hss) as (rs & h2 & m2 & E2 & L2 & S2 & Hst2 & Hss2 & W2); [lia|done|].
  exists (r :: rs), h2, m2. cbn [kmallocs]. rewrite E1. cbn [obind]. rewrite E2. cbn [zip zip_with]. rewrite reverse_cons, <- app_assoc. cbn [app length].
  split_and!; try done; try congruence. intros v Hv Hn. rewrite W2, W1; [done|done|done|done|lia].
Qed.

(** The memory of a block is mapped to frames of its own. *)
Lemma block_private (m : vm) (h : kheap) (bs : list (Z * Z)) (r s v : Z) :
  serving m h bs -> (r, s) ∈ bs -> r <= v < r + s -> private m v.
Proof.
  intros [_ H B _ Hb _ _] Hin Hv. pose proof (proj1 (Forall_forall _ _) Hb _ Hin) as Hx. unfold block_at in Hx. simpl in Hx.
  case_decide as E.
  - destruct Hx as (H1 & H2 & _). apply (bk_stack _ _ B). unfold PAGE_FRAME_SIZE in E. lia.
  - destruct (header_range h _ _ H Hx). apply (bk_list _ _ B). lia.
Qed.

(** Blocks with different addresses do not overlap. *)
Lemma blocks_apart (m : vm) (h : kheap) (bs : list (Z * Z)) (r s r' s' : Z) :
  serving m h bs -> (r, s) ∈ bs -> (r', s') ∈ bs -> r <> r' -> r + s <= r' \/ r' + s' <= r.
Proof.
  intros [_ H _ [He _] Hb _ _] Hin Hin' Hne. rewrite Forall_forall in Hb. pose proof (Hb _ Hin) as Hx. pose proof (Hb _ Hin') as Hx'.
  unfold block_at in Hx, Hx'. simpl in *. destruct (decide (s = PAGE_FRAME_SIZE)), (decide (s' = PAGE_FRAME_SIZE)).
  - destruct Hx as (_ & _ & A), Hx' as (_ & _ & A'). unfold PAGE_FRAME_SIZE in *.
    apply Z.mod_divide in A as [x ->]; [|done]. apply Z.mod_divide in A' as [y ->]; [|done]. lia.
  - right. by apply (block_below h r' s' r).
  - left. by apply (block_below h r s r').
  - destruct (blocks_disjoint h _ _ _ _ H Hx Hx' ltac:(lia)); lia.
Qed.

Lemma serving_window (m : vm) (h : kheap) (bs : list (Z * Z)) (r s : Z) :
  serving m h bs -> kheap_start h = 0xD0000000 -> kheap_stack_start h = 0xE0000000 -> (r, s) ∈ bs -> 0 < s -> in_window r.
Proof.
  intros [_ H _ [He _] Hb _ _] Hst Hss Hin Hs. pose proof (proj1 (Forall_forall _ _) Hb _ Hin) as Hx. unfold block_at in Hx.
  simpl in Hx. pose proof (hp_stack h H). unfold in_window, KHEAP_LIST_START, PAGE_FRAME_SIZE in *. case_decide as E.
  - destruct H as [[ts T] _ _ _]. pose proof (tl_sum h ts T). pose proof (tsum_nonneg ts (tl_ok h ts T)).
    destruct Hx as (Ha & Hz & _). lia.
  - destruct (header_range h _ _ H Hx). lia.
Qed.

(** The heap as vmm_init leaves it. *)
Lemma init_serving (m : vm) : vm_ok m -> backed m heap0 -> serving m heap0 [].
Proof.
  intros OK B. split; try done; [exact heap0_ok|by constructor|].
  change (kheap_stack_last heap0) with (SNode 0xD0000FF8 0xDFFFF000 SNull).
  split_and!; [by vm_compute|by apply not_elem_of_nil| |by apply not_elem_of_nil].
  unfold stack_page. split_and!; vm_compute; congruence.
Qed.

(** C9: From the start of the heap, with nothing mapped in its window, any sequence
    of requests from 1 byte to below 2 GiB, whole pages among them, that the
    window and the free frames can hold succeeds: every byte of every block and
    of every page is mapped, to a frame that no address of another page reaches;
    the blocks and pages do not overlap; and nothing outside the window changes
    its mapping. *)
Theorem heap_blocks_in_memory (m : vm) (sizes : list Z) :
  vm_ok m -> (forall v, in_window v -> walk m v = None) -> Forall (fun s => 0 < s < 2 ^ 31) sizes ->
  total_pages sizes <= 65534 -> supply m (2 * Z.to_nat (total_pages sizes) + 4) ->
  exists rs h m', (let! (h, m) := vmm_init_paged m in kmallocs m h sizes) = Ret (rs, h, m') /\ vm_ok m' /\
    length rs = length sizes /\
    (forall i r s, rs !! i = Some r -> sizes !! i = Some s -> in_window r /\ forall v, r <= v < r + s -> private m' v) /\
    (forall i j r s r' s', i <> j -> rs !! i = Some r -> sizes !! i = Some s -> rs !! j = Some r' -> sizes !! j = Some s' ->
       r + s <= r' \/ r' + s' <= r) /\
    (forall v, user_addr v -> ~ in_window v -> walk m' v = walk m v).
Proof.
  intros OK Hw Hs Hn Hsup. destruct (vmm_init_backed m (2 * Z.to_nat (total_pages sizes)) OK Hw) as (m0 & -> & OK0 & B0 & S0 & W0);
    [by rewrite Nat.add_comm|]. cbn [obind].
  destruct (kmallocs_ok sizes m0 heap0 [] 0 (init_serving m0 OK0 B0) Hs) as (rs & h & m' & -> & L & S & Hst & Hss & W');
    [change (kheap_end heap0) with 0xD0001000; change (kheap_stack_end heap0) with 0xDFFFF000; lia|by rewrite Nat.add_0_r|].
  change (kheap_start heap0) with 0xD0000000 in Hst. change (kheap_stack_start heap0) with 0xE0000000 in Hss.
  rewrite app_nil_r in S. assert (Hb : forall i r s, rs !! i = Some r -> sizes !! i = Some s -> (r, s) ∈ reverse (zip rs sizes)).
  { intros i r s Hr Hsz. rewrite elem_of_reverse. apply list_elem_of_lookup. exists i. apply lookup_zip_with_Some. eauto. }
  exists rs, h, m'. split_and!; try done.
  - apply S.
  - intros i r s Hr Hsz. split; [|intros v; by apply (block_private m' h _ r s v S (Hb i r s Hr Hsz))].
    apply (serving_window m' h _ r s S Hst Hss (Hb i r s Hr Hsz)). by apply (proj1 (Forall_lookup _ _) Hs i s Hsz).
  - intros i j r s r' s' Hij Hr Hsz Hr' Hsz'. apply (blocks_apart m' h _ _ _ _ _ S (Hb i r s Hr Hsz) (Hb j r' s' Hr' Hsz')).
    intros <-. apply Hij. apply (NoDup_lookup rs i j r); [|done|done]. pose proof (sv_distinct _ _ _ S) as N.
    rewrite fmap_reverse, fst_zip in N by lia. by rewrite reverse_Permutation in N.
  - intros v Hv Hn'. rewrite W', W0; [done|done|done|done|]. unfold in_window, KHEAP_LIST_START in Hn'.
    change (kheap_end heap0) with 0xD0001000. change (kheap_stack_end heap0) with 0xDFFFF000. lia.
Qed.

End HeapRun.

(** ** Where the two parts meet *)

(** The loop that enlarges the heap only stops when its end is past the end of
    the page stack: it takes the last page in between, which a request of one
    page has already got.  The page stack starts 8 KiB above the heap here. *)
Theorem heap_overlaps_page :
  (let! h := vmm_kheap_stack_init (vmm_kheap_list_init KHEAP_LIST_START) (KHEAP_LIST_START + 0x2000) in
   let! (p, h) := kmalloc h PAGE_FRAME_SIZE in
   let! (r, h) := kmalloc h 0x1FF8 in
   Ret (p, r, r + 0x1FF8)) = Ret (0xD0002000, 0xD0001008, 0xD0003000).
Proof. vm_compute. reflexivity. Qed.

(** ** A concrete address space *)

(** The frames from 32 to 63 are free; the tables are those of Page.v. *)
Definition wide_pmm : pmm := mk_pmm [255; 255; 255; 255; 0; 0; 0; 0] 64 3.

Lemma wide_ok : pmm_ok wide_pmm.
Proof.
  split; [split; simpl; [lia|by exists 2|lia|]|simpl; lia|by intros [_ ?]].
  intros b Hb. repeat (apply elem_of_cons in Hb as [->|Hb]; [lia|]). by apply elem_of_nil in Hb.
Qed.

Lemma wide_free (p : Z) : free_page wide_pmm p <-> 32 <= p < 64.
Proof.
  assert (H : forallb (fun p => Bool.eqb (bit_of wide_pmm p) (p <? 32)) (seqZ 0 64) = true) by (by vm_compute).
  rewrite forallb_forall in H. split.
  - intros [Hp Hb]. simpl in Hp. specialize (H p). rewrite Hb in H.
    destruct (Z.ltb_spec p 32); [|lia]. discriminate H. apply list_elem_of_In, elem_of_seqZ. lia.
  - intros Hp. split; [simpl; lia|]. specialize (H p). destruct (Z.ltb_spec p 32); [lia|]. apply eqb_prop, H.
    apply list_elem_of_In, elem_of_seqZ. lia.
Qed.

Notation wide_vm := (mk_vm 5 demo_mem wide_pmm).

Lemma wide_supply (n : nat) : (n <= 32)%nat -> supply wide_vm n.
Proof.
  intros Hn. exists (seqZ 32 32). split_and!; [apply NoDup_seqZ| |by rewrite length_seqZ].
  apply Forall_forall. intros p Hp%elem_of_seqZ. apply wide_free. lia.
Qed.

Lemma wide_window (v : Z) : in_window v -> walk wide_vm v = None.
Proof.
  unfold in_window, KHEAP_LIST_START. intros Hv. unfold walk. cbn [cr3 fmem].
  assert (page_get_pd_index v <> 0 /\ page_get_pd_index v <> 1023) as [H0 H1].
  { rewrite pd_index_div. split; intros E; pose proof (Z.div_mod v (2 ^ 22)); pose proof (Z.mod_pos_bound v (2 ^ 22)); lia. }
  unfold demo_mem at 1. change (5 =? 5) with true. cbn match.
  by destruct (Z.eqb_spec (page_get_pd_index v) 0), (Z.eqb_spec (page_get_pd_index v) 1023).
Qed.

Lemma heap_blocks_in_memory_witness :
  exists rs h m', (let! (h, m) := vmm_init_paged wide_vm in kmallocs m h [100; 4096; 5000; 4096; 7]) = Ret (rs, h, m') /\ length rs = 5%nat.
Proof.
  destruct (heap_blocks_in_memory wide_vm [100; 4096; 5000; 4096; 7]) as (rs & h & m' & E & _ & Hl & _);
    [apply demo_mem_ok; [exact wide_ok|intros p Hp%wide_free; lia]|exact wide_window|
     repeat (apply Forall_cons; split; [by split|]); apply Forall_nil_2|by vm_compute|apply wide_supply; vm_compute; lia|].
  exact (ex_intro _ rs (ex_intro _ h (ex_intro _ m' (conj E Hl)))).
Defined.
