(* ===== verification/Task.v ===== *)
(** Tasks and the scheduler, src/src/kernel/proc/task.c with the context
    switch of src/src/kernel/proc/task_switch.S.

    The lists of tasks are chains of [next] pointers through the task
    structures, as in the code, so that a task linked into two lists is seen to
    corrupt them. A context switch changes [current_task]; what the code does
    after it (one [task_unlock_scheduler], in every caller) is done on behalf of
    the task that was resumed, which stopped at the same point. *)

From Stdlib Require Import ZArith Lia.
From stdpp Require Import base numbers list.
From S2P Require Import Prelude.

(** ** Data *)

Definition AVAILABLE : Z := 0.
Definition RUNNING : Z := 1.
Definition BLOCKED : Z := 2.
Definition SLEEPING : Z := 3.
Definition TERMINATED : Z := 4.
Definition WAITING_FOR_LOCK : Z := 5.
Definition IO_REQUEST : Z := 6.
Definition CONDVAR : Z := 7.
Definition TIME_SLICE : Z := 10.
Definition PAGE_LAST_DWORD : Z := (4096 - 1) / 4.

(** [task_info_t], less the open files, the directory and the name. *)
Record task_info_t := mk_task {
  pid : Z; esp : Z; esp0 : Z; ebp : Z; page_dir : Z;
  t_state : Z; next : Z; time_used : Z; wake_up_time : Z;
}.

(** The static variables of task.c, the task structures by address, and the
    HPET counter and period. Pointers are addresses; 0 is [NULL]. *)
Record sched := mk_sched {
  tasks : Z -> task_info_t;
  current_task : Z;
  schedule_tasks : Z;
  sleep_tasks : Z;
  terminated_tasks : Z;
  task_cleaner : Z;
  idle_task : Z;
  pid_count : Z;
  last_count : Z;
  schedule_lock_counter : Z;
  postpone_switch_counter : Z;
  postpone_switch_flag : Z;
  time_slice_remaining : Z;
  hpet_counter : Z;
  period_ns : Z;
}.

Definition set_tasks (s : sched) (f : Z -> task_info_t) : sched :=
  mk_sched f (current_task s) (schedule_tasks s) (sleep_tasks s) (terminated_tasks s)
    (task_cleaner s) (idle_task s) (pid_count s) (last_count s) (schedule_lock_counter s)
    (postpone_switch_counter s) (postpone_switch_flag s) (time_slice_remaining s)
    (hpet_counter s) (period_ns s).
Definition set_current (s : sched) (t : Z) : sched :=
  mk_sched (tasks s) t (schedule_tasks s) (sleep_tasks s) (terminated_tasks s)
    (task_cleaner s) (idle_task s) (pid_count s) (last_count s) (schedule_lock_counter s)
    (postpone_switch_counter s) (postpone_switch_flag s) (time_slice_remaining s)
    (hpet_counter s) (period_ns s).
Definition set_lists (s : sched) (r sl te : Z) : sched :=
  mk_sched (tasks s) (current_task s) r sl te
    (task_cleaner s) (idle_task s) (pid_count s) (last_count s) (schedule_lock_counter s)
    (postpone_switch_counter s) (postpone_switch_flag s) (time_slice_remaining s)
    (hpet_counter s) (period_ns s).
Definition set_ready (s : sched) (r : Z) : sched := set_lists s r (sleep_tasks s) (terminated_tasks s).
Definition set_locks (s : sched) (l c f : Z) : sched :=
  mk_sched (tasks s) (current_task s) (schedule_tasks s) (sleep_tasks s) (terminated_tasks s)
    (task_cleaner s) (idle_task s) (pid_count s) (last_count s) l c f (time_slice_remaining s)
    (hpet_counter s) (period_ns s).
Definition set_times (s : sched) (lc sl : Z) : sched :=
  mk_sched (tasks s) (current_task s) (schedule_tasks s) (sleep_tasks s) (terminated_tasks s)
    (task_cleaner s) (idle_task s) (pid_count s) lc (schedule_lock_counter s)
    (postpone_switch_counter s) (postpone_switch_flag s) sl
    (hpet_counter s) (period_ns s).

Definition with_next (t : task_info_t) (v : Z) : task_info_t :=
  mk_task (pid t) (esp t) (esp0 t) (ebp t) (page_dir t) (t_state t) v (time_used t) (wake_up_time t).
Definition with_state (t : task_info_t) (v : Z) : task_info_t :=
  mk_task (pid t) (esp t) (esp0 t) (ebp t) (page_dir t) v (next t) (time_used t) (wake_up_time t).
Definition with_wake (t : task_info_t) (v : Z) : task_info_t :=
  mk_task (pid t) (esp t) (esp0 t) (ebp t) (page_dir t) (t_state t) (next t) (time_used t) v.
Definition with_time (t : task_info_t) (v : Z) : task_info_t :=
  mk_task (pid t) (esp t) (esp0 t) (ebp t) (page_dir t) (t_state t) (next t) v (wake_up_time t).

(** Writing through a task pointer. *)
Definition tput (f : Z -> task_info_t) (p : Z) (t : task_info_t) : Z -> task_info_t :=
  fun q => if q =? p then t else f q.
Definition tstore (s : sched) (p : Z) (g : task_info_t -> task_info_t) : outcome sched :=
  if p =? 0 then Undef else Ret (set_tasks s (tput (tasks s) p (g (tasks s p)))).
Definition tload (s : sched) (p : Z) : outcome task_info_t :=
  if p =? 0 then Undef else Ret (tasks s p).

Definition hpet_read_counter (s : sched) : Z := hpet_counter s.
Definition hpet_get_ns (s : sched) : Z := u64 (hpet_counter s * period_ns s).

(** ** New tasks *)

(** [new_task], [stack_page] and [kstack_page] are what the three calls of
    [kmalloc] return. [ebp] is a [uint32_t*], [esp0] a [uint32_t]: the same
    [+= PAGE_LAST_DWORD] advances the first by words, the second by bytes. The
    result has the words stored on the new stack, each with its address. *)
Definition task_create_new (s : sched) (new_task stack_page kstack_page func terminate : Z) :
    outcome (sched * list (Z * Z)) :=
  let top := u32 (stack_page + 4 * PAGE_LAST_DWORD) in
  let t := mk_task (pid_count s) (u32 (top - 4 * 6)) (u32 (kstack_page + PAGE_LAST_DWORD)) top
             0 AVAILABLE 0 0 0 in
  if new_task =? 0 then Undef
  else Ret (mk_sched (tput (tasks s) new_task t) (current_task s) (schedule_tasks s) (sleep_tasks s)
    (terminated_tasks s) (task_cleaner s) (idle_task s) (u32 (pid_count s + 1)) (last_count s)
    (schedule_lock_counter s) (postpone_switch_counter s) (postpone_switch_flag s)
    (time_slice_remaining s) (hpet_counter s) (period_ns s),
    [(top, terminate); (u32 (top - 4), func); (u32 (top - 8), 0); (u32 (top - 12), top);
     (u32 (top - 16), 0); (u32 (top - 20), 0); (u32 (top - 24), 0)]).

Definition with_dir (t : task_info_t) (dir : Z) : task_info_t :=
  mk_task (pid t) (esp t) (esp0 t) (ebp t) dir (t_state t) (next t) (time_used t) (wake_up_time t).

(** [init] is [task_kernel_init] or [task_user_init], [dir] the physical
    address of the page directory; the two kinds differ in [init] and in the
    open files. *)
Definition task_kernel_create_new (s : sched)
    (new_task stack_page kstack_page func terminate init dir : Z) : outcome (sched * list (Z * Z)) :=
  let! (s, w) := task_create_new s new_task stack_page kstack_page func terminate in
  let! t := tload s new_task in
  let! s := tstore s new_task (fun t => with_dir t dir) in
  Ret (s, w ++ [(u32 (ebp t - 4 * 2), init)]).
Definition task_user_create_new := task_kernel_create_new.

(** ** Locks *)

Definition task_lock_scheduler (s : sched) : sched :=
  set_locks s (u32 (schedule_lock_counter s + 1)) (postpone_switch_counter s) (postpone_switch_flag s).

Definition task_unlock_scheduler (s : sched) : outcome sched :=
  if schedule_lock_counter s =? 0 then Panic
  else Ret (set_locks s (u32 (schedule_lock_counter s - 1)) (postpone_switch_counter s)
              (postpone_switch_flag s)).

(** The code a new task starts with: the switch to it was made with the
    scheduler locked, as the switch to a task that goes on in [task_block].
    [enter_ring3], which follows for a user task, is assembly. *)
Definition task_kernel_init (s : sched) : outcome sched := task_unlock_scheduler s.
Definition task_user_init (s : sched) : outcome sched := task_unlock_scheduler s.

(** ** Switching *)

(** task_switch.S, on the scheduler's data: the new task becomes current, is
    unlinked and is running. *)
Definition task_switch (s : sched) (new : Z) : outcome sched :=
  let! s := tstore (set_current s new) new (fun t => with_next t 0) in
  tstore s new (fun t => with_state t RUNNING).

Definition task_add_node (s : sched) (task : Z) : outcome sched :=
  let! s := tstore s task (fun t => with_state t AVAILABLE) in
  let! s := tstore s task (fun t => with_next t (schedule_tasks s)) in
  Ret (set_ready s task).

Definition task_switch_wrapper (s : sched) (task : Z) : outcome sched :=
  if negb (postpone_switch_counter s =? 0) then
    task_add_node (set_locks s (schedule_lock_counter s) (postpone_switch_counter s) 1) task
  else
    let! s := if current_task s =? idle_task s then task_add_node s (current_task s) else Ret s in
    let s := set_times s (last_count s) (if task =? idle_task s then 0 else TIME_SLICE) in
    task_switch s task.

Definition task_force_switch (s : sched) (task : Z) : outcome sched :=
  let s := task_lock_scheduler s in
  let! s := tstore s (current_task s) (fun t => with_next t (schedule_tasks s)) in
  let s := set_ready s (current_task s) in
  let! s := task_switch_wrapper s task in
  task_unlock_scheduler s.

Definition task_update_counter (s : sched) : outcome sched :=
  let elapsed_time := u64 ((hpet_read_counter s - last_count s) * 10) in
  let s := set_times s (hpet_read_counter s) (time_slice_remaining s) in
  tstore s (current_task s) (fun t => with_time t (u64 (time_used t + elapsed_time))).

Definition task_schedule (s : sched) : outcome sched :=
  let! s := task_update_counter s in
  if negb (postpone_switch_counter s =? 0) then
    Ret (set_locks s (schedule_lock_counter s) (postpone_switch_counter s) 1)
  else if schedule_tasks s =? 0 then Ret s
  else
    let task := schedule_tasks s in
    let! t := tload s task in
    let s := set_ready s (next t) in
    if task =? idle_task s then
      if negb (schedule_tasks s =? 0) then
        let task := schedule_tasks s in
        let! t := tload s task in
        let! s := tstore s (idle_task s) (fun i => with_next i (next t)) in
        let s := set_ready s (idle_task s) in
        task_switch_wrapper s task
      else
        let! c := tload s (current_task s) in
        if t_state c =? RUNNING then Ret s else task_switch_wrapper s task
    else task_switch_wrapper s task.

Definition task_lock (s : sched) : sched :=
  let s := task_lock_scheduler s in
  set_locks s (schedule_lock_counter s) (u32 (postpone_switch_counter s + 1)) (postpone_switch_flag s).

Definition task_unlock (s : sched) : outcome sched :=
  let s := set_locks s (schedule_lock_counter s) (u32 (postpone_switch_counter s - 1))
             (postpone_switch_flag s) in
  let! s :=
    if (postpone_switch_counter s =? 0) && negb (postpone_switch_flag s =? 0) then
      task_schedule (set_locks s (schedule_lock_counter s) (postpone_switch_counter s) 0)
    else Ret s in
  task_unlock_scheduler s.

Definition task_block (s : sched) (reason : Z) : outcome sched :=
  let s := task_lock_scheduler s in
  let! s := tstore s (current_task s) (fun t => with_state t reason) in
  let! s := task_schedule s in
  task_unlock_scheduler s.

Definition task_unblock (s : sched) (task : Z) : outcome sched :=
  let s := task_lock_scheduler s in
  let! s := if (schedule_tasks s =? 0) || (current_task s =? idle_task s)
            then task_switch_wrapper s task else task_add_node s task in
  task_unlock_scheduler s.

(** ** Ending and sleeping *)

(** The cleaner's inner loop: the addresses it frees, per task the stack page
    and the structure. *)
Fixpoint clean_loop (fuel : nat) (s : sched) (freed : list Z) : outcome (sched * list Z) :=
  match fuel with
  | O => NoFuel
  | S fuel =>
      if terminated_tasks s =? 0 then Ret (s, freed)
      else
        let! t := tload s (terminated_tasks s) in
        clean_loop fuel (set_lists s (schedule_tasks s) (sleep_tasks s) (next t))
          (freed ++ [u32 (ebp t - 4 * PAGE_LAST_DWORD); terminated_tasks s])
  end.

(** One turn of [task_clean]; [fuel] bounds the number of terminated tasks. *)
Definition task_clean (fuel : nat) (s : sched) : outcome (sched * list Z) :=
  let s := task_lock s in
  let! (s, freed) := clean_loop fuel s [] in
  let! s := task_unlock s in
  let! s := task_block s BLOCKED in
  Ret (s, freed).

Definition task_terminate (s : sched) : outcome sched :=
  let s := task_lock s in
  let! s := tstore s (current_task s) (fun t => with_next t (terminated_tasks s)) in
  let s := set_lists s (schedule_tasks s) (sleep_tasks s) (current_task s) in
  let! s := task_block s TERMINATED in
  let! s := task_unblock s (task_cleaner s) in
  task_unlock s.

Definition nano_sleep_until (s : sched) (wake_up_time_ns : Z) : outcome sched :=
  let s := task_lock s in
  if wake_up_time_ns <? hpet_get_ns s then task_unlock s
  else
    let! s := tstore s (current_task s) (fun t => with_wake t wake_up_time_ns) in
    let! s := tstore s (current_task s) (fun t => with_next t (sleep_tasks s)) in
    let s := set_lists s (schedule_tasks s) (current_task s) (terminated_tasks s) in
    let! s := task_unlock s in
    task_block s SLEEPING.

(** [nano_sleep] and [sleep] of the C library. *)
Definition nano_sleep (s : sched) (nanoseconds : Z) : outcome sched :=
  nano_sleep_until s (u64 (hpet_get_ns s + nanoseconds)).
Definition sleep (s : sched) (milliseconds : Z) : outcome sched := nano_sleep s (u32 (milliseconds * 1000000)).

(** The loop over the sleepers in [task_time_handler]. *)
Fixpoint wake_loop (fuel : nat) (s : sched) (next_task actual_time : Z) : outcome sched :=
  match fuel with
  | O => NoFuel
  | S fuel =>
      if next_task =? 0 then Ret s
      else
        let! t := tload s next_task in
        let! s :=
          if wake_up_time t <=? actual_time then task_unblock s next_task
          else
            let! s := tstore s next_task (fun t => with_next t (sleep_tasks s)) in
            Ret (set_lists s (schedule_tasks s) next_task (terminated_tasks s)) in
        wake_loop fuel s (next t) actual_time
  end.

(** The timer interrupt; the acknowledgements of the interrupt controller are
    left out. [fuel] bounds the number of sleeping tasks. *)
Definition task_time_handler (fuel : nat) (s : sched) : outcome sched :=
  if negb (schedule_lock_counter s =? 0) then Ret s
  else
    let s := task_lock s in
    let next_task := sleep_tasks s in
    let s := set_lists s (schedule_tasks s) 0 (terminated_tasks s) in
    let actual_time := hpet_get_ns s in
    let! s := wake_loop fuel s next_task actual_time in
    let! s :=
      if time_slice_remaining s =? 0 then Ret s
      else
        let s := set_times s (last_count s) (u64 (time_slice_remaining s - 1)) in
        if time_slice_remaining s =? 0 then task_schedule s else Ret s in
    task_unlock s.

(** [kernel], [clean] and [idle] are the addresses of the task structures,
    [pages] the stack pages, [funcs] the addresses of [task_terminate],
    [task_clean], [task_idle] and [task_kernel_init]; [dir] is the physical
    address of the page directory. *)
Definition multitask_init (s : sched) (kernel clean idle : Z) (pages : Z * Z * Z * Z)
    (funcs : Z * Z * Z * Z) (dir : Z) : outcome sched :=
  let '(cstack, ckstack, istack, ikstack) := pages in
  let '(terminate, clean_fn, idle_fn, init) := funcs in
  let t := mk_task (pid_count s) 0 0 (ebp (tasks s kernel)) dir RUNNING 0 0
             (wake_up_time (tasks s kernel)) in
  if kernel =? 0 then Undef else
  let s := mk_sched (tput (tasks s) kernel t) kernel (schedule_tasks s) (sleep_tasks s)
    (terminated_tasks s) (task_cleaner s) (idle_task s) (u32 (pid_count s + 1)) (last_count s)
    (schedule_lock_counter s) (postpone_switch_counter s) (postpone_switch_flag s)
    (time_slice_remaining s) (hpet_counter s) (period_ns s) in
  let! (s, _) := task_kernel_create_new s clean cstack ckstack clean_fn terminate init dir in
  let! (s, _) := task_kernel_create_new s idle istack ikstack idle_fn terminate init dir in
  let s := mk_sched (tasks s) (current_task s) (schedule_tasks s) (sleep_tasks s)
    (terminated_tasks s) clean idle (pid_count s) (last_count s)
    (schedule_lock_counter s) (postpone_switch_counter s) (postpone_switch_flag s)
    (time_slice_remaining s) (hpet_counter s) (period_ns s) in
  task_add_node s (idle_task s).

(** ** Chains of tasks *)

Fixpoint chain (f : Z -> task_info_t) (p : Z) (l : list Z) : Prop :=
  match l with
  | [] => p = 0
  | x :: l => p = x /\ x <> 0 /\ chain f (next (f x)) l
  end.

Lemma chain_frame (f g : Z -> task_info_t) (p : Z) (l : list Z) :
  (forall x, x ∈ l -> next (g x) = next (f x)) -> chain f p l -> chain g p l.
Proof.
  revert p. induction l as [|x l IH]; intros p H; simpl; [done|].
  intros (-> & ? & ?). split; [done|]. split; [done|].
  rewrite H by (by left). apply IH; [|done]. intros y Hy. apply H. by right.
Qed.

Lemma chain_tput (f : Z -> task_info_t) (q p : Z) (t : task_info_t) (l : list Z) :
  q ∉ l -> chain f p l -> chain (tput f q t) p l.
Proof.
  intros Hq. apply chain_frame. intros x Hx. unfold tput.
  destruct (Z.eqb_spec x q) as [->|]; [done|done].
Qed.

(** Changing other fields than [next]. *)
Lemma chain_tput_same (f : Z -> task_info_t) (q p : Z) (t : task_info_t) (l : list Z) :
  next t = next (f q) -> chain f p l -> chain (tput f q t) p l.
Proof.
  intros Ht. apply chain_frame. intros x _. unfold tput. by destruct (Z.eqb_spec x q) as [->|].
Qed.

Lemma chain_head (f : Z -> task_info_t) (p : Z) (l : list Z) : chain f p l -> p = 0 <-> l = [].
Proof. destruct l; simpl; [done|]. intros (-> & ? & _). split; [done|by intros ?]. Qed.

Lemma tput_eq (f : Z -> task_info_t) (p : Z) (t : task_info_t) : tput f p t p = t.
Proof. unfold tput. by rewrite Z.eqb_refl. Qed.

Lemma tput_ne (f : Z -> task_info_t) (p q : Z) (t : task_info_t) : q <> p -> tput f p t q = f q.
Proof. unfold tput. intros. by destruct (Z.eqb_spec q p). Qed.

Lemma tstore_nz (s : sched) (p : Z) (g : task_info_t -> task_info_t) :
  p <> 0 -> tstore s p g = Ret (set_tasks s (tput (tasks s) p (g (tasks s p)))).
Proof. unfold tstore. intros. by destruct (Z.eqb_spec p 0). Qed.

Lemma tload_nz (s : sched) (p : Z) : p <> 0 -> tload s p = Ret (tasks s p).
Proof. unfold tload. intros. by destruct (Z.eqb_spec p 0). Qed.

(** ** Single steps *)

(** What an operation leaves alone: the fields that are not lists or tasks. *)
Definition same_locks (s s' : sched) : Prop :=
  schedule_lock_counter s' = schedule_lock_counter s /\
  postpone_switch_counter s' = postpone_switch_counter s.

Definition same_lists (s s' : sched) : Prop :=
  sleep_tasks s' = sleep_tasks s /\ terminated_tasks s' = terminated_tasks s.

Lemma add_node_spec (s : sched) (t : Z) (l : list Z) :
  t <> 0 -> t ∉ l -> chain (tasks s) (schedule_tasks s) l ->
  exists s', task_add_node s t = Ret s' /\ chain (tasks s') (schedule_tasks s') (t :: l) /\
    current_task s' = current_task s /\ idle_task s' = idle_task s /\ same_locks s s' /\
    same_lists s s' /\ postpone_switch_flag s' = postpone_switch_flag s /\
    t_state (tasks s' t) = AVAILABLE /\ (forall q, q <> t -> tasks s' q = tasks s q).
Proof.
  intros Ht Hl Hc. unfold task_add_node. rewrite tstore_nz by done. cbn [obind].
  rewrite tstore_nz by done. cbn [obind]. eexists. split; [done|]. simpl.
  rewrite !tput_eq. simpl. split; [|split_and!; try done].
  - split; [done|]. split; [done|]. by do 2 (apply chain_tput; [done|]).
  - intros q Hq. by rewrite !tput_ne.
Qed.

Lemma switch_spec (s : sched) (t : Z) (l : list Z) :
  t <> 0 -> t ∉ l -> chain (tasks s) (schedule_tasks s) l ->
  exists s', task_switch s t = Ret s' /\ chain (tasks s') (schedule_tasks s') l /\
    current_task s' = t /\ idle_task s' = idle_task s /\ same_locks s s' /\ same_lists s s' /\
    t_state (tasks s' t) = RUNNING /\ (forall q, q <> t -> tasks s' q = tasks s q).
Proof.
  intros Ht Hl Hc. unfold task_switch. rewrite tstore_nz by done. cbn [obind].
  rewrite tstore_nz by done. eexists. split; [done|]. simpl. rewrite !tput_eq. simpl.
  split; [|split_and!; try done].
  - by do 2 (apply chain_tput; [done|]).
  - intros q Hq. by rewrite !tput_ne.
Qed.

(** A real switch. The task switched from is put back only when it is the
    idle task. *)
Lemma wrapper_switch (s : sched) (t : Z) (l : list Z) :
  postpone_switch_counter s = 0 -> t <> 0 -> t ∉ l -> current_task s <> 0 -> t <> current_task s ->
  chain (tasks s) (schedule_tasks s) l -> current_task s ∉ l ->
  exists s', task_switch_wrapper s t = Ret s' /\ current_task s' = t /\
    chain (tasks s') (schedule_tasks s')
      (if current_task s =? idle_task s then idle_task s :: l else l) /\
    idle_task s' = idle_task s /\ same_locks s s' /\ t_state (tasks s' t) = RUNNING /\
    same_lists s s' /\
    (forall q, q <> t -> (q = current_task s -> current_task s <> idle_task s) -> tasks s' q = tasks s q).
Proof.
  intros Hp Ht Hl Hcur Hne Hc Hcl. unfold task_switch_wrapper. rewrite Hp. cbn [negb Z.eqb].
  destruct (Z.eqb_spec (current_task s) (idle_task s)) as [E|E].
  - destruct (add_node_spec s (current_task s) l Hcur Hcl Hc) as
      (s1 & -> & Hc1 & Hcu1 & Hi1 & [Hl1 Hp1] & [Hs1 Hs1'] & _ & _ & Hq1). cbn [obind].
    edestruct (switch_spec (set_times s1 (last_count s1) (if t =? idle_task s1 then 0 else TIME_SLICE))
      t (current_task s :: l)) as (s2 & -> & Hc2 & Hcu2 & Hi2 & [Hl2 Hp2] & [Ht2 Ht2'] & Hs2 & Hq2);
      [done|by intros [?|?]%elem_of_cons|done|].
    exists s2. rewrite <- E. simpl in Hi2, Hl2, Hp2. split; [done|]. split; [done|]. split; [done|].
    split; [congruence|]. split; [split; congruence|]. split; [done|].
    simpl in Ht2, Ht2', Hq2. split; [split; congruence|].
    intros q Hq1' Hq2'. rewrite Hq2, Hq1; [done| |done]. intros ->. by apply Hq2'.
  - cbn [obind].
    edestruct (switch_spec (set_times s (last_count s) (if t =? idle_task s then 0 else TIME_SLICE))
      t l) as (s2 & -> & Hc2 & Hcu2 & Hi2 & [Hl2 Hp2] & [Ht2 Ht2'] & Hs2 & Hq2); [done..|].
    exists s2. split_and!; try done. intros q Hq _. by rewrite Hq2.
Qed.

Lemma update_counter_spec (s : sched) :
  current_task s <> 0 ->
  exists s', task_update_counter s = Ret s' /\ current_task s' = current_task s /\
    schedule_tasks s' = schedule_tasks s /\ idle_task s' = idle_task s /\ same_locks s s' /\
    same_lists s s' /\ postpone_switch_flag s' = postpone_switch_flag s /\
    (forall q, next (tasks s' q) = next (tasks s q) /\ t_state (tasks s' q) = t_state (tasks s q) /\
       wake_up_time (tasks s' q) = wake_up_time (tasks s q)).
Proof.
  intros Hc. unfold task_update_counter. rewrite tstore_nz by done. eexists. split; [done|].
  simpl. split_and!; try done. intros q. unfold tput. by destruct (Z.eqb_spec q (current_task s)) as [->|].
Qed.

(** ** The dispatcher *)

(** The ready list and the task chosen, by cases on the ready list. *)
Definition dispatch (idle cur : Z) (running : bool) (ready : list Z) : Z * list Z :=
  match ready with
  | [] => (cur, [])
  | t :: l =>
      if t =? idle then
        match l with
        | u :: l => (u, idle :: l)
        | [] => if running then (cur, []) else (t, [])
        end
      else (t, if cur =? idle then idle :: l else l)
  end.

Record sched_ok (s : sched) (ready : list Z) : Prop := {
  so_chain : chain (tasks s) (schedule_tasks s) ready;
  so_nodup : NoDup ready;
  so_current : current_task s <> 0 /\ current_task s ∉ ready;
}.

(** The switch, with the list it leaves. *)
Lemma wrapper_sched (s : sched) (t : Z) (l : list Z) :
  postpone_switch_counter s = 0 -> t <> 0 -> NoDup (t :: l) -> current_task s <> 0 -> current_task s ∉ t :: l ->
  chain (tasks s) (schedule_tasks s) l ->
  exists s', task_switch_wrapper s t = Ret s' /\ current_task s' = t /\
    sched_ok s' (if current_task s =? idle_task s then idle_task s :: l else l) /\
    idle_task s' = idle_task s /\ same_locks s s' /\ same_lists s s' /\
    (forall q, q <> t -> (q = current_task s -> current_task s <> idle_task s) -> tasks s' q = tasks s q).
Proof.
  intros Hp Ht Hnd Hcur Hc Hch. apply NoDup_cons in Hnd as [Htl Hnd]. apply not_elem_of_cons in Hc as [Htc Hcl].
  destruct (wrapper_switch s t l) as (s' & E & C & Ch & I & L & _ & S & Q); try done.
  exists s'. split_and!; try done. split; [done| |rewrite C; split; [done|]];
    destruct (Z.eqb_spec (current_task s) (idle_task s)) as [<-|]; try done.
  - by constructor.
  - by apply not_elem_of_cons.
Qed.

(** The case of [task_schedule] where the idle task is first and another task is
    ready behind it. *)
Lemma schedule_behind_idle (s : sched) (u : Z) (l : list Z) :
  postpone_switch_counter s = 0 -> NoDup (idle_task s :: u :: l) -> idle_task s <> 0 -> current_task s <> 0 ->
  current_task s ∉ idle_task s :: u :: l -> chain (tasks s) (schedule_tasks s) (u :: l) ->
  exists s', (let! t := tload s u in
    let! s := tstore s (idle_task s) (fun i => with_next i (next t)) in
    task_switch_wrapper (set_ready s (idle_task s)) u) = Ret s' /\ current_task s' = u /\ sched_ok s' (idle_task s :: l) /\
    idle_task s' = idle_task s /\ same_locks s s' /\ same_lists s s' /\
    (forall q, q <> u -> q <> idle_task s -> tasks s' q = tasks s q).
Proof.
  intros Hp Hnd Hi Hcur Hc (_ & Hu & Hl). apply NoDup_cons in Hnd as [Hin Hnd]. apply not_elem_of_cons in Hin as [Hiu Hil].
  rewrite !not_elem_of_cons in Hc. destruct Hc as (Hci & Hcu & Hcl). apply NoDup_cons in Hnd as [Hul Hnd].
  rewrite tload_nz by done. cbn [obind]. rewrite tstore_nz by done. cbn [obind]. set (s2 := set_ready _ _).
  destruct (wrapper_sched s2 u (idle_task s :: l)) as (s3 & E & C & H3 & I & L & S & Q); try done.
  - constructor; [by apply not_elem_of_cons|by constructor].
  - rewrite !not_elem_of_cons. done.
  - simpl. split; [done|]. split; [done|]. rewrite tput_eq. simpl. by apply chain_tput.
  - simpl in H3. rewrite (proj2 (Z.eqb_neq _ _)) in H3 by done. exists s3. split_and!; try done.
    intros q Hq1 Hq2. rewrite Q; [|done|done]. simpl. by rewrite tput_ne.
Qed.

Lemma schedule_full (s : sched) (ready : list Z) :
  sched_ok s ready -> postpone_switch_counter s = 0 ->
  exists s' ready', task_schedule s = Ret s' /\ sched_ok s' ready' /\ same_locks s s' /\
    (current_task s', ready') =
      dispatch (idle_task s) (current_task s) (t_state (tasks s (current_task s)) =? RUNNING) ready /\
    same_lists s s' /\ idle_task s' = idle_task s /\
    (forall q, q ∉ ready -> (q = current_task s -> current_task s <> idle_task s) ->
       next (tasks s' q) = next (tasks s q) /\ t_state (tasks s' q) = t_state (tasks s q)).
Proof.
  intros [Hc Hnd [Hcur Hcl]] Hp. unfold task_schedule.
  destruct (update_counter_spec s Hcur) as (s1 & -> & E1 & E2 & E3 & [E4 E5] & [E7 E7'] & _ & E6). cbn [obind].
  rewrite E5, Hp. cbn [Z.eqb negb].
  assert (Hc1 : chain (tasks s1) (schedule_tasks s1) ready) by (rewrite E2; eapply chain_frame, Hc; intros x _; apply E6).
  destruct ready as [|t l].
  { simpl in Hc1. rewrite Hc1. simpl. exists s1, []. rewrite E1. split_and!; try done; [|intros q _ _; split; apply E6].
    split; [by rewrite Hc1|constructor|by rewrite E1]. }
  destruct Hc1 as (Et & Ht & Hl). rewrite Et. destruct (Z.eqb_spec t 0); [done|].
  rewrite tload_nz by done. cbn [obind]. set (s2 := set_ready s1 _). cbn [idle_task s2 set_ready set_lists].
  change (schedule_tasks s2) with (next (tasks s1 t)). rewrite E3. cbn [dispatch].
  destruct (Z.eqb_spec t (idle_task s)) as [->|Ei]; [destruct l as [|u l]|].
  - simpl in Hl. rewrite Hl. cbn [Z.eqb negb]. change (current_task s2) with (current_task s1).
    rewrite E1, tload_nz by done. cbn [obind]. change (tasks s2) with (tasks s1).
    destruct (E6 (current_task s)) as (_ & -> & _). destruct (t_state (tasks s (current_task s)) =? RUNNING).
    + exists s2, []. simpl. rewrite E1. split_and!; try done; [|intros q _ _; split; apply E6].
      split; simpl; [done|apply NoDup_nil_2|rewrite E1; split; [done|apply not_elem_of_nil]].
    + destruct (wrapper_sched s2 (idle_task s) []) as (s3 & -> & C & H3 & I & [L P] & [S S'] & Q); simpl; rewrite ?E1; try congruence.
      simpl in *. rewrite E1, E3 in H3, Q. rewrite not_elem_of_cons in Hcl.
      rewrite (proj2 (Z.eqb_neq _ _)) in H3 by tauto. exists s3, []. rewrite C. split_and!; try done; try congruence; try (split; congruence).
      intros q Hq Hq'. rewrite not_elem_of_cons in Hq. rewrite Q by tauto. split; apply E6.
  - pose proof Hl as (Eu & Hu & _). rewrite Eu. destruct (Z.eqb_spec u 0); [done|]. cbn [negb].
    destruct (schedule_behind_idle s2 u l) as (s3 & E & C & H3 & I & [L P] & [S S'] & Q); simpl; rewrite ?E1, ?E3; try congruence; [exact Hl|].
    simpl in *. rewrite E3 in *. rewrite E. exists s3, (idle_task s :: l). rewrite C. split_and!; try done; try congruence; try (split; congruence).
    intros q Hq _. rewrite !not_elem_of_cons in Hq. rewrite Q by tauto. split; apply E6.
  - destruct (wrapper_sched s2 t l) as (s3 & -> & C & H3 & I & [L P] & [S S'] & Q); simpl; rewrite ?E1; try congruence.
    simpl in *. rewrite E1, E3 in H3, Q. eexists s3, _. rewrite C. split_and!; try done; try congruence; try (split; congruence).
    intros q Hq Hq'. rewrite not_elem_of_cons in Hq. rewrite Q by tauto. split; apply E6.
Qed.

Lemma schedule_spec (s : sched) (ready : list Z) :
  sched_ok s ready -> postpone_switch_counter s = 0 ->
  exists s' ready', task_schedule s = Ret s' /\ sched_ok s' ready' /\ same_locks s s' /\
    (current_task s', ready') =
      dispatch (idle_task s) (current_task s) (t_state (tasks s (current_task s)) =? RUNNING) ready /\
    same_lists s s' /\ idle_task s' = idle_task s /\
    (forall q, q ∉ ready -> (q = current_task s -> current_task s <> idle_task s) ->
       next (tasks s' q) = next (tasks s q)).
Proof.
  intros H Hp. destruct (schedule_full s ready H Hp) as (s' & ready' & E & H' & L & D & S & I & Q).
  exists s', ready'. split_and!; try done. intros q Hq Hc. by apply Q.
Qed.

(** ** Inside a critical section *)

(** The counters are far from wrapping round. *)
Definition locks_ok (s : sched) : Prop :=
  0 <= schedule_lock_counter s < 2 ^ 31 /\ 0 <= postpone_switch_counter s < 2 ^ 31.

Lemma lock_unlock_counter (s : sched) (l : Z) :
  0 <= l < 2 ^ 31 -> schedule_lock_counter s = u32 (l + 1) ->
  task_unlock_scheduler s =
    Ret (set_locks s l (postpone_switch_counter s) (postpone_switch_flag s)).
Proof.
  intros Hl E. unfold task_unlock_scheduler. rewrite E, !u32_small by lia.
  destruct (Z.eqb_spec (l + 1) 0); [lia|]. do 2 f_equal. lia.
Qed.

Lemma unblock_postponed (s : sched) (t : Z) (ready : list Z) :
  sched_ok s ready -> locks_ok s -> postpone_switch_counter s <> 0 ->
  t <> 0 -> t ∉ ready -> t <> current_task s ->
  exists s', task_unblock s t = Ret s' /\ sched_ok s' (t :: ready) /\
    current_task s' = current_task s /\ idle_task s' = idle_task s /\ same_locks s s' /\
    same_lists s s' /\ t_state (tasks s' t) = AVAILABLE /\
    (postpone_switch_flag s = 1 -> postpone_switch_flag s' = 1) /\
    (forall q, q <> t -> tasks s' q = tasks s q).
Proof.
  intros [Hc Hnd [Hcur Hcl]] [Hl _] Hp Ht Htr Htc. unfold task_unblock.
  assert (H : forall s0, tasks s0 = tasks s -> schedule_tasks s0 = schedule_tasks s ->
    current_task s0 = current_task s -> idle_task s0 = idle_task s -> same_lists s s0 ->
    postpone_switch_counter s0 = postpone_switch_counter s ->
    schedule_lock_counter s0 = u32 (schedule_lock_counter s + 1) ->
    (postpone_switch_flag s = 1 -> postpone_switch_flag s0 = 1) ->
    exists s', obind (task_add_node s0 t) task_unlock_scheduler = Ret s' /\ sched_ok s' (t :: ready) /\
      current_task s' = current_task s /\ idle_task s' = idle_task s /\ same_locks s s' /\
      same_lists s s' /\ t_state (tasks s' t) = AVAILABLE /\
      (postpone_switch_flag s = 1 -> postpone_switch_flag s' = 1) /\
      (forall q, q <> t -> tasks s' q = tasks s q)).
  { intros s0 E1 E2 E3 E4 [E5 E5'] E6 E7 E8.
    destruct (add_node_spec s0 t ready Ht Htr) as
      (s1 & -> & C1 & Cu1 & I1 & [L1 P1] & [S1 S1'] & F1 & St1 & Q1); [by rewrite E1, E2|].
    cbn [obind]. rewrite (lock_unlock_counter s1 (schedule_lock_counter s)) by (done || congruence).
    eexists. split; [done|]. split; [split; [exact C1|by constructor|]|].
    { simpl. rewrite Cu1, E3. split; [done|]. by apply not_elem_of_cons. }
    simpl. split_and!; try congruence; try done; try (split; simpl; congruence).
    - rewrite F1. auto.
    - intros q Hq. rewrite Q1, E1 by done. done. }
  destruct ((schedule_tasks (task_lock_scheduler s) =? 0) ||
    (current_task (task_lock_scheduler s) =? idle_task (task_lock_scheduler s))).
  - unfold task_switch_wrapper. cbn [postpone_switch_counter task_lock_scheduler set_locks].
    destruct (Z.eqb_spec (postpone_switch_counter s) 0); [done|]. cbn [negb].
    apply H; done.
  - apply H; done.
Qed.

(** [task_schedule] with switches postponed only records that one is due. *)
Lemma schedule_postponed (s : sched) :
  current_task s <> 0 -> postpone_switch_counter s <> 0 ->
  exists s', task_schedule s = Ret s' /\ current_task s' = current_task s /\
    schedule_tasks s' = schedule_tasks s /\ idle_task s' = idle_task s /\ same_locks s s' /\
    same_lists s s' /\ postpone_switch_flag s' = 1 /\
    (forall q, next (tasks s' q) = next (tasks s q) /\ t_state (tasks s' q) = t_state (tasks s q)).
Proof.
  intros Hc Hp. unfold task_schedule.
  destruct (update_counter_spec s Hc) as (s1 & -> & E1 & E2 & E3 & [E4 E5] & [E6 E6'] & _ & E7).
  cbn [obind]. rewrite E5. destruct (Z.eqb_spec (postpone_switch_counter s) 0); [done|]. cbn [negb].
  eexists. split; [done|]. simpl. split_and!; try done. intros q. by destruct (E7 q) as (? & ? & _).
Qed.

Lemma block_postponed (s : sched) (reason : Z) (ready : list Z) :
  sched_ok s ready -> locks_ok s -> postpone_switch_counter s <> 0 ->
  exists s', task_block s reason = Ret s' /\ sched_ok s' ready /\
    current_task s' = current_task s /\ idle_task s' = idle_task s /\ same_locks s s' /\
    same_lists s s' /\ postpone_switch_flag s' = 1 /\
    t_state (tasks s' (current_task s)) = reason /\
    (forall q, next (tasks s' q) = next (tasks s q)) /\
    (forall q, q <> current_task s -> t_state (tasks s' q) = t_state (tasks s q)).
Proof.
  intros [Hc Hnd [Hcur Hcl]] [Hl _] Hp. unfold task_block.
  rewrite tstore_nz by done. cbn [obind]. set (s1 := set_tasks _ _).
  destruct (schedule_postponed s1) as (s2 & -> & E1 & E2 & E3 & [E4 E5] & [E6 E6'] & E8 & E7); [done|done|].
  cbn [obind]. rewrite (lock_unlock_counter _ (schedule_lock_counter s)) by done.
  eexists. split; [done|]. simpl.
  assert (Hn : forall q, next (tasks s2 q) = next (tasks s q)).
  { intros q. destruct (E7 q) as [-> _]. subst s1. simpl. unfold tput.
    by destruct (Z.eqb_spec q (current_task s)) as [->|]. }
  split; [split; simpl|].
  - rewrite E2. eapply chain_frame, Hc. intros x _. apply Hn.
  - done.
  - by rewrite E1.
  - split_and!; try done.
    + destruct (E7 (current_task s)) as (_ & ->). subst s1. simpl. by rewrite tput_eq.
    + intros q Hq. destruct (E7 q) as (_ & ->). subst s1. simpl. by rewrite tput_ne.
Qed.

(** The end of an outermost critical section makes up for a postponed switch. *)
Lemma unlock_full (s : sched) (ready : list Z) (l : Z) :
  sched_ok s ready -> 0 <= l < 2 ^ 31 -> schedule_lock_counter s = u32 (l + 1) ->
  postpone_switch_counter s = 1 ->
  exists s' ready', task_unlock s = Ret s' /\ sched_ok s' ready' /\
    schedule_lock_counter s' = l /\ postpone_switch_counter s' = 0 /\
    (current_task s', ready') =
      (if postpone_switch_flag s =? 0 then (current_task s, ready)
       else dispatch (idle_task s) (current_task s) (t_state (tasks s (current_task s)) =? RUNNING) ready) /\
    same_lists s s' /\ idle_task s' = idle_task s /\
    (forall q, q ∉ ready -> (q = current_task s -> current_task s <> idle_task s) ->
       next (tasks s' q) = next (tasks s q) /\ t_state (tasks s' q) = t_state (tasks s q)).
Proof.
  intros H Hl E Hp. unfold task_unlock. rewrite Hp. change (u32 (1 - 1)) with 0.
  cbn [postpone_switch_counter postpone_switch_flag set_locks Z.eqb andb].
  destruct (Z.eqb_spec (postpone_switch_flag s) 0) as [Ef|Ef]; cbn [negb obind].
  - rewrite (lock_unlock_counter _ l) by done. eexists _, ready. split; [done|].
    destruct H as [A B C]. split; [by split|]. split_and!; done.
  - destruct H as [A B C].
    destruct (schedule_full (set_locks (set_locks s (schedule_lock_counter s) 0 (postpone_switch_flag s))
      (schedule_lock_counter s) 0 0) ready) as (s1 & r1 & E1 & H1 & [L1 P1] & D1 & [S1 S1'] & I1 & Q1);
      [by split|done|].
    cbn [schedule_lock_counter set_locks] in *. rewrite E1. cbn [obind].
    rewrite (lock_unlock_counter _ l) by (done || congruence).
    eexists _, r1. split; [done|]. destruct H1 as [A1 B1 C1]. split; [by split|].
    split_and!; done.
Qed.

Lemma unlock_spec (s : sched) (ready : list Z) (l : Z) :
  sched_ok s ready -> 0 <= l < 2 ^ 31 -> schedule_lock_counter s = u32 (l + 1) ->
  postpone_switch_counter s = 1 ->
  exists s' ready', task_unlock s = Ret s' /\ sched_ok s' ready' /\
    schedule_lock_counter s' = l /\ postpone_switch_counter s' = 0 /\
    (current_task s', ready') =
      (if postpone_switch_flag s =? 0 then (current_task s, ready)
       else dispatch (idle_task s) (current_task s) (t_state (tasks s (current_task s)) =? RUNNING) ready) /\
    same_lists s s' /\ idle_task s' = idle_task s /\
    (forall q, q ∉ ready -> (q = current_task s -> current_task s <> idle_task s) ->
       next (tasks s' q) = next (tasks s q)).
Proof.
  intros H Hl E Hp. destruct (unlock_full s ready l H Hl E Hp) as (s' & ready' & ? & ? & ? & ? & ? & ? & ? & Q).
  exists s', ready'. split_and!; try done. intros q Hq Hc. by apply Q.
Qed.

(** A switch that is not postponed leaves the counters and the flag alone. *)
Definition same_flags (s s' : sched) : Prop :=
  postpone_switch_counter s' = postpone_switch_counter s /\ postpone_switch_flag s' = postpone_switch_flag s.

Lemma tstore_flags (s s' : sched) (p : Z) (g : task_info_t -> task_info_t) : tstore s p g = Ret s' -> same_flags s s'.
Proof. unfold tstore. destruct (p =? 0); [done|]. by intros [= <-]. Qed.

Lemma add_node_flags (s s' : sched) (t : Z) : task_add_node s t = Ret s' -> same_flags s s'.
Proof.
  intros E. unfold task_add_node in E. apply obind_inv in E as (s1 & [P1 F1]%tstore_flags & E).
  apply obind_inv in E as (s2 & [P2 F2]%tstore_flags & [= <-]). split; simpl; congruence.
Qed.

Lemma wrapper_flags (s s' : sched) (t : Z) :
  postpone_switch_counter s = 0 -> task_switch_wrapper s t = Ret s' -> same_flags s s'.
Proof.
  intros Hp E. unfold task_switch_wrapper in E. rewrite Hp in E. cbn [Z.eqb negb] in E.
  apply obind_inv in E as (s1 & E1 & E). assert (same_flags s s1) as [P1 F1].
  { destruct (current_task s =? idle_task s); [by apply add_node_flags in E1|by injection E1 as <-]. }
  unfold task_switch in E. apply obind_inv in E as (s2 & [P2 F2]%tstore_flags & [P3 F3]%tstore_flags).
  simpl in *. split; congruence.
Qed.

Lemma schedule_flags (s s' : sched) : postpone_switch_counter s = 0 -> task_schedule s = Ret s' -> same_flags s s'.
Proof.
  intros Hp E. unfold task_schedule in E. apply obind_inv in E as (s1 & [P1 F1]%tstore_flags & E). simpl in P1, F1.
  rewrite P1, Hp in E. cbn [Z.eqb negb] in E. destruct (schedule_tasks s1 =? 0); [by injection E as <-|].
  apply obind_inv in E as (t & _ & E). cbn zeta in E.
  assert (Hw : forall s2 u, same_flags s1 s2 -> task_switch_wrapper s2 u = Ret s' -> same_flags s s').
  { intros s2 u [P2 F2] [P3 F3]%wrapper_flags; [split|]; congruence. }
  destruct (_ =? idle_task _); [|eapply Hw; [|exact E]; by split]. destruct (negb _).
  - apply obind_inv in E as (u & _ & E). apply obind_inv in E as (s2 & [P2 F2]%tstore_flags & E).
    eapply Hw; [|exact E]. by split.
  - apply obind_inv in E as (c & _ & E). destruct (_ =? RUNNING); [by injection E as <-|eapply Hw; [|exact E]; by split].
Qed.

Lemma unlock_flag (s s' : sched) :
  postpone_switch_counter s = 1 -> task_unlock s = Ret s' -> postpone_switch_flag s' = 0.
Proof.
  intros Hp E. unfold task_unlock in E. rewrite Hp in E. change (u32 (1 - 1)) with 0 in E.
  cbn [postpone_switch_counter postpone_switch_flag set_locks Z.eqb andb] in E.
  apply obind_inv in E as (s1 & E1 & E). assert (postpone_switch_flag s1 = 0) as F1.
  { destruct (Z.eqb_spec (postpone_switch_flag s) 0); cbn [negb] in E1; [by injection E1 as <-|].
    by apply schedule_flags in E1 as [_ E1]. }
  unfold task_unlock_scheduler in E. destruct (schedule_lock_counter s1 =? 0); [done|]. by injection E as <-.
Qed.

(** What code in a critical section may ask of the scheduler. *)
Inductive kop := KBlock (reason : Z) | KUnblock (t : Z).

Definition run_kop (s : sched) (o : kop) : outcome sched :=
  match o with KBlock r => task_block s r | KUnblock t => task_unblock s t end.

Fixpoint run_kops (s : sched) (os : list kop) : outcome sched :=
  match os with
  | [] => Ret s
  | o :: os => let! s := run_kop s o in run_kops s os
  end.

Fixpoint unblocked (os : list kop) : list Z :=
  match os with
  | [] => []
  | KUnblock t :: os => t :: unblocked os
  | KBlock _ :: os => unblocked os
  end.

(** C14: Between [task_lock] and [task_unlock] no block or unblock request
    switches tasks: the current task and the lock counters stay, every task that
    was unblocked is on the ready list, last one first, in front of those that
    were there, and the list is intact. *)
Theorem critical_section_no_switch (os : list kop) (s : sched) (ready : list Z) :
  sched_ok s ready -> locks_ok s -> postpone_switch_counter s <> 0 ->
  NoDup (unblocked os) ->
  Forall (fun t => t <> 0 /\ t ∉ ready /\ t <> current_task s) (unblocked os) ->
  exists s', run_kops s os = Ret s' /\ sched_ok s' (rev (unblocked os) ++ ready) /\
    current_task s' = current_task s /\ same_locks s s'.
Proof.
  revert s ready. induction os as [|o os IH]; intros s ready H L Hp Hnd Hall; cbn [run_kops].
  { exists s. split_and!; done. }
  destruct o as [r|t]; cbn [run_kop unblocked rev] in *.
  - destruct (block_postponed s r ready H L Hp) as (s1 & -> & H1 & C1 & _ & [L1 P1] & _). cbn [obind].
    destruct (IH s1 ready H1) as (s2 & -> & H2 & C2 & L2 & P2).
    + unfold locks_ok. by rewrite L1, P1.
    + by rewrite P1.
    + done.
    + by rewrite C1.
    + exists s2. split_and!; try done; try congruence; split; congruence.
  - apply Forall_cons in Hall as [(Ht & Htr & Htc) Hall]. apply NoDup_cons in Hnd as [Hto Hnd].
    destruct (unblock_postponed s t ready H L Hp Ht Htr Htc) as (s1 & -> & H1 & C1 & _ & [L1 P1] & _).
    cbn [obind]. destruct (IH s1 (t :: ready) H1) as (s2 & -> & H2 & C2 & L2 & P2).
    + unfold locks_ok. by rewrite L1, P1.
    + by rewrite P1.
    + done.
    + rewrite C1. rewrite Forall_forall in Hall |- *. intros x Hx. destruct (Hall x Hx) as (? & ? & ?).
      split; [done|]. split; [|done]. apply not_elem_of_cons. split; [|done]. intros ->. done.
    + exists s2. rewrite <- app_assoc. split_and!; try done; try congruence; split; congruence.
Qed.

(** ** Waking sleepers *)

Definition due (s : sched) (now t : Z) : bool := wake_up_time (tasks s t) <=? now.

Lemma filter_ext_in {A} (f g : A -> bool) (l : list A) :
  (forall x, x ∈ l -> f x = g x) -> List.filter f l = List.filter g l.
Proof.
  intros H. induction l as [|x l IH]; simpl; [done|].
  rewrite H by (by left). rewrite IH; [done|]. intros y Hy. apply H. by right.
Qed.

Lemma woken_due (s : sched) (now x : Z) (l : list Z) :
  x ∈ rev (List.filter (due s now) l) -> x ∈ l /\ due s now x = true.
Proof. by rewrite list_elem_of_In, <- in_rev, filter_In, <- list_elem_of_In. Qed.

Lemma kept_not_due (s : sched) (now x : Z) (l : list Z) :
  x ∈ rev (List.filter (fun t => negb (due s now t)) l) -> x ∈ l /\ due s now x = false.
Proof.
  rewrite list_elem_of_In, <- in_rev, filter_In, <- list_elem_of_In.
  intros [? ?]. split; [done|]. by apply negb_true_iff.
Qed.

(** What the loop does with the sleepers [sl]: those that are due go to the ready
    list, the others to a new list of sleepers, in front of [ready] and [kept];
    only the tasks of [among] change. *)
Definition wakes (s s' : sched) (now : Z) (sl among ready kept : list Z) : Prop :=
  sched_ok s' (rev (List.filter (due s now) sl) ++ ready) /\
  chain (tasks s') (sleep_tasks s') (rev (List.filter (fun t => negb (due s now t)) sl) ++ kept) /\
  current_task s' = current_task s /\ same_locks s s' /\ idle_task s' = idle_task s /\
  (forall q, q ∉ among -> tasks s' q = tasks s q).

(** A step that changed only one other task, and the loop behind it. *)
Lemma wakes_after (s s1 s2 : sched) (now t : Z) (sl ready kept : list Z) :
  t ∉ sl -> same_locks s s1 -> current_task s1 = current_task s -> idle_task s1 = idle_task s ->
  (forall q, q <> t -> tasks s1 q = tasks s q) -> wakes s1 s2 now sl sl ready kept -> wakes s s2 now sl (t :: sl) ready kept.
Proof.
  intros Ht [L1 P1] C1 I1 Q1 (H2 & K2 & C2 & [L2 P2] & I2 & T2).
  assert (Hd : forall x, x ∈ sl -> due s1 now x = due s now x).
  { intros x Hx. unfold due. rewrite Q1; [done|]. by intros ->. }
  rewrite (filter_ext_in _ _ sl Hd) in H2.
  rewrite (filter_ext_in _ (fun t => negb (due s now t)) sl) in K2 by (intros x Hx; by rewrite Hd).
  split_and!; try done; try congruence; [split; congruence|].
  intros q [Hqt Hq]%not_elem_of_cons. by rewrite T2, Q1.
Qed.


Lemma wake_loop_spec (sl : list Z) (fuel : nat) (s : sched) (p now : Z) (ready kept : list Z) :
  sched_ok s ready -> locks_ok s -> postpone_switch_counter s <> 0 ->
  chain (tasks s) p sl -> chain (tasks s) (sleep_tasks s) kept ->
  NoDup (sl ++ kept ++ ready) -> current_task s ∉ sl -> (length sl < fuel)%nat ->
  exists s', wake_loop fuel s p now = Ret s' /\ wakes s s' now sl sl ready kept.
Proof.
  revert fuel s p ready kept. induction sl as [|t sl IH];
    intros fuel s p ready kept H L Hp Hsl Hk Hnd Hc Hf; (destruct fuel as [|fuel]; [simpl in Hf; lia|]);
    cbn [wake_loop].
  { simpl in Hsl. rewrite Hsl. simpl. exists s. split_and!; done. }
  destruct Hsl as (-> & Ht & Hsl). destruct (Z.eqb_spec t 0); [done|]. rewrite tload_nz by done.
  cbn [obind]. simpl in Hnd. apply NoDup_cons in Hnd as [Hni Hnd].
  rewrite !not_elem_of_app in Hni. destruct Hni as (Hts & Htk & Htr).
  apply not_elem_of_cons in Hc as [Hct Hcs]. simpl in Hf. cbn [List.filter].
  change (wake_up_time (tasks s t) <=? now) with (due s now t).
  assert (Hstep : forall s1 ready1 kept1, sched_ok s1 ready1 -> same_locks s s1 ->
    current_task s1 = current_task s -> idle_task s1 = idle_task s -> (forall q, q <> t -> tasks s1 q = tasks s q) ->
    chain (tasks s1) (sleep_tasks s1) kept1 -> NoDup (sl ++ kept1 ++ ready1) ->
    exists s', wake_loop fuel s1 (next (tasks s t)) now = Ret s' /\ wakes s s' now sl (t :: sl) ready1 kept1).
  { intros s1 ready1 kept1 H1 [L1 P1] C1 I1 Q1 K1 N1.
    destruct (IH fuel s1 (next (tasks s t)) ready1 kept1) as (s2 & E2 & W2);
      [done|unfold locks_ok; by rewrite L1, P1|by rewrite P1| |done|done|by rewrite C1|lia|].
    { eapply chain_frame, Hsl. intros x Hx. rewrite Q1; [done|]. by intros ->. }
    exists s2. split; [done|]. by eapply wakes_after. }
  destruct (due s now t) eqn:Ew; cbn [negb].
  - destruct (unblock_postponed s t ready H L Hp Ht Htr) as
      (s1 & -> & H1 & C1 & I1 & L1 & [S1 _] & _ & _ & Q1); [congruence|]. cbn [obind].
    destruct (Hstep s1 (t :: ready) kept H1 L1 C1 I1 Q1) as (s2 & -> & H2).
    + rewrite S1. eapply chain_frame, Hk. intros x Hx. rewrite Q1; [done|]. by intros ->.
    + rewrite app_assoc. apply NoDup_app_cons_middle; [by rewrite <- app_assoc|].
      rewrite !not_elem_of_app. tauto.
    + exists s2. unfold wakes. cbn [List.filter]. rewrite Ew. cbn [negb rev]. rewrite <- app_assoc. done.
  - rewrite tstore_nz by done. cbn [obind]. set (s1 := set_lists _ _ _ _).
    assert (Hch : forall q l, t ∉ l -> chain (tasks s) q l -> chain (tasks s1) q l).
    { intros q l Hl. by apply chain_tput. }
    destruct H as [A B C].
    destruct (Hstep s1 ready (t :: kept)) as (s2 & -> & H2 & K2 & H3).
    + split; [by apply Hch|done|done].
    + done.
    + done.
    + done.
    + intros q Hq. simpl. by rewrite tput_ne.
    + simpl. split; [done|]. split; [done|]. rewrite tput_eq. simpl. by apply Hch.
    + apply NoDup_app_cons_middle; [done|]. rewrite !not_elem_of_app. tauto.
    + exists s2. unfold wakes. cbn [List.filter]. rewrite Ew. cbn [negb rev]. rewrite <- app_assoc. done.
Qed.

(** The end of the timer interrupt: the locks are released, which may switch. *)
Lemma timer_unlock (s s2 : sched) (now : Z) (sl ready : list Z) :
  NoDup (sl ++ ready) -> current_task s ∉ sl ->
  let woken := rev (List.filter (due s now) sl) ++ ready in
  let kept := rev (List.filter (fun t => negb (due s now t)) sl) in
  sched_ok s2 woken -> schedule_lock_counter s2 = u32 (0 + 1) ->
  postpone_switch_counter s2 = 1 -> current_task s2 = current_task s -> idle_task s2 = idle_task s ->
  t_state (tasks s2 (current_task s)) = t_state (tasks s (current_task s)) ->
  chain (tasks s2) (sleep_tasks s2) kept -> (forall q, q ∉ sl -> next (tasks s2 q) = next (tasks s q)) ->
  exists s' ready', task_unlock s2 = Ret s' /\ sched_ok s' ready' /\
    schedule_lock_counter s' = 0 /\ postpone_switch_counter s' = 0 /\
    chain (tasks s') (sleep_tasks s') kept /\
    ((current_task s', ready') = (current_task s, woken) \/
     (current_task s', ready') = dispatch (idle_task s) (current_task s)
       (t_state (tasks s (current_task s)) =? RUNNING) woken) /\
    postpone_switch_flag s' = 0 /\ idle_task s' = idle_task s /\
    (forall q, q ∉ sl -> q ∉ ready -> (q = current_task s -> current_task s <> idle_task s) ->
       next (tasks s' q) = next (tasks s q)).
Proof.
  intros Hnd Hc woken kept H2 L2 P2 C2 I2 T2 K2 N2.
  destruct (unlock_spec s2 woken 0 H2 ltac:(lia) L2 P2) as
    (s3 & r3 & E3 & H3 & L3 & P3 & D3 & [S3 _] & I3 & Q3).
  rewrite C2, I2 in Q3. exists s3, r3. split_and!; try done; [| |by apply unlock_flag in E3|congruence|].
  - rewrite S3. eapply chain_frame, K2. intros x Hx.
    apply kept_not_due in Hx as [Hx Hd]. apply Q3; [|by intros ->].
    unfold woken. rewrite not_elem_of_app. split.
    + intros Hw. apply woken_due in Hw as [_ Hw]. by rewrite Hw in Hd.
    + apply NoDup_app in Hnd as (_ & Hdis & _). by apply Hdis.
  - rewrite C2, I2, T2 in D3. destruct (postpone_switch_flag s2 =? 0); auto.
  - intros q Hq1 Hq2 Hq3. rewrite Q3; [by apply N2| |done]. unfold woken. rewrite not_elem_of_app. split; [|done].
    intros Hw. by apply woken_due in Hw as [Hw _].
Qed.

Lemma timer_spec (sl ready : list Z) (s : sched) (fuel : nat) :
  sched_ok s ready -> schedule_lock_counter s = 0 -> postpone_switch_counter s = 0 ->
  chain (tasks s) (sleep_tasks s) sl -> NoDup (sl ++ ready) -> current_task s ∉ sl ->
  (length sl < fuel)%nat ->
  let now := hpet_get_ns s in
  let woken := rev (List.filter (due s now) sl) ++ ready in
  exists s' ready', task_time_handler fuel s = Ret s' /\ sched_ok s' ready' /\
    schedule_lock_counter s' = 0 /\ postpone_switch_counter s' = 0 /\
    chain (tasks s') (sleep_tasks s') (rev (List.filter (fun t => negb (due s now t)) sl)) /\
    ((current_task s', ready') = (current_task s, woken) \/
     (current_task s', ready') = dispatch (idle_task s) (current_task s)
       (t_state (tasks s (current_task s)) =? RUNNING) woken) /\
    postpone_switch_flag s' = 0 /\ idle_task s' = idle_task s /\
    (forall q, q ∉ sl -> q ∉ ready -> (q = current_task s -> current_task s <> idle_task s) ->
       next (tasks s' q) = next (tasks s q)).
Proof.
  intros H Hlk Hpp Hsl Hnd Hc Hf now woken. pose proof H as [A B [C D]].
  unfold task_time_handler. rewrite Hlk. cbn [Z.eqb negb].
  set (s0 := set_lists (task_lock s) (schedule_tasks s) 0 (terminated_tasks s)).
  assert (Hl0 : schedule_lock_counter s0 = u32 (0 + 1)) by (unfold s0; simpl; by rewrite Hlk).
  assert (Hp0 : postpone_switch_counter s0 = 1) by (unfold s0; simpl; by rewrite Hpp).
  destruct (wake_loop_spec sl fuel s0 (sleep_tasks s) now ready []) as
    (s1 & E1 & H1 & K1 & C1 & [L1 P1] & I1 & T1).
  - by split.
  - unfold locks_ok. rewrite Hl0, Hp0. change (u32 (0 + 1)) with 1. lia.
  - by rewrite Hp0.
  - done.
  - done.
  - done.
  - done.
  - done.
  - cbv zeta. change (sleep_tasks (task_lock s)) with (sleep_tasks s).
    change (set_lists (task_lock s) (schedule_tasks (task_lock s)) 0 (terminated_tasks (task_lock s)))
      with s0. change (hpet_get_ns s0) with now. rewrite E1. cbn [obind].
    rewrite app_nil_r in K1. change (due s0 now) with (due s now) in H1.
    change (fun t => negb (due s0 now t)) with (fun t => negb (due s now t)) in K1. fold woken in H1.
    pose proof (fun s2 => timer_unlock s s2 now sl ready Hnd Hc) as Hfin. cbv zeta in Hfin. fold woken in Hfin.
    destruct (Z.eqb_spec (time_slice_remaining s1) 0).
    { cbn [obind]. apply Hfin; try done; try congruence; [by rewrite T1|intros q Hq; by rewrite T1]. }
    set (s2 := set_times s1 (last_count s1) _).
    assert (H2 : sched_ok s2 woken) by (destruct H1; by split).
    destruct (Z.eqb_spec (time_slice_remaining s2) 0).
    + destruct (schedule_postponed s2) as (s3 & -> & C3 & R3 & I3 & [L3 P3] & [S3 _] & _ & Q3);
        [apply H2|simpl; congruence|]. cbn [obind]. apply Hfin; simpl in *; try congruence.
      * destruct H2 as [A2 B2 C2]. split; [|done|by rewrite C3].
        rewrite R3. eapply chain_frame, A2. intros x _. apply Q3.
      * destruct (Q3 (current_task s)) as [_ ->]. by rewrite T1.
      * rewrite S3. eapply chain_frame, K1. intros x _. apply Q3.
      * intros q Hq. destruct (Q3 q) as [-> _]. by rewrite T1.
    + cbn [obind]. apply Hfin; simpl in *; try done; try congruence; [by rewrite T1|intros q Hq; by rewrite T1].
Qed.

(** C15: A timer interrupt outside critical sections moves exactly the
    sleepers whose time has come to the front of the ready list and keeps the
    others asleep; then it stays with the current task or dispatches from that
    list. The locks are free again when it returns. *)
Theorem timer_wakes_sleepers (sl ready : list Z) (s : sched) (fuel : nat) :
  sched_ok s ready -> schedule_lock_counter s = 0 -> postpone_switch_counter s = 0 ->
  chain (tasks s) (sleep_tasks s) sl -> NoDup (sl ++ ready) -> current_task s ∉ sl ->
  (length sl < fuel)%nat ->
  let now := hpet_get_ns s in
  let woken := rev (List.filter (due s now) sl) ++ ready in
  exists s' ready', task_time_handler fuel s = Ret s' /\ sched_ok s' ready' /\
    schedule_lock_counter s' = 0 /\ postpone_switch_counter s' = 0 /\
    chain (tasks s') (sleep_tasks s') (rev (List.filter (fun t => negb (due s now t)) sl)) /\
    ((current_task s', ready') = (current_task s, woken) \/
     (current_task s', ready') = dispatch (idle_task s) (current_task s)
       (t_state (tasks s (current_task s)) =? RUNNING) woken).
Proof.
  intros H Hlk Hpp Hsl Hnd Hc Hf now woken.
  destruct (timer_spec sl ready s fuel H Hlk Hpp Hsl Hnd Hc Hf) as (s' & r' & E & H' & L & P & K & D & _).
  by exists s', r'.
Qed.

(** ** Dispatching *)

(** C25: Outside critical sections the dispatcher takes the task at the head of
    the ready list and leaves the rest of the list, in its order; with the idle
    task at the head it takes the task behind it and leaves the idle task in
    front of the rest; with the idle task alone it goes on with a current task
    that can run and takes the idle task otherwise; with an empty list it
    changes nothing. An idle task that is left is put in front of the list.
    Every task that is not on the list keeps its state. *)
Theorem task_schedule_dispatches (s : sched) (ready : list Z) :
  sched_ok s ready -> postpone_switch_counter s = 0 ->
  exists s' ready', task_schedule s = Ret s' /\ sched_ok s' ready' /\ idle_task s' = idle_task s /\
    (forall q, q ∉ ready -> (q = current_task s -> current_task s <> idle_task s) ->
       t_state (tasks s' q) = t_state (tasks s q)) /\
    match ready with
    | [] => current_task s' = current_task s /\ ready' = []
    | t :: l =>
        if t =? idle_task s then
          match l with
          | u :: l' => current_task s' = u /\ ready' = idle_task s :: l'
          | [] => ready' = [] /\
              current_task s' = if t_state (tasks s (current_task s)) =? RUNNING then current_task s else idle_task s
          end
        else current_task s' = t /\
          ready' = if current_task s =? idle_task s then idle_task s :: l else l
    end.
Proof.
  intros H Hp. destruct (schedule_full s ready H Hp) as (s' & ready' & E & H' & _ & D & _ & I & Q).
  exists s', ready'. split_and!; try done; [intros q Hq Hc; by apply Q|]. unfold dispatch in D.
  destruct ready as [|t l]; [by injection D|]. destruct (Z.eqb_spec t (idle_task s)) as [->|]; [|by injection D].
  destruct l as [|u l]; [|by injection D as -> ->]. by destruct (t_state (tasks s (current_task s)) =? RUNNING); injection D as -> ->.
Qed.

(** A running task that is switched away from by the dispatcher, and is not
    the idle task, is neither current nor ready afterwards: nothing puts it back. *)
Theorem preempted_task_lost (s : sched) (t : Z) (l : list Z) :
  sched_ok s (t :: l) -> postpone_switch_counter s = 0 ->
  t <> idle_task s -> current_task s <> idle_task s ->
  exists s' ready', task_schedule s = Ret s' /\ sched_ok s' ready' /\
    current_task s' = t /\ current_task s ∉ current_task s' :: ready'.
Proof.
  intros H Hp Ht Hc. destruct (schedule_spec s _ H Hp) as (s' & ready' & E & H' & _ & D & _).
  simpl in D. destruct (Z.eqb_spec t (idle_task s)); [done|].
  destruct (Z.eqb_spec (current_task s) (idle_task s)); [done|]. injection D as D1 ->.
  exists s', l. split_and!; try done. rewrite D1. destruct H as [_ _ [_ H]]. done.
Qed.

(** When only the idle task is ready and the current one goes on running, the
    idle task is taken off the ready list and not put back. *)
Theorem idle_task_lost (s : sched) :
  sched_ok s [idle_task s] -> postpone_switch_counter s = 0 ->
  t_state (tasks s (current_task s)) = RUNNING ->
  exists s', task_schedule s = Ret s' /\ current_task s' = current_task s /\ sched_ok s' [].
Proof.
  intros H Hp Hr. destruct (schedule_spec s _ H Hp) as (s' & ready' & E & H' & _ & D & _).
  simpl in D. rewrite Z.eqb_refl, Hr in D. injection D as D1 ->. by exists s'.
Qed.

(** ** New stacks *)

(** The last word stored at an address. *)
Definition stored (w : list (Z * Z)) (a : Z) : option Z :=
  snd <$> last (List.filter (fun x => x.1 =? a) w).

(** The stack of a new task is laid out for [task_switch]: from [esp] up
    it holds the three cleared registers and [ebp], which are popped, then the
    initialisation function that [ret] enters, then the task's function and
    [task_terminate], to which the one and then the other return. *)
Theorem new_task_stack (s : sched) (new page kpage func terminate init dir : Z) :
  new <> 0 -> 0 <= page -> page + 4096 < 2 ^ 32 ->
  exists s' w, task_kernel_create_new s new page kpage func terminate init dir = Ret (s', w) /\
    let t := tasks s' new in
    map (fun i => stored w (esp t + 4 * i)) (seqZ 0 7) =
      [Some 0; Some 0; Some 0; Some (ebp t); Some init; Some func; Some terminate] /\
    ebp t = page + 4092 /\ esp0 t = u32 (kpage + 1023).
Proof.
  intros Hn Hp Hp2. unfold task_kernel_create_new, task_create_new.
  destruct (Z.eqb_spec new 0); [done|]. cbn [obind]. rewrite tload_nz, tstore_nz by done. cbn [obind].
  eexists _, _. split; [done|]. cbn [tasks set_tasks]. rewrite !tput_eq.
  change PAGE_LAST_DWORD with 1023. cbn [esp ebp esp0 with_dir]. rewrite !(u32_small (page + _)) by lia.
  rewrite !u32_small by lia. split_and!; [|lia|done].
  set (p := page) in *.
  assert (Hk : forall a b, (p + 4 * 1023 - a =? p + 4 * 1023 - 4 * 6 + 4 * b) = (a + 4 * b =? 24))
    by (intros a b; destruct (Z.eqb_spec (p + 4 * 1023 - a) (p + 4 * 1023 - 4 * 6 + 4 * b)),
        (Z.eqb_spec (a + 4 * b) 24); lia).
  assert (Hk0 : forall b, (p + 4 * 1023 =? p + 4 * 1023 - 4 * 6 + 4 * b) = (4 * b =? 24))
    by (intros b; destruct (Z.eqb_spec (p + 4 * 1023) (p + 4 * 1023 - 4 * 6 + 4 * b)),
        (Z.eqb_spec (4 * b) 24); lia).
  change (seqZ 0 7) with [0; 1; 2; 3; 4; 5; 6]. cbn [map].
  repeat (apply (f_equal2 cons)); [..|done]; unfold stored; cbn [app List.filter fst];
    rewrite !Hk, Hk0; reflexivity.
Qed.

(** ** A small system *)

(** Task 100 runs, 300 and the idle task 200 are ready, 400 and 500 sleep. *)
Definition demo_tasks (p : Z) : task_info_t :=
  let t st nx wk := mk_task p 0 0 0 0 st nx 0 wk in
  if p =? 100 then t RUNNING 0 0 else if p =? 200 then t AVAILABLE 0 0
  else if p =? 300 then t AVAILABLE 200 0 else if p =? 400 then t SLEEPING 500 50
  else t SLEEPING 0 5000.

Definition demo_sched (locks : Z) : sched :=
  mk_sched demo_tasks 100 300 400 0 0 200 6 0 locks locks 0 5 10 10.

Lemma demo_sched_ok (locks : Z) : sched_ok (demo_sched locks) [300; 200].
Proof.
  split; [simpl; split_and!; done| |].
  - repeat constructor; rewrite ?elem_of_cons, elem_of_nil; lia.
  - split; [done|]. simpl. rewrite !elem_of_cons, elem_of_nil. lia.
Qed.

Lemma critical_section_no_switch_witness :
  exists s', run_kops (demo_sched 1) [KBlock BLOCKED; KUnblock 400] = Ret s' /\ current_task s' = 100.
Proof.
  destruct (critical_section_no_switch [KBlock BLOCKED; KUnblock 400] (demo_sched 1) [300; 200]
    (demo_sched_ok 1)) as (s' & E & _ & C & _).
  - unfold locks_ok. simpl. lia.
  - done.
  - apply NoDup_singleton.
  - apply Forall_singleton. simpl. rewrite !elem_of_cons, elem_of_nil. lia.
  - exact (ex_intro _ s' (conj E C)).
Defined.

Lemma timer_wakes_sleepers_witness :
  exists s' ready', task_time_handler 3 (demo_sched 0) = Ret s' /\ sched_ok s' ready' /\
    chain (tasks s') (sleep_tasks s') [500].
Proof.
  destruct (timer_wakes_sleepers [400; 500] [300; 200] (demo_sched 0) 3 (demo_sched_ok 0))
    as (s' & r' & E & H & _ & _ & K & _); try done.
  - repeat constructor; simpl; rewrite ?elem_of_cons, elem_of_nil; lia.
  - simpl. rewrite !elem_of_cons, elem_of_nil. lia.
  - simpl. lia.
  - exact (ex_intro _ s' (ex_intro _ r' (conj E (conj H K)))).
Defined.

Lemma task_schedule_dispatches_witness :
  exists s', task_schedule (demo_sched 0) = Ret s' /\ current_task s' = 300.
Proof.
  destruct (task_schedule_dispatches (demo_sched 0) [300; 200] (demo_sched_ok 0))
    as (s' & r' & E & _ & _ & _ & D & _); [done|].
  exact (ex_intro _ s' (conj E D)).
Defined.

Lemma new_task_stack_witness :
  exists s' w, task_kernel_create_new (demo_sched 0) 600 0xE0000000 0xE0001000 7 8 9 0x5000 = Ret (s', w)
    /\ ebp (tasks s' 600) = 0xE0000000 + 4092.
Proof.
  destruct (new_task_stack (demo_sched 0) 600 0xE0000000 0xE0001000 7 8 9 0x5000)
    as (s' & w & E & _ & B & _); [lia..|].
  exact (ex_intro _ s' (ex_intro _ w (conj E B))).
Defined.

(** A forced switch while switches are postponed leaves the running task on
    the ready list. *)
Theorem force_switch_postponed :
  exists s', task_force_switch (demo_sched 1) 400 = Ret s' /\ current_task s' = 100 /\
    chain (tasks s') (schedule_tasks s') [400; 100; 300; 200].
Proof. eexists. split; [vm_compute; reflexivity|]. vm_compute. repeat split; discriminate. Qed.

(** The nanoseconds are computed in 32 bits: a sleep of 4295 milliseconds is one
    of 33 microseconds. *)
Theorem sleep_wraps (s : sched) : sleep s 4295 = nano_sleep s 32704.
Proof. reflexivity. Qed.
