(* ===== verification/Mutex.v ===== *)
(** Semaphores, mutexes and condition variables, src/src/kernel/proc/mutex.c,
    over the scheduler of Task.v. *)

From Stdlib Require Import ZArith Lia.
From stdpp Require Import base numbers list sets.
From S2P Require Import Prelude Task.

(** ** Data *)

Record semaphore_t := mk_sem {
  max_count : Z;
  current_count : Z;
  waiting_tasks_start : Z;
  waiting_tasks_end : Z;
}.

(** A condition variable; [cv_live] turns false when its memory is freed. *)
Record condvar_t := mk_condvar {
  cv_condition : Z;
  cv_tasks : Z;
  cv_live : bool;
}.

(** ** Semaphores *)

Definition semaphore_create (max : Z) : semaphore_t := mk_sem max 0 0 0.
Definition mutex_create : semaphore_t := semaphore_create 1.

Definition semaphore_acquire (s : sched) (sem : semaphore_t) : outcome (sched * semaphore_t) :=
  let s := task_lock s in
  if current_count sem <? max_count sem then
    let sem := mk_sem (max_count sem) (u32 (current_count sem + 1))
                 (waiting_tasks_start sem) (waiting_tasks_end sem) in
    let! s := task_unlock s in Ret (s, sem)
  else
    let cur := current_task s in
    let! s := tstore s cur (fun t => with_next t 0) in
    let! (s, start) :=
      if waiting_tasks_start sem =? 0 then Ret (s, cur)
      else
        let! s := tstore s (waiting_tasks_end sem) (fun t => with_next t cur) in
        Ret (s, waiting_tasks_start sem) in
    let sem := mk_sem (max_count sem) (current_count sem) start cur in
    let! s := task_block s WAITING_FOR_LOCK in
    let! s := task_unlock s in
    Ret (s, sem).
Definition mutex_acquire := semaphore_acquire.

Definition semaphore_release (s : sched) (sem : semaphore_t) : outcome (sched * semaphore_t) :=
  let s := task_lock s in
  if waiting_tasks_start sem =? 0 then
    let sem := mk_sem (max_count sem) (u32 (current_count sem - 1))
                 (waiting_tasks_start sem) (waiting_tasks_end sem) in
    let! s := task_unlock s in Ret (s, sem)
  else
    let task := waiting_tasks_start sem in
    let! t := tload s task in
    let sem := mk_sem (max_count sem) (current_count sem) (next t) (waiting_tasks_end sem) in
    let! s := task_unblock s task in
    let! s := task_unlock s in
    Ret (s, sem).
Definition mutex_release := semaphore_release.

(** ** Condition variables *)

Definition condvar_alloc (cvs : list condvar_t) (condition : Z) : list condvar_t :=
  mk_condvar condition 0 true :: cvs.

(** The search of the list [condvars] for a condition: the position found. A
    variable whose memory was freed is still linked. *)
Fixpoint condvar_find (cvs : list condvar_t) (condition : Z) : outcome (option nat) :=
  match cvs with
  | [] => Ret None
  | cv :: cvs =>
      if negb (cv_live cv) then Undef
      else if cv_condition cv =? condition then Ret (Some O)
      else let! r := condvar_find cvs condition in Ret (S <$> r)
  end.

Fixpoint add_list_loop (fuel : nat) (s : sched) (task : Z) : outcome sched :=
  match fuel with
  | O => NoFuel
  | S fuel =>
      let! t := tload s task in
      if next t =? 0 then
        if task =? current_task s then Ret s
        else tstore s task (fun t => with_next t (current_task s))
      else if task =? current_task s then Ret s
      else add_list_loop fuel s (next t)
  end.
Definition condvar_add_list (fuel : nat) (s : sched) (cv : condvar_t) : outcome sched :=
  add_list_loop fuel s (cv_tasks cv).

Definition set_tasks_of (cvs : list condvar_t) (i : nat) (t : Z) : list condvar_t :=
  match cvs !! i with
  | Some cv => <[i := mk_condvar (cv_condition cv) t (cv_live cv)]> cvs
  | None => cvs
  end.

(** [condvar_wait] up to the switch; the task that is resumed there goes on
    with [mutex_acquire]. [fuel] bounds the number of waiting tasks. *)
Definition condvar_wait (fuel : nat) (s : sched) (cvs : list condvar_t) (condition : Z)
    (mutex : semaphore_t) : outcome (sched * list condvar_t * semaphore_t) :=
  let s := task_lock s in
  let! r := condvar_find cvs condition in
  let! (s, cvs) :=
    match r with
    | Some i =>
        let! cv := lget cvs (Z.of_nat i) in
        let! s := tstore s (current_task s) (fun t => with_next t 0) in
        if cv_tasks cv =? 0 then Ret (s, set_tasks_of cvs i (current_task s))
        else let! s := condvar_add_list fuel s cv in Ret (s, cvs)
    | None =>
        let cvs := condvar_alloc cvs condition in
        let! s := tstore s (current_task s) (fun t => with_next t 0) in
        Ret (s, set_tasks_of cvs 0 (current_task s))
    end in
  let! (s, mutex) := mutex_release s mutex in
  let! s := task_block s CONDVAR in
  let! s := task_unlock s in
  Ret (s, cvs, mutex).

Fixpoint signal_loop (fuel : nat) (s : sched) (task : Z) : outcome sched :=
  match fuel with
  | O => NoFuel
  | S fuel =>
      if task =? 0 then Ret s
      else
        let! t := tload s task in
        let! s := task_unblock s task in
        signal_loop fuel s (next t)
  end.

Definition condvar_signal (fuel : nat) (s : sched) (cvs : list condvar_t) (condition : Z) :
    outcome (sched * list condvar_t) :=
  let s := task_lock s in
  let! r := condvar_find cvs condition in
  match r with
  | Some i =>
      let! cv := lget cvs (Z.of_nat i) in
      let! s := signal_loop fuel s (cv_tasks cv) in
      let cvs := set_tasks_of cvs i 0 in
      let! s := task_unlock s in
      Ret (s, cvs)
  | None => let! s := task_unlock s in Ret (s, cvs)
  end.

Definition condvar_free (cvs : list condvar_t) (condition : Z) : outcome (list condvar_t) :=
  let! r := condvar_find cvs condition in
  match r with
  | Some i =>
      let! cv := lget cvs (Z.of_nat i) in
      Ret (<[i := mk_condvar (cv_condition cv) (cv_tasks cv) false]> cvs)
  | None => Panic
  end.

(** ** The waiting queue *)

(** Between calls: no lock is held and no switch is pending. *)
Definition at_rest (s : sched) : Prop :=
  schedule_lock_counter s = 0 /\ postpone_switch_counter s = 0 /\ postpone_switch_flag s = 0.

(** The tasks waiting for a semaphore, in the order they will get it. *)
Record sem_ok (s : sched) (sem : semaphore_t) (w : list Z) : Prop := {
  sq_chain : chain (tasks s) (waiting_tasks_start sem) w;
  sq_end : forall t, last w = Some t -> waiting_tasks_end sem = t;
  sq_nodup : NoDup w;
  sq_count : 0 <= current_count sem <= max_count sem /\ max_count sem < 2 ^ 32;
  sq_full : w <> [] -> current_count sem = max_count sem;
}.

Lemma lock_fields (s : sched) :
  at_rest s -> schedule_lock_counter (task_lock s) = u32 (0 + 1) /\
  postpone_switch_counter (task_lock s) = 1 /\ postpone_switch_flag (task_lock s) = 0.
Proof. intros (H1 & H2 & H3). unfold task_lock, task_lock_scheduler. simpl. by rewrite H1, H2, H3. Qed.

(** Appending to a chain. *)
Lemma chain_snoc (f : Z -> task_info_t) (p e c : Z) (w : list Z) (t : task_info_t) :
  chain f p w -> NoDup w -> c ∉ w -> c <> 0 -> last w = Some e -> next t = c -> next (f c) = 0 ->
  chain (tput f e t) p (w ++ [c]).
Proof.
  intros Hw Hnd Hc Hc0 He Ht Hf. revert p Hw. induction w as [|x w IH]; intros p; [done|].
  intros (-> & Hx & Hw). apply NoDup_cons in Hnd as [Hxw Hnd].
  apply not_elem_of_cons in Hc as [Hcx Hc]. destruct w as [|y w].
  - injection He as <-. simpl in *. split; [done|]. split; [done|]. rewrite tput_eq.
    split; [done|]. split; [done|]. rewrite tput_ne; done.
  - change (last (x :: y :: w)) with (last (y :: w)) in He.
    cbn [app chain]. split; [done|]. split; [done|]. rewrite tput_ne.
    + by apply IH.
    + intros ->. apply Hxw. apply last_Some in He as [l' ->]. apply elem_of_app. right. by left.
Qed.

(** Linking the current task behind the waiters. *)
Lemma enqueue_spec (s : sched) (sem : semaphore_t) (w : list Z) :
  sem_ok s sem w -> current_task s <> 0 -> current_task s ∉ w ->
  exists s1 start,
    (let! s1 := tstore s (current_task s) (fun t => with_next t 0) in
     if waiting_tasks_start sem =? 0 then Ret (s1, current_task s)
     else let! s2 := tstore s1 (waiting_tasks_end sem) (fun t => with_next t (current_task s)) in
          Ret (s2, waiting_tasks_start sem)) = Ret (s1, start) /\
    chain (tasks s1) start (w ++ [current_task s]) /\
    s1 = set_tasks s (tasks s1) /\
    (forall q, q ∉ w -> q <> current_task s -> tasks s1 q = tasks s q) /\
    t_state (tasks s1 (current_task s)) = t_state (tasks s (current_task s)).
Proof.
  intros [Hc He Hnd _ _] Hcur Hcw. rewrite tstore_nz by done. cbn [obind].
  destruct (Z.eqb_spec (waiting_tasks_start sem) 0) as [E|E].
  - apply (chain_head _ _ _ Hc) in E as ->. eexists _, _. split; [done|]. simpl. rewrite tput_eq.
    split_and!; try done. intros q _ Hq. by rewrite tput_ne.
  - destruct (last w) as [e|] eqn:El.
    2:{ apply last_None in El as ->. done. }
    rewrite (He e eq_refl) in *.
    assert (Hew : e ∈ w) by (apply last_Some in El as [l' ->]; apply elem_of_app; right; by left).
    assert (He0 : e <> 0).
    { clear -Hew Hc. revert Hew Hc. generalize (waiting_tasks_start sem).
      induction w as [|x w IH]; intros p Hew; [by apply elem_of_nil in Hew|].
      intros (-> & Hx & Hw). apply elem_of_cons in Hew as [->|Hew]; [done|]. by eapply IH. }
    rewrite tstore_nz by done. cbn [obind]. eexists _, _. split; [done|]. simpl.
    assert (Hne : e <> current_task s) by (intros ->; done).
    split; [|split_and!; try done].
    + eapply chain_snoc; try done; [by apply chain_tput|]. by rewrite tput_eq.
    + intros q Hq1 Hq2. rewrite !tput_ne; [done|done|]. intros ->. done.
    + rewrite tput_ne, tput_eq by done. done.
Qed.

(** What an operation on a semaphore with the waiters [w] leaves alone. *)
Record frames (s s' : sched) (ready w : list Z) : Prop := {
  fr_rest : at_rest s';
  fr_idle : idle_task s' = idle_task s;
  fr_lists : same_lists s s';
  fr_next q : q ∉ ready -> q ∉ w -> q <> current_task s -> next (tasks s' q) = next (tasks s q);
}.

(** ** Correctness *)

(** A semaphore that is not exhausted. *)
Lemma acquire_free (s : sched) (sem : semaphore_t) (ready w : list Z) :
  sched_ok s ready -> at_rest s -> sem_ok s sem w ->
  current_task s <> idle_task s -> current_task s ∉ w -> (forall t, t ∈ w -> t ∉ ready) ->
  current_count sem < max_count sem ->
  exists s' sem', semaphore_acquire s sem = Ret (s', sem') /\ sched_ok s' ready /\
    current_task s' = current_task s /\ sem_ok s' sem' w /\ current_count sem' = current_count sem + 1 /\
    max_count sem' = max_count sem /\ frames s s' ready w.
Proof.
  intros H R Hq Hidle Hcw Hdis Hlt. destruct (lock_fields s R) as (L1 & P1 & F1).
  pose proof H as [A B [C D]]. unfold semaphore_acquire.
  assert (H0 : sched_ok (task_lock s) ready) by (by split).
  destruct (Z.ltb_spec (current_count sem) (max_count sem)); [|lia].
  destruct (unlock_spec (task_lock s) ready 0 H0 ltac:(lia) L1 P1) as
    (s' & r' & E & H' & L' & P' & Dd & S' & I' & Q). rewrite F1 in Dd. injection Dd as Dc ->.
  pose proof (unlock_flag _ _ P1 E) as F'. rewrite E. destruct Hq as [Q1 Q2 Q3 Q4 Q5]. cbn [obind]. eexists _, _. split; [done|].
  split; [done|]. split; [done|]. simpl. rewrite u32_small by lia.
  split; [|split_and!; try done; split; try done; intros q Hq1 _ Hq2; by apply Q].
  split; simpl; try done; [|lia|].
  - eapply chain_frame, Q1. intros x Hx. rewrite Q; [done| |by intros _]. by apply Hdis.
  - intros Hw. specialize (Q5 Hw). lia.
Qed.

(** An exhausted semaphore. *)
Lemma acquire_blocks_full (s : sched) (sem : semaphore_t) (ready w : list Z) :
  sched_ok s ready -> at_rest s -> sem_ok s sem w ->
  current_task s <> idle_task s -> current_task s ∉ w -> (forall t, t ∈ w -> t ∉ ready) ->
  max_count sem <= current_count sem ->
  exists s' sem' ready', semaphore_acquire s sem = Ret (s', sem') /\ sched_ok s' ready' /\
    sem_ok s' sem' (w ++ [current_task s]) /\ current_count sem' = current_count sem /\
    (current_task s', ready') = dispatch (idle_task s) (current_task s) false ready /\
    max_count sem' = max_count sem /\ frames s s' ready w /\
    t_state (tasks s' (current_task s)) = WAITING_FOR_LOCK.
Proof.
  intros H R Hq Hidle Hcw Hdis Hge. destruct (lock_fields s R) as (L1 & P1 & F1).
  pose proof H as [A B [C D]]. unfold semaphore_acquire.
  destruct (Z.ltb_spec (current_count sem) (max_count sem)); [lia|].
  cbn zeta. destruct (enqueue_spec (task_lock s) sem w) as (s1 & start & E & Hch & Es & Hfr & Hst);
    [destruct Hq; by split|done|done|].
  rewrite tstore_nz by done. rewrite tstore_nz in E by done. cbn [obind] in *. rewrite E. cbn [obind].
  assert (H1 : sched_ok s1 ready).
  { split; [|done|by rewrite Es]. rewrite Es. simpl. eapply chain_frame, A.
    intros x Hx. rewrite Hfr; [done| |].
    - intros Hxw. by apply (Hdis x).
    - intros ->. done. }
  destruct (block_postponed s1 WAITING_FOR_LOCK ready H1) as
    (s2 & -> & H2 & C2 & I2 & [L2 P2] & [S2 S2'] & F2 & St2 & N2 & _).
  { rewrite Es. unfold locks_ok. simpl. destruct R as (-> & -> & _). change (u32 (0 + 1)) with 1. lia. }
  { rewrite Es. cbn [postpone_switch_counter set_tasks]. by rewrite P1. }
  cbn [obind]. rewrite Es in C2, I2, L2, P2, S2, S2'. simpl in C2, I2, S2, S2'.
  destruct (unlock_full s2 ready 0 H2 ltac:(lia)) as
    (s3 & r3 & E3 & H3 & L3 & P3 & D3 & [S3 S3'] & I3 & Q3); [rewrite L2; exact L1|rewrite P2; exact P1|].
  pose proof (unlock_flag s2 s3 ltac:(rewrite P2; exact P1) E3) as F3. rewrite E3.
  cbn [obind]. rewrite F2 in D3. cbn [Z.eqb] in D3.
  assert (St : t_state (tasks s2 (current_task s2)) =? RUNNING = false).
  { rewrite C2. rewrite Es in St2. simpl in St2. by rewrite St2. }
  rewrite St, C2, I2 in D3. destruct Hq as [Q1 Q2 Qn Q4 Q5].
  eexists _, _, r3. split; [done|]. split; [done|].
  split; [|split_and!; try done; [split; [done|congruence|split; congruence|]|]].
  2: { intros q Hq1 Hq2 Hq3. rewrite (proj1 (Q3 q Hq1 ltac:(by rewrite C2))), N2, Hfr; done. }
  2: { rewrite (proj2 (Q3 (current_task s) D ltac:(by rewrite C2, I2))). rewrite Es in St2. exact St2. }
  split; simpl.
  - eapply chain_frame, Hch. intros x Hx. rewrite (fun H => proj1 (Q3 x H ltac:(intros _; by rewrite C2, I2))); [apply N2|].
    apply elem_of_app in Hx as [Hx|Hx]; [by apply Hdis|]. apply list_elem_of_singleton in Hx as ->. done.
  - intros t. rewrite last_snoc. by intros [= <-].
  - apply NoDup_app. split_and!; [done| |apply NoDup_singleton].
    intros x Hx ->%list_elem_of_singleton. done.
  - done.
  - intros _. lia.
Qed.

Lemma acquire_blocks (s : sched) (sem : semaphore_t) (ready w : list Z) :
  sched_ok s ready -> at_rest s -> sem_ok s sem w ->
  current_task s <> idle_task s -> current_task s ∉ w -> (forall t, t ∈ w -> t ∉ ready) ->
  max_count sem <= current_count sem ->
  exists s' sem' ready', semaphore_acquire s sem = Ret (s', sem') /\ sched_ok s' ready' /\
    sem_ok s' sem' (w ++ [current_task s]) /\ current_count sem' = current_count sem /\
    (current_task s', ready') = dispatch (idle_task s) (current_task s) false ready /\
    max_count sem' = max_count sem /\ frames s s' ready w.
Proof.
  intros H R Hq Hi Hc Hd Hg. destruct (acquire_blocks_full s sem ready w H R Hq Hi Hc Hd Hg) as (s' & sem' & r' & ? & ? & ? & ? & ? & ? & ? & _).
  by exists s', sem', r'.
Qed.

(** C26: Acquiring a semaphore that is not exhausted takes one unit and
    neither blocks nor switches. Otherwise the caller is appended to the queue of
    waiters, its state is WAITING_FOR_LOCK, the count does not change, and the
    dispatcher takes the next task from the ready list. With an empty ready list
    there is none to take: the call returns in the caller, without a unit. *)
Theorem semaphore_acquire_correct (s : sched) (sem : semaphore_t) (ready w : list Z) :
  sched_ok s ready -> at_rest s -> sem_ok s sem w ->
  current_task s <> idle_task s -> current_task s ∉ w -> (forall t, t ∈ w -> t ∉ ready) ->
  exists s' sem' ready', semaphore_acquire s sem = Ret (s', sem') /\ sched_ok s' ready' /\
    if current_count sem <? max_count sem then
      current_task s' = current_task s /\ ready' = ready /\ sem_ok s' sem' w /\
      current_count sem' = current_count sem + 1
    else
      sem_ok s' sem' (w ++ [current_task s]) /\ current_count sem' = current_count sem /\
      t_state (tasks s' (current_task s)) = WAITING_FOR_LOCK /\
      (current_task s', ready') = dispatch (idle_task s) (current_task s) false ready /\
      (if decide (ready = []) then current_task s' = current_task s else current_task s' ∈ ready).
Proof.
  intros H R Hq Hidle Hcw Hdis. destruct (Z.ltb_spec (current_count sem) (max_count sem)) as [Hlt|Hge].
  - destruct (acquire_free s sem ready w H R Hq Hidle Hcw Hdis Hlt) as (s' & sem' & E & H' & C & Q & N & _).
    by exists s', sem', ready.
  - destruct (acquire_blocks_full s sem ready w H R Hq Hidle Hcw Hdis Hge) as (s' & sem' & r' & E & H' & Q & N & D & _ & _ & St).
    exists s', sem', r'. split_and!; try done. clear -D. destruct ready as [|t l]; simpl in *; [by injection D|].
    destruct (t =? idle_task s); [destruct l as [|u l]|]; injection D as -> _; set_solver.
Qed.

Lemma release_spec (s : sched) (sem : semaphore_t) (ready w : list Z) :
  sched_ok s ready -> at_rest s -> sem_ok s sem w -> 0 < current_count sem ->
  current_task s ∉ w -> (forall t, t ∈ w -> t ∉ ready) ->
  exists s' sem' ready', semaphore_release s sem = Ret (s', sem') /\ sched_ok s' ready' /\
    max_count sem' = max_count sem /\ frames s s' ready w /\
    match w with
    | [] => current_task s' = current_task s /\ ready' = ready /\ sem_ok s' sem' [] /\
            current_count sem' = current_count sem - 1
    | t :: w' => sem_ok s' sem' w' /\ current_count sem' = current_count sem /\
        ((current_task s', ready') = (current_task s, t :: ready) \/
         (current_task s', ready') = dispatch (idle_task s) (current_task s)
           (t_state (tasks s (current_task s)) =? RUNNING) (t :: ready))
    end.
Proof.
  intros H R Hq Hpos Hcw Hdis. destruct (lock_fields s R) as (L1 & P1 & F1).
  pose proof H as [A B [C D]]. unfold semaphore_release.
  assert (H0 : sched_ok (task_lock s) ready) by (by split).
  destruct w as [|t w].
  - pose proof Hq as [Q1 Q2 Q3 Q4 Q5]. simpl in Q1. rewrite Q1. cbn [Z.eqb].
    destruct (unlock_spec (task_lock s) ready 0 H0 ltac:(lia) L1 P1) as
      (s' & r' & E & H' & L' & P' & Dd & S' & I' & Q). rewrite F1 in Dd. injection Dd as Dc ->.
    pose proof (unlock_flag _ _ P1 E) as F'. rewrite E. cbn [obind]. eexists _, _, ready. split; [done|]. split; [done|].
    split; [done|]. split; [split; try done; intros q Hq1 _ Hq2; by apply Q|].
    simpl. rewrite u32_small by lia. split_and!; try done. split; simpl; try done. lia.
  - pose proof Hq as [(Q1 & Qt & Qw) Q2 Q3 Q4 Q5]. rewrite Q1.
    destruct (Z.eqb_spec t 0); [done|]. cbn zeta. rewrite tload_nz by done. cbn [obind].
    apply NoDup_cons in Q3 as [Htw Hnw]. apply not_elem_of_cons in Hcw as [Hct Hcw].
    destruct (unblock_postponed (task_lock s) t ready H0) as
      (s1 & -> & H1 & C1 & I1 & [L2 P2] & [S1 S1'] & _ & _ & N1); try done.
    + unfold locks_ok. rewrite L1, P1. change (u32 (0 + 1)) with 1. lia.
    + by rewrite P1.
    + by apply Hdis; left.
    + cbn [obind]. destruct (unlock_spec s1 (t :: ready) 0 H1 ltac:(lia)) as
        (s3 & r3 & E3 & H3 & L3 & P3 & D3 & [S3 S3'] & I3 & Q); [by rewrite L2|by rewrite P2|].
      pose proof (unlock_flag s1 s3 ltac:(by rewrite P2) E3) as F3. rewrite E3. simpl in C1, I1, S1, S1'.
      cbn [obind]. eexists _, _, r3. split; [done|]. split; [done|]. split; [done|].
      split; [split; [done|congruence|split; congruence|]|].
      { intros q Hq1 [Hqt Hq2]%not_elem_of_cons Hq3. rewrite Q, N1; try done; [by apply not_elem_of_cons|by rewrite C1]. }
      split; [|split; [done|]].
      * split; simpl; try done.
        -- eapply chain_frame, Qw. intros x Hx.
           assert (x <> t) by (intros ->; done).
           assert (x <> current_task s) by (intros ->; done).
           rewrite Q.
           ++ by rewrite N1.
           ++ apply not_elem_of_cons. split; [done|]. apply Hdis. by right.
           ++ rewrite C1. simpl. by intros ->.
        -- intros x Hx. apply Q2. destruct w; [done|done].
        -- intros _. by apply Q5.
      * rewrite C1, I1 in D3. simpl in D3. rewrite N1 in D3 by (simpl; congruence).
        destruct (postpone_switch_flag s1 =? 0); auto.
Qed.

(** C16: Releasing a semaphore nobody waits for gives one unit back and does
    not switch. Otherwise the count stays and the unit passes to the task that
    has waited longest, which becomes ready and leaves the queue; the others keep
    their order. *)
Theorem semaphore_release_correct (s : sched) (sem : semaphore_t) (ready w : list Z) :
  sched_ok s ready -> at_rest s -> sem_ok s sem w -> 0 < current_count sem ->
  current_task s ∉ w -> (forall t, t ∈ w -> t ∉ ready) ->
  exists s' sem' ready', semaphore_release s sem = Ret (s', sem') /\ sched_ok s' ready' /\
    match w with
    | [] => current_task s' = current_task s /\ ready' = ready /\ sem_ok s' sem' [] /\
            current_count sem' = current_count sem - 1
    | t :: w' => sem_ok s' sem' w' /\ current_count sem' = current_count sem /\
        ((current_task s', ready') = (current_task s, t :: ready) \/
         (current_task s', ready') = dispatch (idle_task s) (current_task s)
           (t_state (tasks s (current_task s)) =? RUNNING) (t :: ready))
    end.
Proof.
  intros H R Hq Hpos Hcw Hdis.
  destruct (release_spec s sem ready w H R Hq Hpos Hcw Hdis) as (s' & sem' & r' & E & H' & _ & _ & D).
  by exists s', sem', r'.
Qed.

(** The tasks that wait for a condition are all released, last one first. *)
Lemma signal_loop_spec (w : list Z) (fuel : nat) (s : sched) (p : Z) (ready : list Z) :
  sched_ok s ready -> locks_ok s -> postpone_switch_counter s <> 0 ->
  chain (tasks s) p w -> NoDup (w ++ ready) -> current_task s ∉ w -> (length w < fuel)%nat ->
  exists s', signal_loop fuel s p = Ret s' /\ sched_ok s' (rev w ++ ready) /\
    current_task s' = current_task s /\ same_locks s s' /\ idle_task s' = idle_task s /\
    tasks s' (current_task s) = tasks s (current_task s).
Proof.
  revert fuel s p ready. induction w as [|t w IH]; intros fuel s p ready H L Hp Hw Hnd Hc Hf;
    (destruct fuel as [|fuel]; [simpl in Hf; lia|]); cbn [signal_loop].
  { simpl in Hw. rewrite Hw. exists s. split_and!; done. }
  destruct Hw as (-> & Ht & Hw). destruct (Z.eqb_spec t 0); [done|]. rewrite tload_nz by done.
  cbn [obind]. simpl in Hnd. apply NoDup_cons in Hnd as [Hni Hnd].
  rewrite not_elem_of_app in Hni. destruct Hni as [Htw Htr].
  apply not_elem_of_cons in Hc as [Hct Hcw]. simpl in Hf.
  destruct (unblock_postponed s t ready H L Hp Ht Htr) as
    (s1 & -> & H1 & C1 & I1 & [L1 P1] & _ & _ & _ & Q1); [congruence|]. cbn [obind].
  destruct (IH fuel s1 (next (tasks s t)) (t :: ready)) as (s2 & -> & H2 & C2 & [L2 P2] & I2 & T2).
  - done.
  - unfold locks_ok. by rewrite L1, P1.
  - by rewrite P1.
  - eapply chain_frame, Hw. intros x Hx. rewrite Q1; [done|]. by intros ->.
  - apply NoDup_app_cons_middle; [done|]. rewrite not_elem_of_app. done.
  - by rewrite C1.
  - lia.
  - exists s2. cbn [rev]. rewrite <- app_assoc. rewrite C1, Q1 in T2 by done.
    split_and!; try done; try congruence; split; congruence.
Qed.

(** Signalling a condition makes every task that waits for it ready and
    empties its list; no other task becomes ready. *)
Theorem condvar_signal_wakes_all (s : sched) (cvs : list condvar_t) (i : nat) (condition : Z)
    (cv : condvar_t) (ready w : list Z) (fuel : nat) :
  sched_ok s ready -> at_rest s -> condvar_find cvs condition = Ret (Some i) ->
  cvs !! i = Some cv -> chain (tasks s) (cv_tasks cv) w -> NoDup (w ++ ready) ->
  current_task s ∉ w -> (length w < fuel)%nat ->
  exists s' ready', condvar_signal fuel s cvs condition =
      Ret (s', <[i := mk_condvar (cv_condition cv) 0 (cv_live cv)]> cvs) /\
    sched_ok s' ready' /\
    ((current_task s', ready') = (current_task s, rev w ++ ready) \/
     (current_task s', ready') = dispatch (idle_task s) (current_task s)
       (t_state (tasks s (current_task s)) =? RUNNING) (rev w ++ ready)).
Proof.
  intros H R Hfind Hcv Hw Hnd Hc Hf. destruct (lock_fields s R) as (L1 & P1 & F1).
  unfold condvar_signal. rewrite Hfind. cbn [obind].
  assert (Hget : lget cvs (Z.of_nat i) = Ret cv).
  { apply lget_Ret. split; [lia|]. by rewrite Nat2Z.id. }
  rewrite Hget. cbn [obind]. pose proof H as [A B C].
  destruct (signal_loop_spec w fuel (task_lock s) (cv_tasks cv) ready) as
    (s1 & -> & H1 & C1 & [L2 P2] & I1 & T1); try done.
  - unfold locks_ok. rewrite L1, P1. change (u32 (0 + 1)) with 1. lia.
  - by rewrite P1.
  - cbn [obind]. destruct (unlock_spec s1 (rev w ++ ready) 0 H1 ltac:(lia)) as
      (s3 & r3 & -> & H3 & _ & _ & D3 & _); [by rewrite L2|by rewrite P2|].
    cbn [obind]. unfold set_tasks_of. rewrite Hcv. eexists s3, r3. split; [done|]. split; [done|].
    rewrite C1, I1 in D3. simpl in D3, T1. rewrite T1 in D3.
    destruct (postpone_switch_flag s1 =? 0); auto.
Qed.

(** A freed condition variable stays on the list: the next search of the list
    that reaches it reads freed memory. *)
Theorem condvar_use_after_free (fuel : nat) (s : sched) (cond other : Z) :
  (let! cvs := condvar_free (condvar_alloc [] cond) cond in condvar_signal fuel s cvs other) = Undef.
Proof. unfold condvar_free, condvar_alloc. cbn [condvar_find cv_live cv_condition negb].
  rewrite Z.eqb_refl. reflexivity. Qed.

(** One release too many: the count wraps round, and from then on every
    acquisition blocks. *)
Theorem release_unheld (s : sched) (sem : semaphore_t) (sem' : semaphore_t) (s' : sched) :
  waiting_tasks_start sem = 0 -> current_count sem = 0 -> max_count sem < 2 ^ 32 ->
  semaphore_release s sem = Ret (s', sem') ->
  current_count sem' = 2 ^ 32 - 1 /\ max_count sem' <= current_count sem'.
Proof.
  intros H1 H2 H3. unfold semaphore_release. rewrite H1, H2. cbn [Z.eqb].
  intros (s1 & _ & [= _ <-])%obind_inv. simpl. change (u32 (0 - 1)) with (2 ^ 32 - 1). lia.
Qed.

(** With an empty ready list a task that has to wait for a semaphore is not
    suspended: it goes on as if it held it. *)
Theorem acquire_without_ready :
  let held := mk_sem 1 1 0 0 in
  let alone := set_ready (demo_sched 0) 0 in
  exists s' sem', semaphore_acquire alone held = Ret (s', sem') /\
    current_task s' = current_task alone /\ current_count sem' = 1.
Proof. eexists _, _. split; [vm_compute; reflexivity|]. split; reflexivity. Qed.

(** ** Witnesses *)

Lemma demo_rest : at_rest (demo_sched 0).
Proof. done. Qed.

Lemma demo_sem_ok : sem_ok (demo_sched 0) (mk_sem 1 1 400 500) [400; 500].
Proof.
  split; simpl; try done; try lia.
  - by intros t [= <-].
  - repeat constructor; rewrite ?elem_of_cons, elem_of_nil; lia.
Qed.

Lemma semaphore_acquire_correct_witness :
  exists s' sem', semaphore_acquire (demo_sched 0) (mk_sem 1 1 400 500) = Ret (s', sem') /\
    sem_ok s' sem' [400; 500; 100].
Proof.
  destruct (semaphore_acquire_correct (demo_sched 0) (mk_sem 1 1 400 500) [300; 200] [400; 500]
    (demo_sched_ok 0) demo_rest demo_sem_ok) as (s' & sem' & r' & E & _ & Q & _).
  - done.
  - simpl. rewrite !elem_of_cons, elem_of_nil. lia.
  - intros t. rewrite !elem_of_cons, elem_of_nil. lia.
  - exact (ex_intro _ s' (ex_intro _ sem' (conj E Q))).
Defined.

Lemma semaphore_release_correct_witness :
  exists s' sem', semaphore_release (demo_sched 0) (mk_sem 1 1 400 500) = Ret (s', sem') /\
    sem_ok s' sem' [500].
Proof.
  destruct (semaphore_release_correct (demo_sched 0) (mk_sem 1 1 400 500) [300; 200] [400; 500]
    (demo_sched_ok 0) demo_rest demo_sem_ok) as (s' & sem' & r' & E & _ & Q & _).
  - simpl. lia.
  - simpl. rewrite !elem_of_cons, elem_of_nil. lia.
  - intros t. rewrite !elem_of_cons, elem_of_nil. lia.
  - exact (ex_intro _ s' (ex_intro _ sem' (conj E Q))).
Defined.

Lemma condvar_signal_wakes_all_witness :
  exists s' ready', condvar_signal 3 (demo_sched 0) [mk_condvar 7 400 true] 7 =
      Ret (s', [mk_condvar 7 0 true]) /\ sched_ok s' ready'.
Proof.
  destruct (condvar_signal_wakes_all (demo_sched 0) [mk_condvar 7 400 true] 0 7
    (mk_condvar 7 400 true) [300; 200] [400; 500] 3 (demo_sched_ok 0) demo_rest)
    as (s' & r' & E & H & _).
  - reflexivity.
  - reflexivity.
  - simpl. split_and!; done.
  - repeat constructor; simpl; rewrite ?elem_of_cons, elem_of_nil; lia.
  - simpl. rewrite !elem_of_cons, elem_of_nil. lia.
  - simpl. lia.
  - exact (ex_intro _ s' (ex_intro _ r' (conj E H))).
Defined.
