(* ===== verification/MutexRun.v ===== *)
(** Tasks that share a semaphore, src/src/kernel/proc/mutex.c over task.c: every
    interleaving of acquisitions, releases, blocking, waking, sleeping and timer
    interrupts.  A step is a whole operation of the current task or a whole
    interrupt.  The holders of the semaphore and the tasks that blocked for
    other reasons are kept beside the state, they are not part of the program. *)

From Stdlib Require Import ZArith Lia.
From stdpp Require Import base numbers list sets.
From S2P Require Import Prelude Task Mutex.

(** ** Steps *)

Record msys := mk_msys {
  sc : sched;
  sem : semaphore_t;
  holders : list Z;
  parked : list Z;
}.

Inductive mop :=
| MAcquire
| MRelease
| MBlock (reason : Z)
| MWake (t : Z)
| MSleep (until : Z)
| MTick
| MClock (counter : Z).

Definition set_clock (s : sched) (c : Z) : sched :=
  mk_sched (tasks s) (current_task s) (schedule_tasks s) (sleep_tasks s) (terminated_tasks s) (task_cleaner s)
    (idle_task s) (pid_count s) (last_count s) (schedule_lock_counter s) (postpone_switch_counter s)
    (postpone_switch_flag s) (time_slice_remaining s) c (period_ns s).

(** One unit less for a holder. *)
Fixpoint drop_one (t : Z) (l : list Z) : list Z :=
  match l with
  | [] => []
  | x :: l => if x =? t then l else x :: drop_one t l
  end.

(** [fuel] bounds the sleepers. *)
Definition mstep (fuel : nat) (m : msys) (o : mop) : outcome msys :=
  let cur := current_task (sc m) in
  match o with
  | MAcquire =>
      let! (s, x) := semaphore_acquire (sc m) (sem m) in
      Ret (mk_msys s x (if current_count (sem m) <? max_count (sem m) then cur :: holders m else holders m) (parked m))
  | MRelease =>
      let! (s, x) := semaphore_release (sc m) (sem m) in
      let rest := drop_one cur (holders m) in
      Ret (mk_msys s x (if waiting_tasks_start (sem m) =? 0 then rest else waiting_tasks_start (sem m) :: rest) (parked m))
  | MBlock reason =>
      let! s := task_block (sc m) reason in Ret (mk_msys s (sem m) (holders m) (cur :: parked m))
  | MWake t =>
      let! s := task_unblock (sc m) t in Ret (mk_msys s (sem m) (holders m) (drop_one t (parked m)))
  | MSleep until =>
      let! s := nano_sleep_until (sc m) until in Ret (mk_msys s (sem m) (holders m) (parked m))
  | MTick => let! s := task_time_handler fuel (sc m) in Ret (mk_msys s (sem m) (holders m) (parked m))
  | MClock c => Ret (mk_msys (set_clock (sc m) c) (sem m) (holders m) (parked m))
  end.

(** What the tasks keep to: the idle task uses neither semaphores nor the disk,
    a release is made by a holder, and what is woken had blocked. *)
Definition disciplined (m : msys) (o : mop) : bool :=
  let busy := negb (current_task (sc m) =? idle_task (sc m)) in
  match o with
  | MAcquire | MSleep _ => busy
  | MRelease => busy && bool_decide (current_task (sc m) ∈ holders m)
  | MBlock reason => busy && negb (reason =? RUNNING)
  | MWake t => bool_decide (t ∈ parked m)
  | MTick | MClock _ => true
  end.

(** The current task has to wait and no other one is ready to take over. *)
Definition starved (m : msys) (o : mop) : bool :=
  (schedule_tasks (sc m) =? 0) &&
  match o with
  | MAcquire => max_count (sem m) <=? current_count (sem m)
  | MBlock _ | MSleep _ => true
  | _ => false
  end.
Definition guard (m : msys) (o : mop) : bool := disciplined m o && negb (starved m o).

Fixpoint mrun (fuel : nat) (m : msys) (os : list mop) : outcome msys :=
  match os with
  | [] => Ret m
  | o :: os => let! m := mstep fuel m o in mrun fuel m os
  end.

(** The tasks keep to the discipline at least up to the first operation that is
    starved. *)
Fixpoint disciplined_run (fuel : nat) (m : msys) (os : list mop) : bool :=
  match os with
  | [] => true
  | o :: os =>
      disciplined m o && (starved m o || match mstep fuel m o with Ret m => disciplined_run fuel m os | _ => true end)
  end.

(** ** The invariant *)

(** The tasks that are not ready: asleep, waiting, blocked. *)
Record away (s : sched) (ready off : list Z) : Prop := {
  aw_sched : sched_ok s ready;
  aw_rest : at_rest s;
  aw_nodup : NoDup off;
  aw_apart x : x ∈ off -> x <> 0 /\ x <> current_task s /\ x <> idle_task s /\ x ∉ ready;
}.

Record msys_ok (m : msys) (ready sl w : list Z) : Prop := {
  mo_away : away (sc m) ready (sl ++ w ++ parked m);
  mo_sleep : chain (tasks (sc m)) (sleep_tasks (sc m)) sl;
  mo_sem : sem_ok (sc m) (sem m) w;
  mo_count : Z.of_nat (length (holders m)) = current_count (sem m);
}.

Lemma sem_frame (s s' : sched) (x : semaphore_t) (w : list Z) :
  (forall q, q ∈ w -> next (tasks s' q) = next (tasks s q)) -> sem_ok s x w -> sem_ok s' x w.
Proof. intros Hn [A B C D E]. split; try done. by eapply chain_frame, A. Qed.

(** The dispatcher picks from the ready list, or stays. *)
Lemma dispatch_sub (idle cur c x : Z) (running : bool) (ready r : list Z) :
  (c, r) = dispatch idle cur running ready -> x ∈ c :: r -> x = cur \/ x = idle \/ x ∈ ready.
Proof.
  unfold dispatch. destruct ready as [|t l]; [intros [= -> ->]; set_solver|].
  destruct (Z.eqb_spec t idle) as [->|]; [destruct l; [destruct running|]|destruct (cur =? idle)]; intros [= -> ->]; set_solver.
Qed.

(** A task that cannot run is left when another one is ready. *)
Lemma dispatch_leaves (idle cur c : Z) (ready r : list Z) :
  ready <> [] -> cur ∉ ready -> cur <> idle -> (c, r) = dispatch idle cur false ready -> cur ∉ c :: r.
Proof.
  intros Hr Hc Hi. unfold dispatch. destruct ready as [|t l]; [done|].
  destruct (Z.eqb_spec t idle) as [->|]; [destruct l|destruct (Z.eqb_spec cur idle)]; intros [= -> ->]; set_solver.
Qed.

(** A step of the scheduler that runs only tasks that were ready, were current or
    are in [extra]. *)
Lemma away_step (s s' : sched) (ready ready' off off' extra : list Z) :
  away s ready off -> sched_ok s' ready' -> at_rest s' -> idle_task s' = idle_task s -> NoDup off' ->
  (forall x, x ∈ off' -> x ∈ off /\ x ∉ extra) ->
  (forall x, x ∈ current_task s' :: ready' -> x = current_task s \/ x = idle_task s \/ x ∈ extra ++ ready) ->
  away s' ready' off'.
Proof.
  intros [A B C D] H' R' I' N' Ho Hs. split; try done. intros x Hx. destruct (Ho x Hx) as [Hx1 Hx2].
  destruct (D x Hx1) as (D1 & D2 & D3 & D4). rewrite I'.
  assert (Hn : x ∉ current_task s' :: ready').
  { intros Hin. destruct (Hs x Hin) as [|[|Hin']]; [done|done|]. apply elem_of_app in Hin' as [|]; done. }
  rewrite not_elem_of_cons in Hn. tauto.
Qed.

(** The same when the current task stops. *)
Lemma away_park (s s' : sched) (ready ready' off off' : list Z) :
  away s ready off -> sched_ok s' ready' -> at_rest s' -> idle_task s' = idle_task s -> current_task s <> idle_task s ->
  current_task s ∉ current_task s' :: ready' -> NoDup off' -> (forall x, x ∈ off' -> x = current_task s \/ x ∈ off) ->
  (forall x, x ∈ current_task s' :: ready' -> x = current_task s \/ x = idle_task s \/ x ∈ ready) ->
  away s' ready' off'.
Proof.
  intros [A B C D] H' R' I' Hi Hl N' Ho Hs. split; try done. intros x Hx. rewrite I'.
  assert (Hx' : x <> 0 /\ x <> idle_task s /\ x ∉ current_task s' :: ready').
  { destruct (Ho x Hx) as [->|Hx1]; [destruct A as [_ _ [? _]]; done|]. destruct (D x Hx1) as (D1 & D2 & D3 & D4).
    split; [done|]. split; [done|]. intros Hin. by destruct (Hs x Hin) as [|[|]]. }
  rewrite not_elem_of_cons in Hx'. tauto.
Qed.

Lemma drop_one_length (t : Z) (l : list Z) : t ∈ l -> length l = S (length (drop_one t l)).
Proof.
  induction l as [|x l IH]; [by intros ?%elem_of_nil|]. intros Hin. cbn [drop_one]. destruct (Z.eqb_spec x t) as [->|]; [done|].
  cbn [length]. rewrite IH; [done|]. apply elem_of_cons in Hin as [->|]; done.
Qed.

Lemma drop_one_spec (t : Z) (l : list Z) : NoDup l -> NoDup (drop_one t l) /\ forall x, x ∈ drop_one t l <-> x ∈ l /\ x <> t.
Proof.
  induction 1 as [|x l Hx Hl [IH1 IH2]]; cbn [drop_one]; [split; [constructor|set_solver]|].
  destruct (Z.eqb_spec x t) as [->|]; [split; [done|set_solver]|].
  split; [constructor; [|done]; rewrite IH2; tauto|]. intros y. rewrite !elem_of_cons, IH2. naive_solver.
Qed.

(** ** Every step keeps the invariant *)

Lemma ready_nonempty (s : sched) (ready : list Z) :
  sched_ok s ready -> negb (schedule_tasks s =? 0) = true -> ready <> [].
Proof. intros [A _ _] H E. apply (chain_head _ _ _ A) in E. by rewrite E in H. Qed.

Section Steps.
Context (fuel : nat) (m : msys) (ready sl w : list Z) (Hok : msys_ok m ready sl w).

Lemma off_parts (x : Z) : x ∈ sl \/ x ∈ w \/ x ∈ parked m -> x <> 0 /\ x <> current_task (sc m) /\ x <> idle_task (sc m) /\ x ∉ ready.
Proof using Hok. intros Hx. apply (aw_apart _ _ _ (mo_away _ _ _ _ Hok)). by rewrite !elem_of_app. Qed.

Lemma off_nodup : NoDup sl /\ NoDup w /\ NoDup (parked m) /\ (forall x, x ∈ sl -> x ∉ w /\ x ∉ parked m) /\
  (forall x, x ∈ w -> x ∉ parked m).
Proof using Hok.
  pose proof (aw_nodup _ _ _ (mo_away _ _ _ _ Hok)) as (N1 & N2 & (N4 & N5 & N6)%NoDup_app)%NoDup_app.
  split_and!; try done. intros x Hx. by apply not_elem_of_app, N2.
Qed.

(** The sleepers are not touched by an operation on the semaphore. *)
Lemma sleepers_kept (s' : sched) : frames (sc m) s' ready w -> chain (tasks s') (sleep_tasks s') sl.
Proof using Hok.
  intros [_ _ [L _] F]. rewrite L. eapply chain_frame, (mo_sleep _ _ _ _ Hok). intros y Hy.
  destruct (off_parts y) as (? & ? & ? & ?); [by left|]. apply F; try done. by apply off_nodup.
Qed.

Lemma current_apart : current_task (sc m) ∉ sl /\ current_task (sc m) ∉ w /\ current_task (sc m) ∉ parked m.
Proof using Hok. split_and!; intros Hx; by destruct (off_parts (current_task (sc m))) as (_ & ? & _); auto. Qed.

Lemma acquire_keeps : guard m MAcquire = true ->
  exists m' ready' w', mstep fuel m MAcquire = Ret m' /\ msys_ok m' ready' sl w' /\ max_count (sem m') = max_count (sem m).
Proof using Hok.
  intros [Hb%negb_true_iff%Z.eqb_neq Hg]%andb_true_iff. apply negb_true_iff in Hg. pose proof Hok as [A _ Hw Hn].
  destruct current_apart as (Hcsl & Hcw & Hcp). destruct off_nodup as (N1 & N2 & N3 & N4 & N5).
  assert (Hwr : forall t, t ∈ w -> t ∉ ready) by (intros t Ht; apply off_parts; auto).
  pose proof (aw_sched _ _ _ A) as Hs. cbn [mstep]. destruct (Z.ltb_spec (current_count (sem m)) (max_count (sem m))) as [Hlt|Hge].
  - destruct (acquire_free _ _ _ _ Hs (aw_rest _ _ _ A) Hw Hb Hcw Hwr Hlt) as (s' & x & -> & H' & C' & W' & Q' & M' & F).
    cbn [obind]. eexists _, ready, w. split; [done|]. split; [|done]. split; simpl; [|by apply sleepers_kept|done|lia].
    eapply (away_step _ _ _ _ _ _ [] A); try done; [apply F|apply F|apply A|intros; by split; [|apply not_elem_of_nil]|].
    intros y [->|Hy]%elem_of_cons; rewrite ?C'; auto.
  - apply andb_false_iff in Hg as [Hg|Hg%Z.leb_gt]; [|lia]. rewrite <- negb_true_iff in Hg. apply (ready_nonempty _ _ Hs) in Hg.
    destruct (acquire_blocks _ _ _ _ Hs (aw_rest _ _ _ A) Hw Hb Hcw Hwr Hge) as (s' & x & r' & -> & H' & W' & Q' & D' & M' & F).
    cbn [obind]. eexists _, r', (w ++ [current_task (sc m)]). split; [done|].
    split; [|done]. split; simpl; [|by apply sleepers_kept|done|lia].
    assert (Hl : current_task (sc m) ∉ current_task s' :: r') by (eapply dispatch_leaves, D'; try done; apply Hs).
    apply (away_park _ _ _ _ (sl ++ w ++ parked m) _ A); try done; [apply F|apply F| |set_solver|].
    + apply NoDup_app. split; [done|]. split; [set_solver|]. apply NoDup_app. split; [apply W'|]. set_solver.
    + intros y Hy. by eapply dispatch_sub.
Qed.

Lemma release_keeps : guard m MRelease = true ->
  exists m' ready' w', mstep fuel m MRelease = Ret m' /\ msys_ok m' ready' sl w' /\ max_count (sem m') = max_count (sem m).
Proof using Hok.
  intros [[Hb%negb_true_iff%Z.eqb_neq Hg%bool_decide_eq_true]%andb_true_iff _]%andb_true_iff. pose proof Hok as [A _ Hw Hn].
  destruct current_apart as (_ & Hcw & _). destruct off_nodup as (N1 & N2 & N3 & N4 & N5). pose proof (drop_one_length _ _ Hg) as Hd.
  assert (Hwr : forall t, t ∈ w -> t ∉ ready) by (intros t Ht; apply off_parts; auto).
  destruct (release_spec (sc m) (sem m) ready w (aw_sched _ _ _ A) (aw_rest _ _ _ A) Hw ltac:(lia) Hcw Hwr)
    as (s' & x & r' & E & H' & M' & F & D). cbn [mstep]. rewrite E. cbn [obind]. pose proof (sleepers_kept s' F) as Hsl.
  destruct w as [|t w'].
  - destruct D as (C' & -> & W' & Q'). rewrite (sq_chain _ _ _ Hw : waiting_tasks_start (sem m) = 0). cbn [Z.eqb].
    eexists _, ready, []. split; [done|]. split; [|done]. split; simpl; [|done|done|lia].
    eapply (away_step _ _ _ _ _ _ [] A); try done; [apply F|apply F|apply A|intros; by split; [|apply not_elem_of_nil]|].
    intros y [->|Hy]%elem_of_cons; rewrite ?C'; auto.
  - destruct D as (W' & Q' & D). destruct (sq_chain _ _ _ Hw) as (-> & Ht0 & _). destruct (Z.eqb_spec t 0); [done|].
    eexists _, r', w'. split; [done|]. split; [|done]. split; simpl; [|done|done|lia].
    eapply (away_step _ _ _ _ _ _ [t] A); try done; [apply F|apply F| | |].
    + apply NoDup_app. split; [done|]. split; [set_solver|]. apply NoDup_app. by split; [apply W'|split; [set_solver|]].
    + apply NoDup_cons in N2 as [Htw _]. intros y Hy. split; [set_solver|]. intros ->%list_elem_of_singleton.
      specialize (N5 t). specialize (N4 t). set_solver.
    + intros y Hy. destruct D as [[= C1 R1]|D]; [rewrite C1, R1 in Hy; set_solver|]. apply (dispatch_sub _ _ _ _ _ _ _ D) in Hy. set_solver.
Qed.

(** A step of the scheduler alone that touches no waiter. *)
Lemma sched_keeps (s' : sched) (ready' sl' pk : list Z) :
  away s' ready' (sl' ++ w ++ pk) -> chain (tasks s') (sleep_tasks s') sl' ->
  (forall q, q ∈ w -> next (tasks s' q) = next (tasks (sc m) q)) ->
  msys_ok (mk_msys s' (sem m) (holders m) pk) ready' sl' w.
Proof using Hok. intros A C F. pose proof Hok as [_ _ Hw Hn]. split; try done. by eapply sem_frame. Qed.
End Steps.

(** [task_block] outside critical sections. *)
Lemma block_spec (s : sched) (reason : Z) (ready : list Z) :
  sched_ok s ready -> at_rest s -> reason <> RUNNING ->
  exists s' ready', task_block s reason = Ret s' /\ sched_ok s' ready' /\ at_rest s' /\ idle_task s' = idle_task s /\
    same_lists s s' /\ (current_task s', ready') = dispatch (idle_task s) (current_task s) false ready /\
    (forall q, q ∉ ready -> (q = current_task s -> current_task s <> idle_task s) -> next (tasks s' q) = next (tasks s q)).
Proof.
  intros [A B [C D]] (L & P & F) Hr. unfold task_block. rewrite tstore_nz by done. cbn [obind]. set (s1 := set_tasks _ _).
  assert (H1 : sched_ok s1 ready) by (split; [by apply chain_tput|done|done]).
  destruct (schedule_spec s1 ready H1) as (s2 & r2 & E2 & H2 & [L2 P2] & D2 & S2 & I2 & Q2); [done|].
  destruct (schedule_flags s1 s2 ltac:(done) E2) as [_ F2]. rewrite E2. cbn [obind].
  rewrite (lock_unlock_counter s2 0) by (lia || rewrite L2; simpl; by rewrite L). eexists _, r2. split; [done|]. simpl in *.
  destruct H2 as [A2 B2 C2]. split; [by split|]. split; [by unfold at_rest; simpl; rewrite P2, F2|]. split_and!; try done.
  - rewrite D2, tput_eq. simpl. by destruct (Z.eqb_spec reason RUNNING).
  - intros q Hq Hqc. rewrite Q2 by done. unfold tput. by destruct (Z.eqb_spec q (current_task s)) as [->|].
Qed.

(** [task_unblock] outside critical sections. *)
Lemma unblock_spec (s : sched) (t : Z) (ready : list Z) :
  sched_ok s ready -> at_rest s -> t <> 0 -> t ∉ ready -> t <> current_task s ->
  exists s' ready', task_unblock s t = Ret s' /\ sched_ok s' ready' /\ at_rest s' /\ idle_task s' = idle_task s /\
    same_lists s s' /\ (forall x, x ∈ current_task s' :: ready' -> x = current_task s \/ x = idle_task s \/ x ∈ [t] ++ ready) /\
    (forall q, q <> t -> q <> current_task s -> next (tasks s' q) = next (tasks s q)).
Proof.
  intros [A B [C D]] (L & P & F) Ht Htr Htc. unfold task_unblock. set (s0 := task_lock_scheduler s).
  destruct ((schedule_tasks s0 =? 0) || (current_task s0 =? idle_task s0)).
  - destruct (wrapper_sched s0 t ready) as (s1 & E1 & C1 & H1 & I1 & [L1 P1] & S1 & Q1); try done;
      [by constructor|by apply not_elem_of_cons|].
    destruct (wrapper_flags s0 s1 t P E1) as [_ F1]. rewrite E1. cbn [obind].
    rewrite (lock_unlock_counter s1 0) by (lia || rewrite L1; simpl; by rewrite L). eexists _, _. split; [done|]. simpl in *.
    destruct H1 as [A1 B1 D1]. split; [by split|]. split; [by unfold at_rest; simpl; rewrite P1, F1|]. split_and!; try done.
    + rewrite C1. destruct (current_task s =? idle_task s); set_solver.
    + intros q Hq Hqc. by rewrite Q1.
  - destruct (add_node_spec s0 t ready Ht Htr A) as (s1 & E1 & A1 & C1 & I1 & [L1 P1] & S1 & F1 & _ & Q1).
    rewrite E1. cbn [obind]. rewrite (lock_unlock_counter s1 0) by (lia || rewrite L1; simpl; by rewrite L).
    eexists _, (t :: ready). split; [done|]. simpl in *. split; [split; simpl; [done|by constructor|]|].
    { rewrite C1. by rewrite not_elem_of_cons. }
    split; [by unfold at_rest; simpl; rewrite P1, F1|]. split_and!; try done.
    + rewrite C1. set_solver.
    + intros q Hq Hqc. by rewrite Q1.
Qed.

(** [nano_sleep_until] returns at once when the time is over. *)
Lemma sleep_spec (s : sched) (until : Z) (ready sl : list Z) :
  sched_ok s ready -> at_rest s -> chain (tasks s) (sleep_tasks s) sl -> current_task s ∉ sl -> (forall x, x ∈ sl -> x ∉ ready) ->
  current_task s <> idle_task s ->
  exists s' ready' sl', nano_sleep_until s until = Ret s' /\ sched_ok s' ready' /\ at_rest s' /\ idle_task s' = idle_task s /\
    chain (tasks s') (sleep_tasks s') sl' /\
    ((sl' = sl /\ current_task s' = current_task s /\ ready' = ready) \/
     (sl' = current_task s :: sl /\ (current_task s', ready') = dispatch (idle_task s) (current_task s) false ready)) /\
    (forall q, q ∉ ready -> q <> current_task s -> next (tasks s' q) = next (tasks s q)).
Proof.
  intros [A B [C D]] R Hsl Hcs Hdis Hi. destruct (lock_fields s R) as (L1 & P1 & F1). unfold nano_sleep_until.
  change (hpet_get_ns (task_lock s)) with (hpet_get_ns s). destruct (until <? hpet_get_ns s).
  - destruct (unlock_spec (task_lock s) ready 0 ltac:(by split) ltac:(lia) L1 P1) as (s' & r' & E & H' & L' & P' & D' & [S' _] & I' & Q).
    pose proof (unlock_flag _ _ P1 E) as F'. rewrite F1 in D'. injection D' as C' ->. exists s', ready, sl. rewrite S'. split_and!; try done.
    + eapply chain_frame, Hsl. intros x Hx. apply Q; [by apply Hdis|by intros ->].
    + by left.
    + intros q Hq Hqc. by apply Q.
  - cbn [current_task task_lock task_lock_scheduler set_locks]. rewrite tstore_nz by done. cbn [obind].
    rewrite tstore_nz by done. cbn [obind]. set (s1 := set_lists _ _ _ _).
    assert (H1 : sched_ok s1 ready) by (split; [by do 2 (apply chain_tput; [done|])|done|done]).
    destruct (unlock_spec s1 ready 0 H1 ltac:(lia) L1 P1) as (s2 & r2 & E & H2 & L2 & P2 & D2 & [S2 _] & I2 & Q2).
    pose proof (unlock_flag s1 s2 P1 E) as F2. change (postpone_switch_flag s1) with (postpone_switch_flag (task_lock s)) in D2.
    rewrite F1 in D2. injection D2 as C2 ->. rewrite E. cbn [obind].
    destruct (block_spec s2 SLEEPING ready H2 ltac:(by split) ltac:(done)) as (s3 & r3 & -> & H3 & R3 & I3 & [S3 _] & D3 & Q3).
    simpl in C2, S2, I2, Q2. rewrite C2, I2 in D3, Q3.
    assert (Hn : forall q, q ∉ ready -> q <> current_task s -> next (tasks s3 q) = next (tasks s q)).
    { intros q Hq Hqc. rewrite Q3, Q2 by done. by rewrite !tput_ne. } exists s3, r3, (current_task s :: sl). split_and!; try done.
    + congruence.
    + rewrite S3, S2. simpl. split; [done|]. split; [done|].
      rewrite Q3, Q2, !tput_eq by done. simpl. eapply chain_frame, Hsl. intros x Hx. apply Hn; [by apply Hdis|by intros ->].
    + by right.
Qed.

Section MoreSteps.
Context (fuel : nat) (m : msys) (ready sl w : list Z) (Hok : msys_ok m ready sl w).

Lemma block_keeps (reason : Z) : guard m (MBlock reason) = true ->
  exists m' ready', mstep fuel m (MBlock reason) = Ret m' /\ msys_ok m' ready' sl w /\ sem m' = sem m.
Proof using Hok.
  intros [[Hb%negb_true_iff%Z.eqb_neq Hr%negb_true_iff%Z.eqb_neq]%andb_true_iff Hg]%andb_true_iff.
  unfold starved in Hg. rewrite andb_true_r in Hg. pose proof Hok as [A Hsl Hw Hn].
  destruct (current_apart _ _ _ _ Hok) as (Hcsl & Hcw & Hcp). destruct (off_nodup _ _ _ _ Hok) as (N1 & N2 & N3 & N4 & N5).
  pose proof (aw_sched _ _ _ A) as Hs. apply (ready_nonempty _ _ Hs) in Hg.
  destruct (block_spec (sc m) reason ready Hs (aw_rest _ _ _ A) Hr) as (s' & r' & E & H' & R' & I' & [S' _] & D' & Q').
  cbn [mstep]. rewrite E. cbn [obind]. eexists _, r'. split; [done|]. split; [|done].
  assert (Hq : forall q, q ∈ sl \/ q ∈ w \/ q ∈ parked m -> next (tasks s' q) = next (tasks (sc m) q)).
  { intros q Hq. destruct (off_parts _ _ _ _ Hok q Hq) as (? & ? & ? & ?). by apply Q'. }
  apply (sched_keeps _ _ _ _ Hok); [|rewrite S'; eapply chain_frame, Hsl; auto|auto].
  apply (away_park _ _ _ _ (sl ++ w ++ parked m) _ A); try done.
  - eapply dispatch_leaves, D'; try done; apply Hs.
  - apply NoDup_app. split; [done|]. split; [set_solver|]. apply NoDup_app. split; [done|]. split; [set_solver|by constructor].
  - set_solver.
  - intros y Hy. by eapply dispatch_sub.
Qed.

Lemma wake_keeps (t : Z) : guard m (MWake t) = true ->
  exists m' ready', mstep fuel m (MWake t) = Ret m' /\ msys_ok m' ready' sl w /\ sem m' = sem m.
Proof using Hok.
  intros [Hg%bool_decide_eq_true _]%andb_true_iff. pose proof Hok as [A Hsl Hw Hn].
  destruct (off_parts _ _ _ _ Hok t) as (Ht0 & Htc & Hti & Htr); [auto|].
  destruct (off_nodup _ _ _ _ Hok) as (N1 & N2 & N3 & N4 & N5). destruct (drop_one_spec t (parked m) N3) as [Nd Hd].
  destruct (unblock_spec (sc m) t ready (aw_sched _ _ _ A) (aw_rest _ _ _ A) Ht0 Htr Htc)
    as (s' & r' & E & H' & R' & I' & [S' _] & D' & Q').
  cbn [mstep]. rewrite E. cbn [obind]. eexists _, r'. split; [done|]. split; [|done].
  assert (Hq : forall q, q ∈ sl \/ q ∈ w -> next (tasks s' q) = next (tasks (sc m) q)).
  { intros q Hq. destruct (off_parts _ _ _ _ Hok q) as (? & ? & ? & ?); [tauto|]. apply Q'; [|done]. intros ->.
    destruct Hq as [Hq|Hq]; [by apply N4 in Hq as [_ ?]|by apply N5 in Hq]. }
  apply (sched_keeps _ _ _ _ Hok); [|rewrite S'; eapply chain_frame, Hsl; auto|auto].
  apply (away_step _ _ _ _ (sl ++ w ++ parked m) _ [t] A); try done.
  - apply NoDup_app. split; [done|]. split; [intros x Hx; specialize (N4 x Hx); rewrite elem_of_app, Hd; tauto|].
    apply NoDup_app. split; [done|]. split; [intros x Hx; rewrite Hd; specialize (N5 x Hx); tauto|done].
  - intros x. rewrite !elem_of_app, Hd, list_elem_of_singleton. intros Hx. split; [tauto|]. intros ->.
    destruct Hx as [Hx|[Hx|[_ Hx]]]; [by apply N4 in Hx as [_ ?]|by apply N5 in Hx|done].
Qed.

Lemma sleep_keeps (until : Z) : guard m (MSleep until) = true ->
  exists m' ready' sl', mstep fuel m (MSleep until) = Ret m' /\ msys_ok m' ready' sl' w /\ sem m' = sem m /\
    (length sl' <= S (length sl))%nat.
Proof using Hok.
  intros [Hb%negb_true_iff%Z.eqb_neq Hg]%andb_true_iff. unfold starved in Hg. rewrite andb_true_r in Hg.
  pose proof Hok as [A Hsl Hw Hn].
  destruct (current_apart _ _ _ _ Hok) as (Hcsl & Hcw & Hcp). destruct (off_nodup _ _ _ _ Hok) as (N1 & N2 & N3 & N4 & N5).
  pose proof (aw_sched _ _ _ A) as Hs. apply (ready_nonempty _ _ Hs) in Hg.
  assert (Hsr : forall x, x ∈ sl -> x ∉ ready) by (intros x Hx; apply (off_parts _ _ _ _ Hok); auto).
  destruct (sleep_spec (sc m) until ready sl Hs (aw_rest _ _ _ A) Hsl Hcsl Hsr Hb)
    as (s' & r' & sl' & E & H' & R' & I' & K' & D' & Q').
  cbn [mstep]. rewrite E. cbn [obind]. eexists _, r', sl'. split; [done|].
  assert (Hq : forall q, q ∈ w -> next (tasks s' q) = next (tasks (sc m) q)).
  { intros q Hq. destruct (off_parts _ _ _ _ Hok q) as (? & ? & ? & ?); [auto|]. by apply Q'. }
  destruct D' as [(-> & C' & ->)|(-> & D')]; (split; [|split; [done|cbn; lia]]); apply (sched_keeps _ _ _ _ Hok); try done.
  - apply (away_step _ _ _ _ (sl ++ w ++ parked m) _ [] A); try done; [apply A|intros; by split; [|apply not_elem_of_nil]|].
    intros y [->|Hy]%elem_of_cons; rewrite ?C'; auto.
  - apply (away_park _ _ _ _ (sl ++ w ++ parked m) _ A); try done.
    + eapply dispatch_leaves, D'; try done; apply Hs.
    + cbn. constructor; [by rewrite !not_elem_of_app|apply A].
    + cbn. intros x. by rewrite elem_of_cons.
    + intros y Hy. by eapply dispatch_sub.
Qed.

Lemma tick_keeps : (length sl < fuel)%nat ->
  exists m' ready' sl', mstep fuel m MTick = Ret m' /\ msys_ok m' ready' sl' w /\ sem m' = sem m /\ (length sl' <= length sl)%nat.
Proof using Hok.
  intros Hf. pose proof Hok as [A Hsl Hw Hn]. destruct (off_nodup _ _ _ _ Hok) as (N1 & N2 & N3 & N4 & N5).
  destruct (current_apart _ _ _ _ Hok) as (Hcsl & _ & _). pose proof (aw_sched _ _ _ A) as Hs. destruct (aw_rest _ _ _ A) as (L & P & F).
  assert (Hnd : NoDup (sl ++ ready)).
  { apply NoDup_app. split; [done|]. split; [|apply Hs]. intros x Hx. apply (off_parts _ _ _ _ Hok); auto. }
  destruct (timer_spec sl ready (sc m) fuel Hs L P Hsl Hnd Hcsl Hf) as (s' & r' & E & H' & L' & P' & K' & D' & F' & I' & Q').
  set (now := hpet_get_ns (sc m)) in *. set (kept := rev _) in K'. cbn [mstep]. rewrite E. cbn [obind].
  assert (Hk : forall x, x ∈ kept -> x ∈ sl /\ due (sc m) now x = false) by (intros x Hx; by apply kept_not_due).
  eexists _, r', kept. split; [done|]. split; [|split; [done|unfold kept; rewrite length_rev; apply List.filter_length_le]].
  apply (sched_keeps _ _ _ _ Hok); [|done|].
  - apply (away_step _ _ _ _ (sl ++ w ++ parked m) _ (rev (List.filter (due (sc m) now) sl)) A); try done.
    + apply NoDup_app. split; [apply NoDup_ListNoDup, NoDup_rev, List.NoDup_filter; by apply NoDup_ListNoDup|].
      split; [|by apply NoDup_app]. intros x Hx. apply Hk in Hx as [Hx _]. specialize (N4 x Hx). rewrite elem_of_app. tauto.
    + intros x Hx. split; [rewrite !elem_of_app in *; destruct Hx as [Hx|]; [left; by apply Hk|tauto]|].
      intros [Hx1 Hx2]%woken_due. rewrite !elem_of_app in Hx. destruct Hx as [Hx|Hx]; [apply Hk in Hx as [_ Hx]; congruence|].
      specialize (N4 x Hx1). tauto.
    + intros x Hx. destruct D' as [[= C1 R1]|D']; [rewrite C1, R1 in Hx; set_solver|by eapply dispatch_sub].
  - intros q Hq. destruct (off_parts _ _ _ _ Hok q) as (? & ? & ? & ?); [auto|]. apply Q'; try done. intros Hx. by apply N4 in Hx as [? _].
Qed.
End MoreSteps.

Lemma step_keeps (fuel : nat) (m : msys) (o : mop) (ready sl w : list Z) :
  msys_ok m ready sl w -> guard m o = true -> (length sl < fuel)%nat ->
  exists m' ready' sl' w', mstep fuel m o = Ret m' /\ msys_ok m' ready' sl' w' /\ max_count (sem m') = max_count (sem m) /\
    (length sl' <= S (length sl))%nat.
Proof.
  intros Hok Hg Hf. destruct o.
  - destruct (acquire_keeps fuel m ready sl w Hok Hg) as (m' & r' & w' & ? & ? & ?). exists m', r', sl, w'. eauto.
  - destruct (release_keeps fuel m ready sl w Hok Hg) as (m' & r' & w' & ? & ? & ?). exists m', r', sl, w'. eauto.
  - destruct (block_keeps fuel m ready sl w Hok reason Hg) as (m' & r' & ? & ? & Es). exists m', r', sl, w. rewrite Es. eauto.
  - destruct (wake_keeps fuel m ready sl w Hok t Hg) as (m' & r' & ? & ? & Es). exists m', r', sl, w. rewrite Es. eauto.
  - destruct (sleep_keeps fuel m ready sl w Hok until Hg) as (m' & r' & sl' & ? & ? & Es & ?). exists m', r', sl', w. rewrite Es. eauto.
  - destruct (tick_keeps fuel m ready sl w Hok Hf) as (m' & r' & sl' & ? & ? & Es & ?). exists m', r', sl', w. rewrite Es. eauto.
  - eexists _, ready, sl, w. split; [done|]. split; [|eauto]. destruct Hok as [[[A1 A2 A3] B C D] E [F1 F2 F3 F4 F5] G].
    split; [split; [by split|done|done|done]|done|by split|done].
Qed.

(** With an empty ready list an exhausted semaphore does not stop its caller. *)
Lemma starved_acquire (fuel : nat) (m : msys) (ready sl w : list Z) :
  msys_ok m ready sl w -> disciplined m MAcquire = true -> starved m MAcquire = true ->
  exists m', mstep fuel m MAcquire = Ret m' /\ current_task (sc m') = current_task (sc m) /\ holders m' = holders m.
Proof.
  intros Hok Hb%negb_true_iff%Z.eqb_neq [Hr%Z.eqb_eq Hge%Z.leb_le]%andb_true_iff. pose proof Hok as [A _ Hw Hn].
  pose proof (aw_sched _ _ _ A) as Hs. apply (chain_head _ _ _ (so_chain _ _ Hs)) in Hr as ->.
  destruct (current_apart _ _ _ _ Hok) as (_ & Hcw & _). cbn [mstep].
  destruct (acquire_blocks _ _ _ _ Hs (aw_rest _ _ _ A) Hw Hb Hcw ltac:(intros; apply not_elem_of_nil) Hge)
    as (s' & x & r' & -> & _ & _ & _ & D' & _). cbn [obind]. destruct (Z.ltb_spec (current_count (sem m)) (max_count (sem m))); [lia|].
  eexists. split; [done|]. by injection D'.
Qed.

(** A run returns, or it returns up to an operation that is starved. *)
Lemma run_keeps (fuel : nat) (os : list mop) (m : msys) (ready sl w : list Z) :
  msys_ok m ready sl w -> disciplined_run fuel m os = true -> (length sl + length os < fuel)%nat ->
  exists ran rest m' ready' sl' w', os = ran ++ rest /\ mrun fuel m ran = Ret m' /\ msys_ok m' ready' sl' w' /\
    max_count (sem m') = max_count (sem m) /\
    match rest with [] => True | o :: _ => disciplined m' o = true /\ starved m' o = true end.
Proof.
  revert m ready sl w. induction os as [|o os IH]; intros m ready sl w Hok Hg Hf; cbn [mrun disciplined_run] in *.
  { by exists [], [], m, ready, sl, w. }
  apply andb_true_iff in Hg as [Hd Hgs]. cbn [length] in Hf. destruct (starved m o) eqn:Hst.
  { by exists [], (o :: os), m, ready, sl, w. }
  assert (Hg : guard m o = true) by (unfold guard; by rewrite Hd, Hst).
  destruct (step_keeps fuel m o ready sl w Hok Hg ltac:(lia)) as (m1 & r1 & sl1 & w1 & E1 & H1 & M1 & L1). rewrite E1 in *. cbn [orb] in Hgs.
  destruct (IH m1 r1 sl1 w1 H1 Hgs ltac:(lia)) as (d & rest & m2 & r2 & sl2 & w2 & -> & E2 & H2 & M2 & R2).
  exists (o :: d), rest, m2, r2, sl2, w2. cbn [mrun]. rewrite E1. cbn [obind]. split_and!; try done. congruence.
Qed.

(** C3: Take any sequence of acquisitions, releases, blocking, waking, sleeping,
    timer interrupts and passing of time in which only holders release and only
    blocked tasks are woken.  It runs without failure to its end, or to the
    first operation at which the current task has to wait while the ready list
    is empty.  There the holders of the semaphore are as many as its count and
    never more than its limit, so a mutex has one holder at most; the tasks in
    its queue are neither running nor ready nor asleep, and they wait only while
    every unit is held.  If the run stops at an acquisition, that acquisition
    finds every unit held and returns in the same task all the same, without
    making it a holder: exclusion ends there. *)
Theorem mutual_exclusion (fuel : nat) (os : list mop) (m : msys) (ready sl w : list Z) :
  msys_ok m ready sl w -> disciplined_run fuel m os = true -> (length sl + length os < fuel)%nat ->
  exists ran rest m' ready' sl' w', os = ran ++ rest /\ mrun fuel m ran = Ret m' /\
    chain (tasks (sc m')) (schedule_tasks (sc m')) ready' /\ chain (tasks (sc m')) (sleep_tasks (sc m')) sl' /\
    chain (tasks (sc m')) (waiting_tasks_start (sem m')) w' /\
    Z.of_nat (length (holders m')) = current_count (sem m') /\ Z.of_nat (length (holders m')) <= max_count (sem m) /\
    (w' <> [] -> Z.of_nat (length (holders m')) = max_count (sem m)) /\
    (forall t, t ∈ w' -> t <> current_task (sc m') /\ t ∉ ready' /\ t ∉ sl') /\
    match rest with
    | [] => True
    | MAcquire :: _ => ready' = [] /\ Z.of_nat (length (holders m')) = max_count (sem m) /\ exists m2, mstep fuel m' MAcquire = Ret m2 /\
        current_task (sc m2) = current_task (sc m') /\ holders m2 = holders m'
    | MBlock _ :: _ | MSleep _ :: _ => ready' = []
    | _ => False
    end.
Proof.
  intros Hok Hg Hf. destruct (run_keeps fuel os m ready sl w Hok Hg Hf) as (d & rest & m' & r' & sl' & w' & -> & E & H' & M' & R).
  pose proof H' as [A Hsl Hw Hn]. exists d, rest, m', r', sl', w'. rewrite <- M'. split_and!; try done.
  - apply A.
  - apply Hw.
  - destruct Hw as [_ _ _ [? _] _]. lia.
  - intros Hw0. rewrite Hn. by apply Hw.
  - intros t Ht. destruct (off_parts _ _ _ _ H' t) as (? & ? & ? & ?); [auto|]. split_and!; try done.
    intros Hs. by apply (off_nodup _ _ _ _ H') in Hs as [? _].
  - destruct rest as [|o rest]; [done|]. destruct R as [R1 R2]. pose proof R2 as [Rz%Z.eqb_eq Ro]%andb_true_iff.
    apply (chain_head _ _ _ (so_chain _ _ (aw_sched _ _ _ A))) in Rz as ->.
    destruct o; try done. apply Z.leb_le in Ro. destruct Hw as [_ _ _ [? _] _]. split; [done|]. split; [lia|]. by apply (starved_acquire _ _ _ _ _ H').
Qed.

(** ** A concrete run *)

(** Task 100 is current, 300 is ready, 200 is the idle task, 400 and 500 sleep;
    nobody holds the mutex. *)
Definition demo_msys : msys := mk_msys (demo_sched 0) mutex_create [] [].

(** Task 100 takes the mutex and waits for the disk; 300 has to wait for the
    mutex; the timer wakes 400, the disk answers, 400 sleeps again; 100 goes on
    and its release passes the mutex to 300. *)
Definition demo_mops : list mop :=
  [MAcquire; MBlock IO_REQUEST; MAcquire; MTick; MWake 100; MSleep 5000; MRelease].

Lemma demo_msys_ok : msys_ok demo_msys [300; 200] [400; 500] [].
Proof.
  split; [split|..]; simpl; try done.
  - apply demo_sched_ok.
  - repeat constructor; rewrite ?elem_of_cons, elem_of_nil; lia.
  - intros x. rewrite !elem_of_cons, !elem_of_nil. lia.
  - split; simpl; try done; constructor.
Qed.

Lemma mutual_exclusion_witness :
  exists d rest m', demo_mops = d ++ rest /\ mrun 20 demo_msys d = Ret m' /\ Z.of_nat (length (holders m')) <= 1.
Proof.
  destruct (mutual_exclusion 20 demo_mops demo_msys [300; 200] [400; 500] [] demo_msys_ok)
    as (d & rest & m' & r' & sl' & w' & Ed & E & _ & _ & _ & _ & H & _); [vm_compute; reflexivity|simpl; lia|].
  exact (ex_intro _ d (ex_intro _ rest (ex_intro _ m' (conj Ed (conj E H))))).
Defined.

(** At the end of that run 300 holds the mutex. *)
Theorem demo_handover :
  match mrun 20 demo_msys demo_mops with
  | Ret m' => (holders m', current_task (sc m'), current_count (sem m'), waiting_tasks_start (sem m')) = ([300], 100, 1, 0)
  | _ => False
  end.
Proof. vm_compute. reflexivity. Qed.

(** ** Waiting for a device *)

(** Switching to the task that runs. *)
Lemma wrapper_self (s : sched) (t : Z) (l : list Z) :
  postpone_switch_counter s = 0 -> t <> 0 -> t ∉ l -> current_task s = t -> t <> idle_task s -> chain (tasks s) (schedule_tasks s) l ->
  exists s', task_switch_wrapper s t = Ret s' /\ current_task s' = t /\ t_state (tasks s' t) = RUNNING /\
    chain (tasks s') (schedule_tasks s') l /\ same_locks s s' /\ postpone_switch_flag s' = postpone_switch_flag s.
Proof.
  intros P Ht Hl Hc Hi A. pose proof (fun s' => wrapper_flags s s' t P) as HF. unfold task_switch_wrapper in *. rewrite P in *. cbn [Z.eqb negb] in *.
  destruct (Z.eqb_spec (current_task s) (idle_task s)); [congruence|]. cbn [obind] in *.
  destruct (switch_spec (set_times s (last_count s) (if t =? idle_task s then 0 else TIME_SLICE)) t l) as (s' & E & A' & C' & _ & L' & _ & R' & _);
    [done..|]. exists s'. split_and!; try done; [apply L'..|]. by destruct (HF s' E) as [_ F].
Qed.

(** The interrupt of a device may come before the task that started the request
    has called task_block: it puts the running task on the ready list, and the
    call switches to it at once.  Nothing is lost, whichever comes first. *)
Theorem early_wakeup_kept (s : sched) (reason : Z) (ready : list Z) :
  sched_ok s ready -> at_rest s -> ready <> [] -> current_task s <> idle_task s ->
  exists s', (let! s1 := task_unblock s (current_task s) in task_block s1 reason) = Ret s' /\
    current_task s' = current_task s /\ t_state (tasks s' (current_task s)) = RUNNING /\ sched_ok s' ready /\ at_rest s'.
Proof.
  intros [A B [C D]] (L & P & F) Hne Hi. set (t := current_task s) in *. unfold task_unblock. set (s0 := task_lock_scheduler s).
  assert (Hz : (schedule_tasks s0 =? 0) || (current_task s0 =? idle_task s0) = false).
  { apply orb_false_iff. split; apply Z.eqb_neq; [|done]. intros E. apply Hne. by apply (chain_head _ _ _ A). }
  rewrite Hz. destruct (add_node_spec s0 t ready C D A) as (s1 & -> & A1 & C1 & I1 & [L1 P1] & _ & F1 & _ & _). cbn [obind].
  rewrite (lock_unlock_counter s1 0) by (lia || rewrite L1; simpl; by rewrite L). cbn [obind].
  unfold task_block. set (s2 := task_lock_scheduler _). assert (C2 : current_task s2 = t) by exact C1.
  rewrite C2, tstore_nz by done. cbn [obind]. set (s3 := set_tasks _ _). unfold task_schedule.
  destruct (update_counter_spec s3) as (s4 & -> & C4 & R4 & I4 & [L4 P4] & _ & F4 & Q4); [by change (current_task s3) with (current_task s2); rewrite C2|].
  cbn [obind]. simpl in C4, R4, I4, L4, P4, F4, P1, I1, F1. rewrite P4, P1. rewrite P. cbn [Z.eqb negb].
  assert (A4 : chain (tasks s4) (schedule_tasks s4) (t :: ready)).
  { rewrite R4. eapply chain_frame; [|exact A1]. intros x _. rewrite (proj1 (Q4 x)). simpl. unfold tput. by destruct (Z.eqb_spec x t) as [->|]. }
  destruct A4 as (Et & _ & A4). rewrite Et. destruct (Z.eqb_spec t 0); [done|]. rewrite tload_nz by done. cbn [obind].
  cbn [idle_task set_ready set_lists]. rewrite I4, I1. destruct (Z.eqb_spec t (idle_task s)); [done|].
  destruct (wrapper_self (set_ready s4 (next (tasks s4 t))) t ready) as (s5 & E5 & C5 & R5 & A5 & [L5 P5] & F5);
    [simpl; by rewrite P4, P1|done|done|simpl; rewrite C4; exact C1|simpl; by rewrite I4, I1|exact A4|].
  rewrite E5. cbn [obind]. simpl in L5, P5, F5. rewrite (lock_unlock_counter s5 0) by (lia || rewrite L5, L4; done).
  eexists. split; [done|]. simpl. unfold at_rest. simpl. rewrite P5, P4, P1, P, F5, F4, F1, F.
  split_and!; try done. split; [done|done|]. by simpl; rewrite C5.
Qed.
