(* ===== verification/Pipe.v ===== *)
(** Pipes, src/src/kernel/fs/pipe.c: a ring buffer between two files, in three
    flavours. An operation runs under the pipe's mutex from one wait on a
    condition variable to the next; these stretches are the steps of the model,
    and the calls of the mutex and of the condition variables are recorded as
    events. *)

From Stdlib Require Import ZArith Lia.
From stdpp Require Import base numbers list.
From S2P Require Import Prelude.

(** ** Data *)

Definition PIPE_SIZE : Z := 4096.
Definition PIPE_TYPE_UNBUFFERED : Z := 0.
Definition PIPE_TYPE_BUF_BLOCK : Z := 1.
Definition PIPE_TYPE_BUF_CHAR : Z := 2.

Record pipe_t := mk_pipe {
  p_size : Z;
  p_type : Z;
  b_read : Z;
  b_write : Z;
  read_open : Z;
  write_open : Z;
  buffer : list Z;
}.

Definition set_write (p : pipe_t) (w : Z) (b : list Z) : pipe_t :=
  mk_pipe (p_size p) (p_type p) (b_read p) w (read_open p) (write_open p) b.
Definition set_read (p : pipe_t) (r : Z) : pipe_t :=
  mk_pipe (p_size p) (p_type p) r (b_write p) (read_open p) (write_open p) (buffer p).

(** The conditions [&pipe->b_read] and [&pipe->b_write]. *)
Inductive cond := CRead | CWrite.

Inductive event := EAcquire | ERelease | ESignal (c : cond) | EWait (c : cond).

(** Where a stretch ends: the call returns, with the caller's buffer as it is
    then, or it waits, having dealt with [i] bytes. *)
Inductive presult :=
| PDone (p : pipe_t) (ret : Z) (mem : list Z) (evs : list event)
| PWait (p : pipe_t) (i : Z) (evs : list event).

(** ** Writing *)

Definition pipe_buf_write (p : pipe_t) (waited : bool) (mem : list Z) : outcome presult :=
  if negb (b_read p =? b_write p) && negb waited then Ret (PWait p 0 [EWait CWrite])
  else
    let size := Z.of_nat (length mem) in
    let! o := umod (b_write p) (p_size p) in
    let remaining := if u32 (p_size p - o) <? size then u32 (p_size p - o) else size in
    (* memcpy(addr, pipe->buffer, remaining) *)
    let mem := take (Z.to_nat remaining) (buffer p) ++ drop (Z.to_nat remaining) mem in
    Ret (PDone (set_write p (u32 (b_write p + remaining)) (buffer p)) (s32 remaining) mem []).

(** [mem] is what is left to write, [i] the number of bytes written. *)
Fixpoint pipe_unbuf_write (p : pipe_t) (i : Z) (mem : list Z) : outcome presult :=
  match mem with
  | [] => Ret (PDone p (s32 i) [] [])
  | c :: mem =>
      if b_write p =? u32 (b_read p + PIPE_SIZE) then
        if read_open p =? 0 then Ret (PDone p (-1) mem [ERelease])
        else Ret (PWait p i [ESignal CRead; EWait CWrite])
      else
        let! b := lset (buffer p) (b_write p mod PIPE_SIZE) (u8 c) in
        pipe_unbuf_write (set_write p (u32 (b_write p + 1)) b) (i + 1) mem
  end.

(** The end of [pipe_write], after the switch. *)
Definition pipe_write_end (r : presult) : outcome presult :=
  match r with
  | PDone p ret mem evs =>
      let! o := umod (b_write p) (p_size p) in
      let sig := if negb (p_type p =? PIPE_TYPE_BUF_BLOCK) || (o =? 0) then [ESignal CRead] else [] in
      Ret (PDone p ret mem (evs ++ sig ++ [ERelease]))
  | PWait _ _ _ => Ret r
  end.

Definition pipe_write_body (p : pipe_t) (waited : bool) (i : Z) (mem : list Z) : outcome presult :=
  if (p_type p =? PIPE_TYPE_BUF_CHAR) || (p_type p =? PIPE_TYPE_UNBUFFERED) then
    pipe_unbuf_write p i (drop (Z.to_nat i) mem)
  else if p_type p =? PIPE_TYPE_BUF_BLOCK then pipe_buf_write p waited mem
  else Ret (PDone p (-1) mem []).

(** The call, and its continuation after a wait with [i] bytes written. *)
Definition pipe_write (p : pipe_t) (mem : list Z) : outcome presult :=
  let! r := pipe_write_body p false 0 mem in
  let! r := pipe_write_end r in
  Ret (match r with
       | PDone p ret m evs => PDone p ret m (EAcquire :: evs)
       | PWait p i evs => PWait p i (EAcquire :: evs)
       end).
Definition pipe_write_resume (p : pipe_t) (i : Z) (mem : list Z) : outcome presult :=
  let! r := pipe_write_body p true i mem in pipe_write_end r.

(** ** Reading *)

Definition pipe_bufblock_read (p : pipe_t) (waited : bool) (mem : list Z) : outcome presult :=
  let size := Z.of_nat (length mem) in
  if negb (size =? p_size p) && negb waited then Ret (PDone p (-1) mem [])
  else if negb (u32 (b_read p + size) =? b_write p) && negb (write_open p =? 0) && negb waited
  then Ret (PWait p 0 [EWait CRead])
  else Ret (PDone (set_read p (u32 (b_read p + size))) (s32 size) (take (length mem) (buffer p)) []).

(** The loop stops at the character or when the pipe is empty; there are at
    most [b_write - b_read] turns. *)
Fixpoint bufchar_loop (fuel : nat) (p : pipe_t) (c : Z) (got : list Z) : outcome (pipe_t * list Z) :=
  match fuel with
  | O => NoFuel
  | S fuel =>
      if b_read p =? b_write p then Ret (p, got)
      else
        let! o := umod (b_read p) (p_size p) in
        let! x := lget (buffer p) o in
        let p := set_read p (u32 (b_read p + 1)) in
        if x =? c then Ret (p, got ++ [x]) else bufchar_loop fuel p c (got ++ [x])
  end.
Definition pipe_bufchar_read (p : pipe_t) (waited : bool) (c : Z) : outcome presult :=
  if (b_read p =? b_write p) && negb (write_open p =? 0) && negb waited
  then Ret (PWait p 0 [EWait CRead])
  else
    let! (p, got) := bufchar_loop (S (Z.to_nat (u32 (b_write p - b_read p)))) p c [] in
    Ret (PDone p (Z.of_nat (length got)) got []).

Fixpoint unbuf_read_loop (n : nat) (p : pipe_t) (got : list Z) : outcome (pipe_t * list Z) :=
  match n with
  | O => Ret (p, got)
  | S n =>
      if b_read p =? b_write p then Ret (p, got)
      else
        let! o := umod (b_read p) (p_size p) in
        let! x := lget (buffer p) o in
        unbuf_read_loop n (set_read p (u32 (b_read p + 1))) (got ++ [x])
  end.
(** The bytes read are at the front of the caller's buffer. *)
Definition pipe_unbuf_read (p : pipe_t) (waited : bool) (size : nat) : outcome presult :=
  if (b_read p =? b_write p) && negb (write_open p =? 0) && negb waited
  then Ret (PWait p 0 [EWait CRead])
  else
    let! (p, got) := unbuf_read_loop size p [] in
    Ret (PDone p (Z.of_nat (length got)) got []).

(** The terminator of a character pipe is [(char) size], which is signed: a byte
    above 127 is never equal to it. *)
Definition pipe_read_body (p : pipe_t) (waited : bool) (mem : list Z) : outcome presult :=
  if p_type p =? PIPE_TYPE_UNBUFFERED then pipe_unbuf_read p waited (length mem)
  else if p_type p =? PIPE_TYPE_BUF_BLOCK then pipe_bufblock_read p waited mem
  else if p_type p =? PIPE_TYPE_BUF_CHAR then pipe_bufchar_read p waited (s8 (Z.of_nat (length mem)))
  else Ret (PDone p (-1) mem []).

Definition pipe_read_end (r : presult) : presult :=
  match r with
  | PDone p ret mem evs => PDone p ret mem (evs ++ [ESignal CWrite; ERelease])
  | PWait _ _ _ => r
  end.

Definition pipe_read (p : pipe_t) (mem : list Z) : outcome presult :=
  if write_open p =? 0 then Ret (PDone p (-1) mem [EAcquire; ERelease])
  else
    let! r := pipe_read_body p false mem in
    Ret (match pipe_read_end r with
         | PDone p ret m evs => PDone p ret m (EAcquire :: evs)
         | PWait p i evs => PWait p i (EAcquire :: evs)
         end).
Definition pipe_read_resume (p : pipe_t) (mem : list Z) : outcome presult :=
  let! r := pipe_read_body p true mem in Ret (pipe_read_end r).

(** ** Opening and closing *)

(** Closing the file with [writep]; [freed] says whether the pipe's memory and
    its condition variables are given up. *)
Definition pipe_close (p : pipe_t) (writep : Z) : pipe_t * bool * list event :=
  let '(p, sig) :=
    if negb (writep =? 0)
    then (mk_pipe (p_size p) (p_type p) (b_read p) (b_write p) (read_open p) 0 (buffer p), [ESignal CRead])
    else (mk_pipe (p_size p) (p_type p) (b_read p) (b_write p) 0 (write_open p) (buffer p), []) in
  (p, (write_open p =? 0) && (read_open p =? 0), [EAcquire] ++ sig ++ [ERelease]).

(** The pipe made once both files were obtained; [fresh] is the content of the
    buffer, [size] bytes from [kmalloc]. *)
Definition pipe_alloc (size type : Z) (fresh : list Z) : pipe_t :=
  mk_pipe (wrap 30 size) (wrap 2 type) 0 0 1 1 (take (Z.to_nat size) fresh).

(** ** The byte stream *)

Definition fill (p : pipe_t) : Z := u32 (b_write p - b_read p).

(** The bytes written and not yet read. *)
Definition contents (p : pipe_t) : list Z :=
  (fun k => znth 0 (buffer p) ((b_read p + k) mod PIPE_SIZE)) <$> seqZ 0 (fill p).

(** A pipe of the size the writer assumes. *)
Record pipe_ok (p : pipe_t) : Prop := {
  pk_size : p_size p = PIPE_SIZE;
  pk_buffer : length (buffer p) = 4096%nat;
  pk_counters : 0 <= b_read p < 2 ^ 32 /\ 0 <= b_write p < 2 ^ 32;
  pk_fill : fill p <= PIPE_SIZE;
}.

(** The position of the [k]-th byte does not depend on the counter wrapping. *)
Lemma ring_pos (r k : Z) : u32 (r + k) mod PIPE_SIZE = (r + k) mod PIPE_SIZE.
Proof.
  unfold u32, wrap, PIPE_SIZE. change (2 ^ 32) with (4096 * 1048576).
  rewrite Z.rem_mul_r by lia. rewrite (Z.mul_comm 4096), Z.mod_add by lia. by apply Zmod_mod.
Qed.

Lemma fill_range (p : pipe_t) : 0 <= fill p < 2 ^ 32.
Proof. apply u32_range. Qed.

Lemma write_pos (p : pipe_t) :
  pipe_ok p -> b_write p mod PIPE_SIZE = (b_read p + fill p) mod PIPE_SIZE.
Proof.
  intros H. destruct (pk_counters p H) as [? ?]. rewrite <- ring_pos. f_equal. unfold fill, u32, wrap.
  rewrite Zplus_mod_idemp_r. replace (b_read p + (b_write p - b_read p)) with (b_write p) by lia.
  by rewrite Z.mod_small.
Qed.

Lemma fill_full (p : pipe_t) :
  pipe_ok p -> (b_write p =? u32 (b_read p + PIPE_SIZE)) = (fill p =? PIPE_SIZE).
Proof.
  intros H. destruct (pk_counters p H) as [? ?]. unfold fill, PIPE_SIZE.
  destruct (Z.eqb_spec (b_write p) (u32 (b_read p + 4096))) as [E|E],
    (Z.eqb_spec (u32 (b_write p - b_read p)) 4096) as [E'|E']; try done; exfalso.
  - apply E'. rewrite E. unfold u32, wrap. rewrite Zminus_mod_idemp_l.
    replace (b_read p + 4096 - b_read p) with 4096 by lia. done.
  - apply E. rewrite <- E'. unfold u32, wrap. rewrite Zplus_mod_idemp_r.
    replace (b_read p + (b_write p - b_read p)) with (b_write p) by lia. by rewrite Z.mod_small.
Qed.

Lemma fill_empty (p : pipe_t) : pipe_ok p -> (b_read p =? b_write p) = (fill p =? 0).
Proof.
  intros H. destruct (pk_counters p H) as [? ?]. unfold fill.
  destruct (Z.eqb_spec (b_read p) (b_write p)) as [E|E],
    (Z.eqb_spec (u32 (b_write p - b_read p)) 0) as [E'|E']; try done; exfalso.
  - apply E'. by rewrite E, Z.sub_diag.
  - apply E. unfold u32, wrap in E'. apply Z.mod_divide in E' as [k Hk]; [|done].
    assert (k = 0) by lia. lia.
Qed.

(** One byte in. *)
Lemma write_byte (p : pipe_t) (c : Z) :
  pipe_ok p -> fill p < PIPE_SIZE ->
  exists b, lset (buffer p) (b_write p mod PIPE_SIZE) (u8 c) = Ret b /\
    let p' := set_write p (u32 (b_write p + 1)) b in
    pipe_ok p' /\ contents p' = contents p ++ [u8 c] /\ fill p' = fill p + 1.
Proof.
  intros H Hf. pose proof (fill_range p). pose proof (Z.mod_pos_bound (b_write p) PIPE_SIZE ltac:(done)).
  unfold PIPE_SIZE in *.
  assert (Hi : 0 <= b_write p mod 4096 < Z.of_nat (length (buffer p))) by (rewrite (pk_buffer p H); lia).
  rewrite lset_Ret by done. eexists. split; [done|]. cbn zeta.
  set (p' := set_write _ _ _).
  assert (Hfill : fill p' = fill p + 1).
  { unfold fill. simpl. unfold u32, wrap. rewrite Zminus_mod_idemp_l.
    replace (b_write p + 1 - b_read p) with (b_write p - b_read p + 1) by lia.
    rewrite <- Zplus_mod_idemp_l. apply Z.mod_small. unfold fill, u32, wrap in *. lia. }
  split; [|split; [|done]].
  - split; simpl.
    + apply H.
    + rewrite length_insert. apply H.
    + split; [apply H|apply u32_range].
    + unfold PIPE_SIZE. lia.
  - unfold contents. rewrite Hfill, seqZ_app, fmap_app by lia. f_equal.
    + apply list_fmap_ext. intros k x Hk. apply lookup_seqZ in Hk as [-> Hk]. simpl.
      pose proof (Z.mod_pos_bound (b_read p + (0 + Z.of_nat k)) 4096). unfold PIPE_SIZE.
      rewrite znth_insert by lia.
      destruct (Z.eqb_spec (b_write p mod 4096) ((b_read p + (0 + Z.of_nat k)) mod 4096)) as [E|]; [|done].
      pose proof (write_pos p H) as Hw. unfold PIPE_SIZE in Hw. rewrite Hw in E.
      apply ring_inj in E; lia.
    + change (seqZ (0 + fill p) 1) with [0 + fill p]. simpl.
      pose proof (Z.mod_pos_bound (b_read p + fill p) 4096). unfold PIPE_SIZE.
      rewrite Z.add_0_l, znth_insert by lia. pose proof (write_pos p H) as Hw. unfold PIPE_SIZE in Hw.
      by rewrite Hw, Z.eqb_refl.
Qed.

(** One byte out. *)
Lemma read_byte (p : pipe_t) :
  pipe_ok p -> 0 < fill p ->
  exists x o, umod (b_read p) (p_size p) = Ret o /\ lget (buffer p) o = Ret x /\
    let p' := set_read p (u32 (b_read p + 1)) in
    pipe_ok p' /\ contents p = x :: contents p' /\ fill p' = fill p - 1.
Proof.
  intros H Hf. pose proof (pk_fill p H). unfold PIPE_SIZE in *.
  rewrite (pk_size p H), umod_pos by done. pose proof (Z.mod_pos_bound (b_read p) 4096).
  eexists _, _. split; [done|]. unfold PIPE_SIZE. rewrite (lget_znth 0) by (rewrite (pk_buffer p H); lia).
  split; [done|]. cbn zeta. set (p' := set_read _ _).
  assert (Hfill : fill p' = fill p - 1).
  { unfold fill. simpl. unfold u32, wrap. rewrite Zminus_mod_idemp_r.
    replace (b_write p - (b_read p + 1)) with (b_write p - b_read p - 1) by lia.
    rewrite <- Zminus_mod_idemp_l. apply Z.mod_small. unfold fill, u32, wrap in *.
    pose proof (Z.mod_pos_bound (b_write p - b_read p) (2 ^ 32)). lia. }
  split; [|split; [|done]].
  - split; simpl.
    + apply H.
    + apply H.
    + split; [apply u32_range|apply H].
    + unfold PIPE_SIZE. lia.
  - unfold contents. rewrite Hfill. replace (fill p) with (1 + (fill p - 1)) at 1 by lia.
    rewrite seqZ_app, fmap_app by lia. change (seqZ 0 1) with [0]. simpl. rewrite Z.add_0_r. f_equal.
    rewrite <- (fmap_add_seqZ 1 0), <- list_fmap_compose.
    apply list_fmap_ext. intros k x Hk. simpl. f_equal. unfold PIPE_SIZE.
    pose proof (ring_pos (b_read p) 1) as Hr. unfold PIPE_SIZE in Hr. symmetry.
    rewrite <- Zplus_mod_idemp_l, Hr, Zplus_mod_idemp_l. f_equal. lia.
Qed.

(** ** Whole transfers *)

Lemma unbuf_write_spec (mem : list Z) (p : pipe_t) (i : Z) :
  pipe_ok p ->
  let k := Z.to_nat (PIPE_SIZE - fill p) in
  exists p', pipe_ok p' /\ contents p' = contents p ++ (u8 <$> take k mem) /\
    read_open p' = read_open p /\ write_open p' = write_open p /\ p_type p' = p_type p /\
    pipe_unbuf_write p i mem =
      Ret (if decide (length mem <= k)%nat then PDone p' (s32 (i + Z.of_nat (length mem))) [] []
           else if read_open p =? 0 then PDone p' (-1) (drop (S k) mem) [ERelease]
           else PWait p' (i + Z.of_nat k) [ESignal CRead; EWait CWrite]).
Proof.
  revert p i. induction mem as [|c mem IH]; intros p i H k.
  { exists p. rewrite take_nil, app_nil_r. split_and!; try done.
    cbn [pipe_unbuf_write length]. destruct (decide (0 <= k)%nat); [|lia]. by rewrite Z.add_0_r. }
  pose proof (pk_fill p H). pose proof (fill_range p). cbn [pipe_unbuf_write].
  rewrite fill_full by done. destruct (Z.eqb_spec (fill p) PIPE_SIZE) as [Ef|Ef].
  - assert (Hk : k = 0%nat) by (unfold k; lia). rewrite Hk. exists p.
    rewrite take_0, app_nil_r, Z.add_0_r. split_and!; try done.
    destruct (decide (length (c :: mem) <= 0)%nat) as [Hl|_]; [simpl in Hl; lia|]. by case_match.
  - destruct (write_byte p c H) as (b & -> & Hp1 & Hc1 & Hf1); [lia|]. cbn [obind].
    set (p1 := set_write _ _ _) in *. destruct (IH p1 (i + 1) Hp1) as (p' & H' & Hc' & R' & W' & T' & ->).
    assert (Hk : k = S (Z.to_nat (PIPE_SIZE - fill p1))) by (unfold k; lia). rewrite Hk.
    exists p'. split; [done|]. split.
    { rewrite Hc', Hc1, <- app_assoc. by rewrite firstn_cons, fmap_cons. }
    split_and!; try done. f_equal. cbn [length skipn].
    destruct (decide (length mem <= Z.to_nat (PIPE_SIZE - fill p1))%nat),
      (decide (S (length mem) <= S (Z.to_nat (PIPE_SIZE - fill p1)))%nat); try lia.
    + do 2 f_equal. lia.
    + change (read_open p1) with (read_open p). case_match; [done|]. f_equal. lia.
Qed.

Lemma unbuf_read_spec (n : nat) (p : pipe_t) (got : list Z) :
  pipe_ok p ->
  exists p', unbuf_read_loop n p got = Ret (p', got ++ take n (contents p)) /\ pipe_ok p' /\
    contents p' = drop n (contents p) /\ read_open p' = read_open p /\
    write_open p' = write_open p /\ p_type p' = p_type p.
Proof.
  revert p got. induction n as [|n IH]; intros p got H; cbn [unbuf_read_loop].
  { exists p. rewrite take_0, app_nil_r, drop_0. split_and!; done. }
  rewrite fill_empty by done. destruct (Z.eqb_spec (fill p) 0) as [Ef|Ef].
  - exists p. unfold contents. rewrite Ef. simpl. rewrite app_nil_r. split_and!; done.
  - pose proof (fill_range p).
    destruct (read_byte p H) as (x & o & -> & Hx & Hp1 & Hc & Hf); [lia|]. cbn [obind]. rewrite Hx.
    cbn [obind]. destruct (IH _ (got ++ [x]) Hp1) as (p' & -> & H' & Hc' & R' & W' & T').
    exists p'. rewrite Hc, firstn_cons, skipn_cons, <- app_assoc. split_and!; done.
Qed.

(** A history of a pipe: stretches of writing calls and of reading calls, in
    any order. *)
Inductive seg := SWrite (data : list Z) | SRead (n : nat).

(** The pipe afterwards, the bytes the stretch took from the writer and the
    bytes it gave to the reader. A writer that waits goes on, in a later stretch,
    with what it has not written. *)
Definition run_seg (p : pipe_t) (g : seg) : outcome (pipe_t * list Z * list Z) :=
  match g with
  | SWrite data =>
      let! r := pipe_write_resume p 0 data in
      Ret (match r with
           | PDone p _ _ _ => (p, data, [])
           | PWait p i _ => (p, take (Z.to_nat i) data, [])
           end)
  | SRead n =>
      let! r := pipe_read_resume p (replicate n 0) in
      Ret (match r with PDone p _ got _ => (p, [], got) | PWait p _ _ => (p, [], []) end)
  end.

Fixpoint run_segs (p : pipe_t) (gs : list seg) : outcome (pipe_t * list Z * list Z) :=
  match gs with
  | [] => Ret (p, [], [])
  | g :: gs =>
      let! (p, w, r) := run_seg p g in
      let! (p, w', r') := run_segs p gs in
      Ret (p, w ++ w', r ++ r')
  end.

Definition stream_pipe (p : pipe_t) : Prop :=
  pipe_ok p /\ p_type p = PIPE_TYPE_UNBUFFERED /\ read_open p = 1 /\ write_open p = 1.

Lemma run_seg_spec (p : pipe_t) (g : seg) :
  stream_pipe p ->
  exists p' w r, run_seg p g = Ret (p', w, r) /\ stream_pipe p' /\
    contents p ++ (u8 <$> w) = r ++ contents p'.
Proof.
  intros (H & Ht & Hr & Hw). destruct g as [data|n]; simpl.
  - unfold pipe_write_resume, pipe_write_body. rewrite Ht. cbn [Z.eqb orb PIPE_TYPE_UNBUFFERED PIPE_TYPE_BUF_CHAR].
    change (drop (Z.to_nat 0) data) with data.
    destruct (unbuf_write_spec data p 0 H) as (p' & H' & Hc & R' & W' & T' & ->). cbn [obind].
    rewrite Hr. cbn [Z.eqb].
    destruct (decide (length data <= Z.to_nat (PIPE_SIZE - fill p))%nat).
    + unfold pipe_write_end. rewrite (pk_size p' H'), umod_pos by done. cbn [obind].
      eexists _, _, []. split; [done|]. split; [by split_and!; congruence|].
      rewrite Hc, take_ge by done. done.
    + cbn [obind pipe_write_end]. eexists _, _, []. split; [done|].
      split; [by split_and!; congruence|]. rewrite Hc, Z.add_0_l, Nat2Z.id. done.
  - unfold pipe_read_resume, pipe_read_body. rewrite Ht. cbn [Z.eqb PIPE_TYPE_UNBUFFERED].
    rewrite length_replicate. unfold pipe_unbuf_read. rewrite andb_false_r.
    destruct (unbuf_read_spec n p [] H) as (p' & -> & H' & Hc & R' & W' & T'). cbn [obind].
    eexists _, _, _. split; [done|]. split; [by split_and!; congruence|].
    rewrite Hc, fmap_nil, app_nil_r. cbn [app]. by rewrite take_drop.
Qed.

(** C17: However reads and writes on an unbuffered pipe of [PIPE_SIZE] bytes
    are interleaved, and however often the writers have to wait, what has been
    read followed by what is still in the pipe is what was in it at the start
    followed by what has been written: nothing is lost, duplicated or reordered,
    and the buffer is never left. *)
Theorem pipe_fifo (gs : list seg) (p : pipe_t) :
  stream_pipe p ->
  exists p' w r, run_segs p gs = Ret (p', w, r) /\ stream_pipe p' /\
    contents p ++ (u8 <$> w) = r ++ contents p'.
Proof.
  revert p. induction gs as [|g gs IH]; intros p H; cbn [run_segs].
  { exists p, [], []. rewrite fmap_nil, app_nil_r. done. }
  destruct (run_seg_spec p g H) as (p1 & w1 & r1 & -> & H1 & E1). cbn [obind].
  destruct (IH p1 H1) as (p2 & w2 & r2 & -> & H2 & E2). cbn [obind].
  eexists _, _, _. split; [done|]. split; [done|].
  by rewrite fmap_app, app_assoc, E1, <- app_assoc, E2, app_assoc.
Qed.

(** ** Pipes of other sizes and types *)

(** The pipe that the pipe system call makes has 1024 bytes, but the writer
    wraps at [PIPE_SIZE]: the 1025th byte is stored behind the buffer. *)
Theorem small_pipe_overflow :
  pipe_write (pipe_alloc 1024 PIPE_TYPE_UNBUFFERED (replicate 1024 0)) (replicate 1025 65) = Undef.
Proof. vm_compute. reflexivity. Qed.

(** A write to a block pipe copies the wrong way: the pipe's buffer stays as
    it is and the caller's memory is overwritten with it. *)
Theorem block_write_swapped (p : pipe_t) (mem : list Z) (p' : pipe_t) (ret : Z) (mem' : list Z) evs :
  pipe_buf_write p false mem = Ret (PDone p' ret mem' evs) ->
  buffer p' = buffer p /\ exists n, mem' = take n (buffer p) ++ drop n mem.
Proof.
  unfold pipe_buf_write. case_match; [done|]. intros (o & _ & E)%obind_inv.
  injection E as <- _ <- _. split; [done|]. by eexists.
Qed.

(** A writer that finds the pipe full and the reading end closed releases the
    mutex twice. *)
Theorem broken_pipe_double_release (p : pipe_t) (c : Z) :
  stream_pipe p -> fill p = PIPE_SIZE ->
  let q := mk_pipe (p_size p) (p_type p) (b_read p) (b_write p) 0 (write_open p) (buffer p) in
  exists m, pipe_write q [c] = Ret (PDone q (-1) m [EAcquire; ERelease; ESignal CRead; ERelease]).
Proof.
  intros (H & Ht & _ & _) Hf q.
  assert (Hq : pipe_ok q) by (destruct H; by split).
  unfold pipe_write, pipe_write_body. change (p_type q) with (p_type p). rewrite Ht.
  cbn [Z.eqb orb PIPE_TYPE_UNBUFFERED PIPE_TYPE_BUF_CHAR]. change (drop (Z.to_nat 0) [c]) with [c].
  cbn [pipe_unbuf_write]. rewrite (fill_full q Hq).
  change (fill q) with (fill p). rewrite Hf, Z.eqb_refl. cbn [read_open q Z.eqb obind].
  unfold pipe_write_end. rewrite (pk_size q Hq), umod_pos by done. cbn [obind].
  change (p_type q) with (p_type p). rewrite Ht. by eexists.
Qed.

Definition empty_pipe : pipe_t := pipe_alloc PIPE_SIZE PIPE_TYPE_UNBUFFERED (replicate 4096 0).

Lemma pipe_fifo_witness :
  exists p' w r, run_segs empty_pipe [SWrite [1; 2; 3]; SRead 2; SWrite [4]] = Ret (p', w, r) /\
    u8 <$> w = r ++ contents p'.
Proof.
  destruct (pipe_fifo [SWrite [1; 2; 3]; SRead 2; SWrite [4]] empty_pipe) as (p' & w & r & E & _ & H).
  - split; [|done]. split; [done|by vm_compute|by vm_compute|by vm_compute].
  - exact (ex_intro _ p' (ex_intro _ w (ex_intro _ r (conj E H)))).
Defined.
