(* ===== verification/Tty.v ===== *)
(** The text console, src/src/kernel/io/tty.c with the cell encoding of
    src/src/include/kernel/vga.h. *)

From Stdlib Require Import ZArith Lia.
From stdpp Require Import base numbers list.
From S2P Require Import Prelude Cstring.

Definition VGA_WIDTH : Z := 80.
Definition VGA_HEIGHT : Z := 25.
Definition VGA_BLACK : Z := 0.
Definition VGA_WHITE : Z := 15.

Definition vga_entry_color (foreground background : Z) : Z :=
  u8 (Z.lor foreground (Z.shiftl background 4)).
Definition vga_entry (character color : Z) : Z := u16 (Z.lor character (Z.shiftl color 8)).

(** The static variables; the buffer is the 80 x 25 cells of VGA memory. The
    cursor registers are what was last sent to ports 0x3D4/0x3D5. *)
Record tty := mk_tty {
  terminal_row : Z;
  terminal_column : Z;
  terminal_color : Z;
  terminal_buffer : list Z;
  cursor : Z;
}.

Definition set_buffer (t : tty) (b : list Z) : tty :=
  mk_tty (terminal_row t) (terminal_column t) (terminal_color t) b (cursor t).
Definition set_pos (t : tty) (row col : Z) : tty :=
  mk_tty row col (terminal_color t) (terminal_buffer t) (cursor t).

Definition terminal_entry (t : tty) (c color x y : Z) : outcome tty :=
  let! b := lset (terminal_buffer t) (u32 (y * VGA_WIDTH + x)) (vga_entry (u8 c) color) in
  Ret (set_buffer t b).

Fixpoint zeroline_loop (n : nat) (t : tty) (i : Z) : outcome tty :=
  match n with
  | O => Ret t
  | S n =>
      let! b := lset (terminal_buffer t) i (vga_entry 32 (terminal_color t)) in
      zeroline_loop n (set_buffer t b) (i + 1)
  end.
Definition terminal_zeroline (t : tty) (y : Z) : outcome tty :=
  zeroline_loop (Z.to_nat VGA_WIDTH) t (y * VGA_WIDTH).

Fixpoint init_loop (n : nat) (t : tty) (y : Z) : outcome tty :=
  match n with
  | O => Ret t
  | S n => let! t := terminal_zeroline t y in init_loop n t (y + 1)
  end.
Definition terminal_initialize (t : tty) : outcome tty :=
  let t := mk_tty (terminal_row t) (terminal_column t) (vga_entry_color VGA_WHITE VGA_BLACK)
             (terminal_buffer t) (cursor t) in
  init_loop (Z.to_nat VGA_HEIGHT) t 0.

Definition terminal_setcolor (t : tty) (color : Z) : tty :=
  mk_tty (terminal_row t) (terminal_column t) color (terminal_buffer t) (cursor t).

(** Only the character of a cell is copied; it gets the current colour. *)
Fixpoint copyline_loop (n : nat) (t : tty) (dst_y src_y x : Z) : outcome tty :=
  match n with
  | O => Ret t
  | S n =>
      let! c := lget (terminal_buffer t) (src_y * VGA_WIDTH + x) in
      let! t := terminal_entry t (u8 c) (terminal_color t) x dst_y in
      copyline_loop n t dst_y src_y (x + 1)
  end.
Definition terminal_copyline (t : tty) (dst_y src_y : Z) : outcome tty :=
  copyline_loop (Z.to_nat VGA_WIDTH) t dst_y src_y 0.

Fixpoint scroll_loop (n : nat) (t : tty) (y : Z) : outcome tty :=
  match n with
  | O => Ret t
  | S n => let! t := terminal_copyline t y (y + 1) in scroll_loop n t (y + 1)
  end.
Definition terminal_scroll (t : tty) : outcome tty :=
  let! t := scroll_loop (Z.to_nat (VGA_HEIGHT - 1)) t 0 in
  let! t := terminal_zeroline t (VGA_HEIGHT - 1) in
  Ret (set_pos t (u32 (terminal_row t - 1)) (terminal_column t)).

Definition terminal_newline (t : tty) : outcome tty :=
  let t := set_pos t (u32 (terminal_row t + 1)) 0 in
  if terminal_row t =? VGA_HEIGHT then terminal_scroll t else Ret t.

Definition terminal_back (t : tty) : outcome tty :=
  if terminal_column t =? 0 then
    let! t := terminal_entry t 32 (terminal_color t) (terminal_column t) (terminal_row t) in
    Ret (set_pos t (u32 (terminal_row t - 1)) (VGA_WIDTH - 1))
  else
    let t := set_pos t (terminal_row t) (u32 (terminal_column t - 1)) in
    terminal_entry t 32 (terminal_color t) (terminal_column t) (terminal_row t).

(** The two byte arguments are cut to 8 bits. *)
Definition terminal_update_cursor (t : tty) (x y : Z) : tty :=
  let pos := u16 (u8 y * VGA_WIDTH + u8 x) in
  mk_tty (terminal_row t) (terminal_column t) (terminal_color t) (terminal_buffer t)
    (Z.lor (Z.shiftl (u8 (Z.shiftr pos 8)) 8) (u8 (Z.land pos 0xFF))).

Definition terminal_putchar (t : tty) (c : Z) : outcome tty :=
  let uc := u8 c in
  let! t :=
    if uc =? 10 then terminal_newline t
    else if uc =? 8 then terminal_back t
    else
      let! t := terminal_entry t uc (terminal_color t) (terminal_column t) (terminal_row t) in
      let t := set_pos t (terminal_row t) (u32 (terminal_column t + 1)) in
      if terminal_column t =? VGA_WIDTH then terminal_newline t else Ret t in
  Ret (terminal_update_cursor t (terminal_column t) (terminal_row t)).

Fixpoint terminal_write (t : tty) (data : list Z) : outcome tty :=
  match data with
  | [] => Ret t
  | c :: data => let! t := terminal_putchar t c in terminal_write t data
  end.

Definition terminal_writestring (t : tty) (s : list Z) : outcome tty :=
  terminal_write t (take (Z.to_nat (strlen s)) s).

(** ** The screen *)

Definition cell (t : tty) (x y : Z) : Z := znth 0 (terminal_buffer t) (y * VGA_WIDTH + x).

Record tty_ok (t : tty) : Prop := {
  tt_row : 0 <= terminal_row t < VGA_HEIGHT;
  tt_col : 0 <= terminal_column t < VGA_WIDTH;
  tt_len : Z.of_nat (length (terminal_buffer t)) = VGA_WIDTH * VGA_HEIGHT;
}.

Definition on_screen (x y : Z) : Prop := 0 <= x < VGA_WIDTH /\ 0 <= y < VGA_HEIGHT.

(** The screen has its size and the operation kept position and colour. *)
Definition same_but_buffer (t t' : tty) : Prop :=
  terminal_row t' = terminal_row t /\ terminal_column t' = terminal_column t /\
  terminal_color t' = terminal_color t /\
  length (terminal_buffer t') = length (terminal_buffer t).

Lemma same_but_buffer_trans (a b c : tty) :
  same_but_buffer a b -> same_but_buffer b c -> same_but_buffer a c.
Proof. unfold same_but_buffer. intuition congruence. Qed.

Definition sized (t : tty) : Prop := Z.of_nat (length (terminal_buffer t)) = VGA_WIDTH * VGA_HEIGHT.

Lemma cell_index (x y x' y' : Z) :
  on_screen x y -> on_screen x' y' ->
  (y * VGA_WIDTH + x =? y' * VGA_WIDTH + x') = (x =? x') && (y =? y').
Proof.
  unfold on_screen, VGA_WIDTH, VGA_HEIGHT. intros.
  destruct (Z.eqb_spec (y * 80 + x) (y' * 80 + x')), (Z.eqb_spec x x'), (Z.eqb_spec y y'); simpl; lia.
Qed.

(** Writing one cell. *)
Lemma lset_cell (t : tty) (x y v : Z) :
  sized t -> on_screen x y ->
  exists b, lset (terminal_buffer t) (y * VGA_WIDTH + x) v = Ret b /\
    same_but_buffer t (set_buffer t b) /\
    forall x' y', on_screen x' y' ->
      cell (set_buffer t b) x' y' = if (x' =? x) && (y' =? y) then v else cell t x' y'.
Proof.
  intros Hs Hxy. pose proof Hxy as [Hx Hy]. unfold sized, VGA_WIDTH, VGA_HEIGHT in *.
  rewrite lset_Ret by lia. eexists. split; [done|]. split.
  - unfold same_but_buffer. simpl. by rewrite length_insert.
  - intros x' y' Hxy'. pose proof Hxy' as [Hx' Hy']. unfold cell. simpl. unfold VGA_WIDTH, VGA_HEIGHT in *.
    rewrite znth_insert by lia.
    destruct (Z.eqb_spec (y * 80 + x) (y' * 80 + x')), (Z.eqb_spec x' x), (Z.eqb_spec y' y); simpl; lia || done.
Qed.

Lemma entry_spec (t : tty) (c color x y : Z) :
  sized t -> on_screen x y ->
  exists t', terminal_entry t c color x y = Ret t' /\ same_but_buffer t t' /\
    forall x' y', on_screen x' y' ->
      cell t' x' y' = if (x' =? x) && (y' =? y) then vga_entry (u8 c) color else cell t x' y'.
Proof.
  intros Hs Hxy. unfold terminal_entry. pose proof Hxy as [Hx Hy]. unfold VGA_WIDTH, VGA_HEIGHT in Hx, Hy.
  rewrite u32_small by (unfold VGA_WIDTH; lia).
  destruct (lset_cell t x y (vga_entry (u8 c) color) Hs Hxy) as (b & -> & ? & ?). by eexists.
Qed.

Lemma sized_same (t t' : tty) : same_but_buffer t t' -> sized t -> sized t'.
Proof. intros (_ & _ & _ & E) H. unfold sized in *. by rewrite E. Qed.

Lemma zeroline_spec (n : nat) (t : tty) (x y : Z) :
  sized t -> 0 <= x -> x + Z.of_nat n <= VGA_WIDTH -> 0 <= y < VGA_HEIGHT ->
  exists t', zeroline_loop n t (y * VGA_WIDTH + x) = Ret t' /\ same_but_buffer t t' /\
    forall x' y', on_screen x' y' ->
      cell t' x' y' = if (y' =? y) && (x <=? x') && (x' <? x + Z.of_nat n)
                      then vga_entry 32 (terminal_color t) else cell t x' y'.
Proof.
  revert t x. induction n as [|n IH]; intros t x Hs Hx Hn Hy; cbn [zeroline_loop].
  { exists t. split; [done|]. split; [done|]. intros x' y' _.
    destruct (Z.leb_spec x x'), (Z.ltb_spec x' (x + Z.of_nat 0)); rewrite ?andb_false_r; try done; lia. }
  destruct (lset_cell t x y (vga_entry 32 (terminal_color t)) Hs) as (b & -> & S1 & C1); [split; lia|].
  cbn [obind]. rewrite <- Z.add_assoc.
  destruct (IH (set_buffer t b) (x + 1)) as (t' & -> & S2 & C2); [by eapply sized_same|lia..|].
  exists t'. split; [done|]. split; [by eapply same_but_buffer_trans|]. intros x' y' Hxy.
  rewrite C2, C1 by done. change (terminal_color (set_buffer t b)) with (terminal_color t).
  destruct (Z.eqb_spec y' y), (Z.eqb_spec x' x), (Z.leb_spec (x + 1) x'), (Z.leb_spec x x'),
    (Z.ltb_spec x' (x + 1 + Z.of_nat n)), (Z.ltb_spec x' (x + Z.of_nat (S n))); simpl; try done; lia.
Qed.

Lemma copyline_spec (n : nat) (t : tty) (d s x : Z) :
  sized t -> 0 <= x -> x + Z.of_nat n <= VGA_WIDTH -> 0 <= d < VGA_HEIGHT -> 0 <= s < VGA_HEIGHT ->
  d <> s ->
  exists t', copyline_loop n t d s x = Ret t' /\ same_but_buffer t t' /\
    forall x' y', on_screen x' y' ->
      cell t' x' y' = if (y' =? d) && (x <=? x') && (x' <? x + Z.of_nat n)
                      then vga_entry (u8 (cell t x' s)) (terminal_color t) else cell t x' y'.
Proof.
  revert t x. induction n as [|n IH]; intros t x Hs Hx Hn Hd Hsr Hne; cbn [copyline_loop].
  { exists t. split; [done|]. split; [done|]. intros x' y' _.
    destruct (Z.leb_spec x x'), (Z.ltb_spec x' (x + Z.of_nat 0)); rewrite ?andb_false_r; try done; lia. }
  rewrite (lget_znth 0) by (unfold sized, VGA_WIDTH, VGA_HEIGHT in *; lia). cbn [obind].
  destruct (entry_spec t (u8 (cell t x s)) (terminal_color t) x d Hs) as (t1 & E1 & S1 & C1); [split; lia|].
  unfold cell in E1. rewrite E1. cbn [obind].
  destruct (IH t1 (x + 1)) as (t' & -> & S2 & C2); [by eapply sized_same|lia..|done|].
  exists t'. split; [done|]. split; [by eapply same_but_buffer_trans|]. intros x' y' Hxy.
  pose proof Hxy as [Hx' Hy']. rewrite C2, !C1 by (done || split; lia).
  destruct S1 as (_ & _ & -> & _). rewrite (u8_small (u8 (cell t x s))) by apply u8_range.
  destruct (Z.eqb_spec s d); [congruence|].
  destruct (Z.eqb_spec y' d), (Z.eqb_spec x' x), (Z.leb_spec (x + 1) x'), (Z.leb_spec x x'),
    (Z.ltb_spec x' (x + 1 + Z.of_nat n)), (Z.ltb_spec x' (x + Z.of_nat (S n))); simpl; try done; try lia.
  all: subst; done.
Qed.

(** Lines [y ..] moved up by one, their cells recoloured. *)
Lemma scroll_loop_spec (n : nat) (t : tty) (y : Z) :
  sized t -> 0 <= y -> y + Z.of_nat n < VGA_HEIGHT ->
  exists t', scroll_loop n t y = Ret t' /\ same_but_buffer t t' /\
    forall x' y', on_screen x' y' ->
      cell t' x' y' = if (y <=? y') && (y' <? y + Z.of_nat n)
                      then vga_entry (u8 (cell t x' (y' + 1))) (terminal_color t) else cell t x' y'.
Proof.
  revert t y. induction n as [|n IH]; intros t y Hs Hy Hn; cbn [scroll_loop].
  { exists t. split; [done|]. split; [done|]. intros x' y' _.
    destruct (Z.leb_spec y y'), (Z.ltb_spec y' (y + Z.of_nat 0)); simpl; try done; lia. }
  unfold terminal_copyline.
  destruct (copyline_spec (Z.to_nat VGA_WIDTH) t y (y + 1) 0 Hs) as (t1 & -> & S1 & C1);
    [unfold VGA_WIDTH in *; lia..|]. cbn [obind].
  destruct (IH t1 (y + 1)) as (t' & -> & S2 & C2); [by eapply sized_same|lia..|].
  exists t'. split; [done|]. split; [by eapply same_but_buffer_trans|]. intros x' y' Hxy.
  pose proof Hxy as [Hx' Hy']. rewrite C2 by done.
  destruct S1 as (_ & _ & Ec & _). rewrite Ec.
  destruct (Z.leb_spec (y + 1) y'), (Z.ltb_spec y' (y + 1 + Z.of_nat n)), (Z.leb_spec y y'),
    (Z.ltb_spec y' (y + Z.of_nat (S n))); cbn [andb]; try lia; rewrite C1 by (done || split; lia).
  all: destruct (Z.leb_spec 0 x'), (Z.ltb_spec x' (0 + Z.of_nat (Z.to_nat VGA_WIDTH)));
    try (unfold VGA_WIDTH in *; lia); rewrite ?andb_true_r.
  - by destruct (Z.eqb_spec (y' + 1) y); [lia|].
  - by destruct (Z.eqb_spec y' y); [lia|].
  - assert (y' = y) as -> by lia. by rewrite Z.eqb_refl.
  - by destruct (Z.eqb_spec y' y); [lia|].
Qed.

(** A new line: the cursor goes to the start of the next line; on the last
    line the screen moves up by one, and the new last line is blank. *)
Lemma newline_spec (t : tty) :
  sized t -> 0 <= terminal_row t < VGA_HEIGHT ->
  exists t', terminal_newline t = Ret t' /\ tty_ok t' /\ terminal_color t' = terminal_color t /\
    terminal_column t' = 0 /\
    terminal_row t' = (if terminal_row t =? VGA_HEIGHT - 1 then terminal_row t else terminal_row t + 1) /\
    forall x y, on_screen x y -> cell t' x y =
      if terminal_row t =? VGA_HEIGHT - 1
      then (if y =? VGA_HEIGHT - 1 then vga_entry 32 (terminal_color t)
            else vga_entry (u8 (cell t x (y + 1))) (terminal_color t))
      else cell t x y.
Proof.
  intros Hs Hr. unfold terminal_newline, VGA_HEIGHT in *. cbn [terminal_row set_pos].
  rewrite u32_small by lia.
  destruct (Z.eqb_spec (terminal_row t + 1) 25) as [E|E],
    (Z.eqb_spec (terminal_row t) (25 - 1)) as [E'|E']; try lia.
  - set (t0 := set_pos t (terminal_row t + 1) 0). unfold terminal_scroll.
    destruct (scroll_loop_spec (Z.to_nat (VGA_HEIGHT - 1)) t0 0) as (t1 & -> & S1 & C1);
      [done|lia|unfold VGA_HEIGHT; lia|]. cbn [obind].
    unfold terminal_zeroline.
    destruct (zeroline_spec (Z.to_nat VGA_WIDTH) t1 0 (VGA_HEIGHT - 1)) as (t2 & E2 & S2 & C2);
      [by eapply sized_same|lia|unfold VGA_WIDTH; lia|unfold VGA_HEIGHT; lia|].
    rewrite Z.add_0_r in E2. rewrite E2. cbn [obind].
    destruct (same_but_buffer_trans _ _ _ S1 S2) as (R & Co & K & Le). simpl in R, Co, K, Le.
    eexists. split; [done|]. simpl. rewrite R, u32_small by lia. split; [split; simpl|].
    + unfold VGA_HEIGHT. lia.
    + rewrite Co. by unfold VGA_WIDTH.
    + by rewrite Le.
    + split_and!; try done; try lia. intros x y Hxy. pose proof Hxy as [Hx Hy].
      change (cell (set_pos t2 _ _)) with (cell t2). rewrite C2 by done.
      destruct S1 as (_ & _ & -> & _). change (terminal_color t0) with (terminal_color t).
      unfold VGA_HEIGHT, VGA_WIDTH in *.
      destruct (Z.eqb_spec y (25 - 1)), (Z.leb_spec 0 x), (Z.ltb_spec x (0 + Z.of_nat (Z.to_nat 80)));
        cbn [andb]; try done; try lia. rewrite C1 by done.
      destruct (Z.leb_spec 0 y), (Z.ltb_spec y (0 + Z.of_nat (Z.to_nat (25 - 1)))); cbn [andb]; try lia.
      done.
  - eexists. split; [done|]. split; [split; simpl; unfold VGA_HEIGHT, VGA_WIDTH; try lia; done|].
    split_and!; done.
Qed.

(** The address sent to the cursor registers. *)
Lemma update_cursor_pos (t : tty) (x y : Z) :
  on_screen x y -> cursor (terminal_update_cursor t x y) = y * VGA_WIDTH + x.
Proof.
  unfold on_screen, VGA_WIDTH, VGA_HEIGHT. intros [Hx Hy]. unfold terminal_update_cursor. cbn [cursor].
  unfold VGA_WIDTH. rewrite (u8_small x), (u8_small y) by lia.
  set (pos := y * 80 + x). assert (Hp : 0 <= pos < 2000) by (unfold pos; lia).
  unfold u16. rewrite (wrap_small 16) by lia. change 0xFF with (Z.ones 8). rewrite land_mask by lia.
  rewrite Z.shiftr_div_pow2, Z.shiftl_mul_pow2 by lia. change (2 ^ 8) with 256.
  pose proof (Z.div_mod pos 256). pose proof (Z.mod_pos_bound pos 256).
  rewrite !u8_small by lia. rewrite (lor_low _ 8) by lia. lia.
Qed.

(** A printable character appears in the cell under the cursor in the
    current colour and no other cell changes, unless it is written to the last
    cell of the screen: then the screen scrolls by one line and the character
    ends up on the line above. The cursor moves to the next cell, and the
    hardware cursor follows it. *)
Theorem terminal_putchar_prints (t : tty) (c : Z) :
  tty_ok t -> u8 c <> 10 -> u8 c <> 8 ->
  exists t', terminal_putchar t c = Ret t' /\ tty_ok t' /\
    cursor t' = terminal_row t' * VGA_WIDTH + terminal_column t' /\
    let last := (terminal_column t =? VGA_WIDTH - 1) && (terminal_row t =? VGA_HEIGHT - 1) in
    (terminal_row t' * VGA_WIDTH + terminal_column t' =
       if last then (VGA_HEIGHT - 1) * VGA_WIDTH
       else terminal_row t * VGA_WIDTH + terminal_column t + 1) /\
    forall x y, on_screen x y -> cell t' x y =
      if last then
        if y =? VGA_HEIGHT - 1 then vga_entry 32 (terminal_color t)
        else if (x =? VGA_WIDTH - 1) && (y =? VGA_HEIGHT - 2) then vga_entry (u8 c) (terminal_color t)
        else vga_entry (u8 (cell t x (y + 1))) (terminal_color t)
      else if (x =? terminal_column t) && (y =? terminal_row t) then vga_entry (u8 c) (terminal_color t)
      else cell t x y.
Proof.
  intros [Hr Hc Hl] Hn Hb. unfold terminal_putchar.
  destruct (Z.eqb_spec (u8 c) 10); [done|]. destruct (Z.eqb_spec (u8 c) 8); [done|].
  destruct (entry_spec t (u8 c) (terminal_color t) (terminal_column t) (terminal_row t) Hl) as
    (t1 & -> & (R1 & K1 & Co1 & Le1) & C1); [by split|]. cbn [obind].
  rewrite R1, K1. rewrite (u8_small (u8 c)) in C1 by apply u8_range.
  unfold VGA_WIDTH, VGA_HEIGHT in Hr, Hc. rewrite u32_small by lia. cbn [terminal_column set_pos].
  assert (Hu : vga_entry (u8 (vga_entry (u8 c) (terminal_color t1))) (terminal_color t) =
               vga_entry (u8 c) (terminal_color t)).
  { f_equal. apply Z.bits_inj'. intros j Hj. unfold u8, vga_entry, u16.
    destruct (decide (j < 8)); [|by rewrite !wrap_testbit_high by lia].
    rewrite !wrap_testbit by lia. rewrite Z.lor_spec, Z.shiftl_spec_low, orb_false_r by lia.
    by rewrite wrap_testbit by lia. }
  rewrite Co1 in Hu.
  destruct (Z.eqb_spec (terminal_column t + 1) VGA_WIDTH) as [E|E]; unfold VGA_WIDTH in E.
  - destruct (newline_spec (set_pos t1 (terminal_row t) (terminal_column t + 1))) as
      (t2 & -> & H2 & Co2 & K2 & R2 & C2); [unfold sized; simpl; by rewrite Le1|simpl; by unfold VGA_HEIGHT|].
    cbn [obind]. eexists. split; [done|]. cbn [terminal_row set_pos] in R2, C2.
    split; [destruct H2; by split|]. split; [apply update_cursor_pos; split; apply H2|].
    cbn [terminal_row terminal_column terminal_update_cursor]. unfold VGA_WIDTH, VGA_HEIGHT in *.
    destruct (Z.eqb_spec (terminal_column t) (80 - 1)); [|lia]. cbn [andb].
    rewrite R2, K2. split; [case_match; bprop; lia|]. intros x y Hxy. pose proof Hxy as [Hx Hy].
    change (cell (terminal_update_cursor t2 0 _)) with (cell t2). rewrite C2 by done.
    unfold VGA_WIDTH, VGA_HEIGHT in *.
    change (cell (set_pos t1 _ _)) with (cell t1). cbn [terminal_color set_pos]. rewrite Co1.
    destruct (Z.eqb_spec (terminal_row t) (25 - 1)) as [Er|Er].
    + destruct (Z.eqb_spec y (25 - 1)); [done|]. rewrite C1 by (split; unfold VGA_WIDTH, VGA_HEIGHT; lia).
      replace (x =? terminal_column t) with (x =? 80 - 1) by (f_equal; lia).
      replace (y + 1 =? terminal_row t) with (y =? 25 - 2)
        by (destruct (Z.eqb_spec y (25 - 2)), (Z.eqb_spec (y + 1) (terminal_row t)); lia || done).
      destruct ((x =? 80 - 1) && (y =? 25 - 2)); [done|done].
    + by rewrite C1.
  - cbn [obind]. eexists. split; [done|]. cbn [terminal_row terminal_column set_pos].
    split; [split; simpl; unfold VGA_WIDTH, VGA_HEIGHT; try lia; rewrite Le1; done|].
    split; [apply update_cursor_pos; split; cbn [terminal_row terminal_column terminal_update_cursor set_pos]; unfold VGA_WIDTH, VGA_HEIGHT; lia|].
    cbn [terminal_row terminal_column terminal_update_cursor set_pos]. unfold VGA_WIDTH, VGA_HEIGHT in *.
    destruct (Z.eqb_spec (terminal_column t) (80 - 1)); [lia|]. cbn [andb]. split; [lia|].
    intros x y Hxy. change (cell (terminal_update_cursor _ _ _)) with (cell t1).
    rewrite C1 by done. done.
Qed.

(** Characters keep the screen state, a backspace in the corner apart. *)
Lemma putchar_ok (t : tty) (c : Z) :
  tty_ok t -> u8 c <> 8 -> exists t', terminal_putchar t c = Ret t' /\ tty_ok t'.
Proof.
  intros H Hb. destruct H as [Hr Hc Hl]. unfold terminal_putchar.
  destruct (Z.eqb_spec (u8 c) 10).
  { destruct (newline_spec t Hl Hr) as (t' & -> & H' & _). cbn [obind].
    eexists. split; [done|]. destruct H'. by split. }
  destruct (Z.eqb_spec (u8 c) 8); [done|].
  destruct (entry_spec t (u8 c) (terminal_color t) (terminal_column t) (terminal_row t) Hl) as
    (t1 & -> & (R1 & K1 & Co1 & Le1) & _); [by split|]. cbn [obind].
  rewrite R1, K1. unfold VGA_WIDTH, VGA_HEIGHT in Hr, Hc. rewrite u32_small by lia.
  cbn [terminal_column set_pos].
  destruct (Z.eqb_spec (terminal_column t + 1) VGA_WIDTH) as [E|E]; unfold VGA_WIDTH in E.
  - destruct (newline_spec (set_pos t1 (terminal_row t) (terminal_column t + 1))) as
      (t2 & -> & H2 & _); [unfold sized; simpl; by rewrite Le1|simpl; by unfold VGA_HEIGHT|].
    cbn [obind]. eexists. split; [done|]. destruct H2. by split.
  - cbn [obind]. eexists. split; [done|].
    split; simpl; unfold VGA_WIDTH, VGA_HEIGHT; try lia; rewrite Le1; done.
Qed.

(** Text without backspaces never drives the console outside its
    memory or the cursor off the screen. *)
Theorem terminal_write_safe (data : list Z) (t : tty) :
  tty_ok t -> Forall (fun c => u8 c <> 8) data ->
  exists t', terminal_write t data = Ret t' /\ tty_ok t'.
Proof.
  intros H Hd. revert t H. induction Hd as [|c data Hc _ IH]; intros t H; cbn [terminal_write];
    [by exists t|].
  destruct (putchar_ok t c H Hc) as (t1 & -> & H1). cbn [obind]. by apply IH.
Qed.

Definition blank_tty : tty := mk_tty 0 0 15 (replicate 2000 0) 0.

Lemma blank_ok : tty_ok blank_tty.
Proof. by split; vm_compute. Qed.

Lemma terminal_putchar_prints_witness :
  exists t', terminal_putchar blank_tty 65 = Ret t' /\ tty_ok t'.
Proof.
  destruct (terminal_putchar_prints blank_tty 65 blank_ok) as (t' & E & H & _); [done|done|].
  exact (ex_intro _ t' (conj E H)).
Defined.

Lemma terminal_write_safe_witness :
  exists t', terminal_write blank_tty [72; 105; 10] = Ret t' /\ tty_ok t'.
Proof.
  apply (terminal_write_safe [72; 105; 10] blank_tty blank_ok). repeat constructor; done.
Defined.

(** A backspace in the top left corner moves the cursor to row 2^32 - 1; the
    next character is stored outside video memory. *)
Theorem backspace_in_corner :
  (let! t := terminal_putchar blank_tty 8 in terminal_putchar t 65) = Undef.
Proof. vm_compute. reflexivity. Qed.

(** A backspace at the start of a line blanks the cell at the start of that
    line, not the last cell of the line above, to which the cursor moves. *)
Theorem backspace_at_line_start :
  (let! t := terminal_write blank_tty [10; 65] in
   let! t := terminal_putchar (set_pos t 1 0) 8 in
   Ret (terminal_row t, terminal_column t, cell t 0 1)) = Ret (0, 79, vga_entry 32 15).
Proof. vm_compute. reflexivity. Qed.
