(* ===== verification/Keyboard.v ===== *)
(** The PS/2 keyboard driver, src/src/kernel/drivers/keyboard.c: the command
    protocol over the queue of Queue.v, the decoding of scan codes, and the
    translation to characters of src/src/kernel/io/stdio_handler.c. *)

From Stdlib Require Import ZArith Lia.
From stdpp Require Import base numbers list.
From S2P Require Import Prelude Queue.

(** ** Key codes *)

Definition KEY_ESCAPE : Z := 1.
Definition KEY_F1 : Z := 2.
Definition KEY_F2 : Z := 3.
Definition KEY_F3 : Z := 4.
Definition KEY_F4 : Z := 5.
Definition KEY_F5 : Z := 6.
Definition KEY_F6 : Z := 7.
Definition KEY_F7 : Z := 8.
Definition KEY_F8 : Z := 9.
Definition KEY_F9 : Z := 10.
Definition KEY_F10 : Z := 11.
Definition KEY_F11 : Z := 12.
Definition KEY_F12 : Z := 13.
Definition KEY_1 : Z := 14.
Definition KEY_2 : Z := 15.
Definition KEY_3 : Z := 16.
Definition KEY_4 : Z := 17.
Definition KEY_5 : Z := 18.
Definition KEY_6 : Z := 19.
Definition KEY_7 : Z := 20.
Definition KEY_8 : Z := 21.
Definition KEY_9 : Z := 22.
Definition KEY_0 : Z := 23.
Definition KEY_A : Z := 24.
Definition KEY_B : Z := 25.
Definition KEY_C : Z := 26.
Definition KEY_D : Z := 27.
Definition KEY_E : Z := 28.
Definition KEY_F : Z := 29.
Definition KEY_G : Z := 30.
Definition KEY_H : Z := 31.
Definition KEY_I : Z := 32.
Definition KEY_J : Z := 33.
Definition KEY_K : Z := 34.
Definition KEY_L : Z := 35.
Definition KEY_M : Z := 36.
Definition KEY_N : Z := 37.
Definition KEY_O : Z := 38.
Definition KEY_P : Z := 39.
Definition KEY_Q : Z := 40.
Definition KEY_R : Z := 41.
Definition KEY_S : Z := 42.
Definition KEY_T : Z := 43.
Definition KEY_U : Z := 44.
Definition KEY_V : Z := 45.
Definition KEY_W : Z := 46.
Definition KEY_X : Z := 47.
Definition KEY_Y : Z := 48.
Definition KEY_Z : Z := 49.
Definition KEY_TAB : Z := 50.
Definition KEY_TILDE : Z := 51.
Definition KEY_LALT : Z := 52.
Definition KEY_LSHIFT : Z := 53.
Definition KEY_LCTRL : Z := 54.
Definition KEY_SPACE : Z := 55.
Definition KEY_COMMA : Z := 56.
Definition KEY_PERIOD : Z := 57.
Definition KEY_SLASH : Z := 58.
Definition KEY_SEMICOLON : Z := 59.
Definition KEY_DASH : Z := 60.
Definition KEY_APOS : Z := 61.
Definition KEY_LSBRACKET : Z := 62.
Definition KEY_CAPSLOCK : Z := 63.
Definition KEY_ENTER : Z := 64.
Definition KEY_RSBRACKET : Z := 65.
Definition KEY_BACKSLASH : Z := 66.
Definition KEY_BACKSPACE : Z := 67.
Definition KEY_NUMPAD1 : Z := 68.
Definition KEY_NUMPAD2 : Z := 69.
Definition KEY_NUMPAD3 : Z := 70.
Definition KEY_NUMPAD4 : Z := 71.
Definition KEY_NUMPAD5 : Z := 72.
Definition KEY_NUMPAD6 : Z := 73.
Definition KEY_NUMPAD7 : Z := 74.
Definition KEY_NUMPAD8 : Z := 75.
Definition KEY_NUMPAD9 : Z := 76.
Definition KEY_NUMPAD0 : Z := 77.
Definition KEY_NUMPAD_PERIOD : Z := 78.
Definition KEY_NUMLOCK : Z := 79.
Definition KEY_NUMPAD_PLUS : Z := 80.
Definition KEY_NUMPAD_DASH : Z := 81.
Definition KEY_EQUAL : Z := 82.
Definition KEY_NUMPAD_STAR : Z := 83.
Definition KEY_SCROLLLOCK : Z := 84.
Definition KEY_SEARCH : Z := 85.
Definition KEY_RALT : Z := 86.
Definition KEY_RCTRL : Z := 87.
Definition KEY_PREVTRACK : Z := 88.
Definition KEY_FAV : Z := 89.
Definition KEY_LGUI : Z := 90.
Definition KEY_REFRESH : Z := 91.
Definition KEY_DVOL : Z := 92.
Definition KEY_MUTE : Z := 93.
Definition KEY_RGUI : Z := 94.
Definition KEY_WSTOP : Z := 95.
Definition KEY_CALC : Z := 96.
Definition KEY_APPS : Z := 97.
Definition KEY_UVOL : Z := 98.
Definition KEY_WFORWARD : Z := 99.
Definition KEY_PLAY : Z := 100.
Definition KEY_POWER : Z := 101.
Definition KEY_WBACK : Z := 102.
Definition KEY_WHOME : Z := 103.
Definition KEY_STOP : Z := 104.
Definition KEY_SLEEP : Z := 105.
Definition KEY_MYPC : Z := 106.
Definition KEY_EMAIL : Z := 107.
Definition KEY_NUMPAD_SLASH : Z := 108.
Definition KEY_NEXTTRACK : Z := 109.
Definition KEY_MEDIA : Z := 110.
Definition KEY_NUMPAD_ENTER : Z := 111.
Definition KEY_WAKE : Z := 112.
Definition KEY_END : Z := 113.
Definition KEY_DEL : Z := 114.
Definition KEY_INSERT : Z := 115.
Definition KEY_LEFT : Z := 116.
Definition KEY_DOWN : Z := 117.
Definition KEY_RIGHT : Z := 118.
Definition KEY_UP : Z := 119.
Definition KEY_PDOWN : Z := 120.
Definition KEY_PUP : Z := 121.
Definition KEY_HOME : Z := 122.
Definition KEY_PRTSC : Z := 123.
Definition KEY_PAUSE : Z := 124.
Definition KEY_RSHIFT : Z := 125.

Definition KB_RELEASE_FLAG : Z := 2 ^ 31.
Definition KB_SHIFT_FLAG : Z := 2 ^ 21.
Definition KB_CTRL_FLAG : Z := 2 ^ 20.
Definition KB_ALT_FLAG : Z := 2 ^ 19.
Definition KB_ALTGR_FLAG : Z := 2 ^ 18.
Definition KB_GUI_FLAG : Z := 2 ^ 17.
Definition COMMAND_QUEUE_CAP : Z := 15.

Definition scancode_table : list Z :=
  [0; KEY_F9; 0; KEY_F5; KEY_F3; KEY_F1; KEY_F2; KEY_F12; 0; KEY_F10; KEY_F8; KEY_F6;
   KEY_F4; KEY_TAB; KEY_TILDE; 0; 0; KEY_LALT; KEY_LSHIFT; 0; KEY_LCTRL; KEY_Q; KEY_1; 0;
   0; 0; KEY_Z; KEY_S; KEY_A; KEY_W; KEY_2; 0; 0; KEY_C; KEY_X; KEY_D; KEY_E; KEY_4; KEY_3;
   0; 0; KEY_SPACE; KEY_V; KEY_F; KEY_T; KEY_R; KEY_5; 0; 0; KEY_N; KEY_B; KEY_H; KEY_G;
   KEY_Y; KEY_6; 0; 0; 0; KEY_M; KEY_J; KEY_U; KEY_7; KEY_8; 0; 0; KEY_COMMA; KEY_K; KEY_I;
   KEY_O; KEY_0; KEY_9; 0; 0; KEY_PERIOD; KEY_SLASH; KEY_L; KEY_SEMICOLON; KEY_P; KEY_DASH;
   0; 0; 0; KEY_APOS; 0; KEY_LSBRACKET; KEY_EQUAL; 0; 0; KEY_CAPSLOCK; KEY_RSHIFT;
   KEY_ENTER; KEY_RSBRACKET; 0; KEY_BACKSLASH; 0; 0; 0; 0; 0; 0; 0; 0; KEY_BACKSPACE; 0; 0;
   KEY_NUMPAD1; 0; KEY_NUMPAD4; KEY_NUMPAD7; 0; 0; 0; KEY_NUMPAD0; KEY_NUMPAD_PERIOD;
   KEY_NUMPAD2; KEY_NUMPAD5; KEY_NUMPAD6; KEY_NUMPAD8; KEY_ESCAPE; KEY_NUMLOCK; KEY_F11;
   KEY_NUMPAD_PLUS; KEY_NUMPAD3; KEY_NUMPAD_DASH; KEY_NUMPAD_STAR; KEY_NUMPAD9;
   KEY_SCROLLLOCK; 0; 0; 0; 0; KEY_F7].

(** The first entry is for 0x10. *)
Definition alt_scancode_table : list Z :=
  [KEY_SEARCH; KEY_RALT; 0; 0; KEY_RCTRL; KEY_PREVTRACK; 0; 0; KEY_FAV; 0; 0; 0; 0; 0; 0;
   KEY_LGUI; KEY_REFRESH; KEY_DVOL; 0; KEY_MUTE; 0; 0; 0; KEY_RGUI; KEY_WSTOP; 0; 0;
   KEY_CALC; 0; 0; 0; KEY_APPS; KEY_WFORWARD; 0; KEY_UVOL; 0; KEY_PLAY; 0; 0; KEY_POWER;
   KEY_WBACK; 0; KEY_WHOME; KEY_STOP; 0; 0; 0; KEY_SLEEP; KEY_MYPC; 0; 0; 0; 0; 0; 0; 0;
   KEY_EMAIL; 0; KEY_NUMPAD_SLASH; 0; 0; KEY_NEXTTRACK; 0; 0; KEY_MEDIA; 0; 0; 0; 0; 0; 0;
   0; 0; 0; KEY_NUMPAD_ENTER; 0; 0; 0; KEY_WAKE; 0; 0; 0; 0; 0; 0; 0; 0; 0; 0; KEY_END; 0;
   KEY_LEFT; KEY_HOME; 0; 0; 0; KEY_INSERT; KEY_DEL; KEY_DOWN; 0; KEY_RIGHT; KEY_UP; 0; 0;
   0; 0; KEY_PDOWN; 0; 0; KEY_PUP].

(** ** State *)

Definition KB_AVAILABLE : Z := 0.
Definition CMD_ACKNOW : Z := 1.
Definition CMD_RESPONSE : Z := 2.

Record kb_keysym_t := mk_keysym { ascii : Z; ks_flags : Z; keysym : Z }.

Section Driver.
Context {Q : Type} `{!Fifo Q} {laws : FifoLaws Q}.

(** The static variables, the static locals [repetition] and [hold] included;
    [sent] logs the bytes written to the data port and [delivered] the key
    symbols passed to [stdin_send_code]. *)
Record kbd := mk_kbd {
  command_queue : Q;
  status : Z;
  repetition : Z;
  keycodes : list Z;
  len : Z;
  hold : Z;
  shift_flag : Z;
  ctrl_flag : Z;
  alt_flag : Z;
  altgr_flag : Z;
  gui_flag : Z;
  sent : list Z;
  delivered : list kb_keysym_t;
}.

Definition set_cmd (k : kbd) (q : Q) (st rep : Z) (log : list Z) : kbd :=
  mk_kbd q st rep (keycodes k) (len k) (hold k) (shift_flag k) (ctrl_flag k) (alt_flag k)
    (altgr_flag k) (gui_flag k) log (delivered k).
Definition set_codes (k : kbd) (codes : list Z) (n : Z) : kbd :=
  mk_kbd (command_queue k) (status k) (repetition k) codes n (hold k) (shift_flag k) (ctrl_flag k)
    (alt_flag k) (altgr_flag k) (gui_flag k) (sent k) (delivered k).
Definition set_mods (k : kbd) (h s c a g w : Z) : kbd :=
  mk_kbd (command_queue k) (status k) (repetition k) (keycodes k) (len k) h s c a g w
    (sent k) (delivered k).
Definition deliver (k : kbd) (s : kb_keysym_t) : kbd :=
  mk_kbd (command_queue k) (status k) (repetition k) (keycodes k) (len k) (hold k) (shift_flag k)
    (ctrl_flag k) (alt_flag k) (altgr_flag k) (gui_flag k) (sent k) (delivered k ++ [s]).

(** ** Commands *)

Definition keyboard_send_cmd (k : kbd) (command : Z) : kbd :=
  set_cmd k (command_queue k) CMD_ACKNOW (repetition k) (sent k ++ [command]).

Definition keyboard_send_next (k : kbd) : outcome kbd :=
  if (status k =? KB_AVAILABLE) && (0 <? fifo_size (command_queue k)) then
    let! next_command := fifo_top (command_queue k) in
    Ret (keyboard_send_cmd k (u8 next_command))
  else Ret k.

Definition keyboard_queuecommand (k : kbd) (command : Z) : outcome kbd :=
  let! (_, q) := fifo_push (command_queue k) command in
  let k := set_cmd k q (status k) (repetition k) (sent k) in
  if fifo_size q =? 1 then Ret (keyboard_send_cmd k command) else Ret k.

Definition keyboard_handlequeue (k : kbd) (response : Z) : outcome kbd :=
  let! k :=
    if response =? 0xFA then
      let! command := fifo_top (command_queue k) in
      let! q := fifo_pop (command_queue k) in
      Ret (set_cmd k q (if u8 command =? 0xFF then CMD_RESPONSE else KB_AVAILABLE) 0 (sent k))
    else if response =? 0xFE then
      let rep := u8 (repetition k + 1) in
      if 3 <? rep then
        let! q := fifo_pop (command_queue k) in
        Ret (set_cmd k q KB_AVAILABLE 0 (sent k))
      else Ret (set_cmd k (command_queue k) KB_AVAILABLE rep (sent k))
    else Ret k in
  if status k =? KB_AVAILABLE then keyboard_send_next k else Ret k.

(** The cases differ only in the message. *)
Definition keyboard_handleresponse (k : kbd) (response : Z) : outcome kbd :=
  keyboard_send_next (set_cmd k (command_queue k) KB_AVAILABLE (repetition k) (sent k)).

(** ** Scan codes *)

Definition keyboard_scancode_to_keycode (k : kbd) : outcome (Z * kbd) :=
  let code i := lget (keycodes k) i in
  let same codes := forallb (fun x => x) (zip_with Z.eqb (take (length codes) (keycodes k)) codes) in
  let! ret :=
    if len k =? 1 then let! a := code 0 in lget scancode_table a
    else if len k =? 2 then
      let! a := code 0 in
      let! b := code 1 in
      if a =? 0xE0 then lget alt_scancode_table (b - 0x10)
      else if a =? 0xF0 then let! r := lget scancode_table b in Ret (Z.lor r KB_RELEASE_FLAG)
      else Ret 0
    else if len k =? 3 then
      let! a := code 0 in
      let! b := code 1 in
      if (a =? 0xE0) && (b =? 0xF0) then
        let! c := code 2 in
        let! r := lget alt_scancode_table (c - 0x10) in Ret (Z.lor r KB_RELEASE_FLAG)
      else Ret 0
    else if len k =? 4 then
      Ret (if same [0xE0; 0x12; 0xE0; 0x7C] then KEY_PRTSC else 0)
    else if len k =? 6 then
      Ret (if same [0xE0; 0xF0; 0x7C; 0xE0; 0xF0; 0x12] then Z.lor KEY_PRTSC KB_RELEASE_FLAG else 0)
    else if len k =? 8 then
      Ret (if same [0xE1; 0x14; 0x77; 0xE1; 0xF0; 0x14; 0xF0; 0x77] then KEY_PAUSE else 0)
    else Ret 0 in
  Ret (ret, set_codes k (keycodes k) 0).

Definition keyboard_handle_shift (k : kbd) (is_release : Z) : kbd :=
  if hold k =? is_release then
    set_mods k (1 - hold k) (u8 (1 - shift_flag k)) (ctrl_flag k) (alt_flag k) (altgr_flag k) (gui_flag k)
  else k.

Definition keyboard_handle_keycode (k : kbd) (code : Z) : kbd :=
  let is_release := Z.shiftr code 31 in
  let flagless := Z.land code (2 ^ 31 - 1) in
  let down := if is_release =? 0 then 1 else 0 in
  if (flagless =? KEY_LSHIFT) || (flagless =? KEY_RSHIFT) then keyboard_handle_shift k is_release
  else if flagless =? KEY_CAPSLOCK then
    if is_release =? 0
    then set_mods k (hold k) (u8 (1 - shift_flag k)) (ctrl_flag k) (alt_flag k) (altgr_flag k) (gui_flag k)
    else k
  else if (flagless =? KEY_LCTRL) || (flagless =? KEY_RCTRL) then
    set_mods k (hold k) (shift_flag k) down (alt_flag k) (altgr_flag k) (gui_flag k)
  else if flagless =? KEY_LALT then
    set_mods k (hold k) (shift_flag k) (ctrl_flag k) down (altgr_flag k) (gui_flag k)
  else if flagless =? KEY_RALT then
    set_mods k (hold k) (shift_flag k) (ctrl_flag k) (alt_flag k) down (gui_flag k)
  else if flagless =? KEY_LGUI then
    set_mods k (hold k) (shift_flag k) (ctrl_flag k) (alt_flag k) (altgr_flag k) down
  else if negb (is_release =? 0) then k
  else
    let add f (b x : Z) := if b =? 0 then x else Z.lor x f in
    let c := add KB_SHIFT_FLAG (shift_flag k) flagless in
    let c := add KB_CTRL_FLAG (ctrl_flag k) c in
    let c := add KB_ALT_FLAG (alt_flag k) c in
    let c := add KB_ALTGR_FLAG (altgr_flag k) c in
    let c := add KB_GUI_FLAG (gui_flag k) c in
    deliver k (mk_keysym 0 (Z.land (Z.shiftr c 16) 0xFF) (Z.land c 0xFFFF)).

Definition keyboard_scancode (k : kbd) (code : Z) : outcome kbd :=
  let! codes := lset (keycodes k) (len k) code in
  let k := set_codes k codes (len k + 1) in
  let kc i := znth 0 codes i in
  if (code =? 0xE0) || (code =? 0xF0) || (code =? 0xE1) then Ret k
  else if (code =? 0x14) && ((len k =? 2) && (kc 0 =? 0xE1) || (len k =? 6) && (kc 4 =? 0xF0)) then Ret k
  else if (code =? 0x77) && (len k =? 3) && (kc 1 =? 0x14) then Ret k
  else if (code =? 0x12) && (len k =? 2) && (kc 0 =? 0xE0) then Ret k
  else if (code =? 0x7C) && (len k =? 3) && (kc 0 =? 0xE0) && (kc 1 =? 0xF0) then Ret k
  else
    let! (keycode, k) := keyboard_scancode_to_keycode k in
    Ret (keyboard_handle_keycode k keycode).

(** The interrupt handler, for a byte read from the data port. *)
Definition keyboard_handlecode (k : kbd) (byte : Z) : outcome kbd :=
  if status k =? CMD_RESPONSE then keyboard_handleresponse k byte
  else if status k =? CMD_ACKNOW then keyboard_handlequeue k byte
  else if status k =? KB_AVAILABLE then keyboard_scancode k byte
  else Ret k.

(** The commands of [keyboard_init], on an empty queue. *)
Definition keyboard_init (k : kbd) : outcome kbd :=
  let! k := keyboard_queuecommand k 0xFF in
  let! k := keyboard_queuecommand k 0xED in
  let! k := keyboard_queuecommand k 0x0 in
  let! k := keyboard_queuecommand k 0xF0 in
  let! k := keyboard_queuecommand k 0x2 in
  keyboard_queuecommand k 0xF4.

(** ** The command protocol *)

Record kbd_ok (k : kbd) : Prop := {
  kk_queue : fifo_ok (command_queue k) /\ 1 < fifo_cap (command_queue k);
  kk_status : status k = KB_AVAILABLE \/ status k = CMD_ACKNOW \/ status k = CMD_RESPONSE;
  (* the keyboard is left alone only when there is nothing to tell it *)
  kk_idle : status k = KB_AVAILABLE -> fifo_list (command_queue k) = [];
  (* the byte on its way is the oldest command *)
  kk_wait : status k = CMD_ACKNOW ->
    exists c l, fifo_list (command_queue k) = c :: l /\ last (sent k) = Some (u8 c);
  kk_bytes : Forall (fun c => 0 <= c < 256) (fifo_list (command_queue k));
  kk_codes : length (keycodes k) = 8%nat /\ 0 <= len k <= 8;
}.

(** [keyboard_send_next] in a state whose queue is [l]. *)
Lemma send_next_spec (k : kbd) :
  fifo_ok (command_queue k) -> status k = KB_AVAILABLE ->
  match fifo_list (command_queue k) with
  | [] => keyboard_send_next k = Ret k
  | c :: l => keyboard_send_next k = Ret (keyboard_send_cmd k (u8 c))
  end.
Proof using laws.
  intros Hq Hs. unfold keyboard_send_next. rewrite Hs, (fifo_size_spec _ Hq).
  destruct (fifo_list (command_queue k)) as [|c l] eqn:E; [done|].
  cbn [Z.eqb KB_AVAILABLE andb length]. destruct (Z.ltb_spec 0 (Z.of_nat (S (length l)))); [|lia].
  by rewrite (fifo_top_spec _ c l Hq E).
Qed.

Lemma send_next_ok (k : kbd) :
  fifo_ok (command_queue k) -> 1 < fifo_cap (command_queue k) -> status k = KB_AVAILABLE ->
  Forall (fun c => 0 <= c < 256) (fifo_list (command_queue k)) -> length (keycodes k) = 8%nat /\ 0 <= len k <= 8 ->
  exists k', keyboard_send_next k = Ret k' /\ kbd_ok k'.
Proof using laws.
  intros Hq Hcap Hs Hb Hk. pose proof (send_next_spec k Hq Hs) as H.
  destruct (fifo_list (command_queue k)) as [|c l] eqn:E; rewrite H; eexists; (split; [done|]).
  - split; try done; [by left|by rewrite Hs|by rewrite E].
  - split; simpl; try done; [by right; left| |by rewrite E]. intros _. exists c, l.
    by rewrite last_snoc.
Qed.

Lemma queuecommand_ok (k : kbd) (c : Z) :
  kbd_ok k -> 0 <= c < 256 -> exists k', keyboard_queuecommand k c = Ret k' /\ kbd_ok k'.
Proof using laws.
  intros [[Hq Hcap] Hst Hi Hw Hb Hk] Hc. unfold keyboard_queuecommand.
  destruct (Z.lt_ge_cases (Z.of_nat (length (fifo_list (command_queue k)))) (fifo_cap (command_queue k)))
    as [Hroom|Hfull].
  - destruct (fifo_push_room (command_queue k) c Hq Hroom) as (q & -> & Hq' & Hc' & El).
    cbn [obind]. rewrite (fifo_size_spec _ Hq'), El, length_app. cbn [length].
    assert (Hb' : Forall (fun c => 0 <= c < 256) (fifo_list q)).
    { rewrite El. apply Forall_app. split; [done|]. by apply Forall_singleton. }
    assert (Hcq : fifo_ok q /\ 1 < fifo_cap q) by (by rewrite Hc').
    destruct (Z.eqb_spec (Z.of_nat (length (fifo_list (command_queue k)) + 1)) 1) as [E|E].
    + assert (En : fifo_list (command_queue k) = []) by (apply length_zero_iff_nil; lia).
      eexists. split; [done|]. split; simpl; try done; [by right; left|].
      intros _. exists c, []. rewrite El, En, last_snoc, u8_small by done. done.
    + eexists. split; [done|]. split; simpl; try done.
      * intros Hs. specialize (Hi Hs). rewrite Hi in E. simpl in E. lia.
      * intros Hs. destruct (Hw Hs) as (c0 & l & E0 & Hl). exists c0, (l ++ [c]). by rewrite El, E0.
  - rewrite fifo_push_full by (done || lia). cbn [obind].
    rewrite (fifo_size_spec _ Hq).
    destruct (Z.eqb_spec (Z.of_nat (length (fifo_list (command_queue k)))) 1) as [E|E]; [lia|].
    eexists. split; [done|]. by split.
Qed.

Lemma command_byte_ok (k : kbd) (byte : Z) :
  kbd_ok k -> status k <> KB_AVAILABLE -> exists k', keyboard_handlecode k byte = Ret k' /\ kbd_ok k'.
Proof using laws.
  intros H Hne. pose proof H as [[Hq Hcap] Hst Hi Hw Hb Hk]. unfold keyboard_handlecode.
  destruct Hst as [?|[Hs|Hs]]; [done| |]; rewrite Hs; cbn [Z.eqb CMD_ACKNOW CMD_RESPONSE].
  - destruct (Hw Hs) as (c & l & El & Hlast). unfold keyboard_handlequeue.
    destruct (fifo_pop_spec (command_queue k) Hq) as (q & Ep & Hq' & Hc' & El').
    rewrite El in El'. cbn [tail] in El'. rewrite El in Hb. apply Forall_cons in Hb as [Hc Hb].
    destruct (Z.eqb_spec byte 0xFA).
    + rewrite (fifo_top_spec _ c l Hq El), Ep. cbn [obind status set_cmd].
      destruct (Z.eqb_spec (u8 c) 0xFF).
      * cbn [Z.eqb CMD_RESPONSE KB_AVAILABLE]. eexists. split; [done|].
        split; simpl; try done; [by rewrite Hc'|by right; right|by rewrite El'].
      * cbn [Z.eqb KB_AVAILABLE]. apply send_next_ok; simpl; [done|by rewrite Hc'|done|by rewrite El'|done].
    + destruct (Z.eqb_spec byte 0xFE).
      * destruct (3 <? u8 (repetition k + 1)); rewrite ?Ep; cbn [obind status set_cmd Z.eqb KB_AVAILABLE];
          apply send_next_ok; simpl; try done; [by rewrite Hc'|by rewrite El'|].
        rewrite El. by constructor.
      * cbn [obind]. rewrite Hs. cbn [Z.eqb CMD_ACKNOW KB_AVAILABLE]. by exists k.
  - unfold keyboard_handleresponse. by apply send_next_ok.
Qed.

(** The scan codes the tables have, given the prefixes that are pending: a code of
    one byte, a code behind [0xE0], [0xF0] or both.  Other sequences are not
    looked up.  Eight pending bytes leave no room. *)
Definition in_table (k : kbd) (b : Z) : bool :=
  let plain := (0 <=? b) && (b <=? 0x83) in
  let alt := (0x10 <=? b) && (b <=? 0x7D) in
  let kc i := znth 0 (keycodes k) i in
  (len k <? 8) &&
  ((b =? 0xE0) || (b =? 0xF0) || (b =? 0xE1) ||
   (if len k =? 0 then plain
    else if len k =? 1 then if kc 0 =? 0xE0 then alt else if kc 0 =? 0xF0 then plain else true
    else if len k =? 2 then if (kc 0 =? 0xE0) && (kc 1 =? 0xF0) then alt else true
    else true)).

Lemma table_entry (l : list Z) (i : Z) : 0 <= i < Z.of_nat (length l) -> exists c, lget l i = Ret c.
Proof.
  intros Hi. destruct (lookup_lt_is_Some_2 l (Z.to_nat i)) as [c Hc]; [lia|]. exists c. apply lget_Ret. split; [lia|done].
Qed.

Lemma old_code (k : kbd) (b i : Z) :
  length (keycodes k) = 8%nat -> 0 <= i < len k -> len k < 8 ->
  lget (<[Z.to_nat (len k) := b]> (keycodes k)) i = Ret (znth 0 (keycodes k) i).
Proof.
  intros Hl Hi H8. destruct (lookup_lt_is_Some_2 (keycodes k) (Z.to_nat i)) as [c Hc]; [lia|].
  apply lget_Ret. split; [lia|]. rewrite list_lookup_insert_ne by lia. unfold znth. by rewrite Hc.
Qed.

Lemma new_code (k : kbd) (b : Z) :
  length (keycodes k) = 8%nat -> 0 <= len k < 8 -> lget (<[Z.to_nat (len k) := b]> (keycodes k)) (len k) = Ret b.
Proof. intros Hl Hi. apply lget_Ret. split; [lia|]. apply list_lookup_insert_eq. lia. Qed.

(** The tables are not read out of range. *)
Lemma decode_ok (k : kbd) (b : Z) :
  length (keycodes k) = 8%nat -> 0 <= len k -> in_table k b = true ->
  b <> 0xE0 -> b <> 0xF0 -> b <> 0xE1 ->
  let codes := <[Z.to_nat (len k) := b]> (keycodes k) in
  exists r, keyboard_scancode_to_keycode (set_codes k codes (len k + 1)) = Ret (r, set_codes k codes 0).
Proof.
  intros Hl H0 [H8%Z.ltb_lt Ht]%andb_true_iff N1%Z.eqb_neq N2%Z.eqb_neq N3%Z.eqb_neq codes. rewrite N1, N2, N3 in Ht. cbn [orb] in Ht.
  pose proof (new_code k b Hl (conj H0 H8)) as Gn. fold codes in Gn.
  assert (Go : forall i, 0 <= i < len k -> lget codes i = Ret (znth 0 (keycodes k) i)) by (intros; by apply old_code).
  unfold keyboard_scancode_to_keycode. cbn [len set_codes keycodes].
  destruct (Z.eqb_spec (len k) 0) as [E|E]; [|destruct (Z.eqb_spec (len k) 1) as [E1|E1]; [|destruct (Z.eqb_spec (len k) 2) as [E2|E2]]].
  - rewrite E in *. cbn [Z.add Z.eqb Pos.eqb]. rewrite Gn. cbn [obind]. apply andb_true_iff in Ht as [T1%Z.leb_le T2%Z.leb_le].
    destruct (table_entry scancode_table b) as [c ->]; [simpl; lia|]. by eexists.
  - rewrite E1 in *. change (1 + 1) with 2. cbn [Z.eqb Pos.eqb]. rewrite (Go 0), Gn by lia. cbn [obind].
    destruct (Z.eqb_spec (znth 0 (keycodes k) 0) 0xE0); [|destruct (Z.eqb_spec (znth 0 (keycodes k) 0) 0xF0); [|by eexists]];
      apply andb_true_iff in Ht as [T1%Z.leb_le T2%Z.leb_le].
    + destruct (table_entry alt_scancode_table (b - 0x10)) as [c ->]; [simpl; lia|]. by eexists.
    + destruct (table_entry scancode_table b) as [c ->]; [simpl; lia|]. by eexists.
  - rewrite E2 in *. change (2 + 1) with 3. cbn [Z.eqb Pos.eqb]. rewrite (Go 0), (Go 1), Gn by lia. cbn [obind].
    destruct ((znth 0 (keycodes k) 0 =? 0xE0) && (znth 0 (keycodes k) 1 =? 0xF0)); [|by eexists].
    apply andb_true_iff in Ht as [T1%Z.leb_le T2%Z.leb_le].
    destruct (table_entry alt_scancode_table (b - 0x10)) as [c ->]; [simpl; lia|]. by eexists.
  - destruct (Z.eqb_spec (len k + 1) 1); [lia|]. destruct (Z.eqb_spec (len k + 1) 2); [lia|].
    destruct (Z.eqb_spec (len k + 1) 3); [lia|]. repeat match goal with |- context [if ?c then _ else _] => destruct c; [by eexists|] end. by eexists.
Qed.

(** A key code changes the modifiers or is delivered. *)
Lemma handle_keycode_frame (k : kbd) (code : Z) :
  let k' := keyboard_handle_keycode k code in
  command_queue k' = command_queue k /\ status k' = status k /\ sent k' = sent k /\ keycodes k' = keycodes k /\ len k' = len k.
Proof. unfold keyboard_handle_keycode, keyboard_handle_shift. cbv zeta. repeat case_match; done. Qed.

Lemma scancode_ok (k : kbd) (b : Z) :
  kbd_ok k -> status k = KB_AVAILABLE -> in_table k b = true -> exists k', keyboard_handlecode k b = Ret k' /\ kbd_ok k'.
Proof using laws.
  intros [Hq Hst Hi Hw Hb [Hl Hn]] Hs Ht. pose proof Ht as [H8%Z.ltb_lt _]%andb_true_iff.
  unfold keyboard_handlecode. rewrite Hs. cbn [Z.eqb CMD_ACKNOW CMD_RESPONSE KB_AVAILABLE]. unfold keyboard_scancode.
  rewrite lset_Ret by lia. cbn [obind]. set (codes := <[Z.to_nat (len k) := b]> (keycodes k)).
  assert (Hlc : length codes = 8%nat) by (unfold codes; by rewrite length_insert).
  assert (Hk : forall n, 0 <= n <= 8 -> kbd_ok (set_codes k codes n)) by (intros n Hn'; by split).
  assert (Hmore : exists k', Ret (set_codes k codes (len k + 1)) = Ret k' /\ kbd_ok k') by (eexists; split; [done|]; apply Hk; lia).
  destruct (Z.eqb_spec b 0xE0); [done|]. destruct (Z.eqb_spec b 0xF0); [done|]. destruct (Z.eqb_spec b 0xE1); [done|]. cbn [orb].
  repeat (match goal with |- context [if ?c then _ else _] => destruct c; [exact Hmore|] end).
  destruct (decode_ok k b Hl ltac:(lia) Ht) as [r E]; [done..|]. fold codes in E. rewrite E. cbn [obind].
  eexists. split; [done|]. destruct (handle_keycode_frame (set_codes k codes 0) r) as (F1 & F2 & F3 & F4 & F5).
  destruct (Hk 0 ltac:(lia)) as [G1 G2 G3 G4 G5 G6]. split; rewrite ?F1, ?F2, ?F3, ?F4, ?F5; done.
Qed.

(** Commands of the kernel and bytes of the keyboard, in any order. *)
Inductive kev := VCommand (c : Z) | VByte (b : Z).

Definition run_kev (k : kbd) (v : kev) : outcome kbd :=
  match v with
  | VCommand c => keyboard_queuecommand k c
  | VByte b => keyboard_handlecode k b
  end.

Fixpoint run_kevs (k : kbd) (vs : list kev) : outcome kbd :=
  match vs with
  | [] => Ret k
  | v :: vs => let! k := run_kev k v in run_kevs k vs
  end.

(** C35: Whatever commands are queued and whatever bytes the keyboard sends, as
    answers or as scan codes, the driver runs without failure to the end, or to
    a byte that arrives while no answer is awaited and is no scan code of the
    tables or finds eight bytes pending.  Up to there the protocol state is
    consistent: while an acknowledgement is awaited, the last byte sent is the
    oldest queued command, and bytes are taken as scan codes only when no
    command is left. *)
Theorem keyboard_protocol_invariant (vs : list kev) (k : kbd) :
  kbd_ok k -> Forall (fun v => match v with VCommand c => 0 <= c < 256 | VByte _ => True end) vs ->
  exists ran rest k', vs = ran ++ rest /\ run_kevs k ran = Ret k' /\ kbd_ok k' /\
    match rest with
    | [] => True
    | VByte b :: _ => status k' = KB_AVAILABLE /\ in_table k' b = false
    | VCommand _ :: _ => False
    end.
Proof using laws.
  intros H Hvs. revert k H. induction Hvs as [|v vs Hv _ IH]; intros k H; [by exists [], [], k|].
  assert (Hstep : (exists k', run_kev k v = Ret k' /\ kbd_ok k') \/
    exists b, v = VByte b /\ status k = KB_AVAILABLE /\ in_table k b = false).
  { destruct v as [c|b]; cbn [run_kev]; [left; by apply queuecommand_ok|].
    destruct (decide (status k = KB_AVAILABLE)) as [Hs|]; [|left; by apply command_byte_ok].
    destruct (in_table k b) eqn:Ht; [left; by apply scancode_ok|right; by exists b]. }
  destruct Hstep as [(k1 & E1 & H1)|(b & -> & Hs & Ht)]; [|by exists [], (VByte b :: vs), k].
  destruct (IH k1 H1) as (ran & rest & k' & -> & E & H' & R). exists (v :: ran), rest, k'.
  cbn [run_kevs]. rewrite E1. by split_and!.
Qed.

(** A keyboard that acknowledges everything gets every queued command
    exactly once and in order (the self test [0xFF], which answers before the
    next command, apart), and then the driver is ready for key codes. *)
Theorem keyboard_commands_in_order (k : kbd) (c : Z) (l : list Z) :
  kbd_ok k -> status k = CMD_ACKNOW -> fifo_list (command_queue k) = c :: l ->
  Forall (fun c => c <> 0xFF) (c :: l) ->
  exists k', run_kevs k (VByte <$> replicate (S (length l)) 0xFA) = Ret k' /\
    status k' = KB_AVAILABLE /\ fifo_list (command_queue k') = [] /\ sent k' = sent k ++ l.
Proof using laws.
  revert k c. induction l as [|d l IH]; intros k c H Hs El Hff;
    pose proof H as [[Hq Hcap] _ _ Hw Hb Hk]; apply Forall_cons in Hff as [Hc Hff].
  all: cbn [length replicate fmap list_fmap run_kevs run_kev]; unfold keyboard_handlecode; rewrite Hs;
    cbn [Z.eqb CMD_ACKNOW CMD_RESPONSE]; unfold keyboard_handlequeue; cbn [Z.eqb Pos.eqb];
    rewrite (fifo_top_spec _ _ _ Hq El); cbn [obind];
    destruct (fifo_pop_spec (command_queue k) Hq) as (q & -> & Hq' & Hc' & El');
    rewrite El in El'; cbn [tail] in El'; rewrite El in Hb; apply Forall_cons in Hb as [Hcb Hb];
    cbn [obind]; rewrite u8_small by done; (destruct (Z.eqb_spec c 0xFF); [done|]);
    cbn [status set_cmd Z.eqb KB_AVAILABLE].
  - pose proof (send_next_spec (set_cmd k q KB_AVAILABLE 0 (sent k)) Hq' eq_refl) as Hn.
    simpl in Hn. rewrite El' in Hn. rewrite Hn. cbn [obind]. eexists. split; [done|].
    simpl. by rewrite app_nil_r.
  - pose proof (send_next_spec (set_cmd k q KB_AVAILABLE 0 (sent k)) Hq' eq_refl) as Hn.
    simpl in Hn. rewrite El' in Hn. rewrite Hn. cbn [obind].
    apply Forall_cons in Hb as [Hdb Hb]. rewrite u8_small by done.
    destruct (IH (keyboard_send_cmd (set_cmd k q KB_AVAILABLE 0 (sent k)) d) d) as
      (k' & Hrun & S' & L' & T').
    + split; simpl; try done; [by rewrite Hc'|by right; left| |rewrite El'; by constructor].
      intros _. exists d, l. by rewrite El', last_snoc, u8_small.
    + done.
    + done.
    + done.
    + exists k'. split; [exact Hrun|]. split; [done|]. split; [done|]. rewrite T'. simpl.
      by rewrite <- app_assoc.
Qed.

(** ** Decoding *)

(** No code is pending. *)
Definition fresh (k : kbd) : Prop := status k = KB_AVAILABLE /\ len k = 0 /\ length (keycodes k) = 8%nat.

(** A code of one byte. *)
Lemma plain_code (k : kbd) (b : Z) :
  fresh k -> 0 <= b < 0x84 ->
  exists codes c, scancode_table !! Z.to_nat b = Some c /\ length codes = 8%nat /\
    keyboard_handlecode k b = Ret (keyboard_handle_keycode (set_codes k codes 0) c).
Proof.
  intros (Hs & Hl & Hk) Hb. unfold keyboard_handlecode. rewrite Hs.
  cbn [Z.eqb CMD_ACKNOW CMD_RESPONSE KB_AVAILABLE]. unfold keyboard_scancode. rewrite Hl.
  rewrite lset_Ret by (rewrite Hk; lia). cbn [obind len set_codes]. change (0 + 1) with 1.
  destruct (Z.eqb_spec b 0xE0); [lia|]. destruct (Z.eqb_spec b 0xF0); [lia|].
  destruct (Z.eqb_spec b 0xE1); [lia|]. cbn [orb Z.eqb Pos.eqb andb].
  rewrite !andb_false_r. cbn [andb].
  unfold keyboard_scancode_to_keycode. cbn [len set_codes keycodes Z.eqb Pos.eqb].
  assert (H0 : lget (<[Z.to_nat 0 := b]> (keycodes k)) 0 = Ret b).
  { apply lget_Ret. split; [lia|]. apply list_lookup_insert_eq. rewrite Hk. simpl. lia. }
  rewrite H0. cbn [obind].
  destruct (lookup_lt_is_Some_2 scancode_table (Z.to_nat b)) as [c Hc]; [simpl; lia|].
  assert (Hg : lget scancode_table b = Ret c) by (apply lget_Ret; split; [lia|done]).
  rewrite Hg. cbn [obind].
  eexists _, c. split; [done|]. split; [|reflexivity]. by rewrite length_insert.
Qed.

(** The release of a key: the prefix [0xF0], then its code. *)
Lemma release_code (k : kbd) (b : Z) :
  fresh k -> 0 <= b < 0x84 -> b <> 0x14 ->
  exists k1 codes c, keyboard_handlecode k 0xF0 = Ret k1 /\ scancode_table !! Z.to_nat b = Some c /\
    length codes = 8%nat /\
    keyboard_handlecode k1 b =
      Ret (keyboard_handle_keycode (set_codes k codes 0) (Z.lor c KB_RELEASE_FLAG)).
Proof.
  intros (Hs & Hl & Hk) Hb H14.
  destruct (lookup_lt_is_Some_2 scancode_table (Z.to_nat b)) as [c Hc]; [simpl; lia|].
  unfold keyboard_handlecode. rewrite Hs.
  cbn [Z.eqb CMD_ACKNOW CMD_RESPONSE KB_AVAILABLE]. unfold keyboard_scancode. rewrite Hl.
  rewrite lset_Ret by (rewrite Hk; lia). cbn [obind]. eexists _, _, c. split; [reflexivity|].
  cbn [status set_codes]. rewrite Hs. cbn [Z.eqb len set_codes keycodes].
  change (0 + 1) with 1. rewrite lset_Ret by (rewrite length_insert, Hk; lia). cbn [obind].
  change (1 + 1) with 2. set (codes := <[Z.to_nat 1 := b]> _).
  assert (K0 : codes !! 0%nat = Some 0xF0).
  { unfold codes. rewrite list_lookup_insert_ne by done. apply list_lookup_insert_eq. rewrite Hk. lia. }
  assert (K1 : codes !! 1%nat = Some b).
  { unfold codes. apply list_lookup_insert_eq. rewrite length_insert, Hk. simpl. lia. }
  assert (Z0 : znth 0 codes 0 = 0xF0) by (unfold znth; change (Z.to_nat 0) with 0%nat; by rewrite K0).
  rewrite Z0. destruct (Z.eqb_spec b 0xE0); [lia|]. destruct (Z.eqb_spec b 0xF0); [lia|].
  destruct (Z.eqb_spec b 0xE1); [lia|]. destruct (Z.eqb_spec b 0x14); [done|].
  cbn [orb Z.eqb Pos.eqb andb len set_codes]. rewrite !andb_false_r. cbn [andb].
  unfold keyboard_scancode_to_keycode. cbn [len set_codes keycodes Z.eqb Pos.eqb].
  assert (G0 : lget codes 0 = Ret 0xF0) by (by apply lget_Ret).
  assert (G1 : lget codes 1 = Ret b) by (by apply lget_Ret).
  rewrite G0, G1. cbn [obind Z.eqb Pos.eqb].
  assert (Hg : lget scancode_table b = Ret c) by (apply lget_Ret; split; [lia|done]).
  rewrite Hg. cbn [obind]. split; [exact Hc|]. split; [|reflexivity].
  unfold codes. by rewrite !length_insert.
Qed.
End Driver.
Arguments kbd Q : clear implicits.

(** ** Characters *)

Definition SYM_a : Z := KEY_A.
Definition SYM_z : Z := KEY_Z.
Definition SYM_A : Z := KEY_A + KB_SHIFT_FLAG.
Definition SYM_Z : Z := KEY_Z + KB_SHIFT_FLAG.

(** [stdin_keysym_to_char] on [last_code]. *)
Definition stdin_keysym_to_char (k : kb_keysym_t) : kb_keysym_t :=
  let code := Z.lor (Z.shiftl (ks_flags k) 16) (keysym k) in
  let put a := mk_keysym (u8 a) (ks_flags k) (keysym k) in
  if (SYM_a <=? code) && (code <=? SYM_z) then put (97 + code - SYM_a)
  else if (SYM_A <=? code) && (code <=? SYM_Z) then put (65 + code - SYM_A)
  else if code =? KEY_SLASH then put 47
  else if code =? KEY_PERIOD then put 46
  else if code =? KEY_SPACE then put 32
  else if code =? KEY_DASH then put 45
  else if code =? KEY_ENTER then put 10
  else if code =? KEY_BACKSPACE then put 8
  else k.

(** The scan codes of the letters, in alphabetical order. *)
Definition letters : list Z :=
  [0x1C; 0x32; 0x21; 0x23; 0x24; 0x2B; 0x34; 0x33; 0x43; 0x3B; 0x42; 0x4B; 0x3A; 0x31; 0x44;
   0x4D; 0x15; 0x2D; 0x1B; 0x2C; 0x3C; 0x2A; 0x1D; 0x22; 0x35; 0x1A].

Section Typing.
Context {Q : Type} `{!Fifo Q}.

Definition no_modifiers (k : kbd Q) : Prop :=
  ctrl_flag k = 0 /\ alt_flag k = 0 /\ altgr_flag k = 0 /\ gui_flag k = 0.

(** The key code of the [i]-th letter is delivered, and turned into the letter. *)
Lemma letter_keycode (k : kbd Q) (i : nat) (b c : Z) :
  letters !! i = Some b -> scancode_table !! Z.to_nat b = Some c -> no_modifiers k ->
  shift_flag k = 0 \/ shift_flag k = 1 ->
  exists ks, keyboard_handle_keycode k c = deliver k ks /\
    ascii (stdin_keysym_to_char ks) = (if shift_flag k =? 0 then 97 else 65) + Z.of_nat i.
Proof.
  intros Hi Hc (H1 & H2 & H3 & H4) Hs. unfold keyboard_handle_keycode. rewrite H1, H2, H3, H4.
  do 26 (destruct i as [|i]; [injection Hi as <-; injection Hc as <-;
    destruct Hs as [-> | ->]; eexists; (split; [reflexivity|]); reflexivity|]).
  done.
Qed.

(** Pressing a letter key, with no modifier but possibly shift, delivers
    one key symbol, which is translated to the lower-case or upper-case letter;
    releasing it delivers nothing. No scan code is left pending. *)
Theorem keyboard_types_letters (k : kbd Q) (i : nat) (b : Z) :
  fresh k -> letters !! i = Some b -> no_modifiers k -> shift_flag k = 0 \/ shift_flag k = 1 ->
  exists k1 ks k2 k3, keyboard_handlecode k b = Ret k1 /\ delivered k1 = delivered k ++ [ks] /\
    ascii (stdin_keysym_to_char ks) = (if shift_flag k =? 0 then 97 else 65) + Z.of_nat i /\
    fresh k1 /\
    keyboard_handlecode k1 0xF0 = Ret k2 /\ keyboard_handlecode k2 b = Ret k3 /\
    delivered k3 = delivered k1 /\ shift_flag k3 = shift_flag k /\ fresh k3.
Proof.
  intros Hf Hi Hm Hs. pose proof Hf as (St & _ & _).
  assert (Hb : 0 <= b < 0x84 /\ b <> 0x14).
  { apply list_elem_of_lookup_2 in Hi. repeat (apply elem_of_cons in Hi as [->|Hi]; [lia|]).
    by apply elem_of_nil in Hi. }
  destruct Hb as [Hb H14]. destruct (plain_code k b Hf Hb) as (codes & c & Hc & Hl & E).
  destruct (letter_keycode (set_codes k codes 0) i b c Hi Hc Hm Hs) as (ks & Ed & Ha).
  rewrite E, Ed. set (k1 := deliver _ _).
  assert (Hf1 : fresh k1) by done.
  destruct (release_code k1 b Hf1 Hb H14) as (k2 & codes2 & c2 & E2 & Hc2 & Hl2 & E3).
  assert (c2 = c) as -> by congruence.
  assert (Hrel : keyboard_handle_keycode (set_codes k1 codes2 0) (Z.lor c KB_RELEASE_FLAG) =
    set_codes k1 codes2 0).
  { unfold keyboard_handle_keycode.
    do 26 (destruct i as [|i]; [injection Hi as <-; injection Hc as <-; reflexivity|]). done. }
  rewrite Hrel in E3. exists k1, ks, k2, (set_codes k1 codes2 0). split_and!; try done.
Qed.
End Typing.

(** ** A concrete driver *)

Definition kbd0 : kbd queue_t :=
  mk_kbd (queue_init (fun _ => 0) COMMAND_QUEUE_CAP) KB_AVAILABLE 0 (replicate 8 0) 0 0 0 0 0 0 0 [] [].

Lemma kbd0_ok : kbd_ok kbd0.
Proof.
  constructor; [split; [apply queue_init_ok; by vm_compute|by vm_compute]|by left| | |constructor|by vm_compute];
    by intros ?.
Qed.

(** Two commands, a resend and two acknowledgements, then a key press, its
    release and a byte that is no scan code. *)
Lemma keyboard_protocol_invariant_witness :
  exists ran rest k', [VCommand 0xED; VCommand 2; VByte 0xFE; VByte 0xFA; VByte 0xFA; VByte 0x1C; VByte 0xF0; VByte 0x1C; VByte 0xAA] =
    ran ++ rest /\ run_kevs kbd0 ran = Ret k' /\ kbd_ok k'.
Proof.
  destruct (keyboard_protocol_invariant
    [VCommand 0xED; VCommand 2; VByte 0xFE; VByte 0xFA; VByte 0xFA; VByte 0x1C; VByte 0xF0; VByte 0x1C; VByte 0xAA] kbd0 kbd0_ok)
    as (ran & rest & k' & E & R & H & _); [repeat constructor; lia|].
  exact (ex_intro _ ran (ex_intro _ rest (ex_intro _ k' (conj E (conj R H))))).
Defined.

Lemma keyboard_commands_in_order_witness :
  exists k k', run_kevs kbd0 [VCommand 0xED; VCommand 2] = Ret k /\
    run_kevs k [VByte 0xFA; VByte 0xFA] = Ret k' /\ sent k' = [0xED; 2].
Proof.
  assert (H : exists k, run_kevs kbd0 [VCommand 0xED; VCommand 2] = Ret k /\ kbd_ok k /\
    status k = CMD_ACKNOW /\ fifo_list (command_queue k) = [0xED; 2] /\ sent k = [0xED]).
  { destruct (queuecommand_ok kbd0 0xED kbd0_ok) as (k1 & E1 & H1); [lia|].
    destruct (queuecommand_ok k1 2 H1) as (k2 & E2 & H2); [lia|]. exists k2.
    assert (E : run_kevs kbd0 [VCommand 0xED; VCommand 2] = Ret k2)
      by (cbn [run_kevs run_kev]; rewrite E1; cbn [obind]; by rewrite E2).
    split; [done|]. split; [done|]. vm_compute in E. injection E as <-. by vm_compute. }
  destruct H as (k & E & H & Hs & Hl & Hsent).
  destruct (keyboard_commands_in_order k 0xED [2] H Hs Hl) as (k' & E' & _ & _ & S');
    [repeat constructor; done|].
  exists k, k'. split; [exact E|]. split; [exact E'|]. by rewrite S', Hsent.
Defined.

Lemma keyboard_types_letters_witness :
  exists k1 ks, keyboard_handlecode kbd0 0x1C = Ret k1 /\ delivered k1 = [ks] /\
    ascii (stdin_keysym_to_char ks) = 97.
Proof.
  destruct (keyboard_types_letters kbd0 0 0x1C) as (k1 & ks & k2 & k3 & E & D & A & _);
    [done|done|done|by left|].
  exact (ex_intro _ k1 (ex_intro _ ks (conj E (conj D A)))).
Defined.

(** Nine prefix bytes overrun the array of eight codes. *)
Theorem keycodes_overflow :
  (let! k := keyboard_handlecode kbd0 0xE0 in let! k := keyboard_handlecode k 0xE0 in
   let! k := keyboard_handlecode k 0xE0 in let! k := keyboard_handlecode k 0xE0 in
   let! k := keyboard_handlecode k 0xE0 in let! k := keyboard_handlecode k 0xE0 in
   let! k := keyboard_handlecode k 0xE0 in let! k := keyboard_handlecode k 0xE0 in
   keyboard_handlecode k 0xE0) = Undef.
Proof. vm_compute. reflexivity. Qed.

(** A code above 0x83 reads past the end of the table, and so does a code
    below 0x10 after [0xE0]. *)
Theorem scancode_out_of_table :
  keyboard_handlecode kbd0 0xAA = Undef /\
  (let! k := keyboard_handlecode kbd0 0xE0 in keyboard_handlecode k 0x05) = Undef.
Proof. by vm_compute. Qed.
