(* ===== verification/Ports.v ===== *)
(** Port and memory-mapped input and output (src/libc-src/stdio/inx.c, outx.c and io_wait.c): the devices
    behind the ports are not part of the repository, so they are an interface.
    The drivers are written against [PortIO]; what a driver relies on of its
    device is stated as laws beside the driver. *)

From Stdlib Require Import ZArith Lia.
From stdpp Require Import base numbers list.
From S2P Require Import Prelude.

(** [W] is the state of the devices.  A read may change it (a status register,
    a FIFO).  The value comes before the port, as in the source. *)
Class PortIO (W : Type) := {
  inb : W -> Z -> Z * W;
  outb : W -> Z -> Z -> W;
  inl : W -> Z -> Z * W;
  outl : W -> Z -> Z -> W;
  outw : W -> Z -> Z -> W;
}.

Definition io_wait {W} `{!PortIO W} (w : W) : W := outb w 0 0x80.

(** [insl]: the words that are read, in order. *)
Fixpoint insl {W} `{!PortIO W} (w : W) (port : Z) (count : nat) : list Z * W :=
  match count with
  | O => ([], w)
  | S count =>
      let '(v, w) := inl w port in
      let '(l, w) := insl w port count in
      (v :: l, w)
  end.

(** A sequence of writes, given as (value, port). *)
Definition outbs {W} `{!PortIO W} (w : W) (l : list (Z * Z)) : W :=
  fold_left (fun w x => outb w x.1 x.2) l w.

(** Device registers in memory: reads and writes of 32 and of 64 bits, the
    address before the value. *)
Class MemIO (W : Type) := {
  rd32 : W -> Z -> Z * W;
  wr32 : W -> Z -> Z -> W;
  rd64 : W -> Z -> Z * W;
  wr64 : W -> Z -> Z -> W;
}.
