(* ===== verification/Serialport.v ===== *)
(** The serial port driver (src/src/kernel/io/serialport.c), against the
    documented behaviour of a 16550 UART. *)

From Stdlib Require Import ZArith Lia.
From stdpp Require Import base numbers list.
From S2P Require Import Prelude Cstring Ports.

Definition SERIAL_COM1 : Z := 0x3F8.

(** [serial_reg_t] *)
Definition SERIAL_REG_DATA : Z := 0.
Definition SERIAL_REG_INT : Z := 1.
Definition SERIAL_REG_FIFO_CTRL : Z := 2.
Definition SERIAL_REG_LINE_CTRL : Z := 3.
Definition SERIAL_REG_MOD_CTRL : Z := 4.
Definition SERIAL_REG_LINE_STAT : Z := 5.
Definition SERIAL_REG_BAUD_LEAST : Z := 8.
Definition SERIAL_REG_BAUD_MOST : Z := 9.

Definition SERIAL_NO_INT : Z := 0x0.
Definition SERIAL_ENABLE_FIFO : Z := Z.shiftl 1 0.
Definition SERIAL_CL_RECEIVE : Z := Z.shiftl 1 1.
Definition SERIAL_CL_TRANSMIT : Z := Z.shiftl 1 2.
Definition SERIAL_14_BYTES_INT : Z := Z.shiftl 3 6.
Definition SERIAL_8_BIT : Z := 0x3.
Definition SERIAL_1_STOP : Z := 0.
Definition SERIAL_NO_PAR : Z := 0.
Definition SERIAL_DLAB : Z := Z.shiftl 1 7.
Definition SERIAL_DTR : Z := Z.shiftl 1 0.
Definition SERIAL_RTS : Z := Z.shiftl 1 1.
Definition SERIAL_OUT1 : Z := Z.shiftl 1 2.
Definition SERIAL_OUT2 : Z := Z.shiftl 1 3.
Definition SERIAL_LOOP : Z := Z.shiftl 1 4.
Definition SERIAL_DATA_READY : Z := Z.shiftl 1 0.
Definition SERIAL_BUFFER_EMPTY : Z := Z.shiftl 1 5.

(** ** The driver *)

Section Driver.
Context {W : Type} `{!PortIO W}.

(** [serial_read_reg] and [serial_write_reg] call each other, but only for the
    line control register, for which the conditionals are not taken; the calls
    are the port accesses they amount to. *)
Definition serial_read_reg (w : W) (port reg : Z) : Z * W :=
  let '(line_control_reg, w, reg) :=
    if SERIAL_REG_BAUD_LEAST <=? reg then
      let '(lcr, w) := inb w (port + SERIAL_REG_LINE_CTRL) in
      let w := outb w (Z.lor lcr SERIAL_DLAB) (port + SERIAL_REG_LINE_CTRL) in
      (lcr, w, reg - SERIAL_REG_BAUD_LEAST)
    else (0, w, reg) in
  let '(data, w) := inb w (port + reg) in
  let w :=
    if SERIAL_REG_BAUD_LEAST <=? reg
    then outb w (Z.land line_control_reg (bnot 8 SERIAL_DLAB)) (port + SERIAL_REG_LINE_CTRL)
    else w in
  (data, w).

Definition serial_write_reg (w : W) (port reg data : Z) : W :=
  let '(line_control_reg, w, reg) :=
    if SERIAL_REG_BAUD_LEAST <=? reg then
      let '(lcr, w) := inb w (port + SERIAL_REG_LINE_CTRL) in
      let w := outb w (Z.lor lcr SERIAL_DLAB) (port + SERIAL_REG_LINE_CTRL) in
      (lcr, w, reg - SERIAL_REG_BAUD_LEAST)
    else (0, w, reg) in
  let w := outb w data (port + reg) in
  if SERIAL_REG_BAUD_LEAST <=? reg
  then outb w (Z.land line_control_reg (bnot 8 SERIAL_DLAB)) (port + SERIAL_REG_LINE_CTRL)
  else w.

(** The returned code is 0 for success. *)
Definition serial_initialize (w : W) : Z * W :=
  let w := serial_write_reg w SERIAL_COM1 SERIAL_REG_INT SERIAL_NO_INT in
  let w := serial_write_reg w SERIAL_COM1 SERIAL_REG_BAUD_LEAST 3 in
  let w := serial_write_reg w SERIAL_COM1 SERIAL_REG_BAUD_MOST 0 in
  let data := Z.lor (Z.lor SERIAL_8_BIT SERIAL_1_STOP) SERIAL_NO_PAR in
  let w := serial_write_reg w SERIAL_COM1 SERIAL_REG_LINE_CTRL data in
  let data := Z.lor (Z.lor SERIAL_ENABLE_FIFO SERIAL_CL_TRANSMIT) SERIAL_CL_RECEIVE in
  let data := Z.lor data SERIAL_14_BYTES_INT in
  let w := serial_write_reg w SERIAL_COM1 SERIAL_REG_FIFO_CTRL data in
  let data := Z.lor (Z.lor (Z.lor SERIAL_LOOP SERIAL_OUT2) SERIAL_OUT1) SERIAL_RTS in
  let w := serial_write_reg w SERIAL_COM1 SERIAL_REG_MOD_CTRL data in
  let w := serial_write_reg w SERIAL_COM1 SERIAL_REG_DATA 0xAE in
  let '(d, w) := serial_read_reg w SERIAL_COM1 SERIAL_REG_DATA in
  if negb (d =? 0xAE) then (1, w)
  else
    let data := Z.lor (Z.lor (Z.lor SERIAL_OUT1 SERIAL_OUT2) SERIAL_DTR) SERIAL_RTS in
    (0, serial_write_reg w SERIAL_COM1 SERIAL_REG_MOD_CTRL data).

Definition serial_received (w : W) : bool * W :=
  let '(data, w) := serial_read_reg w SERIAL_COM1 SERIAL_REG_LINE_STAT in
  (negb (Z.land data SERIAL_DATA_READY =? 0), w).

Definition serial_isempty (w : W) : bool * W :=
  let '(data, w) := serial_read_reg w SERIAL_COM1 SERIAL_REG_LINE_STAT in
  (negb (Z.land data SERIAL_BUFFER_EMPTY =? 0), w).

(** [while (!test());], with fuel. *)
Fixpoint poll (fuel : nat) (test : W -> bool * W) (w : W) : outcome W :=
  match fuel with
  | O => NoFuel
  | S fuel => let '(b, w) := test w in if b then Ret w else poll fuel test w
  end.

Definition serial_readb (fuel : nat) (w : W) : outcome (Z * W) :=
  let! w := poll fuel serial_received w in
  Ret (serial_read_reg w SERIAL_COM1 SERIAL_REG_DATA).

Definition serial_writeb (fuel : nat) (w : W) (byte : Z) : outcome W :=
  let! w := poll fuel serial_isempty w in
  Ret (serial_write_reg w SERIAL_COM1 SERIAL_REG_DATA byte).

Fixpoint serial_write (fuel : nat) (w : W) (data : list Z) : outcome W :=
  match data with
  | [] => Ret w
  | entry :: data =>
      let! w := serial_writeb fuel w entry in
      let! w := if entry =? 10 then serial_writeb fuel w 13 else Ret w in
      serial_write fuel w data
  end.

Definition serial_writestring (fuel : nat) (w : W) (data : list Z) : outcome W :=
  serial_write fuel w (take (Z.to_nat (strlen data)) data).

(** [n] bytes are read into the buffer, in order. *)
Fixpoint serial_read (fuel : nat) (w : W) (n : nat) : outcome (list Z * W) :=
  match n with
  | O => Ret ([], w)
  | S n =>
      let! (b, w) := serial_readb fuel w in
      let! (l, w) := serial_read fuel w n in
      Ret (b :: l, w)
  end.
End Driver.

(** ** The device *)

(** The registers of a 16550, the byte its loopback holds, the bytes that left
    on the line and the bytes that arrived and have not been read. *)
Record uart_t := mk_uart {
  ier : Z; dll : Z; dlm : Z; lcr : Z; fcr : Z; mcr : Z; held : Z;
  line : list Z;
  arrived : list Z;
}.

Definition dlab (u : uart_t) : bool := Z.testbit (lcr u) 7.
Definition loopback (u : uart_t) : bool := Z.testbit (mcr u) 4.

(** What the manual says of a write of [v] to register [i]. *)
Definition uart_write (u : uart_t) (i v : Z) : uart_t :=
  let 'mk_uart e l m c f k h o a := u in
  if i =? 0 then
    if dlab u then mk_uart e v m c f k h o a
    else if loopback u then mk_uart e l m c f k v o a
    else mk_uart e l m c f k h (o ++ [v]) a
  else if i =? 1 then
    if dlab u then mk_uart e l v c f k h o a else mk_uart v l m c f k h o a
  else if i =? 2 then mk_uart e l m c v k h o a
  else if i =? 3 then mk_uart e l m v f k h o a
  else if i =? 4 then mk_uart e l m c f v h o a
  else u.

(** The laws: a world that contains a UART at COM1.  [uart_wait] bounds the
    number of polls until the transmitter is empty again. *)
Class UartLaws (W : Type) `{!PortIO W} := {
  uart : W -> uart_t;
  uart_wait : W -> nat;
  uart_max : nat;
  uart_wait_max w : (uart_wait w <= uart_max)%nat;
  uart_out w i v : 0 <= i < 8 -> uart (outb w v (SERIAL_COM1 + i)) = uart_write (uart w) i v;
  (** the line control register reads back *)
  uart_in_lcr w : exists w', inb w (SERIAL_COM1 + 3) = (lcr (uart w), w') /\ uart w' = uart w;
  (** bit 5 of the line status is set when the transmitter is empty, which a
      poll brings nearer; bit 0 is set when a byte has arrived *)
  uart_in_lsr w : exists v w', inb w (SERIAL_COM1 + 5) = (v, w') /\ uart w' = uart w /\
    (Z.testbit v 5 = true \/ (S (uart_wait w') <= uart_wait w)%nat) /\
    Z.testbit v 0 = negb (bool_decide (arrived (uart w) = []));
  (** in loopback the data register reads what was written *)
  uart_in_loop w : dlab (uart w) = false -> loopback (uart w) = true ->
    exists w', inb w (SERIAL_COM1 + 0) = (held (uart w), w') /\ uart w' = uart w;
  (** otherwise it reads the oldest byte that arrived *)
  uart_in_data w b l : dlab (uart w) = false -> loopback (uart w) = false ->
    arrived (uart w) = b :: l ->
    exists w', inb w (SERIAL_COM1 + 0) = (b, w') /\
      let 'mk_uart e d m c f k h o a := uart w in uart w' = mk_uart e d m c f k h o l;
}.

Section Uart.
Context {W : Type} `{!PortIO W} {laws : UartLaws W}.

Lemma write_reg_low (w : W) (reg data : Z) :
  0 <= reg < 8 ->
  uart (serial_write_reg w SERIAL_COM1 reg data) = uart_write (uart w) reg data.
Proof.
  intros Hr. unfold serial_write_reg, SERIAL_REG_BAUD_LEAST.
  destruct (Z.leb_spec 8 reg); [lia|]. cbv iota. destruct (Z.leb_spec 8 reg); [lia|].
  by apply uart_out.
Qed.

Lemma write_reg_baud (w : W) (reg data : Z) :
  reg = 8 \/ reg = 9 ->
  uart (serial_write_reg w SERIAL_COM1 reg data) =
    uart_write (uart_write (uart w) 3 (Z.lor (lcr (uart w)) SERIAL_DLAB)) (reg - 8) data.
Proof.
  intros Hr. unfold serial_write_reg, SERIAL_REG_BAUD_LEAST, SERIAL_REG_LINE_CTRL.
  destruct (Z.leb_spec 8 reg); [|lia].
  destruct (uart_in_lcr w) as (w' & -> & E). cbv iota beta.
  destruct (Z.leb_spec 8 (reg - 8)); [lia|]. rewrite !uart_out by lia. by rewrite E.
Qed.

Lemma dlab_set (x : Z) : Z.testbit (Z.lor x SERIAL_DLAB) 7 = true.
Proof. rewrite Z.lor_spec. apply orb_true_r. Qed.

Lemma write_baud (w : W) (data e d m c f k h : Z) (o a : list Z) :
  uart w = mk_uart e d m c f k h o a ->
  uart (serial_write_reg w SERIAL_COM1 SERIAL_REG_BAUD_LEAST data) =
    mk_uart e data m (Z.lor c SERIAL_DLAB) f k h o a /\
  uart (serial_write_reg w SERIAL_COM1 SERIAL_REG_BAUD_MOST data) =
    mk_uart e d data (Z.lor c SERIAL_DLAB) f k h o a.
Proof.
  intros E. split; (rewrite write_reg_baud; [|by vm_compute; auto]); rewrite E;
    unfold SERIAL_REG_BAUD_LEAST, SERIAL_REG_BAUD_MOST.
  - change (8 - 8) with 0. unfold uart_write, dlab. cbn [Z.eqb Pos.eqb lcr]. by rewrite dlab_set.
  - change (9 - 8) with 1. unfold uart_write, dlab. cbn [Z.eqb Pos.eqb lcr]. by rewrite dlab_set.
Qed.

(** Writing a divisor register leaves DLAB set, whatever it was. *)
Theorem baud_leaves_dlab_set (w : W) (data : Z) :
  dlab (uart (serial_write_reg w SERIAL_COM1 SERIAL_REG_BAUD_LEAST data)) = true /\
  dlab (uart (serial_write_reg w SERIAL_COM1 SERIAL_REG_BAUD_MOST data)) = true.
Proof.
  destruct (uart w) as [e d m c f k h o a] eqn:E.
  destruct (write_baud w data _ _ _ _ _ _ _ _ _ E) as [-> ->]. split; apply dlab_set.
Qed.

Lemma read_reg_low (w : W) (reg : Z) :
  0 <= reg < 8 -> serial_read_reg w SERIAL_COM1 reg = inb w (SERIAL_COM1 + reg).
Proof.
  intros Hr. unfold serial_read_reg, SERIAL_REG_BAUD_LEAST.
  destruct (Z.leb_spec 8 reg); [lia|]. destruct (inb _ _).
  by destruct (Z.leb_spec 8 reg); [lia|].
Qed.

(** Initialisation succeeds from any state of the UART: no interrupts
    (unless the divisor latch was open, when the first write does not reach
    the register), divisor 3, 8 data bits without parity, the FIFO on with the
    14-byte threshold, loopback off and the divisor latch closed, and no byte
    is put on the line. *)
Theorem serial_initialize_ok (w : W) :
  (serial_initialize w).1 = 0 /\
  uart (serial_initialize w).2 =
    mk_uart (if dlab (uart w) then ier (uart w) else 0) 3 0 0x03 0xC7 0x0F 0xAE
      (line (uart w)) (arrived (uart w)).
Proof.
  unfold serial_initialize. destruct (uart w) as [e d m c f k h o a] eqn:E0.
  set (w1 := serial_write_reg w _ _ _).
  assert (exists m1, uart w1 = mk_uart (if Z.testbit c 7 then e else 0) d m1 c f k h o a) as [m1 E1].
  { unfold w1. rewrite write_reg_low by done. rewrite E0. unfold uart_write, dlab.
    cbn [Z.eqb Pos.eqb lcr SERIAL_REG_INT]. destruct (Z.testbit c 7); by eexists. }
  set (w2 := serial_write_reg w1 _ _ _).
  destruct (write_baud w1 3 _ _ _ _ _ _ _ _ _ E1) as [E2 _]. fold w2 in E2.
  set (w3 := serial_write_reg w2 _ _ _).
  destruct (write_baud w2 0 _ _ _ _ _ _ _ _ _ E2) as [_ E3]. fold w3 in E3.
  set (w4 := serial_write_reg w3 _ _ _). set (w5 := serial_write_reg w4 _ _ _).
  set (w6 := serial_write_reg w5 _ _ _). set (w7 := serial_write_reg w6 _ _ _).
  assert (E7 : uart w7 = mk_uart (if Z.testbit c 7 then e else 0) 3 0 0x03 0xC7 0x1E 0xAE o a).
  { unfold w7, w6, w5, w4. rewrite !write_reg_low by done. by rewrite E3. }
  rewrite read_reg_low by done. unfold SERIAL_REG_DATA.
  destruct (uart_in_loop w7) as (w8 & -> & E8); [by rewrite E7..|].
  rewrite E7 in E8 |- *. cbn [held Z.eqb Pos.eqb negb fst snd]. split; [done|].
  rewrite write_reg_low by done. by rewrite E8.
Qed.

Lemma poll_empty (fuel : nat) (w : W) :
  (uart_wait w < fuel)%nat -> exists w', poll fuel serial_isempty w = Ret w' /\ uart w' = uart w.
Proof.
  revert w. induction fuel as [|fuel IH]; intros w Hf; [lia|]. cbn [poll].
  unfold serial_isempty at 1. rewrite read_reg_low by done. unfold SERIAL_REG_LINE_STAT.
  destruct (uart_in_lsr w) as (v & w' & -> & E & Hb & _).
  unfold SERIAL_BUFFER_EMPTY. rewrite land_bit_zero, negb_involutive by lia.
  destruct (Z.testbit v 5) eqn:B; [by exists w'|]. destruct Hb as [Hb|Hb]; [done|].
  destruct (IH w') as (w2 & -> & E2); [lia|]. exists w2. by rewrite E2.
Qed.

Definition put_line (u : uart_t) (l : list Z) : uart_t :=
  mk_uart (ier u) (dll u) (dlm u) (lcr u) (fcr u) (mcr u) (held u) (line u ++ l) (arrived u).

Lemma writeb_ok (fuel : nat) (w : W) (b : Z) :
  (uart_max < fuel)%nat -> dlab (uart w) = false -> loopback (uart w) = false ->
  exists w', serial_writeb fuel w b = Ret w' /\ uart w' = put_line (uart w) [b].
Proof.
  intros Hf Hd Hl. unfold serial_writeb.
  destruct (poll_empty fuel w) as (w1 & -> & E); [pose proof (uart_wait_max w); lia|].
  cbn [obind]. eexists. split; [done|]. rewrite write_reg_low by done. rewrite E.
  unfold uart_write. rewrite Hd, Hl. by destruct (uart w).
Qed.

(** What is put on the line for a text. *)
Definition crlf (data : list Z) : list Z :=
  data ≫= fun c => if c =? 10 then [10; 13] else [c].

(** With the divisor latch closed and loopback off, serial_write puts the
    bytes on the line in order, with a carriage return after every line feed,
    and changes no register; with more fuel than the transmitter needs polls
    it always returns. *)
Theorem serial_write_transmits (fuel : nat) (data : list Z) (w : W) :
  (uart_max < fuel)%nat -> dlab (uart w) = false -> loopback (uart w) = false ->
  exists w', serial_write fuel w data = Ret w' /\ uart w' = put_line (uart w) (crlf data).
Proof.
  intros Hf. revert w. induction data as [|c data IH]; intros w Hd Hl; cbn [serial_write].
  { exists w. split; [done|]. unfold put_line. cbn. rewrite app_nil_r. by destruct (uart w). }
  destruct (writeb_ok fuel w c Hf Hd Hl) as (w1 & -> & E1). cbn [obind].
  assert (Hcr : exists w2, (if c =? 10 then serial_writeb fuel w1 13 else Ret w1) = Ret w2 /\
    uart w2 = put_line (uart w) (if c =? 10 then [10; 13] else [c])).
  { destruct (Z.eqb_spec c 10) as [->|]; [|by exists w1].
    destruct (writeb_ok fuel w1 13 Hf) as (w2 & -> & E2); [by rewrite E1..|].
    exists w2. split; [done|]. rewrite E2, E1. unfold put_line. cbn. by rewrite <- app_assoc. }
  destruct Hcr as (w2 & -> & E2). cbn [obind].
  destruct (IH w2) as (w3 & -> & E3); [by rewrite E2..|]. exists w3. split; [done|].
  rewrite E3, E2. unfold put_line, crlf. cbn. by rewrite <- app_assoc.
Qed.

(** Reading returns the bytes that have arrived, in order. *)
Theorem serial_read_receives (fuel : nat) (data rest : list Z) (w : W) :
  fuel <> O -> dlab (uart w) = false -> loopback (uart w) = false ->
  arrived (uart w) = data ++ rest ->
  exists w', serial_read fuel w (length data) = Ret (data, w') /\ arrived (uart w') = rest.
Proof.
  intros Hf. destruct fuel as [|fuel]; [done|]. revert w.
  induction data as [|b data IH]; intros w Hd Hl Ha; cbn [serial_read length]; [by exists w|].
  unfold serial_readb. cbn [poll]. unfold serial_received at 1. rewrite read_reg_low by done.
  unfold SERIAL_REG_LINE_STAT.
  destruct (uart_in_lsr w) as (v & w1 & -> & E1 & _ & B).
  unfold SERIAL_DATA_READY. rewrite land_bit_zero, B, Ha by lia. cbn [negb bool_decide obind].
  rewrite bool_decide_eq_false_2 by done. cbn [negb obind].
  rewrite read_reg_low by done. unfold SERIAL_REG_DATA.
  destruct (uart_in_data w1 b (data ++ rest)) as (w2 & -> & E2); [by rewrite E1..|].
  cbn [obind]. rewrite E1 in E2. destruct (uart w) as [e d m c f k h o a] eqn:E.
  destruct (IH w2) as (w3 & -> & E3); [by rewrite E2..|]. cbn [obind]. by exists w3.
Qed.
End Uart.

(** ** A concrete device *)

(** A UART whose transmitter is empty at the second poll after a write. *)
Definition dev := (uart_t * bool)%type.

Definition dev_inb (w : dev) (port : Z) : Z * dev :=
  let '(u, busy) := w in
  let 'mk_uart e d m c f k h o a := u in
  if port =? SERIAL_COM1 + 3 then (c, w)
  else if port =? SERIAL_COM1 + 5 then
    ((if busy then 0 else 32) + (if bool_decide (a = []) then 0 else 1), (u, false))
  else if port =? SERIAL_COM1 then
    if dlab u then (d, w)
    else if loopback u then (h, w)
    else match a with [] => (0, w) | b :: l => (b, (mk_uart e d m c f k h o l, busy)) end
  else (0, w).

#[export] Instance dev_ports : PortIO dev := {
  inb := dev_inb;
  outb w v port :=
    (if (SERIAL_COM1 <=? port) && (port <? SERIAL_COM1 + 8)
     then uart_write w.1 (port - SERIAL_COM1) v else w.1, true);
  inl w _ := (0, w);
  outl w _ _ := w;
  outw w _ _ := w;
}.

Lemma dev_data (u : uart_t) (b : bool) :
  inb (u, b) (SERIAL_COM1 + 0) =
    if dlab u then (dll u, (u, b))
    else if loopback u then (held u, (u, b))
    else match arrived u with
    | [] => (0, (u, b))
    | x :: l => (x, (let 'mk_uart e d m c f k h o a := u in mk_uart e d m c f k h o l, b))
    end.
Proof. by destruct u. Qed.

#[export] Program Instance dev_laws : UartLaws dev := {
  uart := fst;
  uart_wait w := if w.2 then 1%nat else 0%nat;
  uart_max := 1%nat;
}.
Next Obligation. intros [u []]; simpl; lia. Qed.
Next Obligation.
  intros [u b] i v Hi. cbn [fst outb dev_ports].
  replace (SERIAL_COM1 + i - SERIAL_COM1) with i by lia.
  destruct (Z.leb_spec SERIAL_COM1 (SERIAL_COM1 + i)); [|lia].
  by destruct (Z.ltb_spec (SERIAL_COM1 + i) (SERIAL_COM1 + 8)); [|lia].
Qed.
Next Obligation. intros [[] b]. by eexists. Qed.
Next Obligation.
  intros [[e d m c f k h o a] b]. eexists _, _. split; [reflexivity|]. split; [done|].
  destruct b, a; simpl; split; auto.
Qed.
Next Obligation.
  intros [u b] Hd Hl. cbn [fst] in *. exists (u, b). by rewrite dev_data, Hd, Hl.
Qed.
Next Obligation.
  intros [u b] x l Hd Hl Ha. cbn [fst] in *. rewrite dev_data, Hd, Hl, Ha.
  destruct u. by eexists.
Qed.

Definition uart_reset : uart_t := mk_uart 0 12 0 3 0 0 0 [] [].

Lemma serial_write_transmits_witness :
  exists w', serial_write 2 (uart_reset, true) [72; 10] = Ret w' /\ line (uart w') = [72; 10; 13].
Proof.
  destruct (serial_write_transmits 2 [72; 10] (uart_reset, true)) as (w' & E & U);
    [by cbn; lia|done|done|].
  exists w'. split; [exact E|]. by rewrite U.
Defined.

Lemma serial_initialize_ok_witness :
  (serial_initialize (uart_reset, true)).1 = 0 /\
  lcr (uart (serial_initialize (uart_reset, true)).2) = 0x03.
Proof.
  destruct (serial_initialize_ok (uart_reset, true)) as [E U].
  split; [exact E|]. by rewrite U.
Defined.
