(* ===== verification/Printf.v ===== *)
(** Number formatting and formatted output (src/libc-src/string/itoa.c,
    src/libc-src/stdio/printf.c, putchar.c and puts.c). *)

From Stdlib Require Import ZArith Lia.
From stdpp Require Import base numbers list.
From S2P Require Import Prelude Cstring Tty Ports Serialport.

(** ** Digits *)

(** A 32-bit number has at most 32 digits in base 2 or more; with the test
    that ends the loop this is enough. *)
Definition DIGITS_FUEL : nat := 33.

Definition digit_char (digit : Z) : Z := u8 (if 9 <? digit then digit - 10 + 97 else digit + 48).

(** [while (tmp != 0) { ++len; tmp /= base; }] of [uitoa]: the division is
    unsigned, since [base] is. *)
Fixpoint uitoa_count (fuel : nat) (tmp base len : Z) : outcome Z :=
  match fuel with
  | O => NoFuel
  | S fuel =>
      if tmp =? 0 then Ret len
      else let! q := udiv (u32 tmp) base in uitoa_count fuel (s32 q) base (len + 1)
  end.

Fixpoint uitoa_digits (fuel : nat) (value base index : Z) (str : list Z) : outcome (list Z) :=
  match fuel with
  | O => NoFuel
  | S fuel =>
      if value =? 0 then Ret str
      else
        let! digit := umod value base in
        let! str := lset str index (digit_char digit) in
        let! q := udiv value base in
        uitoa_digits fuel q base (index - 1) str
  end.

(** [str] is the room behind the pointer; [at0] is where the pointer is in it. *)
Definition uitoa (value : Z) (str : list Z) (at0 base : Z) : outcome (Z * list Z) :=
  if value =? 0 then
    let! str := lset str at0 48 in
    let! str := lset str (at0 + 1) 0 in
    Ret (1, str)
  else
    let! len := uitoa_count DIGITS_FUEL (s32 value) base 0 in
    let! str := uitoa_digits DIGITS_FUEL value base (at0 + (len - 1)) str in
    let! str := lset str (at0 + len) 0 in
    Ret (len, str).

(** Signed arithmetic: undefined when the result is no [int]. *)
Definition int_ok (x : Z) : outcome Z :=
  if (- 2 ^ 31 <=? x) && (x <? 2 ^ 31) then Ret x else Undef.
Definition sdiv (x y : Z) : outcome Z := if y =? 0 then Undef else int_ok (Z.quot x y).
Definition smod (x y : Z) : outcome Z := if y =? 0 then Undef else Ret (Z.rem x y).

Fixpoint itoa_count (fuel : nat) (tmp base len : Z) : outcome Z :=
  match fuel with
  | O => NoFuel
  | S fuel =>
      if tmp =? 0 then Ret len
      else let! q := sdiv tmp base in itoa_count fuel q base (len + 1)
  end.

Fixpoint itoa_digits (fuel : nat) (value base index : Z) (str : list Z) : outcome (list Z) :=
  match fuel with
  | O => NoFuel
  | S fuel =>
      if value =? 0 then Ret str
      else
        let! digit := smod value base in
        let! str := lset str index (digit_char digit) in
        let! q := sdiv value base in
        itoa_digits fuel q base (index - 1) str
  end.

Definition itoa (value : Z) (str : list Z) (base : Z) : outcome (Z * list Z) :=
  if value =? 0 then
    let! str := lset str 0 48 in
    let! str := lset str 1 0 in
    Ret (1, str)
  else
    let! (value, len, str) :=
      if value <? 0 then
        let! str := lset str 0 45 in
        let! twice := int_ok (value * 2) in
        let! value := int_ok (value - twice) in
        Ret (value, 1, str)
      else Ret (value, 0, str) in
    let! (len, str) :=
      if base =? 16 then
        let! str := lset str len 48 in
        let! str := lset str (len + 1) 120 in
        Ret (len + 2, str)
      else Ret (len, str) in
    let! len := itoa_count DIGITS_FUEL value base len in
    let! str := itoa_digits DIGITS_FUEL value base (len - 1) str in
    let! str := lset str len 0 in
    Ret (len, str).

(** ** Formatted output *)

(** Where characters go.  [putchar] returns its argument, which is never
    [EOF], so [print] never fails. *)
Class Output (D : Type) := putchar : D -> Z -> outcome D.

Definition INT_MAX : Z := 2 ^ 31 - 1.
Definition ALTERNATE_FORM : Z := 0.
Definition ZERO_PADDED : Z := 1.

(** The arguments behind the ellipsis. *)
Inductive va := VInt (n : Z) | VStr (s : list Z).

Section Printf.
Context {D : Type} `{!Output D}.

Fixpoint print (o : D) (data : list Z) : outcome D :=
  match data with
  | [] => Ret o
  | c :: data => let! o := putchar o (u8 c) in print o data
  end.

(** What the format cases return: the code 1 of the source is [None]; else the
    output, the rest of the format and the characters written so far. *)
Definition result := option (D * list Z * Z).

(** The characters before the terminator or the next [%]. *)
Fixpoint run_length (s : list Z) : nat :=
  match s with
  | [] => 0
  | c :: s => if (c =? 0) || (c =? 37) then 0%nat else S (run_length s)
  end.

(** For [%%], [format++] moves the pointer to the caller's variable, not the
    variable, and what is behind the variable is then used as a string. *)
Definition no_format_case (o : D) (format : list Z) (maxrem written : Z) : outcome result :=
  if List.hd 0 format =? 37 then Undef
  else
    let amount := S (run_length (List.tl format)) in
    if maxrem <? Z.of_nat amount then Ret None
    else
      let! o := print o (take amount format) in
      Ret (Some (o, drop amount format, written + Z.of_nat amount)).

Definition c_format_case (o : D) (format : list Z) (c maxrem written : Z) : outcome result :=
  let format := List.tl format in
  if maxrem =? 0 then Ret None
  else let! o := print o [c] in Ret (Some (o, format, written + 1)).

Definition s_format_case (o : D) (format str : list Z) (maxrem written : Z) : outcome result :=
  let format := List.tl format in
  let len := strlen str in
  if maxrem <? len then Ret None
  else let! o := print o (take (Z.to_nat len) str) in Ret (Some (o, format, written + len)).

Definition num_format_case (o : D) (format : list Z) (value maxrem written base flags : Z) :
    outcome result :=
  let format := List.tl format in
  let buffer := replicate 30 0 in
  let! (init_index, buffer) :=
    if (base =? 16) && negb (Z.land (Z.shiftr flags ALTERNATE_FORM) 1 =? 0) then
      let! buffer := lset buffer 0 48 in
      let! buffer := lset buffer 1 120 in
      Ret (2, buffer)
    else Ret (0, buffer) in
  let! (len, buffer) := uitoa value buffer init_index base in
  if maxrem <? len then Ret None
  else
    let! o := print o (take (Z.to_nat len) buffer) in
    Ret (Some (o, format, written + len)).

(** The loop over the flag characters. *)
Fixpoint parse_flags (format : list Z) (flags : Z) : list Z * Z :=
  match format with
  | c :: rest =>
      if c =? 48 then parse_flags rest (Z.lor flags (Z.shiftl 1 ZERO_PADDED))
      else if c =? 35 then parse_flags rest (Z.lor flags (Z.shiftl 1 ALTERNATE_FORM))
      else (format, flags)
  | [] => (format, flags)
  end.

(** One conversion; [begun] is the format from its [%] on. *)
Definition format_case (o : D) (begun : list Z) (args : list va) (maxrem written : Z) :
    outcome (result * list va) :=
  let '(format, flags) := parse_flags (List.tl begun) 0 in
  let c := List.hd 0 format in
  if c =? 99 then
    match args with
    | VInt n :: args => let! r := c_format_case o format (u8 n) maxrem written in Ret (r, args)
    | _ => Undef
    end
  else if c =? 115 then
    match args with
    | VStr s :: args => let! r := s_format_case o format s maxrem written in Ret (r, args)
    | _ => Undef
    end
  else if c =? 100 then
    match args with
    | VInt n :: args =>
        let! r := num_format_case o format (u32 n) maxrem written 10 flags in Ret (r, args)
    | _ => Undef
    end
  else if c =? 120 then
    match args with
    | VInt n :: args =>
        let! r := num_format_case o format (u32 n) maxrem written 16 flags in Ret (r, args)
    | _ => Undef
    end
  else
    let len := strlen begun in
    if maxrem <? len then Ret (None, args)
    else
      let! o := print o (take (Z.to_nat len) begun) in
      Ret (Some (o, drop (Z.to_nat len) begun, written + len), args).

(** The value returned is the count, or -1: a case that fails does so before
    it prints. *)
Fixpoint vprintf_loop (fuel : nat) (o : D) (format : list Z) (args : list va) (written : Z) :
    outcome (D * Z) :=
  match fuel with
  | O => NoFuel
  | S fuel =>
      if List.hd 0 format =? 0 then Ret (o, written)
      else
        let maxrem := INT_MAX - written in
        let! (r, args) :=
          if negb (List.hd 0 format =? 37) || (List.hd 0 (List.tl format) =? 37)
          then let! r := no_format_case o format maxrem written in Ret (r, args)
          else format_case o format args maxrem written in
        match r with
        | None => Ret (o, -1)
        | Some (o, format, written) => vprintf_loop fuel o format args written
        end
  end.

(** Every round consumes a character of the format. *)
Definition vprintf (o : D) (format : list Z) (args : list va) : outcome (D * Z) :=
  vprintf_loop (S (length format)) o format args 0.
End Printf.

(** ** The two outputs *)

Definition TERMINAL_OUT : Z := 0.
Definition SERIALPORT_OUT : Z := 1.

Section Console.
Context {W : Type} `{!PortIO W} (fuel : nat).

(** [actualmode], with the console and the serial port behind it. *)
Record console := mk_console { actualmode : Z; con_tty : tty; con_serial : W }.

Definition setoutput (o : console) (mode : Z) : console :=
  mk_console mode (con_tty o) (con_serial o).

Definition getoutput (o : console) : Z := actualmode o.

Definition console_putchar (o : console) (ic : Z) : outcome console :=
  let c := u8 ic in
  if actualmode o =? TERMINAL_OUT then
    let! t := terminal_write (con_tty o) [c] in
    Ret (mk_console (actualmode o) t (con_serial o))
  else if actualmode o =? SERIALPORT_OUT then
    let! w := serial_write fuel (con_serial o) [c] in
    Ret (mk_console (actualmode o) (con_tty o) w)
  else Ret o.

#[local] Instance console_output : Output console := console_putchar.

Definition printf (o : console) (format : list Z) (args : list va) : outcome (console * Z) :=
  vprintf (setoutput o TERMINAL_OUT) format args.

Definition kprintf (o : console) (format : list Z) (args : list va) : outcome (console * Z) :=
  let! (o, ret) := vprintf (setoutput o SERIALPORT_OUT) format args in
  Ret (setoutput o TERMINAL_OUT, ret).

Definition puts (o : console) (string : list Z) : outcome (console * Z) :=
  printf o [37; 115; 10; 0] [VStr string].
End Console.

(** ** Digits: the text of a number *)

(** [n] digits of [v], most significant first. *)
Fixpoint digits (base : Z) (n : nat) (v : Z) : list Z :=
  match n with
  | O => []
  | S n => digits base n (v / base) ++ [digit_char (v mod base)]
  end.

(** How many digits [v] has. *)
Fixpoint ndigits (fuel : nat) (base v : Z) : nat :=
  match fuel with
  | O => 1
  | S fuel => if v <? base then 1%nat else S (ndigits fuel base (v / base))
  end.

Definition num_text (base v : Z) : list Z := digits base (ndigits 32 base v) v.

(** Reading a text back. *)
Definition digit_val (c : Z) : Z := if c <=? 57 then c - 48 else c - 97 + 10.
Definition read_num (base : Z) (l : list Z) : Z :=
  fold_left (fun a c => a * base + digit_val c) l 0.

(** [n] is the number of digits of [v]. *)
Definition has_digits (base v : Z) (n : nat) : Prop :=
  n <> O /\ 0 <= v < base ^ Z.of_nat n /\ (n = 1%nat \/ base ^ Z.of_nat (n - 1) <= v).

Section Digits.
Context (base : Z) (Hbase : 2 <= base <= 36).

Lemma length_digits (n : nat) (v : Z) : length (digits base n v) = n.
Proof using.
  revert v. induction n as [|n IH]; intros v; simpl; [done|]. rewrite length_app, IH. simpl. lia.
Qed.

Lemma digit_val_char (d : Z) : 0 <= d < base -> digit_val (digit_char d) = d.
Proof using Hbase.
  intros Hd. unfold digit_char, digit_val. destruct (Z.ltb_spec 9 d); rewrite u8_small by lia.
  - destruct (Z.leb_spec (d - 10 + 97) 57); lia.
  - destruct (Z.leb_spec (d + 48) 57); lia.
Qed.

Lemma read_digits (n : nat) (v : Z) :
  0 <= v < base ^ Z.of_nat n -> read_num base (digits base n v) = v.
Proof using Hbase.
  revert v. induction n as [|n IH]; intros v Hv.
  { simpl in Hv. cbn. lia. }
  cbn [digits]. unfold read_num. rewrite fold_left_app. cbn [fold_left].
  pose proof (Z.mod_pos_bound v base). rewrite digit_val_char by lia.
  fold (read_num base (digits base n (v / base))). rewrite IH.
  - pose proof (Z.div_mod v base). lia.
  - rewrite Nat2Z.inj_succ, Z.pow_succ_r in Hv by lia. split; [apply Z.div_pos; lia|].
    apply Z.div_lt_upper_bound; lia.
Qed.

Lemma has_digits_step (v : Z) (n : nat) :
  has_digits base v (S (S n)) -> has_digits base (v / base) (S n).
Proof using Hbase.
  intros (_ & [H0 H1] & [|H2]); [done|]. replace (S (S n) - 1)%nat with (S n) in H2 by lia.
  rewrite Nat2Z.inj_succ, Z.pow_succ_r in H1 by lia.
  split; [done|]. split; [split; [apply Z.div_pos; lia|apply Z.div_lt_upper_bound; lia]|].
  right. replace (S n - 1)%nat with n by lia. rewrite Nat2Z.inj_succ, Z.pow_succ_r in H2 by lia.
  apply Z.div_le_lower_bound; lia.
Qed.

Lemma has_digits_pos (v : Z) (n : nat) : has_digits base v (S (S n)) -> base <= v.
Proof using Hbase.
  intros (_ & _ & [|H]); [done|]. replace (S (S n) - 1)%nat with (S n) in H by lia.
  rewrite Nat2Z.inj_succ, Z.pow_succ_r in H by lia.
  assert (0 < base ^ Z.of_nat n) by (apply Z.pow_pos_nonneg; lia). nia.
Qed.

Lemma ndigits_ok (fuel : nat) (v : Z) :
  0 <= v < base ^ (Z.of_nat (S fuel)) -> has_digits base v (ndigits fuel base v).
Proof using Hbase.
  revert v. induction fuel as [|fuel IH]; intros v Hv; cbn [ndigits].
  { split; [done|]. auto. }
  destruct (Z.ltb_spec v base).
  { split; [done|]. split; [|by left]. change (Z.of_nat 1) with 1. rewrite Z.pow_1_r. lia. }
  rewrite Nat2Z.inj_succ, Z.pow_succ_r in Hv by lia.
  assert (Hq : 0 <= v / base < base ^ Z.of_nat (S fuel))
    by (split; [apply Z.div_pos; lia|apply Z.div_lt_upper_bound; lia]).
  destruct (IH _ Hq) as (Hn & [_ Hlt] & Hge). set (n := ndigits _ _ _) in *.
  pose proof (Z.div_mod v base). pose proof (Z.mod_pos_bound v base).
  split; [done|]. rewrite Nat2Z.inj_succ, Z.pow_succ_r by lia. split; [nia|]. right.
  replace (S n - 1)%nat with n by lia. destruct Hge as [-> | Hge].
  - change (Z.of_nat 1) with 1. rewrite Z.pow_1_r. lia.
  - replace (Z.of_nat n) with (Z.succ (Z.of_nat (n - 1))) by lia. rewrite Z.pow_succ_r by lia. nia.
Qed.

(** The loops of [uitoa]. *)
Lemma uitoa_count_ok (fuel n : nat) (v len : Z) :
  has_digits base v n -> 0 < v < 2 ^ 32 -> (n < fuel)%nat ->
  uitoa_count fuel (s32 v) base len = Ret (len + Z.of_nat n).
Proof using Hbase.
  revert v len n. induction fuel as [|fuel IH]; intros v len n Hn Hv Hf; [lia|].
  assert (Hnz : s32 v =? 0 = false).
  { apply Z.eqb_neq. unfold s32, sext. rewrite wrap_small by lia. case_match; bprop; lia. }
  assert (Hu : u32 (s32 v) = v).
  { unfold s32, sext, u32. rewrite (wrap_small 32 v) by lia. case_match; [by apply wrap_small; lia|].
    unfold wrap. replace (v - 2 ^ 32) with (v + (-1) * 2 ^ 32) by lia.
    rewrite Z.mod_add by lia. apply Z.mod_small. lia. }
  cbn [uitoa_count]. rewrite Hnz, Hu, udiv_pos by lia. cbn [obind].
  destruct n as [|[|n]]; [by destruct Hn|..].
  - destruct Hn as (_ & Hr & _). change (Z.of_nat 1) with 1 in *. rewrite Z.pow_1_r in Hr.
    rewrite Z.div_small by lia. destruct fuel; [lia|]. done.
  - rewrite (IH (v / base) (len + 1) (S n)); [f_equal; lia|by apply has_digits_step| |lia].
    apply has_digits_pos in Hn. split; [apply Z.div_str_pos; lia|]. apply Z.div_lt_upper_bound; lia.
Qed.

Lemma put_digit (str tl : list Z) (i : Z) (at0 n : nat) (c : Z) (ds : list Z) :
  i = Z.of_nat (at0 + n) -> (at0 + n < length str)%nat -> length ds = n ->
  tl = <[Z.to_nat i := c]> str ->
  take at0 tl ++ ds ++ drop (at0 + n) tl = take at0 str ++ (ds ++ [c]) ++ drop (at0 + S n) str.
Proof using.
  intros -> Hl Hd ->. rewrite Nat2Z.id. rewrite take_insert_ge by lia. f_equal.
  rewrite <- app_assoc. f_equal. rewrite (drop_S _ c); [|by apply list_lookup_insert_eq].
  rewrite drop_insert_lt by lia. cbn. f_equal. f_equal. lia.
Qed.

Lemma uitoa_digits_ok (fuel n at0 : nat) (v : Z) (str : list Z) :
  has_digits base v n -> 0 < v -> (n < fuel)%nat -> (at0 + n <= length str)%nat ->
  uitoa_digits fuel v base (Z.of_nat at0 + (Z.of_nat n - 1)) str =
    Ret (take at0 str ++ digits base n v ++ drop (at0 + n) str).
Proof using Hbase.
  revert v str n. induction fuel as [|fuel IH]; intros v str n Hn Hv Hf Hl; [lia|].
  cbn [uitoa_digits]. destruct (Z.eqb_spec v 0); [lia|]. rewrite umod_pos by lia. cbn [obind].
  destruct n as [|n]; [by destruct Hn|].
  rewrite lset_Ret by lia. cbn [obind]. rewrite udiv_pos by lia. cbn [obind digits].
  rewrite <- (put_digit str _ _ at0 n (digit_char (v mod base)) (digits base n (v / base))
    eq_refl ltac:(lia) (length_digits _ _) eq_refl).
  replace (Z.to_nat (Z.of_nat at0 + (Z.of_nat (S n) - 1))) with (Z.to_nat (Z.of_nat (at0 + n))) by lia.
  set (str1 := <[_ := _]> str). destruct n as [|n].
  - destruct Hn as (_ & Hr & _). change (Z.of_nat 1) with 1 in *. rewrite Z.pow_1_r in Hr.
    rewrite Z.div_small by lia. destruct fuel; [lia|]. cbn [uitoa_digits Z.eqb digits app].
    rewrite Nat.add_0_r. by rewrite take_drop.
  - replace (Z.of_nat at0 + (Z.of_nat (S (S n)) - 1) - 1) with (Z.of_nat at0 + (Z.of_nat (S n) - 1)) by lia.
    apply IH; [by apply has_digits_step| |lia|unfold str1; rewrite length_insert; lia].
    apply has_digits_pos in Hn. apply Z.div_str_pos. lia.
Qed.

(** For non-negative numbers the signed loops compute the same. *)
Lemma itoa_count_ok (fuel n : nat) (v len : Z) :
  has_digits base v n -> 0 < v < 2 ^ 31 -> (n < fuel)%nat ->
  itoa_count fuel v base len = Ret (len + Z.of_nat n).
Proof using Hbase.
  intros Hn Hv Hf. rewrite <- (uitoa_count_ok fuel n v len Hn ltac:(lia) Hf).
  assert (Hs : forall x, 0 <= x < 2 ^ 31 -> s32 x = x).
  { intros x Hx. unfold s32, sext. rewrite wrap_small by lia. case_match; bprop; lia. }
  rewrite Hs by lia. assert (Hv' : 0 <= v < 2 ^ 31) by lia. clear Hv Hf Hn. revert v len Hv'.
  induction fuel as [|fuel IH]; intros v len Hv; cbn [itoa_count uitoa_count]; [done|].
  destruct (v =? 0); [done|]. rewrite u32_small by lia. unfold sdiv, udiv.
  destruct (Z.eqb_spec base 0); [lia|]. rewrite Z.quot_div_nonneg by lia.
  assert (0 <= v / base < 2 ^ 31) by (split; [apply Z.div_pos; lia|apply Z.div_lt_upper_bound; lia]).
  unfold int_ok. destruct (Z.leb_spec (- 2 ^ 31) (v / base)); [|lia].
  destruct (Z.ltb_spec (v / base) (2 ^ 31)); [|lia]. cbn [andb obind]. rewrite Hs by lia. by apply IH.
Qed.

Lemma itoa_digits_eq (fuel : nat) (v i : Z) (str : list Z) :
  0 <= v < 2 ^ 31 -> itoa_digits fuel v base i str = uitoa_digits fuel v base i str.
Proof using Hbase.
  revert v i str. induction fuel as [|fuel IH]; intros v i str Hv; cbn [itoa_digits uitoa_digits]; [done|].
  destruct (v =? 0); [done|]. unfold smod, umod, sdiv, udiv. destruct (Z.eqb_spec base 0); [lia|].
  rewrite Z.rem_mod_nonneg, Z.quot_div_nonneg by lia. cbn [obind]. destruct (lset _ _ _); [|done..].
  assert (0 <= v / base < 2 ^ 31) by (split; [apply Z.div_pos; lia|apply Z.div_lt_upper_bound; lia]).
  unfold int_ok. destruct (Z.leb_spec (- 2 ^ 31) (v / base)); [|lia].
  destruct (Z.ltb_spec (v / base) (2 ^ 31)); [|lia]. cbn [andb obind]. by apply IH.
Qed.

Lemma ndigits_32 (v : Z) : 0 <= v < 2 ^ 32 ->
  has_digits base v (ndigits 32 base v) /\ (ndigits 32 base v < DIGITS_FUEL)%nat.
Proof using Hbase.
  intros Hv. assert (H2 : forall k, 0 <= k -> 2 ^ k <= base ^ k) by (intros; apply Z.pow_le_mono_l; lia).
  assert (H : has_digits base v (ndigits 32 base v)).
  { apply ndigits_ok. change (Z.of_nat 33) with 33. pose proof (H2 33). lia. }
  split; [done|]. destruct H as (_ & _ & Hge). unfold DIGITS_FUEL. destruct Hge as [-> | Hge]; [lia|].
  apply Nat.nle_gt. intros Hn. set (n := ndigits _ _ _) in *.
  pose proof (Z.pow_le_mono_r 2 32 (Z.of_nat (n - 1))). pose proof (H2 (Z.of_nat (n - 1))). lia.
Qed.
End Digits.

(** A string with a terminator put in the middle of a buffer. *)
Lemma put_terminator (str ds : list Z) (at0 : nat) :
  (at0 + length ds + 1 <= length str)%nat ->
  lset (take at0 str ++ ds ++ drop (at0 + length ds) str) (Z.of_nat at0 + Z.of_nat (length ds)) 0 =
    Ret (take at0 str ++ ds ++ 0 :: drop (at0 + length ds + 1) str).
Proof.
  intros Hl. rewrite lset_Ret.
  2: { rewrite !length_app, length_take, length_drop. lia. }
  f_equal. replace (Z.to_nat _) with (length (take at0 str ++ ds) + 0)%nat
    by (rewrite length_app, length_take; lia).
  rewrite !app_assoc, insert_app_r. f_equal.
  destruct (lookup_lt_is_Some_2 str (at0 + length ds)) as [x Hx]; [lia|].
  rewrite (drop_S _ x) by done. simpl. f_equal. f_equal. lia.
Qed.

(** [uitoa], with the digits given by the reference definition. *)
Lemma uitoa_spec (base v : Z) (str : list Z) (at0 : nat) :
  2 <= base <= 36 -> 0 <= v < 2 ^ 32 ->
  (at0 + length (num_text base v) + 1 <= length str)%nat ->
  uitoa v str (Z.of_nat at0) base =
    Ret (Z.of_nat (length (num_text base v)),
         take at0 str ++ num_text base v ++ 0 :: drop (at0 + length (num_text base v) + 1) str).
Proof.
  intros Hb Hv Hl. destruct (ndigits_32 base Hb v Hv) as [Hn Hf].
  unfold uitoa. destruct (Z.eqb_spec v 0) as [->|Hz].
  - assert (Hd : num_text base 0 = [48]).
    { unfold num_text. cbn [ndigits]. destruct (Z.ltb_spec 0 base); [|lia]. cbn [digits].
      by rewrite Z.mod_0_l by lia. }
    rewrite Hd in Hl |- *. cbn [length] in Hl |- *.
    rewrite lset_Ret by lia. cbn [obind].
    assert (E : <[Z.to_nat (Z.of_nat at0) := 48]> str = take at0 str ++ [48] ++ drop (at0 + 1) str).
    { rewrite Nat2Z.id. rewrite insert_take_drop by lia. do 3 f_equal. lia. }
    rewrite E. pose proof (put_terminator str [48] at0 ltac:(simpl; lia)) as P.
    cbn [length] in P. change (Z.of_nat 1) with 1 in P. by rewrite P.
  - rewrite (uitoa_count_ok base Hb _ _ _ _ Hn ltac:(lia) Hf). cbn [obind].
    assert (El : length (num_text base v) = ndigits 32 base v) by apply length_digits.
    rewrite Z.add_0_l, (uitoa_digits_ok base Hb _ _ at0 _ str Hn ltac:(lia) Hf ltac:(lia)). cbn [obind].
    fold (num_text base v). rewrite <- El.
    by rewrite (put_terminator str (num_text base v) at0 Hl).
Qed.

(** C39: uitoa writes the digits of the number, most significant first and
    without leading zeros, and a terminator; it returns their count and
    touches nothing else; reading the digits back gives the number. *)
Theorem uitoa_roundtrip (base v : Z) (str : list Z) (at0 : nat) :
  2 <= base <= 36 -> 0 <= v < 2 ^ 32 -> (at0 + 34 <= length str)%nat ->
  exists n ds, uitoa v str (Z.of_nat at0) base = Ret (Z.of_nat n, take at0 str ++ ds ++ 0 :: drop (at0 + n + 1) str) /\
    length ds = n /\ read_num base ds = v /\ (n = 1%nat \/ base ^ Z.of_nat (n - 1) <= v).
Proof.
  intros Hb Hv Hl. destruct (ndigits_32 base Hb v Hv) as [Hn Hf].
  assert (El : length (num_text base v) = ndigits 32 base v) by apply length_digits.
  exists (length (num_text base v)), (num_text base v). split.
  { apply uitoa_spec; [done..|]. unfold DIGITS_FUEL in Hf. lia. }
  split; [done|]. rewrite El. destruct Hn as (_ & Hr & Hge). split; [|done].
  by apply read_digits.
Qed.

Lemma uitoa_roundtrip_witness :
  exists n ds, uitoa 48879 (replicate 40 0) 2 16 = Ret (Z.of_nat n, [0; 0] ++ ds ++ 0 :: replicate (37 - n) 0) /\
    read_num 16 ds = 48879.
Proof.
  destruct (uitoa_roundtrip 16 48879 (replicate 40 0) 2) as (n & ds & E & L & R & _); [lia|lia|simpl; lia|].
  assert (D : forall k, drop (2 + k + 1) (replicate 40 0) = replicate (37 - k) 0).
  { intros k. rewrite drop_replicate. f_equal. lia. }
  rewrite D in E. exact (ex_intro _ n (ex_intro _ ds (conj E R))).
Defined.

Definition itoa_prefix (base v : Z) : list Z :=
  (if v <? 0 then [45] else []) ++ (if base =? 16 then [48; 120] else []).

(** Writing the sign and the prefix. *)
Lemma put_front (str ds : list Z) (k : nat) (c : Z) :
  length ds = k -> (k < length str)%nat ->
  lset (ds ++ drop k str) (Z.of_nat k) c = Ret ((ds ++ [c]) ++ drop (k + 1) str).
Proof.
  intros Hd Hl. rewrite lset_Ret by (rewrite length_app, length_drop; lia). f_equal.
  replace (Z.to_nat (Z.of_nat k)) with (length ds + 0)%nat by lia. rewrite insert_app_r, <- app_assoc.
  f_equal. destruct (lookup_lt_is_Some_2 str k) as [x Hx]; [lia|]. rewrite (drop_S _ x) by done.
  simpl. f_equal. f_equal. lia.
Qed.

(** The end of [itoa], after the sign and the prefix. *)
Lemma itoa_tail (base v : Z) (str pre : list Z) :
  2 <= base <= 36 -> 0 < v < 2 ^ 31 -> (length pre + 34 <= length str)%nat ->
  (let! len := itoa_count DIGITS_FUEL v base (Z.of_nat (length pre)) in
   let! s := itoa_digits DIGITS_FUEL v base (len - 1) (pre ++ drop (length pre) str) in
   let! s := lset s len 0 in
   Ret (len, s)) =
  let ds := pre ++ num_text base v in
  Ret (Z.of_nat (length ds), ds ++ 0 :: drop (length ds + 1) str).
Proof.
  intros Hb Hv Hl. destruct (ndigits_32 base Hb v ltac:(lia)) as [Hn Hf].
  assert (El : length (num_text base v) = ndigits 32 base v) by apply length_digits.
  assert (Hlen : length (pre ++ drop (length pre) str) = length str)
    by (rewrite length_app, length_drop; lia).
  rewrite (itoa_count_ok base Hb _ _ _ _ Hn Hv Hf). cbn [obind].
  assert (Hf33 : (ndigits 32 base v < 33)%nat) by exact Hf.
  rewrite itoa_digits_eq by (done || lia).
  replace (Z.of_nat (length pre) + Z.of_nat (ndigits 32 base v) - 1)
    with (Z.of_nat (length pre) + (Z.of_nat (ndigits 32 base v) - 1)) by lia.
  rewrite (uitoa_digits_ok base Hb _ _ (length pre) _ (pre ++ drop (length pre) str) Hn
    ltac:(lia) Hf ltac:(rewrite Hlen; lia)). cbn [obind].
  fold (num_text base v). rewrite <- El.
  rewrite (put_terminator _ (num_text base v) (length pre)) by (rewrite Hlen; lia). cbn [obind].
  rewrite length_app, Nat2Z.inj_add. do 2 f_equal.
  rewrite take_app_length, <- app_assoc. do 3 f_equal.
  rewrite drop_app_ge by lia. rewrite drop_drop. f_equal. lia.
Qed.

(** itoa writes the sign, the prefix 0x in base 16, the digits and a
    terminator, and returns their count, for every value down to -2^30. *)
Theorem itoa_correct (base v : Z) (str : list Z) :
  2 <= base <= 36 -> v <> 0 -> - 2 ^ 30 <= v < 2 ^ 31 -> (37 <= length str)%nat ->
  let text := itoa_prefix base v ++ num_text base (Z.abs v) in
  itoa v str base = Ret (Z.of_nat (length text), text ++ 0 :: drop (length text + 1) str) /\
  read_num base (num_text base (Z.abs v)) = Z.abs v.
Proof.
  intros Hb Hz Hv Hl text. split.
  2: { apply read_digits; [done|]. destruct (ndigits_32 base Hb (Z.abs v) ltac:(lia)) as [(_ & Hr & _) _]. done. }
  unfold itoa. destruct (Z.eqb_spec v 0); [done|].
  set (step1 := if v <? 0 then _ else _).
  assert (E1 : exists s1, step1 = Ret (Z.abs v, Z.of_nat (length s1), s1 ++ drop (length s1) str) /\
    s1 = if v <? 0 then [45] else []).
  { unfold step1. destruct (Z.ltb_spec v 0).
    - exists [45]. split; [|done]. pose proof (put_front str [] 0 45 eq_refl ltac:(lia)) as P.
      change (lset str 0 45 = Ret ([45] ++ drop 1 str)) in P. rewrite P. cbn [obind].
      unfold int_ok. destruct (Z.leb_spec (- 2 ^ 31) (v * 2)); [|lia].
      destruct (Z.ltb_spec (v * 2) (2 ^ 31)); [|lia]. cbn [andb obind].
      destruct (Z.leb_spec (- 2 ^ 31) (v - v * 2)); [|lia].
      destruct (Z.ltb_spec (v - v * 2) (2 ^ 31)); [|lia]. cbn [andb obind length]. do 3 f_equal. lia.
    - exists []. split; [|done]. cbn. do 3 f_equal. lia. }
  destruct E1 as (s1 & -> & Es1). cbn [obind].
  assert (L1 : (length s1 <= 1)%nat) by (rewrite Es1; case_match; simpl; lia).
  set (step2 := if base =? 16 then _ else _).
  assert (E2 : step2 = Ret (Z.of_nat (length (itoa_prefix base v)),
    itoa_prefix base v ++ drop (length (itoa_prefix base v)) str)).
  { unfold step2, itoa_prefix. rewrite <- Es1. destruct (base =? 16).
    - rewrite put_front by lia. cbn [obind].
      replace (Z.of_nat (length s1) + 1) with (Z.of_nat (length (s1 ++ [48]))) by (rewrite length_app; simpl; lia).
      replace (length s1 + 1)%nat with (length (s1 ++ [48])) by (rewrite length_app; simpl; lia).
      rewrite put_front by (rewrite ?length_app; simpl; lia). cbn [obind].
      rewrite !length_app. cbn [length]. rewrite <- !app_assoc. cbn [app]. do 2 f_equal; [lia|].
      do 4 f_equal. lia.
    - by rewrite app_nil_r. }
  rewrite E2. cbn [obind]. rewrite (itoa_tail base (Z.abs v) str) by
    (lia || (unfold itoa_prefix; rewrite <- Es1, length_app; destruct (base =? 16); simpl; lia)). done.
Qed.

Lemma itoa_correct_witness :
  exists s, itoa (-255) (replicate 40 0) 10 = Ret (4, [45; 50; 53; 53; 0] ++ s).
Proof.
  destruct (itoa_correct 10 (-255) (replicate 40 0)) as [E _]; [lia|lia|lia|simpl; lia|].
  exact (ex_intro _ (replicate 35 0) E).
Defined.

(** Below -2^30 the doubling overflows before the sign is dropped. *)
Theorem itoa_overflow (base v : Z) (str : list Z) :
  - 2 ^ 31 <= v < - 2 ^ 30 -> itoa v str base = Undef.
Proof.
  intros Hv. unfold itoa. destruct (Z.eqb_spec v 0); [lia|]. destruct (Z.ltb_spec v 0); [|lia].
  unfold lset. destruct (_ && _); [|done]. cbn [obind]. unfold int_ok.
  by destruct (Z.leb_spec (- 2 ^ 31) (v * 2)); [lia|].
Qed.

(** ** What vprintf prints *)

(** A format as a sequence of plain characters and conversions with their
    arguments; the number of zeros after the percent sign is free. *)
Inductive item :=
| Chr (c : Z)
| ConvC (n : Z)
| ConvS (s : list Z)
| ConvD (zeros : nat) (n : Z)
| ConvX (zeros : nat) (n : Z).

Definition item_format (i : item) : list Z :=
  match i with
  | Chr c => [c]
  | ConvC _ => [37; 99]
  | ConvS _ => [37; 115]
  | ConvD k _ => 37 :: replicate k 48 ++ [100]
  | ConvX k _ => 37 :: replicate k 48 ++ [120]
  end.
Definition item_args (i : item) : list va :=
  match i with
  | Chr _ => []
  | ConvC n | ConvD _ n | ConvX _ n => [VInt n]
  | ConvS s => [VStr s]
  end.
Definition item_text (i : item) : list Z :=
  match i with
  | Chr c => [c]
  | ConvC n => [u8 n]
  | ConvS s => cstr s
  | ConvD _ n => num_text 10 (u32 n)
  | ConvX _ n => num_text 16 (u32 n)
  end.
Definition item_ok (i : item) : Prop :=
  match i with Chr c => c <> 0 /\ c <> 37 | _ => True end.

Definition is_chr (i : item) : bool := match i with Chr _ => true | _ => false end.

Lemma split_chars (l : list item) :
  Forall item_ok l ->
  exists cs r, l = map Chr cs ++ r /\ Forall (fun c => c <> 0 /\ c <> 37) cs /\
    (r = [] \/ exists i r', r = i :: r' /\ is_chr i = false).
Proof.
  induction 1 as [|i l Hi _ IH].
  { exists [], []. auto. }
  destruct i as [c|n|s|k n|k n]; [|by eexists [], _; split_and!; [reflexivity|constructor|right; eauto]..].
  destruct IH as (cs & r & -> & Hc & Hr). exists (c :: cs), r. split_and!; [done| |done].
  by constructor.
Qed.

Lemma cstr_take (s : list Z) : take (Z.to_nat (strlen s)) s = cstr s.
Proof.
  rewrite strlen_cstr, Nat2Z.id. induction s as [|c s IH]; simpl; [done|].
  destruct (c =? 0); simpl; [done|]. by rewrite IH.
Qed.

Lemma run_length_chars (cs r : list Z) :
  Forall (fun c => c <> 0 /\ c <> 37) cs -> List.hd 0 r = 0 \/ List.hd 0 r = 37 ->
  run_length (cs ++ r) = length cs.
Proof.
  intros Hc Hr. induction Hc as [|c cs [H0 H37] _ IH]; simpl.
  - destruct r as [|c r]; [done|]. simpl in *. destruct Hr as [-> | ->]; done.
  - destruct (Z.eqb_spec c 0), (Z.eqb_spec c 37); try done. simpl. by rewrite IH.
Qed.

Lemma parse_zeros (k : nat) (c : Z) (rest : list Z) (f : Z) :
  c <> 48 -> c <> 35 -> f = 0 \/ f = 2 ->
  exists f', parse_flags (replicate k 48 ++ c :: rest) f = (c :: rest, f') /\ (f' = 0 \/ f' = 2).
Proof.
  intros H1 H2. revert f. induction k as [|k IH]; intros f Hf; cbn [replicate app parse_flags].
  - destruct (Z.eqb_spec c 48), (Z.eqb_spec c 35); try done. eauto.
  - cbn [Z.eqb Pos.eqb]. apply IH. destruct Hf as [-> | ->]; by right.
Qed.

Section Renders.
Context {D : Type} `{!Output D}.

Lemma print_app (o : D) (a b : list Z) : print o (a ++ b) = let! o := print o a in print o b.
Proof.
  revert o. induction a as [|c a IH]; intros o; simpl; [done|].
  destruct (putchar o (u8 c)); simpl; auto.
Qed.

Lemma num_text_length (base n : Z) : 10 <= base <= 36 -> (length (num_text base (u32 n)) <= 10)%nat.
Proof.
  intros Hb. pose proof (u32_range n) as Hr.
  destruct (ndigits_32 base ltac:(lia) (u32 n) Hr) as [(_ & _ & Hge) _].
  unfold num_text. rewrite length_digits. destruct Hge as [-> | Hge]; [lia|].
  apply Nat.nlt_ge. intros Hn. set (k := ndigits _ _ _) in *.
  pose proof (Z.pow_le_mono_r 10 10 (Z.of_nat (k - 1))).
  pose proof (Z.pow_le_mono_l 10 base (Z.of_nat (k - 1))). lia.
Qed.

Lemma num_case_ok (o : D) (c : Z) (rest : list Z) (n maxrem written base flags : Z) :
  10 <= base <= 36 -> flags = 0 \/ flags = 2 ->
  Z.of_nat (length (num_text base (u32 n))) <= maxrem ->
  num_format_case o (c :: rest) (u32 n) maxrem written base flags =
    let! o := print o (num_text base (u32 n)) in
    Ret (Some (o, rest, written + Z.of_nat (length (num_text base (u32 n))))).
Proof.
  intros Hb Hf Hm. unfold num_format_case, ALTERNATE_FORM.
  assert (Z.land (Z.shiftr flags 0) 1 = 0) as -> by (by destruct Hf as [-> | ->]).
  rewrite andb_false_r. cbn [obind]. pose proof (num_text_length base n Hb) as Hl.
  pose proof (u32_range n) as Hr.
  pose proof (uitoa_spec base (u32 n) (replicate 30 0) 0 ltac:(lia) Hr
    ltac:(rewrite length_replicate; lia)) as E.
  change (Z.of_nat 0) with 0 in E. rewrite E. cbn [obind].
  change (take 0 (replicate 30 0)) with (@nil Z). rewrite app_nil_l. destruct (Z.ltb_spec maxrem (Z.of_nat (length (num_text base (u32 n))))); [lia|].
  by rewrite Nat2Z.id, take_app_length.
Qed.

(** A conversion. *)
Lemma format_case_ok (o : D) (i : item) (rest : list Z) (args : list va) (maxrem written : Z) :
  is_chr i = false -> Z.of_nat (length (item_text i)) <= maxrem ->
  format_case o (item_format i ++ rest) (item_args i ++ args) maxrem written =
    let! o := print o (item_text i) in
    Ret (Some (o, rest, written + Z.of_nat (length (item_text i))), args).
Proof.
  intros Hi Hm. unfold format_case.
  destruct i as [c|n|s|k n|k n]; [done|cbn [item_format item_args item_text app List.tl]..].
  - cbn [parse_flags Z.eqb Pos.eqb List.hd]. unfold c_format_case. cbn [item_text length] in Hm.
    destruct (Z.eqb_spec maxrem 0); [lia|]. by destruct (print o [u8 n]).
  - cbn [parse_flags Z.eqb Pos.eqb List.hd]. unfold s_format_case.
    rewrite cstr_take, strlen_cstr. cbn [item_text] in Hm.
    destruct (Z.ltb_spec maxrem (Z.of_nat (length (cstr s)))); [lia|].
    destruct (print o (cstr s)); done.
  - rewrite <- app_assoc. cbn [app].
    destruct (parse_zeros k 100 rest 0) as (f & -> & Hf); [done..|by left|].
    cbn [List.hd Z.eqb Pos.eqb]. rewrite num_case_ok by (done || lia).
    destruct (print o _); done.
  - rewrite <- app_assoc. cbn [app].
    destruct (parse_zeros k 120 rest 0) as (f & -> & Hf); [done..|by left|].
    cbn [List.hd Z.eqb Pos.eqb]. rewrite num_case_ok by (done || lia).
    destruct (print o _); done.
Qed.

(** Not the case of [%%]. *)
Lemma conv_second (i : item) (rest : list Z) :
  is_chr i = false -> exists c t, item_format i ++ rest = 37 :: c :: t /\ c <> 37.
Proof.
  destruct i as [c|n|s|[|k] n|[|k] n]; intros H; try done; cbn; eexists _, _; split; done.
Qed.

Lemma hd_format (l : list item) :
  Forall item_ok l -> l = [] \/ (exists i r', l = i :: r' /\ is_chr i = false) ->
  List.hd 0 ((l ≫= item_format) ++ [0]) = 0 \/ List.hd 0 ((l ≫= item_format) ++ [0]) = 37.
Proof.
  intros _ [-> | (i & r & -> & Hi)]; [by left|right]. cbn. rewrite <- app_assoc.
  by destruct (conv_second i ((r ≫= item_format) ++ [0]) Hi) as (c & t & -> & _).
Qed.

Lemma bind_chars (cs : list Z) :
  (map Chr cs ≫= item_format) = cs /\ (map Chr cs ≫= item_args) = [] /\ (map Chr cs ≫= item_text) = cs.
Proof. induction cs as [|c cs (IH1 & IH2 & IH3)]; cbn; [done|]. by rewrite IH1, IH2, IH3. Qed.

Lemma vprintf_loop_ok (fuel : nat) (l : list item) (o : D) (written : Z) :
  Forall item_ok l -> 0 <= written ->
  written + Z.of_nat (length (l ≫= item_text)) <= INT_MAX ->
  (length ((l ≫= item_format) ++ [0%Z]) < fuel)%nat ->
  vprintf_loop fuel o ((l ≫= item_format) ++ [0]) (l ≫= item_args) written =
    let! o := print o (l ≫= item_text) in
    Ret (o, written + Z.of_nat (length (l ≫= item_text))).
Proof.
  revert l o written. induction fuel as [|fuel IH]; intros l o written Hl Hw Hm Hf; [lia|].
  destruct (split_chars l Hl) as (cs & r & -> & Hcs & Hr).
  apply Forall_app in Hl as [_ Hrok]. pose proof (hd_format r Hrok Hr) as Hhd.
  rewrite !bind_app in *. destruct (bind_chars cs) as (F & A & T). rewrite F, A, T in *.
  rewrite <- app_assoc in *. cbn [app] in *. cbn [vprintf_loop].
  destruct cs as [|c cs].
  - cbn [app] in *. destruct Hr as [-> | (i & r' & -> & Hi)].
    { cbn. by rewrite Z.add_0_r. }
    cbn [mbind list_bind] in *. rewrite <- !app_assoc in *.
    destruct (conv_second i ((r' ≫= item_format) ++ [0]) Hi) as (c & t & E & Hc).
    assert (E0 : List.hd 0 (item_format i ++ (r' ≫= item_format) ++ [0]) = 37) by (by rewrite E).
    assert (E1 : List.hd 0 (List.tl (item_format i ++ (r' ≫= item_format) ++ [0])) =? 37 = false)
      by (rewrite E; by apply Z.eqb_neq).
    rewrite E0, E1. cbn [Z.eqb Pos.eqb negb orb]. rewrite length_app in Hm.
    rewrite format_case_ok by (done || lia). rewrite print_app.
    destruct (print o (item_text i)) as [o1| | |]; try done. cbn [obind].
    assert (Hlen : (1 <= length (item_format i))%nat) by (destruct i; simpl; lia).
    rewrite length_app in Hf. inversion Hrok; subst.
    rewrite IH by (done || lia). destruct (print o1 _); try done. cbn [obind]. do 2 f_equal.
    rewrite length_app. lia.
  - inversion Hcs as [|? ? [H0 H37] Hcs']; subst. cbn [app List.hd List.tl].
    destruct (Z.eqb_spec c 0); [done|]. destruct (Z.eqb_spec c 37); [done|].
    cbn [negb orb]. unfold no_format_case. cbn [List.hd List.tl].
    destruct (Z.eqb_spec c 37); [done|]. rewrite run_length_chars by done.
    rewrite !length_app in Hm. cbn [length] in Hm.
    destruct (Z.ltb_spec (INT_MAX - written) (Z.of_nat (S (length cs)))); [lia|].
    change (c :: cs ++ (r ≫= item_text)) with ((c :: cs) ++ (r ≫= item_text)).
    change (c :: cs ++ (r ≫= item_format) ++ [0]) with ((c :: cs) ++ (r ≫= item_format) ++ [0]) in *.
    change (S (length cs)) with (length (c :: cs)). rewrite take_app_length, drop_app_length, print_app.
    destruct (print o (c :: cs)) as [o1| | |]; try done. cbn [obind].
    rewrite length_app in Hf. cbn [length] in Hf.
    rewrite IH by (done || (cbn [length]; lia)). destruct (print o1 _); try done. cbn [obind]. do 2 f_equal.
    rewrite length_app. lia.
Qed.

(** C34: For a format of plain characters and the conversions c, s, d and x
    (zeros after the percent sign allowed), vprintf puts out, in order, the
    characters and the texts of the arguments, and returns how many. *)
Theorem vprintf_renders (l : list item) (o : D) :
  Forall item_ok l -> Z.of_nat (length (l ≫= item_text)) <= INT_MAX ->
  vprintf o ((l ≫= item_format) ++ [0]) (l ≫= item_args) =
    let! o := print o (l ≫= item_text) in Ret (o, Z.of_nat (length (l ≫= item_text))).
Proof. intros Hl Hm. unfold vprintf. by rewrite vprintf_loop_ok by (done || lia). Qed.

(** A doubled percent sign uses what lies behind a local variable as a
    string. *)
Theorem percent_percent_undef (o : D) (rest : list Z) (args : list va) :
  vprintf o (37 :: 37 :: rest) args = Undef.
Proof. done. Qed.
End Renders.

(** ** The two outputs: what arrives *)

Definition bytes (l : list Z) : Prop := Forall (fun c => 0 <= c < 256) l.

Section Outputs.
Context {W : Type} `{!PortIO W} {laws : UartLaws W} (fuel : nat).
#[local] Existing Instance console_output.

(** To the serial port. *)
Lemma print_serial (data : list Z) (o : console (W := W)) :
  actualmode o = SERIALPORT_OUT -> bytes data ->
  print (Output0 := console_output fuel) o data =
    let! w := serial_write fuel (con_serial o) data in Ret (mk_console SERIALPORT_OUT (con_tty o) w).
Proof using.
  intros Hm Hd. revert o Hm. induction Hd as [|c data Hc _ IH]; intros [m t w] Hm; simpl in Hm; subst m.
  - done.
  - cbn [print serial_write con_serial con_tty]. unfold putchar. unfold console_output at 1. unfold console_putchar.
    cbn [actualmode Z.eqb Pos.eqb SERIALPORT_OUT TERMINAL_OUT con_serial con_tty serial_write].
    rewrite !u8_small by (rewrite ?u8_small; lia). destruct (serial_writeb fuel w c) as [w1| | |]; try done.
    cbn [obind]. destruct (if c =? 10 then _ else _) as [w2| | |]; try done. cbn [obind].
    by rewrite IH.
Qed.

(** A kernel message goes out on the serial line, in order and with a
    carriage return after each line feed; the console and the registers of
    the UART are not touched, output is switched back to the console, and the
    length of the text is returned. *)
Theorem kprintf_transmits (l : list item) (o : console (W := W)) :
  Forall item_ok l -> Z.of_nat (length (l ≫= item_text)) <= INT_MAX -> bytes (l ≫= item_text) ->
  (uart_max < fuel)%nat -> dlab (uart (con_serial o)) = false -> loopback (uart (con_serial o)) = false ->
  exists w', kprintf fuel o ((l ≫= item_format) ++ [0]) (l ≫= item_args) =
      Ret (mk_console TERMINAL_OUT (con_tty o) w', Z.of_nat (length (l ≫= item_text))) /\
    uart w' = put_line (uart (con_serial o)) (crlf (l ≫= item_text)).
Proof.
  intros Hl Hm Hb Hf Hd Hlo. destruct (serial_write_transmits fuel (l ≫= item_text) (con_serial o) Hf Hd Hlo)
    as (w' & E & U).
  exists w'. split; [|done]. unfold kprintf, vprintf. rewrite vprintf_loop_ok by (done || lia).
  rewrite print_serial by done. cbn [setoutput con_serial con_tty]. rewrite E. done.
Qed.

Lemma print_terminal (data : list Z) (o : console (W := W)) :
  actualmode o = TERMINAL_OUT -> bytes data ->
  print (Output0 := console_output fuel) o data =
    let! t := terminal_write (con_tty o) data in Ret (mk_console TERMINAL_OUT t (con_serial o)).
Proof using.
  intros Hm Hd. revert o Hm. induction Hd as [|c data Hc _ IH]; intros [m t w] Hm; simpl in Hm; subst m.
  - done.
  - cbn [print terminal_write con_serial con_tty]. unfold putchar. unfold console_output at 1. unfold console_putchar.
    cbn [actualmode Z.eqb TERMINAL_OUT con_serial con_tty terminal_write].
    rewrite !(u8_small c) by (rewrite ?u8_small; lia). destruct (terminal_putchar t c) as [t1| | |]; try done.
    cbn [obind]. by rewrite IH.
Qed.

(** A message on the console is what terminal_write makes of its text; the
    serial line is not touched. *)
Theorem printf_terminal (l : list item) (o : console (W := W)) :
  Forall item_ok l -> Z.of_nat (length (l ≫= item_text)) <= INT_MAX -> bytes (l ≫= item_text) ->
  printf fuel o ((l ≫= item_format) ++ [0]) (l ≫= item_args) =
    let! t := terminal_write (con_tty o) (l ≫= item_text) in
    Ret (mk_console TERMINAL_OUT t (con_serial o), Z.of_nat (length (l ≫= item_text))).
Proof.
  intros Hl Hm Hb. unfold printf, vprintf. rewrite vprintf_loop_ok by (done || lia).
  rewrite print_terminal by done. cbn [setoutput con_serial con_tty].
  by destruct (terminal_write (con_tty o) (l ≫= item_text)).
Qed.
End Outputs.

(** ** Examples *)

(** Output collected in a list. *)
#[local] Instance log_output : Output (list Z) := fun o c => Ret (o ++ [c]).

(** "a%s %0d%x" *)
Definition items0 : list item := [Chr 97; ConvS [98; 99; 0]; Chr 32; ConvD 1 305; ConvX 0 48879].

Lemma vprintf_renders_witness :
  vprintf ([] : list Z) [97; 37; 115; 32; 37; 48; 100; 37; 120; 0]
    [VStr [98; 99; 0]; VInt 305; VInt 48879] =
  Ret ([97; 98; 99; 32; 51; 48; 53; 98; 101; 101; 102], 11).
Proof.
  refine (eq_trans (vprintf_renders items0 ([] : list Z) _ _) _); [|by vm_compute..].
  repeat constructor; done.
Defined.

Lemma kprintf_transmits_witness :
  exists w', kprintf 2 (mk_console 0 blank_tty (uart_reset, true)) [37; 100; 10; 0] [VInt 42] =
      Ret (mk_console 0 blank_tty w', 3) /\ line (uart w') = [52; 50; 10; 13].
Proof.
  destruct (kprintf_transmits 2 [ConvD 0 42; Chr 10] (mk_console 0 blank_tty (uart_reset, true)))
    as (w' & E & U); [repeat constructor; done|by vm_compute|repeat constructor; done|cbn; lia|done|done|].
  exists w'. split; [exact E|]. by rewrite U.
Defined.

(** With the flag [#] the prefix is printed and the last two digits are not. *)
Theorem alternate_form_truncated :
  vprintf ([] : list Z) [37; 35; 120; 0] [VInt 0xABCD] = Ret ([48; 120; 97; 98], 4).
Proof. by vm_compute. Qed.
