(* ===== verification/Tables.v ===== *)
(** What the caches rely on of their table: a bounded map from 64-bit keys to
    pointers.  The caches are written and proved against the interface; the
    hash table without resizing implements it. *)

From Stdlib Require Import ZArith Lia.
From stdpp Require Import base numbers list gmap.
From S2P Require Import Prelude Cstring HashTable.

Class KTable (T : Type) := {
  tget : T -> Z -> outcome Z;
  tset : T -> Z -> Z -> outcome (Z * T);
  tremove : T -> Z -> outcome (Z * T);
}.

Class KTableLaws (T : Type) `{!KTable T} := {
  tbl_ok : T -> Prop;
  tbl_map : T -> gmap Z Z;
  (** a new key can be stored, and how many more *)
  tbl_room : T -> bool;
  tbl_slots : T -> Z;
  tbl_room_slots t : tbl_room t = (0 <? tbl_slots t);
  tget_ok t k : tbl_ok t -> tget t k = Ret (default 0 (tbl_map t !! k));
  tset_room t k v : tbl_ok t -> tbl_map t !! k = None -> tbl_room t = true ->
    exists t', tset t k v = Ret (0, t') /\ tbl_ok t' /\ tbl_map t' = <[k := v]> (tbl_map t) /\
      tbl_slots t - 1 <= tbl_slots t';
  tset_full t k v : tbl_ok t -> tbl_room t = false -> tset t k v = Ret (-1, t);
  tremove_ok t k : tbl_ok t -> is_Some (tbl_map t !! k) ->
    exists t', tremove t k = Ret (0, t') /\ tbl_ok t' /\ tbl_map t' = delete k (tbl_map t);
}.

Section Hash.

(** The keys are numbers: what strings are is of no account. *)
Definition num_table := hash_table_t.

#[export] Instance hash_ktable : KTable num_table := {
  tget t k := ht_get no_str t k;
  tset t k v := ht_set no_str zeroed 1 t k v;
  tremove t k := ht_remove no_str t k;
}.

Definition num_ok (t : num_table) : Prop := ht_wf no_str t /\ flag t = 0.

Definition num_map (t : num_table) : gmap Z Z :=
  list_to_map (omap (fun e => if e_state e =? HT_VALID then Some (e_key e, e_value e) else None) (entries t)).

Lemma num_kid (t : num_table) (k : Z) : flag t = 0 -> kid no_str t k = inr k.
Proof. intros H. unfold kid, is_ptrkey. by rewrite H. Qed.

(** The map with keys as [kid] and the map with numbers. *)
Lemma num_map_lookup (t : num_table) (k : Z) :
  flag t = 0 -> num_map t !! k = ht_map no_str t !! inr k.
Proof.
  intros H. unfold num_map, ht_map. induction (entries t) as [|e es IH]; [done|].
  cbn [omap list_omap]. unfold valid_pair at 1. rewrite num_kid by done.
  destruct (e_state e =? HT_VALID); [|done].
  rewrite !list_to_map_cons.
  destruct (decide (e_key e = k)) as [<-|Hne].
  - by rewrite !lookup_insert_eq.
  - rewrite !lookup_insert_ne by congruence. done.
Qed.

#[export] Program Instance hash_ktable_laws : KTableLaws num_table := {
  tbl_ok := num_ok;
  tbl_map := num_map;
  tbl_room t := 100 * ht_size t <=? ht_capacity t * max_load t;
  tbl_slots t := (ht_capacity t * max_load t) `div` 100 - ht_size t + 1;
}.
Next Obligation.
  intros t. pose proof (Z.div_mod (ht_capacity t * max_load t) 100 ltac:(lia)).
  pose proof (Z.mod_pos_bound (ht_capacity t * max_load t) 100 ltac:(lia)).
  destruct (Z.leb_spec (100 * ht_size t) (ht_capacity t * max_load t)),
    (Z.ltb_spec 0 ((ht_capacity t * max_load t) `div` 100 - ht_size t + 1)); done || lia.
Qed.
Next Obligation.
  intros t k [W F]. cbn. rewrite ht_get_map by done. by rewrite num_kid, num_map_lookup.
Qed.
Next Obligation.
  intros t k v [W F] Hn Hr%Z.leb_le. cbn [tset hash_ktable]. rewrite ht_set_load_ok by done.
  rewrite num_map_lookup in Hn by done.
  destruct (ht_insert_map no_str t k v W Hr) as (t' & E & W' & M & (Ec & El & F') & Hs).
  { left. by rewrite num_kid. }
  exists t'. split; [done|]. split; [by split; [|congruence]|]. split; [|rewrite Ec, El; lia]. apply map_eq. intros x.
  rewrite num_map_lookup by congruence. rewrite M, num_kid by done.
  destruct (decide (x = k)) as [->|]; [by rewrite !lookup_insert_eq|].
  by rewrite !lookup_insert_ne, num_map_lookup by congruence.
Qed.
Next Obligation.
  intros t k v [W F] Hr%Z.leb_gt. cbn [tset hash_ktable ht_set]. rewrite (load_test no_str) by done.
  destruct (Z.ltb_spec (ht_capacity t * max_load t) (ht_size t * 100)); [|lia].
  unfold is_resize. by rewrite F.
Qed.
Next Obligation.
  intros t k [W F] [v Hv]. cbn [tremove hash_ktable]. rewrite num_map_lookup in Hv by done.
  pose proof (ht_remove_map no_str t k W) as HR. rewrite num_kid, Hv in HR by done.
  destruct HR as (t' & E & W' & M & (_ & _ & F')). exists t'. split; [done|].
  split; [by split; [|congruence]|]. apply map_eq. intros x.
  rewrite num_map_lookup by congruence. rewrite M.
  destruct (decide (x = k)) as [->|]; [by rewrite !lookup_delete_eq|].
  by rewrite !lookup_delete_ne, num_map_lookup by congruence.
Qed.
End Hash.

(** The empty table the caches of blocks and of inodes start with. *)
Definition cache_table : num_table := small_table 67 75 0.

Lemma cache_table_ok : tbl_ok cache_table /\ tbl_map cache_table = ∅.
Proof. split; [split; [|done]|by vm_compute]. apply (fresh_wf no_str 67 75 0); lia. Qed.

(** ** Tables with strings as keys *)

Section Strings.
Context (str str' : Z -> list Z) (t : hash_table_t).

(** The valid keys. *)
Definition key_of (p : Z) : Prop :=
  exists e, e ∈ entries t /\ e_state e = HT_VALID /\ u32 (e_key e) = p.

Context (Hstr : forall p, key_of p -> str' p = str p).

Lemma kid_agree (e : hash_entry_t) :
  e ∈ entries t -> e_state e = HT_VALID -> kid str' t (e_key e) = kid str t (e_key e).
Proof using Hstr.
  intros He Hv. unfold kid. destruct (is_ptrkey t); [|done]. rewrite Hstr; [done|]. by exists e.
Qed.

Lemma home_agree (e : hash_entry_t) :
  e ∈ entries t -> e_state e = HT_VALID -> home str' t (e_key e) = home str t (e_key e).
Proof using Hstr.
  intros He Hv. unfold home, ht_key. destruct (is_ptrkey t); [|done]. rewrite Hstr; [done|]. by exists e.
Qed.

Lemma ent_elem (p : Z) : e_state (ent t p) = HT_VALID -> ent t p ∈ entries t.
Proof using.
  unfold ent, znth. destruct (entries t !! Z.to_nat p) as [e|] eqn:E; [|done].
  intros _. by apply (list_elem_of_lookup_2 _ (Z.to_nat p)).
Qed.

(** Strings that are not keys may change. *)
Lemma ht_wf_agree : ht_wf str t -> ht_wf str' t /\ ht_map str' t = ht_map str t.
Proof using Hstr.
  intros W. split.
  - split; [apply (wf_cap _ _ W)|apply (wf_len _ _ W)|apply (wf_size _ _ W)|apply (wf_load _ _ W)|apply (wf_room _ _ W)|..].
    + intros p j Hp Hv. rewrite home_agree by (done || by apply ent_elem). by apply (wf_probe _ _ W).
    + intros p q Hp Hq Hvp Hvq. rewrite !kid_agree by (done || by apply ent_elem). by apply (wf_uniq _ _ W).
  - unfold ht_map. f_equal. assert (Hs : forall e, e ∈ entries t -> valid_pair str' t e = valid_pair str t e).
    { intros e He. unfold valid_pair. destruct (Z.eqb_spec (e_state e) HT_VALID); [|done]. by rewrite kid_agree. }
    induction (entries t) as [|e es IH]; [done|]. cbn [omap list_omap].
    rewrite Hs by left. rewrite IH; [done|]. intros e' He'. apply Hs. by right.
Qed.
End Strings.
