(* ===== verification/Lru.v ===== *)
(** The list of unused objects of a cache: the doubly linked list that
    src/src/kernel/fs/bio.c and inode.c keep with the same code, with its
    pointers.  The other members of the objects are in the files of the two
    caches. *)

From Stdlib Require Import ZArith Lia.
From stdpp Require Import base numbers list gmap.
From S2P Require Import Prelude.

(** [links] has the members [next] and [prev] of every allocated object; NULL
    is 0, and no object is at 0. *)
Record lru := mk_lru { links : gmap Z (Z * Z); lhead : Z; ltail : Z }.

Definition next_of (l : lru) (p : Z) : outcome Z :=
  match links l !! p with Some (n, _) => Ret n | None => Undef end.
Definition prev_of (l : lru) (p : Z) : outcome Z :=
  match links l !! p with Some (_, q) => Ret q | None => Undef end.
Definition set_next (l : lru) (p n : Z) : outcome lru :=
  match links l !! p with
  | Some (_, q) => Ret (mk_lru (<[p := (n, q)]> (links l)) (lhead l) (ltail l))
  | None => Undef
  end.
Definition set_prev (l : lru) (p q : Z) : outcome lru :=
  match links l !! p with
  | Some (n, _) => Ret (mk_lru (<[p := (n, q)]> (links l)) (lhead l) (ltail l))
  | None => Undef
  end.

(** Taking an object off the list. *)
Definition lru_remove (l : lru) (buf : Z) : outcome lru :=
  let! n := next_of l buf in
  let! q := prev_of l buf in
  if (n =? 0) && (q =? 0) then Panic
  else if (lhead l =? 0) && (ltail l =? 0) then Panic
  else
    let! l :=
      if buf =? lhead l then
        let! n := next_of l buf in
        set_prev (mk_lru (links l) n (ltail l)) n 0
      else Ret l in
    let! l :=
      if buf =? ltail l then
        let! q := prev_of l buf in
        set_next (mk_lru (links l) (lhead l) q) q 0
      else Ret l in
    if negb (buf =? ltail l) && negb (buf =? lhead l) then
      let! q := prev_of l buf in
      let! n := next_of l buf in
      let! l := set_next l q n in
      let! n := next_of l buf in
      let! q := prev_of l buf in
      set_prev l n q
    else Ret l.

(** Putting an object in front. *)
Definition lru_push (l : lru) (buf : Z) : outcome lru :=
  let! l :=
    if lhead l =? 0 then Ret (mk_lru (links l) (lhead l) buf)
    else set_prev l (lhead l) buf in
  let! l := set_next l buf (lhead l) in
  Ret (mk_lru (links l) buf (ltail l)).

(** ** The list the pointers represent *)

(** The member [prev] of the first object is not constrained: the code does not
    reset it. *)
Record lru_repr (l : lru) (s : list Z) : Prop := {
  lr_head : lhead l = default 0 (head s);
  lr_tail : ltail l = default 0 (last s);
  lr_nodup : NoDup s;
  lr_null : links l !! 0 = None;
  lr_next i p : s !! i = Some p -> exists q, links l !! p = Some (default 0 (s !! S i), q);
  lr_prev i p q : s !! i = Some q -> s !! S i = Some p -> exists n, links l !! p = Some (n, q);
}.

(** What the list does not own. *)
Definition same_links (l l' : lru) (except : list Z) : Prop :=
  dom (links l') = dom (links l) /\
  forall p, p ∉ except -> links l' !! p = links l !! p.

Lemma lru_nonnull (l : lru) (s : list Z) (p : Z) : lru_repr l s -> p ∈ s -> p <> 0.
Proof.
  intros H (i & Hi)%list_elem_of_lookup ->. destruct (lr_next _ _ H i 0 Hi) as [q Hq].
  by rewrite (lr_null _ _ H) in Hq.
Qed.

Lemma lru_links (l : lru) (s : list Z) (p : Z) : lru_repr l s -> p ∈ s -> is_Some (links l !! p).
Proof. intros H (i & Hi)%list_elem_of_lookup. destruct (lr_next _ _ H i p Hi) as [q Hq]. eauto. Qed.

Lemma lru_head_null (l : lru) (s : list Z) : lru_repr l s -> lhead l = 0 <-> s = [].
Proof.
  intros H. rewrite (lr_head _ _ H). destruct s as [|p s]; simpl; [done|].
  split; [|done]. intros ->. by destruct (lru_nonnull l (0 :: s) 0 H ltac:(left)).
Qed.

Lemma lru_tail_null (l : lru) (s : list Z) : lru_repr l s -> ltail l = 0 <-> s = [].
Proof.
  intros H. rewrite (lr_tail _ _ H). split; [|by intros ->].
  destruct (last s) as [p|] eqn:E; [|by apply last_None in E]. cbn. intros ->.
  apply last_Some_elem_of in E. by destruct (lru_nonnull l s 0 H E).
Qed.

(** An object that is allocated and not on the list can be put in front. *)
Lemma lru_push_repr (l : lru) (s : list Z) (p : Z) :
  lru_repr l s -> p ∉ s -> is_Some (links l !! p) ->
  exists l', lru_push l p = Ret l' /\ lru_repr l' (p :: s) /\ same_links l l' (p :: s).
Proof.
  intros H Hp [[n q] Hl]. assert (p <> 0) by (intros ->; by rewrite (lr_null _ _ H) in Hl).
  unfold lru_push. pose proof (lru_head_null l s H) as Hh.
  destruct s as [|h s].
  - assert (lhead l = 0) as E by (by apply Hh). rewrite E. cbn [Z.eqb obind]. unfold set_next.
    cbn [links lhead]. rewrite Hl. cbn [obind links ltail].
    eexists. split; [done|]. split.
    + split; cbn; [done|done|by apply NoDup_singleton|by rewrite lookup_insert_ne, (lr_null _ _ H)|..].
      * intros [|i] x; [|done]. intros [= <-]. exists q. by rewrite lookup_insert_eq.
      * by intros [|i] x y.
    + split; [cbn; rewrite dom_insert_L; apply elem_of_dom_2 in Hl; set_solver|].
      intros x Hx. cbn. rewrite lookup_insert_ne; [done|set_solver].
  - assert (lhead l = h) as E by (by rewrite (lr_head _ _ H)).
    assert (h <> 0) as Hnz by (apply (lru_nonnull l (h :: s)); [done|left]). rewrite E.
    destruct (Z.eqb_spec h 0); [done|].
    destruct (lr_next _ _ H 0%nat h eq_refl) as [qh Hhl]. unfold set_prev. rewrite Hhl. cbn [obind].
    assert (p <> h) by set_solver. unfold set_next. cbn [links lhead ltail].
    rewrite lookup_insert_ne, Hl by done. cbn [obind links ltail].
    eexists. split; [done|]. split.
    + split; cbn.
      * done.
      * rewrite (lr_tail _ _ H). by destruct s.
      * apply NoDup_cons. split; [done|]. exact (lr_nodup _ _ H).
      * rewrite !lookup_insert_ne by done. apply (lr_null _ _ H).
      * intros [|i] x; cbn; intros Hx.
        { injection Hx as <-. exists q. by rewrite lookup_insert_eq, E. }
        assert (x <> p) by (intros ->; apply Hp, list_elem_of_lookup; eauto).
        rewrite lookup_insert_ne by done. destruct (lr_next _ _ H i x Hx) as [qx Hqx].
        destruct (decide (x = h)) as [->|]; [|rewrite lookup_insert_ne by done; eauto].
        rewrite lookup_insert_eq. exists p. do 2 f_equal.
        change (default 0 ((h :: s) !! 1%nat) = default 0 ((h :: s) !! S i)). congruence.
      * intros [|i] x y; cbn; intros Hy Hx.
        { injection Hy as <-. injection Hx as <-. rewrite lookup_insert_ne, lookup_insert_eq by done. eauto. }
        assert (x <> h).
        { intros ->. pose proof (lr_nodup _ _ H) as [Hnd _]%NoDup_cons.
          by apply Hnd, (list_elem_of_lookup_2 _ i). }
        assert (x <> p) by (intros ->; apply Hp; right; by apply (list_elem_of_lookup_2 _ i)).
        rewrite !lookup_insert_ne by done. by apply (lr_prev _ _ H i x y).
    + split.
      * cbn. rewrite !dom_insert_L. apply elem_of_dom_2 in Hl, Hhl. set_solver.
      * intros x Hx. cbn. rewrite !lookup_insert_ne; [done|set_solver..].
Qed.

(** Its member [prev] is left as it is. *)
Lemma lru_push_prev (l l' : lru) (s : list Z) (p : Z) :
  lru_repr l s -> p ∉ s -> lru_push l p = Ret l' -> prev_of l' p = prev_of l p.
Proof.
  intros H Hp E. unfold lru_push in E. apply obind_inv in E as (l1 & E1 & E).
  apply obind_inv in E as (l2 & E2 & [= <-]).
  assert (E3 : links l1 !! p = links l !! p).
  { destruct (Z.eqb_spec (lhead l) 0) as [|Hz]; [by injection E1 as <-|].
    unfold set_prev in E1. destruct (links l !! lhead l) as [[n q]|]; [|done]. injection E1 as <-. cbn.
    rewrite lookup_insert_ne; [done|]. intros <-. apply Hp. rewrite (lr_head _ _ H) in *. destruct s; [done|]. by left. }
  unfold set_next in E2. destruct (links l1 !! p) as [[n q]|] eqn:E4; [|done]. injection E2 as <-.
  unfold prev_of. cbn. by rewrite lookup_insert_eq, <- E3.
Qed.

(** A new object is not on the list, and its links do not matter to it. *)
Lemma lru_repr_alloc (fr : lru) (l : list Z) (p : Z) (x : Z * Z) :
  lru_repr fr l -> p ∉ l -> p <> 0 ->
  lru_repr (mk_lru (<[p := x]> (links fr)) (lhead fr) (ltail fr)) l.
Proof.
  intros H Hp H0. split; cbn; [apply (lr_head _ _ H)|apply (lr_tail _ _ H)|apply (lr_nodup _ _ H)| | |].
  - rewrite lookup_insert_ne by done. apply (lr_null _ _ H).
  - intros i q Hq. rewrite lookup_insert_ne; [by apply (lr_next _ _ H)|].
    intros <-. by apply Hp, (list_elem_of_lookup_2 _ i).
  - intros i q r Hr Hq. rewrite lookup_insert_ne; [by apply (lr_prev _ _ H i)|].
    intros <-. by apply Hp, (list_elem_of_lookup_2 _ (S i)).
Qed.

Section Remove.
Context (l : lru) (s1 s2 : list Z) (a p b : Z).
Context (H : lru_repr l (s1 ++ a :: p :: b :: s2)).

Lemma inside_links :
  (exists qa, links l !! a = Some (p, qa)) /\ links l !! p = Some (b, a) /\
  (exists nb, links l !! b = Some (nb, p)) /\ a <> p /\ b <> p /\ a <> b /\
  p <> lhead l /\ p <> ltail l.
Proof using H.
  assert (La : (s1 ++ a :: p :: b :: s2) !! length s1 = Some a) by (by rewrite lookup_app_r, Nat.sub_diag).
  assert (Lp : (s1 ++ a :: p :: b :: s2) !! S (length s1) = Some p)
    by (rewrite lookup_app_r by lia; by replace (S (length s1) - length s1)%nat with 1%nat by lia).
  assert (Lb : (s1 ++ a :: p :: b :: s2) !! S (S (length s1)) = Some b)
    by (rewrite lookup_app_r by lia; by replace (S (S (length s1)) - length s1)%nat with 2%nat by lia).
  destruct (lr_next _ _ H _ _ La) as [qa Ha]. destruct (lr_next _ _ H _ _ Lp) as [qp Hp].
  destruct (lr_next _ _ H _ _ Lb) as [qb Hb].
  destruct (lr_prev _ _ H _ _ _ La Lp) as [np Hp']. destruct (lr_prev _ _ H _ _ _ Lp Lb) as [nb Hb'].
  rewrite Lp in Ha. rewrite Lb in Hp. cbn in Ha, Hp.
  pose proof (lr_nodup _ _ H) as Hnd. apply NoDup_app in Hnd as (_ & Hd & Hnd).
  rewrite !NoDup_cons in Hnd. destruct Hnd as (Ha' & Hpn & Hbn & _).
  split_and!; [by eexists|congruence|by eexists|set_solver|set_solver|set_solver|..].
  - rewrite (lr_head _ _ H). destruct s1 as [|x s1']; cbn; [set_solver|].
    intros ->. apply (Hd x); set_solver.
  - rewrite (lr_tail _ _ H). rewrite last_app. cbn.
    destruct (last (b :: s2)) as [y|] eqn:E; [|by apply last_None in E].
    apply last_Some_elem_of in E. cbn. cbn in E. intros ->. apply Hpn.
    destruct s2; set_solver.
Qed.

(** The list without [p]. *)
Lemma without_lookup (i : nat) :
  (s1 ++ a :: b :: s2) !! i = (s1 ++ a :: p :: b :: s2) !! (if decide (i <= length s1)%nat then i else S i).
Proof using.
  destruct (decide (i <= length s1)%nat) as [Hle|Hgt].
  - destruct (decide (i = length s1)) as [->|]; [by rewrite !lookup_app_r, Nat.sub_diag|].
    by rewrite !lookup_app_l by lia.
  - rewrite !lookup_app_r by lia. replace (S i - length s1)%nat with (S (i - length s1)) by lia.
    destruct (i - length s1)%nat as [|k] eqn:E; [lia|]. done.
Qed.

Lemma remove_inside_repr (qa nb : Z) :
  links l !! a = Some (p, qa) -> links l !! b = Some (nb, p) -> a <> b ->
  lru_repr (mk_lru (<[b := (nb, a)]> (<[a := (b, qa)]> (links l))) (lhead l) (ltail l))
    (s1 ++ a :: b :: s2).
Proof using H.
  intros Ha Hb Hab.
  assert (La : (s1 ++ a :: p :: b :: s2) !! length s1 = Some a) by (by rewrite lookup_app_r, Nat.sub_diag).
  assert (Lb : (s1 ++ a :: p :: b :: s2) !! S (S (length s1)) = Some b)
    by (rewrite lookup_app_r by lia; by replace (S (S (length s1)) - length s1)%nat with 2%nat by lia).
  pose proof (lr_nodup _ _ H) as Hnd.
  assert (Uniq : forall i j x, (s1 ++ a :: p :: b :: s2) !! i = Some x ->
    (s1 ++ a :: p :: b :: s2) !! j = Some x -> i = j) by (intros; by eapply NoDup_lookup).
  assert (a <> 0 /\ b <> 0) as [Ha0 Hb0].
  { split; intros ->; rewrite (lr_null _ _ H) in *; done. }
  split; cbn [lhead ltail links].
  - rewrite (lr_head _ _ H). by destruct s1.
  - rewrite (lr_tail _ _ H), !last_app. done.
  - eapply sublist_NoDup; [exact Hnd|]. apply sublist_app; [done|]. apply sublist_skip, sublist_cons. done.
  - rewrite !lookup_insert_ne by done. apply (lr_null _ _ H).
  - intros i x Hx. rewrite without_lookup in Hx. rewrite without_lookup.
    destruct (decide (i <= length s1)%nat) as [Hi|Hi].
    + destruct (decide (i = length s1)) as [->|Hne].
      * rewrite La in Hx. injection Hx as <-. destruct (decide (S (length s1) <= length s1)%nat); [lia|].
        rewrite Lb. rewrite lookup_insert_ne, lookup_insert_eq by done. by eexists.
      * destruct (decide (S i <= length s1)%nat); [|lia].
        assert (x <> a) by (intros ->; pose proof (Uniq _ _ _ Hx La); lia).
        assert (x <> b) by (intros ->; pose proof (Uniq _ _ _ Hx Lb); lia).
        rewrite !lookup_insert_ne by done. by apply (lr_next _ _ H).
    + destruct (decide (S i <= length s1)%nat); [lia|].
      assert (x <> a) by (intros ->; pose proof (Uniq _ _ _ Hx La); lia).
      destruct (lr_next _ _ H _ _ Hx) as [q Hq]. destruct (decide (x = b)) as [->|].
      * rewrite lookup_insert_eq. rewrite Hb in Hq. simplify_eq. by eexists.
      * rewrite !lookup_insert_ne by done. eauto.
  - intros i x y Hy Hx. rewrite without_lookup in Hx, Hy.
    destruct (decide (i <= length s1)%nat) as [Hi|Hi]; destruct (decide (S i <= length s1)%nat) as [Hi'|Hi'];
      [..|lia|].
    + assert (x <> b) by (intros ->; pose proof (Uniq _ _ _ Hx Lb); lia).
      rewrite lookup_insert_ne by done. destruct (lr_prev _ _ H _ _ _ Hy Hx) as [n Hn].
      destruct (decide (x = a)) as [->|]; [|rewrite lookup_insert_ne by done; eauto].
      rewrite lookup_insert_eq. rewrite Ha in Hn. simplify_eq. eauto.
    + assert (i = length s1) as -> by lia. rewrite La in Hy. rewrite Lb in Hx. simplify_eq.
      rewrite lookup_insert_eq. eauto.
    + assert (x <> a) by (intros ->; pose proof (Uniq _ _ _ Hx La); lia).
      assert (x <> b) by (intros ->; pose proof (Uniq _ _ _ Hx Lb); lia).
      rewrite !lookup_insert_ne by done. by apply (lr_prev _ _ H _ _ _ Hy).
Qed.

(** An object between two others is taken off. *)
Lemma lru_remove_inside :
  exists l', lru_remove l p = Ret l' /\ lru_repr l' (s1 ++ a :: b :: s2) /\ same_links l l' [a; b].
Proof using H.
  destruct inside_links as ([qa Ha] & Hp & [nb Hb] & Hap & Hbp & Hab & Hh & Ht).
  pose proof (lr_null _ _ H) as H0.
  assert (a <> 0) by (intros ->; by rewrite H0 in Ha). assert (b <> 0) by (intros ->; by rewrite H0 in Hb).
  assert (Hhz : lhead l <> 0) by (rewrite (lru_head_null _ _ H); by destruct s1).
  unfold lru_remove, next_of, prev_of. rewrite Hp. cbn [obind].
  destruct (Z.eqb_spec b 0); [done|]. destruct (Z.eqb_spec (lhead l) 0); [done|]. cbn [andb].
  destruct (Z.eqb_spec p (lhead l)); [done|]. cbn [obind]. destruct (Z.eqb_spec p (ltail l)); [done|].
  cbn [obind]. destruct (Z.eqb_spec p (lhead l)); [done|]. destruct (Z.eqb_spec p (ltail l)); [done|].
  cbn [negb andb]. rewrite Hp. cbn [obind]. unfold set_next. rewrite Ha. cbn [obind links].
  rewrite lookup_insert_ne, Hp by done. cbn [obind]. unfold set_prev. cbn [links lhead ltail].
  rewrite lookup_insert_ne, Hb by done. eexists. split; [done|]. split; [by apply remove_inside_repr|].
  split.
  - cbn. rewrite !dom_insert_L. apply elem_of_dom_2 in Ha, Hb. set_solver.
  - intros x Hx. cbn. rewrite !lookup_insert_ne; [done|set_solver..].
Qed.
End Remove.

(** The only object of the list cannot be taken off: the code takes it for one
    that is not on the list. *)
Lemma lru_remove_sole (l : lru) (p : Z) :
  lru_repr l [p] -> prev_of l p = Ret 0 -> lru_remove l p = Panic.
Proof.
  intros H Hp. destruct (lr_next _ _ H 0 p eq_refl) as [q Hq]. cbn in Hq.
  unfold lru_remove, next_of. rewrite Hq. cbn [obind]. rewrite Hp. done.
Qed.

(** Taking off the first of several objects goes on to the case of an object
    inside the list, and dereferences its member [prev]. *)
Lemma lru_remove_head (l : lru) (p n : Z) (s : list Z) :
  lru_repr l (p :: n :: s) -> prev_of l p = Ret 0 -> lru_remove l p = Undef.
Proof.
  intros H Hp. destruct (lr_next _ _ H 0 p eq_refl) as [q Hq]. cbn in Hq.
  unfold prev_of in Hp. rewrite Hq in Hp. injection Hp as ->.
  destruct (lr_next _ _ H 1 n eq_refl) as [qn Hn].
  pose proof (lru_nonnull _ _ n H ltac:(set_solver)) as Hn0.
  pose proof (lr_nodup _ _ H) as [Hnd _]%NoDup_cons. assert (p <> n) as Hpn by set_solver.
  assert (lhead l = p) as Eh by (by rewrite (lr_head _ _ H)).
  assert (Hpt : p <> ltail l).
  { rewrite (lr_tail _ _ H). change (last (p :: n :: s)) with (last (n :: s)).
    destruct (last (n :: s)) as [y|] eqn:E; [|by apply last_None in E].
    apply last_Some_elem_of in E. cbn. intros ->. done. }
  unfold lru_remove, next_of, prev_of. rewrite Hq. cbn [obind].
  destruct (Z.eqb_spec n 0); [done|]. cbn [andb]. rewrite Eh.
  assert (p =? 0 = false) as -> by (apply Z.eqb_neq, (lru_nonnull _ _ p H); set_solver). cbn [andb].
  rewrite Z.eqb_refl. unfold set_prev. cbn [links]. rewrite Hn. cbn [obind links ltail lhead].
  destruct (Z.eqb_spec p (ltail l)); [done|]. cbn [obind lhead ltail links].
  destruct (Z.eqb_spec p (ltail l)); [done|]. destruct (Z.eqb_spec p n); [done|]. cbn [negb andb].
  rewrite lookup_insert_ne, Hq by done. cbn [obind]. unfold set_next. cbn [links].
  rewrite lookup_insert_ne, (lr_null _ _ H) by done. done.
Qed.

(** Taking off the last of several objects always dereferences NULL. *)
Lemma lru_remove_tail (l : lru) (s : list Z) (q p : Z) :
  lru_repr l (s ++ [q; p]) -> lru_remove l p = Undef.
Proof.
  intros H.
  assert (Lq : (s ++ [q; p]) !! length s = Some q) by (by rewrite lookup_app_r, Nat.sub_diag).
  assert (Lp : (s ++ [q; p]) !! S (length s) = Some p)
    by (rewrite lookup_app_r by lia; by replace (S (length s) - length s)%nat with 1%nat by lia).
  destruct (lr_next _ _ H _ _ Lq) as [qq Hq]. destruct (lr_next _ _ H _ _ Lp) as [qp Hp].
  destruct (lr_prev _ _ H _ _ _ Lq Lp) as [np Hp']. rewrite Lp in Hq. cbn in Hq.
  rewrite lookup_ge_None_2 in Hp by (rewrite length_app; cbn; lia). cbn in Hp.
  rewrite Hp in Hp'. injection Hp' as <- ->. pose proof (lr_null _ _ H) as H0.
  pose proof (lr_nodup _ _ H) as Hnd. apply NoDup_app in Hnd as (_ & Hd & Hnd).
  apply NoDup_cons in Hnd as [Hqp _]. assert (q <> p) as Hne by set_solver.
  assert (Hq0 : q <> 0) by (intros ->; by rewrite H0 in Hq).
  assert (Hph : p <> lhead l).
  { rewrite (lr_head _ _ H). destruct s as [|x s]; cbn; [done|]. intros ->. apply (Hd x); set_solver. }
  assert (Hh0 : lhead l <> 0) by (rewrite (lru_head_null _ _ H); by destruct s).
  assert (Et : ltail l = p) by (rewrite (lr_tail _ _ H), last_app; done).
  unfold lru_remove, next_of, prev_of. rewrite Hp. cbn [obind].
  destruct (Z.eqb_spec q 0); [done|]. rewrite andb_false_r. destruct (Z.eqb_spec (lhead l) 0); [done|].
  cbn [andb]. destruct (Z.eqb_spec p (lhead l)); [done|]. cbn [obind]. rewrite Et, Z.eqb_refl, Hp.
  cbn [obind]. unfold set_next. cbn [links]. rewrite Hq. cbn [obind links ltail lhead].
  destruct (Z.eqb_spec p q); [congruence|]. destruct (Z.eqb_spec p (lhead l)); [done|]. cbn [negb andb].
  rewrite lookup_insert_ne, Hp by done. cbn [obind links]. rewrite lookup_insert_eq. cbn [obind links].
  rewrite !lookup_insert_ne, Hp by done. cbn [obind]. unfold set_prev. cbn [links].
  by rewrite !lookup_insert_ne, H0 by done.
Qed.
