(* ===== verification/Bio.v ===== *)
(** The block buffer cache (src/src/kernel/fs/bio.c): buffers found through the
    hash table, reference counts, the list of unused buffers, and write-through
    to the disk.  One task at a time is modelled: the mutexes are left out. *)

From Stdlib Require Import ZArith Lia.
From stdpp Require Import base numbers list gmap.
From S2P Require Import Prelude HashTable Tables Lru.

(** ** The disk *)

(** The driver behind the cache: reading [size] bytes at byte [addr] of a
    device through its transfer buffer, and writing. *)
Class Disk (W : Type) := {
  disk_read : W -> Z -> Z -> Z -> outcome (list Z * W);
  disk_write : W -> Z -> Z -> list Z -> outcome W;
}.

(** Whole sectors are read and written faithfully: [disk_ok] is the driver in
    order, [disk_valid d a n] a stretch the driver can transfer and the device
    has. *)
Class DiskLaws (W : Type) `{!Disk W} := {
  content : W -> Z -> Z -> Z;
  disk_ok : W -> Prop;
  disk_valid : Z -> Z -> Z -> Prop;
  disk_read_ok w d a n : disk_ok w -> disk_valid d a n -> 0 <= a < 2 ^ 32 -> 0 < n -> a mod 512 = 0 -> n mod 512 = 0 ->
    exists w', disk_read w d a n = Ret (map (fun i => content w d (a + Z.of_nat i)) (seq 0 (Z.to_nat n)), w') /\
      disk_ok w' /\ forall d x, content w' d x = content w d x;
  disk_write_ok w d a l : disk_ok w -> disk_valid d a (Z.of_nat (length l)) ->
    0 <= a < 2 ^ 32 -> l <> [] -> a mod 512 = 0 -> Z.of_nat (length l) mod 512 = 0 ->
    exists w', disk_write w d a l = Ret w' /\ disk_ok w' /\
      forall d' x, content w' d' x =
        if (d' =? d) && (a <=? x) && (x <? a + Z.of_nat (length l)) then znth 0 l (x - a)
        else content w d' x;
}.

(** ** The cache *)

Definition BIO_TABLE_SIZE : Z := 50.
Definition BIO_LOAD_FACTOR : Z := 75.

(** The members of [bio_buf_t] but the links. *)
Record bio_buf_t := mk_buf {
  b_device : Z;
  b_block : Z;
  b_ref : Z;
  b_valid : Z;
  b_size : Z;
  b_data : list Z;
}.

Section Cache.
Context {T W : Type} `{!KTable T} `{!Disk W}.

(** What [kmalloc] returns for a buffer: an address no buffer has, and memory
    with any contents. *)
Context (alloc : gmap Z bio_buf_t -> Z) (junk : Z -> Z -> list Z).

(** [bio_head], the allocated buffers and the disk. *)
Record bio := mk_bio { table : T; bufs : gmap Z bio_buf_t; free : lru; disk : W }.

Definition set_bufs (s : bio) (m : gmap Z bio_buf_t) : bio := mk_bio (table s) m (free s) (disk s).
Definition set_free (s : bio) (l : lru) : bio := mk_bio (table s) (bufs s) l (disk s).
Definition set_table (s : bio) (t : T) : bio := mk_bio t (bufs s) (free s) (disk s).

Definition buf_at (s : bio) (p : Z) : outcome bio_buf_t :=
  match bufs s !! p with Some b => Ret b | None => Undef end.

Definition with_ref (b : bio_buf_t) (r : Z) : bio_buf_t :=
  mk_buf (b_device b) (b_block b) r (b_valid b) (b_size b) (b_data b).
Definition with_data (b : bio_buf_t) (v : Z) (l : list Z) : bio_buf_t :=
  mk_buf (b_device b) (b_block b) (b_ref b) v (b_size b) l.

(** [((uint64_t)device << 32) | block] *)
Definition bio_key (device block : Z) : Z := Z.lor (u64 (Z.shiftl device 32)) block.

Definition bio_alloc (s : bio) (device block size : Z) : Z * bio :=
  let p := alloc (bufs s) in
  (p, mk_bio (table s) (<[p := mk_buf device block 1 0 size (junk p size)]> (bufs s))
        (mk_lru (<[p := (0, 0)]> (links (free s))) (lhead (free s)) (ltail (free s))) (disk s)).

Definition bio_remove (s : bio) (buf : Z) : outcome bio :=
  let! l := lru_remove (free s) buf in Ret (set_free s l).

Definition bio_evict (s : bio) : outcome bio :=
  if ltail (free s) =? 0 then Panic
  else
    let old := ltail (free s) in
    let! b := buf_at s old in
    if negb (b_ref b =? 0) then Panic
    else
      let! (r, t) := tremove (table s) (bio_key (b_device b) (b_block b)) in
      if negb (r =? 0) then Panic
      else
        let! s := bio_remove (set_table s t) old in
        Ret (mk_bio (table s) (delete old (bufs s))
          (mk_lru (delete old (links (free s))) (lhead (free s)) (ltail (free s))) (disk s)).

(** [do { evict; set } while (ret && ltail)], with fuel: every round frees a
    buffer. *)
Fixpoint evict_loop (fuel : nat) (s : bio) (key buf : Z) : outcome (Z * bio) :=
  match fuel with
  | O => NoFuel
  | S fuel =>
      let! s := bio_evict s in
      let! (ret, t) := tset (table s) key buf in
      let s := set_table s t in
      if negb (ret =? 0) && negb (ltail (free s) =? 0) then evict_loop fuel s key buf
      else Ret (ret, s)
  end.

Definition bio_get (s : bio) (device block size : Z) : outcome (Z * bio) :=
  let key := bio_key device block in
  let! buf := tget (table s) key in
  if negb (buf =? 0) then
    let! b := buf_at s buf in
    if negb (size =? b_size b) then Panic
    else
      let s' := set_bufs s (<[buf := with_ref b (b_ref b + 1)]> (bufs s)) in
      let! s' := if b_ref b =? 0 then bio_remove s' buf else Ret s' in
      Ret (buf, s')
  else
    let '(buf, s) := bio_alloc s device block size in
    let! (ret, t) := tset (table s) key buf in
    let s := set_table s t in
    if ret =? 0 then Ret (buf, s)
    else
      let! (ret, s) := evict_loop (S (base.size (bufs s))) s key buf in
      if ret =? 0 then Ret (buf, s) else Panic.

Definition bio_release (s : bio) (buf : Z) : outcome bio :=
  let! b := buf_at s buf in
  let s := set_bufs s (<[buf := with_ref b (b_ref b - 1)]> (bufs s)) in
  if b_ref b - 1 =? 0 then let! l := lru_push (free s) buf in Ret (set_free s l) else Ret s.

Definition bio_read (s : bio) (device block size : Z) : outcome (Z * bio) :=
  let! (buf, s) := bio_get s device block size in
  let! b := buf_at s buf in
  if b_valid b =? 0 then
    let! (l, w) := disk_read (disk s) (u8 device) (u32 (block * size)) size in
    Ret (buf, mk_bio (table s) (<[buf := with_data b 1 l]> (bufs s)) (free s) w)
  else Ret (buf, s).

Definition bio_write (s : bio) (buf : Z) : outcome bio :=
  let! b := buf_at s buf in
  let! w := disk_write (disk s) (u8 (b_device b)) (u32 (b_block b * b_size b)) (b_data b) in
  Ret (mk_bio (table s) (<[buf := with_data b 0 (b_data b)]> (bufs s)) (free s) w).

(** A holder of the buffer changes its bytes. *)
Definition bio_store (s : bio) (buf : Z) (l : list Z) : outcome bio :=
  let! b := buf_at s buf in Ret (set_bufs s (<[buf := with_data b (b_valid b) l]> (bufs s))).

(** [bio_init], with the table from [ht_create]. *)
Definition bio_init (t : T) (w : W) : bio := mk_bio t ∅ (mk_lru ∅ 0 0) w.
End Cache.
Arguments bio T W : clear implicits.

(** ** Keys *)

Definition block_ok (bs device block : Z) : Prop :=
  0 <= device < 4 /\ 0 <= block /\ block * bs < 2 ^ 32.

Lemma bio_key_val (device block : Z) :
  0 <= device < 4 -> 0 <= block < 2 ^ 32 -> bio_key device block = device * 2 ^ 32 + block.
Proof.
  intros Hd Hb. unfold bio_key, u64. rewrite Z.shiftl_mul_pow2 by lia.
  rewrite wrap_small by lia. by apply lor_low.
Qed.

Lemma block_range (bs device block : Z) :
  512 <= bs -> block_ok bs device block -> 0 <= block < 2 ^ 32 /\ block * bs < 2 ^ 32.
Proof. intros ? (? & ? & ?). nia. Qed.

Lemma bio_key_inj (bs d k d' k' : Z) :
  512 <= bs -> block_ok bs d k -> block_ok bs d' k' -> bio_key d k = bio_key d' k' -> d = d' /\ k = k'.
Proof.
  intros Hbs H H'. destruct (block_range bs d k Hbs H). destruct (block_range bs d' k' Hbs H').
  destruct H, H'. rewrite !bio_key_val by lia. lia.
Qed.

(** ** The invariant *)

Section Correct.
Context {T W : Type} `{!KTable T} `{!Disk W} {tl : KTableLaws T} {dl : DiskLaws W}.

(** The size of a block, the same for all buffers. *)
Context (bs : Z).

Definition dbytes (w : W) (d k : Z) : list Z :=
  map (fun i => content w d (k * bs + Z.of_nat i)) (seq 0 (Z.to_nat bs)).

(** A block the driver can transfer. *)
Definition valid_block (d k : Z) : Prop := disk_valid d (k * bs) bs.

(** [l] is the list of the unused buffers. *)
Record bio_ok (s : bio T W) (l : list Z) : Prop := {
  bo_tbl : tbl_ok (table s);
  bo_disk : disk_ok (disk s);
  bo_map k p : tbl_map (table s) !! k = Some p <->
    exists b, bufs s !! p = Some b /\ bio_key (b_device b) (b_block b) = k;
  bo_buf p b : bufs s !! p = Some b ->
    block_ok bs (b_device b) (b_block b) /\ b_size b = bs /\
    length (b_data b) = Z.to_nat bs /\ 0 <= b_ref b;
  bo_valid p b : bufs s !! p = Some b -> valid_block (b_device b) (b_block b);
  bo_dom : dom (links (free s)) = dom (bufs s);
  bo_free : lru_repr (free s) l;
  bo_ref p b : bufs s !! p = Some b -> b_ref b = 0 <-> p ∈ l;
  (** a valid buffer holds what is on the disk *)
  bo_coh p b : bufs s !! p = Some b -> b_valid b <> 0 ->
    b_data b = dbytes (disk s) (b_device b) (b_block b);
}.

Definition same_disk (w w' : W) : Prop := forall d x, content w' d x = content w d x.

Lemma same_dbytes (w w' : W) (d k : Z) : same_disk w w' -> dbytes w' d k = dbytes w d k.
Proof. intros H. unfold dbytes. apply map_ext. intros i. apply H. Qed.

Lemma bo_nonnull (s : bio T W) (l : list Z) (p : Z) (b : bio_buf_t) :
  bio_ok s l -> bufs s !! p = Some b -> p <> 0.
Proof.
  intros H Hb ->. apply elem_of_dom_2 in Hb. rewrite <- (bo_dom s l H) in Hb.
  apply elem_of_dom in Hb as [x Hx]. by rewrite (lr_null _ _ (bo_free s l H)) in Hx.
Qed.

(** Changing a buffer but not its block, size and length. *)
Lemma update_buf (s : bio T W) (l l' : list Z) (p : Z) (b b' : bio_buf_t) (fr : lru) (w : W) :
  bio_ok s l -> disk_ok w -> bufs s !! p = Some b ->
  b_device b' = b_device b -> b_block b' = b_block b -> b_size b' = b_size b ->
  length (b_data b') = length (b_data b) -> 0 <= b_ref b' ->
  lru_repr fr l' -> dom (links fr) = dom (links (free s)) ->
  (b_ref b' = 0 <-> p ∈ l') -> (forall q, q <> p -> q ∈ l' <-> q ∈ l) ->
  (b_valid b' <> 0 -> b_data b' = dbytes w (b_device b) (b_block b)) ->
  (forall q c, q <> p -> bufs s !! q = Some c -> dbytes w (b_device c) (b_block c) =
    dbytes (disk s) (b_device c) (b_block c)) ->
  bio_ok (mk_bio (table s) (<[p := b']> (bufs s)) fr w) l'.
Proof.
  intros H Hdw Hb Ed Ek Es El Er Hf Hdom Hp Hq Hv Hw. destruct (bo_buf s l H p b Hb) as (B1 & B2 & B3 & _).
  split; cbn [table bufs free disk].
  - apply (bo_tbl s l H).
  - done.
  - intros k q. rewrite (bo_map s l H). destruct (decide (q = p)) as [->|].
    + rewrite lookup_insert_eq. split; intros (c & Hc & Hk).
      * exists b'. rewrite Hb in Hc. split; [done|]. congruence.
      * exists b. split; [done|]. congruence.
    + by rewrite lookup_insert_ne.
  - intros q c Hc. destruct (decide (q = p)) as [->|].
    + rewrite lookup_insert_eq in Hc. injection Hc as <-. rewrite Ed, Ek, Es, El. done.
    + rewrite lookup_insert_ne in Hc by done. by apply (bo_buf s l H q).
  - intros q c Hc. destruct (decide (q = p)) as [->|].
    + rewrite lookup_insert_eq in Hc. injection Hc as <-. rewrite Ed, Ek. by apply (bo_valid s l H p).
    + rewrite lookup_insert_ne in Hc by done. by apply (bo_valid s l H q).
  - rewrite Hdom, (bo_dom s l H), dom_insert_L. apply elem_of_dom_2 in Hb. set_solver.
  - done.
  - intros q c Hc. destruct (decide (q = p)) as [->|].
    + rewrite lookup_insert_eq in Hc. by injection Hc as <-.
    + rewrite lookup_insert_ne in Hc by done. rewrite Hq by done. by apply (bo_ref s l H).
  - intros q c Hc Hvc. destruct (decide (q = p)) as [->|].
    + rewrite lookup_insert_eq in Hc. injection Hc as <-. rewrite Ed, Ek. by apply Hv.
    + rewrite lookup_insert_ne in Hc by done. rewrite (Hw q c) by done. by apply (bo_coh s l H q).
Qed.

Definition inside (l : list Z) (p : Z) : Prop :=
  exists s1 a b s2, l = s1 ++ a :: p :: b :: s2.

(** The block is cached in a buffer that is in use or between two others on
    the list of unused ones, or the table has room for it. *)
Definition available (s : bio T W) (l : list Z) (device block : Z) : Prop :=
  match tbl_map (table s) !! bio_key device block with
  | Some p => (exists b, bufs s !! p = Some b /\ 0 < b_ref b) \/ inside l p
  | None => tbl_room (table s) = true
  end.

(** What [bio_get] and [bio_read] leave alone. *)
Definition others_same (s s' : bio T W) (p : Z) : Prop :=
  forall q, q <> p -> bufs s' !! q = bufs s !! q.

Context (bs_ok : 512 <= bs /\ bs mod 512 = 0).

(** The allocator. *)
Context (alloc : gmap Z bio_buf_t -> Z) (junk : Z -> Z -> list Z).
Context (alloc_ok : forall m, alloc m <> 0 /\ m !! alloc m = None).
Context (junk_length : forall p n, length (junk p n) = Z.to_nat n).

Lemma get_hit (s : bio T W) (l : list Z) (device block p : Z) (b : bio_buf_t) :
  bio_ok s l -> tbl_map (table s) !! bio_key device block = Some p -> bufs s !! p = Some b ->
  0 < b_ref b \/ inside l p ->
  exists s' l', bio_get alloc junk s device block bs = Ret (p, s') /\ bio_ok s' l' /\
    bufs s' !! p = Some (with_ref b (b_ref b + 1)) /\ disk s' = disk s /\ others_same s s' p /\
    table s' = table s /\ l' = without p l.
Proof.
  intros H Hm Hb Ha. unfold bio_get. rewrite (tget_ok _ _ (bo_tbl s l H)), Hm. cbn [default obind].
  pose proof (bo_nonnull s l p b H Hb) as Hnz. cbn. destruct (Z.eqb_spec p 0); [done|]. cbn [negb].
  destruct (bo_buf s l H p b Hb) as (B1 & B2 & B3 & B4). unfold buf_at. rewrite Hb. cbn [obind].
  rewrite B2, Z.eqb_refl. cbn [negb]. set (b' := with_ref b (b_ref b + 1)).
  assert (Hos : forall fr, others_same s (mk_bio (table s) (<[p := b']> (bufs s)) fr (disk s)) p).
  { intros fr q Hq. cbn. by rewrite lookup_insert_ne. }
  destruct (Z.eqb_spec (b_ref b) 0) as [Hz|Hz].
  - destruct Ha as [Ha|(s1 & a & c & s2 & ->)]; [lia|].
    unfold bio_remove. cbn [free set_bufs].
    destruct (lru_remove_inside _ _ _ _ _ _ (bo_free _ _ H)) as (fr & -> & Hfr & Hdom & _).
    cbn [obind]. eexists _, (s1 ++ a :: c :: s2). split; [done|]. unfold set_free. cbn [table bufs disk].
    pose proof (lr_nodup _ _ (bo_free _ _ H)) as Hnd.
    assert (p ∉ s1 ++ a :: c :: s2).
    { apply NoDup_app in Hnd as (_ & Hd & Hnd). rewrite !NoDup_cons in Hnd. set_solver. }
    split; [|split; [by cbn; rewrite lookup_insert_eq|split; [done|split; [apply Hos|split; [done|]]]]].
    2: { change (s1 ++ a :: p :: c :: s2) with (s1 ++ [a] ++ p :: c :: s2).
      rewrite (assoc_L app s1 [a]), without_mid, <- app_assoc by set_solver. done. }
    apply (update_buf s (s1 ++ a :: p :: c :: s2) _ p b); try done; cbn.
    + apply (bo_disk _ _ H).
    + lia.
    + split; [lia|done].
    + set_solver.
    + by apply (bo_coh _ _ H p).
  - eexists _, l. cbn [obind]. split; [done|].
    assert (Hpl : p ∉ l) by (intros Hin; by apply (bo_ref s l H p b Hb) in Hin).
    split; [|split; [by cbn; rewrite lookup_insert_eq|split; [done|split; [apply Hos|split; [done|]]]]].
    2: { by rewrite without_notin. }
    apply (update_buf s l _ p b); try done; cbn.
    + apply (bo_disk s l H).
    + lia.
    + by apply (bo_free s l H).
    + split; [lia|]. intros Hin. by apply (bo_ref s l H p b Hb) in Hin.
    + by apply (bo_coh s l H p).
Qed.

Lemma get_miss (s : bio T W) (l : list Z) (device block : Z) :
  bio_ok s l -> block_ok bs device block -> valid_block device block ->
  tbl_map (table s) !! bio_key device block = None -> tbl_room (table s) = true ->
  exists p s', bio_get alloc junk s device block bs = Ret (p, s') /\ bio_ok s' l /\
    bufs s' !! p = Some (mk_buf device block 1 0 bs (junk p bs)) /\ bufs s !! p = None /\
    disk s' = disk s /\ others_same s s' p /\
    tbl_slots (table s) - 1 <= tbl_slots (table s') /\ prev_of (free s') p = Ret 0.
Proof.
  intros H Hblk Hval Hm Hr. unfold bio_get. rewrite (tget_ok _ _ (bo_tbl s l H)), Hm. cbn [default obind].
  cbn. destruct (alloc_ok (bufs s)) as [Hnz Hn]. set (p := alloc (bufs s)) in *.
  destruct (tset_room (table s) (bio_key device block) p (bo_tbl s l H) Hm Hr) as (t & -> & Ht & Mt & Hsl).
  cbn [obind Z.eqb]. eexists p, _. split; [done|]. set (b := mk_buf device block 1 0 bs (junk p bs)).
  assert (Hpl : p ∉ l).
  { intros Hin. apply (lru_links _ _ _ (bo_free s l H)) in Hin as Hs. apply elem_of_dom in Hs.
    rewrite (bo_dom s l H) in Hs. by apply not_elem_of_dom in Hn. }
  split; [|split; [by cbn; rewrite lookup_insert_eq|split; [done|split; [done|split; [|split; [done|]]]]]].
  2: { intros q Hq. cbn. by rewrite lookup_insert_ne. }
  2: { unfold prev_of. cbn. by rewrite lookup_insert_eq. }
  split; cbn [table bufs free disk set_table links].
  - done.
  - apply (bo_disk s l H).
  - intros k q. rewrite Mt. destruct (decide (k = bio_key device block)) as [->|Hk].
    + rewrite lookup_insert_eq. split.
      * intros [= <-]. exists b. by rewrite lookup_insert_eq.
      * intros (c & Hc & Ek). destruct (decide (q = p)) as [->|]; [done|].
        rewrite lookup_insert_ne in Hc by done.
        assert (tbl_map (table s) !! bio_key device block = Some q) by (apply (bo_map s l H); eauto).
        congruence.
    + rewrite lookup_insert_ne by done. rewrite (bo_map s l H). destruct (decide (q = p)) as [->|].
      * rewrite lookup_insert_eq. split; intros (c & Hc & Ek); [congruence|].
        injection Hc as <-. by destruct Hk.
      * by rewrite lookup_insert_ne.
  - intros q c Hc. destruct (decide (q = p)) as [->|].
    + rewrite lookup_insert_eq in Hc. injection Hc as <-. cbn. by split_and!.
    + rewrite lookup_insert_ne in Hc by done. by apply (bo_buf s l H q).
  - intros q c Hc. destruct (decide (q = p)) as [->|].
    + rewrite lookup_insert_eq in Hc. by injection Hc as <-.
    + rewrite lookup_insert_ne in Hc by done. by apply (bo_valid s l H q).
  - rewrite !dom_insert_L. by rewrite (bo_dom s l H).
  - by apply lru_repr_alloc; [apply (bo_free s l H)|..].
  - intros q c Hc. destruct (decide (q = p)) as [->|].
    + rewrite lookup_insert_eq in Hc. injection Hc as <-. done.
    + rewrite lookup_insert_ne in Hc by done. by apply (bo_ref s l H).
  - intros q c Hc Hv. destruct (decide (q = p)) as [->|].
    + rewrite lookup_insert_eq in Hc. injection Hc as <-. done.
    + rewrite lookup_insert_ne in Hc by done. by apply (bo_coh s l H q).
Qed.

(** What taking a buffer for a block changes besides the buffer: a cached one
    leaves the list of unused ones, a new one takes a slot of the table. *)
Definition taken (s s' : bio T W) (l l' : list Z) (device block p : Z) (b : bio_buf_t) : Prop :=
  match tbl_map (table s) !! bio_key device block with
  | Some q => q = p /\ table s' = table s /\ l' = without p l /\
      exists c, bufs s !! p = Some c /\ b_ref b = b_ref c + 1
  | None => bufs s !! p = None /\ l' = l /\ tbl_slots (table s) - 1 <= tbl_slots (table s') /\
      prev_of (free s') p = Ret 0 /\ b_ref b = 1
  end.

Lemma get_available (s : bio T W) (l : list Z) (device block : Z) :
  bio_ok s l -> block_ok bs device block -> valid_block device block -> available s l device block ->
  exists p s' l' b, bio_get alloc junk s device block bs = Ret (p, s') /\ bio_ok s' l' /\
    bufs s' !! p = Some b /\ b_device b = device /\ b_block b = block /\ 0 < b_ref b /\
    disk s' = disk s /\ others_same s s' p /\ taken s s' l l' device block p b.
Proof.
  intros H Hblk Hval Ha. unfold available in Ha. unfold taken.
  destruct (tbl_map (table s) !! bio_key device block) as [p|] eqn:Hm.
  - apply (bo_map s l H) in Hm as Hb. destruct Hb as (b & Hb & Hk).
    destruct (bo_buf s l H p b Hb) as (B1 & B2 & B3 & B4).
    destruct (bio_key_inj bs _ _ _ _ ltac:(lia) B1 Hblk Hk) as [E1 E2].
    assert (Ha' : 0 < b_ref b \/ inside l p) by (destruct Ha as [(c & Hc & Hr)|]; [left; congruence|by right]).
    destruct (get_hit s l device block p b H Hm Hb Ha') as (s' & l' & ? & ? & Hb' & ? & ? & ? & ?).
    exists p, s', l', (with_ref b (b_ref b + 1)). cbn. split_and!; try done; [lia|]. by exists b.
  - destruct (get_miss s l device block H Hblk Hval Hm Ha) as (p & s' & ? & ? & Hb' & ? & ? & ? & ? & ?).
    eexists p, s', l, _. by split_and!.
Qed.

Lemma cached_read_ok (s : bio T W) (l : list Z) (device block : Z) :
  bio_ok s l -> block_ok bs device block -> valid_block device block -> available s l device block ->
  exists p s' l' b, bio_read alloc junk s device block bs = Ret (p, s') /\ bio_ok s' l' /\
    bufs s' !! p = Some b /\ b_device b = device /\ b_block b = block /\ 0 < b_ref b /\
    b_data b = dbytes (disk s) device block /\ same_disk (disk s) (disk s') /\ others_same s s' p /\
    taken s s' l l' device block p b.
Proof.
  intros H Hblk Hval Ha. unfold bio_read.
  destruct (get_available s l device block H Hblk Hval Ha) as (p & s1 & l1 & b & -> & H1 & Hb & Ed & Ek & Er & Edi & Ho & Ht).
  cbn [obind]. unfold buf_at. rewrite Hb. cbn [obind].
  destruct (Z.eqb_spec (b_valid b) 0) as [Hv|Hv].
  - pose proof (block_range bs device block ltac:(lia) Hblk) as [Hk Hkb].
    pose proof Hblk as [Hd _]. rewrite u8_small, u32_small by lia.
    destruct (disk_read_ok (disk s1) device (block * bs) bs) as (w & -> & Hdw & Hw);
      [apply (bo_disk s1 l1 H1)|done|lia|lia| |lia|].
    { rewrite Z.mul_mod, (proj2 bs_ok), Z.mul_0_r by lia. done. }
    cbn [obind]. eexists p, _, l1, _. split; [done|]. destruct (bo_buf s1 l1 H1 p b Hb) as (B1 & B2 & B3 & B4).
    assert (Ew : dbytes (disk s) device block =
      map (fun i => content (disk s1) device (block * bs + Z.of_nat i)) (seq 0 (Z.to_nat bs)))
      by (unfold dbytes; by rewrite Edi).
    split_and!; [|by cbn; rewrite lookup_insert_eq|done|done|done|by rewrite Ew| | |exact Ht].
    + apply (update_buf s1 l1 _ p b); try done; cbn.
      * by rewrite length_map, length_seq.
      * apply (bo_free s1 l1 H1).
      * by apply (bo_ref s1 l1 H1).
      * intros _. rewrite (same_dbytes _ _ _ _ Hw). by rewrite Ed, Ek.
      * intros q c _ _. by apply same_dbytes.
    + cbn. intros d x. by rewrite Hw, Edi.
    + intros q Hq. cbn. rewrite lookup_insert_ne by done. by apply Ho.
  - exists p, s1, l1, b. split_and!; try done.
    + rewrite (bo_coh s1 l1 H1 p b Hb Hv). by rewrite Ed, Ek, Edi.
    + intros d x. by rewrite Edi.
Qed.

(** The blocks of a disk that was written. *)
Lemma written_blocks (w w' : W) (d k : Z) (data : list Z) :
  0 <= k -> length data = Z.to_nat bs ->
  (forall d' x, content w' d' x =
    if (d' =? d) && (k * bs <=? x) && (x <? k * bs + Z.of_nat (length data)) then znth 0 data (x - k * bs)
    else content w d' x) ->
  dbytes w' d k = data /\ forall d' k', (d', k') <> (d, k) -> dbytes w' d' k' = dbytes w d' k'.
Proof.
  intros Hk Hl Hw. split.
  - rewrite <- (znth_list_eq data (Z.to_nat bs) Hl). unfold dbytes. apply map_ext_in.
    intros i Hi%in_seq. rewrite Hw, Z.eqb_refl. cbn [andb].
    destruct (Z.leb_spec (k * bs) (k * bs + Z.of_nat i)); [|lia].
    destruct (Z.ltb_spec (k * bs + Z.of_nat i) (k * bs + Z.of_nat (length data))); [|lia].
    cbn [andb]. f_equal. lia.
  - intros d' k' Hne. unfold dbytes. apply map_ext_in. intros i Hi%in_seq. rewrite Hw.
    destruct (Z.eqb_spec d' d) as [->|]; [|done]. cbn [andb].
    assert (k' <> k) by congruence.
    destruct (Z.leb_spec (k * bs) (k' * bs + Z.of_nat i)); [|done]. cbn [andb].
    destruct (Z.ltb_spec (k' * bs + Z.of_nat i) (k * bs + Z.of_nat (length data))); [|done]. nia.
Qed.

Lemma store_write_ok (s : bio T W) (l : list Z) (p : Z) (b : bio_buf_t) (data : list Z) :
  bio_ok s l -> bufs s !! p = Some b -> length data = Z.to_nat bs ->
  exists s1 s2, bio_store s p data = Ret s1 /\ bio_write s1 p = Ret s2 /\ bio_ok s2 l /\
    dbytes (disk s2) (b_device b) (b_block b) = data /\
    (forall d k, (d, k) <> (b_device b, b_block b) -> dbytes (disk s2) d k = dbytes (disk s) d k) /\
    others_same s s2 p.
Proof.
  intros H Hb Hl. unfold bio_store, bio_write, buf_at. rewrite Hb. cbn [obind].
  eexists _. destruct (bo_buf s l H p b Hb) as (B1 & B2 & B3 & B4).
  pose proof (block_range bs _ _ ltac:(lia) B1) as [Hk Hkb].
  assert (E1 : bufs (set_bufs s (<[p := with_data b (b_valid b) data]> (bufs s))) !! p =
    Some (with_data b (b_valid b) data)) by (cbn; by rewrite lookup_insert_eq).
  pose proof B1 as [Hd _].
  destruct (disk_write_ok (disk s) (b_device b) (b_block b * bs) data) as (w & Ew & Hdw & Hw).
  { apply (bo_disk s l H). }
  { rewrite Hl, Z2Nat.id by lia. apply (bo_valid s l H p b Hb). }
  { lia. }
  { intros ->. cbn in Hl. lia. }
  { rewrite Z.mul_mod, (proj2 bs_ok), Z.mul_0_r by lia. done. }
  { rewrite Hl, Z2Nat.id by lia. apply bs_ok. }
  eexists _. split; [done|]. rewrite E1. cbn [obind with_data b_device b_block b_size b_data disk set_bufs].
  rewrite B2, u8_small, u32_small, Ew by lia. cbn [obind]. split; [done|].
  destruct (written_blocks (disk s) w (b_device b) (b_block b) data ltac:(lia) Hl Hw) as [W1 W2].
  split_and!; cbn [disk table bufs free]; [|done|done|].
  - cbn [bufs set_bufs]. rewrite insert_insert_eq. apply (update_buf s l _ p b); try done; cbn.
    + lia.
    + apply (bo_free s l H).
    + by apply (bo_ref s l H).
    + intros q c Hq Hc. apply W2. intros [= E2 E3]. apply Hq.
      assert (tbl_map (table s) !! bio_key (b_device b) (b_block b) = Some q)
        by (apply (bo_map s l H); exists c; by rewrite E2, E3).
      assert (tbl_map (table s) !! bio_key (b_device b) (b_block b) = Some p)
        by (apply (bo_map s l H); by exists b). congruence.
  - intros q Hq. cbn. by rewrite !lookup_insert_ne.
Qed.

(** What is left alone, and the buffer afterwards. *)
Lemma store_write_effect (s s1 s2 : bio T W) (p : Z) (b : bio_buf_t) (data : list Z) :
  bufs s !! p = Some b -> bio_store s p data = Ret s1 -> bio_write s1 p = Ret s2 ->
  table s2 = table s /\ free s2 = free s /\
  bufs s2 !! p = Some (mk_buf (b_device b) (b_block b) (b_ref b) 0 (b_size b) data).
Proof using.
  intros Hb E1 E2. unfold bio_store, buf_at in E1. rewrite Hb in E1. injection E1 as <-.
  unfold bio_write, buf_at in E2. cbn [bufs set_bufs] in E2. rewrite lookup_insert_eq in E2. cbn [obind] in E2.
  apply obind_inv in E2 as (w & _ & [= <-]). cbn. by rewrite lookup_insert_eq.
Qed.

(** C27: Changing the bytes of a buffer and writing it puts exactly those bytes
    in its block on the disk; every other block of every device keeps its
    bytes, and the cache stays consistent. *)
Theorem bio_write_correct (s : bio T W) (l : list Z) (p : Z) (b : bio_buf_t) (data : list Z) :
  bio_ok s l -> bufs s !! p = Some b -> length data = Z.to_nat bs ->
  exists s1 s2, bio_store s p data = Ret s1 /\ bio_write s1 p = Ret s2 /\ bio_ok s2 l /\
    dbytes (disk s2) (b_device b) (b_block b) = data /\
    (forall d k, (d, k) <> (b_device b, b_block b) -> dbytes (disk s2) d k = dbytes (disk s) d k) /\
    others_same s s2 p.
Proof. apply store_write_ok. Qed.

(** Releasing a buffer: when it is the last use, the buffer becomes the first
    of the unused ones. *)
Theorem bio_release_correct (s : bio T W) (l : list Z) (p : Z) (b : bio_buf_t) :
  bio_ok s l -> bufs s !! p = Some b -> 0 < b_ref b ->
  exists s', bio_release s p = Ret s' /\ bio_ok s' (if b_ref b =? 1 then p :: l else l) /\
    bufs s' !! p = Some (with_ref b (b_ref b - 1)) /\ disk s' = disk s /\ others_same s s' p /\
    table s' = table s /\ prev_of (free s') p = prev_of (free s) p.
Proof using.
  clear bs_ok alloc alloc_ok junk junk_length.
  intros H Hb Hr. unfold bio_release, buf_at. rewrite Hb. cbn [obind].
  destruct (bo_buf s l H p b Hb) as (B1 & B2 & B3 & B4).
  assert (Hp : p ∉ l) by (intros Hin; apply (bo_ref s l H p b Hb) in Hin; lia).
  assert (Hos : forall fr, others_same s (mk_bio (table s) (<[p := with_ref b (b_ref b - 1)]> (bufs s)) fr (disk s)) p).
  { intros fr q Hq. cbn. by rewrite lookup_insert_ne. }
  replace (b_ref b - 1 =? 0) with (b_ref b =? 1) by (destruct (Z.eqb_spec (b_ref b) 1), (Z.eqb_spec (b_ref b - 1) 0); lia || done).
  destruct (Z.eqb_spec (b_ref b) 1) as [E|E].
  - cbn [free set_bufs]. destruct (lru_push_repr (free s) l p (bo_free s l H) Hp) as (fr & Epush & Hfr & Hdom & _).
    { apply elem_of_dom. rewrite (bo_dom s l H). by apply elem_of_dom_2 in Hb. }
    rewrite Epush.
    pose proof (lru_push_prev _ _ _ _ (bo_free s l H) Hp Epush) as Hprev.
    cbn [obind]. eexists. split; [done|]. unfold set_free. cbn [table bufs disk set_bufs free].
    split; [|split; [by cbn; rewrite lookup_insert_eq|split; [done|split; [apply Hos|done]]]].
    apply (update_buf s l _ p b); try done; cbn.
    + apply (bo_disk s l H).
    + lia.
    + split; [intros; set_solver|lia].
    + set_solver.
    + by apply (bo_coh s l H p).
  - eexists. split; [done|]. split; [|split; [by cbn; rewrite lookup_insert_eq|split; [done|split; [apply Hos|done]]]].
    apply (update_buf s l _ p b); try done; cbn.
    + apply (bo_disk s l H).
    + lia.
    + apply (bo_free s l H).
    + split; [lia|done].
    + by apply (bo_coh s l H p).
Qed.

(** Eviction never succeeds: it takes the last buffer off the list. *)
Theorem bio_evict_fails (s s' : bio T W) (l : list Z) : lru_repr (free s) l -> bio_evict s <> Ret s'.
Proof.
  intros Hf. unfold bio_evict.
  destruct (Z.eqb_spec (ltail (free s)) 0) as [|Ht]; [done|].
  assert (Hr : forall t, bio_remove (set_table s t) (ltail (free s)) = Panic \/
    bio_remove (set_table s t) (ltail (free s)) = Undef).
  { intros t. unfold bio_remove. cbn [free set_table].
    destruct l as [|p l] using rev_ind; [by rewrite (lr_tail _ _ Hf) in Ht|].
    assert (ltail (free s) = p) as -> by (rewrite (lr_tail _ _ Hf), last_snoc; done).
    destruct l as [|q l _] using rev_ind.
    - destruct (lr_next _ _ Hf 0 p eq_refl) as [x Hx]. cbn in Hx.
      destruct (decide (x = 0)) as [->|Hx0].
      + left. rewrite lru_remove_sole; [done..|]. unfold prev_of. by rewrite Hx.
      + right. unfold lru_remove, next_of, prev_of. rewrite Hx. cbn [obind].
        destruct (Z.eqb_spec x 0); [done|]. rewrite andb_false_r.
        assert (lhead (free s) = p) as -> by (by rewrite (lr_head _ _ Hf)).
        assert (p =? 0 = false) as -> by (apply Z.eqb_neq, (lru_nonnull _ _ p Hf); set_solver).
        cbn [andb]. rewrite Z.eqb_refl. cbn [obind]. unfold set_prev. cbn [links].
        by rewrite (lr_null _ _ Hf).
    - right. rewrite <- app_assoc in Hf. cbn in Hf. by rewrite (lru_remove_tail _ _ _ _ Hf). }
  destruct (buf_at s _); try done. cbn [obind]. destruct (negb _); try done.
  destruct (tremove _ _) as [[r t]| | |]; try done. cbn [obind]. destruct (negb _); try done.
  by destruct (Hr t) as [-> | ->].
Qed.

(** Once the table is full, no further block can be read. *)
Theorem bio_full_fails (s : bio T W) (l : list Z) (device block : Z) (r : Z * bio T W) :
  bio_ok s l -> block_ok bs device block ->
  tbl_map (table s) !! bio_key device block = None -> tbl_room (table s) = false ->
  bio_read alloc junk s device block bs <> Ret r.
Proof.
  intros H Hblk Hm Hr E. unfold bio_read in E. apply obind_inv in E as ([q s'] & E & _). revert E.
  unfold bio_get. rewrite (tget_ok _ _ (bo_tbl s l H)), Hm. cbn.
  rewrite (tset_full _ _ _ (bo_tbl s l H) Hr). cbn [obind Z.eqb].
  set (s1 := set_table _ _). intros E. apply obind_inv in E as ([r2 s2] & E & _).
  cbn [evict_loop] in E. apply obind_inv in E as (s3 & E & _). revert E.
  destruct (alloc_ok (bufs s)) as [Hnz Hn]. apply (bio_evict_fails s1 s3 l). cbn.
  apply lru_repr_alloc; [apply (bo_free s l H)| |done]. intros Hin.
  apply (lru_links _ _ _ (bo_free s l H)) in Hin as Hs. apply elem_of_dom in Hs.
  rewrite (bo_dom s l H) in Hs. by apply not_elem_of_dom in Hn.
Qed.

(** A block whose buffer is the only unused one cannot be read again. *)
Theorem bio_reread_fails (s : bio T W) (device block p : Z) :
  bio_ok s [p] -> tbl_map (table s) !! bio_key device block = Some p ->
  prev_of (free s) p = Ret 0 -> bio_read alloc junk s device block bs = Panic.
Proof.
  intros H Hm Hp. apply (bo_map s [p] H) in Hm as Hb. destruct Hb as (b & Hb & _).
  destruct (bo_buf s [p] H p b Hb) as (B1 & B2 & B3 & B4).
  assert (b_ref b = 0) as Er by (apply (bo_ref s [p] H p b Hb); set_solver).
  unfold bio_read, bio_get. rewrite (tget_ok _ _ (bo_tbl s [p] H)), Hm. cbn.
  pose proof (bo_nonnull s [p] p b H Hb). destruct (Z.eqb_spec p 0); [done|]. cbn [negb].
  unfold buf_at. rewrite Hb. cbn [obind]. rewrite B2, Z.eqb_refl, Er. cbn [negb Z.eqb].
  unfold bio_remove. cbn [free set_bufs]. by rewrite (lru_remove_sole _ _ (bo_free s [p] H) Hp).
Qed.
(** The read of a block whose buffer is unused starts with taking the buffer off
    the list. *)
Lemma reread_removes (s : bio T W) (l : list Z) (device block p : Z) (r : Z * bio T W) :
  bio_ok s l -> tbl_map (table s) !! bio_key device block = Some p -> p ∈ l ->
  bio_read alloc junk s device block bs = Ret r -> exists fr, lru_remove (free s) p = Ret fr.
Proof.
  intros H Hm Hl E. apply (bo_map s l H) in Hm as Hb. destruct Hb as (b & Hb & _).
  destruct (bo_buf s l H p b Hb) as (B1 & B2 & B3 & B4).
  assert (b_ref b = 0) as Er by (by apply (bo_ref s l H p b Hb)).
  unfold bio_read in E. apply obind_inv in E as ([q s'] & E & _). revert E.
  unfold bio_get. rewrite (tget_ok _ _ (bo_tbl s l H)), Hm. cbn.
  pose proof (bo_nonnull s l p b H Hb). destruct (Z.eqb_spec p 0); [done|]. cbn [negb].
  unfold buf_at. rewrite Hb. cbn [obind]. rewrite B2, Z.eqb_refl, Er. cbn [negb Z.eqb].
  unfold bio_remove. cbn [free set_bufs]. intros (s1 & (fr & E1 & _)%obind_inv & _)%obind_inv. by exists fr.
Qed.

(** The first of the unused buffers, if it has not been taken off the list
    before, and the last of several cannot be used again. *)
Lemma reread_ends_fail (s : bio T W) (l : list Z) (device block p : Z) (r : Z * bio T W) :
  bio_ok s l -> tbl_map (table s) !! bio_key device block = Some p ->
  (head l = Some p /\ prev_of (free s) p = Ret 0) \/ (exists l0 q, l = l0 ++ [q; p]) ->
  bio_read alloc junk s device block bs <> Ret r.
Proof.
  intros H Hm He E. assert (Hl : p ∈ l).
  { destruct He as [[He _]|(l0 & q & ->)]; [destruct l; [done|]; injection He as ->; by left|set_solver]. }
  destruct (reread_removes s l device block p r H Hm Hl E) as [fr Ef]. pose proof (bo_free s l H) as Hf.
  destruct He as [[He Hp]|(l0 & q & ->)]; [|by rewrite (lru_remove_tail _ _ _ _ Hf) in Ef].
  destruct l as [|x [|n l]]; [done|..]; injection He as ->.
  - by rewrite (lru_remove_sole _ _ Hf Hp) in Ef.
  - by rewrite (lru_remove_head _ _ _ _ Hf Hp) in Ef.
Qed.


End Correct.

(** ** A concrete cache *)

(** A disk as a function. *)
Definition fun_disk := Z -> Z -> Z.

#[export] Instance fun_disk_ops : Disk fun_disk := {
  disk_read w d a n := Ret (map (fun i => w d (a + Z.of_nat i)) (seq 0 (Z.to_nat n)), w);
  disk_write w d a l := Ret (fun d' x =>
    if (d' =? d) && (a <=? x) && (x <? a + Z.of_nat (length l)) then znth 0 l (x - a) else w d' x);
}.

#[export] Program Instance fun_disk_laws : DiskLaws fun_disk :=
  { content w := w; disk_ok _ := True; disk_valid _ _ _ := True }.
Next Obligation. intros. by eexists. Qed.
Next Obligation. intros. by eexists. Qed.

Definition alloc0 (m : gmap Z bio_buf_t) : Z := fresh ({[0]} ∪ dom m : gset Z).
Definition junk0 (p n : Z) : list Z := replicate (Z.to_nat n) 0xCC.

Lemma alloc0_ok (m : gmap Z bio_buf_t) : alloc0 m <> 0 /\ m !! alloc0 m = None.
Proof.
  pose proof (is_fresh ({[0]} ∪ dom m : gset Z)) as H. fold (alloc0 m) in H.
  rewrite not_elem_of_union, not_elem_of_singleton, not_elem_of_dom in H. done.
Qed.

Lemma junk0_length (p n : Z) : length (junk0 p n) = Z.to_nat n.
Proof. apply length_replicate. Qed.

Definition bio0 : bio num_table fun_disk := bio_init cache_table (fun d a => (d + a) mod 256).

Lemma bio_table_created : ht_create BIO_TABLE_SIZE BIO_LOAD_FACTOR 0 = Ret cache_table.
Proof. by vm_compute. Qed.

Lemma bio0_ok : bio_ok 1024 bio0 [].
Proof.
  destruct cache_table_ok as (Ht & Hm). split; cbn [bio0 bio_init table bufs free disk links].
  - exact Ht.
  - exact I.
  - intros k p. rewrite Hm, lookup_empty. split; [done|]. intros (b & Hb & _). by rewrite lookup_empty in Hb.
  - intros p b Hb. by rewrite lookup_empty in Hb.
  - intros p b Hb. by rewrite lookup_empty in Hb.
  - by rewrite !dom_empty_L.
  - split; try done. constructor.
  - intros p b Hb. by rewrite lookup_empty in Hb.
  - intros p b Hb. by rewrite lookup_empty in Hb.
Qed.

Lemma bio0_available (block : Z) : available bio0 [] 0 block.
Proof. unfold available. cbn [bio0 bio_init table]. by rewrite (proj2 cache_table_ok), lookup_empty. Qed.


Lemma bio_write_correct_witness :
  exists (s : bio num_table fun_disk) p s1 s2, bio_store s p (replicate 1024 7) = Ret s1 /\ bio_write s1 p = Ret s2 /\
    dbytes 1024 (disk s2) 0 5 = replicate 1024 7.
Proof.
  destruct (get_miss 1024 alloc0 junk0 alloc0_ok junk0_length bio0 [] 0 5 bio0_ok)
    as (p & s & _ & H & Hb & _); [split; lia|exact I| |reflexivity|].
  { change (tbl_map cache_table !! bio_key 0 5 = None).
    by rewrite (proj2 cache_table_ok), lookup_empty. }
  destruct (bio_write_correct 1024 ltac:(split; [lia|reflexivity]) s [] p _ (replicate 1024 7) H Hb)
    as (s1 & s2 & E1 & E2 & _ & D & _); [by rewrite length_replicate|].
  exact (ex_intro _ s (ex_intro _ p (ex_intro _ s1 (ex_intro _ s2 (conj E1 (conj E2 D)))))).
Defined.
