(* ===== verification/Bytes.v ===== *)
(** Byte arrays: copying into the middle of an array (memcpy to and from the
    buffers of the file system) and little-endian members of packed
    structures. *)

From Stdlib Require Import ZArith Lia.
From stdpp Require Import base numbers list.
From S2P Require Import Prelude.

(** [memcpy(l + off, d, length d)]; outside the array the behaviour is
    undefined. *)
Definition splice (l : list Z) (off : Z) (d : list Z) : outcome (list Z) :=
  if (0 <=? off) && (off + Z.of_nat (length d) <=? Z.of_nat (length l))
  then Ret (take (Z.to_nat off) l ++ d ++ drop (Z.to_nat off + length d) l) else Undef.

(** [memcpy(d, l + off, n)] *)
Definition slice (l : list Z) (off n : Z) : outcome (list Z) :=
  if (0 <=? off) && (0 <=? n) && (off + n <=? Z.of_nat (length l))
  then Ret (take (Z.to_nat n) (drop (Z.to_nat off) l)) else Undef.

(** The [n] bytes of [v], least significant first. *)
Fixpoint le_bytes (n : nat) (v : Z) : list Z :=
  match n with
  | O => []
  | S n => v mod 256 :: le_bytes n (v / 256)
  end.

Fixpoint le_value (l : list Z) : Z :=
  match l with
  | [] => 0
  | b :: l => b + 256 * le_value l
  end.

Definition store_le (l : list Z) (off : Z) (n : nat) (v : Z) : outcome (list Z) :=
  splice l off (le_bytes n v).
Definition load_le (l : list Z) (off : Z) (n : nat) : outcome Z :=
  let! d := slice l off (Z.of_nat n) in Ret (le_value d).

(** ** Lemmas *)

Lemma length_le_bytes (n : nat) (v : Z) : length (le_bytes n v) = n.
Proof. revert v. induction n as [|n IH]; intros v; simpl; [done|]. by rewrite IH. Qed.

Lemma le_value_bytes (n : nat) (v : Z) :
  0 <= v < 2 ^ (8 * Z.of_nat n) -> le_value (le_bytes n v) = v.
Proof.
  revert v. induction n as [|n IH]; intros v Hv; cbn [le_bytes le_value].
  - cbn in Hv. lia.
  - rewrite IH; [pose proof (Z.div_mod v 256); lia|].
    replace (8 * Z.of_nat (S n)) with (8 + 8 * Z.of_nat n) in Hv by lia.
    rewrite Z.pow_add_r in Hv by lia. change (2 ^ 8) with 256 in Hv.
    split; [apply Z.div_pos; lia|]. apply Z.div_lt_upper_bound; lia.
Qed.

Lemma splice_Ret (l d : list Z) (off : Z) :
  0 <= off -> off + Z.of_nat (length d) <= Z.of_nat (length l) ->
  splice l off d = Ret (take (Z.to_nat off) l ++ d ++ drop (Z.to_nat off + length d) l).
Proof.
  intros H1 H2. unfold splice. destruct (Z.leb_spec 0 off); [|lia].
  by destruct (Z.leb_spec (off + Z.of_nat (length d)) (Z.of_nat (length l))); [|lia].
Qed.

Lemma slice_Ret (l : list Z) (off n : Z) :
  0 <= off -> 0 <= n -> off + n <= Z.of_nat (length l) ->
  slice l off n = Ret (take (Z.to_nat n) (drop (Z.to_nat off) l)).
Proof.
  intros H1 H2 H3. unfold slice. destruct (Z.leb_spec 0 off); [|lia]. destruct (Z.leb_spec 0 n); [|lia].
  by destruct (Z.leb_spec (off + n) (Z.of_nat (length l))); [|lia].
Qed.

Section Splice.
Context (l d l' : list Z) (off : Z) (H : splice l off d = Ret l').

Lemma splice_inv : 0 <= off /\ off + Z.of_nat (length d) <= Z.of_nat (length l) /\
  l' = take (Z.to_nat off) l ++ d ++ drop (Z.to_nat off + length d) l.
Proof using H.
  unfold splice in H. destruct (_ && _) eqn:E; [|done]. bprop. split_and!; [lia..|congruence].
Qed.

Lemma length_splice : length l' = length l.
Proof using H.
  destruct splice_inv as (H1 & H2 & ->). rewrite !length_app, length_take, length_drop. lia.
Qed.

(** A copied byte. *)
Lemma znth_splice (x : Z) : 0 <= x ->
  znth 0 l' x = if (off <=? x) && (x <? off + Z.of_nat (length d)) then znth 0 d (x - off) else znth 0 l x.
Proof using H.
  intros Hx. destruct splice_inv as (H1 & H2 & ->). unfold znth.
  assert (Lt : length (take (Z.to_nat off) l) = Z.to_nat off) by (rewrite length_take; lia).
  destruct (Z.leb_spec off x) as [Ho|Ho]; cbn [andb].
  - rewrite lookup_app_r by lia. rewrite Lt.
    destruct (Z.ltb_spec x (off + Z.of_nat (length d))) as [Hd|Hd].
    + rewrite lookup_app_l by lia. do 2 f_equal. lia.
    + rewrite lookup_app_r by lia. rewrite lookup_drop. do 2 f_equal. lia.
  - rewrite lookup_app_l by lia. by rewrite lookup_take_lt by lia.
Qed.

(** What was copied is there. *)
Lemma slice_same : slice l' off (Z.of_nat (length d)) = Ret d.
Proof using H.
  pose proof length_splice as Hl. destruct splice_inv as (H1 & H2 & ->).
  rewrite slice_Ret by lia. f_equal. rewrite Nat2Z.id.
  rewrite drop_app_ge by (rewrite length_take; lia).
  rewrite length_take. replace (Z.to_nat off - Z.to_nat off `min` length l)%nat with 0%nat by lia.
  rewrite drop_0. apply take_app_length.
Qed.

(** What does not overlap is left. *)
Lemma slice_other (o n : Z) : 0 <= o -> 0 <= n -> o + n <= Z.of_nat (length l) ->
  o + n <= off \/ off + Z.of_nat (length d) <= o -> slice l' o n = slice l o n.
Proof using H.
  intros Ho Hn Hon Hd. pose proof length_splice as Hl. destruct splice_inv as (H1 & H2 & E).
  rewrite !slice_Ret by lia. f_equal. apply list_eq. intros i.
  destruct (decide (i < Z.to_nat n)%nat) as [Hi|Hi].
  - rewrite !lookup_take_lt, !lookup_drop by done. rewrite E.
    assert (Lt : length (take (Z.to_nat off) l) = Z.to_nat off) by (rewrite length_take; lia).
    destruct Hd as [Hd|Hd].
    + rewrite lookup_app_l by lia. by rewrite lookup_take_lt by lia.
    + rewrite lookup_app_r by lia. rewrite Lt, lookup_app_r by lia. rewrite lookup_drop. f_equal. lia.
  - by rewrite !lookup_take_ge by lia.
Qed.
End Splice.

Lemma store_le_Ret (l : list Z) (off : Z) (n : nat) (v : Z) :
  0 <= off -> off + Z.of_nat n <= Z.of_nat (length l) ->
  exists l', store_le l off n v = Ret l' /\ length l' = length l.
Proof.
  intros H1 H2. unfold store_le. eexists. split; [apply splice_Ret; rewrite ?length_le_bytes; lia|].
  rewrite !length_app, length_take, length_drop, length_le_bytes. lia.
Qed.

Lemma load_store_same (l l' : list Z) (off : Z) (n : nat) (v : Z) :
  0 <= v < 2 ^ (8 * Z.of_nat n) -> store_le l off n v = Ret l' -> load_le l' off n = Ret v.
Proof.
  intros Hv E. unfold load_le. pose proof (slice_same _ _ _ _ E) as Es. rewrite length_le_bytes in Es.
  rewrite Es. cbn [obind]. by rewrite le_value_bytes.
Qed.

Lemma load_store_other (l l' : list Z) (off o : Z) (n m : nat) (v : Z) :
  0 <= o -> o + Z.of_nat m <= Z.of_nat (length l) -> o + Z.of_nat m <= off \/ off + Z.of_nat n <= o ->
  store_le l off n v = Ret l' -> load_le l' o m = load_le l o m.
Proof.
  intros Ho Hm Hd E. unfold load_le. rewrite (slice_other _ _ _ _ E); [done|lia|lia|done|].
  by rewrite length_le_bytes.
Qed.
