(* ===== verification/Ext2.v ===== *)
(** The ext2 file system (src/src/kernel/fs/filesystem.c): inode slots,
    allocation of blocks and inodes in the bitmaps, the blocks of a file,
    reading and writing its contents, truncation.

    This is the specification over ideal blocks: a sequence
    [ext2_read_block ... bio_release] is a read of the block that never fails,
    and [ext2_write_block] stores the whole block.  The buffer cache of the
    kernel does not keep this promise for a block that is read again right
    after its release; Ext2Cache.v has the functions with their calls of bio.c,
    and where they do what is specified here. *)

From Stdlib Require Import ZArith Lia.
From stdpp Require Import base numbers list.
From S2P Require Import Prelude Bytes.

Class Blocks (B : Type) := {
  bget : B -> Z -> Z -> list Z;
  bput : B -> Z -> Z -> list Z -> B;
}.

Class BlocksLaws (B : Type) `{!Blocks B} := {
  bget_put_same st d k l : bget (bput st d k l) d k = l;
  bget_put_other st d k l d' k' : (d', k') <> (d, k) -> bget (bput st d k l) d' k' = bget st d' k';
}.

(** The members of the superblock and of a block group descriptor the code
    uses. *)
Record ext2_sblock_t := mk_sblock {
  total_blocks : Z;
  log_block_size : Z;
  blocks_pg : Z;
  inodes_per_group : Z;
  inode_size : Z;
}.
Record ext2_bgd_t := mk_bgd { block_bitmap : Z; inode_bitmap : Z; inode_table : Z }.

Record inode_idx_t := mk_inode_idx { ix_block : Z; ix_idx : Z }.

(** [inode_t], without the members of the inode cache. *)
Record inode_t := mk_inode {
  i_device : Z;
  i_n : Z;
  i_mode : Z;
  i_links : Z;
  i_size : Z;
  i_atime : Z;
  i_ctime : Z;
  i_mtime : Z;
  i_dtime : Z;
  i_sectors : Z;
  i_blocks : list Z;
}.

Definition with_blocks (i : inode_t) (l : list Z) : inode_t :=
  mk_inode (i_device i) (i_n i) (i_mode i) (i_links i) (i_size i) (i_atime i) (i_ctime i) (i_mtime i)
    (i_dtime i) (i_sectors i) l.
Definition with_size (i : inode_t) (n : Z) : inode_t :=
  mk_inode (i_device i) (i_n i) (i_mode i) (i_links i) n (i_atime i) (i_ctime i) (i_mtime i)
    (i_dtime i) (i_sectors i) (i_blocks i).

Definition INODE_BLOCKS_COUNT : Z := 15.
Definition PTR_ENTRY_BLOCKS : Z := 1024 / 4.
Definition DIRECT_BLOCKS : Z := 12.
Definition IND1_IDX : Z := 12.
Definition IND2_IDX : Z := 13.
Definition IND3_IDX : Z := 14.
Definition IND1_PTR_BLOCKS : Z := PTR_ENTRY_BLOCKS.
Definition IND2_PTR_BLOCKS : Z := IND1_PTR_BLOCKS * PTR_ENTRY_BLOCKS.
Definition IND3_PTR_BLOCKS : Z := IND2_PTR_BLOCKS * PTR_ENTRY_BLOCKS.
Definition IND1_LIMIT : Z := DIRECT_BLOCKS + IND1_PTR_BLOCKS.
Definition IND2_LIMIT : Z := IND1_LIMIT + IND2_PTR_BLOCKS.
Definition IND3_LIMIT : Z := IND2_LIMIT + IND3_PTR_BLOCKS.
(** The product is computed with 32 bits. *)
Definition MAX_FILE_SIZE : Z :=
  u32 ((IND3_PTR_BLOCKS + IND2_PTR_BLOCKS + IND1_PTR_BLOCKS + DIRECT_BLOCKS) * 1024).

Section Ext2.
Context {B : Type} `{!Blocks B}.

(** [sblock] and [bg_descrs]; the list is the memory allocated for the latter. *)
Context (sb : ext2_sblock_t) (bgds : list ext2_bgd_t).

Definition BLOCK_SIZE : Z := Z.shiftl 1024 (log_block_size sb).

Definition ext2_inode_idx (inode_n : Z) : outcome inode_idx_t :=
  let inode_idx := u32 (inode_n - 1) in
  let! descr_idx := udiv (u32 (inode_idx + 1)) (inodes_per_group sb) in
  let! descr_inode_idx := umod (u32 (inode_idx + 1)) (inodes_per_group sb) in
  let! d := lget bgds descr_idx in
  let inode_table_idx := u32 (descr_idx * blocks_pg sb + inode_table d) in
  let! per_block := udiv BLOCK_SIZE (inode_size sb) in
  let! table_block_idx := udiv descr_inode_idx per_block in
  let! slot := umod descr_inode_idx per_block in
  Ret (mk_inode_idx (u32 (inode_table_idx + table_block_idx)) slot).

Definition ext2_zero_block (st : B) (device block : Z) : B :=
  bput st device block (replicate (Z.to_nat BLOCK_SIZE) 0).

(** ** Allocation *)

(** The static array, which is never written. *)
Definition last_allocs : list Z := [0; 0; 0; 0; 11; 11; 11; 11].

(** The inner loop of [ext2_alloc]: the first clear bit from [j] on. *)
Fixpoint alloc_scan (fuel : nat) (bitmap : list Z) (i j : Z) : outcome (option Z) :=
  match fuel with
  | O => NoFuel
  | S fuel =>
      if (j <? blocks_pg sb) && (u32 (i + j) <? total_blocks sb) then
        let! byte := lget bitmap (j / 8) in
        if Z.land byte (u8 (Z.shiftl 1 (j mod 8))) =? 0 then Ret (Some j)
        else alloc_scan fuel bitmap i (j + 1)
      else Ret None
  end.

Definition bitmap_of (d : ext2_bgd_t) (is_inode : bool) : Z :=
  if is_inode then inode_bitmap d else block_bitmap d.

(** The outer loop. *)
Fixpoint alloc_groups (fuel : nat) (st : B) (device i stop : Z) (is_inode : bool) : outcome (Z * B) :=
  match fuel with
  | O => NoFuel
  | S fuel =>
      let! d := lget bgds i in
      let bitmap_idx := bitmap_of d is_inode in
      let bitmap := bget st device bitmap_idx in
      let! r := alloc_scan (S (Z.to_nat (blocks_pg sb - i))) bitmap i i in
      match r with
      | Some j =>
          let! byte := lget bitmap (j / 8) in
          let! bitmap := lset bitmap (j / 8) (Z.lor byte (u8 (Z.shiftl 1 (j mod 8)))) in
          let st := bput st device bitmap_idx bitmap in
          Ret (u32 (i + j), ext2_zero_block st device (u32 (i + j)))
      | None =>
          let! q := udiv i (blocks_pg sb) in
          let! i := umod (u32 ((q + 1) * blocks_pg sb)) (total_blocks sb) in
          if i =? stop then Panic else alloc_groups fuel st device i stop is_inode
      end
  end.

(** A round visits a group: there are no more groups than blocks. *)
Definition ext2_alloc (st : B) (device : Z) (is_inode : bool) : outcome (Z * B) :=
  let! i := lget last_allocs (device + b2z is_inode * 4) in
  let! stop := lget last_allocs device in
  alloc_groups (S (Z.to_nat (total_blocks sb))) st device i stop is_inode.

Definition ext2_block_alloc (st : B) (device : Z) : outcome (Z * B) := ext2_alloc st device false.
Definition ext2_inode_alloc (st : B) (device : Z) : outcome (Z * B) := ext2_alloc st device true.

Definition ext2_free (st : B) (device n : Z) (is_inode : bool) : outcome B :=
  let! g := udiv n (blocks_pg sb) in
  let! d := lget bgds g in
  let bitmap_idx := bitmap_of d is_inode in
  let bitmap := bget st device bitmap_idx in
  let idx := n mod blocks_pg sb in
  let! byte := lget bitmap (idx / 8) in
  let bit := Z.shiftl 1 (idx mod 8) in
  if negb (Z.land (bnot 32 byte) bit =? 0) then Panic
  else
    let! bitmap := lset bitmap (idx / 8) (u8 (Z.land byte (bnot 32 bit))) in
    Ret (bput st device bitmap_idx bitmap).

Definition ext2_block_free (st : B) (device block : Z) : outcome B := ext2_free st device block false.
Definition ext2_inode_free (st : B) (device inode : Z) : outcome B := ext2_free st device inode true.

(** ** The blocks of a file *)

Definition ext2_get_div (times : nat) : outcome Z :=
  match times with
  | O => Ret 1
  | 1%nat => Ret IND1_PTR_BLOCKS
  | 2%nat => Ret IND2_PTR_BLOCKS
  | _ => Panic
  end.

(** The caller's block [ind] is changed in place, so it is returned.  The test
    [!block] is on the address of the buffer, which is never NULL. *)
Fixpoint ext2_indblock (st : B) (device : Z) (ind : list Z) (idx : Z) (times : nat) :
    outcome (Z * list Z * B) :=
  let! div := ext2_get_div times in
  let r_idx := idx / div in
  let n_idx := idx mod div in
  let! ptr := load_le ind (4 * r_idx) 4 in
  let! (ptr, ind, st) :=
    if ptr =? 0 then
      let! (k, st) := ext2_block_alloc st device in
      let! ind := store_le ind (4 * r_idx) 4 k in
      Ret (k, ind, st)
    else Ret (ptr, ind, st) in
  let block := bget st device ptr in
  let! ret := load_le block (4 * n_idx) 4 in
  let! (ret, block, st) :=
    match times with
    | O => Ret (ret, block, st)
    | S times => ext2_indblock st device block n_idx times
    end in
  Ret (ret, ind, bput st device ptr block).

Definition ext2_get_iblock (st : B) (inode : inode_t) (idx : Z) : outcome (Z * inode_t * B) :=
  if idx <? DIRECT_BLOCKS then
    let! k := lget (i_blocks inode) idx in
    if k =? 0 then
      let! (k, st) := ext2_block_alloc st (i_device inode) in
      let! l := lset (i_blocks inode) idx k in
      Ret (k, with_blocks inode l, st)
    else Ret (k, inode, st)
  else
    let! (ind_idx, times, r_idx) :=
      if idx <? IND1_LIMIT then Ret (IND1_IDX, 0%nat, idx - DIRECT_BLOCKS)
      else if idx <? IND2_LIMIT then Ret (IND2_IDX, 1%nat, idx - IND1_LIMIT)
      else if idx <? IND3_LIMIT then Ret (IND3_IDX, 2%nat, idx - IND2_LIMIT)
      else Panic in
    let! k := lget (i_blocks inode) ind_idx in
    let! (k, inode, st) :=
      if k =? 0 then
        let! (k, st) := ext2_block_alloc st (i_device inode) in
        let! l := lset (i_blocks inode) ind_idx k in
        Ret (k, with_blocks inode l, st)
      else Ret (k, inode, st) in
    let buf := bget st (i_device inode) k in
    let! (block, buf, st) := ext2_indblock st (i_device inode) buf r_idx times in
    Ret (block, inode, bput st (i_device inode) k buf).

(** ** Inodes on the disk *)

(** The members of [ext2_inode_t] that the kernel copies: offset and width. *)
Definition D_MODE : Z := 0.
Definition D_SIZE : Z := 4.
Definition D_ATIME : Z := 8.
Definition D_CTIME : Z := 12.
Definition D_MTIME : Z := 16.
Definition D_DTIME : Z := 20.
Definition D_LINKS : Z := 26.
Definition D_SECTORS : Z := 28.
Definition D_BLOCKS : Z := 40.
Definition DINODE_SIZE : Z := 128.

(** The stores of [ext2_inode_update] in the slot at [a]. *)
Fixpoint store_blocks (buf : list Z) (a : Z) (l : list Z) : outcome (list Z) :=
  match l with
  | [] => Ret buf
  | k :: l => let! buf := store_le buf a 4 k in store_blocks buf (a + 4) l
  end.

Definition store_inode (buf : list Z) (a : Z) (i : inode_t) : outcome (list Z) :=
  let! buf := store_le buf (a + D_MODE) 2 (i_mode i) in
  let! buf := store_le buf (a + D_SIZE) 4 (i_size i) in
  let! buf := store_le buf (a + D_ATIME) 4 (i_atime i) in
  let! buf := store_le buf (a + D_CTIME) 4 (i_ctime i) in
  let! buf := store_le buf (a + D_MTIME) 4 (i_mtime i) in
  let! buf := store_le buf (a + D_DTIME) 4 (i_dtime i) in
  let! buf := store_le buf (a + D_LINKS) 2 (i_links i) in
  let! buf := store_le buf (a + D_SECTORS) 4 (i_sectors i) in
  store_blocks buf (a + D_BLOCKS) (i_blocks i).

Definition ext2_inode_update (st : B) (inode : inode_t) : outcome B :=
  let! ix := ext2_inode_idx (i_n inode) in
  let buf := bget st (i_device inode) (ix_block ix) in
  let! buf := store_inode buf (ix_idx ix * DINODE_SIZE) inode in
  Ret (bput st (i_device inode) (ix_block ix) buf).

Fixpoint load_blocks (buf : list Z) (a : Z) (n : nat) : outcome (list Z) :=
  match n with
  | O => Ret []
  | S n =>
      let! k := load_le buf a 4 in
      let! l := load_blocks buf (a + 4) n in
      Ret (k :: l)
  end.

(** [ext2_inode_get], for the device and number of the inode. *)
Definition ext2_inode_get (st : B) (device n : Z) : outcome inode_t :=
  let! ix := ext2_inode_idx n in
  let buf := bget st device (ix_block ix) in
  let a := ix_idx ix * DINODE_SIZE in
  let! mode := load_le buf (a + D_MODE) 2 in
  let! size := load_le buf (a + D_SIZE) 4 in
  let! atime := load_le buf (a + D_ATIME) 4 in
  let! ctime := load_le buf (a + D_CTIME) 4 in
  let! mtime := load_le buf (a + D_MTIME) 4 in
  let! dtime := load_le buf (a + D_DTIME) 4 in
  let! links := load_le buf (a + D_LINKS) 2 in
  let! sectors := load_le buf (a + D_SECTORS) 4 in
  let! blocks := load_blocks buf (a + D_BLOCKS) (Z.to_nat INODE_BLOCKS_COUNT) in
  Ret (mk_inode device n mode links size atime ctime mtime dtime sectors blocks).

(** ** Contents *)

Definition chunk (i size offset : Z) : Z :=
  let buf_off := offset mod BLOCK_SIZE in
  if u32 (size - i) <? u32 (1024 - buf_off) then u32 (size - i) else u32 (1024 - buf_off).

(** The loop of [ext2_read_content]: [i] bytes are read, [acc] holds them.
    With 1024-byte blocks every round but the first and the last reads a
    block, so a round for every byte is enough. *)
Fixpoint read_loop (fuel : nat) (st : B) (inode : inode_t) (i size offset : Z) (acc : list Z) :
    outcome (list Z * inode_t * B) :=
  match fuel with
  | O => NoFuel
  | S fuel =>
      if i <? size then
        let! (block_idx, inode, st) := ext2_get_iblock st inode (offset / BLOCK_SIZE) in
        let buf := bget st (i_device inode) block_idx in
        let len := chunk i size offset in
        let! d := slice buf (offset mod BLOCK_SIZE) len in
        read_loop fuel st inode (u32 (i + len)) size (u32 (offset + len)) (acc ++ d)
      else Ret (acc, inode, st)
  end.

Definition ext2_read_content (st : B) (inode : inode_t) (offset size : Z) :
    outcome (list Z * inode_t * B) :=
  if i_size inode <? offset then Ret ([], inode, st)
  else
    let size := if i_size inode <? u32 (offset + size) then i_size inode - offset else size in
    read_loop (S (Z.to_nat size)) st inode 0 size offset [].

Fixpoint write_loop (fuel : nat) (st : B) (inode : inode_t) (i size offset : Z) (src : list Z) :
    outcome (Z * inode_t * B) :=
  match fuel with
  | O => NoFuel
  | S fuel =>
      if i <? size then
        let! (block_idx, inode, st) := ext2_get_iblock st inode (offset / BLOCK_SIZE) in
        let buf := bget st (i_device inode) block_idx in
        let len := chunk i size offset in
        let! d := slice src i len in
        let! buf := splice buf (offset mod BLOCK_SIZE) d in
        write_loop fuel (bput st (i_device inode) block_idx buf) inode (u32 (i + len)) size
          (u32 (offset + len)) src
      else Ret (offset, inode, st)
  end.

(** The result is the number of bytes, or -1. *)
Definition ext2_write_content (st : B) (inode : inode_t) (src : list Z) (offset : Z) :
    outcome (Z * inode_t * B) :=
  let size := Z.of_nat (length src) in
  if i_size inode <? offset then Ret (-1, inode, st)
  else if MAX_FILE_SIZE <? u32 (offset + size) then Ret (-1, inode, st)
  else
    let! (end_, inode, st) := write_loop (S (length src)) st inode 0 size offset src in
    let inode := if i_size inode <? end_ then with_size inode end_ else inode in
    let! st := ext2_inode_update st inode in
    Ret (size, inode, st).

(** ** Truncation *)

(** [--times] changes the variable of the loop: the next entry is treated one
    level lower. *)
Fixpoint ind_trunc_loop (rec : B -> list Z -> Z -> outcome (list Z * B)) (n : nat) (st : B) (device : Z)
    (block : list Z) (i times : Z) : outcome (list Z * B) :=
  match n with
  | O => Ret (block, st)
  | S n =>
      let! k := load_le block (4 * i) 4 in
      if k =? 0 then Ret (block, st)
      else if negb (times =? 0) then
        let times := times - 1 in
        let! (b, st) := rec st (bget st device k) times in
        ind_trunc_loop rec n (bput st device k b) device block (i + 1) times
      else
        let! st := ext2_block_free st device k in
        let! block := store_le block (4 * i) 4 0 in
        ind_trunc_loop rec n st device block (i + 1) times
  end.

(** [depth] bounds the nesting, which is at most [times]. *)
Fixpoint ext2_ind_trunc (depth : nat) (device : Z) (st : B) (block : list Z) (times : Z) :
    outcome (list Z * B) :=
  match depth with
  | O => NoFuel
  | S depth =>
      ind_trunc_loop (ext2_ind_trunc depth device) (Z.to_nat PTR_ENTRY_BLOCKS) st device block 0 times
  end.

(** The first loop; [None] when it returns from the function. *)
Fixpoint trunc_direct (n : nat) (st : B) (inode : inode_t) (i : Z) : outcome (option unit * inode_t * B) :=
  match n with
  | O => Ret (Some tt, inode, st)
  | S n =>
      let! k := lget (i_blocks inode) i in
      if k =? 0 then Ret (None, inode, st)
      else
        let! st := ext2_block_free st (i_device inode) k in
        let! l := lset (i_blocks inode) i 0 in
        trunc_direct n st (with_blocks inode l) (i + 1)
  end.

Fixpoint trunc_indirect (n : nat) (st : B) (inode : inode_t) (idx times : Z) : outcome (option unit * B) :=
  match n with
  | O => Ret (Some tt, st)
  | S n =>
      let! k := lget (i_blocks inode) idx in
      if k =? 0 then Ret (None, st)
      else
        let! (b, st) := ext2_ind_trunc 4 (i_device inode) st (bget st (i_device inode) k) times in
        trunc_indirect n (bput st (i_device inode) k b) inode (idx + 1) (times + 1)
  end.

Definition ext2_truncate (st : B) (inode : inode_t) : outcome (inode_t * B) :=
  let! (r, inode, st) := trunc_direct (Z.to_nat DIRECT_BLOCKS) st inode 0 in
  match r with
  | None => Ret (inode, st)
  | Some _ =>
      let! (r, st) := trunc_indirect 3 st inode IND1_IDX 0 in
      match r with
      | None => Ret (inode, st)
      | Some _ =>
          let inode := with_size inode 0 in
          let! st := ext2_inode_update st inode in
          Ret (inode, st)
      end
  end.
End Ext2.

(** ** Inodes: what is stored is loaded *)

(** A sequence of stores, given as (offset, width, value). *)
Fixpoint stores (buf : list Z) (a : Z) (fs : list (Z * nat * Z)) : outcome (list Z) :=
  match fs with
  | [] => Ret buf
  | (o, n, v) :: fs => let! buf := store_le buf (a + o) n v in stores buf a fs
  end.

Definition inode_fields (i : inode_t) : list (Z * nat * Z) :=
  [(D_MODE, 2%nat, i_mode i); (D_SIZE, 4%nat, i_size i); (D_ATIME, 4%nat, i_atime i);
   (D_CTIME, 4%nat, i_ctime i); (D_MTIME, 4%nat, i_mtime i); (D_DTIME, 4%nat, i_dtime i);
   (D_LINKS, 2%nat, i_links i); (D_SECTORS, 4%nat, i_sectors i)] ++
  imap (fun j k => (D_BLOCKS + 4 * Z.of_nat j, 4%nat, k)) (i_blocks i).

Definition inode_wf (i : inode_t) : Prop :=
  0 <= i_mode i < 2 ^ 16 /\ 0 <= i_links i < 2 ^ 16 /\ 0 <= i_size i < 2 ^ 32 /\
  0 <= i_atime i < 2 ^ 32 /\ 0 <= i_ctime i < 2 ^ 32 /\ 0 <= i_mtime i < 2 ^ 32 /\
  0 <= i_dtime i < 2 ^ 32 /\ 0 <= i_sectors i < 2 ^ 32 /\
  length (i_blocks i) = 15%nat /\ Forall (fun k => 0 <= k < 2 ^ 32) (i_blocks i).

Definition field_in (sz : Z) (f : Z * nat * Z) : Prop := 0 <= f.1.1 /\ f.1.1 + Z.of_nat f.1.2 <= sz.
Definition field_disj (f g : Z * nat * Z) : Prop :=
  f.1.1 + Z.of_nat f.1.2 <= g.1.1 \/ g.1.1 + Z.of_nat g.1.2 <= f.1.1.

Section Stores.
Context (a sz : Z) (Ha : 0 <= a).

Lemma stores_ok (fs : list (Z * nat * Z)) (buf : list Z) :
  a + sz <= Z.of_nat (length buf) -> Forall (field_in sz) fs ->
  exists buf', stores buf a fs = Ret buf' /\ length buf' = length buf /\
    forall o m, 0 <= o -> o + Z.of_nat m <= Z.of_nat (length buf) ->
      Forall (fun f => o + Z.of_nat m <= a + f.1.1 \/ a + f.1.1 + Z.of_nat f.1.2 <= o) fs ->
      load_le buf' o m = load_le buf o m.
Proof using Ha.
  intros Hl Hf. revert buf Hl. induction Hf as [|[[o n] v] fs [H1 H2] _ IH]; intros buf Hl; cbn [stores].
  { exists buf. done. }
  cbn in H1, H2. destruct (store_le_Ret buf (a + o) n v) as (b1 & E & L1); [lia|lia|]. rewrite E. cbn [obind].
  destruct (IH b1) as (b2 & -> & L2 & Ho); [lia|]. exists b2. split; [done|]. split; [lia|].
  intros x m Hx Hm Hall. apply Forall_cons in Hall as [Hd Hall]. cbn in Hd. rewrite Ho by (lia || done).
  apply (load_store_other buf b1 (a + o) x n m v); [lia|lia|lia|done].
Qed.

Lemma stores_load (fs : list (Z * nat * Z)) (buf buf' : list Z) (k : nat) (o : Z) (n : nat) (v : Z) :
  a + sz <= Z.of_nat (length buf) -> Forall (field_in sz) fs ->
  (forall i j f g, (i < j)%nat -> fs !! i = Some f -> fs !! j = Some g -> field_disj f g) ->
  stores buf a fs = Ret buf' -> fs !! k = Some (o, n, v) -> 0 <= v < 2 ^ (8 * Z.of_nat n) ->
  load_le buf' (a + o) n = Ret v.
Proof using Ha.
  revert buf k. induction fs as [|[[o1 n1] v1] fs IH]; intros buf k Hl Hf Hd E Hk Hv; [done|].
  apply Forall_cons in Hf as [[H1 H2] Hf]. cbn in H1, H2. cbn [stores] in E.
  destruct (store_le_Ret buf (a + o1) n1 v1) as (b1 & E1 & L1); [lia|lia|]. rewrite E1 in E. cbn [obind] in E.
  destruct k as [|k].
  - injection Hk as -> -> ->. destruct (stores_ok fs b1) as (b2 & E2 & L2 & Ho); [lia|done|].
    assert (b2 = buf') as -> by congruence. rewrite Ho; [by apply (load_store_same buf b1)|lia|lia|].
    apply Forall_lookup. intros j g Hg. specialize (Hd 0%nat (S j) (o, n, v) g ltac:(lia) eq_refl Hg).
    unfold field_disj in Hd. cbn in Hd. lia.
  - apply (IH b1 k); [lia|done| |done|done|done]. intros i j f g Hij Hi Hj.
    apply (Hd (S i) (S j)); [lia|done|done].
Qed.
End Stores.

Lemma store_blocks_stores (l : list Z) (buf : list Z) (a o : Z) (k : nat) :
  store_blocks buf (a + (o + 4 * Z.of_nat k)) l =
    stores buf a (imap (fun j x => (o + 4 * Z.of_nat (k + j), 4%nat, x)) l).
Proof.
  revert buf k. induction l as [|x l IH]; intros buf k; cbn [store_blocks imap stores]; [done|].
  rewrite Nat.add_0_r. destruct (store_le buf _ 4 x) as [b| | |]; try done. cbn [obind].
  replace (a + (o + 4 * Z.of_nat k) + 4) with (a + (o + 4 * Z.of_nat (S k))) by lia. rewrite IH.
  f_equal. apply imap_ext. intros i y _. cbn -[Z.of_nat]. by replace (k + S i)%nat with (S (k + i)) by lia.
Qed.

Lemma store_inode_stores (buf : list Z) (a : Z) (i : inode_t) :
  store_inode buf a i = stores buf a (inode_fields i).
Proof.
  unfold store_inode, inode_fields. cbn [app stores].
  repeat (destruct (store_le _ _ _ _); try done; cbn [obind]).
  by rewrite <- (store_blocks_stores (i_blocks i) _ a D_BLOCKS 0).
Qed.

Lemma inode_fields_in (i : inode_t) : length (i_blocks i) = 15%nat -> Forall (field_in DINODE_SIZE) (inode_fields i).
Proof.
  intros Hl. unfold inode_fields. apply Forall_app. split.
  - rewrite !Forall_cons. unfold field_in. split_and!; by vm_compute || constructor.
  - apply Forall_lookup. intros j f Hf. rewrite list_lookup_imap in Hf.
    destruct (i_blocks i !! j) eqn:E; [|done]. injection Hf as <-. apply lookup_lt_Some in E.
    unfold field_in, D_BLOCKS, DINODE_SIZE. cbn. lia.
Qed.

Ltac dfields :=
  unfold field_disj, D_MODE, D_SIZE, D_ATIME, D_CTIME, D_MTIME, D_DTIME, D_LINKS, D_SECTORS, D_BLOCKS;
  cbn [fst snd]; lia.

Lemma inode_fields_disj (i : inode_t) (j k : nat) (f g : Z * nat * Z) :
  (j < k)%nat -> inode_fields i !! j = Some f -> inode_fields i !! k = Some g -> field_disj f g.
Proof.
  intros Hjk Hf Hg. unfold inode_fields in *.
  destruct (decide (k < 8)%nat) as [Hk|Hk].
  - rewrite lookup_app_l in Hf, Hg by (cbn; lia).
    destruct j as [|[|[|[|[|[|[|[|j]]]]]]]], k as [|[|[|[|[|[|[|[|k]]]]]]]]; try lia;
      cbn in Hf, Hg; simplify_eq; dfields.
  - rewrite lookup_app_r in Hg by (cbn; lia). rewrite list_lookup_imap in Hg.
    destruct (i_blocks i !! _) eqn:E; [|done]. injection Hg as <-. cbn [length] in *.
    destruct (decide (j < 8)%nat) as [Hj|Hj].
    + rewrite lookup_app_l in Hf by (cbn; lia).
      do 8 (destruct j as [|j]; [cbn in Hf; simplify_eq; dfields|]). lia.
    + rewrite lookup_app_r in Hf by (cbn; lia). rewrite list_lookup_imap in Hf. cbn [length] in Hf.
      destruct (i_blocks i !! (j - 8)%nat) eqn:E'; [|done]. injection Hf as <-. dfields.
Qed.

Lemma load_blocks_ok (l : list Z) (buf : list Z) (a : Z) :
  (forall j x, l !! j = Some x -> load_le buf (a + 4 * Z.of_nat j) 4 = Ret x) ->
  load_blocks buf a (length l) = Ret l.
Proof.
  revert a. induction l as [|x l IH]; intros a H; cbn [load_blocks length]; [done|].
  pose proof (H 0%nat x eq_refl) as H0. rewrite Z.add_0_r in H0. rewrite H0. cbn [obind].
  rewrite IH; [done|]. intros j y Hy. rewrite <- (H (S j) y Hy). f_equal. lia.
Qed.

Section InodeDisk.
Context {B : Type} `{!Blocks B} {laws : BlocksLaws B} (sb : ext2_sblock_t) (bgds : list ext2_bgd_t).

(** Storing an inode in its slot: it can be loaded again, and nothing but the
    members of the slot changes. *)
Lemma inode_update_spec (st : B) (i : inode_t) (ix : inode_idx_t) :
  inode_wf i -> ext2_inode_idx sb bgds (i_n i) = Ret ix -> 0 <= ix_idx ix ->
  (ix_idx ix + 1) * DINODE_SIZE <= Z.of_nat (length (bget st (i_device i) (ix_block ix))) ->
  exists st', ext2_inode_update sb bgds st i = Ret st' /\
    ext2_inode_get sb bgds st' (i_device i) (i_n i) = Ret i /\
    (forall d k, (d, k) <> (i_device i, ix_block ix) -> bget st' d k = bget st d k) /\
    length (bget st' (i_device i) (ix_block ix)) = length (bget st (i_device i) (ix_block ix)) /\
    (forall o m, 0 <= o -> o + Z.of_nat m <= Z.of_nat (length (bget st (i_device i) (ix_block ix))) ->
       o + Z.of_nat m <= ix_idx ix * DINODE_SIZE \/ (ix_idx ix + 1) * DINODE_SIZE <= o ->
       load_le (bget st' (i_device i) (ix_block ix)) o m = load_le (bget st (i_device i) (ix_block ix)) o m).
Proof.
  intros Hi Hix H0 Hlen. set (a := ix_idx ix * DINODE_SIZE) in *. set (buf := bget st _ _) in *.
  destruct Hi as (M & L & Sz & A & C & Mt & D & Sc & Hl & Hb).
  assert (Ha : 0 <= a) by (unfold a, DINODE_SIZE; lia).
  assert (Hsz : a + DINODE_SIZE <= Z.of_nat (length buf)) by (unfold a in *; lia).
  pose proof (inode_fields_in i Hl) as Hin.
  destruct (stores_ok a DINODE_SIZE Ha (inode_fields i) buf Hsz Hin) as (buf' & E & Hl' & Ho).
  assert (Hld : forall k o n v, inode_fields i !! k = Some (o, n, v) -> 0 <= v < 2 ^ (8 * Z.of_nat n) ->
    load_le buf' (a + o) n = Ret v).
  { intros k o n v Hk Hv. by apply (stores_load a DINODE_SIZE Ha (inode_fields i) buf buf' k o n v Hsz Hin
      (fun i' j f g Hij => inode_fields_disj i i' j f g Hij) E). }
  unfold ext2_inode_update. rewrite Hix. cbn [obind]. fold buf. fold a. rewrite store_inode_stores, E. cbn [obind].
  eexists. split; [done|]. rewrite bget_put_same. split; [|split; [|split; [done|]]].
  - unfold ext2_inode_get. rewrite Hix. cbn [obind]. rewrite bget_put_same. fold a.
    rewrite (Hld 0%nat _ _ _ eq_refl M), (Hld 1%nat _ _ _ eq_refl Sz), (Hld 2%nat _ _ _ eq_refl A),
      (Hld 3%nat _ _ _ eq_refl C), (Hld 4%nat _ _ _ eq_refl Mt), (Hld 5%nat _ _ _ eq_refl D),
      (Hld 6%nat _ _ _ eq_refl L), (Hld 7%nat _ _ _ eq_refl Sc). cbn [obind].
    change (Z.to_nat INODE_BLOCKS_COUNT) with 15%nat. rewrite <- Hl, load_blocks_ok; [by destruct i|].
    intros j x Hx. replace (a + D_BLOCKS + 4 * Z.of_nat j) with (a + (D_BLOCKS + 4 * Z.of_nat j)) by lia.
    apply (Hld (8 + j)%nat).
    + unfold inode_fields. rewrite lookup_app_r by (cbn; lia). rewrite list_lookup_imap.
      cbn [length]. replace (8 + j - 8)%nat with j by lia. by rewrite Hx.
    + by apply (Forall_lookup_1 _ _ j x Hb).
  - intros d k Hk. by rewrite bget_put_other.
  - intros o m Hoo Hm Hd. apply Ho; [done|done|]. apply (Forall_impl _ _ _ Hin).
    intros [[fo fn] fv] [F1 F2]. cbn in *. unfold a, DINODE_SIZE in *. lia.
Qed.

(** An inode written by ext2_inode_update is read back by ext2_inode_get
    member for member; no other block changes, and in its block no byte
    outside the slot of the inode. *)
Theorem ext2_inode_roundtrip (st : B) (i : inode_t) (ix : inode_idx_t) :
  inode_wf i -> ext2_inode_idx sb bgds (i_n i) = Ret ix -> 0 <= ix_idx ix ->
  (ix_idx ix + 1) * DINODE_SIZE <= Z.of_nat (length (bget st (i_device i) (ix_block ix))) ->
  exists st', ext2_inode_update sb bgds st i = Ret st' /\
    ext2_inode_get sb bgds st' (i_device i) (i_n i) = Ret i /\
    (forall d k, (d, k) <> (i_device i, ix_block ix) -> bget st' d k = bget st d k) /\
    (forall o m, 0 <= o -> o + Z.of_nat m <= Z.of_nat (length (bget st (i_device i) (ix_block ix))) ->
       o + Z.of_nat m <= ix_idx ix * DINODE_SIZE \/ (ix_idx ix + 1) * DINODE_SIZE <= o ->
       load_le (bget st' (i_device i) (ix_block ix)) o m = load_le (bget st (i_device i) (ix_block ix)) o m).
Proof.
  intros Hi Hix H0 Hlen. destruct (inode_update_spec st i ix Hi Hix H0 Hlen) as (st' & E1 & E2 & E3 & _ & E4).
  eauto.
Qed.
End InodeDisk.

(** ** Bitmaps *)

(** Bit [j] of a bitmap: block or inode [j] of the group is in use. *)
Definition bit_at (bm : list Z) (j : Z) : bool := Z.testbit (znth 0 bm (j / 8)) (j mod 8).

Definition bytes_ok (bm : list Z) : Prop := Forall (fun b => 0 <= b < 256) bm.

Lemma bit_mask (j : Z) : u8 (Z.shiftl 1 (j mod 8)) = Z.shiftl 1 (j mod 8).
Proof.
  pose proof (Z.mod_pos_bound j 8 ltac:(lia)). rewrite Z.shiftl_1_l. apply u8_small.
  pose proof (Z.pow_pos_nonneg 2 (j mod 8)). pose proof (Z.pow_le_mono_r 2 (j mod 8) 7). lia.
Qed.

(** Setting a bit. *)
Lemma bitmap_set_spec (bm : list Z) (j : Z) :
  0 <= j -> j / 8 < Z.of_nat (length bm) -> bytes_ok bm ->
  let bm' := <[Z.to_nat (j / 8) := Z.lor (znth 0 bm (j / 8)) (Z.shiftl 1 (j mod 8))]> bm in
  bytes_ok bm' /\ length bm' = length bm /\
  forall k, 0 <= k -> bit_at bm' k = (k =? j) || bit_at bm k.
Proof.
  intros Hj Hl Hb bm'. pose proof (Z.mod_pos_bound j 8 ltac:(lia)) as Hm.
  pose proof (Z.div_pos j 8 ltac:(lia) ltac:(lia)) as Hq.
  assert (Hby : 0 <= znth 0 bm (j / 8) < 256).
  { unfold znth. destruct (lookup_lt_is_Some_2 bm (Z.to_nat (j / 8))) as [x Hx]; [lia|]. rewrite Hx.
    exact (Forall_lookup_1 _ _ _ _ Hb Hx). }
  split; [|split; [apply length_insert|]].
  - apply Forall_insert; [done|]. split; [apply Z.lor_nonneg; split; [lia|apply Z.shiftl_nonneg; lia]|].
    apply Z.log2_lt_cancel. change (Z.log2 256) with 8.
    rewrite Z.log2_lor by (try apply Z.shiftl_nonneg; lia). rewrite Z.shiftl_1_l, Z.log2_pow2 by lia.
    assert (Z.log2 (znth 0 bm (j / 8)) < 8); [|lia].
    destruct (decide (znth 0 bm (j / 8) = 0)) as [->|]; [done|]. apply Z.log2_lt_pow2; lia.
  - intros k Hk. unfold bit_at, bm'. rewrite znth_insert by (try apply Z.div_pos; lia).
    destruct (Z.eqb_spec (j / 8) (k / 8)) as [E|E].
    + rewrite Z.lor_spec, testbit_one, E by lia. rewrite orb_comm. f_equal.
      pose proof (Z.div_mod j 8). pose proof (Z.div_mod k 8).
      destruct (Z.eqb_spec (k mod 8) (j mod 8)), (Z.eqb_spec k j); lia || done || congruence.
    + destruct (Z.eqb_spec k j); [congruence|done].
Qed.

(** Clearing a bit. *)
Lemma bitmap_clear_spec (bm : list Z) (j : Z) :
  0 <= j -> j / 8 < Z.of_nat (length bm) -> bytes_ok bm ->
  let bm' := <[Z.to_nat (j / 8) := u8 (Z.land (znth 0 bm (j / 8)) (bnot 32 (Z.shiftl 1 (j mod 8))))]> bm in
  bytes_ok bm' /\ length bm' = length bm /\
  forall k, 0 <= k -> bit_at bm' k = negb (k =? j) && bit_at bm k.
Proof.
  intros Hj Hl Hb bm'. pose proof (Z.mod_pos_bound j 8 ltac:(lia)) as Hm.
  pose proof (Z.div_pos j 8 ltac:(lia) ltac:(lia)) as Hq.
  split; [|split; [apply length_insert|]].
  - apply Forall_insert; [done|]. apply u8_range.
  - intros k Hk. pose proof (Z.mod_pos_bound k 8 ltac:(lia)) as Hmk.
    unfold bit_at, bm'. rewrite znth_insert by (try apply Z.div_pos; lia).
    destruct (Z.eqb_spec (j / 8) (k / 8)) as [E|E].
    + unfold u8. rewrite wrap_testbit, Z.land_spec, E by lia. rewrite andb_comm. f_equal.
      rewrite testbit_bnot_bit by lia. f_equal.
      pose proof (Z.div_mod j 8). pose proof (Z.div_mod k 8).
      destruct (Z.eqb_spec (k mod 8) (j mod 8)), (Z.eqb_spec k j); lia || done || congruence.
    + destruct (Z.eqb_spec k j); [congruence|done].
Qed.

Lemma filter_first {A} (P : A -> Prop) `{!forall x, Decision (P x)} (l l' : list A) (x : A) :
  filter P l = x :: l' -> exists l1 l2, l = l1 ++ x :: l2 /\ Forall (fun y => ~ P y) l1.
Proof.
  induction l as [|y l IH]; [done|]. rewrite filter_cons. destruct (decide (P y)).
  - intros [= -> _]. by exists [], l.
  - intros E. destruct (IH E) as (l1 & l2 & -> & Hl). exists (y :: l1), l2. by repeat constructor.
Qed.

(** ** Allocation of blocks *)

Section Alloc.
Context {B : Type} `{!Blocks B} {laws : BlocksLaws B} (sb : ext2_sblock_t) (bgds : list ext2_bgd_t).

(** The first block group; blocks of 1024 bytes. *)
Context (d0 : ext2_bgd_t) (Hd0 : bgds !! 0%nat = Some d0).
Context (Hlog : log_block_size sb = 0).
Context (Hpg : 0 < blocks_pg sb <= 8192) (Htot : 0 < total_blocks sb < 2 ^ 32).

(** The block numbers the bitmap of the group covers. *)
Definition lim : Z := Z.min (blocks_pg sb) (total_blocks sb).

(** The free blocks, in ascending order. *)
Definition free_blocks (bm : list Z) : list Z := filter (fun j => bit_at bm j = false) (seqZ 0 lim).

Definition bitmap_ok (bm : list Z) : Prop := length bm = 1024%nat /\ bytes_ok bm.

Lemma elem_free (bm : list Z) (j : Z) : j ∈ free_blocks bm <-> 0 <= j < lim /\ bit_at bm j = false.
Proof. unfold free_blocks. rewrite list_elem_of_filter, elem_of_seqZ. split; intros [? ?]; split; try done; lia. Qed.

Lemma NoDup_free (bm : list Z) : NoDup (free_blocks bm).
Proof. apply NoDup_filter, NoDup_seqZ. Qed.

(** Marking a free block leaves one free block less. *)
Lemma free_marked (bm bm' : list Z) (j : Z) :
  j ∈ free_blocks bm -> (forall k, 0 <= k -> bit_at bm' k = (k =? j) || bit_at bm k) ->
  length (free_blocks bm) = S (length (free_blocks bm')).
Proof.
  intros Hj Hb. assert (P : free_blocks bm ≡ₚ j :: free_blocks bm').
  { apply NoDup_Permutation; [apply NoDup_free| |].
    - apply NoDup_cons. split; [|apply NoDup_free]. rewrite elem_free. intros [H1 H2].
      rewrite Hb, Z.eqb_refl in H2 by lia. done.
    - intros k. rewrite elem_of_cons, !elem_free. apply elem_free in Hj as [Hj Hjf].
      destruct (Z.eqb_spec k j) as [->|Hne].
      + split; auto.
      + split; [intros [? ?]; right|intros [?|[? H]]; [done|]]; (split; [done|]).
        * rewrite Hb by lia. by destruct (Z.eqb_spec k j).
        * rewrite Hb in H by lia. by destruct (Z.eqb_spec k j). }
  by rewrite P.
Qed.

(** The scan stops at the first clear bit. *)
Lemma alloc_scan_first (fuel : nat) (bm : list Z) (j j0 : Z) :
  bitmap_ok bm -> 0 <= j <= j0 -> j0 < lim -> j0 - j < Z.of_nat fuel ->
  (forall k, j <= k < j0 -> bit_at bm k = true) -> bit_at bm j0 = false ->
  alloc_scan sb fuel bm 0 j = Ret (Some j0).
Proof using Hpg Htot.
  intros [Hl Hby] Hj Hlim Hf Hs Hc. revert j Hj Hf Hs. unfold lim in Hlim.
  induction fuel as [|fuel IH]; intros j Hj Hf Hs; [lia|]. cbn [alloc_scan].
  rewrite Z.add_0_l, u32_small by lia.
  destruct (Z.ltb_spec j (blocks_pg sb)); [|lia]. destruct (Z.ltb_spec j (total_blocks sb)); [|lia]. cbn [andb].
  assert (Hd : 0 <= j / 8 < 1024)
    by (split; [apply Z.div_pos; lia|apply Z.div_lt_upper_bound; lia]).
  pose proof (Z.mod_pos_bound j 8 ltac:(lia)).
  rewrite (lget_znth 0) by lia. cbn [obind]. rewrite bit_mask, land_bit_zero by lia.
  fold (bit_at bm j). destruct (decide (j = j0)) as [->|]; [by rewrite Hc|].
  rewrite Hs by lia. cbn [negb]. apply IH; [lia|lia|]. intros k Hk. apply Hs. lia.
Qed.

Lemma alloc_scan_none (fuel : nat) (bm : list Z) (j : Z) :
  bitmap_ok bm -> 0 <= j <= lim -> lim - j < Z.of_nat fuel ->
  (forall k, j <= k < lim -> bit_at bm k = true) -> alloc_scan sb fuel bm 0 j = Ret None.
Proof using Hpg Htot.
  intros [Hl Hby] Hj Hf Hs. revert j Hj Hf Hs. unfold lim in *.
  induction fuel as [|fuel IH]; intros j Hj Hf Hs; [lia|]. cbn [alloc_scan].
  rewrite Z.add_0_l, u32_small by lia.
  destruct (Z.ltb_spec j (blocks_pg sb)); [|done]. destruct (Z.ltb_spec j (total_blocks sb)); [|done].
  cbn [andb].
  assert (Hd : 0 <= j / 8 < 1024)
    by (split; [apply Z.div_pos; lia|apply Z.div_lt_upper_bound; lia]).
  pose proof (Z.mod_pos_bound j 8 ltac:(lia)).
  rewrite (lget_znth 0) by lia. cbn [obind]. rewrite bit_mask, land_bit_zero by lia.
  fold (bit_at bm j). rewrite Hs by lia. cbn [negb]. apply IH; [lia|lia|]. intros k Hk. apply Hs. lia.
Qed.

(** The first free block. *)
Lemma first_free (bm : list Z) (j : Z) (l : list Z) :
  free_blocks bm = j :: l -> 0 <= j < lim /\ bit_at bm j = false /\ forall k, 0 <= k < j -> bit_at bm k = true.
Proof.
  intros E. assert (Hj : j ∈ free_blocks bm) by (rewrite E; left). apply elem_free in Hj as [Hj Hc].
  split; [done|]. split; [done|]. intros k Hk. unfold free_blocks in E.
  destruct (filter_first _ _ _ _ E) as (l1 & l2 & Es & Hl1).
  assert (Ej : j = Z.of_nat (length l1)).
  { assert (Hx : seqZ 0 lim !! length l1 = Some j) by (rewrite Es, lookup_app_r, Nat.sub_diag by lia; done).
    apply lookup_seqZ in Hx. lia. }
  assert (Hx : seqZ 0 lim !! Z.to_nat k = Some k) by (apply lookup_seqZ; lia).
  rewrite Es, lookup_app_l in Hx by lia. pose proof (Forall_lookup_1 _ _ _ _ Hl1 Hx) as Hb.
  cbn in Hb. by destruct (bit_at bm k).
Qed.

Definition zeros : list Z := replicate 1024 0.

Lemma bgds_first : lget bgds 0 = Ret d0.
Proof using Hd0. apply lget_Ret. split; [lia|exact Hd0]. Qed.

(** What allocating block [j] leaves. *)
Record allocated (st st' : B) (dev j : Z) : Prop := {
  al_bitmap : bitmap_ok (bget st' dev (block_bitmap d0));
  al_bits k : 0 <= k ->
    bit_at (bget st' dev (block_bitmap d0)) k = (k =? j) || bit_at (bget st dev (block_bitmap d0)) k;
  al_zero : bget st' dev j = zeros;
  al_frame d k : (d, k) <> (dev, block_bitmap d0) -> (d, k) <> (dev, j) -> bget st' d k = bget st d k;
}.

Lemma last_allocs_block (dev : Z) : 0 <= dev < 4 -> lget last_allocs dev = Ret 0.
Proof. intros H. assert (dev = 0 \/ dev = 1 \/ dev = 2 \/ dev = 3) as [->|[->|[->| ->]]] by lia; done. Qed.

Lemma block_alloc_spec (st : B) (dev j : Z) (l : list Z) :
  0 <= dev < 4 -> bitmap_ok (bget st dev (block_bitmap d0)) ->
  bit_at (bget st dev (block_bitmap d0)) (block_bitmap d0) = true -> 0 <= block_bitmap d0 ->
  free_blocks (bget st dev (block_bitmap d0)) = j :: l ->
  exists st', ext2_block_alloc sb bgds st dev = Ret (j, st') /\ allocated st st' dev j.
Proof using All.
  intros Hdev Hbm Hk0 Hk0n Hfree. destruct (first_free _ _ _ Hfree) as (Hj & Hc & Hs).
  unfold ext2_block_alloc, ext2_alloc. rewrite Z.mul_0_l, Z.add_0_r, last_allocs_block by done.
  cbn [obind alloc_groups]. rewrite bgds_first. cbn [obind].
  unfold bitmap_of. unfold lim in Hj.
  rewrite (alloc_scan_first _ _ 0 j Hbm) by (unfold lim; auto; lia). cbn [obind].
  pose proof Hbm as [Hl Hby].
  assert (Hd : 0 <= j / 8 < 1024)
    by (split; [apply Z.div_pos; lia|apply Z.div_lt_upper_bound; lia]).
  rewrite (lget_znth 0) by lia. cbn [obind]. rewrite bit_mask, lset_Ret by lia. cbn [obind].
  rewrite Z.add_0_l, u32_small by lia. eexists. split; [done|].
  assert (Hd8 : j / 8 < Z.of_nat (length (bget st dev (block_bitmap d0)))) by (rewrite Hl; lia).
  destruct (bitmap_set_spec (bget st dev (block_bitmap d0)) j ltac:(lia) Hd8 Hby) as (S1 & S2 & S3).
  set (bm' := <[_ := _]> _) in *. unfold ext2_zero_block, BLOCK_SIZE. rewrite Hlog. change (Z.shiftl 1024 0) with 1024.
  assert (Hne : block_bitmap d0 <> j) by (intros E; rewrite E in Hk0; congruence).
  assert (Eb : bget (bput (bput st dev (block_bitmap d0) bm') dev j (replicate (Z.to_nat 1024) 0)) dev
    (block_bitmap d0) = bm') by (rewrite bget_put_other by congruence; apply bget_put_same).
  split.
  - rewrite Eb. split; [by rewrite S2|done].
  - intros k Hk. rewrite Eb. by apply S3.
  - by rewrite bget_put_same.
  - intros d k H1 H2. by rewrite !bget_put_other.
Qed.

Lemma block_free_spec (st : B) (dev n : Z) :
  0 <= n < blocks_pg sb -> bitmap_ok (bget st dev (block_bitmap d0)) ->
  bit_at (bget st dev (block_bitmap d0)) n = true ->
  exists st', ext2_block_free sb bgds st dev n = Ret st' /\
    bitmap_ok (bget st' dev (block_bitmap d0)) /\
    (forall k, 0 <= k -> bit_at (bget st' dev (block_bitmap d0)) k =
       negb (k =? n) && bit_at (bget st dev (block_bitmap d0)) k) /\
    (forall d k, (d, k) <> (dev, block_bitmap d0) -> bget st' d k = bget st d k).
Proof using All.
  intros Hn Hbm Hb. pose proof Hbm as [Hl Hby]. unfold ext2_block_free, ext2_free.
  rewrite udiv_pos, Z.div_small by lia. cbn [obind]. 
  rewrite bgds_first. cbn [obind]. unfold bitmap_of. rewrite Z.mod_small by lia.
  assert (Hd : 0 <= n / 8 < 1024) by (split; [apply Z.div_pos; lia|apply Z.div_lt_upper_bound; lia]).
  pose proof (Z.mod_pos_bound n 8 ltac:(lia)) as Hm.
  rewrite (lget_znth 0) by lia. cbn [obind]. rewrite land_bit_zero, negb_involutive by lia.
  assert (Hbn : Z.testbit (bnot 32 (znth 0 (bget st dev (block_bitmap d0)) (n / 8))) (n mod 8) = false).
  { unfold bnot. replace (2 ^ 32 - 1) with (Z.ones 32) by done. rewrite Z.sub_nocarry_ldiff.
    - rewrite Z.ldiff_spec. unfold bit_at in Hb. rewrite wrap_testbit, Hb by lia. apply andb_false_r.
    - apply Z.bits_inj'. intros i Hi. rewrite Z.ldiff_spec, Z.bits_0.
      destruct (decide (i < 32)); [rewrite Z.ones_spec_low by lia; apply andb_false_r|].
      by rewrite wrap_testbit_high by lia. }
  rewrite Hbn. rewrite lset_Ret by lia. cbn [obind]. eexists. split; [done|].
  assert (Hd8 : n / 8 < Z.of_nat (length (bget st dev (block_bitmap d0)))) by (rewrite Hl; lia).
  destruct (bitmap_clear_spec (bget st dev (block_bitmap d0)) n ltac:(lia) Hd8 Hby) as (S1 & S2 & S3).
  rewrite bget_put_same. split; [split; [by rewrite S2|done]|]. split; [exact S3|].
  intros d k Hk. by rewrite bget_put_other.
Qed.

(** When the first group has a free block, ext2_block_alloc returns the
    lowest one, marks it and no other as used, and fills it with zeros; no
    other block changes. Freeing it again restores the bitmap bit by bit. *)
Theorem ext2_block_alloc_free (st : B) (dev j : Z) (l : list Z) :
  0 <= dev < 4 -> bitmap_ok (bget st dev (block_bitmap d0)) ->
  bit_at (bget st dev (block_bitmap d0)) (block_bitmap d0) = true -> 0 <= block_bitmap d0 ->
  free_blocks (bget st dev (block_bitmap d0)) = j :: l ->
  exists st' st'', ext2_block_alloc sb bgds st dev = Ret (j, st') /\ allocated st st' dev j /\
    ext2_block_free sb bgds st' dev j = Ret st'' /\
    forall k, 0 <= k -> bit_at (bget st'' dev (block_bitmap d0)) k = bit_at (bget st dev (block_bitmap d0)) k.
Proof using All.
  intros Hdev Hbm Hk0 Hk0n Hfree. destruct (first_free _ _ _ Hfree) as (Hj & Hc & _). unfold lim in Hj.
  destruct (block_alloc_spec st dev j l Hdev Hbm Hk0 Hk0n Hfree) as (st' & E & A).
  destruct (block_free_spec st' dev j ltac:(lia) (al_bitmap _ _ _ _ A)) as (st2 & E2 & _ & F & _).
  { rewrite (al_bits _ _ _ _ A) by lia. by rewrite Z.eqb_refl. }
  exists st', st2. split_and!; try done. intros k Hk. rewrite F, (al_bits _ _ _ _ A) by done.
  destruct (Z.eqb_spec k j) as [->|]; [by rewrite Hc|done].
Qed.

(** Freeing a free block is a kernel panic. *)
Theorem ext2_double_free (st : B) (dev n : Z) :
  0 <= n < blocks_pg sb -> bitmap_ok (bget st dev (block_bitmap d0)) ->
  bit_at (bget st dev (block_bitmap d0)) n = false -> ext2_block_free sb bgds st dev n = Panic.
Proof using All.
  intros Hn [Hl Hby] Hb. unfold ext2_block_free, ext2_free.
  rewrite udiv_pos, Z.div_small by lia. cbn [obind]. 
  rewrite bgds_first. cbn [obind]. unfold bitmap_of. rewrite Z.mod_small by lia.
  assert (Hd : 0 <= n / 8 < 1024) by (split; [apply Z.div_pos; lia|apply Z.div_lt_upper_bound; lia]).
  pose proof (Z.mod_pos_bound n 8 ltac:(lia)) as Hm.
  rewrite (lget_znth 0) by lia. cbn [obind]. rewrite land_bit_zero, negb_involutive by lia.
  assert (Hbn : Z.testbit (bnot 32 (znth 0 (bget st dev (block_bitmap d0)) (n / 8))) (n mod 8) = true).
  { unfold bnot. replace (2 ^ 32 - 1) with (Z.ones 32) by done. rewrite Z.sub_nocarry_ldiff.
    - rewrite Z.ldiff_spec, Z.ones_spec_low by lia. unfold bit_at in Hb. by rewrite wrap_testbit, Hb by lia.
    - apply Z.bits_inj'. intros i Hi. rewrite Z.ldiff_spec, Z.bits_0.
      destruct (decide (i < 32)); [rewrite Z.ones_spec_low by lia; apply andb_false_r|].
      by rewrite wrap_testbit_high by lia. }
  by rewrite Hbn.
Qed.

(** When the first group is full, the code looks for the descriptor of the
    next group at the index of its first block. *)
Theorem ext2_alloc_second_group (st : B) (dev : Z) :
  0 <= dev < 4 -> bitmap_ok (bget st dev (block_bitmap d0)) ->
  free_blocks (bget st dev (block_bitmap d0)) = [] ->
  blocks_pg sb < total_blocks sb -> Z.of_nat (length bgds) <= blocks_pg sb ->
  ext2_block_alloc sb bgds st dev = Undef.
Proof using All.
  intros Hdev Hbm Hfree Hlt Hlen.
  unfold ext2_block_alloc, ext2_alloc. rewrite Z.mul_0_l, Z.add_0_r, last_allocs_block by done.
  cbn [obind alloc_groups]. rewrite bgds_first. cbn [obind].
  unfold bitmap_of. rewrite (alloc_scan_none _ _ 0 Hbm); [|unfold lim; lia..|].
  2: { intros k Hk. destruct (bit_at _ k) eqn:E; [done|].
    assert (k ∈ free_blocks (bget st dev (block_bitmap d0))) as Hin by (by apply elem_free).
    rewrite Hfree in Hin. by apply elem_of_nil in Hin. }
  cbn [obind]. rewrite udiv_pos, Z.div_0_l by lia. cbn [obind].
  rewrite u32_small, umod_pos, Z.mod_small by lia. cbn [obind].
  destruct (Z.eqb_spec ((0 + 1) * blocks_pg sb) 0); [lia|].
  destruct (Z.to_nat (total_blocks sb)) eqn:Et; [lia|]. cbn [alloc_groups]. unfold lget at 1.
  destruct (Z.ltb_spec ((0 + 1) * blocks_pg sb) 0); [lia|].
  by rewrite lookup_ge_None_2 by lia.
Qed.
End Alloc.
