(* ===== verification/Ext2File.v ===== *)
(** The contents of a file on ext2, over ideal blocks: what ext2_write_content
    writes is what ext2_read_content reads, for files within the direct blocks.
    Ext2Cache.v has the same over the buffer cache. *)

From Stdlib Require Import ZArith Lia.
From stdpp Require Import base numbers list.
From S2P Require Import Prelude Bytes Ext2.

Section Content.
Context {B : Type} `{!Blocks B} {laws : BlocksLaws B} (sb : ext2_sblock_t) (bgds : list ext2_bgd_t).
Context (d0 : ext2_bgd_t) (Hd0 : bgds !! 0%nat = Some d0).
Context (Hlog : log_block_size sb = 0).
Context (Hpg : 0 < blocks_pg sb <= 8192) (Htot : 0 < total_blocks sb < 2 ^ 32).

Notation bm_of st i := (bget st (i_device i) (block_bitmap d0)).

Definition direct (i : inode_t) : list Z := take 12 (i_blocks i).

(** A file and the disk it is on: the bitmap marks block 0, the bitmap itself,
    the block of the inode and the blocks of the file as used; the blocks of
    the file are distinct, and enough blocks are free for the missing ones. *)
Record file_ok (st : B) (i : inode_t) (ix : inode_idx_t) : Prop := {
  fo_dev : 0 <= i_device i < 4;
  fo_wf : inode_wf i;
  fo_bm : bitmap_ok (bm_of st i);
  fo_bm_num : 0 <= block_bitmap d0;
  fo_used0 : bit_at (bm_of st i) 0 = true;
  fo_used_bm : bit_at (bm_of st i) (block_bitmap d0) = true;
  fo_slot : ext2_inode_idx sb bgds (i_n i) = Ret ix;
  fo_slot_in : 0 <= ix_block ix /\ 0 <= ix_idx ix <= 7;
  fo_used_ix : bit_at (bm_of st i) (ix_block ix) = true /\ ix_block ix <> block_bitmap d0;
  fo_ix_len : length (bget st (i_device i) (ix_block ix)) = 1024%nat;
  fo_blk j k : direct i !! j = Some k -> k <> 0 ->
    0 < k /\ bit_at (bm_of st i) k = true /\ k <> block_bitmap d0 /\ k <> ix_block ix /\
    length (bget st (i_device i) k) = 1024%nat;
  fo_inj j j' k : direct i !! j = Some k -> direct i !! j' = Some k -> k <> 0 -> j = j';
  fo_free : countb (fun k => k =? 0) (direct i) <=
    Z.of_nat (length (free_blocks sb (bm_of st i)));
}.

(** The byte at offset [x]; a missing block reads as zeros. *)
Definition fbyte (st : B) (i : inode_t) (x : Z) : Z :=
  let k := znth 0 (direct i) (x / 1024) in
  if k =? 0 then 0 else znth 0 (bget st (i_device i) k) (x mod 1024).

Lemma length_direct (i : inode_t) : inode_wf i -> length (direct i) = 12%nat.
Proof.
  intros (_ & _ & _ & _ & _ & _ & _ & _ & Hl & _). unfold direct. rewrite length_take, Hl. done.
Qed.

Lemma direct_lookup (i : inode_t) (j : nat) : (j < 12)%nat -> direct i !! j = i_blocks i !! j.
Proof. intros. unfold direct. by apply lookup_take_lt. Qed.

(** Replacing a direct block number. *)
Lemma direct_insert (i : inode_t) (j : nat) (k : Z) :
  (j < 12)%nat -> direct (with_blocks i (<[j := k]> (i_blocks i))) = <[j := k]> (direct i).
Proof. intros Hj. unfold direct. cbn [with_blocks i_blocks]. apply take_insert_lt. done. Qed.

Lemma wf_insert (i : inode_t) (j : nat) (k : Z) :
  inode_wf i -> 0 <= k < 2 ^ 32 -> inode_wf (with_blocks i (<[j := k]> (i_blocks i))).
Proof.
  intros (? & ? & ? & ? & ? & ? & ? & ? & Hl & Hf) Hk. unfold inode_wf. cbn.
  split_and!; try done; try lia; [by rewrite length_insert|by apply Forall_insert].
Qed.

(** Storing a block of the file. *)
Lemma put_block_ok (st : B) (i : inode_t) (ix : inode_idx_t) (j : nat) (k : Z) (buf : list Z) :
  file_ok st i ix -> direct i !! j = Some k -> k <> 0 -> length buf = 1024%nat ->
  file_ok (bput st (i_device i) k buf) i ix /\
  forall x, 0 <= x < 12 * 1024 -> fbyte (bput st (i_device i) k buf) i x =
    if x / 1024 =? Z.of_nat j then znth 0 buf (x mod 1024) else fbyte st i x.
Proof.
  intros H Hj Hk Hl. destruct (fo_blk _ _ _ H j k Hj Hk) as (K1 & K2 & K3 & K4 & K5).
  assert (Ebm : bget (bput st (i_device i) k buf) (i_device i) (block_bitmap d0) = bm_of st i)
    by (apply bget_put_other; congruence).
  assert (Eix : bget (bput st (i_device i) k buf) (i_device i) (ix_block ix) = bget st (i_device i) (ix_block ix))
    by (apply bget_put_other; congruence).
  split.
  - destruct H; split; rewrite ?Ebm, ?Eix; try done.
    intros j' k' Hj' Hk'. destruct (fo_blk0 j' k' Hj' Hk') as (? & ? & ? & ? & ?). split_and!; try done.
    destruct (decide (k' = k)) as [->|]; [by rewrite bget_put_same|]. by rewrite bget_put_other by congruence.
  - intros x Hx. unfold fbyte. pose proof (length_direct i (fo_wf _ _ _ H)) as Hld.
    assert (Hq : 0 <= x / 1024 < 12) by (split; [apply Z.div_pos; lia|apply Z.div_lt_upper_bound; lia]).
    destruct (Z.eqb_spec (x / 1024) (Z.of_nat j)) as [E|E].
    + unfold znth at 1 3. rewrite E, Nat2Z.id, Hj. cbn [default from_option id].
      destruct (Z.eqb_spec k 0); [done|]. by rewrite bget_put_same.
    + destruct (Z.eqb_spec (znth 0 (direct i) (x / 1024)) 0) as [|Hnz]; [done|].
      rewrite bget_put_other; [done|]. intros [= Ek]. apply E.
      destruct (lookup_lt_is_Some_2 (direct i) (Z.to_nat (x / 1024))) as [y Hy]; [lia|].
      unfold znth in Ek, Hnz. rewrite Hy in Ek, Hnz. cbn in Ek, Hnz. subst y.
      pose proof (fo_inj _ _ _ H _ _ _ Hy Hj Hk). lia.
Qed.

(** What a newly allocated block is: it was free, so it is none of the blocks in
    use, and the allocation keeps those. *)
Record grown (st st' : B) (i : inode_t) (ix : inode_idx_t) (k : Z) : Prop := {
  gr_range : 0 <= k < Z.min (blocks_pg sb) (total_blocks sb);
  gr_free : k ∈ free_blocks sb (bm_of st i);
  gr_clear : bit_at (bm_of st i) k = false;
  gr_nz : k <> 0;
  gr_bm : k <> block_bitmap d0;
  gr_ix : k <> ix_block ix;
  gr_frame n : n <> block_bitmap d0 -> n <> k -> bget st' (i_device i) n = bget st (i_device i) n;
  gr_bits n : 0 <= n -> bit_at (bm_of st i) n = true -> bit_at (bm_of st' i) n = true;
}.

Lemma grown_ok (st st' : B) (i : inode_t) (ix : inode_idx_t) (k : Z) (l : list Z) :
  file_ok st i ix -> free_blocks sb (bm_of st i) = k :: l -> allocated d0 st st' (i_device i) k -> grown st st' i ix k.
Proof.
  intros H Hfree A. assert (Hkf : k ∈ free_blocks sb (bm_of st i)) by (rewrite Hfree; left).
  pose proof Hkf as Hkf'. apply elem_free in Hkf' as [Hk Hkc]. split; try done.
  - intros ->. pose proof (fo_used0 _ _ _ H). congruence.
  - intros ->. pose proof (fo_used_bm _ _ _ H). congruence.
  - intros ->. pose proof (proj1 (fo_used_ix _ _ _ H)). congruence.
  - intros n ? ?. apply (al_frame _ _ _ _ _ A); congruence.
  - intros n Hn Hbn. rewrite (al_bits _ _ _ _ _ A) by done. rewrite Hbn. apply orb_true_r.
Qed.

Lemma grow_bytes (st st' : B) (i : inode_t) (ix : inode_idx_t) (j : nat) (k : Z) :
  file_ok st i ix -> direct i !! j = Some 0 -> allocated d0 st st' (i_device i) k -> grown st st' i ix k ->
  let i' := with_blocks i (<[j := k]> (i_blocks i)) in
  forall x, 0 <= x < 12 * 1024 -> fbyte st' i' x = fbyte st i x.
Proof.
  intros H Hj A G i'. destruct G as [Hk Hkf Hkc Hk0 Hkb Hkx Hfr Hb].
  pose proof (length_direct i (fo_wf _ _ _ H)) as Hld. pose proof (lookup_lt_Some _ _ _ Hj) as Hj12. rewrite Hld in Hj12.
  assert (Ed : direct i' = <[j := k]> (direct i)) by (by apply direct_insert).
  intros x Hx. unfold fbyte. rewrite Ed. change (i_device i') with (i_device i).
  assert (Hq : 0 <= x / 1024 < 12) by (split; [apply Z.div_pos; lia|apply Z.div_lt_upper_bound; lia]).
  destruct (decide (Z.to_nat (x / 1024) = j)) as [E|E].
  + unfold znth at 1 3 4. rewrite E, list_lookup_insert_eq, Hj by lia. cbn [default from_option id Z.eqb].
    destruct (Z.eqb_spec k 0); [done|]. rewrite (al_zero _ _ _ _ _ A). unfold znth, zeros.
    pose proof (Z.mod_pos_bound x 1024). rewrite lookup_replicate_2 by lia. done.
  + destruct (lookup_lt_is_Some_2 (direct i) (Z.to_nat (x / 1024))) as [y Hy]; [lia|].
    assert (znth 0 (direct i) (x / 1024) = y) as -> by (unfold znth; by rewrite Hy).
    assert (znth 0 (<[j := k]> (direct i)) (x / 1024) = y) as ->
      by (unfold znth; by rewrite list_lookup_insert_ne, Hy).
    destruct (Z.eqb_spec y 0) as [|Hy0]; [done|].
    destruct (fo_blk _ _ _ H _ y Hy Hy0) as (_ & Hyb & Hy1 & Hy2 & _).
    rewrite Hfr; [done|done|]. intros ->. congruence.
Qed.

Lemma grow_file (st st' : B) (i : inode_t) (ix : inode_idx_t) (j : nat) (k : Z) :
  file_ok st i ix -> direct i !! j = Some 0 -> allocated d0 st st' (i_device i) k -> grown st st' i ix k ->
  file_ok st' (with_blocks i (<[j := k]> (i_blocks i))) ix.
Proof.
  intros H Hj A G. set (i' := with_blocks _ _). destruct G as [Hk Hkf Hkc Hk0 Hkb Hkx Hfr Hb].
  pose proof (length_direct i (fo_wf _ _ _ H)) as Hld. pose proof (lookup_lt_Some _ _ _ Hj) as Hj12. rewrite Hld in Hj12.
  assert (Ed : direct i' = <[j := k]> (direct i)) by (by apply direct_insert).
  split; change (i_device i') with (i_device i); change (i_n i') with (i_n i).
  + apply (fo_dev _ _ _ H).
  + apply wf_insert; [apply (fo_wf _ _ _ H)|lia].
  + apply (al_bitmap _ _ _ _ _ A).
  + apply (fo_bm_num _ _ _ H).
  + apply Hb; [lia|apply (fo_used0 _ _ _ H)].
  + apply Hb; [apply (fo_bm_num _ _ _ H)|apply (fo_used_bm _ _ _ H)].
  + apply (fo_slot _ _ _ H).
  + apply (fo_slot_in _ _ _ H).
  + split; [|apply (fo_used_ix _ _ _ H)]. apply Hb; [apply (fo_slot_in _ _ _ H)|apply (fo_used_ix _ _ _ H)].
  + rewrite Hfr; [apply (fo_ix_len _ _ _ H)|apply (fo_used_ix _ _ _ H)|congruence].
  + intros j' k' Hj' Hk'. rewrite Ed in Hj'. destruct (decide (j' = j)) as [->|].
    * rewrite list_lookup_insert_eq in Hj' by lia. injection Hj' as <-. split_and!; try done; [lia| |].
      { rewrite (al_bits _ _ _ _ _ A) by lia. by rewrite Z.eqb_refl. }
      { by rewrite (al_zero _ _ _ _ _ A). }
    * rewrite list_lookup_insert_ne in Hj' by done.
      destruct (fo_blk _ _ _ H j' k' Hj' Hk') as (? & ? & ? & ? & ?). split_and!; try done; [apply Hb; [lia|done]|].
      rewrite Hfr; [done..|congruence].
  + intros j1 j2 n H1 H2 Hn. rewrite Ed in H1, H2.
    assert (Hnew : forall j', j' <> j -> direct i !! j' = Some k -> False).
    { intros j' _ Hj'. destruct (fo_blk _ _ _ H j' k Hj' Hk0) as (_ & ? & _). congruence. }
    destruct (decide (j1 = j)) as [->|], (decide (j2 = j)) as [->|]; [done|..].
    * rewrite list_lookup_insert_eq in H1 by lia. rewrite list_lookup_insert_ne in H2 by done.
      injection H1 as <-. by destruct (Hnew j2).
    * rewrite list_lookup_insert_eq in H2 by lia. rewrite list_lookup_insert_ne in H1 by done.
      injection H2 as <-. by destruct (Hnew j1).
    * rewrite list_lookup_insert_ne in H1, H2 by done. by apply (fo_inj _ _ _ H j1 j2 n).
  + rewrite Ed. rewrite (countb_insert _ _ _ _ _ Hj). cbn [Z.eqb b2z].
    destruct (Z.eqb_spec k 0); [done|]. pose proof (fo_free _ _ _ H).
    pose proof (free_marked sb (bm_of st i) (bm_of st' i) k Hkf (al_bits _ _ _ _ _ A)). cbn [b2z]. lia.
Qed.

(** Allocating a missing block. *)
Lemma grow_ok (st st' : B) (i : inode_t) (ix : inode_idx_t) (j : nat) (k : Z) (l : list Z) :
  file_ok st i ix -> direct i !! j = Some 0 ->
  free_blocks sb (bm_of st i) = k :: l -> allocated d0 st st' (i_device i) k ->
  let i' := with_blocks i (<[j := k]> (i_blocks i)) in
  k <> 0 /\ file_ok st' i' ix /\ forall x, 0 <= x < 12 * 1024 -> fbyte st' i' x = fbyte st i x.
Proof.
  intros H Hj Hfree A i'. pose proof (grown_ok st st' i ix k l H Hfree A) as G.
  split; [apply (gr_nz _ _ _ _ _ G)|]. split; [by apply (grow_file st)|by apply (grow_bytes st st' i ix)].
Qed.

(** [ext2_get_iblock] for a direct block: the block is there afterwards and the
    contents have not changed. *)
Lemma get_iblock_ok (st : B) (i : inode_t) (ix : inode_idx_t) (j : nat) :
  file_ok st i ix -> (j < 12)%nat ->
  exists k l st', ext2_get_iblock sb bgds st i (Z.of_nat j) = Ret (k, with_blocks i l, st') /\
    file_ok st' (with_blocks i l) ix /\ direct (with_blocks i l) !! j = Some k /\ k <> 0 /\
    forall x, 0 <= x < 12 * 1024 -> fbyte st' (with_blocks i l) x = fbyte st i x.
Proof using All.
  intros H Hj. pose proof (length_direct i (fo_wf _ _ _ H)) as Hld.
  destruct (lookup_lt_is_Some_2 (direct i) j) as [k Hk]; [lia|].
  pose proof Hk as Hk'. rewrite direct_lookup in Hk' by done.
  unfold ext2_get_iblock. destruct (Z.ltb_spec (Z.of_nat j) DIRECT_BLOCKS); [|unfold DIRECT_BLOCKS in *; lia].
  assert (lget (i_blocks i) (Z.of_nat j) = Ret k) as -> by (apply lget_Ret; split; [lia|by rewrite Nat2Z.id]).
  cbn [obind]. destruct (Z.eqb_spec k 0) as [->|Hnz].
  - assert (Hf : exists n l, free_blocks sb (bm_of st i) = n :: l).
    { pose proof (fo_free _ _ _ H) as Hf. destruct (free_blocks sb (bm_of st i)) as [|n l]; [|eauto].
      exfalso. pose proof (countb_insert (fun k => k =? 0) _ _ 1 _ Hk) as Hc. cbn in Hc, Hf.
      pose proof (countb_range (fun k => k =? 0) (<[j := 1]> (direct i))). lia. }
    destruct Hf as (n & l & Hf).
    destruct (block_alloc_spec sb bgds d0 Hd0 Hlog Hpg Htot st (i_device i) n l (fo_dev _ _ _ H)
      (fo_bm _ _ _ H) (fo_used_bm _ _ _ H) (fo_bm_num _ _ _ H) Hf) as (st' & -> & A).
    cbn [obind]. apply lookup_lt_Some in Hk' as Hlen. rewrite lset_Ret by lia. rewrite Nat2Z.id. cbn [obind].
    destruct (grow_ok st st' i ix j n l H Hk Hf A) as (G1 & G2 & G3).
    exists n, (<[j := n]> (i_blocks i)), st'. split_and!; try done.
    rewrite direct_insert by done. apply list_lookup_insert_eq. lia.
  - exists k, (i_blocks i), st. assert (with_blocks i (i_blocks i) = i) as -> by (by destruct i).
    split_and!; done.
Qed.

Lemma block_size_1024 : BLOCK_SIZE sb = 1024.
Proof using Hlog. unfold BLOCK_SIZE. by rewrite Hlog. Qed.

(** How much a round moves. *)
Lemma chunk_spec (n size o : Z) :
  0 <= n < size -> size < 2 ^ 32 ->
  chunk sb n size o = Z.min (size - n) (1024 - o mod 1024) /\
  0 < chunk sb n size o <= size - n /\ o mod 1024 + chunk sb n size o <= 1024.
Proof using Hlog.
  intros Hn Hs. unfold chunk. rewrite block_size_1024. pose proof (Z.mod_pos_bound o 1024 ltac:(lia)) as Hm.
  rewrite !u32_small by lia. destruct (Z.ltb_spec (size - n) (1024 - o mod 1024)); lia.
Qed.

Lemma znth_take_drop (l : list Z) (n len z : Z) :
  0 <= n -> 0 <= z < len -> znth 0 (take (Z.to_nat len) (drop (Z.to_nat n) l)) z = znth 0 l (n + z).
Proof.
  intros Hn Hz. unfold znth. rewrite lookup_take_lt by lia. rewrite lookup_drop. do 2 f_equal. lia.
Qed.

Lemma same_block (x o len : Z) :
  0 <= x -> 0 <= o -> 0 < len -> o mod 1024 + len <= 1024 ->
  (x / 1024 =? Z.of_nat (Z.to_nat (o / 1024))) &&
    ((o mod 1024 <=? x mod 1024) && (x mod 1024 <? o mod 1024 + len)) = (o <=? x) && (x <? o + len).
Proof.
  intros Hx Ho Hl Hb. pose proof (Z.div_mod x 1024). pose proof (Z.div_mod o 1024).
  pose proof (Z.mod_pos_bound x 1024). pose proof (Z.mod_pos_bound o 1024).
  assert (0 <= o / 1024) by (apply Z.div_pos; lia). rewrite Z2Nat.id by done.
  destruct (Z.eqb_spec (x / 1024) (o / 1024)), (Z.leb_spec (o mod 1024) (x mod 1024)),
    (Z.ltb_spec (x mod 1024) (o mod 1024 + len)), (Z.leb_spec o x), (Z.ltb_spec x (o + len)); cbn; lia.
Qed.

(** The byte of a block of the file. *)
Lemma fbyte_block (st : B) (i : inode_t) (x : Z) (k : Z) :
  direct i !! Z.to_nat (x / 1024) = Some k -> k <> 0 ->
  fbyte st i x = znth 0 (bget st (i_device i) k) (x mod 1024).
Proof.
  intros Hk Hnz. unfold fbyte.
  assert (znth 0 (direct i) (x / 1024) = k) as -> by (unfold znth; by rewrite Hk).
  by destruct (Z.eqb_spec k 0).
Qed.

Lemma write_loop_ok (fuel : nat) (st : B) (i : inode_t) (ix : inode_idx_t) (n off : Z) (src : list Z) :
  let size := Z.of_nat (length src) in
  file_ok st i ix -> 0 <= n <= size -> 0 <= off -> off + size <= 12 * 1024 -> size - n < Z.of_nat fuel ->
  exists l st', write_loop sb bgds fuel st i n size (off + n) src = Ret (off + size, with_blocks i l, st') /\
    file_ok st' (with_blocks i l) ix /\
    forall x, 0 <= x < 12 * 1024 -> fbyte st' (with_blocks i l) x =
      if (off + n <=? x) && (x <? off + size) then znth 0 src (x - off) else fbyte st i x.
Proof using All.
  intros size. revert st i n. induction fuel as [|fuel IH]; intros st i n H Hn Ho Hos Hf; [lia|].
  cbn [write_loop]. destruct (Z.ltb_spec n size) as [Hlt|Hge].
  2: { exists (i_blocks i), st. assert (with_blocks i (i_blocks i) = i) as -> by (by destruct i).
    assert (n = size) as -> by lia. split; [done|]. split; [done|]. intros x Hx.
    destruct (Z.leb_spec (off + size) x), (Z.ltb_spec x (off + size)); done || lia. }
  set (o := off + n). assert (Ho0 : 0 <= o) by (unfold o; lia). rewrite block_size_1024.
  assert (Hq : 0 <= o / 1024 < 12)
    by (unfold o; split; [apply Z.div_pos; lia|apply Z.div_lt_upper_bound; lia]).
  destruct (get_iblock_ok st i ix (Z.to_nat (o / 1024)) H ltac:(lia)) as (k & l & st1 & E & H1 & Hk & Hnz & Hs).
  rewrite Z2Nat.id in E by lia. rewrite E. cbn [obind]. set (i1 := with_blocks i l) in *.
  change (i_device i1) with (i_device i).
  destruct (chunk_spec n size o ltac:(lia) ltac:(unfold size; lia)) as (_ & Hc1 & Hc2).
  set (len := chunk sb n size o) in *.
  rewrite slice_Ret by (unfold size in *; lia). cbn [obind]. set (d := take _ _).
  assert (Ld : Z.of_nat (length d) = len) by (unfold d; rewrite length_take, length_drop; unfold size in *; lia).
  destruct (fo_blk _ _ _ H1 _ k Hk Hnz) as (_ & _ & _ & _ & Lb). change (i_device i1) with (i_device i) in Lb.
  pose proof (Z.mod_pos_bound o 1024 ltac:(lia)) as Hm.
  assert (Esp : exists buf, splice (bget st1 (i_device i) k) (o mod 1024) d = Ret buf)
    by (eexists; apply splice_Ret; rewrite ?Ld, ?Lb; lia).
  destruct Esp as (buf & Esp). rewrite Esp. cbn [obind].
  pose proof (length_splice _ _ _ _ Esp) as Lbuf. rewrite Lb in Lbuf.
  destruct (put_block_ok st1 i1 ix _ k buf H1 Hk Hnz Lbuf) as [H2 Hs2].
  change (i_device i1) with (i_device i) in H2, Hs2.
  rewrite !u32_small by (unfold o, size in *; lia). replace (o + len) with (off + (n + len)) by (unfold o; lia).
  destruct (IH (bput st1 (i_device i) k buf) i1 (n + len) H2 ltac:(lia) Ho Hos ltac:(lia)) as (l2 & st2 & E2 & H3 & Hs3).
  exists l2, st2. split; [exact E2|]. split; [exact H3|]. intros x Hx.
  change (with_blocks i1 l2) with (with_blocks i l2) in *. rewrite Hs3, Hs2 by done.
  assert (Estep : (if x / 1024 =? Z.of_nat (Z.to_nat (o / 1024)) then znth 0 buf (x mod 1024) else fbyte st1 i1 x) =
    if (o <=? x) && (x <? o + len) then znth 0 src (x - off) else fbyte st i x).
  { rewrite <- (same_block x o len) by lia. rewrite <- Hs by done.
    destruct (Z.eqb_spec (x / 1024) (Z.of_nat (Z.to_nat (o / 1024)))) as [Ex|Ex]; [|done]. cbn [andb].
    pose proof (Z.mod_pos_bound x 1024 ltac:(lia)) as Hmx.
    rewrite (znth_splice _ _ _ _ Esp) by lia. rewrite Ld.
    destruct ((o mod 1024 <=? x mod 1024) && (x mod 1024 <? o mod 1024 + len)) eqn:Ec.
    - bprop. unfold d. rewrite znth_take_drop by lia. f_equal.
      pose proof (Z.div_mod x 1024). pose proof (Z.div_mod o 1024). rewrite Z2Nat.id in Ex by lia. unfold o in *. lia.
    - symmetry. rewrite (fbyte_block st1 i1 x k); [done| |done].
      rewrite Ex, Nat2Z.id. done. }
  rewrite Estep. unfold o. destruct (Z.leb_spec (off + (n + len)) x), (Z.ltb_spec x (off + size)),
    (Z.leb_spec (off + n) x), (Z.ltb_spec x (off + n + len)); cbn [andb]; done || lia.
Qed.

(** A stretch of the contents. *)
Definition fbytes (st : B) (i : inode_t) (o : Z) (n : Z) : list Z :=
  map (fun z => fbyte st i (o + Z.of_nat z)) (seq 0 (Z.to_nat n)).

Lemma fbytes_app (st : B) (i : inode_t) (o a b : Z) :
  0 <= a -> 0 <= b -> fbytes st i o (a + b) = fbytes st i o a ++ fbytes st i (o + a) b.
Proof.
  intros Ha Hb. unfold fbytes. rewrite Z2Nat.inj_add by done. rewrite seq_app, map_app. f_equal.
  assert (E : seq (0 + Z.to_nat a) (Z.to_nat b) = map (Nat.add (Z.to_nat a)) (seq 0 (Z.to_nat b))).
  { pose proof (fmap_add_seq (Z.to_nat a) 0 (Z.to_nat b)) as E. rewrite Nat.add_0_r in E. by rewrite Nat.add_0_l. }
  rewrite E, map_map. apply map_ext. intros z. f_equal. lia.
Qed.

Lemma fbytes_ext (st st' : B) (i i' : inode_t) (o n : Z) :
  0 <= o -> o + n <= 12 * 1024 ->
  (forall x, 0 <= x < 12 * 1024 -> fbyte st' i' x = fbyte st i x) -> fbytes st' i' o n = fbytes st i o n.
Proof.
  intros Ho Hn H. unfold fbytes. apply map_ext_in. intros z Hz%in_seq. apply H. lia.
Qed.

(** A stretch within a block. *)
Lemma fbytes_block (st : B) (i : inode_t) (o len k : Z) :
  0 <= o -> 0 < len -> o mod 1024 + len <= 1024 -> direct i !! Z.to_nat (o / 1024) = Some k -> k <> 0 ->
  length (bget st (i_device i) k) = 1024%nat ->
  slice (bget st (i_device i) k) (o mod 1024) len = Ret (fbytes st i o len).
Proof.
  intros Ho Hl Hb Hk Hnz Lb. pose proof (Z.mod_pos_bound o 1024 ltac:(lia)) as Hm.
  rewrite slice_Ret by (rewrite ?Lb; lia). f_equal. unfold fbytes. apply list_eq. intros z.
  rewrite list_lookup_fmap. destruct (decide (z < Z.to_nat len)%nat) as [Hz|Hz].
  - rewrite lookup_take_lt, lookup_drop, lookup_seq_lt by done. cbn [fmap option_fmap option_map].
    assert (Eq : (o + Z.of_nat z) / 1024 = o / 1024 /\ (o + Z.of_nat z) mod 1024 = o mod 1024 + Z.of_nat z).
    { pose proof (Z.div_mod o 1024 ltac:(lia)). split.
      - symmetry. apply (Z.div_unique _ _ _ (o mod 1024 + Z.of_nat z)); lia.
      - symmetry. apply (Z.mod_unique _ _ (o / 1024)); lia. }
    destruct Eq as [Eq Er]. rewrite Nat.add_0_l, (fbyte_block st i _ k) by (done || by rewrite Eq).
    rewrite Er. unfold znth.
    destruct (lookup_lt_is_Some_2 (bget st (i_device i) k) (Z.to_nat (o mod 1024) + z)) as [y Hy]; [lia|].
    rewrite Hy. replace (Z.to_nat (o mod 1024 + Z.of_nat z)) with (Z.to_nat (o mod 1024) + z)%nat by lia.
    by rewrite Hy.
  - rewrite lookup_take_ge, lookup_seq_ge by lia. done.
Qed.

Lemma read_loop_ok (fuel : nat) (st : B) (i : inode_t) (ix : inode_idx_t) (n size off : Z) (acc : list Z) :
  file_ok st i ix -> 0 <= n <= size -> 0 <= off -> off + size <= 12 * 1024 -> size - n < Z.of_nat fuel ->
  exists l st', read_loop sb bgds fuel st i n size (off + n) acc =
      Ret (acc ++ fbytes st i (off + n) (size - n), with_blocks i l, st') /\
    file_ok st' (with_blocks i l) ix /\
    forall x, 0 <= x < 12 * 1024 -> fbyte st' (with_blocks i l) x = fbyte st i x.
Proof using All.
  revert st i n acc. induction fuel as [|fuel IH]; intros st i n acc H Hn Ho Hos Hf; [lia|].
  cbn [read_loop]. destruct (Z.ltb_spec n size) as [Hlt|Hge].
  2: { exists (i_blocks i), st. assert (with_blocks i (i_blocks i) = i) as -> by (by destruct i).
    assert (n = size) as -> by lia. rewrite Z.sub_diag. unfold fbytes. cbn. by rewrite app_nil_r. }
  set (o := off + n). assert (Ho0 : 0 <= o) by (unfold o; lia). rewrite block_size_1024.
  assert (Hq : 0 <= o / 1024 < 12)
    by (unfold o; split; [apply Z.div_pos; lia|apply Z.div_lt_upper_bound; lia]).
  destruct (get_iblock_ok st i ix (Z.to_nat (o / 1024)) H ltac:(lia)) as (k & l & st1 & E & H1 & Hk & Hnz & Hs).
  rewrite Z2Nat.id in E by lia. rewrite E. cbn [obind]. set (i1 := with_blocks i l) in *.
  change (i_device i1) with (i_device i).
  destruct (chunk_spec n size o ltac:(lia) ltac:(lia)) as (_ & Hc1 & Hc2).
  set (len := chunk sb n size o) in *.
  destruct (fo_blk _ _ _ H1 _ k Hk Hnz) as (_ & _ & _ & _ & Lb).
  pose proof (fbytes_block st1 i1 o len k Ho0 ltac:(lia) Hc2 Hk Hnz Lb) as Es.
  change (i_device i1) with (i_device i) in Es. rewrite Es. cbn [obind].
  rewrite !u32_small by (unfold o in *; lia). replace (o + len) with (off + (n + len)) by (unfold o; lia).
  destruct (IH st1 i1 (n + len) (acc ++ fbytes st1 i1 o len) H1 ltac:(lia) Ho Hos ltac:(lia))
    as (l2 & st2 & E2 & H3 & Hs3).
  exists l2, st2. rewrite E2. change (with_blocks i1 l2) with (with_blocks i l2) in *. split; [|split; [exact H3|]].
  - rewrite !(fbytes_ext st st1 i i1) by (unfold o; lia || done). rewrite <- app_assoc. do 4 f_equal.
    replace (size - n) with (len + (size - (n + len))) by lia. rewrite fbytes_app by lia. f_equal.
    unfold o. f_equal. lia.
  - intros x Hx. rewrite Hs3 by done. by apply Hs.
Qed.

Lemma resize_ok (st : B) (i : inode_t) (ix : inode_idx_t) (n : Z) :
  file_ok st i ix -> 0 <= n < 2 ^ 32 -> file_ok st (with_size i n) ix.
Proof.
  intros H Hn. destruct H; split; try done.
  destruct fo_wf0 as (? & ? & ? & ? & ? & ? & ? & ? & ? & ?). unfold inode_wf. cbn. split_and!; done || lia.
Qed.

Lemma update_ok (st : B) (i : inode_t) (ix : inode_idx_t) :
  file_ok st i ix ->
  exists st', ext2_inode_update sb bgds st i = Ret st' /\ file_ok st' i ix /\
    ext2_inode_get sb bgds st' (i_device i) (i_n i) = Ret i /\ forall x, 0 <= x < 12 * 1024 -> fbyte st' i x = fbyte st i x.
Proof using laws.
  intros H. pose proof (fo_slot_in _ _ _ H) as [Hb Hi]. pose proof (fo_ix_len _ _ _ H) as Hl.
  destruct (inode_update_spec sb bgds st i ix (fo_wf _ _ _ H) (fo_slot _ _ _ H) ltac:(lia)) as (st' & E & G & Fr & L & _).
  { rewrite Hl. unfold DINODE_SIZE. lia. }
  assert (Hfr : forall k, k <> ix_block ix -> bget st' (i_device i) k = bget st (i_device i) k)
    by (intros k Hk; apply Fr; congruence).
  pose proof (proj2 (fo_used_ix _ _ _ H)) as Hne.
  exists st'. split; [done|]. split; [|split; [done|]].
  - destruct H; split; rewrite ?(Hfr (block_bitmap d0)) by congruence; try done; [by rewrite L|].
    intros j k Hj Hk. destruct (fo_blk0 j k Hj Hk) as (? & ? & ? & ? & ?). split_and!; try done. by rewrite Hfr.
  - intros x Hx. unfold fbyte. destruct (Z.eqb_spec (znth 0 (direct i) (x / 1024)) 0) as [|Hnz]; [done|].
    rewrite Hfr; [done|]. pose proof (length_direct i (fo_wf _ _ _ H)).
    assert (Hq : 0 <= x / 1024 < 12) by (split; [apply Z.div_pos; lia|apply Z.div_lt_upper_bound; lia]).
    destruct (lookup_lt_is_Some_2 (direct i) (Z.to_nat (x / 1024))) as [y Hy]; [lia|].
    unfold znth in *. rewrite Hy in *. cbn in *. by destruct (fo_blk _ _ _ H _ y Hy Hnz) as (_ & _ & _ & ? & _).
Qed.

(** Writing within the direct blocks. *)
Lemma write_content_ok (st : B) (i : inode_t) (ix : inode_idx_t) (src : list Z) (offset : Z) :
  let size := Z.of_nat (length src) in
  file_ok st i ix -> 0 <= offset <= i_size i -> offset + size <= 12 * 1024 ->
  exists i' st', ext2_write_content sb bgds st i src offset = Ret (size, i', st') /\ file_ok st' i' ix /\
    i_size i' = Z.max (i_size i) (offset + size) /\ i_device i' = i_device i /\ i_n i' = i_n i /\
    (forall x, 0 <= x < 12 * 1024 -> fbyte st' i' x =
       if (offset <=? x) && (x <? offset + size) then znth 0 src (x - offset) else fbyte st i x) /\
    ext2_inode_get sb bgds st' (i_device i) (i_n i) = Ret i'.
Proof using All.
  intros size H Ho Hs. unfold ext2_write_content. fold size.
  destruct (Z.ltb_spec (i_size i) offset); [lia|]. rewrite u32_small by (unfold size in *; lia).
  destruct (Z.ltb_spec MAX_FILE_SIZE (offset + size)) as [Hm|_].
  { exfalso. assert (12 * 1024 <= MAX_FILE_SIZE) by (by vm_compute). lia. }
  destruct (write_loop_ok (S (length src)) st i ix 0 offset src H) as (l & st1 & E & H1 & F1);
    [unfold size in *; lia..|].
  rewrite Z.add_0_r in E, F1. fold size in E, F1. rewrite E. cbn [obind]. set (i1 := with_blocks i l) in *.
  change (i_size i1) with (i_size i).
  set (i2 := if i_size i <? offset + size then with_size i1 (offset + size) else i1).
  assert (H2 : file_ok st1 i2 ix) by (unfold i2; case_match; [apply resize_ok; [done|unfold size in *; lia]|done]).
  assert (Ei2 : i_device i2 = i_device i /\ i_n i2 = i_n i /\ i_size i2 = Z.max (i_size i) (offset + size)).
  { unfold i2. destruct (Z.ltb_spec (i_size i) (offset + size)); cbn; split_and!; try done; lia. }
  assert (Ef : forall x, fbyte st1 i2 x = fbyte st1 i1 x) by (intros x; unfold i2; by case_match).
  destruct Ei2 as (Ed & En & Esz). destruct (update_ok st1 i2 ix H2) as (st2 & E2 & H3 & G & F2).
  rewrite E2. cbn [obind]. rewrite Ed, En in G. exists i2, st2. split_and!; try done.
  intros x Hx. by rewrite F2, Ef, F1.
Qed.

(** Reading within the direct blocks. *)
Lemma read_content_ok (st : B) (i : inode_t) (ix : inode_idx_t) (offset size : Z) :
  file_ok st i ix -> 0 <= offset -> 0 <= size -> offset + size <= i_size i -> offset + size <= 12 * 1024 ->
  exists l st', ext2_read_content sb bgds st i offset size = Ret (fbytes st i offset size, with_blocks i l, st') /\
    file_ok st' (with_blocks i l) ix /\
    forall x, 0 <= x < 12 * 1024 -> fbyte st' (with_blocks i l) x = fbyte st i x.
Proof using All.
  intros H Ho Hn Hs Hm. unfold ext2_read_content. destruct (Z.ltb_spec (i_size i) offset); [lia|].
  rewrite u32_small by lia. destruct (Z.ltb_spec (i_size i) (offset + size)); [lia|].
  destruct (read_loop_ok (S (Z.to_nat size)) st i ix 0 size offset [] H) as (l & st' & E & H' & F); [lia..|].
  rewrite Z.add_0_r, Z.sub_0_r in E. by exists l, st'.
Qed.

(** Writing to a file, within its direct blocks and not beyond its end,
    stores every byte and returns their number, allocating the blocks that are
    missing; all other bytes of the file stay, the size grows as needed, and
    the inode on the disk is up to date. Reading the same stretch returns the
    bytes that were written and changes no byte of the file. *)
Theorem ext2_write_read (st : B) (i : inode_t) (ix : inode_idx_t) (src : list Z) (offset : Z) :
  let size := Z.of_nat (length src) in
  file_ok st i ix -> 0 <= offset <= i_size i -> offset + size <= 12 * 1024 ->
  exists i' st', ext2_write_content sb bgds st i src offset = Ret (size, i', st') /\ file_ok st' i' ix /\
    i_size i' = Z.max (i_size i) (offset + size) /\
    (forall x, 0 <= x < 12 * 1024 -> fbyte st' i' x =
       if (offset <=? x) && (x <? offset + size) then znth 0 src (x - offset) else fbyte st i x) /\
    ext2_inode_get sb bgds st' (i_device i) (i_n i) = Ret i' /\
    exists i'' st'', ext2_read_content sb bgds st' i' offset size = Ret (src, i'', st'') /\
      forall x, 0 <= x < 12 * 1024 -> fbyte st'' i'' x = fbyte st' i' x.
Proof using All.
  intros size H Ho Hs. destruct (write_content_ok st i ix src offset H Ho Hs) as (i' & st' & E & H' & Esz & _ & _ & F & G).
  exists i', st'. split_and!; try done.
  destruct (read_content_ok st' i' ix offset size H') as (l & st'' & E' & _ & F'); [unfold size in *; lia..|].
  rewrite E'. eexists _, st''. split; [|exact F']. do 3 f_equal.
  rewrite <- (znth_list_eq src (length src)) by done. unfold fbytes, size. rewrite Nat2Z.id.
  apply map_ext_in. intros z Hz%in_seq. rewrite F by (unfold size in *; lia). unfold size.
  destruct (Z.leb_spec offset (offset + Z.of_nat z)); [|lia].
  destruct (Z.ltb_spec (offset + Z.of_nat z) (offset + Z.of_nat (length src))); [|lia]. cbn [andb]. f_equal. lia.
Qed.
End Content.

(** ** Truncation *)

Section Truncate.
Context {B : Type} `{!Blocks B} (sb : ext2_sblock_t) (bgds : list ext2_bgd_t).

Lemma trunc_direct_stops (n : nat) (st st' : B) (i i' : inode_t) (j : Z) (r : option unit) (m : nat) :
  0 <= j -> (Z.to_nat j <= m < Z.to_nat j + n)%nat -> i_blocks i !! m = Some 0 ->
  trunc_direct sb bgds n st i j = Ret (r, i', st') -> r = None /\ i_size i' = i_size i.
Proof.
  revert st i j. induction n as [|n IH]; intros st i j Hj Hm Hb E; [lia|]. cbn [trunc_direct] in E.
  apply obind_inv in E as (k & Ek & E). destruct (Z.eqb_spec k 0) as [->|Hk]; [by injection E as <- <- <-|].
  apply obind_inv in E as (st1 & _ & E). apply obind_inv in E as (l & El & E).
  apply lset_inv in El as [Hl ->]. apply lget_Ret in Ek as [_ Ek].
  assert (m <> Z.to_nat j) by congruence.
  apply IH in E as [-> E]; [done|lia|lia|]. cbn. by rewrite list_lookup_insert_ne by lia.
Qed.

(** Truncating a file with a missing direct block leaves its size. *)
Theorem truncate_keeps_size (st st' : B) (i i' : inode_t) (m : nat) :
  (m < 12)%nat -> i_blocks i !! m = Some 0 ->
  ext2_truncate sb bgds st i = Ret (i', st') -> i_size i' = i_size i.
Proof.
  intros Hm Hb E. unfold ext2_truncate in E. apply obind_inv in E as ([[r i1] st1] & E1 & E).
  apply (trunc_direct_stops _ _ _ _ _ _ _ m) in E1 as [-> Es]; [|lia|unfold DIRECT_BLOCKS; lia|done].
  cbn in E. by injection E as <- <-.
Qed.

(** The descriptor for new inodes is looked for at index 11. *)
Theorem inode_alloc_undef (st : B) (dev : Z) :
  0 <= dev < 4 -> (length bgds <= 11)%nat -> ext2_inode_alloc sb bgds st dev = Undef.
Proof.
  intros Hd Hl. unfold ext2_inode_alloc, ext2_alloc.
  assert (Ei : lget last_allocs (dev + b2z true * 4) = Ret 11 /\ lget last_allocs dev = Ret 0).
  { assert (dev = 0 \/ dev = 1 \/ dev = 2 \/ dev = 3) as [->|[->|[->| ->]]] by lia; done. }
  destruct Ei as [-> ->]. cbn [obind alloc_groups]. unfold lget. cbn [Z.ltb Z.compare].
  by rewrite lookup_ge_None_2 by (cbn; lia).
Qed.
End Truncate.

(** ** A concrete disk *)

Definition fun_blocks := Z -> Z -> list Z.
#[export] Instance fun_blocks_ops : Blocks fun_blocks := {
  bget st d k := st d k;
  bput st d k l := fun d' k' => if (d' =? d) && (k' =? k) then l else st d' k';
}.
#[export] Program Instance fun_blocks_laws : BlocksLaws fun_blocks.
Next Obligation. intros st d k l. cbn. by rewrite !Z.eqb_refl. Qed.
Next Obligation.
  intros st d k l d' k' H. cbn. destruct (Z.eqb_spec d' d), (Z.eqb_spec k' k); try done. congruence.
Qed.

(** 64 blocks in one group; the bitmap in block 3 marks blocks 0 to 9. *)
Definition sb0 : ext2_sblock_t := mk_sblock 64 0 64 32 128.
Definition bgd0 : ext2_bgd_t := mk_bgd 3 4 5.
Definition disk0 : fun_blocks := fun _ k => if k =? 3 then [0xFF; 0x03] ++ replicate 1022 0 else replicate 1024 0.
Definition file0 : inode_t := mk_inode 0 12 0x8000 1 0 0 0 0 0 0 (replicate 15 0).
Definition slot0 : inode_idx_t := mk_inode_idx 6 4.

Lemma file0_ok : file_ok sb0 [bgd0] bgd0 disk0 file0 slot0.
Proof.
  split.
  - cbn. lia.
  - unfold inode_wf. cbn. split_and!; try lia. repeat constructor; lia.
  - split; [done|]. change (Forall (fun b => 0 <= b < 256) ([0xFF; 0x03] ++ replicate 1022 0)).
    rewrite Forall_app, !Forall_cons, Forall_nil. split_and!; try done. by apply Forall_replicate.
  - done.
  - by vm_compute.
  - by vm_compute.
  - by vm_compute.
  - cbn. lia.
  - split; [by vm_compute|done].
  - done.
  - intros j k Hj Hk. change (direct file0) with (replicate 12 0) in Hj.
    by apply lookup_replicate in Hj as [-> _].
  - intros j j' k Hj _ Hk. change (direct file0) with (replicate 12 0) in Hj.
    by apply lookup_replicate in Hj as [-> _].
  - by vm_compute.
Qed.

Lemma ext2_write_read_witness :
  exists i st i' st', ext2_write_content sb0 [bgd0] disk0 file0 (replicate 1500 7) 0 = Ret (1500, i, st) /\
    ext2_read_content sb0 [bgd0] st i 0 1500 = Ret (replicate 1500 7, i', st').
Proof.
  destruct (ext2_write_read sb0 [bgd0] bgd0 eq_refl eq_refl ltac:(cbn; lia) ltac:(cbn; lia)
    disk0 file0 slot0 (replicate 1500 7) 0 file0_ok ltac:(cbn; lia) ltac:(rewrite length_replicate; lia))
    as (i & st & E & _ & _ & _ & _ & i' & st' & E' & _).
  exact (ex_intro _ i (ex_intro _ st (ex_intro _ i' (ex_intro _ st' (conj E E'))))).
Defined.

Lemma ext2_block_alloc_free_witness :
  exists st, ext2_block_alloc sb0 [bgd0] disk0 0 = Ret (10, st).
Proof.
  destruct (ext2_block_alloc_free sb0 [bgd0] bgd0 eq_refl eq_refl ltac:(cbn; lia) ltac:(cbn; lia) disk0 0 10
    (seqZ 11 53) ltac:(lia) (fo_bm _ _ _ _ _ _ file0_ok) (fo_used_bm _ _ _ _ _ _ file0_ok) ltac:(cbn; lia)
    ltac:(by vm_compute)) as (st & st' & E & _).
  exact (ex_intro _ st E).
Defined.

Lemma ext2_inode_roundtrip_witness :
  exists st, ext2_inode_update sb0 [bgd0] disk0 file0 = Ret st /\
    ext2_inode_get sb0 [bgd0] st 0 12 = Ret file0.
Proof.
  destruct (ext2_inode_roundtrip sb0 [bgd0] disk0 file0 slot0 (fo_wf _ _ _ _ _ _ file0_ok) eq_refl)
    as (st & E & G & _); [cbn; lia|by vm_compute|].
  exact (ex_intro _ st (conj E G)).
Defined.

(** The first block behind the direct ones: the number that is returned is the
    first word of the data block that was just allocated and zeroed. *)
Theorem indirect_block_zero :
  exists i st, ext2_get_iblock sb0 [bgd0] disk0 file0 12 = Ret (0, i, st).
Proof. eexists _, _. vm_compute. reflexivity. Qed.
