(* ===== verification/BioBlocks.v ===== *)
(** The blocks of the file system over the buffer cache: how filesystem.c uses
    bio.c.  Ext2.v reads and stores whole blocks through the interface [Blocks];
    here an access to a block is the sequence of calls of bio.c, and a simulation
    shows that accesses the cache can serve do what the interface says.  A block
    that was just released is not among them. *)

From Stdlib Require Import ZArith Lia.
From stdpp Require Import base numbers list gmap.
From S2P Require Import Prelude HashTable Tables Lru Bio Bytes Ext2.

Section Calls.
Context {T W : Type} `{!KTable T} `{!Disk W}.
Context (alloc : gmap Z bio_buf_t -> Z) (junk : Z -> Z -> list Z) (bs : Z).

(** [ext2_read_block] and [ext2_write_block]; [bs] is [BLOCK_SIZE]. *)
Definition ext2_read_block (s : bio T W) (device block : Z) : outcome (Z * bio T W) := bio_read alloc junk s device block bs.
Definition ext2_write_block (s : bio T W) (buf : Z) : outcome (bio T W) := bio_write s buf.

(** [buf = ext2_read_block(...); ... buf->buffer ...; bio_release(buf);] *)
Definition use_block (s : bio T W) (device block : Z) : outcome (list Z * bio T W) :=
  let! (buf, s) := ext2_read_block s device block in
  let! b := buf_at s buf in
  let! s := bio_release s buf in
  Ret (b_data b, s).

(** The same with stores to the buffer, which [f] makes of its bytes, and
    [ext2_write_block(buf)] in between. *)
Definition change_block (s : bio T W) (device block : Z) (f : list Z -> list Z) : outcome (bio T W) :=
  let! (buf, s) := ext2_read_block s device block in
  let! b := buf_at s buf in
  let! s := bio_store s buf (f (b_data b)) in
  let! s := ext2_write_block s buf in
  bio_release s buf.
End Calls.

Section Simulation.
Context {T W B : Type} `{!KTable T} `{!Disk W} {tl : KTableLaws T} {dl : DiskLaws W} `{!Blocks B} {bl : BlocksLaws B}.
Context (bs : Z) (bs_ok : 512 <= bs /\ bs mod 512 = 0).
Context (alloc : gmap Z bio_buf_t -> Z) (junk : Z -> Z -> list Z).
Context (alloc_ok : forall m, alloc m <> 0 /\ m !! alloc m = None).
Context (junk_length : forall p n, length (junk p n) = Z.to_nat n).

(** The cache and the blocks: the disk has in every block what the interface
    says. *)
Record sim (s : bio T W) (l : list Z) (st : B) : Prop := {
  sim_ok : bio_ok bs s l;
  sim_blocks d k : dbytes bs (disk s) d k = bget st d k;
}.

(** Reading a block through the cache. *)
Lemma use_block_sim (s : bio T W) (l : list Z) (st : B) (device block : Z) :
  sim s l st -> block_ok bs device block -> valid_block bs device block -> available s l device block ->
  exists s' l', use_block alloc junk bs s device block = Ret (bget st device block, s') /\ sim s' l' st.
Proof using bs_ok alloc_ok junk_length.
  intros [Hok Hb] Hk Hv Ha. unfold use_block, ext2_read_block.
  destruct (cached_read_ok bs bs_ok alloc junk alloc_ok junk_length s l device block Hok Hk Hv Ha)
    as (p & s1 & l1 & b & -> & H1 & Hp & _ & _ & Hr & Hd & Hs & _).
  cbn [obind]. unfold buf_at. rewrite Hp. cbn [obind].
  destruct (bio_release_correct bs s1 l1 p b H1 Hp Hr) as (s2 & -> & H2 & _ & D2 & _). cbn [obind].
  eexists _, _. split; [by rewrite Hd, Hb|]. split; [exact H2|]. intros d k. rewrite D2, (same_dbytes bs _ _ _ _ Hs). apply Hb.
Qed.

(** Changing a block through the cache. *)
Lemma change_block_sim (s : bio T W) (l : list Z) (st : B) (device block : Z) (f : list Z -> list Z) :
  sim s l st -> block_ok bs device block -> valid_block bs device block -> available s l device block ->
  length (f (bget st device block)) = Z.to_nat bs ->
  exists s' l', change_block alloc junk bs s device block f = Ret s' /\
    sim s' l' (bput st device block (f (bget st device block))).
Proof using bs_ok alloc_ok junk_length bl.
  intros [Hok Hb] Hk Hv Ha Hl. unfold change_block, ext2_read_block, ext2_write_block.
  destruct (cached_read_ok bs bs_ok alloc junk alloc_ok junk_length s l device block Hok Hk Hv Ha)
    as (p & s1 & l1 & b & -> & H1 & Hp & Ed & Ek & Hr & Hd & Hs & _).
  cbn [obind]. unfold buf_at at 1. rewrite Hp. cbn [obind]. rewrite Hd, Hb.
  set (data := f (bget st device block)) in *.
  destruct (store_write_ok bs bs_ok s1 l1 p b data H1 Hp Hl) as (s2 & s3 & E2 & E3 & H3 & D1 & D2 & _).
  rewrite E2. cbn [obind]. rewrite E3. cbn [obind].
  assert (Hp3 : exists b3, bufs s3 !! p = Some b3 /\ 0 < b_ref b3).
  { unfold bio_store, buf_at in E2. rewrite Hp in E2. injection E2 as <-. unfold bio_write, buf_at in E3. cbn [bufs set_bufs] in E3.
    rewrite lookup_insert_eq in E3. apply obind_inv in E3 as (b' & [= <-] & E3). apply obind_inv in E3 as (w & _ & [= <-]).
    cbn [bufs]. rewrite lookup_insert_eq. by eexists. }
  destruct Hp3 as (b3 & Hp3 & Hr3).
  destruct (bio_release_correct bs s3 l1 p b3 H3 Hp3 Hr3) as (s4 & -> & H4 & _ & D4 & _).
  eexists s4, _. split; [done|]. split; [exact H4|]. intros d k. rewrite D4. rewrite Ed, Ek in D1, D2.
  destruct (decide ((d, k) = (device, block))) as [[= -> ->]|Hne].
  - by rewrite D1, bget_put_same.
  - rewrite D2, bget_put_other by done. rewrite (same_dbytes bs _ _ _ _ Hs). apply Hb.
Qed.

(** ** Sequences *)

(** What the file system does with blocks: look at one, or change one. *)
Inductive bop :=
| BUse (device block : Z)
| BChange (device block : Z) (f : list Z -> list Z).

Definition run_bop (s : bio T W) (o : bop) : outcome (list (list Z) * bio T W) :=
  match o with
  | BUse d k => let! (x, s) := use_block alloc junk bs s d k in Ret ([x], s)
  | BChange d k f => let! s := change_block alloc junk bs s d k f in Ret ([], s)
  end.
Fixpoint run_bops (s : bio T W) (os : list bop) : outcome (list (list Z) * bio T W) :=
  match os with
  | [] => Ret ([], s)
  | o :: os => let! (x, s) := run_bop s o in let! (xs, s) := run_bops s os in Ret (x ++ xs, s)
  end.

Definition spec_bop (st : B) (o : bop) : list (list Z) * B :=
  match o with
  | BUse d k => ([bget st d k], st)
  | BChange d k f => ([], bput st d k (f (bget st d k)))
  end.
Fixpoint spec_bops (st : B) (os : list bop) : list (list Z) * B :=
  match os with
  | [] => ([], st)
  | o :: os => let '(x, st) := spec_bop st o in let '(xs, st) := spec_bops st os in (x ++ xs, st)
  end.

(** The cache can serve a block now; the bytes that are stored make a block. *)
Definition servable (s : bio T W) (l : list Z) (st : B) (o : bop) : Prop :=
  match o with
  | BUse d k => block_ok bs d k /\ valid_block bs d k /\ available s l d k
  | BChange d k f => block_ok bs d k /\ valid_block bs d k /\ available s l d k /\ length (f (bget st d k)) = Z.to_nat bs
  end.
Fixpoint all_servable (s : bio T W) (l : list Z) (st : B) (os : list bop) : Prop :=
  match os with
  | [] => True
  | o :: os => servable s l st o /\
      forall x s' l', run_bop s o = Ret (x, s') -> bio_ok bs s' l' -> all_servable s' l' (spec_bop st o).2 os
  end.

Lemma run_bops_sim (os : list bop) (s : bio T W) (l : list Z) (st : B) :
  sim s l st -> all_servable s l st os ->
  exists s' l', run_bops s os = Ret ((spec_bops st os).1, s') /\ sim s' l' (spec_bops st os).2.
Proof using bs_ok alloc_ok junk_length bl.
  revert s l st. induction os as [|o os IH]; intros s l st Hs Ha; cbn [run_bops spec_bops]; [by exists s, l|].
  destruct Ha as [Ho Ha].
  assert (exists s1 l1, run_bop s o = Ret ((spec_bop st o).1, s1) /\ sim s1 l1 (spec_bop st o).2) as (s1 & l1 & E1 & H1).
  { destruct o as [d k|d k f]; cbn [run_bop spec_bop fst snd].
    - destruct Ho as (Hk & Hv & Hav). destruct (use_block_sim s l st d k Hs Hk Hv Hav) as (s1 & l1 & -> & H1). by exists s1, l1.
    - destruct Ho as (Hk & Hv & Hav & Hl). destruct (change_block_sim s l st d k f Hs Hk Hv Hav Hl) as (s1 & l1 & -> & H1).
      by exists s1, l1. }
  specialize (Ha _ _ l1 E1 (sim_ok _ _ _ H1)). rewrite E1. cbn [obind].
  destruct (IH s1 l1 (spec_bop st o).2 H1 Ha) as (s2 & l2 & -> & H2). cbn [obind].
  destruct (spec_bop st o) as [x st1]. cbn [fst snd] in *. destruct (spec_bops st1 os) as [xs st2]. by exists s2, l2.
Qed.

(** C1: The file system over the buffer cache sees plain blocks: a sequence of
    reads and changes of blocks that the cache can serve ends, every read returns
    the bytes the changes before it left in the block, and afterwards the disk
    has the blocks that the changes made. *)
Theorem cache_refines_blocks (os : list bop) (s : bio T W) (l : list Z) (st : B) :
  sim s l st -> all_servable s l st os ->
  exists s' l', run_bops s os = Ret ((spec_bops st os).1, s') /\ sim s' l' (spec_bops st os).2.
Proof using bs_ok alloc_ok junk_length bl. apply run_bops_sim. Qed.
End Simulation.

(** ** A concrete run *)

(** The blocks of the concrete disk. *)
Definition fun_disk_blocks : Type := Z -> Z -> list Z.
#[export] Instance fun_disk_blocks_ops : Blocks fun_disk_blocks := {
  bget f d k := f d k;
  bput f d k l := fun d' k' => if (d' =? d) && (k' =? k) then l else f d' k';
}.
#[export] Program Instance fun_disk_blocks_laws : BlocksLaws fun_disk_blocks.
Next Obligation. intros f d k l. cbn. by rewrite !Z.eqb_refl. Qed.
Next Obligation.
  intros f d k l d' k' Hne. cbn. destruct (Z.eqb_spec d' d) as [->|]; [|done]. destruct (Z.eqb_spec k' k) as [->|]; done.
Qed.
Definition bio0_blocks : fun_disk_blocks := fun d k => dbytes 1024 (disk bio0) d k.

(** Block 5 is read, block 6 is changed. *)
Definition demo_bops : list bop := [BUse 0 5; BChange 0 6 (fun _ => replicate 1024 9)].

Lemma bio0_sim : sim (dl := fun_disk_laws) 1024 bio0 [] bio0_blocks.
Proof. split; [apply bio0_ok|done]. Qed.

(** Reading block 5 leaves room in the table and does not enter block 6. *)
Lemma demo_servable : all_servable (dl := fun_disk_laws) 1024 alloc0 junk0 bio0 [] bio0_blocks demo_bops.
Proof.
  split; [split; [split; lia|split; [done|apply bio0_available]]|]. intros x s l E Hok.
  split; [|done]. split; [split; lia|]. split; [done|]. split; [|by rewrite length_replicate].
  pose proof (fun p Hp => proj1 (bo_map 1024 s l Hok (bio_key 0 6) p) Hp) as Hm.
  assert (Hs : (match run_bop (T := num_table) (W := fun_disk) 1024 alloc0 junk0 bio0 (BUse 0 5) with
    | Ret (_, s) => tbl_room (table s) && forallb (fun pb => negb (bio_key (b_device pb.2) (b_block pb.2) =? bio_key 0 6)) (map_to_list (bufs s))
    | _ => false end) = true) by (vm_compute; reflexivity).
  rewrite E in Hs. apply andb_true_iff in Hs as [Hr Hf]. unfold available. destruct (tbl_map (table s) !! bio_key 0 6) as [p|]; [|done].
  exfalso. destruct (Hm p eq_refl) as (b & Hb & Hk). rewrite forallb_forall in Hf. specialize (Hf (p, b)). cbn [snd] in Hf.
  rewrite Hk, Z.eqb_refl in Hf. discriminate Hf. apply list_elem_of_In, elem_of_map_to_list. exact Hb.
Qed.

Lemma cache_refines_blocks_witness :
  exists s' : bio num_table fun_disk, run_bops 1024 alloc0 junk0 bio0 demo_bops = Ret ([dbytes 1024 (disk bio0) 0 5], s') /\
    dbytes 1024 (disk s') 0 6 = replicate 1024 9.
Proof.
  destruct (cache_refines_blocks 1024 ltac:(split; [lia|reflexivity]) alloc0 junk0 alloc0_ok junk0_length demo_bops bio0 []
    bio0_blocks bio0_sim demo_servable) as (s' & l' & E & H).
  exact (ex_intro _ s' (conj E (sim_blocks _ _ _ _ H 0 6))).
Defined.
