(* ===== verification/Ext2Cache.v ===== *)
(** The ext2 file system over the buffer cache: the functions of
    src/src/kernel/fs/filesystem.c with the calls of bio.c they make, buffer by
    buffer.  Ext2.v has the same functions over ideal blocks; here every
    [ext2_read_block] and [bio_release] runs on the model of the cache, which
    fails when a block is read again right after its release.

    The accounting [cached] says which blocks the list of unused buffers has, in
    order, and how many more the table takes; [touch] is what an access does to
    them.  When the accesses of a function can be served, the function returns
    what the specification of Ext2.v returns and the disk follows it. *)

From Stdlib Require Import ZArith Lia.
From stdpp Require Import base numbers list gmap.
From S2P Require Import Prelude HashTable Tables Lru Bio Bytes Ext2 Ext2File BioBlocks.

Section Functions.
Context {T W : Type} `{!KTable T} `{!Disk W}.
Context (alloc : gmap Z bio_buf_t -> Z) (junk : Z -> Z -> list Z).
Context (sb : ext2_sblock_t) (bgds : list ext2_bgd_t).

Notation read_block s d k := (ext2_read_block alloc junk (BLOCK_SIZE sb) s d k).

(** The bytes [buf->buffer] points to. *)
Definition buffer_of (s : bio T W) (buf : Z) : outcome (list Z) := let! b := buf_at s buf in Ret (b_data b).

Definition cached_zero_block (s : bio T W) (device block : Z) : outcome (bio T W) :=
  let! (buf, s) := read_block s device block in
  let! s := bio_store s buf (replicate (Z.to_nat (BLOCK_SIZE sb)) 0) in
  let! s := ext2_write_block s buf in
  bio_release s buf.

(** The outer loop of [ext2_alloc]; the inner one is [alloc_scan]. *)
Fixpoint cached_alloc_groups (fuel : nat) (s : bio T W) (device i stop : Z) (is_inode : bool) :
    outcome (Z * bio T W) :=
  match fuel with
  | O => NoFuel
  | S fuel =>
      let! d := lget bgds i in
      let! (bitmap, s) := read_block s device (bitmap_of d is_inode) in
      let! buffer := buffer_of s bitmap in
      let! r := alloc_scan sb (S (Z.to_nat (blocks_pg sb - i))) buffer i i in
      match r with
      | Some j =>
          let! byte := lget buffer (j / 8) in
          let! buffer := lset buffer (j / 8) (Z.lor byte (u8 (Z.shiftl 1 (j mod 8)))) in
          let! s := bio_store s bitmap buffer in
          let! s := ext2_write_block s bitmap in
          let! s := bio_release s bitmap in
          let! s := cached_zero_block s device (u32 (i + j)) in
          Ret (u32 (i + j), s)
      | None =>
          let! s := bio_release s bitmap in
          let! q := udiv i (blocks_pg sb) in
          let! i := umod (u32 ((q + 1) * blocks_pg sb)) (total_blocks sb) in
          if i =? stop then Panic else cached_alloc_groups fuel s device i stop is_inode
      end
  end.

Definition cached_alloc (s : bio T W) (device : Z) (is_inode : bool) : outcome (Z * bio T W) :=
  let! i := lget last_allocs (device + b2z is_inode * 4) in
  let! stop := lget last_allocs device in
  cached_alloc_groups (S (Z.to_nat (total_blocks sb))) s device i stop is_inode.
Definition cached_block_alloc (s : bio T W) (device : Z) : outcome (Z * bio T W) := cached_alloc s device false.

Definition cached_free (s : bio T W) (device n : Z) (is_inode : bool) : outcome (bio T W) :=
  let! g := udiv n (blocks_pg sb) in
  let! d := lget bgds g in
  let! (bitmap, s) := read_block s device (bitmap_of d is_inode) in
  let! buffer := buffer_of s bitmap in
  let idx := n mod blocks_pg sb in
  let! byte := lget buffer (idx / 8) in
  let bit := Z.shiftl 1 (idx mod 8) in
  if negb (Z.land (bnot 32 byte) bit =? 0) then Panic
  else
    let! buffer := lset buffer (idx / 8) (u8 (Z.land byte (bnot 32 bit))) in
    let! s := bio_store s bitmap buffer in
    let! s := ext2_write_block s bitmap in
    bio_release s bitmap.
Definition cached_block_free (s : bio T W) (device block : Z) : outcome (bio T W) := cached_free s device block false.

(** [ind] is a pointer into the buffer [ind], which the caller holds. *)
Fixpoint cached_indblock (s : bio T W) (device ind idx : Z) (times : nat) : outcome (Z * bio T W) :=
  let! div := ext2_get_div times in
  let r_idx := idx / div in
  let n_idx := idx mod div in
  let! ind32 := buffer_of s ind in
  let! ptr := load_le ind32 (4 * r_idx) 4 in
  let! s :=
    if ptr =? 0 then
      let! (k, s) := cached_block_alloc s device in
      let! ind32 := buffer_of s ind in
      let! ind32 := store_le ind32 (4 * r_idx) 4 k in
      bio_store s ind ind32
    else Ret s in
  let! ind32 := buffer_of s ind in
  let! ptr := load_le ind32 (4 * r_idx) 4 in
  let! (buf, s) := read_block s device ptr in
  let! block := buffer_of s buf in
  let! ret := load_le block (4 * n_idx) 4 in
  let! (ret, s) :=
    match times with
    | O => Ret (ret, s)
    | S times => cached_indblock s device buf n_idx times
    end in
  let! s := ext2_write_block s buf in
  let! s := bio_release s buf in
  Ret (ret, s).

Definition cached_get_iblock (s : bio T W) (inode : inode_t) (idx : Z) : outcome (Z * inode_t * bio T W) :=
  if idx <? DIRECT_BLOCKS then
    let! k := lget (i_blocks inode) idx in
    if k =? 0 then
      let! (k, s) := cached_block_alloc s (i_device inode) in
      let! l := lset (i_blocks inode) idx k in
      Ret (k, with_blocks inode l, s)
    else Ret (k, inode, s)
  else
    let! (ind_idx, times, r_idx) :=
      if idx <? IND1_LIMIT then Ret (IND1_IDX, 0%nat, idx - DIRECT_BLOCKS)
      else if idx <? IND2_LIMIT then Ret (IND2_IDX, 1%nat, idx - IND1_LIMIT)
      else if idx <? IND3_LIMIT then Ret (IND3_IDX, 2%nat, idx - IND2_LIMIT)
      else Panic in
    let! k := lget (i_blocks inode) ind_idx in
    let! (k, inode, s) :=
      if k =? 0 then
        let! (k, s) := cached_block_alloc s (i_device inode) in
        let! l := lset (i_blocks inode) ind_idx k in
        Ret (k, with_blocks inode l, s)
      else Ret (k, inode, s) in
    let! (buf, s) := read_block s (i_device inode) k in
    let! (block, s) := cached_indblock s (i_device inode) buf r_idx times in
    let! s := ext2_write_block s buf in
    let! s := bio_release s buf in
    Ret (block, inode, s).

(** [ext2_read_inode] inlined: the slot is at [ix_idx] in the buffer. *)
Definition cached_inode_update (s : bio T W) (inode : inode_t) : outcome (bio T W) :=
  let! ix := ext2_inode_idx sb bgds (i_n inode) in
  let! (buf, s) := read_block s (i_device inode) (ix_block ix) in
  let! buffer := buffer_of s buf in
  let! buffer := store_inode buffer (ix_idx ix * DINODE_SIZE) inode in
  let! s := bio_store s buf buffer in
  let! s := ext2_write_block s buf in
  bio_release s buf.

(** The members that [ext2_inode_get] copies out of the slot at [a]. *)
Definition load_inode (buf : list Z) (a device n : Z) : outcome inode_t :=
  let! mode := load_le buf (a + D_MODE) 2 in
  let! size := load_le buf (a + D_SIZE) 4 in
  let! atime := load_le buf (a + D_ATIME) 4 in
  let! ctime := load_le buf (a + D_CTIME) 4 in
  let! mtime := load_le buf (a + D_MTIME) 4 in
  let! dtime := load_le buf (a + D_DTIME) 4 in
  let! links := load_le buf (a + D_LINKS) 2 in
  let! sectors := load_le buf (a + D_SECTORS) 4 in
  let! blocks := load_blocks buf (a + D_BLOCKS) (Z.to_nat INODE_BLOCKS_COUNT) in
  Ret (mk_inode device n mode links size atime ctime mtime dtime sectors blocks).

Definition cached_inode_get (s : bio T W) (device n : Z) : outcome (inode_t * bio T W) :=
  let! ix := ext2_inode_idx sb bgds n in
  let! (buf, s) := read_block s device (ix_block ix) in
  let! buffer := buffer_of s buf in
  let! inode := load_inode buffer (ix_idx ix * DINODE_SIZE) device n in
  let! s := bio_release s buf in
  Ret (inode, s).

(** The loops and the functions on the contents; the bytes read are returned. *)
Fixpoint cached_read_loop (fuel : nat) (s : bio T W) (inode : inode_t) (i size offset : Z) (acc : list Z) :
    outcome (list Z * inode_t * bio T W) :=
  match fuel with
  | O => NoFuel
  | S fuel =>
      if i <? size then
        let! (block_idx, inode, s) := cached_get_iblock s inode (offset / BLOCK_SIZE sb) in
        let! (buf, s) := read_block s (i_device inode) block_idx in
        let! buffer := buffer_of s buf in
        let len := chunk sb i size offset in
        let! d := slice buffer (offset mod BLOCK_SIZE sb) len in
        let! s := bio_release s buf in
        cached_read_loop fuel s inode (u32 (i + len)) size (u32 (offset + len)) (acc ++ d)
      else Ret (acc, inode, s)
  end.

Definition cached_read_content (s : bio T W) (inode : inode_t) (offset size : Z) :
    outcome (list Z * inode_t * bio T W) :=
  if i_size inode <? offset then Ret ([], inode, s)
  else
    let size := if i_size inode <? u32 (offset + size) then i_size inode - offset else size in
    cached_read_loop (S (Z.to_nat size)) s inode 0 size offset [].

Fixpoint cached_write_loop (fuel : nat) (s : bio T W) (inode : inode_t) (i size offset : Z) (src : list Z) :
    outcome (Z * inode_t * bio T W) :=
  match fuel with
  | O => NoFuel
  | S fuel =>
      if i <? size then
        let! (block_idx, inode, s) := cached_get_iblock s inode (offset / BLOCK_SIZE sb) in
        let! (buf, s) := read_block s (i_device inode) block_idx in
        let! buffer := buffer_of s buf in
        let len := chunk sb i size offset in
        let! d := slice src i len in
        let! buffer := splice buffer (offset mod BLOCK_SIZE sb) d in
        let! s := bio_store s buf buffer in
        let! s := ext2_write_block s buf in
        let! s := bio_release s buf in
        cached_write_loop fuel s inode (u32 (i + len)) size (u32 (offset + len)) src
      else Ret (offset, inode, s)
  end.

Definition cached_write_content (s : bio T W) (inode : inode_t) (src : list Z) (offset : Z) :
    outcome (Z * inode_t * bio T W) :=
  let size := Z.of_nat (length src) in
  if i_size inode <? offset then Ret (-1, inode, s)
  else if MAX_FILE_SIZE <? u32 (offset + size) then Ret (-1, inode, s)
  else
    let! (end_, inode, s) := cached_write_loop (S (length src)) s inode 0 size offset src in
    let inode := if i_size inode <? end_ then with_size inode end_ else inode in
    let! s := cached_inode_update s inode in
    Ret (size, inode, s).

(** [block] is a buffer the caller holds; [--times] changes the variable of the
    loop. *)
Fixpoint cached_ind_trunc_loop (rec : bio T W -> Z -> Z -> outcome (bio T W)) (n : nat) (s : bio T W) (device block i times : Z) :
    outcome (bio T W) :=
  match n with
  | O => Ret s
  | S n =>
      let! block32 := buffer_of s block in
      let! k := load_le block32 (4 * i) 4 in
      if k =? 0 then Ret s
      else if negb (times =? 0) then
        let times := times - 1 in
        let! (buf, s) := read_block s device k in
        let! s := rec s buf times in
        let! s := ext2_write_block s buf in
        let! s := bio_release s buf in
        cached_ind_trunc_loop rec n s device block (i + 1) times
      else
        let! s := cached_block_free s device k in
        let! block32 := buffer_of s block in
        let! block32 := store_le block32 (4 * i) 4 0 in
        let! s := bio_store s block block32 in
        cached_ind_trunc_loop rec n s device block (i + 1) times
  end.

(** [depth] bounds the nesting, which is at most [times]. *)
Fixpoint cached_ind_trunc (depth : nat) (device : Z) (s : bio T W) (block times : Z) : outcome (bio T W) :=
  match depth with
  | O => NoFuel
  | S depth =>
      cached_ind_trunc_loop (cached_ind_trunc depth device) (Z.to_nat PTR_ENTRY_BLOCKS) s device block 0 times
  end.

(** The two loops of [ext2_truncate]; [None] when the function returns. *)
Fixpoint cached_trunc_direct (n : nat) (s : bio T W) (inode : inode_t) (i : Z) : outcome (option unit * inode_t * bio T W) :=
  match n with
  | O => Ret (Some tt, inode, s)
  | S n =>
      let! k := lget (i_blocks inode) i in
      if k =? 0 then Ret (None, inode, s)
      else
        let! s := cached_block_free s (i_device inode) k in
        let! l := lset (i_blocks inode) i 0 in
        cached_trunc_direct n s (with_blocks inode l) (i + 1)
  end.
Fixpoint cached_trunc_indirect (n : nat) (s : bio T W) (inode : inode_t) (idx times : Z) : outcome (option unit * bio T W) :=
  match n with
  | O => Ret (Some tt, s)
  | S n =>
      let! k := lget (i_blocks inode) idx in
      if k =? 0 then Ret (None, s)
      else
        let! (buf, s) := read_block s (i_device inode) k in
        let! s := cached_ind_trunc 4 (i_device inode) s buf times in
        let! s := ext2_write_block s buf in
        let! s := bio_release s buf in
        cached_trunc_indirect n s inode (idx + 1) (times + 1)
  end.

Definition cached_truncate (s : bio T W) (inode : inode_t) : outcome (inode_t * bio T W) :=
  let! (r, inode, s) := cached_trunc_direct (Z.to_nat DIRECT_BLOCKS) s inode 0 in
  match r with
  | None => Ret (inode, s)
  | Some _ =>
      let! (r, s) := cached_trunc_indirect 3 s inode IND1_IDX 0 in
      match r with
      | None => Ret (inode, s)
      | Some _ =>
          let inode := with_size inode 0 in
          let! s := cached_inode_update s inode in
          Ret (inode, s)
      end
  end.
End Functions.

(** ** What the cache can serve *)

Definition key : Type := Z * Z.

(** An access to a block that is released again: [u] has the unused blocks, the
    last released first, and [n] is the number of blocks the table still takes.
    The last unused block cannot be served, and the first one only when its
    member [prev] is left over from an earlier place on the list, which is not
    counted on. *)
Definition touch (c : list key * Z) (k : key) : option (list key * Z) :=
  let '(u, n) := c in
  if decide (k ∈ u) then
    if decide (head u = Some k \/ last u = Some k) then None else Some (k :: without k u, n)
  else if 0 <? n then Some (k :: u, n - 1) else None.

Fixpoint touches (c : list key * Z) (ks : list key) : option (list key * Z) :=
  match ks with
  | [] => Some c
  | k :: ks => match touch c k with Some c => touches c ks | None => None end
  end.

Lemma touches_app (c c2 : list key * Z) (ks ks' : list key) :
  touches c (ks ++ ks') = Some c2 <-> exists c1, touches c ks = Some c1 /\ touches c1 ks' = Some c2.
Proof.
  revert c. induction ks as [|k ks IH]; intros c; cbn [touches app].
  - split; [by exists c|]. by intros (c1 & [= ->] & ?).
  - destruct (touch c k) as [c'|]; [apply IH|]. split; [done|]. by intros (? & ? & _).
Qed.

(** The head of the list after an access. *)
Lemma touch_head (c c' : list key * Z) (k : key) : touch c k = Some c' -> exists u, c' = (k :: u, c'.2).
Proof.
  destruct c as [u n]. unfold touch. case_decide; [case_decide; [done|]|case_match; [|done]]; intros [= <-]; eauto.
Qed.

(** New blocks are served while the table has slots. *)
Lemma touches_new (ks u : list key) (n : Z) :
  NoDup ks -> (forall k, k ∈ ks -> k ∉ u) -> Z.of_nat (length ks) <= n ->
  touches (u, n) ks = Some (rev ks ++ u, n - Z.of_nat (length ks)).
Proof.
  revert u n. induction ks as [|k ks IH]; intros u n Hnd Hu Hn; cbn [touches rev length app] in *.
  { by rewrite Z.sub_0_r. }
  apply NoDup_cons in Hnd as [Hk Hnd]. unfold touch. rewrite decide_False by (apply Hu; by left).
  destruct (Z.ltb_spec 0 n); [|lia]. rewrite IH; [|done| |lia].
  - rewrite <- app_assoc. cbn [app]. do 2 f_equal. lia.
  - intros k' Hk' [->|Hin]%elem_of_cons; [done|]. by apply (Hu k'); [right|].
Qed.

(** Blocks behind the first and in front of others are served again. *)
Lemma touches_again (ks v u : list key) (n : Z) :
  NoDup ks -> (forall k, k ∈ ks -> k ∈ v /\ head v <> Some k /\ k ∉ u) -> u <> [] ->
  exists v', touches (v ++ u, n) ks = Some (v' ++ u, n).
Proof.
  revert v. induction ks as [|k ks IH]; intros v Hnd Hv Hu; cbn [touches]; [by exists v|].
  apply NoDup_cons in Hnd as [Hk Hnd]. destruct (Hv k ltac:(by left)) as (K1 & K2 & K3). unfold touch.
  rewrite decide_True by (apply elem_of_app; by left). rewrite decide_False.
  - assert (without k (v ++ u) = without k v ++ u) as ->
      by (unfold without; rewrite filter_app; f_equal; by apply (without_notin k)).
    apply (IH (k :: without k v)); [done| |done]. intros k' Hk'. destruct (Hv k' ltac:(by right)) as (? & _ & ?).
    assert (k' <> k) by (intros ->; done). split_and!; [|cbn; congruence|done].
    right. unfold without. by apply list_elem_of_filter.
  - intros [E|E].
    + destruct v as [|x v]; [by apply elem_of_nil in K1|]. by apply K2.
    + rewrite last_app in E. destruct (last u) as [z|] eqn:El; [|by apply last_None in El].
      injection E as ->. by apply K3, last_Some_elem_of.
Qed.

(** The accesses of a write and a read of a stretch can be served when none of
    the blocks is cached, the table has slots for them, and there is another
    unused buffer. *)
Theorem write_read_served (ks u : list key) (k : key) (n : Z) :
  NoDup (ks ++ [k]) -> (forall x, x ∈ ks ++ [k] -> x ∉ u) -> u <> [] -> Z.of_nat (length ks) + 1 <= n ->
  exists c', touches (u, n) (ks ++ [k] ++ ks) = Some c'.
Proof.
  intros Hnd Hu Hne Hn. rewrite (assoc_L app). destruct (touches_again ks (rev (ks ++ [k])) u (n - Z.of_nat (length (ks ++ [k]))))
    as (v' & E); [by apply NoDup_app in Hnd as [? _]| |done|].
  - intros x Hx. rewrite rev_app_distr. cbn [rev app head]. split_and!.
    + right. apply list_elem_of_In. rewrite <- in_rev. by apply list_elem_of_In.
    + intros [= ->]. apply NoDup_app in Hnd as (_ & Hd & _). by apply (Hd x Hx), list_elem_of_singleton.
    + apply Hu. set_solver.
  - eexists. apply touches_app. eexists. split; [|exact E]. apply touches_new; [done|done|]. rewrite length_app. cbn. lia.
Qed.

Section Account.
Context {T W B : Type} `{!KTable T} `{!Disk W} {tl : KTableLaws T} {dl : DiskLaws W} `{!Blocks B} {bl : BlocksLaws B}.
Context (bs : Z) (bs_ok : 512 <= bs /\ bs mod 512 = 0).
Context (alloc : gmap Z bio_buf_t -> Z) (junk : Z -> Z -> list Z).
Context (alloc_ok : forall m, alloc m <> 0 /\ m !! alloc m = None).
Context (junk_length : forall p n, length (junk p n) = Z.to_nat n).

(** The buffer at [p] is for the block [k]. *)
Definition buf_for (s : bio T W) (p : Z) (k : key) : Prop :=
  exists b, bufs s !! p = Some b /\ (b_device b, b_block b) = k.

(** Between two calls: no buffer is in use; [l] has the unused buffers and
    [c.1] their blocks; the disk has the blocks of [st]. *)
Record cached (s : bio T W) (l : list Z) (c : list key * Z) (st : B) : Prop := {
  ca_sim : sim bs s l st;
  ca_keys : Forall2 (buf_for s) l c.1;
  ca_idle p b : bufs s !! p = Some b -> b_ref b = 0;
  ca_slots : c.2 <= tbl_slots (table s);
}.

(** The buffer [p] of the block [k] is in use, once, and no other. *)
Record holds (s : bio T W) (l : list Z) (c : list key * Z) (st : B) (p : Z) (k : key) : Prop := {
  ho_sim : sim bs s l st;
  ho_keys : Forall2 (buf_for s) l c.1;
  ho_buf : exists b, bufs s !! p = Some b /\ (b_device b, b_block b) = k /\ b_ref b = 1 /\ b_data b = bget st k.1 k.2;
  ho_idle q b : q <> p -> bufs s !! q = Some b -> b_ref b = 0;
  ho_slots : c.2 <= tbl_slots (table s);
}.

(** A block that can be read and written. *)
Definition good (k : key) : Prop := block_ok bs k.1 k.2 /\ valid_block bs k.1 k.2.

Lemma buf_for_map (s : bio T W) (l : list Z) (p : Z) (k : key) :
  bio_ok bs s l -> buf_for s p k -> tbl_map (table s) !! bio_key k.1 k.2 = Some p.
Proof using All. intros H (b & Hb & <-). apply (bo_map bs s l H). by exists b. Qed.

(** A block has one buffer. *)
Lemma buf_for_inj (s : bio T W) (l : list Z) (p q : Z) (k : key) :
  bio_ok bs s l -> buf_for s p k -> buf_for s q k -> p = q.
Proof using All. intros H Hp%(buf_for_map s l) Hq%(buf_for_map s l); [congruence|done..]. Qed.

Lemma buf_for_key (s : bio T W) (p : Z) (k k' : key) : buf_for s p k -> buf_for s p k' -> k = k'.
Proof using All. intros (b & Hb & <-) (b' & Hb' & <-). congruence. Qed.

Lemma keys_others (s s' : bio T W) (p : Z) (l : list Z) (u : list key) :
  others_same s s' p -> p ∉ l -> Forall2 (buf_for s) l u -> Forall2 (buf_for s') l u.
Proof using All.
  intros Ho Hp HF. induction HF as [|q k l u (b & Hb & Hk) HF IH]; constructor.
  - exists b. rewrite Ho; [done|]. set_solver.
  - apply IH. set_solver.
Qed.

(** A served block that is on the list is between two others. *)
Lemma touch_inside (s : bio T W) (l : list Z) (u : list key) (k : key) :
  bio_ok bs s l -> Forall2 (buf_for s) l u -> k ∈ u -> head u <> Some k -> last u <> Some k ->
  exists p, buf_for s p k /\ inside l p /\ p ∉ without p l /\ Forall2 (buf_for s) (without p l) (without k u).
Proof using All.
  intros H HF (u1 & u2 & ->)%list_elem_of_split Hh Hl.
  apply Forall2_app_inv_r in HF as (l1 & l2 & H1 & H2 & ->).
  apply Forall2_cons_inv_r in H2 as (p & l3 & Hp & H2 & ->). exists p. split; [done|].
  pose proof (lr_nodup _ _ (bo_free _ _ _ H)) as Hnd. apply NoDup_app in Hnd as (N1 & N2 & N3).
  apply NoDup_cons in N3 as [N3 _]. assert (N4 : p ∉ l1) by (intros Hin; apply (N2 p Hin); by left).
  assert (K1 : k ∉ u1).
  { intros (i & Hi)%list_elem_of_lookup. destruct (Forall2_lookup_r _ _ _ _ _ H1 Hi) as (q & Hq & Hqk).
    pose proof (buf_for_inj s _ p q k H Hp Hqk) as <-. by apply N4, (list_elem_of_lookup_2 _ i). }
  assert (K2 : k ∉ u2).
  { intros (i & Hi)%list_elem_of_lookup. destruct (Forall2_lookup_r _ _ _ _ _ H2 Hi) as (q & Hq & Hqk).
    pose proof (buf_for_inj s _ p q k H Hp Hqk) as <-. by apply N3, (list_elem_of_lookup_2 _ i). }
  rewrite !without_mid by done. split; [|split; [set_solver|by apply Forall2_app]].
  destruct l1 as [|a l1 _] using rev_ind; [apply Forall2_nil_inv_l in H1 as ->; done|].
  destruct l3 as [|b l3]; [apply Forall2_nil_inv_l in H2 as ->; by rewrite last_snoc in Hl|].
  exists l1, a, b, l3. by rewrite <- app_assoc.
Qed.

(** A block that is not on the list is not cached. *)
Lemma not_cached (s : bio T W) (l : list Z) (c : list key * Z) (st : B) (k : key) :
  cached s l c st -> block_ok bs k.1 k.2 -> k ∉ c.1 -> tbl_map (table s) !! bio_key k.1 k.2 = None.
Proof using All.
  intros H Hk Hn. pose proof (sim_ok _ _ _ _ (ca_sim _ _ _ _ H)) as Hok.
  destruct (tbl_map (table s) !! bio_key k.1 k.2) as [p|] eqn:E; [|done]. exfalso. apply Hn.
  apply (bo_map _ _ _ Hok) in E as (b & Hb & Ek).
  destruct (bio_key_inj bs _ _ _ _ ltac:(lia) (proj1 (bo_buf _ _ _ Hok p b Hb)) Hk Ek) as [E1 E2].
  pose proof (proj1 (bo_ref _ _ _ Hok p b Hb) (ca_idle _ _ _ _ H p b Hb)) as (i & Hi)%list_elem_of_lookup.
  destruct (Forall2_lookup_l _ _ _ _ _ (ca_keys _ _ _ _ H) Hi) as (k' & Hk' & (b' & Hb' & <-)).
  assert (b' = b) as -> by congruence. rewrite E1, E2 in Hk'. destruct k. by apply (list_elem_of_lookup_2 _ i).
Qed.

(** Reading a block the cache can serve. *)
Lemma read_touch (s : bio T W) (l : list Z) (c c' : list key * Z) (st : B) (k : key) :
  cached s l c st -> good k -> touch c k = Some c' ->
  exists p s' l' u, ext2_read_block alloc junk bs s k.1 k.2 = Ret (p, s') /\ c'.1 = k :: u /\
    holds s' l' (u, c'.2) st p k /\ (k ∉ c.1 -> prev_of (free s') p = Ret 0).
Proof using All.
  intros H [Hk Hv] Ht. pose proof (ca_sim _ _ _ _ H) as [Hok Hb]. destruct c as [u n]. unfold touch in Ht.
  assert (Hst : forall w d x, same_disk (disk s) w -> dbytes bs w d x = bget st d x)
    by (intros w d x Hs; rewrite (same_dbytes bs _ _ _ _ Hs); apply Hb).
  unfold ext2_read_block. destruct (decide (k ∈ u)) as [Hin|Hn].
  - destruct (decide _) as [|He]; [done|]. injection Ht as <-. cbn [fst snd].
    destruct (touch_inside s l u k Hok (ca_keys _ _ _ _ H) Hin ltac:(tauto) ltac:(tauto)) as (p & Hp & Hi & Hpl & HF).
    pose proof (buf_for_map s l p k Hok Hp) as Hm.
    destruct (cached_read_ok bs bs_ok alloc junk alloc_ok junk_length s l k.1 k.2 Hok Hk Hv) as
      (q & s' & l' & b & -> & H1 & Hq & Ed & Ek & Hr & Hd & Hs & Ho & Htk); [unfold available; rewrite Hm; by right|].
    unfold taken in Htk. rewrite Hm in Htk. destruct Htk as (<- & Htb & -> & b0 & Hb0 & Hr0).
    exists p, s', (without p l), (without k u). split_and!; [done|done| |done].
    split; cbn [fst snd].
    + split; [done|]. intros d x. by apply Hst.
    + by apply (keys_others s s' p).
    + exists b. rewrite Hd, Hb, Hr0, (ca_idle _ _ _ _ H p b0 Hb0), Ed, Ek. by destruct k.
    + intros q b' Hq' Hb'. rewrite Ho in Hb' by done. by apply (ca_idle _ _ _ _ H q).
    + rewrite Htb. apply (ca_slots _ _ _ _ H).
  - destruct (Z.ltb_spec 0 n) as [Hn0|]; [|done]. injection Ht as <-. cbn [fst snd].
    pose proof (not_cached s l _ st k H Hk Hn) as Hm. pose proof (ca_slots _ _ _ _ H) as Hsl. cbn in Hsl.
    destruct (cached_read_ok bs bs_ok alloc junk alloc_ok junk_length s l k.1 k.2 Hok Hk Hv) as
      (q & s' & l' & b & -> & H1 & Hq & Ed & Ek & Hr & Hd & Hs & Ho & Htk).
    { unfold available. rewrite Hm, tbl_room_slots. apply Z.ltb_lt. lia. }
    unfold taken in Htk. rewrite Hm in Htk. destruct Htk as (Hnew & -> & Hsl' & Hpr & Hr0).
    exists q, s', l, u. split_and!; [done|done| |done].
    split; cbn [fst snd].
    + split; [done|]. intros d x. by apply Hst.
    + apply (keys_others s s' q); [done| |apply (ca_keys _ _ _ _ H)]. intros (i & Hi)%list_elem_of_lookup.
      destruct (Forall2_lookup_l _ _ _ _ _ (ca_keys _ _ _ _ H) Hi) as (? & _ & (b' & Hb' & _)). congruence.
    + exists b. rewrite Hd, Hb, Ed, Ek. by destruct k.
    + intros q' b' Hq' Hb'. rewrite Ho in Hb' by done. by apply (ca_idle _ _ _ _ H q').
    + lia.
Qed.

Lemma hold_buffer (s : bio T W) (l : list Z) (c : list key * Z) (st : B) (p : Z) (k : key) :
  holds s l c st p k -> buffer_of s p = Ret (bget st k.1 k.2).
Proof using All. intros H. destruct (ho_buf _ _ _ _ _ _ H) as (b & Hb & _ & _ & Hd). unfold buffer_of, buf_at. by rewrite Hb, <- Hd. Qed.

(** Releasing it. *)
Lemma hold_release (s : bio T W) (l : list Z) (c : list key * Z) (st : B) (p : Z) (k : key) :
  holds s l c st p k ->
  exists s', bio_release s p = Ret s' /\ cached s' (p :: l) (k :: c.1, c.2) st /\ prev_of (free s') p = prev_of (free s) p.
Proof using All.
  intros H. destruct (ho_buf _ _ _ _ _ _ H) as (b & Hb & Hk & Hr & _). destruct (ho_sim _ _ _ _ _ _ H) as [Hok Hst].
  destruct (bio_release_correct bs s l p b Hok Hb ltac:(lia)) as (s' & E & H' & Hb' & Hd & Ho & Htb & Hpr).
  rewrite Hr in H'. exists s'. split; [done|]. split; [|done].
  assert (Hpl : p ∉ l) by (intros Hin%(bo_ref _ _ _ Hok p b Hb); lia). split; cbn [fst snd].
  - split; [exact H'|]. intros d x. by rewrite Hd.
  - constructor; [|by apply (keys_others s s' p), (ho_keys _ _ _ _ _ _ H)].
    exists (with_ref b (b_ref b - 1)). by rewrite Hb'.
  - intros q b' Hq. destruct (decide (q = p)) as [->|Hne].
    + rewrite Hb' in Hq. injection Hq as <-. cbn. lia.
    + rewrite Ho in Hq by done. by apply (ho_idle _ _ _ _ _ _ H q).
  - rewrite Htb. apply (ho_slots _ _ _ _ _ _ H).
Qed.

(** Changing its bytes and writing it. *)
Lemma hold_write (s : bio T W) (l : list Z) (c : list key * Z) (st : B) (p : Z) (k : key) (data : list Z) :
  holds s l c st p k -> length data = Z.to_nat bs ->
  exists s1 s2, bio_store s p data = Ret s1 /\ ext2_write_block s1 p = Ret s2 /\
    holds s2 l c (bput st k.1 k.2 data) p k /\ free s2 = free s.
Proof using All.
  intros H Hl. destruct (ho_buf _ _ _ _ _ _ H) as (b & Hb & Hk & Hr & _). destruct (ho_sim _ _ _ _ _ _ H) as [Hok Hst].
  destruct (store_write_ok bs bs_ok s l p b data Hok Hb Hl) as (s1 & s2 & E1 & E2 & H' & D1 & D2 & Ho).
  destruct (store_write_effect s s1 s2 p b data Hb E1 E2) as (Htb & Hfr & Hb').
  exists s1, s2. split_and!; try done. rewrite <- Hk. cbn [fst snd].
  assert (Hpl : p ∉ l) by (intros Hin%(bo_ref _ _ _ Hok p b Hb); lia). split; cbn [fst snd].
  - split; [exact H'|]. intros d x. destruct (decide ((d, x) = (b_device b, b_block b))) as [[= -> ->]|Hne].
    + by rewrite D1, bget_put_same.
    + by rewrite D2, bget_put_other, Hst.
  - by apply (keys_others s s2 p), (ho_keys _ _ _ _ _ _ H).
  - eexists. split; [exact Hb'|]. cbn. by rewrite bget_put_same.
  - intros q b' Hq Hb2. rewrite Ho in Hb2 by done. by apply (ho_idle _ _ _ _ _ _ H q).
  - rewrite Htb. apply (ho_slots _ _ _ _ _ _ H).
Qed.

(** Storing into a buffer, writing and releasing it, as all changes end. *)
Lemma hold_finish (s : bio T W) (l : list Z) (c : list key * Z) (st : B) (p : Z) (k : key) (data : list Z) :
  holds s l c st p k -> length data = Z.to_nat bs ->
  exists s1 s2 s3, bio_store s p data = Ret s1 /\ ext2_write_block s1 p = Ret s2 /\ bio_release s2 p = Ret s3 /\
    cached s3 (p :: l) (k :: c.1, c.2) (bput st k.1 k.2 data) /\ prev_of (free s3) p = prev_of (free s) p.
Proof using All.
  intros H Hl. destruct (hold_write s l c st p k data H Hl) as (s1 & s2 & E1 & E2 & H2 & Hfr).
  destruct (hold_release s2 l c _ p k H2) as (s3 & E3 & H3 & Hpr). rewrite Hfr in Hpr. by exists s1, s2, s3.
Qed.

(** A block that was not cached before its last use cannot be read again right
    after: its buffer is the first of the list, and its member [prev] is NULL. *)
Lemma read_again_fails (s : bio T W) (l : list Z) (p : Z) (u : list key) (n : Z) (st : B) (k : key) (r : Z * bio T W) :
  cached s (p :: l) (k :: u, n) st -> prev_of (free s) p = Ret 0 ->
  ext2_read_block alloc junk bs s k.1 k.2 <> Ret r.
Proof using All.
  intros H Hp. pose proof (ca_sim _ _ _ _ H) as [Hok _]. pose proof (ca_keys _ _ _ _ H) as HF.
  apply Forall2_cons in HF as [Hk _]. eapply reread_ends_fail; [try done..| |].
  - by apply (buf_for_map s (p :: l)).
  - by left.
Qed.
End Account.

(** ** The functions follow their specifications *)

Lemma store_le_length (buf buf' : list Z) (a : Z) (n : nat) (v : Z) :
  store_le buf a n v = Ret buf' -> length buf' = length buf.
Proof. intros E. exact (length_splice _ _ _ _ E). Qed.

Lemma stores_length (fs : list (Z * nat * Z)) (buf buf' : list Z) (a : Z) :
  stores buf a fs = Ret buf' -> length buf' = length buf.
Proof.
  revert buf. induction fs as [|[[o n] v] fs IH]; intros buf E; cbn [stores] in E; [by injection E as <-|].
  apply obind_inv in E as (b & E1 & E). rewrite (IH b E). by apply store_le_length in E1.
Qed.

Section Follow.
Context {T W B : Type} `{!KTable T} `{!Disk W} {tl : KTableLaws T} {dl : DiskLaws W} `{!Blocks B} {bl : BlocksLaws B}.
Context (alloc : gmap Z bio_buf_t -> Z) (junk : Z -> Z -> list Z).
Context (alloc_ok : forall m, alloc m <> 0 /\ m !! alloc m = None).
Context (junk_length : forall p n, length (junk p n) = Z.to_nat n).
Context (sb : ext2_sblock_t) (bgds : list ext2_bgd_t).
Context (d0 : ext2_bgd_t) (Hd0 : bgds !! 0%nat = Some d0).
Context (Hlog : log_block_size sb = 0).
Context (Hpg : 0 < blocks_pg sb <= 8192) (Htot : 0 < total_blocks sb < 2 ^ 32).

Lemma bs1024 : 512 <= 1024 /\ 1024 mod 512 = 0.
Proof. split; [lia|done]. Qed.

Lemma st_length (s : bio T W) (l : list Z) (c : list key * Z) (st : B) (d k : Z) :
  cached 1024 s l c st -> length (bget st d k) = 1024%nat.
Proof. intros H. rewrite <- (sim_blocks _ _ _ _ (ca_sim _ _ _ _ _ H)). unfold dbytes. by rewrite length_map, length_seq. Qed.

(** A change of a block: the block is read, its bytes are replaced by [data],
    and it is written and released. *)
Lemma change_touch (s : bio T W) (l : list Z) (c c' : list key * Z) (st : B) (k : key) :
  cached 1024 s l c st -> good 1024 k -> touch c k = Some c' ->
  exists p s1, ext2_read_block alloc junk 1024 s k.1 k.2 = Ret (p, s1) /\ buffer_of s1 p = Ret (bget st k.1 k.2) /\
    forall data, length data = 1024%nat ->
      exists s2 s3 s4 l', bio_store s1 p data = Ret s2 /\ ext2_write_block s2 p = Ret s3 /\ bio_release s3 p = Ret s4 /\
        cached 1024 s4 (p :: l') c' (bput st k.1 k.2 data) /\ (k ∉ c.1 -> prev_of (free s4) p = Ret 0).
Proof using alloc_ok junk_length bl.
  intros H Hg Ht.
  destruct (read_touch 1024 bs1024 alloc junk alloc_ok junk_length s l c c' st k H Hg Ht) as (p & s1 & l1 & u & E & Hc & H1 & Hp).
  exists p, s1. split; [done|]. split; [by apply (hold_buffer 1024 bs1024 alloc junk alloc_ok junk_length _ _ _ _ _ _ H1)|]. intros data Hl.
  destruct (hold_finish 1024 bs1024 alloc junk alloc_ok junk_length s1 l1 _ st p k data H1) as (s2 & s3 & s4 & E2 & E3 & E4 & H4 & Hpr);
    [by rewrite Hl|].
  cbn [fst snd] in H4. rewrite <- Hc in H4. exists s2, s3, s4, l1. split_and!; try done; [by destruct c'|].
  intros Hn. rewrite Hpr. by apply Hp.
Qed.

(** A look at a block. *)
Lemma look_touch (s : bio T W) (l : list Z) (c c' : list key * Z) (st : B) (k : key) :
  cached 1024 s l c st -> good 1024 k -> touch c k = Some c' ->
  exists p s1 s2 l', ext2_read_block alloc junk 1024 s k.1 k.2 = Ret (p, s1) /\ buffer_of s1 p = Ret (bget st k.1 k.2) /\
    bio_release s1 p = Ret s2 /\ cached 1024 s2 l' c' st.
Proof using alloc_ok junk_length bl.
  intros H Hg Ht.
  destruct (read_touch 1024 bs1024 alloc junk alloc_ok junk_length s l c c' st k H Hg Ht) as (p & s1 & l1 & u & E & Hc & H1 & _).
  destruct (hold_release 1024 bs1024 alloc junk alloc_ok junk_length s1 l1 _ st p k H1) as (s2 & E2 & H2 & _).
  exists p, s1, s2, (p :: l1). split_and!; try done.
  - by apply (hold_buffer 1024 bs1024 alloc junk alloc_ok junk_length _ _ _ _ _ _ H1).
  - cbn [fst snd] in H2. rewrite <- Hc in H2. by destruct c'.
Qed.

Lemma zero_follows (s : bio T W) (l : list Z) (c c' : list key * Z) (st : B) (d k : Z) :
  cached 1024 s l c st -> good 1024 (d, k) -> touch c (d, k) = Some c' ->
  exists s' p l', cached_zero_block alloc junk sb s d k = Ret s' /\ cached 1024 s' (p :: l') c' (ext2_zero_block sb st d k) /\
    ((d, k) ∉ c.1 -> prev_of (free s') p = Ret 0).
Proof using alloc_ok junk_length bl Hlog.
  intros H Hg Ht. unfold cached_zero_block, ext2_zero_block. rewrite block_size_1024 by done.
  destruct (change_touch s l c c' st (d, k) H Hg Ht) as (p & s1 & E1 & _ & Hch). cbn [fst snd] in *. rewrite E1. cbn [obind].
  destruct (Hch (replicate (Z.to_nat 1024) 0)) as (s2 & s3 & s4 & l' & E2 & E3 & E4 & H4 & Hp); [by rewrite length_replicate|].
  rewrite E2. cbn [obind]. rewrite E3. cbn [obind]. by exists s4, p, l'.
Qed.

Lemma update_follows (s : bio T W) (l : list Z) (c c' : list key * Z) (st st' : B) (i : inode_t) (ix : inode_idx_t) :
  cached 1024 s l c st -> ext2_inode_idx sb bgds (i_n i) = Ret ix -> good 1024 (i_device i, ix_block ix) ->
  touch c (i_device i, ix_block ix) = Some c' -> ext2_inode_update sb bgds st i = Ret st' ->
  exists s' l', cached_inode_update alloc junk sb bgds s i = Ret s' /\ cached 1024 s' l' c' st'.
Proof using alloc_ok junk_length bl Hlog.
  intros H Hix Hg Ht E. unfold ext2_inode_update in E. unfold cached_inode_update. rewrite Hix in *. cbn [obind] in *.
  rewrite block_size_1024 by done.
  destruct (change_touch s l c c' st _ H Hg Ht) as (p & s1 & E1 & Eb & Hch). cbn [fst snd] in *. rewrite E1. cbn [obind].
  rewrite Eb. cbn [obind]. apply obind_inv in E as (buf & Es & [= <-]). rewrite Es. cbn [obind].
  destruct (Hch buf) as (s2 & s3 & s4 & l' & E2 & E3 & E4 & H4 & _).
  { rewrite store_inode_stores in Es. rewrite (stores_length _ _ _ _ Es). by apply (st_length s l c). }
  rewrite E2. cbn [obind]. rewrite E3. cbn [obind]. by exists s4, (p :: l').
Qed.

Lemma get_follows (s : bio T W) (l : list Z) (c c' : list key * Z) (st : B) (i : inode_t) (d n : Z) (ix : inode_idx_t) :
  cached 1024 s l c st -> ext2_inode_idx sb bgds n = Ret ix -> good 1024 (d, ix_block ix) ->
  touch c (d, ix_block ix) = Some c' -> ext2_inode_get sb bgds st d n = Ret i ->
  exists s' l', cached_inode_get alloc junk sb bgds s d n = Ret (i, s') /\ cached 1024 s' l' c' st.
Proof using alloc_ok junk_length bl Hlog.
  intros H Hix Hg Ht E. unfold ext2_inode_get in E. unfold cached_inode_get. rewrite Hix in *. cbn [obind] in *.
  rewrite block_size_1024 by done.
  destruct (look_touch s l c c' st _ H Hg Ht) as (p & s1 & s2 & l' & E1 & Eb & E2 & H2). cbn [fst snd] in *.
  rewrite E1. cbn [obind]. rewrite Eb. cbn [obind]. unfold load_inode. 
  change (load_inode (bget st d (ix_block ix)) (ix_idx ix * DINODE_SIZE) d n = Ret i) in E.
  fold (load_inode (bget st d (ix_block ix)) (ix_idx ix * DINODE_SIZE) d n). rewrite E. cbn [obind]. rewrite E2. cbn [obind].
  by exists s2, l'.
Qed.

(** Allocation in the first group. *)
Lemma alloc_follows (s : bio T W) (l : list Z) (c c' : list key * Z) (st : B) (dev j : Z) (fl : list Z) :
  cached 1024 s l c st -> 0 <= dev < 4 -> bytes_ok (bget st dev (block_bitmap d0)) ->
  free_blocks sb (bget st dev (block_bitmap d0)) = j :: fl ->
  good 1024 (dev, block_bitmap d0) -> good 1024 (dev, j) -> block_bitmap d0 <> j ->
  touches c [(dev, block_bitmap d0); (dev, j)] = Some c' ->
  exists s' p l' st', ext2_block_alloc sb bgds st dev = Ret (j, st') /\ cached_block_alloc alloc junk sb bgds s dev = Ret (j, s') /\
    cached 1024 s' (p :: l') c' st' /\ ((dev, j) ∉ c.1 -> prev_of (free s') p = Ret 0).
Proof using All.
  intros H Hdev Hby Hfree Hg1 Hg2 Hne Ht. destruct (first_free sb _ _ _ Hfree) as (Hj & Hc & Hs).
  pose proof (st_length s l c st dev (block_bitmap d0) H) as Hl.
  unfold cached_block_alloc, cached_alloc, ext2_block_alloc, ext2_alloc.
  rewrite Z.mul_0_l, Z.add_0_r, last_allocs_block by done. cbn [obind alloc_groups cached_alloc_groups].
  rewrite (bgds_first bgds d0 Hd0). cbn [obind]. unfold bitmap_of. unfold lim in Hj.
  assert (Esc : alloc_scan sb (S (Z.to_nat (blocks_pg sb - 0))) (bget st dev (block_bitmap d0)) 0 0 = Ret (Some j))
    by (apply alloc_scan_first; unfold lim, bitmap_ok; auto; lia).
  cbn [touches] in Ht. destruct (touch c (dev, block_bitmap d0)) as [c1|] eqn:Ht1; [|done].
  destruct (touch c1 (dev, j)) as [c2|] eqn:Ht2; [|done]. injection Ht as <-. rewrite block_size_1024 by done.
  destruct (change_touch s l c c1 st _ H Hg1 Ht1) as (p & s1 & E1 & Eb & Hch). cbn [fst snd] in *.
  rewrite E1. cbn [obind]. rewrite Eb. cbn [obind]. rewrite Esc. cbn [obind].
  assert (Hd : 0 <= j / 8 < 1024) by (split; [apply Z.div_pos; lia|apply Z.div_lt_upper_bound; lia]).
  rewrite (lget_znth 0) by lia. cbn [obind]. rewrite lset_Ret by lia. cbn [obind].
  set (bm' := <[_ := _]> _). rewrite Z.add_0_l, u32_small by lia.
  destruct (Hch bm') as (s2 & s3 & s4 & l' & E2 & E3 & E4 & H4 & _); [unfold bm'; by rewrite length_insert|].
  rewrite E2. cbn [obind]. rewrite E3. cbn [obind]. rewrite E4. cbn [obind].
  destruct (zero_follows s4 _ c1 c2 _ dev j H4 Hg2 Ht2) as (s5 & p5 & l5 & E5 & H5 & Hp). rewrite E5. cbn [obind].
  exists s5, p5, l5. eexists. split_and!; try done. intros Hn. apply Hp. clear -Ht1 Hn Hne. destruct c as [u n].
  unfold touch in Ht1. cbn [fst] in Hn. assert (Hx : forall v, v ⊆ u -> (dev, j) ∉ (dev, block_bitmap d0) :: v).
  { intros v Hv [[= E]|E]%elem_of_cons; [done|]. by apply Hn, Hv. }
  case_decide; [case_decide; [done|]|case_match; [|done]]; injection Ht1 as <-; apply Hx; [|done].
  intros x. unfold without. rewrite list_elem_of_filter. tauto.
Qed.

Lemma free_follows (s : bio T W) (l : list Z) (c c' : list key * Z) (st st' : B) (dev n : Z) :
  cached 1024 s l c st -> 0 <= n < blocks_pg sb -> good 1024 (dev, block_bitmap d0) ->
  touch c (dev, block_bitmap d0) = Some c' -> ext2_block_free sb bgds st dev n = Ret st' ->
  exists s' p l', cached_block_free alloc junk sb bgds s dev n = Ret s' /\ cached 1024 s' (p :: l') c' st' /\
    ((dev, block_bitmap d0) ∉ c.1 -> prev_of (free s') p = Ret 0).
Proof using All.
  intros H Hn Hg Ht E. unfold ext2_block_free, ext2_free in E. unfold cached_block_free, cached_free.
  rewrite udiv_pos, Z.div_small in * by lia. cbn [obind] in *. rewrite (bgds_first bgds d0 Hd0) in *. cbn [obind] in *.
  unfold bitmap_of in *. rewrite block_size_1024 by done.
  destruct (change_touch s l c c' st _ H Hg Ht) as (p & s1 & E1 & Eb & Hch). cbn [fst snd] in *. rewrite E1. cbn [obind].
  rewrite Eb. cbn [obind]. apply obind_inv in E as (byte & Ey & E). rewrite Ey. cbn [obind].
  destruct (negb _); [done|]. apply obind_inv in E as (bm & Em & [= <-]). rewrite Em. cbn [obind].
  destruct (Hch bm) as (s2 & s3 & s4 & l' & E2 & E3 & E4 & H4 & Hp).
  { apply lset_inv in Em as [_ ->]. rewrite length_insert. by apply (st_length s l c). }
  rewrite E2. cbn [obind]. rewrite E3. cbn [obind]. by exists s4, p, l'.
Qed.
End Follow.

(** ** Contents *)

(** The blocks of the file that a stretch of its bytes is in. *)
Definition file_blocks (i : inode_t) (off size : Z) : list Z :=
  if size <=? 0 then []
  else map (znth 0 (i_blocks i)) (seqZ (off / 1024) ((off + size - 1) / 1024 - off / 1024 + 1)).

(** The same as the cache is asked for them. *)
Definition stretch (i : inode_t) (off size : Z) : list key := map (pair (i_device i)) (file_blocks i off size).

(** A round of the loops takes the first. *)
Lemma file_blocks_step (i : inode_t) (off size len : Z) :
  0 <= off -> 0 < size -> len = Z.min size (1024 - off mod 1024) ->
  file_blocks i off size = znth 0 (i_blocks i) (off / 1024) :: file_blocks i (off + len) (size - len).
Proof.
  intros Ho Hs ->. pose proof (Z.div_mod off 1024 ltac:(lia)) as D. pose proof (Z.mod_pos_bound off 1024 ltac:(lia)) as M.
  unfold file_blocks. destruct (Z.leb_spec size 0); [lia|].
  destruct (Z.min_spec size (1024 - off mod 1024)) as [[Hm ->]|[Hm ->]].
  - destruct (Z.leb_spec (size - size) 0); [|lia].
    assert ((off + size - 1) / 1024 = off / 1024) as ->
      by (symmetry; apply (Z.div_unique _ _ _ (off mod 1024 + size - 1)); lia).
    rewrite Z.sub_diag. by rewrite seqZ_cons by lia.
  - set (q := off / 1024) in *. replace (off + (1024 - off mod 1024)) with ((q + 1) * 1024) by lia.
    destruct (Z.leb_spec (size - (1024 - off mod 1024)) 0) as [Hz|Hz].
    + assert ((off + size - 1) / 1024 = q) as -> by (symmetry; apply (Z.div_unique _ _ _ (off mod 1024 + size - 1)); lia).
      rewrite Z.sub_diag. by rewrite seqZ_cons by lia.
    + replace ((q + 1) * 1024 + (size - (1024 - off mod 1024)) - 1) with (off + size - 1) by lia.
      rewrite Z.div_mul by lia. assert (q + 1 <= (off + size - 1) / 1024) by (apply Z.div_le_lower_bound; lia).
      rewrite seqZ_cons by lia. cbn [map]. f_equal. f_equal. f_equal; lia.
Qed.

Section Content.
Context {T W B : Type} `{!KTable T} `{!Disk W} {tl : KTableLaws T} {dl : DiskLaws W} `{!Blocks B} {bl : BlocksLaws B}.
Context (alloc : gmap Z bio_buf_t -> Z) (junk : Z -> Z -> list Z).
Context (alloc_ok : forall m, alloc m <> 0 /\ m !! alloc m = None).
Context (junk_length : forall p n, length (junk p n) = Z.to_nat n).
Context (sb : ext2_sblock_t) (bgds : list ext2_bgd_t).
Context (d0 : ext2_bgd_t) (Hd0 : bgds !! 0%nat = Some d0).
Context (Hlog : log_block_size sb = 0).
Context (Hpg : 0 < blocks_pg sb <= 8192) (Htot : 0 < total_blocks sb < 2 ^ 32).

(** A direct block that is there. *)
Lemma iblock_present (s : bio T W) (st : B) (i : inode_t) (q : Z) :
  0 <= q < 12 -> znth 0 (i_blocks i) q <> 0 ->
  ext2_get_iblock sb bgds st i q = Ret (znth 0 (i_blocks i) q, i, st) /\
  cached_get_iblock alloc junk sb bgds s i q = Ret (znth 0 (i_blocks i) q, i, s).
Proof using.
  intros Hq Hnz. unfold ext2_get_iblock, cached_get_iblock.
  destruct (Z.ltb_spec q DIRECT_BLOCKS); [|unfold DIRECT_BLOCKS in *; lia].
  assert (Hl : q < Z.of_nat (length (i_blocks i))).
  { destruct (decide (q < Z.of_nat (length (i_blocks i)))); [done|]. exfalso. apply Hnz.
    unfold znth. by rewrite lookup_ge_None_2 by lia. }
  rewrite (lget_znth 0) by lia. cbn [obind]. by destruct (Z.eqb_spec (znth 0 (i_blocks i) q) 0).
Qed.

Lemma stretch_step (i : inode_t) (n size off : Z) :
  0 <= off -> 0 <= n < size -> size < 2 ^ 32 ->
  stretch i off (size - n) = (i_device i, znth 0 (i_blocks i) (off / 1024)) ::
    stretch i (off + chunk sb n size off) (size - (n + chunk sb n size off)).
Proof using Hlog.
  intros Ho Hn Hs. destruct (chunk_spec sb Hlog n size off ltac:(lia) Hs) as (Ec & _ & _). unfold stretch.
  rewrite (file_blocks_step i off (size - n) (chunk sb n size off)) by lia. cbn [map]. do 3 f_equal. lia.
Qed.

Lemma write_loop_follows (fuel : nat) (s : bio T W) (l : list Z) (c c' : list key * Z) (st st' : B)
    (i i' : inode_t) (n size off e : Z) (src : list Z) :
  cached 1024 s l c st -> 0 <= n <= size -> size < 2 ^ 32 -> 0 <= off -> off + (size - n) <= 12 * 1024 ->
  Forall (good 1024) (stretch i off (size - n)) -> Forall (fun k => k.2 <> 0) (stretch i off (size - n)) ->
  touches c (stretch i off (size - n)) = Some c' ->
  write_loop sb bgds fuel st i n size off src = Ret (e, i', st') ->
  exists s' l', cached_write_loop alloc junk sb bgds fuel s i n size off src = Ret (e, i', s') /\ i' = i /\ cached 1024 s' l' c' st'.
Proof using All.
  revert s l c st n off. induction fuel as [|fuel IH]; intros s l c st n off H Hn Hsz Ho Hos Hg Hz Ht E; [done|].
  cbn [write_loop cached_write_loop] in *. destruct (Z.ltb_spec n size) as [Hlt|Hge].
  2: { assert (n = size) as -> by lia. injection E as <- <- <-. rewrite Z.sub_diag in Ht. injection Ht as <-. by exists s, l. }
  destruct (chunk_spec sb Hlog n size off ltac:(lia) Hsz) as (_ & Hc1 & Hc2).
  rewrite stretch_step in Hg, Hz, Ht by lia. set (len := chunk sb n size off) in *.
  apply Forall_cons in Hg as [Hg Hgs]. apply Forall_cons in Hz as [Hz Hzs]. cbn [snd] in Hz. cbn [touches] in Ht.
  destruct (touch c _) as [c1|] eqn:Ht1; [|done]. rewrite block_size_1024 in * by done.
  assert (Hq : 0 <= off / 1024 < 12) by (split; [apply Z.div_pos; lia|apply Z.div_lt_upper_bound; lia]).
  destruct (iblock_present s st i (off / 1024) Hq Hz) as [Ei Ec]. rewrite Ei in E. rewrite Ec. cbn [obind] in *.
  destruct (change_touch alloc junk alloc_ok junk_length s l c c1 st _ H Hg Ht1) as (p & s1 & E1 & Eb & Hch). cbn [fst snd] in *.
  rewrite E1. cbn [obind]. rewrite Eb. cbn [obind]. apply obind_inv in E as (d & Ed & E). rewrite Ed. cbn [obind].
  apply obind_inv in E as (buf & Esp & E). rewrite Esp. cbn [obind].
  destruct (Hch buf) as (s2 & s3 & s4 & l' & E2 & E3 & E4 & H4 & _).
  { rewrite (length_splice _ _ _ _ Esp). by apply (st_length s l c). }
  rewrite E2. cbn [obind]. rewrite E3. cbn [obind]. rewrite E4. cbn [obind].
  rewrite (u32_small (n + len)), (u32_small (off + len)) in * by lia.
  by apply (IH s4 (p :: l') c1 _ (n + len) (off + len) H4); try done; lia.
Qed.

Lemma read_loop_follows (fuel : nat) (s : bio T W) (l : list Z) (c c' : list key * Z) (st st' : B)
    (i i' : inode_t) (n size off : Z) (acc r : list Z) :
  cached 1024 s l c st -> 0 <= n <= size -> size < 2 ^ 32 -> 0 <= off -> off + (size - n) <= 12 * 1024 ->
  Forall (good 1024) (stretch i off (size - n)) -> Forall (fun k => k.2 <> 0) (stretch i off (size - n)) ->
  touches c (stretch i off (size - n)) = Some c' ->
  read_loop sb bgds fuel st i n size off acc = Ret (r, i', st') ->
  exists s' l', cached_read_loop alloc junk sb bgds fuel s i n size off acc = Ret (r, i', s') /\ i' = i /\ st' = st /\ cached 1024 s' l' c' st.
Proof using All.
  revert s l c n off acc. induction fuel as [|fuel IH]; intros s l c n off acc H Hn Hsz Ho Hos Hg Hz Ht E; [done|].
  cbn [read_loop cached_read_loop] in *. destruct (Z.ltb_spec n size) as [Hlt|Hge].
  2: { assert (n = size) as -> by lia. injection E as <- <- <-. rewrite Z.sub_diag in Ht. injection Ht as <-. by exists s, l. }
  destruct (chunk_spec sb Hlog n size off ltac:(lia) Hsz) as (_ & Hc1 & Hc2).
  rewrite stretch_step in Hg, Hz, Ht by lia. set (len := chunk sb n size off) in *.
  apply Forall_cons in Hg as [Hg Hgs]. apply Forall_cons in Hz as [Hz Hzs]. cbn [snd] in Hz. cbn [touches] in Ht.
  destruct (touch c _) as [c1|] eqn:Ht1; [|done]. rewrite block_size_1024 in * by done.
  assert (Hq : 0 <= off / 1024 < 12) by (split; [apply Z.div_pos; lia|apply Z.div_lt_upper_bound; lia]).
  destruct (iblock_present s st i (off / 1024) Hq Hz) as [Ei Ec]. rewrite Ei in E. rewrite Ec. cbn [obind] in *.
  destruct (look_touch alloc junk alloc_ok junk_length s l c c1 st _ H Hg Ht1) as (p & s1 & s2 & l' & E1 & Eb & E2 & H2).
  cbn [fst snd] in *. rewrite E1. cbn [obind]. rewrite Eb. cbn [obind].
  apply obind_inv in E as (d & Ed & E). rewrite Ed. cbn [obind]. rewrite E2. cbn [obind].
  rewrite (u32_small (n + len)), (u32_small (off + len)) in * by lia.
  by apply (IH s2 l' c1 (n + len) (off + len) _ H2); try done; lia.
Qed.

Lemma write_follows (s : bio T W) (l : list Z) (c c' : list key * Z) (st st' : B) (i i' : inode_t) (ix : inode_idx_t)
    (src : list Z) (off r : Z) :
  let size := Z.of_nat (length src) in
  cached 1024 s l c st -> ext2_inode_idx sb bgds (i_n i) = Ret ix -> 0 <= off <= i_size i -> off + size <= 12 * 1024 ->
  Forall (good 1024) (stretch i off size ++ [(i_device i, ix_block ix)]) -> Forall (fun k => k.2 <> 0) (stretch i off size) ->
  touches c (stretch i off size ++ [(i_device i, ix_block ix)]) = Some c' ->
  ext2_write_content sb bgds st i src off = Ret (r, i', st') ->
  exists s' l', cached_write_content alloc junk sb bgds s i src off = Ret (r, i', s') /\ i_blocks i' = i_blocks i /\
    cached 1024 s' l' c' st'.
Proof using All.
  intros size H Hix Ho Hos Hg Hz Ht E. apply Forall_app in Hg as [Hg Hgi]. apply Forall_cons in Hgi as [Hgi _].
  apply touches_app in Ht as (c1 & Ht1 & Ht2). cbn [touches] in Ht2. destruct (touch c1 _) as [c2|] eqn:Ht3; [|done].
  injection Ht2 as <-. unfold ext2_write_content in E. unfold cached_write_content. fold size in E |- *.
  destruct (Z.ltb_spec (i_size i) off); [lia|]. destruct (Z.ltb_spec MAX_FILE_SIZE (u32 (off + size))) as [Hm|_].
  { exfalso. rewrite u32_small in Hm by lia. assert (12 * 1024 <= MAX_FILE_SIZE) by (by vm_compute). lia. }
  apply obind_inv in E as ([[e i1] st1] & E1 & E).
  destruct (write_loop_follows (S (length src)) s l c c1 st st1 i i1 0 size off e src H) as (s1 & l1 & E2 & -> & H1);
    rewrite ?Z.sub_0_r; try done; try (unfold size in *; lia).
  rewrite E2. cbn [obind]. set (i2 := if i_size i <? e then with_size i e else i) in *.
  assert (Ei : i_device i2 = i_device i /\ i_n i2 = i_n i /\ i_blocks i2 = i_blocks i) by (unfold i2; by case_match).
  destruct Ei as (Ed & En & Eb). apply obind_inv in E as (st2 & E3 & E4). injection E4 as <- <- <-.
  destruct (update_follows alloc junk alloc_ok junk_length sb bgds Hlog s1 l1 c1 c2 st1 st2 i2 ix) as (s2 & l2 & E4 & H2); rewrite ?Ed, ?En; try done.
  rewrite E4. cbn [obind]. by exists s2, l2.
Qed.

Lemma read_follows (s : bio T W) (l : list Z) (c c' : list key * Z) (st st' : B) (i i' : inode_t) (off size : Z) (r : list Z) :
  cached 1024 s l c st -> 0 <= off -> 0 <= size -> off + size <= i_size i -> off + size <= 12 * 1024 ->
  Forall (good 1024) (stretch i off size) -> Forall (fun k => k.2 <> 0) (stretch i off size) ->
  touches c (stretch i off size) = Some c' -> ext2_read_content sb bgds st i off size = Ret (r, i', st') ->
  exists s' l', cached_read_content alloc junk sb bgds s i off size = Ret (r, i', s') /\ i' = i /\ st' = st /\ cached 1024 s' l' c' st.
Proof using All.
  intros H Ho Hn Hs Hm Hg Hz Ht E. unfold ext2_read_content in E. unfold cached_read_content.
  destruct (Z.ltb_spec (i_size i) off); [lia|]. rewrite u32_small in * by lia.
  destruct (Z.ltb_spec (i_size i) (off + size)); [lia|].
  by apply (read_loop_follows (S (Z.to_nat size)) s l c c' st st' i i' 0 size off [] r H); rewrite ?Z.sub_0_r; try done; lia.
Qed.


(** A missing direct block: allocating it is followed by a read of the same
    block. *)
Lemma hole_fails (s : bio T W) (l : list Z) (c c' : list key * Z) (st : B) (i i' : inode_t) (ix : inode_idx_t) (q k : Z) (s' : bio T W)
    (r : Z * bio T W) (j : Z) (fl : list Z) :
  cached 1024 s l c st -> file_ok sb bgds d0 st i ix -> 0 <= q < 12 -> znth 0 (i_blocks i) q = 0 ->
  free_blocks sb (bget st (i_device i) (block_bitmap d0)) = j :: fl -> (i_device i, j) ∉ c.1 ->
  good 1024 (i_device i, block_bitmap d0) -> good 1024 (i_device i, j) ->
  touches c [(i_device i, block_bitmap d0); (i_device i, j)] = Some c' ->
  cached_get_iblock alloc junk sb bgds s i q = Ret (k, i', s') ->
  ext2_read_block alloc junk 1024 s' (i_device i') k <> Ret r.
Proof using All.
  intros H Hf Hq Hz Hfree Hn Hg1 Hg2 Ht E. unfold cached_get_iblock in E.
  destruct (Z.ltb_spec q DIRECT_BLOCKS); [|unfold DIRECT_BLOCKS in *; lia].
  apply obind_inv in E as (k0 & E0 & E). apply lget_Ret in E0 as [_ E0].
  unfold znth in Hz. rewrite E0 in Hz. cbn in Hz. subst k0. cbn [Z.eqb] in E.
  assert (Hne : block_bitmap d0 <> j).
  { intros Ej. destruct (first_free sb _ _ _ Hfree) as (_ & Hc & _). pose proof (fo_used_bm _ _ _ _ _ _ Hf) as Hu.
    rewrite Ej in Hu at 2. congruence. }
  destruct (alloc_follows alloc junk alloc_ok junk_length sb bgds d0 Hd0 Hlog Hpg Htot s l c c' st (i_device i) j fl H
    (fo_dev _ _ _ _ _ _ Hf) (proj2 (fo_bm _ _ _ _ _ _ Hf)) Hfree Hg1 Hg2 Hne Ht) as (s1 & p & l1 & st1 & _ & E1 & H1 & Hp).
  rewrite E1 in E. cbn [obind] in E. apply obind_inv in E as (bl' & _ & E). injection E as <- <- <-. cbn [with_blocks i_device].
  cbn [touches] in Ht. destruct (touch c _) as [c1|]; [|done]. destruct (touch c1 _) as [c2|] eqn:Ht2; [|done]. injection Ht as <-.
  destruct (touch_head c1 c2 _ Ht2) as [u Hu]. rewrite Hu in H1.
  by apply (read_again_fails 1024 bs1024 alloc junk alloc_ok junk_length s1 l1 p u _ st1 (i_device i, j) r H1), Hp.
Qed.




(** Accesses of other functions in between. *)
Definition op_key (o : bop) : key := match o with BUse d k => (d, k) | BChange d k _ => (d, k) end.
Definition op_ok (o : bop) : Prop :=
  match o with BUse _ _ => True | BChange _ _ f => forall x, length (f x) = 1024%nat end.

Lemma bops_follow (os : list bop) (s : bio T W) (l : list Z) (c c' : list key * Z) (st : B) :
  cached 1024 s l c st -> Forall (good 1024) (map op_key os) -> Forall op_ok os -> touches c (map op_key os) = Some c' ->
  exists s' l', run_bops 1024 alloc junk s os = Ret ((spec_bops st os).1, s') /\ cached 1024 s' l' c' (spec_bops st os).2.
Proof using alloc_ok junk_length bl.
  revert s l c st. induction os as [|o os IH]; intros s l c st H Hg Ho Ht; cbn [run_bops spec_bops map touches] in *.
  { injection Ht as <-. by exists s, l. }
  apply Forall_cons in Hg as [Hg Hgs]. apply Forall_cons in Ho as [Ho Hos]. destruct (touch c _) as [c1|] eqn:Ht1; [|done].
  assert (exists s1 l1, run_bop 1024 alloc junk s o = Ret ((spec_bop st o).1, s1) /\ cached 1024 s1 l1 c1 (spec_bop st o).2)
    as (s1 & l1 & -> & H1).
  { destruct o as [d k|d k f]; cbn [run_bop spec_bop op_key fst snd] in *; unfold use_block, change_block.
    - destruct (look_touch alloc junk alloc_ok junk_length s l c c1 st _ H Hg Ht1) as (p & s1 & s2 & l' & E1 & Eb & E2 & H2).
      cbn [fst snd] in *. rewrite E1. cbn [obind]. unfold buffer_of in Eb. apply obind_inv in Eb as (b & -> & [= Eb]).
      cbn [obind]. rewrite E2. cbn [obind]. rewrite Eb. by exists s2, l'.
    - destruct (change_touch alloc junk alloc_ok junk_length s l c c1 st _ H Hg Ht1) as (p & s1 & E1 & Eb & Hch). cbn [fst snd] in *.
      rewrite E1. cbn [obind]. unfold buffer_of in Eb. apply obind_inv in Eb as (b & -> & [= Eb]). cbn [obind]. rewrite Eb.
      destruct (Hch (f (bget st d k)) (Ho _)) as (s2 & s3 & s4 & l' & -> & E3 & E4 & H4 & _). cbn [obind].
      rewrite E3. cbn [obind]. rewrite E4. by exists s4, (p :: l'). }
  cbn [obind]. destruct (IH s1 l1 c1 _ H1 Hgs Hos Ht) as (s2 & l2 & -> & H2). cbn [obind].
  destruct (spec_bop st o) as [x st1]. cbn [fst snd] in *. destruct (spec_bops st1 os) as [xs st2]. by exists s2, l2.
Qed.

Lemma spec_bops_other (os : list bop) (st : B) (d k : Z) :
  (d, k) ∉ map op_key os -> bget (spec_bops st os).2 d k = bget st d k.
Proof using bl.
  revert st. induction os as [|o os IH]; intros st Hn; cbn [spec_bops]; [done|].
  cbn [map] in Hn. apply not_elem_of_cons in Hn as [H1 H2].
  pose proof (IH (spec_bop st o).2 H2) as E. destruct (spec_bop st o) as [x st1] eqn:Eo. cbn [snd] in E.
  destruct (spec_bops st1 os) as [xs st2]. cbn [snd] in *. rewrite E. destruct o as [d' k'|d' k' f]; injection Eo as <- <-; [done|].
  by rewrite bget_put_other.
Qed.

End Content.

(** ** A concrete disk *)

(** The disk of Ext2File.v, byte by byte, behind an empty cache. *)
Definition ext2_disk : fun_disk := fun d a => znth 0 (disk0 d (a / 1024)) (a mod 1024).
Definition bio1 : bio num_table fun_disk := bio_init cache_table ext2_disk.

(** A file with its first two blocks. *)
Definition file1 : inode_t := mk_inode 0 12 0x8000 1 1200 0 0 0 0 0 ([8; 9] ++ replicate 13 0).

Lemma ext2_disk_blocks (d k : Z) : dbytes 1024 ext2_disk d k = disk0 d k.
Proof.
  rewrite <- (znth_list_eq (disk0 d k) 1024) by (unfold disk0; case_match; [done|by rewrite length_replicate]).
  unfold dbytes. apply map_ext_in. intros j Hj%in_seq. cbn [content fun_disk_laws]. unfold ext2_disk.
  rewrite (Z.add_comm (k * 1024)), Z.div_add, Z.div_small, Z.mod_add, Z.mod_small by lia. done.
Qed.

Lemma bio1_cached : cached (dl := fun_disk_laws) 1024 bio1 [] ([], 51) disk0.
Proof.
  split.
  - split; [|apply ext2_disk_blocks]. destruct cache_table_ok as (Ht & Hm).
    split; cbn [bio1 bio_init table bufs free disk links].
    + exact Ht.
    + exact I.
    + intros k p. rewrite Hm, lookup_empty. split; [done|]. intros (b & Hb & _). by rewrite lookup_empty in Hb.
    + intros p b Hb. by rewrite lookup_empty in Hb.
    + intros p b Hb. by rewrite lookup_empty in Hb.
    + by rewrite !dom_empty_L.
    + split; try done. constructor.
    + intros p b Hb. by rewrite lookup_empty in Hb.
    + intros p b Hb. by rewrite lookup_empty in Hb.
  - constructor.
  - intros p b Hb. cbn in Hb. by rewrite lookup_empty in Hb.
  - by vm_compute.
Qed.

Lemma good_small (k : Z) : 0 <= k < 64 -> good (dl := fun_disk_laws) 1024 (0, k).
Proof. intros Hk. split; [split; cbn; lia|exact I]. Qed.

(** The cache after block 20 was read. *)
Lemma bio1_one : exists (s : bio num_table fun_disk) l, cached (dl := fun_disk_laws) 1024 s l ([(0, 20)], 50) disk0.
Proof.
  destruct (look_touch alloc0 junk0 alloc0_ok junk0_length bio1 [] ([], 51) ([(0, 20)], 50) disk0 (0, 20) bio1_cached
    (good_small 20 ltac:(lia)) eq_refl) as (p & s1 & s2 & l & _ & _ & _ & H). by exists s2, l.
Qed.

Lemma file1_ok : file_ok sb0 [bgd0] bgd0 disk0 file1 slot0.
Proof.
  pose proof file0_ok as H0.
  assert (Hd : forall j k, direct file1 !! j = Some k -> k <> 0 -> (j = 0%nat /\ k = 8) \/ (j = 1%nat /\ k = 9)).
  { intros [|[|j]] k Hj Hk; cbn in Hj; [injection Hj as <-; auto..|].
    change (replicate 10 0 !! j = Some k) in Hj. by apply lookup_replicate in Hj as [-> _]. }
  split.
  - cbn. lia.
  - unfold inode_wf. cbn. split_and!; try lia. repeat constructor; lia.
  - apply (fo_bm _ _ _ _ _ _ H0).
  - done.
  - by vm_compute.
  - by vm_compute.
  - by vm_compute.
  - cbn. lia.
  - split; [by vm_compute|done].
  - done.
  - intros j k Hj Hk. destruct (Hd j k Hj Hk) as [[-> ->]|[-> ->]]; split_and!; done || by vm_compute.
  - intros j j' k Hj Hj' Hk. destruct (Hd j k Hj Hk) as [[-> ->]|[-> ->]], (Hd j' _ Hj' Hk) as [[-> ?]|[-> ?]]; done.
  - by vm_compute.
Qed.





