(* ===== verification/Vfs.v ===== *)
(** The monad the caches of the file layer are written in: a computation
    changes a state, and besides the outcomes of the prelude it may wait.

    One task runs at a time.  A mutex is its member [current_count]: with no
    task waiting for it, acquiring a free mutex and releasing one change the
    count alone (lemmas at the end, against the semaphores of Mutex.v); the
    task that acquires a mutex that is held waits, and as the model runs no
    other task meanwhile, the computation ends in [VBlock]. *)

From Stdlib Require Import ZArith Lia.
From stdpp Require Import base numbers list.
From S2P Require Import Prelude Task Mutex.

Inductive vres (S A : Type) : Type :=
| VRet (a : A) (s : S)
| VPanic
| VUndef
| VNoFuel
| VBlock.
Arguments VRet {S A} a s.
Arguments VPanic {S A}.
Arguments VUndef {S A}.
Arguments VNoFuel {S A}.
Arguments VBlock {S A}.

Definition V (S A : Type) : Type := S -> vres S A.

Section Monad.
Context {S : Type}.

Definition vret {A} (a : A) : V S A := fun s => VRet a s.
Definition vbind {A B} (m : V S A) (f : A -> V S B) : V S B := fun s =>
  match m s with
  | VRet a s => f a s
  | VPanic => VPanic
  | VUndef => VUndef
  | VNoFuel => VNoFuel
  | VBlock => VBlock
  end.

Definition vpanic {A} : V S A := fun _ => VPanic.
Definition vundef {A} : V S A := fun _ => VUndef.
Definition vget {A} (f : S -> A) : V S A := fun s => VRet (f s) s.
Definition vset (f : S -> S) : V S unit := fun s => VRet tt (f s).

(** A computation of the prelude. *)
Definition vlift {A} (o : outcome A) : V S A := fun s =>
  match o with Ret a => VRet a s | Panic => VPanic | Undef => VUndef | NoFuel => VNoFuel end.

(** A member that must be there. *)
Definition vsome {A} (o : option A) : V S A := fun s =>
  match o with Some a => VRet a s | None => VUndef end.
End Monad.

(** A computation on a part of the state. *)
Definition vzoom {S P A} (get : S -> P) (put : S -> P -> S) (m : V P A) : V S A := fun s =>
  match m (get s) with
  | VRet a p => VRet a (put s p)
  | VPanic => VPanic
  | VUndef => VUndef
  | VNoFuel => VNoFuel
  | VBlock => VBlock
  end.

Notation "'do!' x ':=' m 'in' k" := (vbind m (fun x => k))
  (at level 10, x pattern, m at level 200, k at level 200,
   format "'[v' 'do!'  x  ':='  m  'in' '//' k ']'") : bulb_scope.

(** ** Mutexes *)

(** The count after [mutex_acquire], [None] when the task waits. *)
Definition lock_count (c : Z) : option Z := if c <? 1 then Some (u32 (c + 1)) else None.
Definition unlock_count (c : Z) : Z := u32 (c - 1).

(** [mutex_acquire] of a mutex whose count is at hand: the new count. *)
Definition vacquire {S} (c : Z) : V S Z := fun s =>
  match lock_count c with Some c => VRet c s | None => VBlock end.

Definition vlock {S} (get : S -> Z) (put : S -> Z -> S) : V S unit := fun s =>
  match lock_count (get s) with Some c => VRet tt (put s c) | None => VBlock end.
Definition vunlock {S} (get : S -> Z) (put : S -> Z -> S) : V S unit :=
  vset (fun s => put s (unlock_count (get s))).

(** ** Lemmas *)

Section Lemmas.
Context {S A B : Type}.

Lemma vbind_ret (m : V S A) (f : A -> V S B) (s s' : S) (a : A) :
  m s = VRet a s' -> vbind m f s = f a s'.
Proof. unfold vbind. by intros ->. Qed.

Lemma vbind_vret (a : A) (f : A -> V S B) (s : S) : vbind (vret a) f s = f a s.
Proof. done. Qed.

Lemma vbind_vget (g : S -> A) (f : A -> V S B) (s : S) : vbind (vget g) f s = f (g s) s.
Proof. done. Qed.

Lemma vbind_vset (g : S -> S) (f : unit -> V S B) (s : S) : vbind (vset g) f s = f tt (g s).
Proof. done. Qed.

Lemma vbind_vlift (a : A) (f : A -> V S B) (s : S) : vbind (vlift (Ret a)) f s = f a s.
Proof. done. Qed.

Lemma vbind_vsome (a : A) (f : A -> V S B) (s : S) : vbind (vsome (Some a)) f s = f a s.
Proof. done. Qed.

Lemma vbind_assoc {C} (m : V S C) (g : C -> V S A) (f : A -> V S B) (s : S) :
  vbind (vbind m g) f s = vbind m (fun x => vbind (g x) f) s.
Proof. unfold vbind. by destruct (m s). Qed.

Lemma vbind_block (m : V S A) (f : A -> V S B) (s : S) : m s = VBlock -> vbind m f s = VBlock.
Proof. unfold vbind. by intros ->. Qed.

Lemma vbind_panic (m : V S A) (f : A -> V S B) (s : S) : m s = VPanic -> vbind m f s = VPanic.
Proof. unfold vbind. by intros ->. Qed.

Lemma vbind_undef (m : V S A) (f : A -> V S B) (s : S) : m s = VUndef -> vbind m f s = VUndef.
Proof. unfold vbind. by intros ->. Qed.

Lemma vbind_inv (m : V S A) (f : A -> V S B) (s s'' : S) (b : B) :
  vbind m f s = VRet b s'' -> exists a s', m s = VRet a s' /\ f a s' = VRet b s''.
Proof. unfold vbind. destruct (m s) as [a s'| | | |]; try done. eauto. Qed.

Lemma vbind_lock (get : S -> Z) (put : S -> Z -> S) (f : unit -> V S B) (s : S) :
  get s = 0 -> vbind (vlock get put) f s = f tt (put s 1).
Proof. intros E. unfold vbind, vlock. by rewrite E. Qed.

Lemma vbind_acquire (f : Z -> V S B) (s : S) : vbind (vacquire 0) f s = f 1 s.
Proof. done. Qed.

Lemma vlift_ret (o : outcome A) (s : S) (a : A) : o = Ret a -> @vlift S A o s = VRet a s.
Proof. by intros ->. Qed.

Lemma vlift_inv (o : outcome A) (s s' : S) (a : A) : vlift o s = VRet a s' -> o = Ret a /\ s' = s.
Proof. destruct o; cbn; intros [= -> ->]; done. Qed.

Lemma vsome_inv (o : option A) (s s' : S) (a : A) : vsome o s = VRet a s' -> o = Some a /\ s' = s.
Proof. destruct o; cbn; intros [= -> ->]; done. Qed.
End Lemmas.

(** Runs the first computation of a sequence: [vrun H] with [H : m s = VRet a s']. *)
Ltac vrun H := rewrite (vbind_ret _ _ _ _ _ H).

(** Runs the computations that reduce by themselves. *)
Ltac vauto :=
  repeat progress (rewrite ?vbind_vret, ?vbind_vget, ?vbind_vset, ?vbind_vlift, ?vbind_vsome, ?vbind_assoc;
    cbn beta iota).

(** Takes a run that returned apart, computation by computation. *)
Ltac vinv H :=
  let a := fresh "a" in let s := fresh "s" in let E := fresh "E" in
  apply vbind_inv in H as (a & s & E & H).

(** ** Invariants *)

(** What holds when a computation that started in [P] returns. *)
Definition vhoare {S A} (P : S -> Prop) (m : V S A) (Q : A -> S -> Prop) : Prop :=
  forall s, P s -> match m s with VRet a s' => Q a s' | _ => True end.

(** A computation keeps an invariant. *)
Notation vkeeps I m := (vhoare I m (fun _ => I)).

Section Hoare.
Context {S : Type}.

Lemma vhoare_bind {A B} (P : S -> Prop) (m : V S A) (f : A -> V S B) (Q : A -> S -> Prop) (R : B -> S -> Prop) :
  vhoare P m Q -> (forall a, vhoare (Q a) (f a) R) -> vhoare P (vbind m f) R.
Proof.
  intros Hm Hf s Hs. specialize (Hm s Hs). unfold vbind. destruct (m s) as [a s'| | | |]; try done.
  by apply (Hf a).
Qed.

Lemma vhoare_ret {A} (P : S -> Prop) (a : A) : vkeeps P (vret a).
Proof. by intros s Hs. Qed.

Lemma vhoare_get {A} (P : S -> Prop) (f : S -> A) : vhoare P (vget f) (fun a s => P s /\ a = f s).
Proof. by intros s Hs. Qed.

Lemma vkeeps_get {A} (P : S -> Prop) (f : S -> A) : vkeeps P (vget f).
Proof. by intros s Hs. Qed.

Lemma vkeeps_lift {A} (P : S -> Prop) (o : outcome A) : vkeeps P (vlift o).
Proof. intros s Hs. by destruct o. Qed.

Lemma vkeeps_some {A} (P : S -> Prop) (o : option A) : vkeeps P (vsome o).
Proof. intros s Hs. by destruct o. Qed.

Lemma vkeeps_acquire (P : S -> Prop) (c : Z) : vkeeps P (vacquire c).
Proof. intros s Hs. unfold vacquire. by destruct (lock_count c). Qed.

Lemma vhoare_panic {A} (P : S -> Prop) (Q : A -> S -> Prop) : vhoare P vpanic Q.
Proof. by intros s Hs. Qed.

Lemma vhoare_undef {A} (P : S -> Prop) (Q : A -> S -> Prop) : vhoare P vundef Q.
Proof. by intros s Hs. Qed.

Lemma vhoare_set (P Q : S -> Prop) (f : S -> S) : (forall s, P s -> Q (f s)) -> vhoare P (vset f) (fun _ => Q).
Proof. intros H s Hs. by apply H. Qed.

Lemma vkeeps_bind {A B} (P : S -> Prop) (m : V S A) (f : A -> V S B) :
  vkeeps P m -> (forall a, vkeeps P (f a)) -> vkeeps P (vbind m f).
Proof. intros Hm Hf. by eapply vhoare_bind. Qed.

(** The result of a computation that reads the state is known to come from a
    state of the invariant. *)
Lemma vkeeps_known {A B} (P : S -> Prop) (K : A -> Prop) (m : V S A) (f : A -> V S B) :
  vhoare P m (fun a s => P s /\ K a) -> (forall a, K a -> vkeeps P (f a)) -> vkeeps P (vbind m f).
Proof.
  intros Hm Hf. eapply vhoare_bind; [done|]. intros a s [Hs Ha]. by apply (Hf a).
Qed.

Lemma vkeeps_lock (P : S -> Prop) (get : S -> Z) (put : S -> Z -> S) :
  (forall s c, P s -> P (put s c)) -> vkeeps P (vlock get put).
Proof. intros H s Hs. unfold vlock. destruct (lock_count (get s)); [|done]. by apply H. Qed.

Lemma vkeeps_unlock (P : S -> Prop) (get : S -> Z) (put : S -> Z -> S) :
  (forall s c, P s -> P (put s c)) -> vkeeps P (vunlock get put).
Proof. intros H s Hs. by apply H. Qed.

Lemma vhoare_run {A} (P : S -> Prop) (m : V S A) (Q : A -> S -> Prop) (s s' : S) (a : A) :
  vhoare P m Q -> P s -> m s = VRet a s' -> Q a s'.
Proof. intros H Hs E. specialize (H s Hs). by rewrite E in H. Qed.
End Hoare.

Create HintDb vkeeps.
#[export] Hint Resolve vkeeps_bind vhoare_ret vkeeps_get vkeeps_lift vkeeps_some vkeeps_acquire
  vhoare_panic vhoare_undef : vkeeps.

(** Splits a computation down to the parts that change the state. *)
Ltac vkeep :=
  repeat match goal with
  | |- forall _, _ => intro
  | |- vhoare _ (vbind _ _) _ => apply vkeeps_bind
  | |- vhoare _ (let '(_, _) := ?x in _) _ => destruct x
  | |- vhoare _ (if ?b then _ else _) _ => destruct b
  end; try solve [auto with vkeeps nocore].

(** ** Against the semaphores *)

Section Semaphores.
Context (s s' : sched) (c e : Z) (Hs : task_unlock (task_lock s) = Ret s').

Lemma mutex_acquire_count (c' : Z) :
  lock_count c = Some c' -> mutex_acquire s (mk_sem 1 c 0 e) = Ret (s', mk_sem 1 c' 0 e).
Proof using Hs.
  unfold lock_count, mutex_acquire, semaphore_acquire. cbn [current_count max_count waiting_tasks_start waiting_tasks_end].
  destruct (c <? 1); [|done]. intros [= <-]. by rewrite Hs.
Qed.

Lemma mutex_release_count : mutex_release s (mk_sem 1 c 0 e) = Ret (s', mk_sem 1 (unlock_count c) 0 e).
Proof using Hs. unfold mutex_release, semaphore_release. cbn. by rewrite Hs. Qed.
End Semaphores.
