(* ===== verification/Inode.v ===== *)
(** The inode cache (src/src/kernel/fs/inode.c): inodes in memory found through
    the hash table by device and number, their reference counts, the list of
    unused ones, their locks, and the calls into the file system of the
    device.  The file system behind it is the one of Ext2.v, over ideal blocks. *)

From Stdlib Require Import ZArith Lia.
From stdpp Require Import base numbers list gmap.
From S2P Require Import Prelude HashTable Tables Lru Bytes Ext2 Ext2File Vfs.

Definition INODE_TABLE_SIZE : Z := 50.
Definition INODE_LOAD_FACTOR : Z := 75.

Section Data.
Context {T W : Type}.

(** The pointers [write] and [read] of an inode; a call gets the state of the
    file system and the inode, and may change both. *)
Record io := mk_io {
  io_write : W -> inode_t -> list Z -> Z -> outcome (Z * inode_t * W);
  io_read : W -> inode_t -> Z -> Z -> outcome (list Z * inode_t * W);
}.

(** [struct fs_itf]. *)
Record fs_itf := mk_itf {
  itf_load : W -> inode_t -> outcome (inode_t * io * W);
  itf_update : W -> inode_t -> outcome W;
  itf_trunc : W -> inode_t -> outcome (inode_t * W);
  itf_alloc : W -> Z -> outcome (Z * W);
}.

(** An inode in memory: [inode_t] but its links; [ic_io] is [None] until the
    pointers are set. *)
Record icell := mk_icell {
  ic_valid : Z;
  ic_ref : Z;
  ic_mutex : Z;
  ic_dat : inode_t;
  ic_io : option io;
}.

(** [ihead], the allocated inodes and the file systems. *)
Record icache := mk_icache {
  itable : T;
  inodes : gmap Z icell;
  ifree : lru;
  imutex : Z;
  itfs : list (option fs_itf);
  fs : W;
}.

Definition with_inodes (s : icache) (m : gmap Z icell) : icache :=
  mk_icache (itable s) m (ifree s) (imutex s) (itfs s) (fs s).
Definition with_ifree (s : icache) (l : lru) : icache :=
  mk_icache (itable s) (inodes s) l (imutex s) (itfs s) (fs s).
Definition with_itable (s : icache) (t : T) : icache :=
  mk_icache t (inodes s) (ifree s) (imutex s) (itfs s) (fs s).
Definition with_imutex (s : icache) (c : Z) : icache :=
  mk_icache (itable s) (inodes s) (ifree s) c (itfs s) (fs s).
Definition with_itfs (s : icache) (l : list (option fs_itf)) : icache :=
  mk_icache (itable s) (inodes s) (ifree s) (imutex s) l (fs s).
Definition with_fs (s : icache) (w : W) : icache :=
  mk_icache (itable s) (inodes s) (ifree s) (imutex s) (itfs s) w.

Definition cell_ref (c : icell) (r : Z) : icell :=
  mk_icell (ic_valid c) r (ic_mutex c) (ic_dat c) (ic_io c).
Definition cell_mutex (c : icell) (m : Z) : icell :=
  mk_icell (ic_valid c) (ic_ref c) m (ic_dat c) (ic_io c).
Definition cell_dat (c : icell) (d : inode_t) : icell :=
  mk_icell (ic_valid c) (ic_ref c) (ic_mutex c) d (ic_io c).
Definition cell_load (c : icell) (d : inode_t) (o : io) : icell :=
  mk_icell (ic_valid c) (ic_ref c) (ic_mutex c) d (Some o).
Definition cell_valid (c : icell) (v : Z) : icell :=
  mk_icell v (ic_ref c) (ic_mutex c) (ic_dat c) (ic_io c).
End Data.
Arguments io W : clear implicits.
Arguments fs_itf W : clear implicits.
Arguments icell W : clear implicits.
Arguments icache T W : clear implicits.

Section Cache.
Context {T W : Type} `{!KTable T}.

(** What [kmalloc] returns for an inode: an address no inode has, and memory
    with any contents. *)
Context (ialloc : gmap Z (icell W) -> Z) (junk_inode : Z -> inode_t) (junk_links : Z -> Z * Z).

Definition icell_at (p : Z) : V (icache T W) (icell W) :=
  do! m := vget inodes in vsome (m !! p).
Definition icell_put (p : Z) (c : icell W) : V (icache T W) unit :=
  vset (fun s => with_inodes s (<[p := c]> (inodes s))).

Definition imutex_acquire : V (icache T W) unit := vlock imutex with_imutex.
Definition imutex_release : V (icache T W) unit := vunlock imutex with_imutex.

(** [fs_itfs[device]]; a device no file system was registered for has NULL
    pointers there. *)
Definition itf_of (device : Z) : V (icache T W) (fs_itf W) :=
  do! l := vget itfs in
  do! o := vlift (lget l device) in
  vsome o.

(** [((uint64_t)device << 32) | inode_n] *)
Definition inode_key (device inode_n : Z) : Z := Z.lor (u64 (Z.shiftl device 32)) inode_n.

(** The members [inode_alloc] sets; the others keep what the memory had. *)
Definition new_inode (device n : Z) (j : inode_t) : inode_t :=
  mk_inode device n (i_mode j) (i_links j) (i_size j) (i_atime j) (i_ctime j) (i_mtime j)
    (i_dtime j) (i_sectors j) (i_blocks j).

Definition inode_alloc (device inode_n : Z) : V (icache T W) Z :=
  do! m := vget inodes in
  let p := ialloc m in
  do! _ := icell_put p (mk_icell 0 1 0 (new_inode device inode_n (junk_inode p)) None) in
  do! _ := vset (fun s => with_ifree s
    (mk_lru (<[p := junk_links p]> (links (ifree s))) (lhead (ifree s)) (ltail (ifree s)))) in
  vret p.

Definition inode_remove (inode : Z) : V (icache T W) unit :=
  do! l := vget ifree in
  do! l := vlift (lru_remove l inode) in
  vset (fun s => with_ifree s l).

Definition inode_evict : V (icache T W) unit :=
  do! l := vget ifree in
  if ltail l =? 0 then vpanic
  else
    do! c := icell_at (ltail l) in
    if negb (ic_ref c =? 0) then vpanic
    else
      let old := ltail l in
      do! t := vget itable in
      do! (r, t) := vlift (tremove t (inode_key (i_device (ic_dat c)) (i_n (ic_dat c)))) in
      do! _ := vset (fun s => with_itable s t) in
      if negb (r =? 0) then vpanic
      else
        do! _ := inode_remove old in
        vset (fun s => with_ifree (with_inodes s (delete old (inodes s)))
          (mk_lru (delete old (links (ifree s))) (lhead (ifree s)) (ltail (ifree s)))).

Definition table_set (key p : Z) : V (icache T W) Z :=
  do! t := vget itable in
  do! (r, t) := vlift (tset t key p) in
  do! _ := vset (fun s => with_itable s t) in
  vret r.

(** [do { evict; set } while (ret && ltail)], with fuel: every round frees an
    inode. *)
Fixpoint inode_evict_loop (fuel : nat) (key p : Z) : V (icache T W) Z :=
  match fuel with
  | O => fun _ => VNoFuel
  | S fuel =>
      do! _ := inode_evict in
      do! ret := table_set key p in
      do! l := vget ifree in
      if negb (ret =? 0) && negb (ltail l =? 0) then inode_evict_loop fuel key p else vret ret
  end.

Definition inode_get (device inode_n : Z) : V (icache T W) Z :=
  do! _ := imutex_acquire in
  let key := inode_key device inode_n in
  do! t := vget itable in
  do! inode := vlift (tget t key) in
  if negb (inode =? 0) then
    do! c := icell_at inode in
    do! _ := icell_put inode (cell_ref c (ic_ref c + 1)) in
    do! _ := (if ic_ref c =? 0 then inode_remove inode else vret tt) in
    do! _ := imutex_release in
    vret inode
  else
    do! inode := inode_alloc device inode_n in
    do! ret := table_set key inode in
    if ret =? 0 then
      do! _ := imutex_release in
      vret inode
    else
      do! m := vget inodes in
      do! ret := inode_evict_loop (S (base.size m)) key inode in
      if ret =? 0 then
        do! _ := imutex_release in
        vret inode
      else vpanic.

(** With a null or dangling pointer the message dereferences it. *)
Definition inode_lock (inode : Z) : V (icache T W) unit :=
  do! c := icell_at inode in
  if ic_ref c =? 0 then vpanic
  else
    do! m := vacquire (ic_mutex c) in
    do! _ := icell_put inode (cell_mutex c m) in
    if ic_valid c =? 0 then
      do! itf := itf_of (i_device (ic_dat c)) in
      do! w := vget fs in
      do! (d, o, w) := vlift (itf_load itf w (ic_dat c)) in
      do! _ := icell_put inode (cell_load (cell_mutex c m) d o) in
      vset (fun s => with_fs s w)
    else vret tt.

Definition inode_unlock (inode : Z) : V (icache T W) unit :=
  do! c := icell_at inode in
  if ic_ref c =? 0 then vpanic
  else icell_put inode (cell_mutex c (unlock_count (ic_mutex c))).

Definition inode_update (inode : Z) : V (icache T W) unit :=
  do! c := icell_at inode in
  do! itf := itf_of (i_device (ic_dat c)) in
  do! w := vget fs in
  do! w := vlift (itf_update itf w (ic_dat c)) in
  vset (fun s => with_fs s w).

Definition inode_trunc (inode : Z) : V (icache T W) unit :=
  do! c := icell_at inode in
  do! itf := itf_of (i_device (ic_dat c)) in
  do! w := vget fs in
  do! (d, w) := vlift (itf_trunc itf w (ic_dat c)) in
  do! _ := icell_put inode (cell_dat c d) in
  vset (fun s => with_fs s w).

(** What the holder of the lock stores in the members. *)
Definition inode_store (inode : Z) (f : inode_t -> inode_t) : V (icache T W) unit :=
  do! c := icell_at inode in icell_put inode (cell_dat c (f (ic_dat c))).

Definition dinode_reset (mode : Z) (i : inode_t) : inode_t :=
  mk_inode (i_device i) (i_n i) mode 1 0 (i_atime i) (i_ctime i) (i_mtime i) (i_dtime i) 0 (i_blocks i).

Definition dinode_alloc (device mode : Z) : V (icache T W) Z :=
  do! itf := itf_of device in
  do! w := vget fs in
  do! (inode_n, w) := vlift (itf_alloc itf w device) in
  do! _ := vset (fun s => with_fs s w) in
  do! inode := inode_get device inode_n in
  do! _ := inode_lock inode in
  do! _ := inode_store inode (dinode_reset (u16 mode)) in
  do! _ := inode_update inode in
  vret inode.

Definition inode_release (inode : Z) : V (icache T W) unit :=
  do! _ := imutex_acquire in
  do! c := icell_at inode in
  do! _ := icell_put inode (cell_ref c (ic_ref c - 1)) in
  do! _ :=
    (if ic_ref c - 1 =? 0 then
       do! l := vget ifree in
       do! l := vlift (lru_push l inode) in
       do! _ := vset (fun s => with_ifree s l) in
       if negb (ic_valid c =? 0) && (i_links (ic_dat c) =? 0) then
         do! _ := inode_trunc inode in
         do! c := icell_at inode in
         icell_put inode (cell_valid c 0)
       else vret tt
     else vret tt) in
  imutex_release.

Definition inode_dup (inode : Z) : V (icache T W) Z :=
  do! _ := imutex_acquire in
  do! c := icell_at inode in
  do! _ := icell_put inode (cell_ref c (ic_ref c + 1)) in
  do! _ := imutex_release in
  vret inode.

(** [stat_t], as [inode_stat] fills it. *)
Record stat_t := mk_stat {
  st_device : Z; st_inode_n : Z; st_hlinks : Z; st_mode : Z; st_size : Z;
  st_atime : Z; st_ctime : Z; st_mtime : Z; st_dtime : Z;
}.

(** The argument is [file->inode]. *)
Definition inode_stat (inode : Z) : V (icache T W) stat_t :=
  do! c := icell_at inode in
  let i := ic_dat c in
  vret (mk_stat (i_device i) (i_n i) (i_links i) (i_mode i) (i_size i) (i_atime i) (i_ctime i)
    (i_mtime i) (i_dtime i)).

Definition inode_close (inode : Z) : V (icache T W) unit := inode_release inode.

(** [inode_read] of a file with this inode and offset: the result, the new
    offset and the bytes stored at the address. *)
Definition inode_read (inode offset size : Z) : V (icache T W) (Z * Z * list Z) :=
  do! c := icell_at inode in
  do! o := vsome (ic_io c) in
  do! w := vget fs in
  do! (l, d, w) := vlift (io_read o w (ic_dat c) offset size) in
  do! _ := icell_put inode (cell_dat c d) in
  do! _ := vset (fun s => with_fs s w) in
  let bread := Z.of_nat (length l) in
  vret (s32 bread, if s32 bread =? 0 then offset else u32 (offset + bread), l).

(** The result and the new offset. *)
Definition inode_write (inode : Z) (data : list Z) (offset : Z) : V (icache T W) (Z * Z) :=
  do! c := icell_at inode in
  do! o := vsome (ic_io c) in
  do! w := vget fs in
  do! (bwrite, d, w) := vlift (io_write o w (ic_dat c) data offset) in
  do! _ := icell_put inode (cell_dat c d) in
  do! _ := vset (fun s => with_fs s w) in
  vret (s32 bwrite, if bwrite =? 0 then offset else u32 (offset + bwrite)).

Definition inode_add_itf (device : Z) (itf : fs_itf W) : V (icache T W) unit :=
  do! l := vget itfs in
  do! l := vlift (lset l device (Some itf)) in
  vset (fun s => with_itfs s l).

(** [inode_init], with the table from [ht_create]; the interfaces are a static
    array and stay as they are. *)
Definition inode_init (t : T) (l : list (option (fs_itf W))) (w : W) : icache T W :=
  mk_icache t ∅ (mk_lru ∅ 0 0) 0 l w.
End Cache.

(** ** No inode is ever marked valid *)

Section Valid.
Context {T W : Type} `{!KTable T}.
Context (ialloc : gmap Z (icell W) -> Z) (junk_inode : Z -> inode_t) (junk_links : Z -> Z * Z).

(** The calls of the other parts of the kernel. *)
Inductive iop :=
| OGet (device inode_n : Z)
| ODinode (device mode : Z)
| ORelease (inode : Z)
| ODup (inode : Z)
| OLock (inode : Z)
| OUnlock (inode : Z)
| OUpdate (inode : Z)
| OTrunc (inode : Z)
| OStore (inode : Z) (f : inode_t -> inode_t)
| ORead (inode offset size : Z)
| OWrite (inode : Z) (data : list Z) (offset : Z)
| OAddItf (device : Z) (itf : fs_itf W).

Definition run_iop (op : iop) : V (icache T W) unit :=
  match op with
  | OGet d n => do! _ := inode_get ialloc junk_inode junk_links d n in vret tt
  | ODinode d m => do! _ := dinode_alloc ialloc junk_inode junk_links d m in vret tt
  | ORelease p => inode_release p
  | ODup p => do! _ := inode_dup p in vret tt
  | OLock p => inode_lock p
  | OUnlock p => inode_unlock p
  | OUpdate p => inode_update p
  | OTrunc p => inode_trunc p
  | OStore p f => inode_store p f
  | ORead p o n => do! _ := inode_read p o n in vret tt
  | OWrite p l o => do! _ := inode_write p l o in vret tt
  | OAddItf d i => inode_add_itf d i
  end.

Inductive ireach (s0 : icache T W) : icache T W -> Prop :=
| ireach_refl : ireach s0 s0
| ireach_step (s s' : icache T W) (op : iop) : ireach s0 s -> run_iop op s = VRet tt s' -> ireach s0 s'.

Definition none_valid (s : icache T W) : Prop := map_Forall (fun _ c => ic_valid c = 0) (inodes s).

Lemma none_valid_same (s s' : icache T W) : inodes s' = inodes s -> none_valid s -> none_valid s'.
Proof. unfold none_valid. by intros ->. Qed.

Lemma cell_at_valid (p : Z) : vhoare none_valid (icell_at p) (fun c s => none_valid s /\ ic_valid c = 0).
Proof.
  intros s Hs. unfold icell_at. vauto. destruct (inodes s !! p) as [c|] eqn:E; [|done].
  split; [done|]. by apply (Hs p).
Qed.

Lemma cell_put_valid (p : Z) (c : icell W) : ic_valid c = 0 -> vkeeps none_valid (icell_put p c).
Proof. intros Hc s Hs. cbn. by apply map_Forall_insert_2. Qed.

(** A computation that reads an inode and stores it back with other members
    changed. *)
Lemma with_cell_valid {A} (p : Z) (f : icell W -> V (icache T W) A) :
  (forall c, ic_valid c = 0 -> vkeeps none_valid (f c)) -> vkeeps none_valid (vbind (icell_at p) f).
Proof. apply (vkeeps_known _ (fun c => ic_valid c = 0)), cell_at_valid. Qed.

Lemma set_other_valid (f : icache T W -> icache T W) :
  (forall s, inodes (f s) = inodes s) -> vkeeps none_valid (vset f).
Proof. intros Hf. apply vhoare_set. intros s. by apply none_valid_same. Qed.

Lemma imutex_acquire_valid : vkeeps none_valid imutex_acquire.
Proof. by apply vkeeps_lock. Qed.

Lemma imutex_release_valid : vkeeps none_valid imutex_release.
Proof. by apply vkeeps_unlock. Qed.

Lemma itf_of_valid (d : Z) : vkeeps none_valid (itf_of d).
Proof. unfold itf_of. vkeep. Qed.
End Valid.

#[export] Hint Resolve cell_put_valid imutex_acquire_valid imutex_release_valid itf_of_valid : vkeeps.
#[export] Hint Extern 1 (vhoare none_valid (vset _) _) => (apply set_other_valid; intros; reflexivity) : vkeeps.
#[export] Hint Extern 1 (ic_valid _ = 0) => (reflexivity || assumption) : vkeeps.

Ltac vvalid :=
  repeat first
  [ apply with_cell_valid; intros
  | match goal with
    | |- forall _, _ => intro
    | |- vhoare _ (vbind _ _) _ => apply vkeeps_bind
    | |- vhoare _ (let '(_, _) := ?x in _) _ => destruct x
    | |- vhoare _ (if ?b then _ else _) _ => destruct b
    end ];
  try solve [auto with vkeeps nocore].

Section ValidOps.
Context {T W : Type} `{!KTable T}.
Context (ialloc : gmap Z (icell W) -> Z) (junk_inode : Z -> inode_t) (junk_links : Z -> Z * Z).
Local Notation keeps m := (vkeeps (none_valid (T:=T) (W:=W)) m).

Lemma inode_remove_valid (p : Z) : keeps (inode_remove p).
Proof. unfold inode_remove. vvalid. Qed.

Lemma table_set_valid (k p : Z) : keeps (table_set k p).
Proof. unfold table_set. vvalid. Qed.

Lemma inode_alloc_valid (d n : Z) : keeps (inode_alloc ialloc junk_inode junk_links d n).
Proof. unfold inode_alloc. vvalid. Qed.

Lemma inode_evict_valid : keeps inode_evict.
Proof.
  unfold inode_evict. vvalid.
  all: try apply inode_remove_valid. 
  apply vhoare_set. intros s Hs. by apply map_Forall_delete.
Qed.

Lemma evict_loop_valid (fuel : nat) (k p : Z) : keeps (inode_evict_loop fuel k p).
Proof.
  induction fuel as [|fuel IH]; [by intros s Hs|]. cbn [inode_evict_loop].
  vvalid; first [apply inode_evict_valid|apply table_set_valid|done].
Qed.

Lemma inode_get_valid (d n : Z) : keeps (inode_get ialloc junk_inode junk_links d n).
Proof.
  unfold inode_get. vvalid; first [apply inode_remove_valid|apply inode_alloc_valid|apply table_set_valid|
    apply evict_loop_valid|idtac].
Qed.

Lemma inode_lock_valid (p : Z) : keeps (inode_lock p).
Proof. unfold inode_lock. vvalid. Qed.

Lemma inode_trunc_valid (p : Z) : keeps (inode_trunc p).
Proof. unfold inode_trunc. vvalid. Qed.

Lemma inode_update_valid (p : Z) : keeps (inode_update p).
Proof. unfold inode_update. vvalid. Qed.

Lemma inode_store_valid (p : Z) (f : inode_t -> inode_t) : keeps (inode_store p f).
Proof. unfold inode_store. vvalid. Qed.

Lemma inode_release_valid (p : Z) : keeps (inode_release p).
Proof. unfold inode_release. vvalid. Qed.

Lemma iop_keeps_valid (op : iop) : keeps (run_iop ialloc junk_inode junk_links op).
Proof.
  destruct op; cbn [run_iop]; unfold dinode_alloc, inode_dup, inode_unlock, inode_read, inode_write,
    inode_add_itf; vvalid; first [apply inode_get_valid|apply inode_release_valid|apply inode_lock_valid|
    apply inode_update_valid|apply inode_trunc_valid|apply inode_store_valid].
Qed.

Lemma ireach_valid (s0 s : icache T W) :
  none_valid s0 -> ireach ialloc junk_inode junk_links s0 s -> none_valid s.
Proof.
  intros H0 Hr. induction Hr as [|s s' op _ IH E]; [done|].
  exact (vhoare_run _ _ _ _ _ _ (iop_keeps_valid op) IH E).
Qed.

(** Releasing an inode that is not valid: nothing is truncated. *)
Lemma release_no_trunc (s s' : icache T W) (p : Z) :
  none_valid s -> inode_release p s = VRet tt s' -> fs s' = fs s.
Proof.
  intros Hv E. unfold inode_release in E.
  vinv E. unfold imutex_acquire, vlock in E0. destruct (lock_count _); [|done]. injection E0 as _ <-.
  vinv E. unfold icell_at, vbind in E0. cbn [vget with_imutex inodes] in E0.
  apply vsome_inv in E0 as [E0 ->]. pose proof (Hv p _ E0) as Hc. cbn beta in Hc.
  vinv E. injection E1 as _ <-. vinv E. injection E as <-. cbn [fs with_imutex].
  destruct (ic_ref a0 - 1 =? 0); [|by injection E1 as _ <-].
  vinv E1. injection E as <- <-. vinv E1. apply vlift_inv in E as [_ ->]. vinv E1. injection E as _ <-.
  rewrite Hc in E1. cbn [Z.eqb negb andb] in E1. by injection E1 as _ <-.
Qed.

(** C31: From the start of the cache no sequence of its operations ever marks an
    inode valid: every lock of an inode loads it from the disk again, and the
    truncation of a file without links in inode_release is never run, so the
    last release of any inode leaves the file system as it is. *)
Theorem inode_release_never_truncates (t : T) (l : list (option (fs_itf W))) (w : W) (s s' : icache T W) (p : Z) :
  ireach ialloc junk_inode junk_links (inode_init t l w) s ->
  none_valid s /\ (inode_release p s = VRet tt s' -> fs s' = fs s).
Proof.
  intros Hr. assert (none_valid s) by (apply (ireach_valid (inode_init t l w)); [|done]; apply map_Forall_empty).
  split; [done|]. by apply release_no_trunc.
Qed.
End ValidOps.

(** ** One inode in memory for every inode in use *)

Definition inode_id_ok (device n : Z) : Prop := 0 <= device < 4 /\ 0 <= n < 2 ^ 32.

Lemma inode_key_val (device n : Z) : inode_id_ok device n -> inode_key device n = device * 2 ^ 32 + n.
Proof.
  intros [Hd Hn]. unfold inode_key, u64. rewrite Z.shiftl_mul_pow2 by lia.
  rewrite wrap_small by lia. by apply lor_low.
Qed.

Lemma inode_key_inj (d n d' n' : Z) :
  inode_id_ok d n -> inode_id_ok d' n' -> inode_key d n = inode_key d' n' -> d = d' /\ n = n'.
Proof. intros H H'. rewrite !inode_key_val by done. destruct H, H'. lia. Qed.

Section Correct.
Context {T W : Type} `{!KTable T} {tl : KTableLaws T}.

Definition cell_key (c : icell W) : Z := inode_key (i_device (ic_dat c)) (i_n (ic_dat c)).

(** [l] is the list of the unused inodes. *)
Record icache_ok (s : icache T W) (l : list Z) : Prop := {
  ik_tbl : tbl_ok (itable s);
  ik_map k p : tbl_map (itable s) !! k = Some p <-> exists c, inodes s !! p = Some c /\ cell_key c = k;
  ik_cell p c : inodes s !! p = Some c ->
    inode_id_ok (i_device (ic_dat c)) (i_n (ic_dat c)) /\ 0 <= ic_ref c;
  ik_dom : dom (links (ifree s)) = dom (inodes s);
  ik_free : lru_repr (ifree s) l;
  ik_ref p c : inodes s !! p = Some c -> ic_ref c = 0 <-> p ∈ l;
  ik_mutex : imutex s = 0;
}.

Lemma ik_nonnull (s : icache T W) (l : list Z) (p : Z) (c : icell W) :
  icache_ok s l -> inodes s !! p = Some c -> p <> 0.
Proof.
  intros H Hc ->. apply elem_of_dom_2 in Hc. rewrite <- (ik_dom s l H) in Hc.
  apply elem_of_dom in Hc as [x Hx]. by rewrite (lr_null _ _ (ik_free s l H)) in Hx.
Qed.

(** No two inodes in memory stand for the same inode of a disk. *)
Lemma ik_unique (s : icache T W) (l : list Z) (p q : Z) (c c' : icell W) :
  icache_ok s l -> inodes s !! p = Some c -> inodes s !! q = Some c' -> cell_key c = cell_key c' -> p = q.
Proof.
  intros H Hc Hc' E.
  assert (E1 : tbl_map (itable s) !! cell_key c = Some p) by (apply (ik_map s l H); by exists c).
  assert (E2 : tbl_map (itable s) !! cell_key c = Some q) by (apply (ik_map s l H); by exists c').
  congruence.
Qed.

(** Changing an inode but not its device and number. *)
Lemma update_cell (s : icache T W) (l l' : list Z) (p : Z) (c c' : icell W) (fr : lru) (w : W)
    (itf : list (option (fs_itf W))) :
  icache_ok s l -> inodes s !! p = Some c ->
  i_device (ic_dat c') = i_device (ic_dat c) -> i_n (ic_dat c') = i_n (ic_dat c) -> 0 <= ic_ref c' ->
  lru_repr fr l' -> dom (links fr) = dom (links (ifree s)) ->
  (ic_ref c' = 0 <-> p ∈ l') -> (forall q, q <> p -> q ∈ l' <-> q ∈ l) ->
  icache_ok (mk_icache (itable s) (<[p := c']> (inodes s)) fr 0 itf w) l'.
Proof.
  intros H Hc Ed En Hr Hf Hdom Hp Hq. destruct (ik_cell s l H p c Hc) as [Hid _].
  split; cbn [itable inodes ifree imutex]; [apply (ik_tbl s l H)| | | |done| |done].
  - intros k q. rewrite (ik_map s l H). destruct (decide (q = p)) as [->|].
    + rewrite lookup_insert_eq. unfold cell_key. split; intros (x & Hx & Hk).
      * exists c'. rewrite Hc in Hx. injection Hx as <-. split; [done|]. congruence.
      * exists c. injection Hx as <-. split; [done|]. congruence.
    + by rewrite lookup_insert_ne.
  - intros q x Hx. destruct (decide (q = p)) as [->|].
    + rewrite lookup_insert_eq in Hx. injection Hx as <-. by rewrite Ed, En.
    + rewrite lookup_insert_ne in Hx by done. by apply (ik_cell s l H q).
  - rewrite Hdom, (ik_dom s l H), dom_insert_L. apply elem_of_dom_2 in Hc. set_solver.
  - intros q x Hx. destruct (decide (q = p)) as [->|].
    + rewrite lookup_insert_eq in Hx. by injection Hx as <-.
    + rewrite lookup_insert_ne in Hx by done. rewrite Hq by done. by apply (ik_ref s l H).
Qed.

(** What an operation on one inode leaves alone. *)
Definition other_inodes (s s' : icache T W) (p : Z) : Prop :=
  (forall q, q <> p -> inodes s' !! q = inodes s !! q) /\ itfs s' = itfs s.

(** The inode is in memory and in use or between two others on the list of
    unused ones, or the table has room for it. *)
Definition inode_available (s : icache T W) (l : list Z) (device n : Z) : Prop :=
  match tbl_map (itable s) !! inode_key device n with
  | Some p => (exists c, inodes s !! p = Some c /\ 0 < ic_ref c) \/ exists s1 a b s2, l = s1 ++ a :: p :: b :: s2
  | None => tbl_room (itable s) = true
  end.

Context (ialloc : gmap Z (icell W) -> Z) (junk_inode : Z -> inode_t) (junk_links : Z -> Z * Z).
Context (ialloc_ok : forall m, ialloc m <> 0 /\ m !! ialloc m = None).

Lemma inode_get_hit (s : icache T W) (l : list Z) (device n p : Z) (c : icell W) :
  icache_ok s l -> tbl_map (itable s) !! inode_key device n = Some p -> inodes s !! p = Some c ->
  0 < ic_ref c \/ (exists s1 a b s2, l = s1 ++ a :: p :: b :: s2) ->
  exists s' l', inode_get ialloc junk_inode junk_links device n s = VRet p s' /\ icache_ok s' l' /\
    inodes s' !! p = Some (cell_ref c (ic_ref c + 1)) /\ fs s' = fs s /\ other_inodes s s' p.
Proof.
  intros H Hm Hc Ha. pose proof (ik_nonnull s l p c H Hc) as Hnz. destruct (ik_cell s l H p c Hc) as [_ Hr].
  unfold inode_get, imutex_acquire, imutex_release, vunlock.
  rewrite vbind_lock by apply (ik_mutex s l H). vauto. cbn [itable with_imutex].
  rewrite (tget_ok _ _ (ik_tbl s l H)), Hm. cbn [default from_option id]. vauto. destruct (Z.eqb_spec p 0); [done|].
  cbn [negb]. unfold icell_at. vauto. cbn [inodes with_imutex]. rewrite Hc. unfold icell_put. vauto.
  set (c' := cell_ref c (ic_ref c + 1)).
  assert (Hos : forall fr m, other_inodes s (mk_icache (itable s) (<[p := c']> (inodes s)) fr m (itfs s) (fs s)) p).
  { intros fr m. split; [|done]. intros q Hq. cbn. by rewrite lookup_insert_ne. }
  destruct (Z.eqb_spec (ic_ref c) 0) as [Hz|Hz].
  - destruct Ha as [Ha|(s1 & a & b & s2 & ->)]; [lia|]. unfold inode_remove. vauto.
    cbn [ifree with_inodes with_imutex].
    destruct (lru_remove_inside _ _ _ _ _ _ (ik_free _ _ H)) as (fr & -> & Hfr & Hdom & _). vauto.
    eexists _, (s1 ++ a :: b :: s2). split; [done|].
    split; [|split; [by cbn; rewrite lookup_insert_eq|split; [done|apply Hos]]].
    pose proof (lr_nodup _ _ (ik_free _ _ H)) as Hnd.
    assert (p ∉ s1 ++ a :: b :: s2).
    { apply NoDup_app in Hnd as (_ & Hd & Hnd). rewrite !NoDup_cons in Hnd. set_solver. }
    apply (update_cell s (s1 ++ a :: p :: b :: s2) _ p c); try done; cbn; [lia|split; [lia|done]|set_solver].
  - vauto. eexists _, l. split; [done|].
    split; [|split; [by cbn; rewrite lookup_insert_eq|split; [done|apply Hos]]].
    apply (update_cell s l _ p c); try done; cbn; [lia|apply (ik_free s l H)|].
    split; [lia|]. intros Hin. by apply (ik_ref s l H p c Hc) in Hin.
Qed.
Lemma inode_get_miss (s : icache T W) (l : list Z) (device n : Z) :
  icache_ok s l -> inode_id_ok device n ->
  tbl_map (itable s) !! inode_key device n = None -> tbl_room (itable s) = true ->
  exists p s', inode_get ialloc junk_inode junk_links device n s = VRet p s' /\ icache_ok s' l /\
    inodes s' !! p = Some (mk_icell 0 1 0 (new_inode device n (junk_inode p)) None) /\
    inodes s !! p = None /\ fs s' = fs s /\ other_inodes s s' p.
Proof.
  intros H Hid Hm Hr. unfold inode_get, imutex_acquire, imutex_release, vunlock.
  rewrite vbind_lock by apply (ik_mutex s l H). vauto. cbn [itable with_imutex].
  rewrite (tget_ok _ _ (ik_tbl s l H)), Hm. cbn [default from_option id]. vauto. cbn [Z.eqb negb].
  unfold inode_alloc. vauto. cbn [inodes with_imutex]. destruct (ialloc_ok (inodes s)) as [Hnz Hn].
  set (p := ialloc (inodes s)) in *. unfold icell_put, table_set. vauto.
  cbn [itable with_imutex with_inodes with_ifree].
  destruct (tset_room (itable s) (inode_key device n) p (ik_tbl s l H) Hm Hr) as (t & -> & Ht & Mt & _).
  vauto. cbn [Z.eqb]. vauto. eexists p, _. split; [done|].
  set (c := mk_icell 0 1 0 (new_inode device n (junk_inode p)) None).
  assert (Hpl : p ∉ l).
  { intros Hin. apply (lru_links _ _ _ (ik_free s l H)) in Hin as Hs. apply elem_of_dom in Hs.
    rewrite (ik_dom s l H) in Hs. by apply not_elem_of_dom in Hn. }
  split; [|split; [by cbn; rewrite lookup_insert_eq|split; [done|split; [done|]]]].
  2: { split; [|done]. intros q Hq. cbn. by rewrite lookup_insert_ne. }
  split; cbn [itable inodes ifree imutex with_imutex with_itable with_ifree with_inodes links]; [done|..].
  - intros k q. rewrite Mt. destruct (decide (k = inode_key device n)) as [->|Hk].
    + rewrite lookup_insert_eq. split.
      * intros [= <-]. exists c. by rewrite lookup_insert_eq.
      * intros (x & Hx & Ek). destruct (decide (q = p)) as [->|]; [done|].
        rewrite lookup_insert_ne in Hx by done.
        assert (tbl_map (itable s) !! inode_key device n = Some q) by (apply (ik_map s l H); eauto).
        congruence.
    + rewrite lookup_insert_ne by done. rewrite (ik_map s l H). destruct (decide (q = p)) as [->|].
      * rewrite lookup_insert_eq. split; intros (x & Hx & Ek); [congruence|].
        injection Hx as <-. by destruct Hk.
      * by rewrite lookup_insert_ne.
  - intros q x Hx. destruct (decide (q = p)) as [->|].
    + rewrite lookup_insert_eq in Hx. by injection Hx as <-.
    + rewrite lookup_insert_ne in Hx by done. by apply (ik_cell s l H q).
  - by rewrite !dom_insert_L, (ik_dom s l H).
  - by apply lru_repr_alloc; [apply (ik_free s l H)|..].
  - intros q x Hx. destruct (decide (q = p)) as [->|].
    + rewrite lookup_insert_eq in Hx. injection Hx as <-. cbn. split; [lia|done].
    + rewrite lookup_insert_ne in Hx by done. by apply (ik_ref s l H).
  - done.
Qed.

(** Getting an inode, whether it is in memory or not. *)
Lemma inode_get_ok (s : icache T W) (l : list Z) (device n : Z) :
  icache_ok s l -> inode_id_ok device n -> inode_available s l device n ->
  exists p s' l' c, inode_get ialloc junk_inode junk_links device n s = VRet p s' /\ icache_ok s' l' /\
    inodes s' !! p = Some c /\ i_device (ic_dat c) = device /\ i_n (ic_dat c) = n /\
    ic_ref c = default 0 (ic_ref <$> inodes s !! p) + 1 /\ 0 < ic_ref c /\ fs s' = fs s /\ other_inodes s s' p.
Proof.
  intros H Hid Ha. unfold inode_available in Ha. destruct (tbl_map (itable s) !! _) as [p|] eqn:Hm.
  - apply (ik_map s l H) in Hm as Hb. destruct Hb as (c & Hc & Hk).
    destruct (ik_cell s l H p c Hc) as [Hid' Hr].
    destruct (inode_key_inj _ _ _ _ Hid' Hid Hk) as [Ed En].
    destruct (inode_get_hit s l device n p c H Hm Hc) as (s' & l' & E & H' & Hc' & Hf & Ho).
    { destruct Ha as [(x & Hx & Hr')|Ha]; [left|by right]. rewrite Hc in Hx. by injection Hx as <-. }
    exists p, s', l', (cell_ref c (ic_ref c + 1)). split_and!; try done; rewrite ?Hc; cbn in *; [done|lia].
  - destruct (inode_get_miss s l device n H Hid Hm Ha) as (p & s' & E & H' & Hc & Hn & Hf & Ho).
    eexists p, s', l, _. split_and!; try done. by rewrite Hn.
Qed.

(** Releasing an inode: when it is the last use, it becomes the first of the
    unused ones. *)
Lemma inode_release_ok (s : icache T W) (l : list Z) (p : Z) (c : icell W) :
  icache_ok s l -> inodes s !! p = Some c -> 0 < ic_ref c -> ic_valid c = 0 ->
  exists s', inode_release p s = VRet tt s' /\ icache_ok s' (if ic_ref c =? 1 then p :: l else l) /\
    inodes s' !! p = Some (cell_ref c (ic_ref c - 1)) /\ fs s' = fs s /\ other_inodes s s' p.
Proof.
  intros H Hc Hr Hv. unfold inode_release, imutex_acquire, imutex_release, vunlock.
  rewrite vbind_lock by apply (ik_mutex s l H). unfold icell_at, icell_put. vauto. cbn [inodes with_imutex].
  rewrite Hc. vauto. set (c' := cell_ref c (ic_ref c - 1)).
  assert (Hp : p ∉ l) by (intros Hin; apply (ik_ref s l H p c Hc) in Hin; lia).
  assert (Hos : forall fr m, other_inodes s (mk_icache (itable s) (<[p := c']> (inodes s)) fr m (itfs s) (fs s)) p).
  { intros fr m. split; [|done]. intros q Hq. cbn. by rewrite lookup_insert_ne. }
  replace (ic_ref c - 1 =? 0) with (ic_ref c =? 1) by (destruct (Z.eqb_spec (ic_ref c) 1), (Z.eqb_spec (ic_ref c - 1) 0); lia || done).
  destruct (Z.eqb_spec (ic_ref c) 1) as [E|E].
  - vauto. cbn [ifree with_inodes with_imutex].
    destruct (lru_push_repr (ifree s) l p (ik_free s l H) Hp) as (fr & -> & Hfr & Hdom & _).
    { apply elem_of_dom. rewrite (ik_dom s l H). by apply elem_of_dom_2 in Hc. }
    vauto. rewrite Hv. cbn [Z.eqb negb andb]. vauto. eexists. split; [done|].
    split; [|split; [by cbn; rewrite lookup_insert_eq|split; [done|apply Hos]]].
    apply (update_cell s l _ p c); try done; cbn; [lia| |set_solver]. split; [set_solver|lia].
  - vauto. eexists. split; [done|]. split; [|split; [by cbn; rewrite lookup_insert_eq|split; [done|apply Hos]]].
    apply (update_cell s l _ p c); try done; cbn; [lia|apply (ik_free s l H)|]. split; [lia|done].
Qed.

(** C19: Take an inode that the cache can serve: it is in memory and in use, or
    between two others on the list of unused ones, or it is not in memory and
    the table has room.  (Of the unused ones the first and the last are left out:
    taking them off the list aborts or dereferences NULL.)  While it is in use,
    every inode_get of the same device and number returns the same pointer and
    counts one more reference; no other inode in memory stands for the same
    inode of the disk, and the cache stays consistent; the releases give the
    references back. *)
Theorem inode_get_unique (s : icache T W) (l : list Z) (device n : Z) :
  icache_ok s l -> inode_id_ok device n -> inode_available s l device n ->
  exists p s1 s2 l1 l2 c1 c2, inode_get ialloc junk_inode junk_links device n s = VRet p s1 /\
    inode_get ialloc junk_inode junk_links device n s1 = VRet p s2 /\ icache_ok s1 l1 /\ icache_ok s2 l2 /\
    inodes s1 !! p = Some c1 /\ inodes s2 !! p = Some c2 /\ ic_ref c2 = ic_ref c1 + 1 /\
    (forall q c, inodes s2 !! q = Some c -> i_device (ic_dat c) = device -> i_n (ic_dat c) = n -> q = p) /\
    (ic_valid c2 = 0 -> exists s3 s4 l4, inode_release p s2 = VRet tt s3 /\ inode_release p s3 = VRet tt s4 /\
       icache_ok s4 l4 /\ ic_ref <$> inodes s4 !! p = Some (ic_ref c1 - 1)).
Proof.
  intros H Hid Ha. destruct (inode_get_ok s l device n H Hid Ha) as (p & s1 & l1 & c1 & E1 & H1 & Hc1 & Ed & En & _ & Hr & _).
  assert (Hm : tbl_map (itable s1) !! inode_key device n = Some p).
  { apply (ik_map s1 l1 H1). exists c1. split; [done|]. unfold cell_key. by rewrite Ed, En. }
  destruct (inode_get_hit s1 l1 device n p c1 H1 Hm Hc1) as (s2 & l2 & E2 & H2 & Hc2 & _); [by left|].
  exists p, s1, s2, l1, l2, c1, (cell_ref c1 (ic_ref c1 + 1)). split_and!; try done.
  - intros q c Hc Hd Hn. apply (ik_unique s2 l2 q p c _ H2 Hc Hc2). unfold cell_key. cbn. congruence.
  - cbn. intros Hv. destruct (inode_release_ok s2 l2 p _ H2 Hc2) as (s3 & E3 & H3 & Hc3 & _); [cbn; lia|done|].
    cbn in Hc3. destruct (inode_release_ok s3 _ p _ H3 Hc3) as (s4 & E4 & H4 & Hc4 & _); [cbn; lia|done|].
    eexists s3, s4, _. split; [done|]. split; [done|]. split; [exact H4|]. rewrite Hc4. cbn. f_equal. lia.
Qed.
End Correct.

(** ** ext2 behind the cache *)

Section Ext2Itf.
Context {T B : Type} `{!KTable T} `{!Blocks B} {laws : BlocksLaws B}.
Context (sb : ext2_sblock_t) (bgds : list ext2_bgd_t).

Definition ext2_io : io B :=
  mk_io (fun st i l o => ext2_write_content sb bgds st i l o) (fun st i o n => ext2_read_content sb bgds st i o n).

(** [ext2_inode_get] on an inode in memory. *)
Definition ext2_inode_load (st : B) (i : inode_t) : outcome (inode_t * io B * B) :=
  let! d := ext2_inode_get sb bgds st (i_device i) (i_n i) in Ret (d, ext2_io, st).

(** What [ext2_init] registers. *)
Definition ext2_itf : fs_itf B :=
  mk_itf ext2_inode_load (ext2_inode_update sb bgds) (ext2_truncate sb bgds) (ext2_inode_alloc sb bgds).

(** A state in which the inode at [p] is [c], on a device with ext2. *)
Definition on_ext2 (s : icache T B) (p : Z) (c : icell B) : Prop :=
  inodes s !! p = Some c /\ 0 < ic_ref c /\ ic_valid c = 0 /\
  lget (itfs s) (i_device (ic_dat c)) = Ret (Some ext2_itf).

Lemma inode_lock_ext2 (s : icache T B) (p : Z) (c : icell B) (i : inode_t) :
  on_ext2 s p c -> ic_mutex c = 0 ->
  ext2_inode_get sb bgds (fs s) (i_device (ic_dat c)) (i_n (ic_dat c)) = Ret i ->
  inode_lock p s = VRet tt (with_inodes s (<[p := mk_icell 0 (ic_ref c) 1 i (Some ext2_io)]> (inodes s))).
Proof.
  intros (Hc & Hr & Hv & Hi) Hm E. unfold inode_lock, icell_at, icell_put. vauto. rewrite Hc. vauto.
  destruct (Z.eqb_spec (ic_ref c) 0); [lia|]. rewrite Hm, vbind_acquire. vauto. rewrite Hv. cbn [Z.eqb].
  unfold itf_of. vauto. cbn [itfs with_inodes]. rewrite Hi. vauto. cbn [fs with_inodes ext2_itf itf_load].
  unfold ext2_inode_load. rewrite E. cbn [obind]. vauto. unfold vset, with_fs, with_inodes, cell_load.
  cbn [inodes itable ifree imutex itfs fs cell_mutex ic_valid ic_ref ic_mutex]. by rewrite insert_insert_eq, Hv.
Qed.

Lemma inode_unlock_run (s : icache T B) (p : Z) (c : icell B) :
  inodes s !! p = Some c -> 0 < ic_ref c ->
  inode_unlock p s = VRet tt (with_inodes s (<[p := cell_mutex c (unlock_count (ic_mutex c))]> (inodes s))).
Proof.
  intros Hc Hr. unfold inode_unlock, icell_at, icell_put. vauto. rewrite Hc. vauto.
  by destruct (Z.eqb_spec (ic_ref c) 0); [lia|].
Qed.

Definition then_relock (p : Z) (m : V (icache T B) unit) : V (icache T B) unit :=
  do! _ := m in do! _ := inode_unlock p in inode_lock p.

Lemma relock_ext2 (s s1 : icache T B) (p : Z) (c : icell B) (i : inode_t) (m : V (icache T B) unit) :
  m s = VRet tt s1 -> on_ext2 s1 p c -> ic_mutex c = 1 ->
  ext2_inode_get sb bgds (fs s1) (i_device (ic_dat c)) (i_n (ic_dat c)) = Ret i ->
  exists s', then_relock p m s = VRet tt s' /\ fs s' = fs s1 /\
    inodes s' = <[p := mk_icell 0 (ic_ref c) 1 i (Some ext2_io)]> (inodes s1).
Proof.
  intros Em (Hc & Hr & Hv & Hi) Hm E. unfold then_relock. vrun Em. vrun (inode_unlock_run s1 p c Hc Hr).
  eexists. rewrite (inode_lock_ext2 _ p (cell_mutex c (unlock_count (ic_mutex c))) i);
    [split; [done|]|split_and!; try done; cbn; by rewrite lookup_insert_eq|by cbn; rewrite Hm|done].
  split; [done|]. cbn. by rewrite insert_insert_eq.
Qed.

(** Over ideal blocks, a change of a locked inode survives unlocking and locking again exactly
    when inode_update is called: with it, the next lock loads the changed
    inode from the disk, member for member; without it, the next lock brings
    back what the disk had. *)
Theorem inode_update_persists (s : icache T B) (p : Z) (c : icell B) (f : inode_t -> inode_t)
    (ix : inode_idx_t) (old : inode_t) :
  on_ext2 s p c -> ic_mutex c = 1 -> let i := f (ic_dat c) in
  i_device i = i_device (ic_dat c) -> i_n i = i_n (ic_dat c) -> inode_wf i ->
  ext2_inode_idx sb bgds (i_n i) = Ret ix -> 0 <= ix_idx ix ->
  (ix_idx ix + 1) * DINODE_SIZE <= Z.of_nat (length (bget (fs s) (i_device i) (ix_block ix))) ->
  ext2_inode_get sb bgds (fs s) (i_device i) (i_n i) = Ret old ->
  (exists s', then_relock p (do! _ := inode_store p f in inode_update p) s = VRet tt s' /\
     ic_dat <$> inodes s' !! p = Some i) /\
  (exists s', then_relock p (inode_store p f) s = VRet tt s' /\
     ic_dat <$> inodes s' !! p = Some old /\ fs s' = fs s).
Proof.
  intros Ho Hm i Ed En Hwf Hix H0 Hlen Hold. pose proof Ho as (Hc & Hr & Hv & Hi).
  set (c' := cell_dat c i). set (s1 := with_inodes s (<[p := c']> (inodes s))).
  assert (E1 : inode_store p f s = VRet tt s1).
  { unfold inode_store, icell_at, icell_put. vauto. rewrite Hc. vauto. done. }
  assert (Hc1 : inodes s1 !! p = Some c') by (cbn; by rewrite lookup_insert_eq).
  assert (Hi1 : lget (itfs s1) (i_device i) = Ret (Some ext2_itf)) by (rewrite Ed; exact Hi).
  split.
  - destruct (inode_update_spec sb bgds (fs s) i ix Hwf Hix H0 Hlen) as (w & Eu & Eg & _).
    destruct (relock_ext2 s (with_fs s1 w) p c' i (do! _ := inode_store p f in inode_update p))
      as (s' & E & _ & Hs'); try done.
    { vrun E1. unfold inode_update, icell_at, itf_of. vauto. rewrite Hc1. vauto.
      change (ic_dat c') with i. rewrite Hi1. vauto. cbn [fs s1 with_inodes ext2_itf itf_update].
      rewrite Eu. vauto. done. }
    exists s'. split; [done|]. by rewrite Hs', lookup_insert_eq.
  - destruct (relock_ext2 s s1 p c' old (inode_store p f) E1) as (s' & E & Hf & Hs'); try done.
    exists s'. split; [done|]. split; [by rewrite Hs', lookup_insert_eq|done].
Qed.
End Ext2Itf.

(** ** A concrete cache *)

Definition ialloc0 (m : gmap Z (icell fun_blocks)) : Z := fresh ({[0]} ∪ dom m : gset Z).
Definition junk_inode0 (p : Z) : inode_t := mk_inode 7 7 7 7 7 7 7 7 7 7 (replicate 15 7).
Definition junk_links0 (p : Z) : Z * Z := (0xCCCCCCCC, 0xCCCCCCCC).

Lemma ialloc0_ok (m : gmap Z (icell fun_blocks)) : ialloc0 m <> 0 /\ m !! ialloc0 m = None.
Proof.
  pose proof (is_fresh ({[0]} ∪ dom m : gset Z)) as H. fold (ialloc0 m) in H.
  rewrite not_elem_of_union, not_elem_of_singleton, not_elem_of_dom in H. done.
Qed.

Definition itfs0 : list (option (fs_itf fun_blocks)) := [Some (ext2_itf sb0 [bgd0]); None; None; None].
Definition icache0 : icache num_table fun_blocks := inode_init cache_table itfs0 disk0.

Lemma inode_table_created : ht_create INODE_TABLE_SIZE INODE_LOAD_FACTOR 0 = Ret cache_table.
Proof. by vm_compute. Qed.

Lemma icache0_ok : icache_ok icache0 [].
Proof.
  destruct cache_table_ok as (Ht & Hm). split; cbn [icache0 inode_init itable inodes ifree imutex links].
  - exact Ht.
  - intros k p. rewrite Hm, lookup_empty. split; [done|]. intros (b & Hb & _). by rewrite lookup_empty in Hb.
  - intros p b Hb. by rewrite lookup_empty in Hb.
  - by rewrite !dom_empty_L.
  - split; try done. constructor.
  - intros p b Hb. by rewrite lookup_empty in Hb.
  - done.
Qed.

Lemma icache0_available (n : Z) : inode_available icache0 [] 0 n.
Proof.
  unfold inode_available. cbn [icache0 inode_init itable]. by rewrite (proj2 cache_table_ok), lookup_empty.
Qed.

Lemma inode_get_unique_witness :
  exists p s1 s2, inode_get ialloc0 junk_inode0 junk_links0 0 12 icache0 = VRet p s1 /\
    inode_get ialloc0 junk_inode0 junk_links0 0 12 s1 = VRet p s2.
Proof.
  destruct (inode_get_unique ialloc0 junk_inode0 junk_links0 ialloc0_ok icache0 [] 0 12 icache0_ok
    ltac:(split; lia) (icache0_available 12)) as (p & s1 & s2 & _ & _ & _ & _ & E1 & E2 & _).
  exact (ex_intro _ p (ex_intro _ s1 (ex_intro _ s2 (conj E1 E2)))).
Defined.

(** The inode 12 of the disk, in use and locked. *)
Definition cell0 : icell fun_blocks := mk_icell 0 1 1 (with_size file0 5) None.
Definition locked0 : icache num_table fun_blocks := with_inodes icache0 {[ 4096 := cell0 ]}.

Lemma inode_update_persists_witness :
  exists s, then_relock 4096 (do! _ := inode_store 4096 (fun i => with_size i 77) in inode_update 4096) locked0 = VRet tt s /\
    ic_dat <$> inodes s !! 4096 = Some (with_size file0 77).
Proof.
  destruct (inode_update_persists sb0 [bgd0] locked0 4096 cell0 (fun i => with_size i 77) slot0
    (mk_inode 0 12 0 0 0 0 0 0 0 0 (replicate 15 0))) as [H _];
    [split_and!; try done; by vm_compute|done|done|done| |done|cbn; lia|by vm_compute|by vm_compute|exact H].
  unfold inode_wf. cbn. split_and!; try lia. repeat constructor; lia.
Defined.

Lemma inode_release_never_truncates_witness :
  exists s, ireach ialloc0 junk_inode0 junk_links0 icache0 s /\ none_valid s /\ inodes s <> ∅.
Proof.
  destruct (inode_get_miss ialloc0 junk_inode0 junk_links0 ialloc0_ok icache0 [] 0 12 icache0_ok)
    as (p & s & E & _ & Hc & _); [split; lia|cbn [icache0 inode_init itable]; by rewrite (proj2 cache_table_ok)|done|].
  assert (Hr : ireach ialloc0 junk_inode0 junk_links0 icache0 s).
  { eapply (ireach_step _ _ _ _ _ _ (OGet 0 12)); [apply ireach_refl|]. cbn [run_iop]. by vrun E. }
  exists s. split; [exact Hr|]. split.
  - exact (proj1 (inode_release_never_truncates ialloc0 junk_inode0 junk_links0 cache_table itfs0 disk0 s s p Hr)).
  - intros H. rewrite H in Hc. by rewrite lookup_empty in Hc.
Defined.
