(* ===== verification/Dir.v ===== *)
(** The directory cache and path lookup (src/src/kernel/fs/dir.c): directory
    entries found through the hash table by their path, their reference counts,
    the list of unused ones, the tree of the parents and children, and the
    calls into the file system of the device.

    Strings live in a heap of allocated blocks: entries keep the pointer to
    their path, and the hash tables compare the strings the pointers point to
    at the time of the comparison. *)

From Stdlib Require Import ZArith Lia.
From stdpp Require Import base numbers list gmap.
From S2P Require Import Prelude Cstring HashTable Tables Lru Bytes Ext2 Ext2File Vfs Inode.

Definition DIR_TABLE_SIZE : Z := 50.
Definition DIR_LOAD_FACTOR : Z := 75.
Definition SLASH : Z := 47.
Definition DOT : Z := 46.
Definition EXT2_TYPE_FIFO : Z := 0x1000.
Definition EXT2_TYPE_DIR : Z := 0x4000.
Definition EXT2_TYPE_FILE : Z := 0x8000.

(** The member [table]: NULL, memory that was never initialised, or a table. *)
Inductive tabptr := TNull | TWild | TTab (t : hash_table_t).

(** [dentry_t] but the links of the list of unused entries. *)
Record dentry_t := mk_dentry {
  d_valid : Z;
  d_ref : Z;
  d_offset : Z;
  d_inode : Z;
  d_mutex : Z;
  d_path : Z;
  d_next_sib : Z;
  d_prev_sib : Z;
  d_parent : Z;
  d_children : Z;
  d_table : tabptr;
}.

Definition d_set_ref (d : dentry_t) (r : Z) : dentry_t :=
  mk_dentry (d_valid d) r (d_offset d) (d_inode d) (d_mutex d) (d_path d) (d_next_sib d) (d_prev_sib d)
    (d_parent d) (d_children d) (d_table d).
Definition d_set_offset (d : dentry_t) (o : Z) : dentry_t :=
  mk_dentry (d_valid d) (d_ref d) o (d_inode d) (d_mutex d) (d_path d) (d_next_sib d) (d_prev_sib d)
    (d_parent d) (d_children d) (d_table d).
Definition d_set_mutex (d : dentry_t) (m : Z) : dentry_t :=
  mk_dentry (d_valid d) (d_ref d) (d_offset d) (d_inode d) m (d_path d) (d_next_sib d) (d_prev_sib d)
    (d_parent d) (d_children d) (d_table d).
Definition d_set_next_sib (d : dentry_t) (p : Z) : dentry_t :=
  mk_dentry (d_valid d) (d_ref d) (d_offset d) (d_inode d) (d_mutex d) (d_path d) p (d_prev_sib d)
    (d_parent d) (d_children d) (d_table d).
Definition d_set_prev_sib (d : dentry_t) (p : Z) : dentry_t :=
  mk_dentry (d_valid d) (d_ref d) (d_offset d) (d_inode d) (d_mutex d) (d_path d) (d_next_sib d) p
    (d_parent d) (d_children d) (d_table d).
Definition d_set_parent (d : dentry_t) (p : Z) : dentry_t :=
  mk_dentry (d_valid d) (d_ref d) (d_offset d) (d_inode d) (d_mutex d) (d_path d) (d_next_sib d) (d_prev_sib d)
    p (d_children d) (d_table d).
Definition d_set_children (d : dentry_t) (p : Z) : dentry_t :=
  mk_dentry (d_valid d) (d_ref d) (d_offset d) (d_inode d) (d_mutex d) (d_path d) (d_next_sib d) (d_prev_sib d)
    (d_parent d) p (d_table d).
Definition d_set_table (d : dentry_t) (t : tabptr) : dentry_t :=
  mk_dentry (d_valid d) (d_ref d) (d_offset d) (d_inode d) (d_mutex d) (d_path d) (d_next_sib d) (d_prev_sib d)
    (d_parent d) (d_children d) t.

Section Data.
Context {T W : Type}.

(** [dir_head], the allocated entries and strings, [current_task->current_dir]
    and the inode cache. *)
Record dstate := mk_dstate {
  dtable : hash_table_t;
  dentries : gmap Z dentry_t;
  dfree : lru;
  dmutex : Z;
  heap : gmap Z (list Z);
  cur_dir : Z;
  ic : icache T W;
}.

Definition with_dtable (s : dstate) (t : hash_table_t) : dstate :=
  mk_dstate t (dentries s) (dfree s) (dmutex s) (heap s) (cur_dir s) (ic s).
Definition with_dentries (s : dstate) (m : gmap Z dentry_t) : dstate :=
  mk_dstate (dtable s) m (dfree s) (dmutex s) (heap s) (cur_dir s) (ic s).
Definition with_dfree (s : dstate) (l : lru) : dstate :=
  mk_dstate (dtable s) (dentries s) l (dmutex s) (heap s) (cur_dir s) (ic s).
Definition with_dmutex (s : dstate) (c : Z) : dstate :=
  mk_dstate (dtable s) (dentries s) (dfree s) c (heap s) (cur_dir s) (ic s).
Definition with_heap (s : dstate) (h : gmap Z (list Z)) : dstate :=
  mk_dstate (dtable s) (dentries s) (dfree s) (dmutex s) h (cur_dir s) (ic s).
Definition with_cur_dir (s : dstate) (p : Z) : dstate :=
  mk_dstate (dtable s) (dentries s) (dfree s) (dmutex s) (heap s) p (ic s).
Definition with_ic (s : dstate) (i : icache T W) : dstate :=
  mk_dstate (dtable s) (dentries s) (dfree s) (dmutex s) (heap s) (cur_dir s) i.

(** [struct dir_itf]; [write_dir] gets the name of a new entry, [parse_root]
    the device. *)
Record dir_itf := mk_dir_itf {
  parse_dir : Z -> V dstate Z;
  write_dir : Z -> Z -> list Z -> bool -> V dstate Z;
  parse_root : Z -> V dstate unit;
}.
End Data.
Arguments dstate T W : clear implicits.
Arguments dir_itf T W : clear implicits.

Section Dir.
Context {T W : Type} `{!KTable T}.
Local Notation D := (V (dstate T W)).

(** What [kmalloc] returns for an inode, an entry and a string, the contents of
    fresh memory, and what is read through a pointer to freed memory. *)
Context (ialloc : gmap Z (icell W) -> Z) (junk_inode : Z -> inode_t) (junk_links : Z -> Z * Z).
Context (dalloc : gmap Z dentry_t -> Z) (junk_dentry : Z -> dentry_t).
Context (salloc : gmap Z (list Z) -> Z) (junk_bytes : Z -> Z -> list Z) (stale : Z -> list Z).
Context (fresh_entries : Z -> list hash_entry_t).

Definition on_ic {A} (m : V (icache T W) A) : D A := vzoom ic with_ic m.

(** ** Memory *)

Definition str_of (h : gmap Z (list Z)) (p : Z) : list Z := default (stale p) (h !! p).

(** A string that is not on the heap is looked up as if it were at NULL. *)
Definition str_probe (h : gmap Z (list Z)) (buf : list Z) (p : Z) : list Z :=
  if p =? 0 then buf else str_of h p.

Definition str_at (p : Z) : D (list Z) :=
  do! h := vget heap in vsome (h !! p).
Definition str_put (p : Z) (l : list Z) : D unit :=
  vset (fun s => with_heap s (<[p := l]> (heap s))).
Definition str_new (l : list Z) : D Z :=
  do! h := vget heap in
  let p := salloc h in
  do! _ := str_put p l in
  vret p.
Definition str_free (p : Z) : D unit :=
  do! _ := str_at p in
  vset (fun s => with_heap s (delete p (heap s))).

Definition dent_at (p : Z) : D dentry_t :=
  do! m := vget dentries in vsome (m !! p).
Definition dent_put (p : Z) (d : dentry_t) : D unit :=
  vset (fun s => with_dentries s (<[p := d]> (dentries s))).
Definition dent_upd (p : Z) (f : dentry_t -> dentry_t) : D unit :=
  do! d := dent_at p in dent_put p (f d).

(** ** The table [dir_head.table] *)

Definition head_get (path : list Z) : D Z :=
  do! t := vget dtable in
  do! h := vget heap in
  vlift (ht_get (str_probe h path) t 0).
Definition head_set (path p : Z) : D Z :=
  do! t := vget dtable in
  do! h := vget heap in
  do! (r, t) := vlift (ht_set (str_of h) fresh_entries 2 t path p) in
  do! _ := vset (fun s => with_dtable s t) in
  vret r.
Definition head_remove (path : Z) : D Z :=
  do! t := vget dtable in
  do! h := vget heap in
  do! (r, t) := vlift (ht_remove (str_of h) t path) in
  do! _ := vset (fun s => with_dtable s t) in
  vret r.

Definition dmutex_acquire : D unit := vlock dmutex with_dmutex.
Definition dmutex_release : D unit := vunlock dmutex with_dmutex.

(** ** Entries *)

Definition dentry_alloc (path inode offset : Z) : D Z :=
  do! m := vget dentries in
  let p := dalloc m in
  let j := junk_dentry p in
  do! inode := on_ic (inode_dup inode) in
  do! _ := dent_put p (mk_dentry 0 1 offset inode 0 path (d_next_sib j) (d_prev_sib j) (d_parent j)
    (d_children j) (d_table j)) in
  do! _ := vset (fun s => with_dfree s
    (mk_lru (<[p := (0, 0)]> (links (dfree s))) (lhead (dfree s)) (ltail (dfree s)))) in
  vret p.

Definition dir_lru_remove (l : lru) (dentry : Z) : outcome lru :=
  let! n := next_of l dentry in
  let! q := prev_of l dentry in
  if (n =? 0) && (q =? 0) && negb (lhead l =? dentry) then Panic
  else if (lhead l =? 0) && (ltail l =? 0) then Panic
  else
    let! l :=
      if dentry =? lhead l then
        let! n := next_of l dentry in
        set_prev (mk_lru (links l) n (ltail l)) n 0
      else Ret l in
    let! l :=
      if dentry =? ltail l then
        let! q := prev_of l dentry in
        set_next (mk_lru (links l) (lhead l) q) q 0
      else Ret l in
    if negb (dentry =? ltail l) && negb (dentry =? lhead l) then
      let! q := prev_of l dentry in
      let! n := next_of l dentry in
      let! l := set_next l q n in
      let! n := next_of l dentry in
      let! q := prev_of l dentry in
      set_prev l n q
    else Ret l.

Definition dir_remove (dentry : Z) : D unit :=
  do! l := vget dfree in
  do! l := vlift (dir_lru_remove l dentry) in
  vset (fun s => with_dfree s l).

Definition dir_dup_ (dentry : Z) : D Z :=
  do! _ := dent_upd dentry (fun d => d_set_ref d (d_ref d + 1)) in
  vret dentry.

Definition dir_dup (dentry : Z) : D Z :=
  do! _ := dmutex_acquire in
  do! _ := dir_dup_ dentry in
  do! _ := dmutex_release in
  vret dentry.

(** [ht_get] and [ht_set] on [dir->table] go through the pointer. *)
Definition tab_of (d : dentry_t) : D hash_table_t :=
  match d_table d with TTab t => vret t | _ => vundef end.

Definition dir_add_child (dir entry : Z) : D unit :=
  do! e := dent_at entry in
  do! d := dent_at dir in
  do! t := tab_of d in
  do! h := vget heap in
  do! v := vlift (ht_get (str_of h) t (d_path e)) in
  if negb (v =? 0) then vret tt
  else
    do! (_, t) := vlift (ht_set (str_of h) fresh_entries 2 t (d_path e) entry) in
    do! _ := dent_upd dir (fun d => d_set_table d (TTab t)) in
    do! _ := dir_dup_ dir in
    do! _ := dent_upd entry (fun e => d_set_parent e dir) in
    do! d := dent_at dir in
    do! _ := (if negb (d_children d =? 0)
              then dent_upd (d_children d) (fun c => d_set_prev_sib c entry) else vret tt) in
    do! _ := dent_upd entry (fun e => d_set_next_sib e (d_children d)) in
    do! _ := dent_upd entry (fun e => d_set_prev_sib e 0) in
    do! _ := dir_dup_ entry in
    dent_upd dir (fun d => d_set_children d entry).

Definition dir_release_ (dentry : Z) : D unit :=
  do! d := dent_at dentry in
  do! _ := dent_put dentry (d_set_ref d (d_ref d - 1)) in
  if d_ref d - 1 =? 0 then
    do! l := vget dfree in
    do! l := vlift (lru_push l dentry) in
    vset (fun s => with_dfree s l)
  else vret tt.

(** The loop over the children, with fuel for as many as there are entries. *)
Fixpoint release_entries_loop (fuel : nat) (dentry child : Z) : D unit :=
  match fuel with
  | O => fun _ => VNoFuel
  | S fuel =>
      if child =? 0 then vret tt
      else
        do! c := dent_at child in
        do! d := dent_at dentry in
        do! t := tab_of d in
        do! h := vget heap in
        do! (_, t) := vlift (ht_remove (str_of h) t (d_path c)) in
        do! _ := dent_put dentry (d_set_table d (TTab t)) in
        do! _ := dir_release_ child in
        do! c := dent_at child in
        release_entries_loop fuel dentry (d_next_sib c)
  end.
Definition dir_release_entries (dentry : Z) : D unit :=
  do! d := dent_at dentry in
  do! m := vget dentries in
  release_entries_loop (S (base.size m)) dentry (d_children d).

(** [ht_free(entry->table)], and freeing an entry. *)
Definition tab_free (d : dentry_t) : D unit := do! _ := tab_of d in vret tt.
Definition dent_free (p : Z) : D unit :=
  vset (fun s => with_dfree (with_dentries s (delete p (dentries s)))
    (mk_lru (delete p (links (dfree s))) (lhead (dfree s)) (ltail (dfree s)))).

Definition dir_remove_child (dir entry : Z) : D unit :=
  do! e := dent_at entry in
  do! _ := (if negb (d_prev_sib e =? 0)
            then dent_upd (d_prev_sib e) (fun x => d_set_next_sib x (d_next_sib e))
            else dent_upd dir (fun x => d_set_children x (d_next_sib e))) in
  do! _ := dent_upd entry (fun e => d_set_prev_sib e 0) in
  do! e := dent_at entry in
  do! _ := (if negb (d_next_sib e =? 0)
            then dent_upd (d_next_sib e) (fun x => d_set_prev_sib x (d_prev_sib e)) else vret tt) in
  do! _ := dent_upd entry (fun e => d_set_next_sib e 0) in
  do! e := dent_at entry in
  do! _ := dir_release_ (d_parent e) in
  do! _ := dent_upd entry (fun e => d_set_parent e 0) in
  do! _ := dir_release_ entry in
  do! r := head_remove (d_path e) in
  if negb (r =? 0) then vpanic
  else
    do! _ := str_free (d_path e) in
    do! e := dent_at entry in
    do! _ := (if negb (d_valid e =? 0) then dir_release_entries entry else vret tt) in
    do! e := dent_at entry in
    do! _ := tab_free e in
    dent_free entry.

(** [mutex_release] and [mutex_acquire] of an entry. *)
Definition dent_unlock (dentry : Z) : D unit :=
  dent_upd dentry (fun d => d_set_mutex d (unlock_count (d_mutex d))).
Definition dent_lock (dentry : Z) : D unit :=
  do! d := dent_at dentry in
  do! m := vacquire (d_mutex d) in
  dent_put dentry (d_set_mutex d m).

Definition dir_unlock (dentry : Z) : D unit :=
  do! _ := dmutex_acquire in
  do! _ := dent_unlock dentry in
  dmutex_release.

Definition dir_lock (dentry : Z) : D unit :=
  do! _ := dmutex_acquire in
  do! _ := dent_lock dentry in
  dmutex_release.

Definition dir_evict : D unit :=
  do! l := vget dfree in
  if ltail l =? 0 then vpanic
  else
    let old := ltail l in
    do! d := dent_at old in
    if negb (d_ref d =? 0) then vpanic
    else
      do! r := head_remove (d_path d) in
      if negb (r =? 0) then vpanic
      else
        do! _ := dir_remove old in
        do! _ := str_free (d_path d) in
        do! _ := (if negb (d_valid d =? 0) then dir_release_entries old else vret tt) in
        do! d := dent_at old in
        do! _ := tab_free d in
        dent_free old.

Definition dir_release (dentry : Z) : D unit :=
  do! _ := dmutex_acquire in
  do! _ := dir_release_ dentry in
  dmutex_release.

(** ** Paths *)

(** [for (; path[len] != '/' && len; --len);] *)
Fixpoint last_slash (path : list Z) (len : nat) : outcome nat :=
  let! c := lget path (Z.of_nat len) in
  if c =? SLASH then Ret len
  else match len with O => Ret O | S len => last_slash path len end.

(** The buffer [kmalloc] returned is [buf]. *)
Definition sum_path (buf path1 path2 : list Z) (len1 len2 : Z) : outcome (list Z) :=
  let! a := slice path1 0 len1 in
  let! buf := splice buf 0 a in
  let! c := lget buf (len1 - 1) in
  let! (buf, off) :=
    if negb (c =? SLASH) then let! buf := lset buf len1 SLASH in Ret (buf, len1 + 1) else Ret (buf, len1) in
  let! b := slice path2 0 len2 in
  let! buf := splice buf off b in
  lset buf (off + len2) 0.

Definition dir_sum_path (path1 path2 : list Z) (len1 len2 : Z) : D Z :=
  do! h := vget heap in
  let p := salloc h in
  do! l := vlift (sum_path (junk_bytes p (u32 (len1 + len2 + 2))) path1 path2 len1 len2) in
  str_new l.

(** ** Lookup *)

Section Itf.
Context (ditfs : list (option (dir_itf T W))).

Definition ditf_of (device : Z) : D (dir_itf T W) :=
  do! o := vlift (lget ditfs device) in vsome o.

(** The first loop of [dir_iter_get]: it cuts the path at its slashes, from the
    end, until what is left is in the table.  A round shortens the path, so a
    round for every character is enough. *)
Fixpoint iter_up (fuel : nat) (path : list Z) (len : nat) (dentry : option Z) : D (option Z * list Z * nat) :=
  match fuel with
  | O => fun _ => VNoFuel
  | S fuel =>
      if (len =? 0)%nat then vret (dentry, path, len)
      else
        do! len := vlift (last_slash path len) in
        do! path := vlift (lset path (Z.of_nat len) 0) in
        do! d := head_get path in
        if negb (d =? 0) then vret (Some d, path, len) else iter_up fuel path len (Some d)
  end.

(** [for (; len != orig_len && path[len]; ++len);] *)
Fixpoint next_nul (n : nat) (path : list Z) (len : nat) : outcome nat :=
  match n with
  | O => Ret len
  | S n => let! c := lget path (Z.of_nat len) in if c =? 0 then Ret len else next_nul n path (S len)
  end.

(** The second loop: the parts that were cut off are looked up again, each in
    the directory found so far; a round for every character is enough. *)
Fixpoint iter_down (fuel : nat) (path : list Z) (len orig_len : nat) (dentry : Z) : D Z :=
  match fuel with
  | O => fun _ => VNoFuel
  | S fuel =>
      if (len =? orig_len)%nat then vret dentry
      else
        do! itf := ditf_of 0 in
        do! _ := dmutex_release in
        do! _ := parse_dir itf dentry in
        do! _ := dmutex_acquire in
        do! path := vlift (lset path (Z.of_nat len) SLASH) in
        do! len := vlift (next_nul (orig_len - len) path len) in
        do! c1 := (if (1 <? len)%nat then vlift (lget path (Z.of_nat len - 1)) else vret 0) in
        if c1 =? DOT then
          do! c2 := (if (2 <? len)%nat then vlift (lget path (Z.of_nat len - 2)) else vret 0) in
          if c2 =? DOT then
            do! d := dent_at dentry in iter_down fuel path len orig_len (d_parent d)
          else iter_down fuel path len orig_len dentry
        else
          do! c := (if (1 <? orig_len)%nat then vlift (lget path (Z.of_nat orig_len - 1)) else vret 0) in
          do! path := (if c =? SLASH then vlift (lset path (Z.of_nat orig_len - 1) 0) else vret path) in
          do! dentry := head_get path in
          if dentry =? 0 then vret 0 else iter_down fuel path len orig_len dentry
  end.

(** For the empty path the variable [dentry] is never set. *)
Definition dir_iter_get (path : list Z) (len : nat) : D Z :=
  do! (r, path, n) := iter_up (S len) path len None in
  do! dentry := vsome r in
  if dentry =? 0 then vret 0 else iter_down (S len) path n len dentry.

(** The path that is looked up, and [new_path_flag]. *)
Definition full_path (path : Z) : D (Z * bool) :=
  do! str := str_at path in
  do! c := vlift (lget str 0) in
  if negb (c =? SLASH) then
    do! cur := vget cur_dir in
    do! d := dent_at cur in
    do! cpath := str_at (d_path d) in
    do! path := dir_sum_path cpath str (strlen cpath) (strlen str) in
    vret (path, true)
  else vret (path, false).

(** A slash at the end is overwritten; the result is the length before. *)
Definition strip_slash (path : Z) : D Z :=
  do! str := str_at path in
  let len := strlen str in
  do! c := (if 1 <? len then vlift (lget str (len - 1)) else vret 0) in
  do! _ := (if c =? SLASH then do! str := vlift (lset str (len - 1) 0) in str_put path str else vret tt) in
  vret len.

(** An entry that is in the table gets one more reference. *)
Definition take_ref (dentry : Z) : D unit :=
  do! d := dent_at dentry in
  do! _ := dent_put dentry (d_set_ref d (d_ref d + 1)) in
  if d_ref d =? 0 then dir_remove dentry else vret tt.

(** [dir_get] from the point where [path] is an absolute path. *)
Definition dir_find (path : Z) (new_path_flag : bool) : D Z :=
  do! len := strip_slash path in
  do! str := str_at path in
  do! dentry := head_get str in
  if negb (dentry =? 0) then
    do! _ := take_ref dentry in
    do! _ := dmutex_release in
    do! _ := (if new_path_flag then str_free path else vret tt) in
    vret dentry
  else
    do! path_buf := vlift (slice str 0 (len + 1)) in
    do! dentry := dir_iter_get path_buf (Z.to_nat len) in
    do! _ := dmutex_release in
    do! _ := (if new_path_flag then str_free path else vret tt) in
    vret dentry.

Definition dir_get (path : Z) : D Z :=
  do! _ := dmutex_acquire in
  do! (path, new_path_flag) := full_path path in
  dir_find path new_path_flag.

(** [do { evict; set } while (ret && ltail)] *)
Fixpoint dir_evict_loop (fuel : nat) (path dentry : Z) : D Z :=
  match fuel with
  | O => fun _ => VNoFuel
  | S fuel =>
      do! _ := dir_evict in
      do! ret := head_set path dentry in
      do! l := vget dfree in
      if negb (ret =? 0) && negb (ltail l =? 0) then dir_evict_loop fuel path dentry else vret ret
  end.

Definition dir_set (device path inode_n offset : Z) : D Z :=
  do! _ := dmutex_acquire in
  do! inode := on_ic (inode_get ialloc junk_inode junk_links device inode_n) in
  do! dentry := dentry_alloc path inode offset in
  do! ret := head_set path dentry in
  if ret =? 0 then
    do! _ := dmutex_release in
    vret dentry
  else
    do! m := vget dentries in
    do! ret := dir_evict_loop (S (base.size m)) path dentry in
    if ret =? 0 then
      do! _ := dmutex_release in
      vret dentry
    else vpanic.

(** The parent, and the string [name] is set to point at. *)
Definition dir_get_parent (path : Z) : D (Z * list Z) :=
  do! str := str_at path in
  let len := strlen str in
  do! tmp := vlift (slice str 0 (len + 1)) in
  do! n := vlift (last_slash tmp (Z.to_nat len)) in
  do! tmp := vlift (lset tmp (Z.of_nat n) 0) in
  do! p := str_new tmp in
  do! dentry := dir_get p in
  do! str := str_at path in
  do! _ := str_free p in
  vret (dentry, drop (S n) str).

(** ** Links *)

Definition idat (inode : Z) : D inode_t :=
  on_ic (do! c := icell_at inode in vret (ic_dat c)).
Definition add_links (k : Z) (i : inode_t) : inode_t :=
  mk_inode (i_device i) (i_n i) (i_mode i) (u16 (i_links i + k)) (i_size i) (i_atime i) (i_ctime i) (i_mtime i)
    (i_dtime i) (i_sectors i) (i_blocks i).

Definition dir_link (oldpath newpath : Z) : D Z :=
  do! dentry := dir_get oldpath in
  if dentry =? 0 then vret (-1)
  else
    do! _ := dir_lock dentry in
    do! d := dent_at dentry in
    let inode := d_inode d in
    do! _ := on_ic (inode_lock inode) in
    do! i := idat inode in
    if negb (Z.land (Z.lnot (i_mode i)) EXT2_TYPE_FILE =? 0) then
      do! _ := on_ic (inode_unlock inode) in
      do! _ := on_ic (inode_release inode) in
      do! _ := dir_unlock dentry in
      do! _ := dir_release dentry in
      vret (-1)
    else
      do! (dst_dentry, name) := dir_get_parent newpath in
      if dst_dentry =? 0 then
        do! _ := on_ic (inode_unlock inode) in
        do! _ := on_ic (inode_release inode) in
        do! _ := dir_unlock dentry in
        do! _ := dir_release dentry in
        vret (-1)
      else
        do! _ := dir_lock dst_dentry in
        do! dd := dent_at dst_dentry in
        let dst := d_inode dd in
        do! _ := on_ic (inode_lock dst) in
        do! di := idat dst in
        do! i := idat inode in
        do! ret :=
          (if i_device di =? i_device i then
             do! itf := ditf_of (i_device di) in
             do! r := write_dir itf dst_dentry dentry name true in
             if r =? 0 then
               do! _ := on_ic (inode_store inode (add_links 1)) in
               do! _ := on_ic (inode_update inode) in
               vret 0
             else vret (-1)
           else vret (-1)) in
        do! _ := on_ic (inode_unlock dst) in
        do! _ := on_ic (inode_unlock inode) in
        do! _ := dir_unlock dst_dentry in
        do! _ := dir_release dst_dentry in
        do! _ := dir_unlock dentry in
        do! _ := dir_release dentry in
        vret ret.

Definition dir_unlink (path : Z) : D Z :=
  do! (dir_dentry, name) := dir_get_parent path in
  if dir_dentry =? 0 then vret (-1)
  else if (strcmp name [DOT; 0] =? 0) || (strcmp name [DOT; DOT; 0] =? 0) then vret (-1)
  else
    do! entry_dentry := dir_get path in
    if entry_dentry =? 0 then
      do! _ := dir_release dir_dentry in
      vret (-1)
    else
      do! dd := dent_at dir_dentry in
      let dir := d_inode dd in
      do! _ := dir_lock dir_dentry in
      do! _ := on_ic (inode_lock dir) in
      do! ed := dent_at entry_dentry in
      let entry := d_inode ed in
      do! _ := dir_lock entry_dentry in
      do! _ := on_ic (inode_lock entry) in
      do! i := idat dir in
      do! itf := ditf_of (i_device i) in
      do! r := write_dir itf dir_dentry entry_dentry [] false in
      do! ret :=
        (if r =? 0 then
           do! e := idat entry in
           do! _ := (if negb (Z.land (i_mode e) EXT2_TYPE_DIR =? 0)
                     then on_ic (inode_store entry (add_links (-1))) else vret tt) in
           do! _ := on_ic (inode_store entry (add_links (-1))) in
           do! _ := on_ic (inode_update entry) in
           vret 0
         else vret (-1)) in
      do! _ := dir_unlock dir_dentry in
      do! _ := dir_release dir_dentry in
      do! _ := dir_unlock entry_dentry in
      do! _ := dir_release entry_dentry in
      do! _ := on_ic (inode_unlock dir) in
      do! _ := on_ic (inode_unlock entry) in
      vret ret.

(** ** Creation *)

Definition dir_create_dot (dir entry : Z) : D unit :=
  do! e := dent_at entry in
  do! d := dent_at dir in
  do! tmp := str_at (d_path e) in
  do! n := vlift (last_slash tmp (Z.to_nat (strlen tmp))) in
  let len := Z.of_nat n in
  let max_len := strlen tmp in
  let max_len := if u32 (max_len - 2) <? len then u32 (max_len + 1) else max_len in
  do! h := vget heap in
  let buf := junk_bytes (salloc h) max_len in
  do! head := vlift (slice tmp 0 len) in
  do! buf := vlift (splice buf 0 head) in
  do! buf := vlift (lset buf (len + 1) DOT) in
  do! buf := vlift (lset buf (len + 2) 0) in
  do! tmp1 := str_new buf in
  do! ei := idat (d_inode e) in
  do! sdot := dir_set (i_device ei) tmp1 (i_n ei) 0 in
  do! _ := dir_lock sdot in
  do! itf := ditf_of (i_device ei) in
  do! r := write_dir itf entry sdot [DOT; 0] true in
  if negb (r =? 0) then vpanic
  else
    let max_len := if u32 (max_len - 3) <? len then u32 (max_len + 2) else max_len in
    do! h := vget heap in
    do! tmp2 := str_new (junk_bytes (salloc h) max_len) in
    (* the copy goes to tmp1, the dots into the path of the entry *)
    do! tmp := str_at (d_path e) in
    do! head := vlift (slice tmp 0 len) in
    do! b1 := str_at tmp1 in
    do! b1 := vlift (splice b1 0 head) in
    do! _ := str_put tmp1 b1 in
    do! tmp := vlift (lset tmp (len + 1) DOT) in
    do! tmp := vlift (lset tmp (len + 2) DOT) in
    do! tmp := vlift (lset tmp (len + 3) 0) in
    do! _ := str_put (d_path e) tmp in
    do! di := idat (d_inode d) in
    do! ei := idat (d_inode e) in
    do! ddot := dir_set (i_device ei) tmp2 (i_n di) 0 in
    do! _ := dir_lock ddot in
    do! itf := ditf_of (i_device ei) in
    do! r := write_dir itf entry ddot [DOT; DOT; 0] true in
    if negb (r =? 0) then vpanic
    else
      do! _ := dir_unlock sdot in
      do! _ := dir_unlock ddot in
      do! _ := dir_release sdot in
      dir_release sdot.

Definition dir_create (path mode device : Z) : D Z :=
  do! inode := on_ic (dinode_alloc ialloc junk_inode junk_links device mode) in
  do! i := idat inode in
  do! entry := dir_set device path (i_n i) 0 in
  do! (dir, name) := dir_get_parent path in
  do! _ := dir_lock entry in
  do! _ := dir_lock dir in
  do! e := dent_at entry in
  do! d := dent_at dir in
  do! _ := on_ic (inode_lock (d_inode e)) in
  do! _ := on_ic (inode_lock (d_inode d)) in
  do! itf := ditf_of device in
  do! r := write_dir itf dir entry name true in
  if negb (r =? 0) then vpanic
  else
    do! _ :=
      (if negb (Z.land mode EXT2_TYPE_DIR =? 0) then
         do! _ := on_ic (inode_store inode (add_links 1)) in
         do! _ := on_ic (inode_update inode) in
         dir_create_dot dir entry
       else vret tt) in
    do! _ := dir_unlock entry in
    do! _ := dir_unlock dir in
    do! _ := dir_release dir in
    do! e := dent_at entry in
    do! _ := on_ic (inode_unlock (d_inode e)) in
    do! d := dent_at dir in
    do! _ := on_ic (inode_unlock (d_inode d)) in
    vret entry.

Definition dir_make (path mode : Z) : D Z :=
  do! dentry := dir_create path (u16 (Z.lor EXT2_TYPE_DIR (Z.land mode 0xFFF))) 0 in
  if dentry =? 0 then vret (-1)
  else
    do! _ := dir_release dentry in
    vret 0.

Definition dir_change (path : Z) : D Z :=
  do! dentry := dir_get path in
  if dentry =? 0 then vret (-1)
  else
    do! d := dent_at dentry in
    let inode := d_inode d in
    do! _ := on_ic (inode_lock inode) in
    do! i := idat inode in
    if negb (Z.land (Z.lnot (i_mode i)) EXT2_TYPE_DIR =? 0) then
      do! _ := on_ic (inode_unlock inode) in
      vret (-1)
    else
      do! _ := on_ic (inode_unlock inode) in
      do! cur := vget cur_dir in
      do! _ := dir_release cur in
      do! _ := vset (fun s => with_cur_dir s dentry) in
      vret 0.

(** [dir_init] behind the creation of the table: the roots of the registered
    devices are parsed, and the root becomes the current directory. *)
Fixpoint parse_roots (l : list (option (dir_itf T W))) (i : Z) : D unit :=
  match l with
  | [] => vret tt
  | None :: l => parse_roots l (i + 1)
  | Some itf :: l =>
      do! _ := parse_root itf i in
      parse_roots l (i + 1)
  end.

(** The empty cache; the static members of [dir_head] but the interfaces. *)
Definition dir_empty (t : hash_table_t) (cur : Z) (i : icache T W) : dstate T W :=
  mk_dstate t ∅ (mk_lru ∅ 0 0) 0 ∅ cur i.

Definition dir_init : D unit :=
  do! t := vlift (ht_create DIR_TABLE_SIZE DIR_LOAD_FACTOR HT_PTRKEY) in
  do! _ := vset (fun s => mk_dstate t (dentries s)
    (mk_lru (links (dfree s)) 0 0) 0 (heap s) (cur_dir s) (ic s)) in
  do! _ := parse_roots ditfs 0 in
  do! root := str_new [SLASH; 0] in
  do! d := dir_get root in
  vset (fun s => with_cur_dir s d).
End Itf.

(** A slot is valid from [dir_add_itf] on. *)
Definition dir_add_itf (ditfs : list (option (dir_itf T W))) (device : Z) (itf : dir_itf T W) :
    outcome (list (option (dir_itf T W))) := lset ditfs device (Some itf).
End Dir.
