(* ===== verification/DirLookup.v ===== *)
(** Path lookup in the directory cache: which path a call of [dir_get] looks
    up, what it returns, and the paths it does not find. *)

From Stdlib Require Import ZArith Lia.
From stdpp Require Import base numbers list gmap.
From S2P Require Import Prelude Cstring HashTable Tables Lru Bytes Ext2 Ext2File Vfs Inode Dir.

(** ** Joining paths *)

Definition nonul (l : list Z) : Prop := Forall (fun c => c <> 0) l.

(** The reference: one slash between the two. *)
Definition join (a b : list Z) : list Z :=
  if decide (last a = Some SLASH) then a ++ b else a ++ SLASH :: b.

Lemma cstr_nonul (l : list Z) : nonul (cstr l).
Proof. induction l as [|c l IH]; cbn; [constructor|]. destruct (Z.eqb_spec c 0); constructor; done. Qed.

Lemma cstr_app (c r : list Z) : nonul c -> cstr (c ++ 0 :: r) = c.
Proof.
  induction 1 as [|x c Hx Hc IH]; cbn; [done|]. destruct (Z.eqb_spec x 0); [done|]. by rewrite IH.
Qed.

Lemma cstr_prefix (l : list Z) : exists r, l = cstr l ++ r /\ (r = [] \/ head r = Some 0).
Proof.
  induction l as [|c l (r & E & Hr)]; cbn; [by exists []; split; [|left]|].
  destruct (Z.eqb_spec c 0) as [->|]; [exists (0 :: l); split; [done|by right]|].
  exists r. split; [by cbn; rewrite <- E|done].
Qed.

Lemma nonul_join (a b : list Z) : nonul a -> nonul b -> nonul (join a b).
Proof.
  intros Ha Hb. unfold join. case_decide; apply Forall_app; split; try done. by constructor.
Qed.

Lemma length_join (a b : list Z) : (length (join a b) <= length a + length b + 1)%nat.
Proof. unfold join. case_decide; rewrite length_app; cbn; lia. Qed.

Lemma lset_app (a : list Z) (x y : Z) (b : list Z) (i : Z) :
  i = Z.of_nat (length a) -> lset (a ++ x :: b) i y = Ret (a ++ y :: b).
Proof.
  intros ->. rewrite lset_Ret by (rewrite length_app; cbn; lia). rewrite Nat2Z.id. f_equal.
  rewrite insert_app_r_alt by lia. by rewrite Nat.sub_diag.
Qed.

Lemma splice_app (a b c d : list Z) (i : Z) :
  i = Z.of_nat (length a) -> length b = length d -> splice (a ++ b ++ c) i d = Ret (a ++ d ++ c).
Proof.
  intros -> Hl. rewrite splice_Ret by (rewrite ?length_app; lia). rewrite Nat2Z.id, take_app_length. do 3 f_equal.
  rewrite drop_app_ge by lia. replace (length a + length d - length a)%nat with (length b) by lia.
  apply drop_app_length.
Qed.

Lemma lget_snoc (a : list Z) (x : Z) (b : list Z) (i : Z) :
  i = Z.of_nat (length a) -> lget (a ++ x :: b) i = Ret x.
Proof.
  intros ->. unfold lget. destruct (Z.ltb_spec (Z.of_nat (length a)) 0); [lia|].
  by rewrite Nat2Z.id, lookup_app_r, Nat.sub_diag by lia.
Qed.

Lemma slice_app (a b : list Z) : slice (a ++ b) 0 (Z.of_nat (length a)) = Ret a.
Proof. rewrite slice_Ret by (rewrite ?length_app; lia). by rewrite Nat2Z.id, drop_0, take_app_length. Qed.

Lemma sum_path_ok (buf a b x y : list Z) :
  a <> [] -> length buf = (length a + length b + 2)%nat ->
  exists r, sum_path buf (a ++ x) (b ++ y) (Z.of_nat (length a)) (Z.of_nat (length b)) =
    Ret (join a b ++ 0 :: r) /\ length (join a b ++ 0 :: r) = length buf.
Proof.
  intros Ha Hl. unfold sum_path. rewrite !slice_app. cbn [obind].
  rewrite <- (take_drop (length a) buf). set (b0 := take (length a) buf). set (b1 := drop (length a) buf).
  assert (L0 : length b0 = length a) by (unfold b0; rewrite length_take; lia).
  assert (L1 : length b1 = (length b + 2)%nat) by (unfold b1; rewrite length_drop; lia).
  change (b0 ++ b1) with ([] ++ b0 ++ b1). rewrite splice_app by done. cbn [app obind].
  destruct a as [|c0 a0 _] using rev_ind; [done|]. clear Ha. rewrite !length_app in *. cbn [length] in *.
  rewrite <- app_assoc. cbn [app]. rewrite lget_snoc by lia. cbn [obind]. unfold join.
  rewrite last_snoc. destruct (Z.eqb_spec c0 SLASH) as [->|Hc]; cbn [negb obind].
  - rewrite decide_True by done.
    rewrite <- (take_drop (length b) b1). set (b2 := take (length b) b1).
    change (SLASH :: b2 ++ drop (length b) b1) with ([SLASH] ++ b2 ++ drop (length b) b1).
    rewrite app_assoc. rewrite splice_app; [|rewrite length_app; cbn; lia|unfold b2; rewrite length_take; lia].
    cbn [obind]. destruct (drop (length b) b1) as [|z1 [|z2 [|z3 r]]] eqn:Ed;
      (apply (f_equal length) in Ed; rewrite length_drop in Ed; cbn in Ed; try lia).
    exists [z2]. rewrite app_assoc. rewrite lset_app by (rewrite !length_app; cbn; lia).
    split; [done|]. rewrite !length_app. cbn. unfold b2. rewrite length_take. lia.
  - rewrite decide_False by congruence. destruct b1 as [|z1 b1]; [cbn in L1; lia|]. cbn in L1.
    change (a0 ++ c0 :: z1 :: b1) with (a0 ++ [c0] ++ z1 :: b1). rewrite app_assoc.
    rewrite lset_app by (rewrite length_app; cbn; lia). cbn [obind].
    rewrite <- (take_drop (length b) b1). set (b2 := take (length b) b1).
    change (SLASH :: b2 ++ drop (length b) b1) with ([SLASH] ++ b2 ++ drop (length b) b1).
    rewrite (app_assoc _ [SLASH]).
    rewrite splice_app; [|rewrite !length_app; cbn; lia|unfold b2; rewrite length_take; lia].
    cbn [obind]. destruct (drop (length b) b1) as [|z2 [|z3 r]] eqn:Ed;
      (apply (f_equal length) in Ed; rewrite length_drop in Ed; cbn in Ed; try lia).
    exists []. rewrite app_assoc. rewrite lset_app by (rewrite !length_app; cbn; lia).
    split; [by rewrite <- !app_assoc|]. rewrite !length_app. cbn. rewrite length_app. unfold b2. cbn.
    rewrite ?length_take. lia.
Qed.

(** ** The path that is looked up *)

(** Without a slash at the end, but for the root. *)
Definition strip (c : list Z) : list Z :=
  if decide ((1 < length c)%nat /\ last c = Some SLASH) then take (length c - 1) c else c.

(** What a path means in the directory [cur]. *)
Definition resolve (cur c : list Z) : list Z :=
  strip (if decide (head c = Some SLASH) then c else join cur c).

Section Lookup.
Context {T W : Type} `{!KTable T}.
Context (salloc : gmap Z (list Z) -> Z) (junk_bytes : Z -> Z -> list Z) (stale : Z -> list Z).
Context (salloc_ok : forall h, salloc h <> 0 /\ h !! salloc h = None).
Context (junk_length : forall p n, length (junk_bytes p n) = Z.to_nat n).
Implicit Types s : dstate T W.

(** The table is well formed, and its keys are live strings. *)
Record dtable_ok s : Prop := {
  dk_wf : ht_wf (str_of stale (heap s)) (dtable s);
  dk_ptr : is_ptrkey (dtable s) = true;
  dk_key p : key_of (dtable s) p -> p <> 0 /\ is_Some (heap s !! p);
}.

(** The entry a path is bound to. *)
Definition dmap s (c : list Z) : option Z := ht_map (str_of stale (heap s)) (dtable s) !! inl c.

Lemma head_get_ok s (buf : list Z) :
  dtable_ok s -> head_get stale buf s = VRet (default 0 (dmap s (cstr buf))) s.
Proof.
  intros [W0 P K]. unfold head_get, dmap. vauto.
  destruct (ht_wf_agree (str_of stale (heap s)) (str_probe stale (heap s) buf) (dtable s)) as [W1 M1]; [|done|].
  { intros p [Hp _]%K. unfold str_probe. by destruct (Z.eqb_spec p 0). }
  rewrite ht_get_map by done. rewrite M1. unfold kid. rewrite P. done.
Qed.

(** Strings that are not keys may change. *)
Lemma dtable_heap s (h : gmap Z (list Z)) :
  dtable_ok s -> (forall p, key_of (dtable s) p -> h !! p = heap s !! p) ->
  dtable_ok (with_heap s h) /\ forall c, dmap (with_heap s h) c = dmap s c.
Proof.
  intros [W0 P K] Hh. destruct (ht_wf_agree (str_of stale (heap s)) (str_of stale h) (dtable s)) as [W1 M1]; [|done|].
  { intros p Hp. unfold str_of. by rewrite Hh. }
  split; [split; cbn; [done|done|]|by intros c; unfold dmap; cbn; rewrite M1].
  intros p Hp. rewrite Hh by done. by apply K.
Qed.

Lemma str_at_ok s (p : Z) (l : list Z) : heap s !! p = Some l -> str_at p s = VRet l s.
Proof. intros E. unfold str_at. vauto. by rewrite E. Qed.

Lemma dent_at_ok s (p : Z) (d : dentry_t) : dentries s !! p = Some d -> dent_at p s = VRet d s.
Proof. intros E. unfold dent_at. vauto. by rewrite E. Qed.

Lemma strip_slash_ok s (p : Z) (l : list Z) :
  dtable_ok s -> heap s !! p = Some l -> (strip (cstr l) = cstr l \/ ~ key_of (dtable s) p) ->
  exists l', strip_slash p s = VRet (strlen l) (with_heap s (<[p := l']> (heap s))) /\
    cstr l' = strip (cstr l) /\ dtable_ok (with_heap s (<[p := l']> (heap s))) /\
    (forall c, dmap (with_heap s (<[p := l']> (heap s))) c = dmap s c) /\ (strip (cstr l) = cstr l -> l' = l).
Proof.
  intros Hok Hl Hk. unfold strip_slash. vrun (str_at_ok s p l Hl). cbn zeta. rewrite strlen_cstr.
  destruct (cstr_prefix l) as (r & El & Hr). pose proof (cstr_nonul l) as Hn. remember (cstr l) as c eqn:Ec.
  assert (Hsame : with_heap s (<[p := l]> (heap s)) = s) by (unfold with_heap; rewrite insert_id by done; by destruct s).
  unfold strip in *. destruct (Z.ltb_spec 1 (Z.of_nat (length c))) as [H1|H1].
  - destruct c as [|x c0 _] using rev_ind; [cbn in H1; lia|]. rewrite El, length_app. cbn [length].
    rewrite <- app_assoc. cbn [app]. rewrite lget_snoc by lia. vauto. rewrite last_snoc.
    rewrite length_app in H1, Hk. cbn [length] in H1, Hk.
    destruct (Z.eqb_spec x SLASH) as [->|Hx].
    + rewrite decide_True by (split; [lia|done]). rewrite lset_app by lia. unfold str_put. vauto.
      exists (c0 ++ 0 :: r). split; [done|]. apply Forall_app in Hn as [Hn _].
      rewrite take_app_le by lia. rewrite take_ge by lia. split; [by apply cstr_app|].
      assert (Hsh : c0 <> c0 ++ [SLASH]).
      { intros E. apply (f_equal length) in E. rewrite length_app in E. cbn in E. lia. }
      rewrite last_snoc, decide_True, take_app_le, take_ge in Hk by (split; [lia|done]) || lia.
      destruct (dtable_heap s (<[p := c0 ++ 0 :: r]> (heap s)) Hok) as [Hok' Hm']; [|done].
      intros q Hq. rewrite lookup_insert_ne; [done|]. intros <-. by destruct Hk as [Hk|Hk].
    + rewrite decide_False by (intros [_ [=]]; done). vauto. exists l. rewrite Hsame. split; [by unfold vret|].
      split_and!; try done. intros _. by rewrite El, <- app_assoc.
  - vauto. rewrite decide_False by (intros [? _]; lia). exists l. rewrite Hsame. cbn. split_and!; done.
Qed.

Lemma full_path_absolute s (p : Z) (l : list Z) :
  heap s !! p = Some l -> head (cstr l) = Some SLASH ->
  full_path salloc junk_bytes p s = VRet (p, false) s.
Proof.
  intros Hl Hh. unfold full_path. vrun (str_at_ok s p l Hl).
  destruct l as [|c l]; [done|]. cbn in Hh. cbn [lget Z.ltb Z.compare Z.to_nat lookup list_lookup]. unfold lget.
  cbn [Z.ltb Z.compare Z.to_nat lookup list_lookup]. vauto.
  destruct (Z.eqb_spec c 0) as [->|]; [done|]. injection Hh as ->. done.
Qed.

Definition small (l : list Z) : Prop := Z.of_nat (length l) < 2 ^ 30.

Lemma full_path_relative s (p : Z) (l cl : list Z) (d : dentry_t) :
  heap s !! p = Some l -> l <> [] -> head (cstr l) <> Some SLASH ->
  dentries s !! cur_dir s = Some d -> heap s !! d_path d = Some cl -> cstr cl <> [] -> small l -> small cl ->
  exists l', let q := salloc (heap s) in
    full_path salloc junk_bytes p s = VRet (q, true) (with_heap s (<[q := l']> (heap s))) /\
    cstr l' = join (cstr cl) (cstr l).
Proof using junk_length.
  intros Hl Hne Hh Hd Hcl Hc Hs Hs'. unfold small in *. unfold full_path. vrun (str_at_ok s p l Hl).
  assert (Hg : exists c, lget l 0 = Ret c /\ c <> SLASH).
  { destruct l as [|c l]; [done|]. exists c. split; [done|]. cbn in Hh. intros ->. by destruct Hh. }
  destruct Hg as (c & -> & Hcs). vauto. destruct (Z.eqb_spec c SLASH); [done|]. cbn [negb]. vauto.
  vrun (dent_at_ok s _ d Hd). vrun (str_at_ok s _ cl Hcl). unfold dir_sum_path, str_new, str_put. vauto.
  rewrite !strlen_cstr. destruct (cstr_prefix l) as (r & El & _). destruct (cstr_prefix cl) as (r' & Ecl & _).
  assert (length (cstr l) <= length l)%nat by (rewrite El at 2; rewrite length_app; lia).
  assert (length (cstr cl) <= length cl)%nat by (rewrite Ecl at 2; rewrite length_app; lia).
  destruct (sum_path_ok (junk_bytes (salloc (heap s)) (u32 (Z.of_nat (length (cstr cl)) + Z.of_nat (length (cstr l)) + 2)))
    (cstr cl) (cstr l) r' r Hc) as (z & Es & _).
  { rewrite junk_length, u32_small by lia. lia. }
  rewrite <- El, <- Ecl in Es. rewrite Es. vauto. exists (join (cstr cl) (cstr l) ++ 0 :: z). split; [done|].
  apply cstr_app, nonul_join; apply cstr_nonul.
Qed.

(** An entry in use, or between two others on the list of unused ones. *)
Definition takeable (fl : list Z) (d : Z) (e : dentry_t) : Prop :=
  0 < d_ref e \/ (d_ref e = 0 /\ exists (l1 l2 : list Z) (a b : Z), fl = l1 ++ a :: d :: b :: l2).

Lemma dir_lru_remove_inside (l : lru) (s1 s2 : list Z) (a p b : Z) :
  lru_repr l (s1 ++ a :: p :: b :: s2) -> dir_lru_remove l p = lru_remove l p.
Proof.
  intros H. destruct (inside_links l s1 s2 a p b H) as (_ & Hp & [nb Hb] & _).
  assert (b <> 0) by (intros ->; by rewrite (lr_null _ _ H) in Hb).
  unfold dir_lru_remove, lru_remove, next_of, prev_of. rewrite Hp. cbn [obind].
  by destruct (Z.eqb_spec b 0).
Qed.

Lemma take_ref_ok s (fl : list Z) (d : Z) (e : dentry_t) :
  dentries s !! d = Some e -> lru_repr (dfree s) fl -> takeable fl d e ->
  exists fr fl', take_ref d s =
    VRet tt (with_dfree (with_dentries s (<[d := d_set_ref e (d_ref e + 1)]> (dentries s))) fr) /\
    lru_repr fr fl' /\ forall q, q ∈ fl' <-> q ∈ fl /\ (q <> d \/ 0 < d_ref e).
Proof.
  intros He Hf Ht. unfold take_ref, dent_put. vrun (dent_at_ok s d e He). vauto.
  destruct Ht as [Hr|(Hr & s1 & s2 & a & b & ->)].
  - destruct (Z.eqb_spec (d_ref e) 0); [lia|]. exists (dfree s), fl. split; [|split; [done|]].
    + cbn. by destruct s.
    + intros q. split; [|by intros []]. intros. split; [done|by right].
  - rewrite Hr. cbn [Z.eqb]. unfold dir_remove. vauto. cbn [dfree with_dentries].
    rewrite (dir_lru_remove_inside _ _ _ _ _ _ Hf).
    destruct (lru_remove_inside _ _ _ _ _ _ Hf) as (fr & -> & Hfr & _). vauto.
    exists fr, (s1 ++ a :: b :: s2). split; [done|]. split; [done|]. pose proof (lr_nodup _ _ Hf) as Hnd.
    intros q. apply NoDup_app in Hnd as (_ & Hd & Hnd). rewrite !NoDup_cons in Hnd. cbn. split; [|set_solver by lia]. intros Hq. split; [set_solver|left; set_solver].
Qed.

Lemma str_free_ok s (p : Z) (l : list Z) :
  heap s !! p = Some l -> str_free p s = VRet tt (with_heap s (delete p (heap s))).
Proof. intros E. unfold str_free. by vrun (str_at_ok s p l E). Qed.

Context (ditfs : list (option (dir_itf T W))).

(** What a lookup that finds the entry [d] in the table leaves behind. *)
Record found s (p : Z) (d : Z) (e : dentry_t) (fl : list Z) s' : Prop := {
  fd_ent : dentries s' = <[d := d_set_ref e (d_ref e + 1)]> (dentries s);
  fd_ok : dtable_ok s';
  fd_map c : dmap s' c = dmap s c;
  fd_free : exists fl', lru_repr (dfree s') fl' /\ forall q, q ∈ fl' <-> q ∈ fl /\ (q <> d \/ 0 < d_ref e);
  fd_mutex : dmutex s' = 0;
  fd_heap q : q <> p -> heap s' !! q = heap s !! q;
  fd_same : dtable s' = dtable s /\ cur_dir s' = cur_dir s /\ ic s' = ic s;
}.

Lemma dir_find_ok s (q : Z) (flag : bool) (l fl : list Z) (d : Z) (e : dentry_t) :
  dtable_ok s -> dmutex s = 1 -> heap s !! q = Some l ->
  (strip (cstr l) = cstr l \/ ~ key_of (dtable s) q) -> (flag = true -> ~ key_of (dtable s) q) ->
  dmap s (strip (cstr l)) = Some d -> d <> 0 -> dentries s !! d = Some e ->
  lru_repr (dfree s) fl -> takeable fl d e ->
  exists s', dir_find stale ditfs q flag s = VRet d s' /\ found s q d e fl s' /\
    (flag = true -> heap s' = delete q (heap s)) /\ (flag = false -> is_Some (heap s' !! q)).
Proof.
  intros Hok Hm Hl Hk Hfk Hd Hnz He Hf Ht. unfold dir_find.
  destruct (strip_slash_ok s q l Hok Hl Hk) as (l' & E1 & Ec & Hok1 & Hm1 & _). vrun E1.
  set (s1 := with_heap s (<[q := l']> (heap s))) in *.
  assert (Hl1 : heap s1 !! q = Some l') by (cbn; by rewrite lookup_insert_eq). vrun (str_at_ok s1 q l' Hl1).
  vrun (head_get_ok s1 l' Hok1). rewrite Hm1, Ec, Hd. cbn [default from_option id].
  destruct (Z.eqb_spec d 0); [done|]. cbn [negb].
  destruct (take_ref_ok s1 fl d e He Hf Ht) as (fr & fl' & E2 & Hfr & Hq). vrun E2.
  unfold dmutex_release, vunlock. vauto.
  set (s2 := with_dmutex _ _). assert (Hs2 : heap s2 !! q = Some l') by done.
  assert (Hok2 : dtable_ok s2 /\ forall c, dmap s2 c = dmap s c).
  { split; [split; apply Hok1|]. exact Hm1. }
  destruct Hok2 as [Hok2 Hm2].
  assert (Hmx : dmutex s2 = 0) by (unfold s2; cbn; by rewrite Hm).
  destruct flag.
  - vrun (str_free_ok s2 q l' Hs2). eexists. split; [done|].
    destruct (dtable_heap s2 (delete q (heap s2)) Hok2) as [Hok3 Hm3].
    { intros x Hx. rewrite lookup_delete_ne; [done|]. intros <-. by apply Hfk. }
    split; [split; cbn|].
    + done.
    + done.
    + intros c. by rewrite Hm3, Hm2.
    + by exists fl'.
    + done.
    + intros x Hx. by rewrite lookup_delete_ne, lookup_insert_ne by done.
    + done.
    + split; [|done]. intros _. cbn. by rewrite delete_insert_eq.
  - vauto. eexists. split; [done|]. split; [|split; [done|intros _; by exists l']]. split; cbn; try done.
    + by exists fl'.
    + intros x Hx. by rewrite lookup_insert_ne by done.
Qed.

Lemma dir_get_ok s (p : Z) (l cl fl : list Z) (cd e : dentry_t) (d : Z) :
  dtable_ok s -> dmutex s = 0 -> heap s !! p = Some l -> l <> [] -> small l ->
  dentries s !! cur_dir s = Some cd -> heap s !! d_path cd = Some cl -> cstr cl <> [] -> small cl ->
  ~ key_of (dtable s) p ->
  dmap s (resolve (cstr cl) (cstr l)) = Some d -> d <> 0 -> dentries s !! d = Some e ->
  lru_repr (dfree s) fl -> takeable fl d e ->
  exists s', dir_get salloc junk_bytes stale ditfs p s = VRet d s' /\ found s p d e fl s' /\ is_Some (heap s' !! p).
Proof using salloc_ok junk_length.
  intros Hok Hm Hl Hne Hs Hcd Hcl Hc Hs' Hk Hd Hnz He Hf Ht. unfold dir_get, dmutex_acquire.
  rewrite vbind_lock by done. set (s0 := with_dmutex s 1).
  assert (Hok0 : dtable_ok s0) by (split; apply Hok). unfold resolve in Hd.
  destruct (decide (head (cstr l) = Some SLASH)) as [Hh|Hh].
  - vrun (full_path_absolute s0 p l Hl Hh). cbn iota beta.
    destruct (dir_find_ok s0 p false l fl d e) as (s' & E & [F1 F2 F3 F4 F5 F6 F7] & _ & F9); try done; [by right|].
    exists s'. split; [done|]. split; [by split|]. by apply F9.
  - destruct (full_path_relative s0 p l cl cd Hl Hne Hh Hcd Hcl Hc Hs Hs') as (l' & E1 & El'). vrun E1.
    set (q := salloc (heap s0)) in *. set (s1 := with_heap s0 (<[q := l']> (heap s0))).
    destruct (salloc_ok (heap s0)) as [Hq Hqn]. fold q in Hqn.
    assert (Hqk : ~ key_of (dtable s) q).
    { intros Hx. apply (dk_key s Hok) in Hx as [_ [x Hx]]. cbn in Hqn. by rewrite Hqn in Hx. }
    destruct (dtable_heap s0 (<[q := l']> (heap s0)) Hok0) as [Hok1 Hm1].
    { intros x Hx. rewrite lookup_insert_ne; [done|]. by intros <-. }
    destruct (dir_find_ok s1 q true l' fl d e) as (s' & E & [F1 F2 F3 F4 F5 F6 F7] & F8 & _); try done.
    + cbn. by rewrite lookup_insert_eq.
    + by right.
    + unfold s1. rewrite Hm1, El'. exact Hd.
    + exists s'. split; [done|].
      assert (Eh : heap s' = heap s) by (rewrite F8 by done; cbn; by rewrite delete_insert_id by done).
      split; [|rewrite Eh; by exists l]. split; try done.
      * intros c. rewrite F3. apply Hm1.
      * intros x Hx. by rewrite Eh.
Qed.

(** C20: Looking up a path whose entry is in the cache and in use, or between two
    others on the list of unused entries (not its first or last one, which
    dir_remove cannot take off): relative paths are taken in the current
    directory, a slash at the end does not count, and dir_get
    returns the entry bound to the resulting path with one more reference,
    taking it off the list of unused entries when it was there; the bindings of
    the cache, the other entries, the inodes and the strings other than the
    argument are left as they were, and the cache is unlocked again. *)
Theorem dir_get_cached s (p : Z) (l cl fl : list Z) (cd e : dentry_t) (d : Z) :
  dtable_ok s -> dmutex s = 0 -> heap s !! p = Some l -> l <> [] -> small l ->
  dentries s !! cur_dir s = Some cd -> heap s !! d_path cd = Some cl -> cstr cl <> [] -> small cl ->
  ~ key_of (dtable s) p ->
  dmap s (resolve (cstr cl) (cstr l)) = Some d -> d <> 0 -> dentries s !! d = Some e ->
  lru_repr (dfree s) fl -> takeable fl d e ->
  exists s', dir_get salloc junk_bytes stale ditfs p s = VRet d s' /\ found s p d e fl s'.
Proof using salloc_ok junk_length.
  intros. edestruct dir_get_ok as (s' & E & Hf & _); [..|by exists s']; eauto.
Qed.

(** ** Paths that are not found *)

Lemma last_slash_first (l : list Z) (n : nat) :
  Forall (fun c => c <> SLASH) l -> (n <= length l)%nat -> last_slash (SLASH :: l) n = Ret 0%nat.
Proof.
  intros Hl. induction n as [|n IH]; intros Hn; [done|]. cbn [last_slash].
  destruct (lookup_lt_is_Some_2 l n) as [x Hx]; [lia|].
  assert (E : lget (SLASH :: l) (Z.of_nat (S n)) = Ret x).
  { unfold lget. destruct (Z.ltb_spec (Z.of_nat (S n)) 0); [lia|]. rewrite Nat2Z.id. simpl. by rewrite Hx. }
  rewrite E. cbn [obind]. destruct (Z.eqb_spec x SLASH) as [->|]; [|apply IH; lia].
  by destruct (Forall_lookup_1 _ _ _ _ Hl Hx).
Qed.

(** The loops of [dir_iter_get] on a name in the root directory. *)
Lemma iter_get_root_child s (name : list Z) :
  dtable_ok s -> name <> [] -> Forall (fun c => c <> SLASH) name -> dmap s [] = None ->
  dir_iter_get stale ditfs (SLASH :: name ++ [0]) (S (length name)) s = VRet 0 s.
Proof.
  intros Hok Hne Hsl Hd0. unfold dir_iter_get. cbn [iter_up Nat.eqb].
  rewrite last_slash_first; [|apply Forall_app; split; [done|by apply Forall_singleton]|rewrite length_app; cbn; lia].
  vauto. change (Z.of_nat 0) with 0.
  assert (lset (SLASH :: name ++ [0]) 0 0 = Ret (0 :: name ++ [0])) as -> by (exact (lset_app [] SLASH 0 _ 0 eq_refl)).
  vauto.
  vrun (head_get_ok s (0 :: name ++ [0]) Hok). change (cstr (0 :: name ++ [0])) with (@nil Z).
  rewrite Hd0. cbn [default from_option id Z.eqb negb].
  destruct (length name) as [|k] eqn:E; [by destruct name|]. cbn [iter_up Nat.eqb]. vauto. done.
Qed.

(** A name in the root directory that is not in the cache is not found, whether
    the disk has it or not: cutting the path at its only slash leaves the empty
    path and not the root, so the root is not parsed. *)
Theorem dir_get_root_child_uncached s (p : Z) (name : list Z) :
  dtable_ok s -> dmutex s = 0 -> heap s !! p = Some (SLASH :: name ++ [0]) -> name <> [] ->
  nonul name -> Forall (fun c => c <> SLASH) name ->
  dmap s (SLASH :: name) = None -> dmap s [] = None ->
  dir_get salloc junk_bytes stale ditfs p s = VRet 0 s.
Proof.
  intros Hok Hm Hl Hne Hn Hsl Hd Hd0. unfold dir_get, dmutex_acquire. rewrite vbind_lock by done.
  set (s0 := with_dmutex s 1). assert (Hok0 : dtable_ok s0) by (split; apply Hok).
  set (l := SLASH :: name ++ [0]) in *.
  assert (Ec : cstr l = SLASH :: name).
  { change l with ((SLASH :: name) ++ [0]). apply cstr_app. by constructor. }
  vrun (full_path_absolute s0 p _ Hl ltac:(by rewrite Ec)). cbn iota beta. unfold dir_find.
  assert (Es : strip (cstr l) = cstr l).
  { rewrite Ec. unfold strip. rewrite decide_False; [done|]. intros [_ Hx].
    destruct name as [|x n _] using rev_ind; [done|].
    change (SLASH :: n ++ [x]) with ((SLASH :: n) ++ [x]) in Hx. rewrite last_snoc in Hx. injection Hx as ->.
    apply Forall_app in Hsl as [_ Hx]. by rewrite Forall_singleton in Hx. }
  destruct (strip_slash_ok s0 p _ Hok0 Hl ltac:(by left)) as (l' & E1 & _ & Hok1 & Hm1 & El). vrun E1.
  rewrite (El Es) in *. clear l' El.
  assert (Hsame : with_heap s0 (<[p := l]> (heap s0)) = s0) by (unfold with_heap; rewrite (insert_id (heap s0)) by exact Hl; reflexivity).
  rewrite Hsame in *. vrun (str_at_ok s0 p l Hl). vrun (head_get_ok s0 l Hok0).
  change (dmap s0 (cstr l)) with (dmap s (cstr l)). rewrite Ec, Hd. cbn [default from_option id negb Z.eqb].
  rewrite strlen_cstr, Ec. cbn [length]. rewrite (slice_Ret l) by (unfold l; cbn [length]; rewrite ?length_app; cbn; lia).
  vauto. rewrite drop_0, take_ge by (unfold l; cbn [length]; rewrite length_app; cbn; lia).
  rewrite Nat2Z.id. vrun (iter_get_root_child s0 name Hok0 Hne Hsl Hd0).
  unfold dmutex_release, vunlock. vauto. unfold vret, s0, with_dmutex. cbn.
  destruct s. cbn in *. by subst.
Qed.

(** The parent of a name in the root directory is taken to be the current
    directory: what is left of the path in front of its only slash is the empty
    path, which is relative. *)
Theorem dir_get_parent_of_root_child s (p : Z) (name cl fl : list Z) (cd : dentry_t) :
  dtable_ok s -> dmutex s = 0 -> heap s !! p = Some (SLASH :: name ++ [0]) ->
  nonul name -> Forall (fun c => c <> SLASH) name ->
  dentries s !! cur_dir s = Some cd -> heap s !! d_path cd = Some cl -> cstr cl <> [] -> small cl ->
  cur_dir s <> 0 -> dmap s (strip (join (cstr cl) [])) = Some (cur_dir s) -> small (SLASH :: name ++ [0]) ->
  lru_repr (dfree s) fl -> takeable fl (cur_dir s) cd ->
  exists s', dir_get_parent salloc junk_bytes stale ditfs p s = VRet (cur_dir s, name ++ [0]) s'.
Proof using salloc_ok junk_length.
  intros Hok Hm Hl Hn Hsl Hcd Hcl Hc Hs Hnz Hd Hsp Hf Ht. unfold dir_get_parent. vrun (str_at_ok s p _ Hl).
  set (l := SLASH :: name ++ [0]) in *.
  assert (Ec : cstr l = SLASH :: name).
  { change l with ((SLASH :: name) ++ [0]). apply cstr_app. by constructor. }
  cbn zeta. rewrite strlen_cstr, Ec.
  assert (Ll : Z.of_nat (length l) = Z.of_nat (length (SLASH :: name)) + 1).
  { unfold l. cbn [length]. rewrite length_app. cbn. lia. }
  rewrite slice_Ret by lia. vauto. rewrite drop_0, take_ge by lia. rewrite Nat2Z.id. unfold l at 1.
  rewrite last_slash_first; [|apply Forall_app; split; [done|by apply Forall_singleton]|rewrite length_app; cbn; lia].
  vauto. change (Z.of_nat 0) with 0.
  assert (lset l 0 0 = Ret (0 :: name ++ [0])) as -> by (exact (lset_app [] SLASH 0 _ 0 eq_refl)). vauto.
  set (q := salloc (heap s)). set (l0 := 0 :: name ++ [0]).
  destruct (salloc_ok (heap s)) as [Hq Hqn]. fold q in Hqn.
  assert (E1 : str_new salloc l0 s = VRet q (with_heap s (<[q := l0]> (heap s)))) by done. vrun E1.
  assert (Hpq : p <> q) by (intros <-; by rewrite Hqn in Hl).
  assert (Hcq : d_path cd <> q) by (intros E; rewrite E, Hqn in Hcl; done).
  assert (Hqk : ~ key_of (dtable s) q).
  { intros Hx. apply (dk_key s Hok) in Hx as [_ [x Hx]]. by rewrite Hqn in Hx. }
  destruct (dtable_heap s (<[q := l0]> (heap s)) Hok) as [Hok1 Hm1].
  { intros x Hx. rewrite lookup_insert_ne; [done|]. by intros <-. }
  destruct (dir_get_ok (with_heap s (<[q := l0]> (heap s))) q l0 cl fl cd cd (cur_dir s))
    as (s' & E & [_ _ _ _ _ F6 _] & [lq Hq']); try done.
  { cbn. by rewrite lookup_insert_eq. }
  { cbn. by rewrite lookup_insert_ne. }
  { rewrite Hm1. exact Hd. }
  vrun E. assert (Hp' : heap s' !! p = Some l) by (rewrite F6 by done; cbn; by rewrite lookup_insert_ne).
  vrun (str_at_ok s' p l Hp'). vrun (str_free_ok s' q lq Hq'). by eexists.
Qed.
End Lookup.

(** ** A concrete cache *)

(** The current directory is the root, and "/usr" is in the table. *)
Definition usr_path : list Z := [SLASH; 117; 115; 114; 0].
Definition root_ent : dentry_t := mk_dentry 1 2 0 0 0 0x2000 0 0 0 0 TNull.
Definition usr_ent : dentry_t := mk_dentry 0 1 0 0 0 0x2100 0 0 0 0 TNull.
Definition heap0 : gmap Z (list Z) :=
  {[ 0x2000 := [SLASH; 0]; 0x2100 := usr_path; 0x2200 := [117; 115; 114; SLASH; 0] ]}.
Definition no_stale (p : Z) : list Z := [0].
Definition usr_table : hash_table_t :=
  match ht_insert (str_of no_stale heap0) (small_table 7 75 HT_PTRKEY) 0x2100 0x1100 with
  | Ret (_, t) => t | _ => small_table 7 75 HT_PTRKEY end.
Definition lookup0 (i : icache num_table fun_blocks) : dstate num_table fun_blocks :=
  mk_dstate usr_table {[ 0x1000 := root_ent; 0x1100 := usr_ent ]} (mk_lru ∅ 0 0) 0 heap0 0x1000 i.
Definition salloc_fresh (h : gmap Z (list Z)) : Z := fresh ({[0]} ∪ dom h : gset Z).
Definition cc_bytes (p n : Z) : list Z := replicate (Z.to_nat n) 0xCC.

Lemma salloc_fresh_ok (h : gmap Z (list Z)) : salloc_fresh h <> 0 /\ h !! salloc_fresh h = None.
Proof.
  pose proof (is_fresh ({[0]} ∪ dom h : gset Z)) as H. fold (salloc_fresh h) in H.
  rewrite not_elem_of_union, not_elem_of_singleton, not_elem_of_dom in H. done.
Qed.

Lemma usr_table_key (p : Z) : key_of usr_table p -> p = 0x2100.
Proof.
  assert (forallb (fun e => implb (e_state e =? HT_VALID) (u32 (e_key e) =? 0x2100)) (entries usr_table) = true) as Hf
    by (vm_compute; reflexivity).
  intros (e & He & Hv & <-). rewrite forallb_forall in Hf. apply list_elem_of_In, Hf in He.
  rewrite Hv in He. by apply Z.eqb_eq.
Qed.

Lemma usr_table_ok : ht_wf (str_of no_stale heap0) usr_table /\
  ht_map (str_of no_stale heap0) usr_table = {[ inl [SLASH; 117; 115; 114] := 0x1100 ]}.
Proof.
  destruct (fresh_wf (str_of no_stale heap0) 7 75 HT_PTRKEY) as [W HM]; [lia..|].
  destruct (ht_insert_map (str_of no_stale heap0) (small_table 7 75 HT_PTRKEY) 0x2100 0x1100 W)
    as (t & Ht & Wt & HMt & _); [cbn; lia|left; unfold small_table, zeroed; by rewrite HM|].
  unfold usr_table. rewrite Ht. split; [done|]. rewrite HMt. unfold small_table, zeroed. rewrite HM. reflexivity.
Qed.

Lemma lookup0_ok (i : icache num_table fun_blocks) : dtable_ok no_stale (lookup0 i).
Proof.
  split; [apply usr_table_ok|reflexivity|]. intros p ->%usr_table_key. split; [done|]. by eexists.
Qed.

(** "usr/" in the root directory is "/usr". *)
Lemma dir_get_cached_witness :
  exists s', dir_get salloc_fresh cc_bytes no_stale [] 0x2200 (lookup0 icache0) = VRet 0x1100 s' /\
    dentries s' !! 0x1100 = Some (d_set_ref usr_ent 2) /\ dmutex s' = 0.
Proof.
  destruct (dir_get_cached salloc_fresh cc_bytes no_stale salloc_fresh_ok
    (fun p n => length_replicate (Z.to_nat n) 0xCC) [] (lookup0 icache0) 0x2200 [117; 115; 114; SLASH; 0] [SLASH; 0] []
    root_ent usr_ent 0x1100) as (s' & E & [F1 _ _ _ F5 _ _]);
    [apply lookup0_ok|reflexivity|reflexivity|discriminate|unfold small; cbn; lia|reflexivity|reflexivity|
     discriminate|unfold small; cbn; lia| | |discriminate|reflexivity| |left; cbn; lia|].
  - intros H%usr_table_key. discriminate.
  - unfold dmap. cbn [heap dtable lookup0]. rewrite (proj2 usr_table_ok). reflexivity.
  - split; try done. constructor.
  - exists s'. split; [exact E|]. rewrite F1. split; [reflexivity|exact F5].
Defined.
