(* ===== verification/DirLock.v ===== *)
(** Two tasks that lock the same directory entry (src/src/kernel/fs/dir.c):
    [dir_lock] and [dir_unlock] of Dir.v, one task stopped between two
    operations of its call while the other one runs. *)

From Stdlib Require Import ZArith Lia.
From stdpp Require Import base numbers list gmap.
From S2P Require Import Prelude Task Mutex Vfs Tables Ext2 Inode Dir DirLookup.

Section Two.
Context {T W : Type} `{!KTable T}.
Implicit Types s : dstate T W.

(** The mutex of the cache and the mutex of an entry. *)
Definition head_mutex s : Z := dmutex s.
Definition entry_mutex s (d c : Z) : Prop := exists e, dentries s !! d = Some e /\ d_mutex e = c.

Lemma lock_free s (d : Z) : head_mutex s = 0 -> entry_mutex s d 0 ->
  exists s', dir_lock d s = VRet tt s' /\ head_mutex s' = 0 /\ entry_mutex s' d 1.
Proof.
  intros Hh (e & He & Hm). unfold dir_lock, dmutex_acquire, vlock, vbind. unfold head_mutex in Hh. rewrite Hh. cbn.
  unfold dent_lock, dent_at, vbind, vget, vsome. cbn. rewrite He. cbn. unfold vacquire. rewrite Hm. cbn.
  eexists. split; [done|]. split; [done|]. eexists. cbn. split; [by apply lookup_insert_eq|done].
Qed.

Lemma unlock_held s (d : Z) : head_mutex s = 0 -> entry_mutex s d 1 ->
  exists s', dir_unlock d s = VRet tt s' /\ head_mutex s' = 0 /\ entry_mutex s' d 0.
Proof.
  intros Hh (e & He & Hm). unfold dir_unlock, dmutex_acquire, vlock, vbind. unfold head_mutex in Hh. rewrite Hh. cbn.
  unfold dent_unlock, dent_upd, dent_at, vbind, vget, vsome. cbn. rewrite He. cbn.
  eexists. split; [done|]. split; [done|]. eexists. cbn. split; [by apply lookup_insert_eq|]. cbn. by rewrite Hm.
Qed.

(** A lock and an unlock with nobody in between give the entry back. *)
Theorem dir_lock_unlock s (d : Z) : head_mutex s = 0 -> entry_mutex s d 0 ->
  exists s1 s2, dir_lock d s = VRet tt s1 /\ dir_unlock d s1 = VRet tt s2 /\ head_mutex s2 = 0 /\ entry_mutex s2 d 0.
Proof.
  intros Hh He. destruct (lock_free s d Hh He) as (s1 & E1 & H1 & L1). destruct (unlock_held s1 d H1 L1) as (s2 & E2 & ?).
  by exists s1, s2.
Qed.

End Two.

