(* ===== verification/Ext2Dir.v ===== *)
(** Directories of the ext2 file system (src/src/kernel/fs/filesystem.c):
    parsing the entries of a directory into the directory cache, linking and
    unlinking entries, and starting the file system from its superblock; over
    the ideal blocks of Ext2.v. *)

From Stdlib Require Import ZArith Lia.
From stdpp Require Import base numbers list gmap.
From S2P Require Import Prelude Cstring HashTable Tables Lru Bytes Ext2 Ext2File Vfs Inode Dir.

(** The members of [ext2_dir_t]. *)
Definition DE_INODE : Z := 0.
Definition DE_SIZE : Z := 4.
Definition DE_LENGTH : Z := 6.
Definition DE_TYPE : Z := 7.
Definition DE_NAME : Z := 8.
Definition DIR_ENTRY_SIZE (length : Z) : Z := 8 + length.
Definition EMPTY_DIR_SIZE : Z := 0xC * 2.
Definition EXT2_ROOT_INODE : Z := 2.
Definition EXT2_SIGNATURE : Z := 0xEF53.

Definition FILE_TYPE_UNKNOWN : Z := 0.
Definition FILE_TYPE_FILE : Z := 1.
Definition FILE_TYPE_DIR : Z := 2.
Definition FILE_TYPE_FIFO : Z := 5.

(** [ALIGN_ADDR(addr, 4)] *)
Definition align4 (a : Z) : Z := Z.land (u32 (a + 3)) (u32 (Z.lnot 3)).

(** ** The superblock *)

(** The members of the superblock the code uses, at their offsets. *)
Definition sblock_of (b : list Z) : outcome (Z * ext2_sblock_t) :=
  let! total_blocks := load_le b 4 4 in
  let! log_block_size := load_le b 24 4 in
  let! blocks_pg := load_le b 32 4 in
  let! inodes_per_group := load_le b 40 4 in
  let! signature := load_le b 56 2 in
  let! inode_size := load_le b 88 2 in
  Ret (signature, mk_sblock total_blocks log_block_size blocks_pg inodes_per_group inode_size).

Definition BGD_SIZE : Z := 32.

(** [RUP_DIVISION] *)
Definition rup_division (x y : Z) : outcome Z := udiv (u32 (x + u32 (y - 1))) y.

(** The loop over the block groups: block [2 + i * blocks_pg] is copied whole to
    the descriptor [i]. *)
Fixpoint bgd_loop {B} `{!Blocks B} (n : nat) (st : B) (device blocks_pg i : Z) (mem : list Z) : outcome (list Z) :=
  match n with
  | O => Ret mem
  | S n =>
      let! mem := splice mem (BGD_SIZE * i) (bget st device (u32 (2 + i * blocks_pg))) in
      bgd_loop n st device blocks_pg (i + 1) mem
  end.

Definition bgd_of (mem : list Z) (i : nat) : outcome ext2_bgd_t :=
  let a := BGD_SIZE * Z.of_nat i in
  let! bb := load_le mem a 4 in
  let! ib := load_le mem (a + 4) 4 in
  let! it := load_le mem (a + 8) 4 in
  Ret (mk_bgd bb ib it).

Fixpoint bgds_of (mem : list Z) (i n : nat) : outcome (list ext2_bgd_t) :=
  match n with
  | O => Ret []
  | S n =>
      let! d := bgd_of mem i in
      let! l := bgds_of mem (S i) n in
      Ret (d :: l)
  end.

(** [ext2_init]: what it reads into [sblock] and [bg_descrs]; nothing without
    the signature. [junk] is the memory allocated for the descriptors. *)
Definition ext2_init {B} `{!Blocks B} (junk : Z -> list Z) (st : B) (device : Z) :
    outcome (option (ext2_sblock_t * list ext2_bgd_t)) :=
  let! (signature, sb) := sblock_of (bget st device 1) in
  if negb (signature =? EXT2_SIGNATURE) then Ret None
  else
    let bs := BLOCK_SIZE sb in
    let! bgd_count := rup_division (total_blocks sb) (blocks_pg sb) in
    let! per_block := udiv bs BGD_SIZE in
    let! bgd_blocks := rup_division bgd_count per_block in
    let size := u32 (bs * bgd_blocks) in
    let! mem := bgd_loop (Z.to_nat bgd_count) st device (blocks_pg sb) 0 (junk size) in
    let! l := bgds_of mem 0 (Z.to_nat (size / BGD_SIZE)) in
    Ret (Some (sb, l)).

Section Ext2Dir.
Context {T B : Type} `{!KTable T} `{!Blocks B}.
Context (sb : ext2_sblock_t) (bgds : list ext2_bgd_t).
Local Notation D := (V (dstate T B)).

Context (ialloc : gmap Z (icell B) -> Z) (junk_inode : Z -> inode_t) (junk_links : Z -> Z * Z).
Context (dalloc : gmap Z dentry_t -> Z) (junk_dentry : Z -> dentry_t).
Context (salloc : gmap Z (list Z) -> Z) (junk_bytes : Z -> Z -> list Z) (stale : Z -> list Z).
Context (fresh_entries : Z -> list hash_entry_t).

(** [ext2_read_content(inode, buffer, 0, inode->size)] *)
Definition dir_content (inode : Z) : D (list Z) :=
  on_ic (
    do! c := icell_at inode in
    do! w := vget fs in
    do! (l, d, w) := vlift (ext2_read_content sb bgds w (ic_dat c) 0 (i_size (ic_dat c))) in
    do! _ := icell_put inode (cell_dat c d) in
    do! _ := vset (fun s => with_fs s w) in
    vret l).

(** [ext2_write_content(inode, data, offset, size)] *)
Definition dir_write (inode : Z) (data : list Z) (offset : Z) : D unit :=
  on_ic (
    do! c := icell_at inode in
    do! w := vget fs in
    do! (_, d, w) := vlift (ext2_write_content sb bgds w (ic_dat c) data offset) in
    do! _ := icell_put inode (cell_dat c d) in
    vset (fun s => with_fs s w)).

Definition dir_update (inode : Z) : D unit :=
  on_ic (
    do! c := icell_at inode in
    do! w := vget fs in
    do! w := vlift (ext2_inode_update sb bgds w (ic_dat c)) in
    vset (fun s => with_fs s w)).

(** The same code as [dir_sum_path]. *)
Definition ext2_sum_path (path1 path2 : list Z) (len1 len2 : Z) : D Z :=
  do! h := vget heap in
  let p := salloc h in
  do! l := vlift (sum_path (junk_bytes p (u32 (len1 + len2 + 2))) path1 path2 len1 len2) in
  str_new salloc l.

(** ** Parsing *)

Definition is_dot (buffer : list Z) (i len : Z) : outcome bool :=
  if len =? 1 then let! c := lget buffer (i + DE_NAME) in Ret (c =? DOT)
  else if len =? 2 then
    let! c := lget buffer (i + DE_NAME) in
    if c =? DOT then let! c2 := lget buffer (i + DE_NAME + 1) in Ret (c2 =? DOT) else Ret false
  else Ret false.

(** A round for every byte of the directory is enough unless an entry has size
    0, when the loop does not end. *)
Fixpoint parse_loop (fuel : nat) (dir inode : Z) (buffer : list Z) (i : Z) : D unit :=
  match fuel with
  | O => fun _ => VNoFuel
  | S fuel =>
      do! dat := idat inode in
      if i <? i_size dat then
        do! ino := vlift (load_le buffer (i + DE_INODE) 4) in
        do! size := vlift (load_le buffer (i + DE_SIZE) 2) in
        do! len := vlift (load_le buffer (i + DE_LENGTH) 1) in
        do! d := dent_at dir in
        do! dpath := str_at (d_path d) in
        do! new_path := ext2_sum_path dpath (drop (Z.to_nat (i + DE_NAME)) buffer) (strlen dpath) len in
        do! dot := vlift (is_dot buffer i len) in
        if dot then parse_loop fuel dir inode buffer (u32 (i + size))
        else
          do! child := dir_set ialloc junk_inode junk_links dalloc junk_dentry stale fresh_entries
            (i_device dat) new_path ino i in
          do! _ := dir_add_child stale fresh_entries dir child in
          do! _ := dir_release child in
          parse_loop fuel dir inode buffer (u32 (i + size))
      else vret tt
  end.

Definition ext2_parse_dir (dir : Z) : D Z :=
  do! _ := dir_lock dir in
  do! d := dent_at dir in
  do! _ := match d_table d with
           | TNull =>
               do! t := vlift (ht_create 20 75 (Z.lor HT_RESIZE HT_PTRKEY)) in
               dent_upd dir (fun d => d_set_table d (TTab t))
           | _ => vret tt
           end in
  let inode := d_inode d in
  do! _ := on_ic (inode_lock inode) in
  do! buffer := dir_content inode in
  do! _ := parse_loop (S (length buffer)) dir inode buffer 0 in
  do! _ := on_ic (inode_unlock inode) in
  do! _ := dir_unlock dir in
  vret 0.

Definition ext2_parse_root (device : Z) : D unit :=
  do! rpath := str_new salloc [SLASH; 0] in
  do! rdentry := dir_set ialloc junk_inode junk_links dalloc junk_dentry stale fresh_entries
    device rpath EXT2_ROOT_INODE 0 in
  do! _ := ext2_parse_dir rdentry in
  dir_release rdentry.

(** ** Linking *)

(** The offset of the last entry, with fuel as for parsing. *)
Fixpoint last_entry (fuel : nat) (buffer : list Z) (size i : Z) (last : option Z) : outcome (option Z) :=
  match fuel with
  | O => NoFuel
  | S fuel =>
      if i <? size then
        let! sz := load_le buffer (i + DE_SIZE) 2 in
        last_entry fuel buffer size (u32 (i + sz)) (Some i)
      else Ret last
  end.

Definition file_type (mode : Z) : Z :=
  if mode =? EXT2_TYPE_FIFO then FILE_TYPE_FIFO
  else if mode =? EXT2_TYPE_FILE then FILE_TYPE_FILE
  else if mode =? EXT2_TYPE_DIR then FILE_TYPE_DIR
  else FILE_TYPE_UNKNOWN.

(** The bytes of a new entry. *)
Definition dir_entry_bytes (inode size length type : Z) (name : list Z) : list Z :=
  le_bytes 4 inode ++ le_bytes 2 size ++ le_bytes 1 length ++ le_bytes 1 type ++ name.

Definition grow_size (k : Z) (i : inode_t) : inode_t := with_size i (u32 (i_size i + k)).

Definition ext2_link (dir entry : Z) (name : list Z) : D Z :=
  do! dd := dent_at dir in
  let dst := d_inode dd in
  do! di := idat dst in
  let bs := BLOCK_SIZE sb in
  let size := i_size di in
  do! buffer := dir_content dst in
  do! last := vlift (last_entry (S (length buffer)) buffer size 0 None) in
  do! (last_size, last_len) :=
    match last with
    | Some a =>
        do! sz := vlift (load_le buffer (a + DE_SIZE) 2) in
        do! len := vlift (load_le buffer (a + DE_LENGTH) 1) in
        vret (sz, len)
    | None => vret (0, 0)
    end in
  let last_start := u32 (size - last_size) in
  let last_new_size := DIR_ENTRY_SIZE last_len in
  let new_start := align4 (u32 (last_start + last_new_size)) in
  let rem := bs - new_start mod bs in
  let len := strlen name in
  let new_size := DIR_ENTRY_SIZE len in
  do! (new_start, rem) :=
    (if rem <? new_size then
       do! _ := on_ic (inode_store dst (grow_size bs)) in
       vret (u32 ((new_start / bs + 1) * bs), u32 (bs - new_size))
     else
       do! _ :=
         match last with
         | Some a =>
             let sz := u16 (align4 last_new_size) in
             do! buffer := vlift (store_le buffer (a + DE_SIZE) 2 sz) in
             do! bytes := vlift (slice buffer a sz) in
             dir_write dst bytes last_start
         | None => vret tt
         end in
       vret (new_start, rem)) in
  do! ed := dent_at entry in
  do! ei := idat (d_inode ed) in
  do! bytes := vlift (slice name 0 len) in
  let new := dir_entry_bytes (i_n ei) (u16 rem) (u8 len) (file_type (i_mode ei)) bytes in
  do! _ := dir_write dst new new_start in
  do! _ := dent_upd entry (fun e => d_set_offset e new_start) in
  do! _ := dir_update dst in
  vret 0.

(** ** Unlinking *)

(** The loop, with fuel for as many entries as the cache has. *)
Fixpoint unlink_loop (fuel : nat) (entry : Z) (buffer : list Z) (new_offset act_offset prev_entry : Z) :
    D (list Z * Z * Z * Z) :=
  match fuel with
  | O => fun _ => VNoFuel
  | S fuel =>
      if entry =? 0 then vret (buffer, new_offset, act_offset, prev_entry)
      else
        let bs := BLOCK_SIZE sb in
        let disk_entry := act_offset in
        let rem := bs - new_offset mod bs in
        do! sz := vlift (load_le buffer (disk_entry + DE_SIZE) 2) in
        do! e := dent_at entry in
        do! (buffer, new_offset) :=
          (if sz <? rem then
             do! n := dent_at (d_next_sib e) in
             do! b := vlift (store_le buffer (prev_entry + DE_SIZE) 2 (u16 (new_offset - d_offset n))) in
             vret (b, new_offset)
           else
             do! b := vlift (store_le buffer (prev_entry + DE_SIZE) 2 (u16 rem)) in
             vret (b, u32 ((new_offset / bs + 1) * bs))) in
        do! _ := dent_upd entry (fun e => d_set_offset e new_offset) in
        do! sz := vlift (load_le buffer (disk_entry + DE_SIZE) 2) in
        do! bytes := vlift (slice buffer act_offset sz) in
        do! buffer := vlift (splice buffer new_offset bytes) in
        do! e := dent_at entry in
        let new_offset := align4 (d_offset e) in
        let entry := d_next_sib e in
        do! n := dent_at entry in
        unlink_loop fuel entry buffer new_offset (d_offset n) disk_entry
  end.

Definition ext2_unlink (dir entry : Z) : D Z :=
  do! dd := dent_at dir in
  let dst := d_inode dd in
  do! ed := dent_at entry in
  do! ei := idat (d_inode ed) in
  if i_links ei =? 0 then vpanic
  else if negb (Z.land (i_mode ei) EXT2_TYPE_DIR =? 0) && negb (i_size ei =? EMPTY_DIR_SIZE) then vret (-1)
  else
    let bs := BLOCK_SIZE sb in
    do! buffer := dir_content dst in
    do! sz := vlift (load_le buffer (d_offset ed + DE_SIZE) 2) in
    let new_offset := d_offset ed in
    do! buffer := vlift (splice buffer new_offset (replicate (Z.to_nat sz) 0)) in
    do! nd := dent_at (d_next_sib ed) in
    let act_offset := d_offset nd in
    do! _ := dir_remove_child stale dir entry in
    do! m := vget dentries in
    do! (buffer, new_offset, act_offset, prev_entry) :=
      unlink_loop (S (base.size m)) (d_prev_sib ed) buffer new_offset act_offset act_offset in
    do! buffer := vlift (store_le buffer (prev_entry + DE_SIZE) 2 (u16 (bs - act_offset mod bs))) in
    do! di := idat dst in
    do! bytes := vlift (slice buffer 0 (i_size di)) in
    do! _ := dir_write dst bytes 0 in
    do! _ := on_ic (inode_store dst (fun i => with_size i (u32 ((new_offset / bs + 1) * bs)))) in
    do! _ := dir_update dst in
    vret 0.

Definition ext2_write_dir (dir entry : Z) (name : list Z) (link : bool) : D Z :=
  if link then ext2_link dir entry name else ext2_unlink dir entry.

(** What [ext2_init] registers with the directory cache. *)
Definition ext2_dir_itf : dir_itf T B := mk_dir_itf ext2_parse_dir ext2_write_dir ext2_parse_root.

(** The end of [ext2_init]: both caches learn how to reach the file system. *)
Definition ext2_register (ditfs : list (option (dir_itf T B))) (device : Z) :
    V (icache T B) (list (option (dir_itf T B))) :=
  do! _ := inode_add_itf device (ext2_itf sb bgds) in
  vlift (dir_add_itf ditfs device ext2_dir_itf).
End Ext2Dir.

(** ** Starting the file system *)

Section Init.
Context {B : Type} `{!Blocks B} (junk : Z -> list Z) (junk_len : forall n, length (junk n) = Z.to_nat n).
Context (st : B) (device : Z) (Hblk : forall k, length (bget st device k) = 1024%nat).
Context (sb : ext2_sblock_t) (Hsb : sblock_of (bget st device 1) = Ret (EXT2_SIGNATURE, sb)).
Context (Hlog : log_block_size sb = 0) (Hpg : 0 < blocks_pg sb) (Htot : 0 < total_blocks sb).
Context (Hfit : total_blocks sb + blocks_pg sb < 2 ^ 32).

Definition group_count : Z := (total_blocks sb + (blocks_pg sb - 1)) / blocks_pg sb.

(** With 1024-byte blocks and no more than 32 groups one block of memory is
    allocated for the descriptors. *)
Lemma ext2_init_loop :
  group_count <= 32 ->
  ext2_init junk st device =
    let! mem := bgd_loop (Z.to_nat group_count) st device (blocks_pg sb) 0 (junk 1024) in
    let! l := bgds_of mem 0 32 in Ret (Some (sb, l)).
Proof using Hsb Hlog Hpg Htot Hfit.
  intros Hg. unfold ext2_init. rewrite Hsb. cbn [obind]. rewrite Z.eqb_refl. cbn [negb]. unfold BLOCK_SIZE. rewrite Hlog.
  change (Z.shiftl 1024 0) with 1024. unfold rup_division.
  rewrite (u32_small (blocks_pg sb - 1)), (u32_small (total_blocks sb + (blocks_pg sb - 1))), udiv_pos by lia.
  cbn [obind]. change (udiv 1024 BGD_SIZE) with (Ret 32). cbn [obind]. fold group_count.
  assert (1 <= group_count) by (unfold group_count; apply Z.div_le_lower_bound; lia).
  change (u32 (32 - 1)) with 31. rewrite u32_small by lia. rewrite udiv_pos by lia. cbn [obind].
  assert ((group_count + 31) / 32 = 1) as -> by (symmetry; apply (Z.div_unique _ _ _ (group_count - 1)); lia).
  done.
Qed.

(** A disk with one block group: the descriptors are those of block 2. *)
Theorem ext2_init_one_group :
  total_blocks sb <= blocks_pg sb ->
  ext2_init junk st device = let! l := bgds_of (bget st device 2) 0 32 in Ret (Some (sb, l)).
Proof using All.
  intros H1. assert (Hg : group_count = 1).
  { unfold group_count. symmetry. apply (Z.div_unique _ _ _ (total_blocks sb - 1)); lia. }
  rewrite ext2_init_loop by lia. rewrite Hg. change (Z.to_nat 1) with 1%nat. cbn [bgd_loop].
  change (BGD_SIZE * 0) with 0. replace (u32 (2 + 0 * blocks_pg sb)) with 2 by (by rewrite Z.mul_0_l).
  rewrite splice_Ret by (rewrite ?junk_len, ?Hblk; cbn; lia). cbn [obind].
  rewrite Hblk, drop_ge by (rewrite junk_len; cbn; lia). cbn [Z.to_nat take app]. by rewrite app_nil_r.
Qed.

(** A disk with more than one group: the whole block of the second group is
    copied behind the first descriptor, beyond the memory. *)
Theorem ext2_init_two_groups :
  blocks_pg sb < total_blocks sb -> group_count <= 32 -> ext2_init junk st device = Undef.
Proof using All.
  intros H1 Hg. rewrite ext2_init_loop by lia.
  assert (H2 : 2 <= group_count) by (unfold group_count; apply Z.div_le_lower_bound; lia).
  destruct (Z.to_nat group_count) as [|[|n]] eqn:E; [lia..|]. cbn [bgd_loop].
  destruct (splice (junk 1024) (BGD_SIZE * 0) (bget st device (u32 (2 + 0 * blocks_pg sb)))) as [m| | |] eqn:E1;
    try (rewrite splice_Ret in E1 by (rewrite ?junk_len, ?Hblk; unfold BGD_SIZE; lia); done).
  apply length_splice in E1. rewrite junk_len in E1. cbn [obind]. unfold splice. rewrite E1, Hblk.
  destruct (Z.leb_spec (BGD_SIZE * (0 + 1) + Z.of_nat 1024) (Z.of_nat (Z.to_nat 1024))) as [Hx|Hx];
    [unfold BGD_SIZE in Hx; lia|]. by rewrite andb_false_r.
Qed.
End Init.

(** ** Removing an entry that was never parsed *)

Section Unlink.
Context {T B : Type} `{!KTable T} `{!Blocks B}.
Context (sb : ext2_sblock_t) (bgds : list ext2_bgd_t) (stale : Z -> list Z) (entry : Z).
Local Notation D := (V (dstate T B)).

(** The entry has no table of children. *)
Definition no_tab (e : dentry_t) : Prop := match d_table e with TTab _ => False | _ => True end.
Definition entry_no_tab (s : dstate T B) : Prop := forall e, dentries s !! entry = Some e -> no_tab e.

Lemma on_ic_no_tab {A} (m : V (icache T B) A) : vkeeps entry_no_tab (on_ic m).
Proof. intros s Hs. unfold on_ic, vzoom. by destruct (m (ic s)). Qed.

Lemma set_no_tab (f : dstate T B -> dstate T B) :
  (forall s, dentries (f s) = dentries s) -> vkeeps entry_no_tab (vset f).
Proof. intros Hf. apply vhoare_set. intros s Hs e. rewrite Hf. apply Hs. Qed.

Lemma dent_at_no_tab (p : Z) :
  vhoare entry_no_tab (dent_at p) (fun d s => entry_no_tab s /\ (p = entry -> no_tab d)).
Proof.
  intros s Hs. unfold dent_at. vauto. destruct (dentries s !! p) as [d|] eqn:E; [|done]. split; [done|].
  intros ->. by apply Hs.
Qed.

Lemma dent_put_no_tab (p : Z) (d : dentry_t) : (p = entry -> no_tab d) -> vkeeps entry_no_tab (dent_put p d).
Proof.
  intros Hd. apply vhoare_set. intros s Hs e. cbn. destruct (decide (p = entry)) as [->|].
  - rewrite lookup_insert_eq. intros [= <-]. by apply Hd.
  - rewrite lookup_insert_ne by done. apply Hs.
Qed.

Lemma with_dent_no_tab {A} (p : Z) (f : dentry_t -> D A) (Q : A -> dstate T B -> Prop) :
  (forall d, (p = entry -> no_tab d) -> vhoare entry_no_tab (f d) Q) -> vhoare entry_no_tab (vbind (dent_at p) f) Q.
Proof.
  intros Hf. eapply vhoare_bind; [apply dent_at_no_tab|]. intros d s [Hs Hd]. by apply (Hf d Hd).
Qed.

Lemma dent_upd_no_tab (p : Z) (f : dentry_t -> dentry_t) :
  (forall d, d_table (f d) = d_table d) -> vkeeps entry_no_tab (dent_upd p f).
Proof.
  intros Hf. apply with_dent_no_tab. intros d Hd. apply dent_put_no_tab. intros Hp. unfold no_tab. rewrite Hf.
  by apply Hd.
Qed.

Lemma dir_release_no_tab (p : Z) : vkeeps entry_no_tab (dir_release_ p).
Proof.
  apply with_dent_no_tab. intros d Hd. apply vkeeps_bind; [by apply dent_put_no_tab|]. intros _.
  vkeep. by apply set_no_tab.
Qed.

Lemma head_remove_no_tab (p : Z) : vkeeps entry_no_tab (head_remove stale p).
Proof. unfold head_remove. vkeep. by apply set_no_tab. Qed.

Lemma str_free_no_tab (p : Z) : vkeeps entry_no_tab (str_free p).
Proof. unfold str_free, str_at. vkeep. by apply set_no_tab. Qed.

Lemma release_entries_no_tab : vkeeps entry_no_tab (dir_release_entries stale entry).
Proof.
  apply with_dent_no_tab. intros d _. apply vkeeps_bind; [apply vkeeps_get|]. intros m.
  cbn [release_entries_loop]. destruct (_ =? 0); [apply vhoare_ret|]. apply with_dent_no_tab. intros c _. apply with_dent_no_tab. intros e He. specialize (He eq_refl).
  unfold tab_of, no_tab in *. destruct (d_table e); by intros s Hs.
Qed.

(** [dir_remove_child] frees the table of the entry it removes: for an entry
    without one it does not return. *)
Lemma remove_child_no_tab (dir : Z) : vhoare entry_no_tab (dir_remove_child stale dir entry) (fun _ _ => False).
Proof.
  assert (K : forall A B' (m : D A) (f : A -> D B') Q, vkeeps entry_no_tab m ->
    (forall a, vhoare entry_no_tab (f a) Q) -> vhoare entry_no_tab (vbind m f) Q)
    by (intros; eapply vhoare_bind; eauto).
  apply with_dent_no_tab. intros e1 _. apply K; [destruct (negb _); by apply dent_upd_no_tab|]. intros _.
  apply K; [by apply dent_upd_no_tab|]. intros _. apply with_dent_no_tab. intros e2 _.
  apply K; [destruct (negb _); [by apply dent_upd_no_tab|apply vhoare_ret]|]. intros _.
  apply K; [by apply dent_upd_no_tab|]. intros _. apply with_dent_no_tab. intros e3 _.
  apply K; [apply dir_release_no_tab|]. intros _. apply K; [by apply dent_upd_no_tab|]. intros _.
  apply K; [apply dir_release_no_tab|]. intros _. apply K; [apply head_remove_no_tab|]. intros r.
  destruct (negb _); [apply vhoare_panic|]. apply K; [apply str_free_no_tab|]. intros _.
  apply with_dent_no_tab. intros e4 _.
  apply K; [destruct (negb _); [apply release_entries_no_tab|apply vhoare_ret]|]. intros _.
  apply with_dent_no_tab. intros e5 He. specialize (He eq_refl). unfold tab_free, tab_of, no_tab in *.
  destruct (d_table e5); by intros s Hs.
Qed.

(** Unlinking an entry that has no table of children, as every file: the only
    result ext2_unlink ever returns is -1 (for a directory that is not empty);
    when it goes on to remove the entry it does not return. *)
Theorem ext2_unlink_file_fails (dir : Z) (s s' : dstate T B) (e : dentry_t) (r : Z) :
  dentries s !! entry = Some e -> no_tab e -> ext2_unlink sb bgds stale dir entry s = VRet r s' -> r = -1.
Proof.
  intros He Hn E. assert (Hs : entry_no_tab s) by (intros e' He'; congruence). revert Hs E.
  assert (H : vhoare entry_no_tab (ext2_unlink (T:=T) sb bgds stale dir entry) (fun r _ => r = -1)).
  { unfold ext2_unlink. apply with_dent_no_tab. intros dd _. cbn zeta. apply with_dent_no_tab. intros ed _.
    eapply vhoare_bind; [apply on_ic_no_tab|]. intros ei. destruct (_ =? 0); [apply vhoare_panic|].
    destruct (_ && _); [by intros s0 _|]. eapply vhoare_bind; [apply on_ic_no_tab|]. intros buf.
    eapply vhoare_bind; [apply vkeeps_lift|]. intros sz. eapply vhoare_bind; [apply vkeeps_lift|]. intros b.
    apply with_dent_no_tab. intros nd _. eapply vhoare_bind; [apply remove_child_no_tab|]. by intros _ s0. }
  intros Hs E. exact (vhoare_run _ _ _ _ _ _ H Hs E).
Qed.
End Unlink.
