(* ===== verification/Ext2Link.v ===== *)
(** Linking a name into a directory (src/src/kernel/fs/filesystem.c): the
    entries a directory is a sequence of, and what [ext2_link] makes of them,
    over ideal blocks.  On the buffer cache the directory block is read, released
    and read again at once, which the cache does not serve. *)

From Stdlib Require Import ZArith Lia.
From stdpp Require Import base numbers list gmap.
From S2P Require Import Prelude Cstring HashTable Tables Lru Bytes Ext2 Ext2File Vfs Inode Dir DirLookup Ext2Dir.

(** ** The entries of a directory *)

Record dirent := mk_dirent { de_ino : Z; de_size : Z; de_name : list Z }.

(** The bytes of [buf] from [i] to [j] are these entries. *)
Inductive layout (buf : list Z) (j : Z) : Z -> list dirent -> Prop :=
| lay_nil : layout buf j j []
| lay_cons (i : Z) (e : dirent) (es : list dirent) :
    0 <= i ->
    load_le buf (i + DE_INODE) 4 = Ret (de_ino e) ->
    load_le buf (i + DE_SIZE) 2 = Ret (de_size e) ->
    load_le buf (i + DE_LENGTH) 1 = Ret (Z.of_nat (length (de_name e))) ->
    slice buf (i + DE_NAME) (Z.of_nat (length (de_name e))) = Ret (de_name e) ->
    DIR_ENTRY_SIZE (Z.of_nat (length (de_name e))) <= de_size e ->
    layout buf j (i + de_size e) es ->
    layout buf j i (e :: es).

Lemma layout_le (buf : list Z) (i j : Z) (es : list dirent) : layout buf j i es -> i <= j.
Proof. induction 1; unfold DIR_ENTRY_SIZE in *; lia. Qed.

Lemma layout_app (buf : list Z) (i j k : Z) (es es' : list dirent) :
  layout buf k i es -> layout buf j k es' -> layout buf j i (es ++ es').
Proof. induction 1; intros H'; cbn; [done|]. econstructor; eauto. Qed.

Lemma layout_app_inv (buf : list Z) (j i : Z) (es es' : list dirent) :
  layout buf j i (es ++ es') -> exists k, layout buf k i es /\ layout buf j k es'.
Proof.
  revert i. induction es as [|e es IH]; intros i H; cbn in *; [exists i; split; [constructor|done]|].
  inversion H as [|? ? ? ? ? ? ? ? ? H']; subst. apply IH in H' as (k & L1 & L2). exists k.
  split; [econstructor; eauto|done].
Qed.

Lemma layout_head (buf : list Z) (j i : Z) (e : dirent) (es : list dirent) :
  layout buf j i (e :: es) ->
  load_le buf (i + DE_SIZE) 2 = Ret (de_size e) /\
  load_le buf (i + DE_LENGTH) 1 = Ret (Z.of_nat (length (de_name e))) /\
  DIR_ENTRY_SIZE (Z.of_nat (length (de_name e))) <= de_size e.
Proof. by inversion 1. Qed.

(** The same bytes from [i] to [j]. *)
Definition same_bytes (buf buf' : list Z) (i j : Z) : Prop :=
  forall x, i <= x < j -> znth 0 buf' x = znth 0 buf x.

Lemma slice_agree (buf buf' : list Z) (o n : Z) :
  length buf' = length buf -> same_bytes buf buf' o (o + n) -> slice buf' o n = slice buf o n.
Proof.
  intros Hl Hs. unfold slice. rewrite Hl. destruct (_ && _) eqn:E; [|done]. bprop. f_equal.
  apply list_eq. intros x. destruct (decide (x < Z.to_nat n)%nat); [|by rewrite !lookup_take_ge by lia].
  rewrite !lookup_take_lt, !lookup_drop by done. specialize (Hs (o + Z.of_nat x) ltac:(lia)). unfold znth in Hs.
  replace (Z.to_nat (o + Z.of_nat x)) with (Z.to_nat o + x)%nat in Hs by lia.
  destruct (lookup_lt_is_Some_2 buf (Z.to_nat o + x)) as [y Hy]; [lia|].
  destruct (lookup_lt_is_Some_2 buf' (Z.to_nat o + x)) as [y' Hy']; [lia|].
  rewrite Hy, Hy' in *. cbn in Hs. by subst.
Qed.

Lemma load_agree (buf buf' : list Z) (o : Z) (n : nat) :
  length buf' = length buf -> same_bytes buf buf' o (o + Z.of_nat n) -> load_le buf' o n = load_le buf o n.
Proof. intros Hl Hs. unfold load_le. by rewrite (slice_agree buf buf'). Qed.

Lemma layout_agree (buf buf' : list Z) (i j : Z) (es : list dirent) :
  length buf' = length buf -> same_bytes buf buf' i j -> layout buf j i es -> layout buf' j i es.
Proof.
  intros Hl Hs H. induction H as [|i e es H0 E1 E2 E3 E4 E5 E6 IH]; [constructor|].
  pose proof (layout_le _ _ _ _ E6) as Hle. unfold DIR_ENTRY_SIZE, DE_INODE, DE_SIZE, DE_LENGTH, DE_NAME in *.
  assert (Hsub : forall a b, i <= a -> b <= i + de_size e -> same_bytes buf buf' a b)
    by (intros a b Ha Hb x Hx; apply Hs; lia).
  econstructor; unfold DIR_ENTRY_SIZE, DE_INODE, DE_SIZE, DE_LENGTH, DE_NAME; try done.
  - rewrite <- E1. apply load_agree; [done|]. apply Hsub; lia.
  - rewrite <- E2. apply load_agree; [done|]. apply Hsub; lia.
  - rewrite <- E3. apply load_agree; [done|]. apply Hsub; lia.
  - rewrite <- E4. apply slice_agree; [done|]. apply Hsub; lia.
  - apply IH. intros x Hx. apply Hs. lia.
Qed.

(** ** The last entry *)

Lemma last_entry_ok (buf : list Z) (j : Z) (es : list dirent) (fuel : nat) (i : Z) (acc : option Z) :
  layout buf j i es -> j < 2 ^ 32 -> 0 <= i -> j - i < Z.of_nat fuel ->
  last_entry fuel buf j i acc = Ret (match last es with Some e => Some (j - de_size e) | None => acc end).
Proof.
  intros H. revert fuel acc. induction H as [|i e es H0 E1 E2 E3 E4 E5 E6 IH]; intros fuel acc Hj Hi Hf;
    (destruct fuel as [|fuel]; [unfold DIR_ENTRY_SIZE in *; try pose proof (layout_le _ _ _ _ E6); lia|]);
    cbn [last_entry].
  - by rewrite Z.ltb_irrefl.
  - unfold DIR_ENTRY_SIZE in E5. pose proof (layout_le _ _ _ _ E6). destruct (Z.ltb_spec i j); [|lia].
    rewrite E2. cbn [obind]. rewrite u32_small by lia. rewrite IH by lia. destruct es as [|e' es].
    + cbn. inversion E6; subst. do 2 f_equal. lia.
    + change (last (e :: e' :: es)) with (last (e' :: es)).
      destruct (last (e' :: es)) eqn:El; [done|]. by apply last_None in El.
Qed.

(** ** A new entry *)

Lemma slice_mid (a b c : list Z) (o n : Z) :
  o = Z.of_nat (length a) -> n = Z.of_nat (length b) -> slice (a ++ b ++ c) o n = Ret b.
Proof.
  intros -> ->. rewrite slice_Ret by (rewrite ?length_app; lia). rewrite !Nat2Z.id, drop_app_length, take_app_length. done.
Qed.

Lemma load_mid (a c : list Z) (o : Z) (n : nat) (v : Z) :
  o = Z.of_nat (length a) -> 0 <= v < 2 ^ (8 * Z.of_nat n) -> load_le (a ++ le_bytes n v ++ c) o n = Ret v.
Proof.
  intros -> Hv. unfold load_le. rewrite slice_mid by (done || by rewrite length_le_bytes). cbn [obind].
  by rewrite le_value_bytes.
Qed.

Lemma length_dir_entry (ino size len type : Z) (name : list Z) :
  length (dir_entry_bytes ino size len type name) = (8 + length name)%nat.
Proof. unfold dir_entry_bytes. rewrite !length_app, !length_le_bytes. lia. Qed.

(** The bytes [dir_entry_bytes] at [i] are the entry. *)
Lemma layout_entry (a c : list Z) (ino size type : Z) (name : list Z) :
  0 <= ino < 2 ^ 32 -> 8 + Z.of_nat (length name) <= size < 2 ^ 16 -> Z.of_nat (length name) < 256 ->
  let i := Z.of_nat (length a) in
  layout (a ++ dir_entry_bytes ino size (Z.of_nat (length name)) type name ++ c) (i + size) i
    [mk_dirent ino size name].
Proof.
  intros Hi Hs Hn i. unfold dir_entry_bytes. rewrite <- !app_assoc.
  econstructor; cbn [de_ino de_size de_name]; unfold DE_INODE, DE_SIZE, DE_LENGTH, DE_NAME, DIR_ENTRY_SIZE;
    try lia; [..|constructor].
  - apply load_mid; [lia|done].
  - rewrite (app_assoc a). apply load_mid; [rewrite length_app, length_le_bytes; lia|cbn; lia].
  - rewrite (app_assoc a), (app_assoc (a ++ _)).
    apply load_mid; [rewrite !length_app, !length_le_bytes; lia|cbn; lia].
  - rewrite (app_assoc a), (app_assoc (a ++ _)), (app_assoc ((a ++ _) ++ _)), (app_assoc (((a ++ _) ++ _) ++ _)).
    apply slice_mid; [rewrite !length_app, !length_le_bytes; lia|done].
Qed.

(** ** Alignment *)

Lemma align4_val (x : Z) : 0 <= x < 2 ^ 31 -> align4 x = (x + 3) / 4 * 4.
Proof.
  intros Hx. unfold align4. rewrite u32_small by lia. change (u32 (Z.lnot 3)) with (Z.ldiff (Z.ones 32) (Z.ones 2)).
  assert (E : Z.land (x + 3) (Z.ldiff (Z.ones 32) (Z.ones 2)) = Z.ldiff (x + 3) (Z.ones 2)).
  { apply Z.bits_inj'. intros k Hk. rewrite Z.land_spec, !Z.ldiff_spec.
    destruct (Z.ltb_spec k 32) as [Hl|Hl]; [by rewrite Z.ones_spec_low by lia|].
    rewrite (Z.bits_above_log2 (x + 3)); [done|lia|]. apply Z.log2_lt_pow2; [lia|].
    apply (Z.lt_le_trans _ (2 ^ 32)); [lia|]. apply Z.pow_le_mono_r; lia. }
  rewrite E, Z.ldiff_ones_r, Z.shiftl_mul_pow2, Z.shiftr_div_pow2 by lia. done.
Qed.

Lemma align4_add (a x : Z) : 0 <= a -> a mod 4 = 0 -> 0 <= x -> a + x < 2 ^ 31 -> align4 (a + x) = a + align4 x.
Proof.
  intros Ha Hm Hx Hs. rewrite !align4_val by lia. pose proof (Z.div_mod a 4 ltac:(lia)).
  replace (a + x + 3) with (x + 3 + a / 4 * 4) by lia. rewrite Z.div_add by lia. lia.
Qed.

Lemma align4_bound (x : Z) : 0 <= x < 2 ^ 31 -> x <= align4 x < x + 4 /\ align4 x mod 4 = 0.
Proof.
  intros Hx. rewrite align4_val by done. pose proof (Z.div_mod (x + 3) 4 ltac:(lia)).
  pose proof (Z.mod_pos_bound (x + 3) 4 ltac:(lia)). split; [lia|]. by rewrite Z.mod_mul.
Qed.

(** ** The bytes of a link *)

(** The entry cut down to what it needs, and the one behind it. *)
Definition shrunk (e : dirent) : dirent :=
  mk_dirent (de_ino e) (align4 (DIR_ENTRY_SIZE (Z.of_nat (length (de_name e))))) (de_name e).

Section Bytes.
Context (buf : list Z) (size : Z) (pre : list dirent) (e : dirent).
Context (Hlen : Z.of_nat (length buf) = size) (Hsz : size < 2 ^ 16).
Context (Hlay : layout buf size 0 (pre ++ [e])).
Context (ino type : Z) (name : list Z).
Context (Hino : 0 <= ino < 2 ^ 32) (Hname : Z.of_nat (length name) < 256).

Definition at_last : Z := size - de_size e.
Definition new_size1 : Z := de_size (shrunk e).
Definition at_new : Z := at_last + new_size1.
Definition new_bytes : list Z := dir_entry_bytes ino (size - at_new) (Z.of_nat (length name)) type name.

Context (Hfit : new_size1 + DIR_ENTRY_SIZE (Z.of_nat (length name)) <= de_size e).

Lemma last_layout : layout buf at_last 0 pre /\ layout buf size at_last [e] /\ 0 <= at_last /\
  8 + Z.of_nat (length (de_name e)) <= new_size1 /\ new_size1 <= de_size e /\
  at_new + 8 + Z.of_nat (length name) <= size.
Proof using Hlay Hfit Hsz.
  destruct (layout_app_inv _ _ _ _ _ Hlay) as (k & H1 & H2).
  assert (k = at_last) as ->.
  { inversion H2 as [|? ? ? ? ? ? ? ? ? H3]; subst. inversion H3; subst. unfold at_last. lia. }
  pose proof (layout_le _ _ _ _ H1). unfold at_new, new_size1, shrunk, DIR_ENTRY_SIZE in *. cbn [de_size] in *.
  assert (HL : 8 + Z.of_nat (length (de_name e)) <= de_size e).
  { inversion H2; subst. unfold DIR_ENTRY_SIZE in *. lia. }
  pose proof (align4_bound (8 + Z.of_nat (length (de_name e)))). unfold at_last in *. split_and!; try done; lia.
Qed.

(** The whole directory with the size of the last entry changed, and with the
    new one stored. *)
Context (buf1 : list Z) (Hbuf1 : store_le buf (at_last + DE_SIZE) 2 new_size1 = Ret buf1).

Lemma length_buf1 : length buf1 = length buf.
Proof using Hbuf1. exact (length_splice _ _ _ _ Hbuf1). Qed.

Lemma layout_shrunk : layout buf1 at_new 0 (pre ++ [shrunk e]).
Proof using Hlen Hsz Hlay Hfit Hbuf1.
  destruct last_layout as (H1 & H2 & H3 & H4 & H5 & H6).
  assert (at_last + new_size1 + 8 <= size) by (unfold at_new in H6; lia).
  apply (layout_app _ _ _ at_last).
  - apply (layout_agree buf); [apply length_buf1| |done]. intros x Hx. rewrite (znth_splice _ _ _ _ Hbuf1) by lia.
    destruct (Z.leb_spec (at_last + DE_SIZE) x); [unfold DE_SIZE in *; lia|done].
  - inversion H2 as [|? ? ? ? E1 E2 E3 E4 E5 _]; subst.
    econstructor; cbn [shrunk de_ino de_size de_name]; unfold DE_INODE, DE_SIZE, DE_LENGTH, DE_NAME in *; try lia.
    + rewrite <- E1. apply (load_store_other buf buf1 (at_last + 4) _ 2 4 new_size1); [lia..|done].
    + apply (load_store_same buf buf1 _ 2); [|done].
      change (0 <= new_size1 < 2 ^ 16). lia.
    + rewrite <- E3. apply (load_store_other buf buf1 (at_last + 4) _ 2 1 new_size1); [lia..|done].
    + rewrite <- E4. apply (slice_other _ _ _ _ Hbuf1); rewrite ?length_le_bytes; lia.
    + exact H4.
    + constructor.
Qed.

Lemma layout_linked (nb : list Z) :
  length nb = length buf ->
  (forall x, 0 <= x < size -> znth 0 nb x =
     if (at_new <=? x) && (x <? at_new + Z.of_nat (length new_bytes)) then znth 0 new_bytes (x - at_new)
     else znth 0 buf1 x) ->
  layout nb size 0 (pre ++ [shrunk e; mk_dirent ino (size - at_new) name]).
Proof using Hlen Hsz Hlay Hino Hname Hfit Hbuf1.
  intros Hl Hx. destruct last_layout as (H1 & H2 & H3 & H4 & H5 & H6). pose proof length_buf1 as L1.
  change ([shrunk e; ?x]) with ([shrunk e] ++ [x]). rewrite app_assoc.
  apply (layout_app _ _ _ at_new).
  - apply (layout_agree buf1); [congruence| |apply layout_shrunk]. intros x Hxx. rewrite Hx by lia.
    destruct (Z.leb_spec at_new x); [lia|done].
  - assert (Ln : length new_bytes = (8 + length name)%nat) by apply length_dir_entry.
    assert (Han : 0 <= at_new) by (unfold at_new; lia).
    destruct (splice buf1 at_new new_bytes) as [b2| | |] eqn:E2;
      try (rewrite splice_Ret in E2 by lia; done).
    pose proof (length_splice _ _ _ _ E2) as L2.
    apply (layout_agree b2); [congruence| |].
    + intros x Hxx. rewrite Hx, (znth_splice _ _ _ _ E2) by lia. done.
    + apply splice_inv in E2 as (_ & _ & ->).
      pose proof (layout_entry (take (Z.to_nat at_new) buf1) (drop (Z.to_nat at_new + length new_bytes) buf1)
        ino (size - at_new) type name Hino ltac:(lia) Hname) as HL. cbn zeta in HL.
      rewrite length_take, Nat.min_l in HL by lia. rewrite Z2Nat.id in HL by lia.
      replace (at_new + (size - at_new)) with size in HL by lia. exact HL.
Qed.
End Bytes.

(** ** Linking *)

Section Link.
Context {T B : Type} `{!KTable T} `{!Blocks B} {laws : BlocksLaws B} (sb : ext2_sblock_t) (bgds : list ext2_bgd_t).
Context (d0 : ext2_bgd_t) (Hd0 : bgds !! 0%nat = Some d0).
Context (Hlog : log_block_size sb = 0).
Context (Hpg : 0 < blocks_pg sb <= 8192) (Htot : 0 < total_blocks sb < 2 ^ 32).
Implicit Types s : dstate T B.

(** The inode at [p] replaced, and the disk. *)
Definition upd_ic s (p : Z) (c : icell B) (i : inode_t) (w : B) : dstate T B :=
  with_ic s (with_fs (with_inodes (ic s) (<[p := cell_dat c i]> (inodes (ic s)))) w).

Lemma upd_ic_twice s (p : Z) (c : icell B) (i i' : inode_t) (w w' : B) :
  upd_ic (upd_ic s p c i w) p c i' w' = upd_ic s p c i' w'.
Proof. unfold upd_ic, with_ic, with_fs, with_inodes. cbn. by rewrite insert_insert_eq. Qed.

Lemma idat_ok s (p : Z) (c : icell B) : inodes (ic s) !! p = Some c -> idat p s = VRet (ic_dat c) s.
Proof.
  intros Hc. unfold idat, on_ic, vzoom, icell_at. vauto. rewrite Hc. unfold vret, vbind, vsome. by destruct s.
Qed.

Lemma upd_ic_at s (p : Z) (c : icell B) (i : inode_t) (w : B) :
  inodes (ic (upd_ic s p c i w)) !! p = Some (cell_dat c i).
Proof. cbn. by rewrite lookup_insert_eq. Qed.

Context (p : Z) (c : icell B) (ix : inode_idx_t).

Lemma dir_content_ok s (i : inode_t) :
  inodes (ic s) !! p = Some (cell_dat c i) -> file_ok sb bgds d0 (fs (ic s)) i ix -> 0 <= i_size i <= 12 * 1024 ->
  exists i' w', dir_content sb bgds p s = VRet (fbytes (fs (ic s)) i 0 (i_size i)) (upd_ic s p c i' w') /\
    file_ok sb bgds d0 w' i' ix /\ i_size i' = i_size i /\
    forall x, 0 <= x < 12 * 1024 -> fbyte w' i' x = fbyte (fs (ic s)) i x.
Proof using laws Hd0 Hlog Hpg Htot.
  intros Hc Hf Hs.
  destruct (read_content_ok sb bgds d0 Hd0 Hlog Hpg Htot (fs (ic s)) i ix 0 (i_size i) Hf) as (l & w & E & Hf' & F);
    [lia..|].
  exists (with_blocks i l), w. split; [|done]. unfold dir_content, on_ic, vzoom, icell_at, icell_put. vauto.
  rewrite Hc. vauto. cbn [cell_dat ic_dat]. rewrite E. vauto. done.
Qed.

Lemma dir_write_ok s (i : inode_t) (src : list Z) (off : Z) :
  inodes (ic s) !! p = Some (cell_dat c i) -> file_ok sb bgds d0 (fs (ic s)) i ix ->
  0 <= off <= i_size i -> off + Z.of_nat (length src) <= 12 * 1024 ->
  exists i' w', dir_write sb bgds p src off s = VRet tt (upd_ic s p c i' w') /\
    file_ok sb bgds d0 w' i' ix /\ i_size i' = Z.max (i_size i) (off + Z.of_nat (length src)) /\
    forall x, 0 <= x < 12 * 1024 -> fbyte w' i' x =
      if (off <=? x) && (x <? off + Z.of_nat (length src)) then znth 0 src (x - off) else fbyte (fs (ic s)) i x.
Proof using laws Hd0 Hlog Hpg Htot.
  intros Hc Hf Ho Hs.
  destruct (write_content_ok sb bgds d0 Hd0 Hlog Hpg Htot (fs (ic s)) i ix src off Hf Ho Hs)
    as (i' & w & E & Hf' & Esz & _ & _ & F & _).
  exists i', w. split; [|done]. unfold dir_write, on_ic, vzoom, icell_at, icell_put. vauto.
  rewrite Hc. vauto. cbn [cell_dat ic_dat]. rewrite E. vauto. done.
Qed.

Lemma dir_update_ok s (i : inode_t) :
  inodes (ic s) !! p = Some (cell_dat c i) -> file_ok sb bgds d0 (fs (ic s)) i ix ->
  exists w', dir_update sb bgds p s = VRet tt (upd_ic s p c i w') /\ file_ok sb bgds d0 w' i ix /\
    forall x, 0 <= x < 12 * 1024 -> fbyte w' i x = fbyte (fs (ic s)) i x.
Proof using laws Hd0 Hlog Hpg Htot.
  intros Hc Hf. destruct (update_ok sb bgds d0 (fs (ic s)) i ix Hf) as (w & E & Hf' & _ & F).
  exists w. split; [|done]. unfold dir_update, on_ic, vzoom, icell_at. vauto. rewrite Hc. vauto.
  cbn [cell_dat ic_dat]. rewrite E. vauto. unfold vset, upd_ic, with_inodes. by rewrite insert_id.
Qed.

Lemma znth_fbytes (w : B) (i : inode_t) (n x : Z) : 0 <= x < n -> znth 0 (fbytes w i 0 n) x = fbyte w i x.
Proof using.
  intros Hx. unfold znth, fbytes. rewrite list_lookup_fmap, lookup_seq_lt by lia. cbn. f_equal. lia.
Qed.

Lemma length_fbytes (w : B) (i : inode_t) (o n : Z) : length (fbytes w i o n) = Z.to_nat n.
Proof using. unfold fbytes. by rewrite length_map, length_seq. Qed.

(** The directory at [p] holds these entries. *)
Definition dir_entries s (size : Z) (es : list dirent) : Prop :=
  exists i, inodes (ic s) !! p = Some (cell_dat c i) /\ file_ok sb bgds d0 (fs (ic s)) i ix /\
    i_size i = size /\ layout (fbytes (fs (ic s)) i 0 size) size 0 es.

(** A whole number of blocks, the last entry in the last block, and room behind
    it for an entry with a name of [n] characters. *)
Definition link_room (size : Z) (e : dirent) (n : nat) : Prop :=
  size mod 1024 = 0 /\ 0 <= size <= 12 * 1024 /\ de_size e <= 1024 /\ de_size e mod 4 = 0 /\
  new_size1 e + DIR_ENTRY_SIZE (Z.of_nat n) <= de_size e.

Lemma link_place (size : Z) (e : dirent) (n : nat) :
  link_room size e n -> 0 <= at_last size e -> 8 + Z.of_nat (length (de_name e)) <= de_size e ->
  u32 (size - de_size e) = at_last size e /\
  align4 (u32 (at_last size e + DIR_ENTRY_SIZE (Z.of_nat (length (de_name e))))) = at_new size e /\
  1024 - at_new size e mod 1024 = size - at_new size e /\ u16 (new_size1 e) = new_size1 e /\ 0 <= at_new size e.
Proof using.
  intros (Hm & Hs & Hb & H4 & Hfit) Ha Hl. unfold at_new, new_size1, shrunk, DIR_ENTRY_SIZE in *.
  cbn [de_size] in *. set (L := 8 + Z.of_nat (length (de_name e))) in *.
  pose proof (align4_bound L ltac:(unfold L in *; lia)) as [Hal Hal4]. unfold at_last in *.
  assert (Hdiv : exists k, size = 1024 * k) by (exists (size / 1024); pose proof (Z.div_mod size 1024); lia).
  destruct Hdiv as [k Hk]. rewrite !u32_small by lia. unfold u16. rewrite wrap_small by lia.
  split_and!; try done; [| |lia].
  - apply align4_add; try lia. rewrite Zminus_mod, H4, Z.sub_0_r, Z.mod_mod by lia.
    subst. replace (1024 * k) with (256 * k * 4) by lia. by apply Z.mod_mul.
  - set (x := size - de_size e + align4 L) in *.
    assert (x mod 1024 = x - 1024 * (k - 1)); [|unfold x in *; lia].
    symmetry. apply (Z.mod_unique _ _ (k - 1)); unfold x in *; lia.
Qed.

(** The two writes of [ext2_link] one after the other. *)
Lemma link_writes s (i : inode_t) (size : Z) (pre : list dirent) (e : dirent) (ino type : Z) (name : list Z) (buf1 : list Z) :
  inodes (ic s) !! p = Some (cell_dat c i) -> file_ok sb bgds d0 (fs (ic s)) i ix -> i_size i = size ->
  layout (fbytes (fs (ic s)) i 0 size) size 0 (pre ++ [e]) -> link_room size e (length name) ->
  0 <= ino < 2 ^ 32 -> Z.of_nat (length name) < 256 ->
  store_le (fbytes (fs (ic s)) i 0 size) (at_last size e + DE_SIZE) 2 (new_size1 e) = Ret buf1 ->
  exists bytes i1 w1 i2 w2, slice buf1 (at_last size e) (new_size1 e) = Ret bytes /\
    dir_write sb bgds p bytes (at_last size e) s = VRet tt (upd_ic s p c i1 w1) /\
    dir_write sb bgds p (new_bytes size e ino type name) (at_new size e) (upd_ic s p c i1 w1) = VRet tt (upd_ic s p c i2 w2) /\
    file_ok sb bgds d0 w2 i2 ix /\ i_size i2 = size /\
    layout (fbytes w2 i2 0 size) size 0 (pre ++ [shrunk e; mk_dirent ino (size - at_new size e) name]).
Proof using laws Hd0 Hlog Hpg Htot.
  intros Hc Hf Hsz Hlay Hroom Hino Hname Hbuf. pose proof Hroom as (Hm & Hs & Hb & H4 & Hfit).
  set (buf := fbytes (fs (ic s)) i 0 size) in *.
  assert (Lb : Z.of_nat (length buf) = size) by (unfold buf; rewrite length_fbytes; lia).
  destruct (last_layout buf size pre e ltac:(lia) Hlay name Hfit) as (_ & _ & Ha & Hn & Hle & Hend).
  pose proof (length_buf1 buf size e buf1 Hbuf) as Lb1. unfold at_new in Hend.
  destruct (slice buf1 (at_last size e) (new_size1 e)) as [bytes| | |] eqn:Es;
    try (rewrite slice_Ret in Es by lia; done).
  assert (Lbs : Z.of_nat (length bytes) = new_size1 e).
  { rewrite slice_Ret in Es by lia. injection Es as <-. rewrite length_take, length_drop. lia. }
  destruct (dir_write_ok s i bytes (at_last size e) Hc Hf ltac:(lia) ltac:(lia)) as (i1 & w1 & E1 & Hf1 & Z1 & F1).
  set (s1 := upd_ic s p c i1 w1) in *.
  assert (Ln : Z.of_nat (length (new_bytes size e ino type name)) = 8 + Z.of_nat (length name))
    by (unfold new_bytes; rewrite length_dir_entry; lia).
  destruct (dir_write_ok s1 i1 (new_bytes size e ino type name) (at_new size e) (upd_ic_at s p c i1 w1) Hf1)
    as (i2 & w2 & E2 & Hf2 & Z2 & F2); [unfold at_new; lia..|].
  unfold s1 in E2. rewrite upd_ic_twice in E2. rewrite Z1 in Z2.
  exists bytes, i1, w1, i2, w2. split_and!; try done; [unfold at_new in Z2; lia|].
  apply (layout_linked buf size pre e Lb ltac:(lia) Hlay ino type name Hino Hname Hfit buf1 Hbuf).
  { unfold buf. by rewrite !length_fbytes. }
  intros x Hx. rewrite znth_fbytes by lia. rewrite F2 by lia.
  destruct ((_ <=? x) && _); [done|]. cbn [fs ic upd_ic with_ic with_fs s1]. rewrite F1 by lia.
  rewrite (znth_splice _ _ _ _ Hbuf) by lia. rewrite length_le_bytes. unfold DE_SIZE.
  destruct ((at_last size e <=? x) && (x <? at_last size e + Z.of_nat (length bytes))) eqn:Er.
  - bprop. rewrite slice_Ret in Es by lia. injection Es as <-.
    rewrite znth_take_drop by lia. replace (at_last size e + (x - at_last size e)) with x by lia.
    rewrite (znth_splice _ _ _ _ Hbuf) by lia. by rewrite length_le_bytes.
  - assert (x < at_last size e \/ at_last size e + new_size1 e <= x).
    { destruct (Z.leb_spec (at_last size e) x), (Z.ltb_spec x (at_last size e + Z.of_nat (length bytes))); cbn in Er; done || lia. }
    destruct (Z.leb_spec (at_last size e + 4) x), (Z.ltb_spec x (at_last size e + 4 + Z.of_nat 2)); cbn [andb];
      try lia; by unfold buf; rewrite znth_fbytes by lia.
Qed.
(** Over ideal blocks: linking a name into a directory of whole blocks with room behind its last
    entry: ext2_link succeeds, cuts the last entry down to its own size and
    puts a new one with the number of the inode and the name behind it, up to
    the end of the block; the entries in front stay, the directory keeps its
    size, and the cached entry knows its offset. *)
Theorem ext2_link_appends s (dir entry : Z) (dd ed : dentry_t) (ce : icell B) (size : Z) (pre : list dirent)
    (e : dirent) (name : list Z) :
  let n := cstr name in
  dentries s !! dir = Some dd -> d_inode dd = p -> dentries s !! entry = Some ed -> d_inode ed <> p ->
  inodes (ic s) !! d_inode ed = Some ce -> 0 <= i_n (ic_dat ce) < 2 ^ 32 ->
  dir_entries s size (pre ++ [e]) -> Z.of_nat (length n) < 256 -> link_room size e (length n) ->
  exists s', ext2_link sb bgds dir entry name s = VRet 0 s' /\
    dir_entries s' size (pre ++ [shrunk e; mk_dirent (i_n (ic_dat ce)) (size - at_new size e) n]) /\
    d_offset <$> dentries s' !! entry = Some (at_new size e).
Proof using laws Hd0 Hlog Hpg Htot.
  intros n Hdd Hp Hed Hnp Hce Hino (i & Hc & Hf & Hsz & Hlay) Hn Hroom. pose proof Hroom as (Hm & Hs & Hb & H4 & Hfit).
  unfold ext2_link. vrun (dent_at_ok s dir dd Hdd). rewrite Hp. vrun (idat_ok s p _ Hc). cbn zeta. cbn [cell_dat ic_dat].
  rewrite Hsz. destruct (dir_content_ok s i Hc Hf ltac:(lia)) as (i1 & w1 & E1 & Hf1 & Z1 & F1). vrun E1. rewrite Hsz in *.
  set (buf := fbytes (fs (ic s)) i 0 size) in *. set (s1 := upd_ic s p c i1 w1).
  assert (Lb : Z.of_nat (length buf) = size) by (unfold buf; rewrite length_fbytes; lia).
  destruct (last_layout buf size pre e ltac:(lia) Hlay n Hfit) as (Hpre & Hl1 & Ha & Hn1 & Hle & Hend).
  assert (Hbuf : fbytes w1 i1 0 size = buf) by (apply fbytes_ext; [lia|lia|done]).
  assert (El : last_entry (S (length buf)) buf size 0 None = Ret (Some (at_last size e))).
  { rewrite (last_entry_ok buf size (pre ++ [e])) by (done || lia). by rewrite last_snoc. }
  rewrite El. vauto. destruct (layout_head _ _ _ _ _ Hl1) as (A2 & A3 & A5). rewrite A2. vauto. rewrite A3. vauto.
  destruct (link_place size e (length n) Hroom Ha ltac:(unfold DIR_ENTRY_SIZE in *; lia)) as (P1 & P2 & P3 & P4 & P5).
  rewrite P1, P2, (block_size_1024 sb Hlog), P3, strlen_cstr. fold n.
  destruct (Z.ltb_spec (size - at_new size e) (DIR_ENTRY_SIZE (Z.of_nat (length n)))) as [Hx|_];
    [unfold DIR_ENTRY_SIZE in Hx; lia|].
  change (align4 (DIR_ENTRY_SIZE (Z.of_nat (length (de_name e))))) with (new_size1 e). rewrite P4.
  destruct (store_le_Ret buf (at_last size e + DE_SIZE) 2 (new_size1 e)) as (buf1 & Eb & _);
    [unfold DE_SIZE; lia|unfold DE_SIZE, at_new in *; lia|].
  destruct (link_writes s1 i1 size pre e (i_n (ic_dat ce)) (file_type (i_mode (ic_dat ce))) n buf1)
    as (bytes & i2 & w2 & i3 & w3 & Es & E2 & E3 & Hf3 & Z3 & Hlay3); try done.
  { apply upd_ic_at. }
  { cbn [fs ic s1 upd_ic with_ic with_fs]. by rewrite Hbuf. }
  { cbn [fs ic s1 upd_ic with_ic with_fs]. by rewrite Hbuf. }
  rewrite Eb. vauto. rewrite Es. vauto. vrun E2. vauto.
  set (s2 := upd_ic s p c i2 w2).
  assert (Es2 : upd_ic s1 p c i2 w2 = s2) by apply upd_ic_twice. rewrite Es2 in *.
  assert (Es3 : upd_ic s1 p c i3 w3 = upd_ic s p c i3 w3) by apply upd_ic_twice. rewrite Es3 in *.
  vrun (dent_at_ok s2 entry ed Hed).
  assert (Hce2 : inodes (ic s2) !! d_inode ed = Some ce) by (cbn; by rewrite lookup_insert_ne by done).
  vrun (idat_ok s2 _ ce Hce2).
  destruct (cstr_prefix name) as (r & Er & _). fold n in Er. rewrite Er, slice_app. vauto.
  assert (Enew : dir_entry_bytes (i_n (ic_dat ce)) (u16 (size - at_new size e)) (u8 (Z.of_nat (length n)))
    (file_type (i_mode (ic_dat ce))) n = new_bytes size e (i_n (ic_dat ce)) (file_type (i_mode (ic_dat ce))) n).
  { unfold new_bytes, u16. rewrite wrap_small, u8_small by (unfold at_new, at_last in *; lia). done. }
  rewrite Enew. vrun E3. set (s3 := upd_ic s p c i3 w3). unfold dent_upd. vauto. vrun (dent_at_ok s3 entry ed Hed).
  unfold dent_put. vauto. set (s4 := with_dentries s3 _).
  destruct (dir_update_ok s4 i3 (upd_ic_at s p c i3 w3) Hf3) as (w4 & E4 & Hf4 & F4). vrun E4. eexists. split; [done|].
  split; [|cbn; by rewrite lookup_insert_eq].
  exists i3. split; [apply upd_ic_at|]. split; [done|]. split; [done|]. cbn [fs ic upd_ic with_ic with_fs].
  rewrite (fbytes_ext w3 w4 i3 i3); [done|lia|lia|done].
Qed.
End Link.

(** ** A concrete directory *)

(** Inode 12 is a directory with one block, which holds "." and "..". *)
Definition dots0 : list Z :=
  dir_entry_bytes 12 12 1 2 [DOT] ++ [0; 0; 0] ++ dir_entry_bytes 2 1012 2 2 [DOT; DOT] ++ replicate 1002 0.
Definition ddisk0 : fun_blocks := fun _ k =>
  if k =? 3 then [0xFF; 0x07] ++ replicate 1022 0 else if k =? 10 then dots0 else replicate 1024 0.
Definition dirinode0 : inode_t := mk_inode 0 12 0x4000 2 1024 0 0 0 0 0 (10 :: replicate 14 0).
Definition newinode0 : inode_t := mk_inode 0 13 0x8000 1 0 0 0 0 0 0 (replicate 15 0).
Definition dircell0 : icell fun_blocks := mk_icell 0 1 1 dirinode0 None.
Definition newcell0 : icell fun_blocks := mk_icell 0 1 1 newinode0 None.

Lemma dirinode0_ok : file_ok sb0 [bgd0] bgd0 ddisk0 dirinode0 slot0.
Proof.
  assert (Hd : forall j k, direct dirinode0 !! j = Some k -> k <> 0 -> j = 0%nat /\ k = 10).
  { intros [|j] k Hj Hk; cbn in Hj; [by injection Hj as <-|].
    change (replicate 11 0 !! j = Some k) in Hj. by apply lookup_replicate in Hj as [-> _]. }
  split.
  - cbn. lia.
  - unfold inode_wf. cbn. split_and!; try lia. repeat constructor; lia.
  - split; [done|]. change (Forall (fun b => 0 <= b < 256) ([0xFF; 0x07] ++ replicate 1022 0)).
    rewrite Forall_app, !Forall_cons, Forall_nil. split_and!; try done. by apply Forall_replicate.
  - done.
  - by vm_compute.
  - by vm_compute.
  - by vm_compute.
  - cbn. lia.
  - split; [by vm_compute|done].
  - done.
  - intros j k Hj Hk. destruct (Hd j k Hj Hk) as [_ ->]. by vm_compute.
  - intros j j' k Hj Hj' Hk. destruct (Hd j k Hj Hk) as [-> _]. by destruct (Hd j' k Hj' Hk) as [-> _].
  - by vm_compute.
Qed.

Definition dent0 (inode : Z) : dentry_t := mk_dentry 0 1 0 inode 0 0 0 0 0 0 TNull.
Definition dstate0 : dstate num_table fun_blocks :=
  mk_dstate (small_table 67 75 HT_PTRKEY) {[ 100 := dent0 4096; 200 := dent0 8192 ]} (mk_lru ∅ 0 0) 0 ∅ 0
    (mk_icache cache_table {[ 4096 := dircell0; 8192 := newcell0 ]} (mk_lru ∅ 0 0) 0 itfs0 ddisk0).

Definition dotdot0 : dirent := mk_dirent 2 1012 [DOT; DOT].
Definition hi_name : list Z := [104; 105; 0].

Lemma dir_entries0 : dir_entries sb0 [bgd0] bgd0 4096 dircell0 slot0 dstate0 1024 [mk_dirent 12 12 [DOT]; dotdot0].
Proof.
  exists dirinode0. split; [done|]. split; [exact dirinode0_ok|]. split; [done|].
  assert (fbytes (fs (ic dstate0)) dirinode0 0 1024 = dots0) as -> by (vm_compute; reflexivity).
  econstructor; [done|done|done|done|done|done|].
  econstructor; [done|done|done|done|done|done|]. constructor.
Qed.

Lemma link_room0 : link_room 1024 dotdot0 2.
Proof. repeat split; vm_compute; congruence. Qed.

Lemma ext2_link_appends_witness :
  exists s, ext2_link sb0 [bgd0] 100 200 hi_name dstate0 = VRet 0 s /\
    dir_entries sb0 [bgd0] bgd0 4096 dircell0 slot0 s 1024
      [mk_dirent 12 12 [DOT]; mk_dirent 2 12 [DOT; DOT]; mk_dirent 13 1000 [104; 105]].
Proof.
  destruct (ext2_link_appends sb0 [bgd0] bgd0 eq_refl eq_refl ltac:(cbn; lia) ltac:(cbn; lia) 4096 dircell0 slot0
    dstate0 100 200 (dent0 4096) (dent0 8192) newcell0 1024 [mk_dirent 12 12 [DOT]] dotdot0 hi_name)
    as (s & E & H & _); [reflexivity|reflexivity|reflexivity|discriminate|reflexivity|cbn; lia|exact dir_entries0|
      cbn; lia|exact link_room0|].
  exact (ex_intro _ s (conj E H)).
Defined.
