(* ===== verification/File.v ===== *)
(** Open files (src/src/kernel/fs/file.c): the file objects, the descriptors of
    the running task, and the dispatch to the inode and the pipe behind a
    file. *)

From Stdlib Require Import ZArith Lia.
From stdpp Require Import base numbers list gmap.
From S2P Require Import Prelude Cstring HashTable Tables Lru Bytes Pipe Ext2 Ext2File Vfs Inode Dir.

Definition OPEN_FILES_COUNT : Z := 16.
Definition O_CREAT : Z := Z.shiftl 1 0.
Definition O_RDONLY : Z := Z.shiftl 1 1.
Definition O_WRONLY : Z := Z.shiftl 1 2.
Definition O_RDWR : Z := Z.shiftl 1 3.
Definition O_TRUNC : Z := Z.shiftl 1 4.

(** The functions a member of a file may point to. *)
Inductive fptr :=
| PNull
| P_inode_read | P_inode_write | P_inode_stat | P_file_close
| P_pipe_read | P_pipe_write | P_pipe_close.

(** [file_t]; [f_obj] is the union of [pipe] and [inode]. *)
Record file_t := mk_file {
  f_ref : Z;
  f_readp : Z;
  f_writep : Z;
  f_obj : Z;
  f_offset : Z;
  f_close : fptr;
  f_read : fptr;
  f_write : fptr;
  f_stat : fptr;
  f_next : Z;
}.

Definition f_set_ref (f : file_t) (r : Z) : file_t :=
  mk_file r (f_readp f) (f_writep f) (f_obj f) (f_offset f) (f_close f) (f_read f) (f_write f) (f_stat f) (f_next f).
Definition f_set_offset (f : file_t) (o : Z) : file_t :=
  mk_file (f_ref f) (f_readp f) (f_writep f) (f_obj f) o (f_close f) (f_read f) (f_write f) (f_stat f) (f_next f).
Definition f_zero : file_t := mk_file 0 0 0 0 0 PNull PNull PNull PNull 0.

Section Data.
Context {T W : Type}.

(** [fhead], the file objects, the pipes, [current_task->open_files] and the
    caches. *)
Record fstate := mk_fstate {
  files : gmap Z file_t;
  flist : Z;
  ulist : Z;
  fmutex : Z;
  pipes : gmap Z pipe_t;
  open_files : list Z;
  dirs : dstate T W;
}.

Definition with_files (s : fstate) (m : gmap Z file_t) : fstate :=
  mk_fstate m (flist s) (ulist s) (fmutex s) (pipes s) (open_files s) (dirs s).
Definition with_flist (s : fstate) (p : Z) : fstate :=
  mk_fstate (files s) p (ulist s) (fmutex s) (pipes s) (open_files s) (dirs s).
Definition with_ulist (s : fstate) (p : Z) : fstate :=
  mk_fstate (files s) (flist s) p (fmutex s) (pipes s) (open_files s) (dirs s).
Definition with_fmutex (s : fstate) (c : Z) : fstate :=
  mk_fstate (files s) (flist s) (ulist s) c (pipes s) (open_files s) (dirs s).
Definition with_pipes (s : fstate) (m : gmap Z pipe_t) : fstate :=
  mk_fstate (files s) (flist s) (ulist s) (fmutex s) m (open_files s) (dirs s).
Definition with_open_files (s : fstate) (l : list Z) : fstate :=
  mk_fstate (files s) (flist s) (ulist s) (fmutex s) (pipes s) l (dirs s).
Definition with_dirs (s : fstate) (d : dstate T W) : fstate :=
  mk_fstate (files s) (flist s) (ulist s) (fmutex s) (pipes s) (open_files s) d.
End Data.
Arguments fstate T W : clear implicits.

Section File.
Context {T W : Type} `{!KTable T}.
Local Notation F := (V (fstate T W)).

(** What [kmalloc] returns for a file: an address no file has, and memory with
    any contents. *)
Context (falloc : gmap Z file_t -> Z) (junk_file : Z -> file_t).

Definition on_dirs {A} (m : V (dstate T W) A) : F A := vzoom dirs with_dirs m.
Definition on_inodes {A} (m : V (icache T W) A) : F A := on_dirs (on_ic m).

Definition file_at (p : Z) : F file_t := do! m := vget files in vsome (m !! p).
Definition file_put (p : Z) (f : file_t) : F unit := vset (fun s => with_files s (<[p := f]> (files s))).
Definition fmutex_acquire : F unit := vlock fmutex with_fmutex.
Definition fmutex_release : F unit := vunlock fmutex with_fmutex.

Definition file_alloc : F Z :=
  do! _ := fmutex_acquire in
  do! fl := vget flist in
  do! file :=
    (if negb (fl =? 0) then
       do! f := file_at fl in
       do! _ := vset (fun s => with_flist s (f_next f)) in
       vret fl
     else
       do! m := vget files in
       let p := falloc m in
       do! _ := file_put p (junk_file p) in
       vret p) in
  do! f := file_at file in
  do! ul := vget ulist in
  do! _ := file_put file (mk_file 1 (f_readp f) (f_writep f) (f_obj f) (f_offset f) PNull PNull PNull PNull ul) in
  do! _ := vset (fun s => with_ulist s file) in
  do! _ := fmutex_release in
  vret file.

Definition file_dup (file : Z) : F Z :=
  do! _ := fmutex_acquire in
  do! f := file_at file in
  do! _ := file_put file (f_set_ref f (u32 (f_ref f + 1))) in
  do! _ := fmutex_release in
  vret file.

(** ** Calls through the pointers *)

Definition pipe_at (p : Z) : F pipe_t := do! m := vget pipes in vsome (m !! p).

(** A pipe operation that waits leaves the task waiting. *)
Definition pipe_result (p : Z) (o : outcome presult) : F (Z * list Z) :=
  do! r := vlift o in
  match r with
  | PDone q ret mem _ =>
      do! _ := vset (fun s => with_pipes s (<[p := q]> (pipes s))) in
      vret (ret, mem)
  | PWait _ _ _ => fun _ => VBlock
  end.

(** [mem] is the caller's buffer; what was read is at its front. *)
Definition call_read (fn : fptr) (file : Z) (mem : list Z) : F (Z * list Z) :=
  do! f := file_at file in
  match fn with
  | P_inode_read =>
      do! (bread, off, l) := on_inodes (inode_read (f_obj f) (f_offset f) (Z.of_nat (length mem))) in
      do! _ := file_put file (f_set_offset f off) in
      vret (bread, l ++ drop (length l) mem)
  | P_pipe_read => do! p := pipe_at (f_obj f) in pipe_result (f_obj f) (pipe_read p mem)
  | _ => vundef
  end.

Definition call_write (fn : fptr) (file : Z) (data : list Z) : F Z :=
  do! f := file_at file in
  match fn with
  | P_inode_write =>
      do! (bwrite, off) := on_inodes (inode_write (f_obj f) data (f_offset f)) in
      do! _ := file_put file (f_set_offset f off) in
      vret bwrite
  | P_pipe_write =>
      do! p := pipe_at (f_obj f) in
      do! (r, _) := pipe_result (f_obj f) (pipe_write p data) in
      vret r
  | _ => vundef
  end.

Definition call_stat (fn : fptr) (file : Z) : F stat_t :=
  do! f := file_at file in
  match fn with
  | P_inode_stat => on_inodes (inode_stat (f_obj f))
  | _ => vundef
  end.

(** The file is cleared before its pointer [close] is read: the call goes to
    NULL. *)
Definition file_close (file : Z) : F unit :=
  do! _ := fmutex_acquire in
  do! f := file_at file in
  let r := u32 (f_ref f - 1) in
  do! _ := file_put file (f_set_ref f r) in
  if 0 <? r then fmutex_release
  else
    do! _ := file_put file f_zero in
    do! fl := vget flist in
    do! f := file_at file in
    do! _ := file_put file (mk_file (f_ref f) (f_readp f) (f_writep f) (f_obj f) (f_offset f) (f_close f)
      (f_read f) (f_write f) (f_stat f) fl) in
    do! _ := vset (fun s => with_flist s file) in
    do! f := file_at file in
    do! _ := fmutex_release in
    match f_close f with
    | P_pipe_close =>
        do! p := pipe_at (f_obj f) in
        let '(q, freed, _) := pipe_close p (f_writep f) in
        vset (fun s => with_pipes s (if freed then delete (f_obj f) (pipes s) else <[f_obj f := q]> (pipes s)))
    | _ => vundef
    end.

Definition file_read (file : Z) (mem : list Z) : F (Z * list Z) :=
  do! f := file_at file in
  if f_readp f =? 0 then vret (-1, mem)
  else match f_read f with
       | PNull => vret (-1, mem)
       | fn => call_read fn file mem
       end.

Definition file_write (file : Z) (data : list Z) : F Z :=
  do! f := file_at file in
  if f_writep f =? 0 then vret (-1)
  else match f_write f with
       | PNull => vret (-1)
       | fn => call_write fn file data
       end.

(** What is stored in the buffer, if anything. *)
Definition file_stat (file : Z) : F (Z * option stat_t) :=
  do! f := file_at file in
  match f_stat f with
  | PNull => vret (-1, None)
  | fn => do! st := call_stat fn file in vret (0, Some st)
  end.

(** ** Descriptors *)

Fixpoint fd_loop (n : nat) (i file : Z) : F Z :=
  match n with
  | O => vret (-1)
  | S n =>
      do! l := vget open_files in
      do! x := vlift (lget l i) in
      if x =? 0 then
        do! file := file_dup file in
        do! l := vget open_files in
        do! l := vlift (lset l i file) in
        do! _ := vset (fun s => with_open_files s l) in
        vret i
      else fd_loop n (i + 1) file
  end.
Definition fd_alloc (file : Z) : F Z := fd_loop (Z.to_nat OPEN_FILES_COUNT) 0 file.

Section Open.
Context (dget : Z -> V (dstate T W) Z) (dcreate : Z -> Z -> Z -> V (dstate T W) Z).

Definition flag_set (flags f : Z) : bool := negb (Z.land flags f =? 0).

(** [dget] and [dcreate] are [dir_get] and [dir_create]. *)
Definition file_open (path flags : Z) : F Z :=
  do! dentry := on_dirs (dget path) in
  do! dentry := (if (dentry =? 0) && flag_set flags O_CREAT then on_dirs (dcreate path EXT2_TYPE_FILE 0)
                 else vret dentry) in
  if dentry =? 0 then vret (-1)
  else
    do! d := on_dirs (dent_at dentry) in
    let inode := d_inode d in
    do! _ := on_inodes (inode_lock inode) in
    do! i := on_dirs (idat inode) in
    if flag_set (i_mode i) EXT2_TYPE_DIR && negb (flags =? O_RDONLY) then
      do! _ := on_inodes (inode_unlock inode) in
      do! _ := on_dirs (dir_release dentry) in
      vret (-1)
    else
      do! file := file_alloc in
      do! fd := fd_alloc file in
      if fd =? -1 then
        do! _ := on_inodes (inode_unlock inode) in
        do! _ := on_dirs (dir_release dentry) in
        do! _ := file_close file in
        vret (-1)
      else
        do! f := file_at file in
        do! _ := file_put file (mk_file (f_ref f) (b2z (negb (flag_set flags O_WRONLY)))
          (b2z (flag_set flags O_WRONLY || flag_set flags O_RDWR)) inode 0
          P_file_close P_inode_read P_inode_write P_inode_stat (f_next f)) in
        do! i := on_dirs (idat inode) in
        do! _ := (if flag_set flags O_TRUNC && flag_set (i_mode i) EXT2_TYPE_FILE
                  then on_inodes (inode_trunc inode) else vret tt) in
        do! _ := on_inodes (inode_unlock inode) in
        vret fd.
End Open.

Definition file_init (d : dstate T W) (l : list Z) : fstate T W := mk_fstate ∅ 0 0 0 ∅ l d.
End File.

(** ** Descriptors: the lowest free one *)

(** The first slot of the list that is zero. *)
Fixpoint first_free (l : list Z) (i : Z) : option Z :=
  match l with
  | [] => None
  | x :: l => if x =? 0 then Some i else first_free l (i + 1)
  end.

Lemma first_free_spec (l : list Z) (i j : Z) :
  first_free l i = Some j -> i <= j /\ l !! Z.to_nat (j - i) = Some 0 /\
    forall k, i <= k < j -> exists x, l !! Z.to_nat (k - i) = Some x /\ x <> 0.
Proof.
  revert i. induction l as [|x l IH]; intros i E; cbn in E; [done|]. destruct (Z.eqb_spec x 0) as [->|Hx].
  - injection E as <-. rewrite Z.sub_diag. split; [lia|]. split; [done|]. intros k Hk. lia.
  - apply IH in E as (Hj & El & Hk). split; [lia|]. split.
    + replace (Z.to_nat (j - i)) with (S (Z.to_nat (j - (i + 1)))) by lia. done.
    + intros k Hki. destruct (decide (k = i)) as [->|]; [rewrite Z.sub_diag; by exists x|].
      destruct (Hk k ltac:(lia)) as (y & Hy & Hy0). exists y.
      replace (Z.to_nat (k - i)) with (S (Z.to_nat (k - (i + 1)))) by lia. done.
Qed.

Lemma first_free_none (l : list Z) (i : Z) : first_free l i = None -> Forall (fun x => x <> 0) l.
Proof.
  revert i. induction l as [|x l IH]; intros i E; [constructor|]. cbn in E. destruct (Z.eqb_spec x 0); [done|].
  constructor; [done|]. by apply (IH (i + 1)).
Qed.

Section Fd.
Context {T W : Type} `{!KTable T}.
Implicit Types s : fstate T W.

Lemma file_at_ok s (p : Z) (f : file_t) : files s !! p = Some f -> file_at p s = VRet f s.
Proof. intros E. unfold file_at. vauto. by rewrite E. Qed.

Lemma file_dup_ok s (p : Z) (f : file_t) :
  files s !! p = Some f -> fmutex s = 0 ->
  file_dup p s = VRet p (with_files s (<[p := f_set_ref f (u32 (f_ref f + 1))]> (files s))).
Proof.
  intros Hf Hm. unfold file_dup, fmutex_acquire, fmutex_release, vunlock, file_put. rewrite vbind_lock by done.
  vrun (file_at_ok (with_fmutex s 1) p f Hf). vauto. unfold vret, with_files, with_fmutex. cbn.
  rewrite Hm. done.
Qed.

(** The effect of [fd_alloc] when [i] is the lowest free descriptor. *)
Definition fd_taken s (i file : Z) (f : file_t) : fstate T W :=
  with_open_files (with_files s (<[file := f_set_ref f (u32 (f_ref f + 1))]> (files s)))
    (<[Z.to_nat i := file]> (open_files s)).

Lemma fd_loop_ok s (file : Z) (f : file_t) (n : nat) (i : Z) :
  files s !! file = Some f -> fmutex s = 0 -> 0 <= i -> (n + Z.to_nat i = length (open_files s))%nat ->
  fd_loop n i file s = match first_free (drop (Z.to_nat i) (open_files s)) i with
                       | Some j => VRet j (fd_taken s j file f)
                       | None => VRet (-1) s
                       end.
Proof.
  intros Hf Hm. revert i. induction n as [|n IH]; intros i Hi Hl; cbn [fd_loop].
  - rewrite drop_ge by lia. done.
  - vauto. destruct (lookup_lt_is_Some_2 (open_files s) (Z.to_nat i)) as [x Hx]; [lia|].
    assert (lget (open_files s) i = Ret x) as -> by (unfold lget; destruct (Z.ltb_spec i 0); [lia|]; by rewrite Hx).
    vauto. rewrite (drop_S _ _ _ Hx). cbn [first_free]. destruct (Z.eqb_spec x 0) as [->|Hx0].
    + vrun (file_dup_ok s file f Hf Hm). vauto. cbn [open_files with_files].
      rewrite lset_Ret by lia. vauto. done.
    + rewrite IH by lia. replace (Z.to_nat (i + 1)) with (S (Z.to_nat i)) by lia. done.
Qed.

(** A file gets the lowest free descriptor of the task and one more
    reference; with no free descriptor nothing changes and the result is -1. *)
Theorem fd_alloc_lowest s (file : Z) (f : file_t) :
  files s !! file = Some f -> fmutex s = 0 -> length (open_files s) = Z.to_nat OPEN_FILES_COUNT ->
  (exists i, 0 <= i < OPEN_FILES_COUNT /\ open_files s !! Z.to_nat i = Some 0 /\
     (forall k, 0 <= k < i -> exists x, open_files s !! Z.to_nat k = Some x /\ x <> 0) /\
     fd_alloc file s = VRet i (fd_taken s i file f)) \/
  (Forall (fun x => x <> 0) (open_files s) /\ fd_alloc file s = VRet (-1) s).
Proof.
  intros Hf Hm Hl. unfold fd_alloc. rewrite (fd_loop_ok s file f) by (done || lia). cbn [Z.to_nat]. rewrite drop_0.
  destruct (first_free (open_files s) 0) as [i|] eqn:E.
  - left. exists i. destruct (first_free_spec _ _ _ E) as (Hi & H0 & Hk). rewrite Z.sub_0_r in H0.
    apply lookup_lt_Some in H0 as Hlt. split; [unfold OPEN_FILES_COUNT in *; lia|]. split; [done|]. split; [|done].
    intros k Hki. specialize (Hk k Hki). by rewrite Z.sub_0_r in Hk.
  - right. split; [|done]. by apply (first_free_none _ 0).
Qed.

(** ** Closing *)

(** A file with further references loses one. *)
Lemma file_close_shared s (p : Z) (f : file_t) :
  files s !! p = Some f -> fmutex s = 0 -> 1 < f_ref f < 2 ^ 32 ->
  file_close p s = VRet tt (with_files s (<[p := f_set_ref f (f_ref f - 1)]> (files s))).
Proof.
  intros Hf Hm Hr. unfold file_close, fmutex_acquire, fmutex_release, vunlock, file_put. rewrite vbind_lock by done.
  vrun (file_at_ok (with_fmutex s 1) p f Hf). cbn zeta. vauto. rewrite u32_small by lia.
  destruct (Z.ltb_spec 0 (f_ref f - 1)); [|lia]. unfold vset, with_files, with_fmutex. cbn. by rewrite Hm.
Qed.

(** The last close of a file of any kind calls through a null pointer: its
    members were cleared before. *)
Theorem file_close_last_undef s (p : Z) (f : file_t) :
  files s !! p = Some f -> fmutex s = 0 -> f_ref f = 1 -> file_close p s = VUndef.
Proof.
  intros Hf Hm Hr. unfold file_close, fmutex_acquire, fmutex_release, vunlock, file_put. rewrite vbind_lock by done.
  vrun (file_at_ok (with_fmutex s 1) p f Hf). cbn zeta. vauto. rewrite Hr. cbn [Z.ltb Z.compare].
  change (0 <? u32 (1 - 1)) with false. cbn iota. vauto.
  erewrite vbind_ret; [|apply file_at_ok; cbn; by rewrite lookup_insert_eq]. vauto.
  erewrite vbind_ret; [|apply file_at_ok; cbn; by rewrite lookup_insert_eq]. vauto. done.
Qed.
End Fd.
