(* ===== verification/FileIO.v ===== *)
(** Reading and writing open files on ext2: the file objects, the inode cache
    and the file system, over ideal blocks, together. *)

From Stdlib Require Import ZArith Lia.
From stdpp Require Import base numbers list gmap.
From S2P Require Import Prelude Cstring HashTable Tables Lru Bytes Pipe Ext2 Ext2File Vfs Inode Dir File.

Section IO.
Context {T B : Type} `{!KTable T} `{!Blocks B} {laws : BlocksLaws B} (sb : ext2_sblock_t) (bgds : list ext2_bgd_t).
Context (d0 : ext2_bgd_t) (Hd0 : bgds !! 0%nat = Some d0).
Context (Hlog : log_block_size sb = 0).
Context (Hpg : 0 < blocks_pg sb <= 8192) (Htot : 0 < total_blocks sb < 2 ^ 32).

(** Reading beyond the end reads up to it. *)
Lemma read_content_clamp (st : B) (i : inode_t) (off n : Z) :
  0 <= off <= i_size i -> i_size i <= 12 * 1024 -> 0 <= n < 2 ^ 31 ->
  ext2_read_content sb bgds st i off n = ext2_read_content sb bgds st i off (Z.min n (i_size i - off)).
Proof using.
  intros Ho Hs Hn. unfold ext2_read_content. destruct (Z.ltb_spec (i_size i) off); [lia|].
  rewrite !u32_small by lia. destruct (Z.ltb_spec (i_size i) (off + n)), (Z.ltb_spec (i_size i) (off + Z.min n (i_size i - off)));
    try lia; f_equal; try lia; f_equal; lia.
Qed.

Lemma s32_small (x : Z) : 0 <= x < 2 ^ 31 -> s32 x = x.
Proof using.
  intros Hx. unfold s32, sext. rewrite wrap_small by lia. by destruct (Z.ltb_spec x (2 ^ (32 - 1))); [|lia].
Qed.

(** The inode in memory with other contents, and the disk. *)
Definition inode_now (s : icache T B) (p : Z) (c : icell B) (i : inode_t) (w : B) : icache T B :=
  with_fs (with_inodes s (<[p := cell_dat c i]> (inodes s))) w.

Context (p : Z) (ix : inode_idx_t).

Lemma inode_read_ok (s : icache T B) (c : icell B) (off n : Z) :
  let i := ic_dat c in let k := Z.min n (i_size i - off) in
  inodes s !! p = Some c -> ic_io c = Some (ext2_io sb bgds) -> file_ok sb bgds d0 (fs s) i ix ->
  0 <= off <= i_size i -> i_size i <= 12 * 1024 -> 0 <= n < 2 ^ 31 ->
  exists i' w, inode_read p off n s = VRet (k, off + k, fbytes (fs s) i off k) (inode_now s p c i' w) /\
    file_ok sb bgds d0 w i' ix /\ i_size i' = i_size i /\
    forall x, 0 <= x < 12 * 1024 -> fbyte w i' x = fbyte (fs s) i x.
Proof using laws Hd0 Hlog Hpg Htot.
  intros i k Hc Hio Hf Ho Hs Hn. assert (Hk : 0 <= k <= i_size i - off) by (unfold k; lia).
  destruct (read_content_ok sb bgds d0 Hd0 Hlog Hpg Htot (fs s) i ix off k Hf) as (l & w & E & Hf' & F); [lia..|].
  exists (with_blocks i l), w. split; [|done]. unfold inode_read, icell_at, icell_put. vauto. rewrite Hc. vauto.
  rewrite Hio. vauto. cbn [ext2_io io_read]. fold i. rewrite read_content_clamp by done. fold k. rewrite E. vauto.
  unfold vret. assert (Lf : Z.of_nat (length (fbytes (fs s) i off k)) = k)
    by (unfold fbytes; rewrite length_map, length_seq; lia). rewrite !Lf.
  rewrite s32_small by lia. do 3 f_equal. destruct (Z.eqb_spec k 0); [lia|]. by rewrite u32_small by lia.
Qed.

Lemma inode_write_ok (s : icache T B) (c : icell B) (data : list Z) (off : Z) :
  let i := ic_dat c in let n := Z.of_nat (length data) in
  inodes s !! p = Some c -> ic_io c = Some (ext2_io sb bgds) -> file_ok sb bgds d0 (fs s) i ix ->
  0 <= off <= i_size i -> off + n <= 12 * 1024 ->
  exists i' w, inode_write p data off s = VRet (n, off + n) (inode_now s p c i' w) /\
    file_ok sb bgds d0 w i' ix /\ i_size i' = Z.max (i_size i) (off + n) /\
    forall x, 0 <= x < 12 * 1024 -> fbyte w i' x =
      if (off <=? x) && (x <? off + n) then znth 0 data (x - off) else fbyte (fs s) i x.
Proof using laws Hd0 Hlog Hpg Htot.
  intros i n Hc Hio Hf Ho Hn.
  destruct (write_content_ok sb bgds d0 Hd0 Hlog Hpg Htot (fs s) i ix data off Hf Ho Hn)
    as (i' & w & E & Hf' & Esz & _ & _ & F & _). fold n in E, Esz, F.
  exists i', w. split; [|done]. unfold inode_write, icell_at, icell_put. vauto. rewrite Hc. vauto.
  rewrite Hio. vauto. cbn [ext2_io io_write]. fold i. rewrite E. vauto. unfold vret.
  rewrite s32_small by (unfold n in *; lia). do 2 f_equal. destruct (Z.eqb_spec n 0); [lia|].
  by rewrite u32_small by (unfold n in *; lia).
Qed.

Implicit Types s : fstate T B.

(** The inode cache of a state of the file layer. *)
Definition icache_of s : icache T B := ic (dirs s).
Definition with_icache s (x : icache T B) : fstate T B := with_dirs s (with_ic (dirs s) x).

Lemma on_inodes_run {A} s (m : V (icache T B) A) (a : A) (x : icache T B) :
  m (icache_of s) = VRet a x -> on_inodes m s = VRet a (with_icache s x).
Proof using. intros E. unfold icache_of in E. unfold on_inodes, on_dirs, on_ic, vzoom. by rewrite E. Qed.

(** A file open for reading, or for writing, on the inode [p]. *)
Definition reads (f : file_t) : Prop := f_readp f <> 0 /\ f_read f = P_inode_read /\ f_obj f = p.
Definition writes (f : file_t) : Prop := f_writep f <> 0 /\ f_write f = P_inode_write /\ f_obj f = p.

Lemma file_read_run s (q : Z) (f : file_t) (mem l : list Z) (r off : Z) (x : icache T B) :
  files s !! q = Some f -> reads f ->
  inode_read p (f_offset f) (Z.of_nat (length mem)) (icache_of s) = VRet (r, off, l) x ->
  file_read q mem s = VRet (r, l ++ drop (length l) mem)
    (with_files (with_icache s x) (<[q := f_set_offset f off]> (files s))).
Proof using.
  intros Hf (Hp & Hr & Ho) E. unfold file_read. vrun (file_at_ok s q f Hf).
  destruct (Z.eqb_spec (f_readp f) 0); [done|]. rewrite Hr. unfold call_read. vrun (file_at_ok s q f Hf).
  rewrite Ho. vrun (on_inodes_run s _ _ _ E). cbn beta iota. unfold file_put. vauto. done.
Qed.

Lemma file_write_run s (q : Z) (f : file_t) (data : list Z) (r off : Z) (x : icache T B) :
  files s !! q = Some f -> writes f ->
  inode_write p data (f_offset f) (icache_of s) = VRet (r, off) x ->
  file_write q data s = VRet r (with_files (with_icache s x) (<[q := f_set_offset f off]> (files s))).
Proof using.
  intros Hf (Hp & Hr & Ho) E. unfold file_write. vrun (file_at_ok s q f Hf).
  destruct (Z.eqb_spec (f_writep f) 0); [done|]. rewrite Hr. unfold call_write. vrun (file_at_ok s q f Hf).
  rewrite Ho. vrun (on_inodes_run s _ _ _ E). cbn beta iota. unfold file_put. vauto. done.
Qed.

(** The inode [p] is loaded and is a file of the disk. *)
Definition file_inode s (c : icell B) : Prop :=
  inodes (icache_of s) !! p = Some c /\ ic_io c = Some (ext2_io sb bgds) /\
  file_ok sb bgds d0 (fs (icache_of s)) (ic_dat c) ix /\ 0 <= i_size (ic_dat c) <= 12 * 1024.

(** A file is read as a stream: a read returns as many bytes as asked for, or
    those up to the end of the file, from the position of the file object on;
    the position advances by as many, and the next read goes on there. *)
Theorem file_read_stream s (q : Z) (f : file_t) (c : icell B) (mem1 mem2 : list Z) :
  let i := ic_dat c in let o := f_offset f in let w := fs (icache_of s) in
  let k1 := Z.min (Z.of_nat (length mem1)) (i_size i - o) in
  let k2 := Z.min (Z.of_nat (length mem2)) (i_size i - (o + k1)) in
  files s !! q = Some f -> reads f -> file_inode s c -> 0 <= o <= i_size i ->
  Z.of_nat (length mem1) < 2 ^ 31 -> Z.of_nat (length mem2) < 2 ^ 31 ->
  exists s1 s2 f', file_read q mem1 s = VRet (k1, fbytes w i o k1 ++ drop (Z.to_nat k1) mem1) s1 /\
    file_read q mem2 s1 = VRet (k2, fbytes w i (o + k1) k2 ++ drop (Z.to_nat k2) mem2) s2 /\
    files s2 !! q = Some f' /\ f_offset f' = o + k1 + k2.
Proof using laws Hd0 Hlog Hpg Htot.
  intros i o w k1 k2 Hf Hr (Hc & Hio & Hok & Hs) Ho H1 H2.
  destruct (inode_read_ok (icache_of s) c o (Z.of_nat (length mem1)) Hc Hio Hok Ho) as (i1 & w1 & E1 & Hok1 & Z1 & F1);
    [lia..|]. fold i k1 w in E1, F1, Z1.
  pose proof (file_read_run s q f mem1 _ _ _ _ Hf Hr E1) as R1.
  set (s1 := with_files _ _) in R1.
  assert (Hc1 : inodes (icache_of s1) !! p = Some (cell_dat c i1)) by (cbn; by rewrite lookup_insert_eq).
  assert (Hf1 : files s1 !! q = Some (f_set_offset f (o + k1))) by (cbn; by rewrite lookup_insert_eq).
  destruct (inode_read_ok (icache_of s1) (cell_dat c i1) (o + k1) (Z.of_nat (length mem2)) Hc1 Hio Hok1)
    as (i2 & w2 & E2 & _); cbn [cell_dat ic_dat]; [unfold k1 in *; fold i in Hs; lia..|].
  cbn [cell_dat ic_dat] in E2. rewrite Z1 in E2. fold k2 in E2.
  pose proof (file_read_run s1 q (f_set_offset f (o + k1)) mem2 _ _ _ _ Hf1 Hr E2) as R2.
  assert (Lf : forall a b, length (fbytes w i a b) = Z.to_nat b) by (intros; unfold fbytes; by rewrite length_map, length_seq).
  assert (Hk : 0 <= k1 <= i_size i - o) by (unfold k1; lia).
  assert (Hk2 : 0 <= k2 <= i_size i - (o + k1)) by (unfold k2; lia). fold i in Hs.
  assert (Ef : fbytes (fs (icache_of s1)) i1 (o + k1) k2 = fbytes w i (o + k1) k2) by (apply fbytes_ext; [lia|lia|exact F1]).
  rewrite Ef in R2. rewrite Lf in R1, R2. eexists s1, _, _. split; [exact R1|]. split; [exact R2|].
  split; [cbn; by rewrite lookup_insert_eq|done].
Qed.

(** Within the direct blocks and over ideal blocks, what is written through one open file is read through another one of the
    same inode: the write stores all bytes and returns their number, and a read
    of as many from the same position returns exactly them; both positions
    advance. *)
Theorem file_write_visible s (q1 q2 : Z) (f1 f2 : file_t) (c : icell B) (data mem : list Z) :
  let n := Z.of_nat (length data) in let o := f_offset f1 in
  q1 <> q2 -> files s !! q1 = Some f1 -> writes f1 -> files s !! q2 = Some f2 -> reads f2 -> f_offset f2 = o ->
  file_inode s c -> 0 <= o <= i_size (ic_dat c) -> o + n <= 12 * 1024 -> length mem = length data ->
  exists s1 s2, file_write q1 data s = VRet n s1 /\ file_read q2 mem s1 = VRet (n, data) s2 /\
    f_offset <$> files s2 !! q1 = Some (o + n) /\ f_offset <$> files s2 !! q2 = Some (o + n).
Proof using laws Hd0 Hlog Hpg Htot.
  intros n o Hq Hf1 Hw Hf2 Hr Ho2 (Hc & Hio & Hok & Hs) Ho Hn Hm. set (i := ic_dat c) in *.
  destruct (inode_write_ok (icache_of s) c data o Hc Hio Hok Ho Hn) as (i1 & w1 & E1 & Hok1 & Z1 & F1). fold n i in E1, F1, Z1.
  pose proof (file_write_run s q1 f1 data _ _ _ Hf1 Hw E1) as R1. set (s1 := with_files _ _) in R1.
  assert (Hc1 : inodes (icache_of s1) !! p = Some (cell_dat c i1)) by (cbn; by rewrite lookup_insert_eq).
  assert (Hf21 : files s1 !! q2 = Some f2) by (cbn; by rewrite lookup_insert_ne).
  destruct (inode_read_ok (icache_of s1) (cell_dat c i1) o (Z.of_nat (length mem)) Hc1 Hio Hok1)
    as (i2 & w2 & E2 & _); cbn [cell_dat ic_dat]; [fold n in Hn; lia..|].
  cbn [cell_dat ic_dat] in E2. rewrite Z1 in E2.
  assert (Hk : Z.min (Z.of_nat (length mem)) (Z.max (i_size i) (o + n) - o) = n) by (unfold n; lia).
  rewrite Hk in E2. rewrite <- Ho2 in E2 at 1.
  pose proof (file_read_run s1 q2 f2 mem _ _ _ _ Hf21 Hr E2) as R2.
  assert (Ef : fbytes (fs (icache_of s1)) i1 o n = data).
  { rewrite <- (znth_list_eq data (length data)) by done. unfold fbytes, n. rewrite Nat2Z.id.
    apply map_ext_in. intros z Hz%in_seq. cbn [icache_of s1 fs with_files with_icache dirs with_dirs ic with_ic].
    cbn. rewrite F1 by (unfold n in *; lia). unfold n.
    destruct (Z.leb_spec o (o + Z.of_nat z)); [|lia]. destruct (Z.ltb_spec (o + Z.of_nat z) (o + Z.of_nat (length data))); [|lia].
    cbn [andb]. f_equal. lia. }
  rewrite Ef, <- Hm, drop_all, app_nil_r in R2. eexists s1, _. split; [exact R1|]. split; [exact R2|]. cbn.
  rewrite lookup_insert_ne, !lookup_insert_eq by done. done.
Qed.
End IO.

(** ** A concrete file *)

Definition rfile0 : file_t := mk_file 2 1 0 4096 0 P_file_close P_inode_read P_inode_write P_inode_stat 0.
Definition wfile0 : file_t := mk_file 2 0 1 4096 0 P_file_close P_inode_read P_inode_write P_inode_stat 0.
Definition iocell0 : icell fun_blocks := mk_icell 0 1 0 file0 (Some (ext2_io sb0 [bgd0])).
Definition fstate0 : fstate num_table fun_blocks :=
  mk_fstate {[ 1 := wfile0; 2 := rfile0 ]} 0 0 0 ∅ (1 :: 2 :: replicate 14 0)
    (dir_empty (small_table 67 75 HT_PTRKEY) 0
      (mk_icache cache_table {[ 4096 := iocell0 ]} (mk_lru ∅ 0 0) 0 itfs0 disk0)).

Lemma file_inode0 : file_inode sb0 [bgd0] bgd0 4096 slot0 fstate0 iocell0.
Proof. split; [done|]. split; [done|]. split; [exact file0_ok|]. cbn. lia. Qed.

Lemma file_write_visible_witness :
  exists s1 s2, file_write 1 [7; 8; 9] fstate0 = VRet 3 s1 /\ file_read 2 [0; 0; 0] s1 = VRet (3, [7; 8; 9]) s2.
Proof.
  destruct (file_write_visible sb0 [bgd0] bgd0 eq_refl eq_refl ltac:(cbn; lia) ltac:(cbn; lia) 4096 slot0 fstate0
    1 2 wfile0 rfile0 iocell0 [7; 8; 9] [0; 0; 0]) as (s1 & s2 & E1 & E2 & _);
    [discriminate|reflexivity|split_and!; done|reflexivity|split_and!; done|reflexivity|exact file_inode0|cbn; lia|cbn; lia|reflexivity|].
  exact (ex_intro _ s1 (ex_intro _ s2 (conj E1 E2))).
Defined.

Lemma file_read_stream_witness :
  exists s1 s2, file_read 2 [5; 5] fstate0 = VRet (0, [5; 5]) s1 /\ file_read 2 [5] s1 = VRet (0, [5]) s2.
Proof.
  destruct (file_read_stream sb0 [bgd0] bgd0 eq_refl eq_refl ltac:(cbn; lia) ltac:(cbn; lia) 4096 slot0 fstate0
    2 rfile0 iocell0 [5; 5] [5]) as (s1 & s2 & f & E1 & E2 & _);
    [reflexivity|split_and!; done|exact file_inode0|cbn; lia|cbn; lia|cbn; lia|].
  exact (ex_intro _ s1 (ex_intro _ s2 (conj E1 E2))).
Defined.

Lemma fd_alloc_lowest_witness :
  exists i, fd_alloc 1 fstate0 = VRet i (fd_taken fstate0 i 1 wfile0).
Proof.
  destruct (fd_alloc_lowest fstate0 1 wfile0 eq_refl eq_refl eq_refl) as [(i & _ & _ & _ & E)|[H _]];
    [exact (ex_intro _ i E)|].
  exfalso. apply (Forall_lookup_1 _ _ 2%nat 0) in H; [by apply H|reflexivity].
Defined.
