(* ===== verification/Syscall.v ===== *)
(** The system calls (src/src/kernel/usr/syscall.c): the handlers, the table
    they are called through, and the files of a pipe. *)

From Stdlib Require Import ZArith Lia String.
From stdpp Require Import base numbers list gmap.
From S2P Require Import Prelude Cstring HashTable Tables Lru Bytes Pipe Ext2 Ext2File Vfs Inode Dir File.

(** ** The table *)

Inductive handler :=
| syscall_not_impl
| h_read | h_write | h_open | h_close | h_link | h_unlink | h_chdir | h_fstat | h_mkdir | h_dup | h_pipe | h_readdir.
#[export] Instance handler_eq_dec : EqDecision handler.
Proof. solve_decision. Defined.

Definition SYS_READ : Z := 3.
Definition SYS_WRITE : Z := 4.
Definition SYS_OPEN : Z := 5.
Definition SYS_CLOSE : Z := 6.
Definition SYS_LINK : Z := 9.
Definition SYS_UNLINK : Z := 10.
Definition SYS_CHDIR : Z := 12.
Definition SYS_FSTAT : Z := 28.
Definition SYS_MKDIR : Z := 39.
Definition SYS_DUP : Z := 41.
Definition SYS_PIPE : Z := 42.
Definition SYS_READDIR : Z := 460.
Definition SYSCALL_COUNT : Z := 461.

(** The table as [syscall_init] fills it. *)
Definition syscall_init : outcome (list handler) :=
  let t := replicate (Z.to_nat SYSCALL_COUNT) syscall_not_impl in
  let! t := lset t SYS_READ h_read in
  let! t := lset t SYS_WRITE h_write in
  let! t := lset t SYS_OPEN h_open in
  let! t := lset t SYS_CLOSE h_close in
  let! t := lset t SYS_LINK h_link in
  let! t := lset t SYS_UNLINK h_unlink in
  let! t := lset t SYS_CHDIR h_chdir in
  let! t := lset t SYS_FSTAT h_fstat in
  let! t := lset t SYS_MKDIR h_mkdir in
  let! t := lset t SYS_DUP h_dup in
  let! t := lset t SYS_PIPE h_pipe in
  lset t SYS_READDIR h_readdir.

(** [struct dirent] in the memory of the caller. *)
Record dirent_t := mk_dirent_t { dn_inode : Z; dn_name : list Z; dn_next : Z }.

Section Syscall.
Context {T W : Type} `{!KTable T}.
Local Notation F := (V (fstate T W)).
Context (falloc : gmap Z file_t -> Z) (junk_file : Z -> file_t).
Context (palloc : gmap Z pipe_t -> Z) (junk_pipe : Z -> list Z).
Context (dget : Z -> V (dstate T W) Z) (dcreate : Z -> Z -> Z -> V (dstate T W) Z).

(** [current_task->open_files[fd]] *)
Definition fd_file (fd : Z) : F Z := do! l := vget open_files in vlift (lget l fd).
Definition fd_set (fd file : Z) : F unit :=
  do! l := vget open_files in
  do! l := vlift (lset l fd file) in
  vset (fun s => with_open_files s l).

Definition syscall_read (fd : Z) (mem : list Z) : F (Z * list Z) :=
  do! file := fd_file fd in file_read file mem.

(** The function has no [return]: its value is not that of [file_write]. *)
Definition syscall_write (fd : Z) (data : list Z) : F unit :=
  do! file := fd_file fd in
  do! _ := file_write file data in
  vret tt.

Definition syscall_close (fd : Z) : F Z :=
  do! file := fd_file fd in
  do! _ := file_close file in
  do! _ := fd_set fd 0 in
  vret 1.

Definition syscall_fstat (fd : Z) : F (Z * option stat_t) :=
  do! file := fd_file fd in file_stat file.

Definition syscall_dup (old_fd : Z) : F Z :=
  do! file := fd_file old_fd in fd_alloc file.

Definition syscall_open (path flags : Z) : F Z := file_open falloc junk_file dget dcreate path flags.

(** [pipe_alloc] of pipe.c: the two files and the pipe. *)
Definition pipe_files (size type : Z) : F (Z * Z) :=
  do! r := file_alloc falloc junk_file in
  do! w := file_alloc falloc junk_file in
  do! m := vget pipes in
  let p := palloc m in
  do! _ := vset (fun s => with_pipes s (<[p := pipe_alloc size type (junk_pipe size)]> (pipes s))) in
  do! fr := file_at r in
  do! _ := file_put r (mk_file (f_ref fr) 1 0 p (f_offset fr) P_pipe_close P_pipe_read (f_write fr) (f_stat fr) (f_next fr)) in
  do! fw := file_at w in
  do! _ := file_put w (mk_file (f_ref fw) 0 1 p (f_offset fw) P_pipe_close (f_read fw) P_pipe_write (f_stat fw) (f_next fw)) in
  vret (r, w).

(** The result, and the descriptors stored in the caller's array. *)
Definition syscall_pipe : F (Z * option (Z * Z)) :=
  do! (read, write) := pipe_files 1024 PIPE_TYPE_UNBUFFERED in
  do! rfd := fd_alloc read in
  if rfd =? -1 then
    do! _ := file_close read in
    do! _ := file_close write in
    vret (-1, None)
  else
    do! wfd := fd_alloc write in
    if wfd =? -1 then
      do! _ := fd_set rfd 0 in
      do! _ := file_close read in
      do! _ := file_close write in
      vret (-1, None)
    else vret (0, Some (rfd, wfd)).

(** ** Directories *)

Section Dirs.
Context (dlink : Z -> Z -> V (dstate T W) Z) (dunlink : Z -> V (dstate T W) Z).
Context (dmake : Z -> Z -> V (dstate T W) Z) (dchange : Z -> V (dstate T W) Z).

Definition syscall_link (oldpath newpath : Z) : F Z := on_dirs (dlink oldpath newpath).
Definition syscall_unlink (path : Z) : F Z := on_dirs (dunlink path).
Definition syscall_mkdir (path mode : Z) : F Z := on_dirs (dmake path mode).
Definition syscall_chdir (path : Z) : F Z := on_dirs (dchange path).
End Dirs.

(** The list [syscall_readdir] builds, from the first to the last entry, with
    fuel for as many children as there are entries in the cache; [junk] is the
    memory of a new entry.  The [memset] of an entry clears no byte, and its
    [next] is set only when there is a further one. *)
Fixpoint readdir_loop (fuel : nat) (junk : nat -> dirent_t) (k : nat) (child : Z) : F (list dirent_t) :=
  match fuel with
  | O => fun _ => VNoFuel
  | S fuel =>
      if child =? 0 then vret []
      else
        do! d := on_dirs (dent_at child) in
        do! i := on_dirs (idat (d_inode d)) in
        do! path := on_dirs (str_at (d_path d)) in
        let slen := strlen path in
        let n := if slen <? 256 then slen else 256 in
        do! b := vlift (slice path 0 n) in
        do! name := vlift (splice (dn_name (junk k)) 0 b) in
        do! l := readdir_loop fuel junk (S k) (d_next_sib d) in
        vret (mk_dirent_t (i_n i) name (dn_next (junk k)) :: l)
  end.

(** The entries, or [None] when the function returns -1 without storing; on
    success it has no [return]. *)
Definition syscall_readdir (junk : nat -> dirent_t) (path : Z) : F (option (list dirent_t)) :=
  do! dir := on_dirs (dget path) in
  if dir =? 0 then vret None
  else
    do! d := on_dirs (dent_at dir) in
    if d_children d =? 0 then vret None
    else
      do! m := vget (fun s => dentries (dirs s)) in
      do! l := readdir_loop (S (base.size m)) junk 0 (d_children d) in
      vret (Some l).
End Syscall.

(** ** The table *)

(** The numbers that have a handler. *)
Definition handler_of (n : Z) : handler :=
  if n =? SYS_READ then h_read else if n =? SYS_WRITE then h_write else if n =? SYS_OPEN then h_open
  else if n =? SYS_CLOSE then h_close else if n =? SYS_LINK then h_link else if n =? SYS_UNLINK then h_unlink
  else if n =? SYS_CHDIR then h_chdir else if n =? SYS_FSTAT then h_fstat else if n =? SYS_MKDIR then h_mkdir
  else if n =? SYS_DUP then h_dup else if n =? SYS_PIPE then h_pipe else if n =? SYS_READDIR then h_readdir
  else syscall_not_impl.

(** Every number below the size of the table has its own handler, and all
    others the one that reports an error. *)
Theorem syscall_table_complete :
  syscall_init = Ret (map (fun k => handler_of (Z.of_nat k)) (seq 0 (Z.to_nat SYSCALL_COUNT))).
Proof. vm_compute. reflexivity. Qed.

(** The numbers of the header, with the two gaps it leaves and the last one,
    the size of the table. *)
Definition sys_numbers : list (string * Z) :=
  let from n (names : list string) := imap (fun i name => (name, n + Z.of_nat i)) names in
  from 0 ["SETUP"; "EXIT"; "FORK"; "READ"; "WRITE"; "OPEN"; "CLOSE"; "WAITPID"; "CREAT"; "LINK"; "UNLINK"; "EXECVE"; "CHDIR";
    "TIME"; "MKNOD"; "CHMOD"; "LCHOWN"]%string ++
  from 18 ["STAT"; "LSEEK"; "GETPID"; "MOUNT"; "OLDMOUNT"; "SETUID"; "GETUID"; "STIME"; "PTRACE"; "ALARM"; "FSTAT"; "PAUSE"; "UTIME"]%string ++
  from 33 ["ACCESS"; "NICE"]%string ++
  from 36 ["SYNC"; "KILL"; "RENAME"; "MKDIR"; "RMDIR"; "DUP"; "PIPE"]%string ++
  from 460 ["READDIR"; "COUNT"]%string.

(** The calls of the header that have a handler. *)
Theorem sys_numbers_implemented :
  map fst (List.filter (fun p => negb (bool_decide (handler_of p.2 = syscall_not_impl))) sys_numbers) =
    ["READ"; "WRITE"; "OPEN"; "CLOSE"; "LINK"; "UNLINK"; "CHDIR"; "FSTAT"; "MKDIR"; "DUP"; "PIPE"; "READDIR"]%string.
Proof. vm_compute. reflexivity. Qed.

(** [call *(%ebx, %eax, 4)] in syscall_entry.S: the number is not compared with
    the size of the table. *)
Definition syscall_handler (table : list handler) (eax : Z) : outcome handler := lget table eax.

(** A number of the table is dispatched to its handler; another one calls
    whatever lies behind the table. *)
Theorem syscall_dispatch (n : Z) : 0 <= n ->
  (let! t := syscall_init in syscall_handler t n) = if n <? SYSCALL_COUNT then Ret (handler_of n) else Undef.
Proof.
  intros Hn. rewrite syscall_table_complete. cbn [obind]. unfold syscall_handler.
  destruct (Z.ltb_spec n SYSCALL_COUNT) as [H|H]; unfold SYSCALL_COUNT in H.
  - apply lget_Ret. split; [done|]. rewrite list_lookup_fmap, lookup_seq_lt by (unfold SYSCALL_COUNT; lia). cbn. by rewrite Z2Nat.id.
  - unfold lget. destruct (Z.ltb_spec n 0); [lia|].
    rewrite lookup_ge_None_2; [done|]. rewrite length_map, length_seq. unfold SYSCALL_COUNT. lia.
Qed.

(** ** Descriptors *)

Section Fds.
Context {T W : Type} `{!KTable T}.
Implicit Types s : fstate T W.

(** A descriptor outside the array of the task is not rejected. *)
Theorem fd_not_checked s (fd : Z) (mem : list Z) :
  length (open_files s) = Z.to_nat OPEN_FILES_COUNT -> fd < 0 \/ OPEN_FILES_COUNT <= fd ->
  syscall_read fd mem s = VUndef /\ syscall_write fd mem s = VUndef /\ syscall_close fd s = VUndef /\
  syscall_fstat fd s = VUndef /\ syscall_dup fd s = VUndef.
Proof.
  intros Hl Hfd. assert (E : fd_file fd s = VUndef).
  { unfold fd_file. vauto. unfold lget. destruct (Z.ltb_spec fd 0); [done|].
    rewrite lookup_ge_None_2 by (unfold OPEN_FILES_COUNT in *; lia). done. }
  unfold syscall_read, syscall_write, syscall_close, syscall_fstat, syscall_dup.
  split_and!; by apply vbind_undef.
Qed.

(** A descriptor obtained for a fresh file and closed again: closing gives the
    descriptor back but not the file, which keeps the reference it was created
    with and stays allocated. *)
Theorem open_close_leaks s (file fd : Z) (f : file_t) :
  files s !! file = Some f -> file <> 0 -> f_ref f = 1 -> fmutex s = 0 ->
  length (open_files s) = Z.to_nat OPEN_FILES_COUNT -> first_free (open_files s) 0 = Some fd ->
  exists s1 s2, fd_alloc file s = VRet fd s1 /\ syscall_close fd s1 = VRet 1 s2 /\
    files s2 !! file = Some f /\ open_files s2 = open_files s /\ flist s2 = flist s.
Proof.
  intros Hf Hnz Hr Hm Hl Hfd. destruct (first_free_spec _ _ _ Hfd) as (Hi & H0 & _). rewrite Z.sub_0_r in H0.
  apply lookup_lt_Some in H0 as Hlt. eexists _, _. unfold fd_alloc. rewrite (fd_loop_ok s file f) by (done || lia).
  cbn [Z.to_nat]. rewrite drop_0, Hfd. split; [done|]. set (s1 := fd_taken s fd file f).
  assert (E1 : fd_file fd s1 = VRet file s1).
  { unfold fd_file. vauto. cbn [s1 fd_taken open_files with_open_files]. unfold lget.
    destruct (Z.ltb_spec fd 0); [lia|]. by rewrite list_lookup_insert_eq by lia. }
  unfold syscall_close. vrun E1. set (f1 := f_set_ref f (u32 (f_ref f + 1))).
  assert (Hf1 : files s1 !! file = Some f1) by (cbn; by rewrite lookup_insert_eq).
  assert (Hr1 : f_ref f1 = 2) by (unfold f1; cbn; by rewrite Hr).
  vrun (file_close_shared s1 file f1 Hf1 Hm ltac:(lia)). unfold fd_set. vauto.
  cbn [open_files s1 fd_taken with_files with_open_files]. rewrite lset_Ret by (rewrite length_insert; lia). vauto.
  split; [done|]. cbn. rewrite lookup_insert_eq. split_and!; [|by rewrite list_insert_insert_eq, list_insert_id|done].
  f_equal. unfold f_set_ref, f1. cbn. rewrite Hr. destruct f; cbn in *. by subst.
Qed.
End Fds.
