(* ===== verification/Boot.v ===== *)
(** The file layer run on a concrete disk: from the bytes of an ext2 file
    system with one file, through the start of the directory cache, to path
    lookup, reading a file and creating one. *)

From Stdlib Require Import ZArith Lia.
From stdpp Require Import base numbers list gmap.
From S2P Require Import Prelude Cstring HashTable Tables Lru Bytes Ext2 Ext2File Vfs Inode Dir DirLookup Ext2Dir Ext2Link Pipe File Syscall.

(** ** The disk *)

Definition bytes_or (o : outcome (list Z)) : list Z := match o with Ret l => l | _ => [] end.

(** The root directory is inode 2 with block 10; the file is inode 12 with block
    11 and the contents "hello". *)
Definition root_inode : inode_t := mk_inode 0 2 0x41ED 2 1024 0 0 0 0 0 (10 :: replicate 14 0).
Definition hello_inode : inode_t := mk_inode 0 12 0x81A4 1 5 0 0 0 0 0 (11 :: replicate 14 0).
Definition hello : list Z := [104; 101; 108; 108; 111].

Definition root_block : list Z :=
  dir_entry_bytes 2 12 1 2 [DOT] ++ [0; 0; 0] ++ dir_entry_bytes 2 12 2 2 [DOT; DOT] ++ [0; 0] ++
  dir_entry_bytes 12 1000 2 1 [104; 105] ++ replicate 990 0.

(** The superblock: 64 blocks in one group, 32 inodes of 128 bytes. *)
Definition sblock_bytes : list Z :=
  bytes_or (
    let! b := store_le (replicate 1024 0) 4 4 64 in
    let! b := store_le b 32 4 64 in
    let! b := store_le b 40 4 32 in
    let! b := store_le b 56 2 EXT2_SIGNATURE in
    store_le b 88 2 128).
Definition bgd_bytes : list Z :=
  bytes_or (
    let! b := store_le (replicate 1024 0) 0 4 3 in
    let! b := store_le b 4 4 4 in
    store_le b 8 4 5).

Definition boot_disk : fun_blocks := fun _ k =>
  if k =? 1 then sblock_bytes
  else if k =? 2 then bgd_bytes
  else if k =? 3 then [0xFF; 0x0F] ++ replicate 1022 0
  else if k =? 5 then bytes_or (store_inode (replicate 1024 0) (2 * DINODE_SIZE) root_inode)
  else if k =? 6 then bytes_or (store_inode (replicate 1024 0) (4 * DINODE_SIZE) hello_inode)
  else if k =? 10 then root_block
  else if k =? 11 then hello ++ replicate 1019 0
  else replicate 1024 0.

Definition boot_bgds : list ext2_bgd_t := bgd0 :: replicate 31 (mk_bgd 0 0 0).

(** ** The memory *)

Definition dalloc0 (m : gmap Z dentry_t) : Z := 0x1000 * (1 + Z.of_nat (base.size m)).
Definition iallocb (m : gmap Z (icell fun_blocks)) : Z := 0x100000 * (1 + Z.of_nat (base.size m)).
Definition salloc0 (m : gmap Z (list Z)) : Z := 0x1000000 * (1 + Z.of_nat (base.size m)).
Definition junk_dentry0 (p : Z) : dentry_t := mk_dentry 0 0 0 0 0 0 0 0 0 0 TNull.
Definition junk_bytes0 (p n : Z) : list Z := replicate (Z.to_nat n) 0xCC.
Definition stale0 (p : Z) : list Z := [0].

Definition boot_ditf : dir_itf num_table fun_blocks :=
  ext2_dir_itf sb0 boot_bgds iallocb junk_inode0 junk_links0 dalloc0 junk_dentry0 salloc0 junk_bytes0 stale0 zeroed.
Definition boot_ditfs : list (option (dir_itf num_table fun_blocks)) := [Some boot_ditf; None; None; None].

(** The order of [kernel_main]: the file system is registered before the inode
    cache is initialised, which keeps the interfaces. *)
Definition boot_itfs : list (option (fs_itf fun_blocks)) := [Some (ext2_itf sb0 boot_bgds); None; None; None].
Definition boot_start : dstate num_table fun_blocks :=
  dir_empty (small_table 67 75 HT_PTRKEY) 0 (inode_init cache_table boot_itfs boot_disk).

Definition boot : vres (dstate num_table fun_blocks) unit :=
  dir_init salloc0 junk_bytes0 stale0 boot_ditfs boot_start.

Definition run {A} (m : V (dstate num_table fun_blocks) A) : vres (dstate num_table fun_blocks) A :=
  match boot with VRet _ s => m s | VPanic => VPanic | VUndef => VUndef | VNoFuel => VNoFuel | VBlock => VBlock end.

(** The result of a run that returns. *)
Definition result {S A} (r : vres S A) : option A := match r with VRet a _ => Some a | _ => None end.
Definition blocks {S A} (r : vres S A) : bool := match r with VBlock => true | _ => false end.

Definition hi_path : list Z := [SLASH; 104; 105; 0].
Definition new_path : list Z := [SLASH; 110; 101; 119; 0].

Definition boot_get (path : list Z) : V (dstate num_table fun_blocks) Z :=
  do! p := str_new salloc0 path in dir_get salloc0 junk_bytes0 stale0 boot_ditfs p.
Definition boot_create (path mode device : Z) : V (dstate num_table fun_blocks) Z :=
  dir_create iallocb junk_inode0 junk_links0 dalloc0 junk_dentry0 salloc0 junk_bytes0 stale0 zeroed boot_ditfs
    path mode device.

(** ** The start *)

(** [ext2_init] reads the superblock and the descriptors from the disk and
    registers with both caches. *)
Theorem boot_superblock : ext2_init (fun n => replicate (Z.to_nat n) 0xCC) boot_disk 0 = Ret (Some (sb0, boot_bgds)).
Proof. vm_compute. reflexivity. Qed.

Theorem boot_registers :
  let no := mk_icache cache_table ∅ (mk_lru ∅ 0 0) 0 (replicate 4 None) boot_disk in
  ext2_register sb0 boot_bgds iallocb junk_inode0 junk_links0 dalloc0 junk_dentry0 salloc0 junk_bytes0 stale0 zeroed
    (replicate 4 None) 0 no = VRet boot_ditfs (with_itfs no boot_itfs).
Proof. reflexivity. Qed.

(** ** Lookup *)

(** The root is parsed at the start: the file of the root directory is found by
    its path, and by its name with a slash at the end; another name is not. *)
Theorem boot_lookup :
  result (run (boot_get hi_path)) = Some 0x2000 /\ result (run (boot_get [104; 105; SLASH; 0])) = Some 0x2000 /\
  result (run (boot_get new_path)) = Some 0.
Proof. split_and!; vm_compute; reflexivity. Qed.

(** Creating a file blocks: [dinode_alloc] returns the inode locked, and
    [dir_create] locks it again. *)
Theorem boot_create_blocks :
  blocks (run (do! p := str_new salloc0 new_path in boot_create p EXT2_TYPE_FILE 0)) = true.
Proof. vm_compute. reflexivity. Qed.

(** ** A file through the system calls *)

Definition falloc0 (m : gmap Z file_t) : Z := 0x500 + Z.of_nat (base.size m).
Definition cc_file (p : Z) : file_t := mk_file 9 9 9 9 9 PNull PNull PNull PNull 9.

Definition boot_files {A} (m : V (fstate num_table fun_blocks) A) : option A :=
  match boot with VRet _ s => result (m (file_init s (replicate 16 0))) | _ => None end.

Definition boot_open (path : list Z) (flags : Z) : V (fstate num_table fun_blocks) Z :=
  do! p := on_dirs (str_new salloc0 path) in
  syscall_open falloc0 cc_file (dir_get salloc0 junk_bytes0 stale0 boot_ditfs) boot_create p flags.

(** Opening the file and reading it in two pieces gives its contents, and then
    the end of the file. *)
Theorem boot_open_read :
  boot_files (
    do! fd := boot_open hi_path O_RDONLY in
    do! (n1, m1) := syscall_read fd [0; 0; 0] in
    do! (n2, m2) := syscall_read fd [0; 0; 0] in
    do! (n3, _) := syscall_read fd [0; 0; 0] in
    vret (fd, n1, m1, n2, m2, n3)) = Some (0, 3, [104; 101; 108], 2, [108; 111; 0], 0).
Proof. vm_compute. reflexivity. Qed.

(** What is written through one descriptor is read through another. *)
Theorem boot_write_read :
  boot_files (
    do! wfd := boot_open hi_path O_RDWR in
    do! rfd := boot_open hi_path O_RDONLY in
    do! _ := syscall_write wfd [72; 69] in
    do! (n, m) := syscall_read rfd [0; 0; 0; 0; 0; 0; 0] in
    vret (wfd, rfd, n, m)) = Some (0, 1, 5, [72; 69; 108; 108; 111; 0; 0]).
Proof. vm_compute. reflexivity. Qed.
