(* ===== verification/Shell.v ===== *)
(** The shell (src/src/kernel/usr/shell.c): reading and editing a line, telling
    the commands apart, and the commands as sequences of system calls. *)

From Stdlib Require Import ZArith Lia.
From stdpp Require Import base numbers list.
From S2P Require Import Prelude Cstring Bytes.

Definition STDIN : Z := 0.
Definition STDOUT : Z := 1.
Definition NEWLINE : Z := 10.
Definition BACKSPACE : Z := 8.

(** ** Reading a line *)

(** [shell_input] for the characters of the key symbols that are read: the
    buffer, what was echoed and the symbols left over; [None] when the task
    waits for the next one. *)
Fixpoint shell_input (keys : list Z) (buffer : list Z) (size i : Z) (out : list Z) :
    outcome (option (list Z * list Z * list Z)) :=
  if i <? size then
    match keys with
    | [] => Ret None
    | ascii :: keys =>
        if ascii =? 0 then shell_input keys buffer size i out
        else if ascii =? NEWLINE then
          let! buffer := lset buffer i 0 in
          Ret (Some (buffer, out ++ [ascii], keys))
        else if ascii =? BACKSPACE then
          if i =? 0 then shell_input keys buffer size i out
          else shell_input keys buffer size (i - 1) (out ++ [ascii])
        else
          let! buffer := lset buffer i ascii in
          shell_input keys buffer size (i + 1) (out ++ [ascii])
    end
  else Ret (Some (buffer, out, keys)).

(** ** The commands *)

(** A system call with its arguments; a path is its string. *)
Inductive req :=
| RWrite (fd : Z) (data : list Z)
| RRead (fd size : Z)
| RChdir (path : list Z)
| RReaddir (path : list Z)
| ROpen (path : list Z) (flags : Z)
| RFstat (fd : Z)
| RClose (fd : Z).

(** What a call leaves: its result, the contents of the buffer it was given, the
    member [size] of the status it filled in, and the names in the list of
    entries it built. *)
Record resp := mk_resp { r_ret : Z; r_mem : list Z; r_size : Z; r_names : list (list Z) }.

(** A program that makes system calls; [Crash] is an access outside an object. *)
Inductive prog :=
| Done
| Call (r : req) (k : resp -> prog)
| Crash.

(** The calls a program makes against an oracle, and how it ends. *)
Fixpoint trace (p : prog) (answer : req -> resp) : list req * bool :=
  match p with
  | Done => ([], true)
  | Crash => ([], false)
  | Call r k => let '(l, b) := trace (k (answer r)) answer in (r :: l, b)
  end.

(** [buffer[i]]; outside the buffer the program crashes. *)
Definition with_byte (buffer : list Z) (i : Z) (k : Z -> prog) : prog :=
  match lget buffer i with Ret c => k c | _ => Crash end.

(** The string at [&buffer[i]]. *)
Definition str_from (buffer : list Z) (i : Z) : list Z := cstr (drop (Z.to_nat i) buffer).

Definition shell_cd (buffer : list Z) : prog :=
  with_byte buffer 2 (fun c2 => if c2 =? 0 then Done else
  with_byte buffer 3 (fun c3 => if c3 =? 0 then Done else
  Call (RChdir (str_from buffer 3)) (fun _ => Done))).

Fixpoint write_names (names : list (list Z)) (k : prog) : prog :=
  match names with
  | [] => k
  | n :: names =>
      Call (RWrite STDOUT n) (fun _ => Call (RWrite STDOUT [NEWLINE]) (fun _ => write_names names k))
  end.

(** The list ends where the entries of the directory end. *)
Definition shell_ls : prog :=
  Call (RReaddir []) (fun r =>
  Call (RWrite STDOUT [NEWLINE]) (fun _ =>
  write_names (r_names r) (Call (RWrite STDOUT [NEWLINE]) (fun _ => Done)))).

Definition shell_echo (buffer : list Z) : prog :=
  with_byte buffer 4 (fun c4 => if c4 =? 0 then Done else
  with_byte buffer 5 (fun c5 => if c5 =? 0 then Done else
  Call (RWrite STDOUT (str_from buffer 5)) (fun _ =>
  Call (RWrite STDOUT [NEWLINE]) (fun _ => Done)))).

Definition FILE_NOT_FOUND : list Z := [102; 105; 108; 101; 32; 110; 111; 116; 32; 102; 111; 117; 110; 100; NEWLINE].
Definition SH_O_RDONLY : Z := Z.shiftl 1 1.

(** The buffer for the contents has the size of the member [size] and not of
    the file: a longer file is stored past its end, and at the latest the call
    that prints it reads there. *)
Definition CAT_BUFFER : Z := 4.

Definition shell_cat (buffer : list Z) : prog :=
  with_byte buffer 3 (fun c3 => if c3 =? 0 then Done else
  with_byte buffer 4 (fun c4 => if c4 =? 0 then Done else
  Call (ROpen (str_from buffer 4) SH_O_RDONLY) (fun r =>
  let fd := r_ret r in
  let rest :=
    Call (RFstat fd) (fun st =>
    let size := r_size st in
    Call (RRead fd size) (fun d =>
    if CAT_BUFFER <? size then Crash
    else Call (RWrite STDOUT (r_mem d)) (fun _ => Call (RClose fd) (fun _ => Done)))) in
  if fd =? -1 then Call (RWrite STDOUT FILE_NOT_FOUND) (fun _ => rest) else rest))).

Definition ERR_CMD1 : list Z :=
  [110; 111; 32; 107; 110; 111; 119; 110; 32; 99; 111; 109; 109; 97; 110; 100; 32; 34].
Definition ERR_CMD2 : list Z := [34; NEWLINE].

Definition shell_error (buffer : list Z) : prog :=
  Call (RWrite STDOUT ERR_CMD1) (fun _ =>
  Call (RWrite STDOUT (cstr buffer)) (fun _ =>
  Call (RWrite STDOUT ERR_CMD2) (fun _ => Done))).

(** [!memcmp(buffer, s, length s)] *)
Definition starts_with (buffer s : list Z) : bool := bool_decide (take (length s) buffer = s).

Definition CMD_LS : list Z := [108; 115].
Definition CMD_ECHO : list Z := [101; 99; 104; 111].
Definition CMD_CD : list Z := [99; 100].
Definition CMD_CAT : list Z := [99; 97; 116].

Definition shell_parse (buffer : list Z) : prog :=
  with_byte buffer 0 (fun c =>
  if c =? 0 then Done
  else if c =? 108 then (if starts_with buffer CMD_LS then shell_ls else shell_error buffer)
  else if c =? 101 then (if starts_with buffer CMD_ECHO then shell_echo buffer else shell_error buffer)
  else if c =? 99 then
    (if starts_with buffer CMD_CD then shell_cd buffer
     else if starts_with buffer CMD_CAT then shell_cat buffer
     else shell_error buffer)
  else shell_error buffer).

(** A round of [shell_main]: the prompt, a line, the command. *)
Definition SHELL_BUFFER : Z := 512.
Definition shell_round (cwd : list Z) (keys buffer : list Z) :
    outcome (option (list Z * prog * list Z * list Z)) :=
  let prompt := cwd ++ [32; 62; 32] in
  let! r := shell_input keys buffer SHELL_BUFFER 0 [] in
  Ret (match r with
       | Some (buffer, out, keys) => Some (prompt ++ out, shell_parse buffer, buffer, keys)
       | None => None
       end).

(** ** Line editing *)

(** The reference: the line as a list, a backspace takes the last character. *)
Fixpoint edit (line keys : list Z) : option (list Z * list Z * list Z) :=
  match keys with
  | [] => None
  | k :: keys =>
      if k =? 0 then edit line keys
      else if k =? NEWLINE then Some (line, [k], keys)
      else if k =? BACKSPACE then
        if decide (line = []) then edit line keys
        else (fun r => (r.1.1, k :: r.1.2, r.2)) <$> edit (take (length line - 1) line) keys
      else (fun r => (r.1.1, k :: r.1.2, r.2)) <$> edit (line ++ [k]) keys
  end.

Lemma take_shorter (line buffer : list Z) :
  take (length line) buffer = line -> take (length line - 1) buffer = take (length line - 1) line.
Proof. intros H. rewrite <- (f_equal (take (length line - 1)) H), take_take. f_equal. lia. Qed.

Lemma take_store (line buffer : list Z) (k : Z) :
  take (length line) buffer = line -> (length line < length buffer)%nat ->
  take (S (length line)) (<[length line := k]> buffer) = line ++ [k].
Proof.
  intros H Hb. rewrite (take_S_r _ _ k) by (apply list_lookup_insert_eq; lia).
  by rewrite take_insert_ge, H by lia.
Qed.

(** C29: Line editing is that of the reference: with fewer keys than the buffer
    holds, shell_input waits exactly when the reference has no complete line,
    and otherwise stores the edited line with a terminator, echoes what the
    reference echoes and leaves the keys behind the newline. *)
Theorem shell_input_edits (keys buffer line out : list Z) (size : Z) :
  Z.of_nat (length buffer) = size -> take (length line) buffer = line ->
  Z.of_nat (length line + length keys) < size ->
  match edit line keys with
  | None => shell_input keys buffer size (Z.of_nat (length line)) out = Ret None
  | Some (l, echo, rest) => exists buffer',
      shell_input keys buffer size (Z.of_nat (length line)) out = Ret (Some (buffer', out ++ echo, rest)) /\
      length buffer' = length buffer /\ take (S (length l)) buffer' = l ++ [0]
  end.
Proof.
  revert buffer line out. induction keys as [|k keys IH]; intros buffer line out Hb Hl Hs; cbn [edit shell_input].
  { destruct (Z.ltb_spec (Z.of_nat (length line)) size); [done|cbn in Hs; lia]. }
  cbn [length] in Hs. destruct (Z.ltb_spec (Z.of_nat (length line)) size); [|lia].
  destruct (Z.eqb_spec k 0); [apply IH; done || lia|]. destruct (Z.eqb_spec k NEWLINE) as [->|].
  { rewrite lset_Ret by lia. cbn [obind]. rewrite Nat2Z.id. eexists. split; [done|]. split; [apply length_insert|].
    apply take_store; done || lia. }
  destruct (Z.eqb_spec k BACKSPACE) as [->|].
  - destruct (decide (line = [])) as [->|Hne]; [cbn [length Z.of_nat Z.eqb]; apply (IH buffer []); done || lia|].
    assert (length line <> 0%nat) by (by destruct line).
    destruct (Z.eqb_spec (Z.of_nat (length line)) 0); [lia|].
    specialize (IH buffer (take (length line - 1) line) (out ++ [BACKSPACE]) Hb).
    rewrite length_take, Nat.min_l in IH by lia.
    replace (Z.of_nat (length line - 1)) with (Z.of_nat (length line) - 1) in IH by lia.
    specialize (IH (take_shorter _ _ Hl) ltac:(lia)).
    destruct (edit (take (length line - 1) line) keys) as [[[l echo] rest]|]; cbn; [|done].
    destruct IH as (b' & E & H1 & H2). exists b'. by rewrite E, <- app_assoc.
  - rewrite lset_Ret by lia. cbn [obind]. rewrite Nat2Z.id.
    specialize (IH (<[length line := k]> buffer) (line ++ [k]) (out ++ [k])). rewrite length_app, length_insert in IH.
    cbn [length] in IH. replace (Z.of_nat (length line + 1)) with (Z.of_nat (length line) + 1) in IH by lia.
    assert (take (length line + 1) (<[length line := k]> buffer) = line ++ [k]) as Ht.
    { rewrite Nat.add_1_r. apply take_store; done || lia. }
    specialize (IH Hb Ht ltac:(lia)).
    destruct (edit (line ++ [k]) keys) as [[[l echo] rest]|]; cbn; [|done].
    destruct IH as (b' & E & H1 & H2). exists b'. by rewrite E, <- app_assoc.
Qed.

(** The keys "lx", backspace, "s", newline give the line "ls". *)
Lemma shell_input_edits_witness : exists buffer',
  shell_input [108; 120; BACKSPACE; 115; NEWLINE; 97] (replicate 512 0) 512 0 [] =
    Ret (Some (buffer', [108; 120; BACKSPACE; 115; NEWLINE], [97])) /\
  length buffer' = 512%nat /\ take 3 buffer' = [108; 115; 0].
Proof.
  exact (shell_input_edits [108; 120; BACKSPACE; 115; NEWLINE; 97] (replicate 512 0) [] [] 512
    eq_refl eq_refl ltac:(cbn; lia)).
Defined.

(** A line that fills the buffer is left without a terminator. *)
Theorem shell_input_full :
  shell_input [97; 97; 97; 97] (replicate 4 1) 4 0 [] =
    Ret (Some ([97; 97; 97; 97], [97; 97; 97; 97], [])).
Proof. reflexivity. Qed.

Lemma with_byte_at (buffer : list Z) (i c : Z) (k : Z -> prog) :
  lget buffer i = Ret c -> with_byte buffer i k = k c.
Proof. unfold with_byte. by intros ->. Qed.

(** "cat" of a file of more than four bytes overflows its buffer, whatever the
    system calls answer. *)
Theorem shell_cat_overflow (path : list Z) (answer : req -> resp) :
  path <> [] -> Forall (fun c => c <> 0) path -> (forall fd, 4 < r_size (answer (RFstat fd))) ->
  (trace (shell_parse (CMD_CAT ++ [32] ++ path ++ [0])) answer).2 = false.
Proof.
  intros Hne Hp Hs. destruct path as [|c path]; [done|]. inversion Hp; subst.
  change (CMD_CAT ++ [32] ++ (c :: path) ++ [0]) with (99 :: 97 :: 116 :: 32 :: c :: path ++ [0]).
  set (buffer := 99 :: 97 :: 116 :: 32 :: c :: path ++ [0]).
  assert (shell_parse buffer = shell_cat buffer) as -> by reflexivity.
  unfold shell_cat. rewrite (with_byte_at buffer 3 32), (with_byte_at buffer 4 c) by reflexivity.
  rewrite (proj2 (Z.eqb_neq c 0)) by done. cbn [Z.eqb trace].
  destruct (r_ret _ =? -1); cbn [trace]; rewrite (proj2 (Z.ltb_lt CAT_BUFFER _)) by done; cbn [trace];
    reflexivity.
Qed.
