(* ===== verification/Stdio.v ===== *)
(** Standard input and output (src/src/kernel/io/stdio_handler.c): the two tasks
    between the keyboard, the pipes of the standard files and the console.  The
    theorems follow a character all the way: from the scan codes of a key to the
    symbol the shell reads, and from a write of a task to the console. *)

From Stdlib Require Import ZArith Lia.
From stdpp Require Import base numbers list gmap.
From S2P Require Import Prelude Queue Task Pipe Keyboard Printf Tables Ext2 Ext2File Inode Vfs File Syscall Boot.

(** A key symbol in memory. *)
Definition keysym_bytes (k : kb_keysym_t) : list Z :=
  [ascii k; ks_flags k; keysym k mod 256; keysym k / 256].

Section Data.
Context {T W D : Type}.

(** The variables of the file; [sio_out] is the console behind [putchar]. *)
Record stdio := mk_stdio {
  sio_files : fstate T W;
  last_code : kb_keysym_t;
  stdin_read : Z;
  stdin_write : Z;
  stdout_read : Z;
  stdout_write : Z;
  sio_out : D;
}.
Definition with_sfiles (s : stdio) (f : fstate T W) : stdio :=
  mk_stdio f (last_code s) (stdin_read s) (stdin_write s) (stdout_read s) (stdout_write s) (sio_out s).
Definition with_last (s : stdio) (k : kb_keysym_t) : stdio :=
  mk_stdio (sio_files s) k (stdin_read s) (stdin_write s) (stdout_read s) (stdout_write s) (sio_out s).
Definition with_out (s : stdio) (d : D) : stdio :=
  mk_stdio (sio_files s) (last_code s) (stdin_read s) (stdin_write s) (stdout_read s) (stdout_write s) d.
Definition with_stdin (s : stdio) (r w : Z) : stdio :=
  mk_stdio (sio_files s) (last_code s) r w (stdout_read s) (stdout_write s) (sio_out s).
Definition with_stdout (s : stdio) (r w : Z) : stdio :=
  mk_stdio (sio_files s) (last_code s) (stdin_read s) (stdin_write s) r w (sio_out s).
End Data.
Arguments stdio T W D : clear implicits.

Section Stdio.
Context {T W D : Type} `{!KTable T} `{!Output D}.
Local Notation M := (V (stdio T W D)).

Definition on_sfiles {A} (m : V (fstate T W) A) : M A := vzoom sio_files with_sfiles m.

(** [for (int i = 0; i < b_read; ++i) putchar(stdout_buffer[i]);] *)
Fixpoint put_loop (buffer : list Z) : M unit :=
  match buffer with
  | [] => vret tt
  | c :: buffer =>
      do! d := vget sio_out in
      do! d := vlift (putchar d c) in
      do! _ := vset (fun s => with_out s d) in
      put_loop buffer
  end.

(** A turn of [stdout_handler] up to its wait for the next write; the size of
    the read is the character ['\0']. *)
Definition stdout_handler : M unit :=
  do! f := vget stdout_read in
  do! (n, got) := on_sfiles (file_read f (replicate 0 0)) in
  put_loop (take (Z.to_nat n) got).

(** A turn of [stdin_handler] up to [task_block]. *)
Definition stdin_handler : M Z :=
  do! k := vget last_code in
  let k := stdin_keysym_to_char k in
  do! _ := vset (fun s => with_last s k) in
  do! f := vget stdin_write in
  on_sfiles (file_write f (keysym_bytes k)).

(** [task_force_switch] makes the input task [stdin_task] current; it runs one
    turn and blocks.  With a switch postponed the call comes back without that:
    the task is on the ready list and [last_code] waits for it.  Nobody waits on
    the pipe here, so the write leaves the scheduler alone. *)
Definition stdin_send_code (stdin_task : Z) (c : sched) (keycode : kb_keysym_t) : M sched :=
  do! _ := vset (fun s => with_last s keycode) in
  do! c := vlift (task_force_switch c stdin_task) in
  if current_task c =? stdin_task then
    do! _ := stdin_handler in
    vlift (task_block c BLOCKED)
  else vret c.

(** ** The start *)

Context (falloc : gmap Z file_t -> Z) (junk_file : Z -> file_t).
Context (palloc : gmap Z pipe_t -> Z) (junk_pipe : Z -> list Z).

(** The memory and the code of a new task; the addresses the tasks share. *)
Record task_mem := mk_tmem { tm_task : Z; tm_stack : Z; tm_kstack : Z; tm_func : Z }.
Context (terminate init dir : Z).
Definition new_kernel_task (m : task_mem) (s : sched) : outcome sched :=
  let! (s, _) := task_kernel_create_new s (tm_task m) (tm_stack m) (tm_kstack m) (tm_func m) terminate init dir in
  Ret s.

Definition stdin_init (m : task_mem) (c : sched) : M sched :=
  do! (r, w) := on_sfiles (pipe_files falloc junk_file palloc junk_pipe PIPE_SIZE PIPE_TYPE_UNBUFFERED) in
  do! _ := vset (fun s => with_stdin s r w) in
  vlift (new_kernel_task m c).

Definition stdout_init (m : task_mem) (c : sched) : M sched :=
  do! (r, w) := on_sfiles (pipe_files falloc junk_file palloc junk_pipe PIPE_SIZE PIPE_TYPE_BUF_CHAR) in
  do! _ := vset (fun s => with_stdout s r w) in
  do! c := vlift (new_kernel_task m c) in
  vlift (task_add_node c (tm_task m)).

Definition stdio_init (min mout : task_mem) (c : sched) : M sched :=
  do! c := stdin_init min c in stdout_init mout c.
End Stdio.

(** ** The pipes *)

Lemma length_contents (p : pipe_t) : length (contents p) = Z.to_nat (fill p).
Proof. unfold contents. by rewrite length_fmap, length_seqZ. Qed.

Definition char_pipe (p : pipe_t) : Prop :=
  pipe_ok p /\ p_type p = PIPE_TYPE_BUF_CHAR /\ read_open p = 1 /\ write_open p = 1.

(** A write that fits, into either kind of pipe. *)
Lemma pipe_write_fits (p : pipe_t) (data : list Z) :
  stream_pipe p \/ char_pipe p -> (length (contents p) + length data <= 4096)%nat ->
  exists p' m evs, pipe_write p data = Ret (PDone p' (Z.of_nat (length data)) m evs) /\
    contents p' = contents p ++ (u8 <$> data) /\
    (stream_pipe p -> stream_pipe p') /\ (char_pipe p -> char_pipe p').
Proof.
  intros Ht Hl. assert (pipe_ok p) as Hp by (by destruct Ht as [(? & _)|(? & _)]).
  rewrite length_contents in Hl. pose proof (fill_range p). pose proof (pk_fill p Hp).
  unfold pipe_write, pipe_write_body.
  assert ((p_type p =? PIPE_TYPE_BUF_CHAR) || (p_type p =? PIPE_TYPE_UNBUFFERED) = true) as ->
    by (by destruct Ht as [(_ & -> & _)|(_ & -> & _)]).
  destruct (unbuf_write_spec data p 0 Hp) as (p' & H' & Hc & R' & W' & T' & E).
  change (drop (Z.to_nat 0) data) with data. rewrite E. unfold PIPE_SIZE in *.
  rewrite decide_True by lia. rewrite take_ge in Hc by lia.
  rewrite Z.add_0_l. cbn [obind]. unfold pipe_write_end. rewrite (pk_size p' H'), umod_pos by done. cbn [obind].
  assert (s32 (Z.of_nat (length data)) = Z.of_nat (length data)) as ->.
  { unfold s32, sext, u32, wrap. rewrite Z.mod_small by lia. destruct (Z.ltb_spec (Z.of_nat (length data)) (2 ^ (32 - 1))); lia. }
  eexists p', _, _. split; [done|]. split; [done|]. unfold stream_pipe, char_pipe. rewrite R', W', T'. tauto.
Qed.

Lemma not_empty (p : pipe_t) : pipe_ok p -> contents p <> [] -> (b_read p =? b_write p) = false.
Proof.
  intros Hp Hc. rewrite (fill_empty p Hp). destruct (Z.eqb_spec (fill p) 0) as [E|]; [|done]. exfalso. apply Hc.
  apply nil_length_inv. by rewrite length_contents, E.
Qed.

(** A read of bytes that are there. *)
Lemma pipe_read_there (p : pipe_t) (mem : list Z) :
  stream_pipe p -> contents p <> [] ->
  exists p' evs, pipe_read p mem = Ret (PDone p' (Z.of_nat (length (take (length mem) (contents p))))
      (take (length mem) (contents p)) evs) /\
    stream_pipe p' /\ contents p' = drop (length mem) (contents p).
Proof.
  intros (Hp & Ht & Hr & Hw) Hc. unfold pipe_read. rewrite Hw. cbn [Z.eqb]. unfold pipe_read_body. rewrite Ht.
  cbn [Z.eqb PIPE_TYPE_UNBUFFERED]. unfold pipe_unbuf_read. rewrite (not_empty p Hp Hc). cbn [andb].
  destruct (unbuf_read_spec (length mem) p [] Hp) as (p' & -> & H' & Hc' & R' & W' & T'). cbn [obind app pipe_read_end].
  eexists p', _. split; [done|]. split; [|done]. unfold stream_pipe. by rewrite R', W', T'.
Qed.

(** The loop of the character pipe takes everything when the character is not
    there. *)
Lemma bufchar_loop_all (c : Z) (l : list Z) (fuel : nat) (p : pipe_t) (got : list Z) :
  pipe_ok p -> contents p = l -> c ∉ l -> (length l < fuel)%nat ->
  exists p', bufchar_loop fuel p c got = Ret (p', got ++ l) /\ pipe_ok p' /\ contents p' = [] /\
    p_type p' = p_type p /\ read_open p' = read_open p /\ write_open p' = write_open p.
Proof.
  revert p got fuel. induction l as [|x l IH]; intros p got fuel Hp Hc Hn Hf;
    (destruct fuel as [|fuel]; [cbn in Hf; lia|]); cbn [bufchar_loop].
  - rewrite (fill_empty p Hp). assert (fill p = 0) as ->.
    { pose proof (length_contents p) as E. rewrite Hc in E. pose proof (fill_range p). cbn in E. lia. }
    exists p. rewrite app_nil_r. split_and!; done.
  - rewrite (not_empty p Hp) by (by rewrite Hc). pose proof (length_contents p) as E. rewrite Hc in E. cbn in E.
    destruct (read_byte p Hp ltac:(lia)) as (y & o & -> & Hy & Hp1 & Hc1 & Hf1). cbn [obind]. rewrite Hy. cbn [obind].
    rewrite Hc in Hc1. injection Hc1 as <- Hl. rewrite not_elem_of_cons in Hn.
    rewrite (proj2 (Z.eqb_neq x c)) by (destruct Hn; congruence).
    destruct (IH _ (got ++ [x]) fuel Hp1 (eq_sym Hl) ltac:(tauto) ltac:(cbn in Hf; lia)) as (p' & -> & R).
    exists p'. rewrite <- app_assoc. split; [done|]. exact R.
Qed.

Lemma char_read_all (p : pipe_t) :
  char_pipe p -> contents p <> [] -> 0 ∉ contents p ->
  exists p' evs, pipe_read p [] = Ret (PDone p' (Z.of_nat (length (contents p))) (contents p) evs) /\
    char_pipe p' /\ contents p' = [].
Proof.
  intros (Hp & Ht & Hr & Hw) Hc Hn. unfold pipe_read. rewrite Hw. cbn [Z.eqb]. unfold pipe_read_body. rewrite Ht.
  cbn [Z.eqb Pos.eqb PIPE_TYPE_UNBUFFERED PIPE_TYPE_BUF_BLOCK PIPE_TYPE_BUF_CHAR]. unfold pipe_bufchar_read.
  rewrite (not_empty p Hp Hc). cbn [andb]. change (s8 (Z.of_nat (length []))) with 0.
  destruct (bufchar_loop_all 0 (contents p) (S (Z.to_nat (fill p))) p [] Hp eq_refl Hn) as (p' & E & H' & C' & T' & R' & W');
    [rewrite length_contents; lia|].
  unfold fill in E. rewrite E. cbn [obind app pipe_read_end]. eexists p', _. split; [done|]. split; [|done].
  unfold char_pipe. by rewrite R', W', T'.
Qed.

(** ** The files *)

Section Ends.
Context {T W D : Type} `{!KTable T} `{!Output D}.
Implicit Types s : fstate T W.

(** [f] is the reading or the writing end of the pipe at [p]. *)
Definition read_end s (f p : Z) : Prop :=
  exists fl, files s !! f = Some fl /\ f_readp fl = 1 /\ f_read fl = P_pipe_read /\ f_obj fl = p.
Definition write_end s (f p : Z) : Prop :=
  exists fl, files s !! f = Some fl /\ f_writep fl = 1 /\ f_write fl = P_pipe_write /\ f_obj fl = p.
Definition with_pipe s (p : Z) (q : pipe_t) : fstate T W := with_pipes s (<[p := q]> (pipes s)).

Lemma file_write_end s (f p : Z) (q q' : pipe_t) (data : list Z) (r : Z) m evs :
  write_end s f p -> pipes s !! p = Some q -> pipe_write q data = Ret (PDone q' r m evs) ->
  file_write f data s = VRet r (with_pipe s p q').
Proof.
  intros (fl & Hf & Hw & Hx & Ho) Hq E. unfold file_write. vrun (file_at_ok s f fl Hf). rewrite Hw, Hx. cbn [Z.eqb].
  unfold call_write. vrun (file_at_ok s f fl Hf). rewrite Ho. unfold pipe_at. vauto. rewrite Hq. vauto.
  unfold pipe_result. rewrite E. vauto. done.
Qed.

Lemma file_read_end s (f p : Z) (q q' : pipe_t) (mem got : list Z) (r : Z) evs :
  read_end s f p -> pipes s !! p = Some q -> pipe_read q mem = Ret (PDone q' r got evs) ->
  file_read f mem s = VRet (r, got) (with_pipe s p q').
Proof.
  intros (fl & Hf & Hw & Hx & Ho) Hq E. unfold file_read. vrun (file_at_ok s f fl Hf). rewrite Hw, Hx. cbn [Z.eqb].
  unfold call_read. vrun (file_at_ok s f fl Hf). rewrite Ho. unfold pipe_at. vauto. rewrite Hq. vauto.
  unfold pipe_result. rewrite E. vauto. done.
Qed.
End Ends.

(** ** The switch to the input task *)

(** A keyboard interrupt that can switch: no switch is postponed, and the input
    task is neither the running nor the idle task. *)
Definition switchable (c : sched) (task : Z) : Prop :=
  schedule_lock_counter c = 0 /\ postpone_switch_counter c = 0 /\ current_task c <> 0 /\ current_task c <> task /\
  task <> 0 /\ task <> idle_task c.

(** A switch that is not postponed, whatever the ready list looks like. *)
Lemma wrapper_runs (s : sched) (task : Z) :
  postpone_switch_counter s = 0 -> current_task s <> 0 -> task <> 0 ->
  exists s', task_switch_wrapper s task = Ret s' /\ current_task s' = task /\ idle_task s' = idle_task s /\ same_locks s s' /\
    (current_task s <> idle_task s -> schedule_tasks s' = schedule_tasks s) /\
    (current_task s = idle_task s -> task <> idle_task s ->
      schedule_tasks s' = idle_task s /\ next (tasks s' (idle_task s)) = schedule_tasks s).
Proof.
  intros P C T. unfold task_switch_wrapper, task_switch. rewrite P. cbn [Z.eqb negb].
  destruct (Z.eqb_spec (current_task s) (idle_task s)) as [E|E].
  - unfold task_add_node. rewrite tstore_nz by done. cbn [obind]. rewrite tstore_nz by done. cbn [obind].
    rewrite tstore_nz by done. cbn [obind]. rewrite tstore_nz by done. eexists. split; [done|]. simpl. split_and!; try done.
    intros _ Hne. split; [done|]. rewrite tput_ne by (simpl; congruence). rewrite tput_ne by (simpl; congruence).
    rewrite <- E, tput_eq. done.
  - cbn [obind]. rewrite tstore_nz by done. cbn [obind]. rewrite tstore_nz by done. eexists. split; [done|]. by split_and!.
Qed.

Lemma force_runs (c : sched) (task : Z) : switchable c task ->
  exists c1, task_force_switch c task = Ret c1 /\ current_task c1 = task /\ idle_task c1 = idle_task c /\
    schedule_lock_counter c1 = 0 /\ postpone_switch_counter c1 = 0 /\ schedule_tasks c1 = current_task c /\
    (current_task c = idle_task c -> next (tasks c1 (idle_task c)) = idle_task c).
Proof.
  intros (L & P & H0 & Hc & Ht & Hi). unfold task_force_switch. rewrite tstore_nz by done. cbn [obind].
  set (s1 := set_ready _ _). destruct (wrapper_runs s1 task) as (s2 & -> & C2 & I2 & [L2 P2] & R2 & N2); [done..|].
  cbn [obind]. simpl in *. rewrite (lock_unlock_counter s2 0) by (lia || rewrite L2; simpl; by rewrite L).
  eexists. split; [done|]. simpl. split_and!; try done; [congruence| |].
  - destruct (decide (current_task c = idle_task c)) as [E|E]; [rewrite E; by apply N2|by apply R2].
  - intros E. rewrite <- E at 2. by apply N2.
Qed.

(** When the idle task is interrupted it is put on the ready list twice and
    points to itself: the tasks that were ready are lost. *)
Theorem force_switch_from_idle (c : sched) (task : Z) : switchable c task -> current_task c = idle_task c ->
  exists c1, task_force_switch c task = Ret c1 /\ schedule_tasks c1 = idle_task c /\ next (tasks c1 (idle_task c)) = idle_task c.
Proof.
  intros Hsw Hi. destruct (force_runs c task Hsw) as (c1 & E & _ & _ & _ & _ & R & N). exists c1. by rewrite R, N.
Qed.

(** The switch happens, and when the input task blocks the interrupted task goes
    on. *)
Lemma input_turn (c : sched) (task : Z) : switchable c task ->
  exists c1 c2, task_force_switch c task = Ret c1 /\ current_task c1 = task /\
    task_block c1 BLOCKED = Ret c2 /\ switchable c2 task /\ current_task c2 = current_task c.
Proof.
  intros Hsw. destruct (force_runs c task Hsw) as (c1 & E1 & C1 & I1 & L1 & P1 & R1 & N1). destruct Hsw as (_ & _ & H0 & Hc & Ht & Hi).
  assert (Hcur : current_task c1 <> 0) by (by rewrite C1). exists c1. unfold task_block. rewrite tstore_nz by done. cbn [obind].
  set (s1 := set_tasks _ _). unfold task_schedule.
  destruct (update_counter_spec s1 Hcur) as (s2 & -> & C2 & R2 & I2 & [L2 P2] & _ & _ & Q2). cbn [obind].
  simpl in C2, R2, I2, L2, P2. rewrite P2, P1, R2, R1. cbn [Z.eqb negb]. destruct (Z.eqb_spec (current_task c) 0); [done|].
  rewrite tload_nz by done. cbn [obind].
  assert (Hfin : forall s3 s4, task_switch_wrapper s3 (current_task c) = Ret s4 -> current_task s4 = current_task c ->
    idle_task s4 = idle_task c -> schedule_lock_counter s4 = u32 (0 + 1) -> postpone_switch_counter s4 = 0 ->
    exists c2, (let! s := task_switch_wrapper s3 (current_task c) in task_unlock_scheduler s) = Ret c2 /\ switchable c2 task /\
      current_task c2 = current_task c).
  { intros s3 s4 -> C4 I4 L4 P4. cbn [obind]. rewrite (lock_unlock_counter s4 0) by (lia || done). eexists. split; [done|].
    split; [|done]. unfold switchable. simpl. rewrite C4, I4, P4. done. }
  assert (Hn : forall q, next (tasks s2 q) = next (tasks c1 q)).
  { intros q. rewrite (proj1 (Q2 q)). simpl. unfold tput. by destruct (Z.eqb_spec q (current_task c1)) as [->|]. }
  cbn [idle_task set_ready set_lists]. rewrite I2, I1. destruct (Z.eqb_spec (current_task c) (idle_task c)) as [E|E].
  - cbn [schedule_tasks set_ready set_lists]. rewrite E, Hn, (N1 E). rewrite E in *. destruct (Z.eqb_spec (idle_task c) 0); [done|]. cbn [negb].
    rewrite tload_nz by done. cbn [obind]. rewrite tstore_nz by done. cbn [obind]. set (s3 := set_ready _ _).
    destruct (wrapper_runs s3 (idle_task c)) as (s4 & E4 & C4 & I4 & [L4 P4] & _); [simpl; by rewrite P2|simpl; by rewrite C2|done|].
    destruct (Hfin s3 s4 E4) as (c2 & E2 & S2 & T2); [done|rewrite I4; simpl; congruence|rewrite L4; simpl; rewrite L2, L1; done|rewrite P4; simpl; congruence|].
    exists c2. by split_and!.
  - set (s3 := set_ready _ _). destruct (wrapper_runs s3 (current_task c)) as (s4 & E4 & C4 & I4 & [L4 P4] & _);
      [simpl; by rewrite P2|simpl; by rewrite C2|done|].
    destruct (Hfin s3 s4 E4) as (c2 & E2 & S2 & T2); [done|rewrite I4; simpl; congruence|rewrite L4; simpl; rewrite L2, L1; done|rewrite P4; simpl; congruence|].
    exists c2. by split_and!.
Qed.

(** ** From the keyboard to the shell *)

(** The keys the kernel turns into characters: scan code and character. *)
Definition typing_keys : list (Z * Z) :=
  zip letters (seqZ 97 26) ++ [(0x5A, 10); (0x29, 32); (0x66, 8); (0x49, 46); (0x4A, 47); (0x4E, 45)].

(** Pressing and releasing a key. *)
Definition stroke (b : Z) : list Z := [b; 0xF0; b].

Section Typed.
Context {Q : Type} `{!Fifo Q}.

Fixpoint type_bytes (k : kbd Q) (l : list Z) : outcome (kbd Q) :=
  match l with
  | [] => Ret k
  | b :: l => let! k := keyboard_handlecode k b in type_bytes k l
  end.

(** No code is pending and no modifier is held. *)
Definition key_ready (k : kbd Q) : Prop := fresh k /\ no_modifiers k /\ shift_flag k = 0.

Lemma type_bytes_app (k : kbd Q) (l l' : list Z) : type_bytes k (l ++ l') = let! k := type_bytes k l in type_bytes k l'.
Proof.
  revert k. induction l as [|b l IH]; intros k; [done|]. cbn. destruct (keyboard_handlecode k b); cbn; [apply IH|done..].
Qed.

Lemma typing_key (b ch : Z) : (b, ch) ∈ typing_keys ->
  (0 <= b < 0x84 /\ b <> 0x14) /\ exists c ks, scancode_table !! Z.to_nat b = Some c /\
    ascii (stdin_keysym_to_char ks) = ch /\ forall k : kbd Q, no_modifiers k -> shift_flag k = 0 ->
      keyboard_handle_keycode k c = deliver k ks /\ keyboard_handle_keycode k (Z.lor c KB_RELEASE_FLAG) = k.
Proof.
  intros H. cbv [typing_keys letters] in H. cbn in H.
  repeat (apply elem_of_cons in H as [[= -> ->]|H];
    [split; [lia|]; eexists _, _; split; [reflexivity|]; split;
      [|intros k (H1 & H2 & H3 & H4) H5; split; [|reflexivity]; unfold keyboard_handle_keycode;
        rewrite H1, H2, H3, H4, H5; reflexivity]; reflexivity|]).
  by apply elem_of_nil in H.
Qed.

Lemma stroke_ok (k : kbd Q) (b ch : Z) : (b, ch) ∈ typing_keys -> key_ready k ->
  exists k' ks, type_bytes k (stroke b) = Ret k' /\ delivered k' = delivered k ++ [ks] /\
    ascii (stdin_keysym_to_char ks) = ch /\ key_ready k'.
Proof.
  intros Hb (Hf & Hm & Hs). destruct (typing_key b ch Hb) as ([Hr H14] & c & ks & Hc & Ha & Hk).
  destruct (plain_code k b Hf Hr) as (codes & c1 & Hc1 & Hl & E). assert (c1 = c) as -> by congruence.
  unfold stroke. cbn [type_bytes]. rewrite E. cbn [obind].
  rewrite (proj1 (Hk (set_codes k codes 0) Hm Hs)). set (k1 := deliver _ _).
  assert (Hf1 : fresh k1) by (destruct Hf; split_and!; done).
  destruct (release_code k1 b Hf1 Hr H14) as (k2 & codes2 & c2 & -> & Hc2 & Hl2 & E3).
  assert (c2 = c) as -> by congruence. cbn [obind]. rewrite E3. cbn [obind].
  rewrite (proj2 (Hk (set_codes k1 codes2 0) Hm Hs)).
  eexists _, ks. split; [done|]. split; [done|]. split; [done|]. split; [|done]. destruct Hf1. split_and!; done.
Qed.

Lemma strokes_ok (l : list (Z * Z)) (k : kbd Q) : Forall (fun x => x ∈ typing_keys) l -> key_ready k ->
  exists k' kss, type_bytes k (concat (map (fun x => stroke x.1) l)) = Ret k' /\ delivered k' = delivered k ++ kss /\
    map (fun ks => ascii (stdin_keysym_to_char ks)) kss = map snd l /\ key_ready k'.
Proof.
  revert k. induction l as [|[b ch] l IH]; intros k Hl Hk.
  { exists k, []. by rewrite app_nil_r. }
  inversion Hl as [|? ? Hb Hl']; subst. cbn [map concat].
  destruct (stroke_ok k b ch Hb Hk) as (k1 & ks & E1 & D1 & A1 & R1).
  destruct (IH k1 Hl' R1) as (k2 & kss & E2 & D2 & A2 & R2).
  exists k2, (ks :: kss). rewrite type_bytes_app. cbn [fst]. rewrite E1. cbn [obind]. split; [done|].
  split; [by rewrite D2, D1, <- app_assoc|]. split; [|done]. cbn [map snd]. by rewrite A1, A2.
Qed.
End Typed.

Section Shell.
Context {T W D : Type} `{!KTable T} `{!Output D}.
Local Notation M := (V (stdio T W D)).
Implicit Types s : stdio T W D.

(** The symbols the keyboard delivers, one interrupt after the other. *)
Fixpoint send_codes (stdin_task : Z) (c : sched) (l : list kb_keysym_t) : M sched :=
  match l with
  | [] => vret c
  | k :: l => do! c := stdin_send_code stdin_task c k in send_codes stdin_task c l
  end.

(** The system call of [shell_input] and the member [ascii] of what it reads. *)
Definition shell_key : M Z :=
  do! (_, mem) := on_sfiles (syscall_read 0 (replicate 4 0)) in vlift (lget mem 0).
Fixpoint shell_keys (n : nat) : M (list Z) :=
  match n with
  | O => vret []
  | S n => do! c := shell_key in do! l := shell_keys n in vret (c :: l)
  end.

(** The standard input of the shell is the pipe at [p], which holds [l]. *)
Record stdin_holds s (p : Z) (l : list Z) : Prop := {
  si_write : write_end (sio_files s) (stdin_write s) p;
  si_read : read_end (sio_files s) (stdin_read s) p;
  si_fd : lget (open_files (sio_files s)) 0 = Ret (stdin_read s);
  si_pipe : exists q, pipes (sio_files s) !! p = Some q /\ stream_pipe q /\ contents q = l;
}.

Lemma stdin_with_pipe s (p : Z) (l l' : list Z) (q : pipe_t) (k : kb_keysym_t) :
  stdin_holds s p l -> stream_pipe q -> contents q = l' ->
  stdin_holds (with_sfiles (with_last s k) (with_pipe (sio_files s) p q)) p l'.
Proof.
  intros [Hw Hr Hf _] Hq Hc. split; cbn; try done. exists q. split; [by apply lookup_insert_eq|done].
Qed.

Lemma zoom_ret {A} (m : V (fstate T W) A) s (a : A) (f : fstate T W) :
  m (sio_files s) = VRet a f -> on_sfiles m s = VRet a (with_sfiles s f).
Proof. unfold on_sfiles, vzoom. by intros ->. Qed.

Lemma send_code_ok s (p task : Z) (c : sched) (l : list Z) (k : kb_keysym_t) :
  stdin_holds s p l -> switchable c task -> (length l + 4 <= 4096)%nat ->
  exists c' s', stdin_send_code task c k s = VRet c' s' /\ switchable c' task /\ current_task c' = current_task c /\
    stdin_holds s' p (l ++ (u8 <$> keysym_bytes (stdin_keysym_to_char k))).
Proof.
  intros Hs Hsw Hl. pose proof Hs as [Hw _ _ (q & Hq & Hst & Hc)].
  destruct (pipe_write_fits q (keysym_bytes (stdin_keysym_to_char k))) as (q' & m & evs & E & Hc' & Hst' & _);
    [by left|rewrite Hc; cbn; lia|].
  destruct (input_turn c task Hsw) as (c1 & c2 & E1 & T1 & E2 & S2 & T2).
  unfold stdin_send_code, stdin_handler. vauto. rewrite E1. vauto. rewrite T1, Z.eqb_refl. vauto. cbn [last_code with_last].
  set (s1 := with_last (with_last s k) (stdin_keysym_to_char k)).
  vrun (zoom_ret (file_write (stdin_write s1) (keysym_bytes (stdin_keysym_to_char k))) s1 4 _ (file_write_end (sio_files s1) _ p q q' _ 4 _ _ Hw Hq E)).
  rewrite E2. vauto. eexists c2, _. split; [done|]. split; [done|]. split; [done|]. change s1 with (with_last s (stdin_keysym_to_char k)).
  apply (stdin_with_pipe s p l); [done|by apply Hst'|by rewrite Hc', Hc].
Qed.

Lemma shell_key_ok s (p : Z) (k : kb_keysym_t) (l : list Z) :
  stdin_holds s p ((u8 <$> keysym_bytes k) ++ l) ->
  exists s', shell_key s = VRet (u8 (ascii k)) s' /\ stdin_holds s' p l.
Proof.
  intros Hs. pose proof Hs as [_ Hr Hf (q & Hq & Hst & Hc)].
  destruct (pipe_read_there q (replicate 4 0)) as (q' & evs & E & Hst' & Hc'); [done|by rewrite Hc|].
  rewrite Hc in E, Hc'. cbn in E. unfold shell_key.
  assert (E' : syscall_read 0 (replicate 4 0) (sio_files s) = VRet (4, u8 <$> keysym_bytes k) (with_pipe (sio_files s) p q')).
  { unfold syscall_read, fd_file. vauto. rewrite Hf. vauto. exact (file_read_end _ _ p q q' _ _ _ _ Hr Hq E). }
  vrun (zoom_ret _ s _ _ E'). cbn. eexists. split; [done|].
  replace s with (with_last s (last_code s)) by (by destruct s). by apply (stdin_with_pipe s p ((u8 <$> keysym_bytes k) ++ l) l).
Qed.

Lemma send_codes_ok (kss : list kb_keysym_t) s (p task : Z) (c : sched) (l : list Z) :
  stdin_holds s p l -> switchable c task -> (length l + 4 * length kss <= 4096)%nat ->
  exists c' s', send_codes task c kss s = VRet c' s' /\ current_task c' = current_task c /\
    stdin_holds s' p (l ++ concat (map (fun k => u8 <$> keysym_bytes (stdin_keysym_to_char k)) kss)).
Proof.
  revert s c l. induction kss as [|k kss IH]; intros s c l Hs Hsw Hl.
  { exists c, s. by rewrite app_nil_r. }
  cbn [length] in Hl. destruct (send_code_ok s p task c l k Hs Hsw ltac:(lia)) as (c1 & s1 & E1 & W1 & T1 & H1). cbn [send_codes]. vrun E1.
  destruct (IH s1 c1 _ H1 W1) as (c2 & s2 & E2 & T2 & H2); [rewrite length_app; cbn; lia|].
  exists c2, s2. split; [done|]. split; [congruence|]. cbn [map concat]. by rewrite app_assoc.
Qed.

Lemma shell_keys_ok (kss : list kb_keysym_t) s (p : Z) :
  stdin_holds s p (concat (map (fun k => u8 <$> keysym_bytes k) kss)) ->
  exists s', shell_keys (length kss) s = VRet (map (fun k => u8 (ascii k)) kss) s' /\ stdin_holds s' p [].
Proof.
  revert s. induction kss as [|k kss IH]; intros s Hs; [by exists s|].
  cbn [map concat] in Hs. destruct (shell_key_ok s p k _ Hs) as (s1 & E1 & H1).
  destruct (IH s1 H1) as (s2 & E2 & H2). exists s2. cbn [length shell_keys]. vrun E1. vrun E2. done.
Qed.

End Shell.

(** ** From a task to the console *)

Section Console.
Context {T W D : Type} `{!KTable T} `{!Output D}.
Implicit Types s : stdio T W D.

(** The standard output of the running task is the pipe at [p], which holds
    [l]. *)
Record stdout_holds s (p : Z) (l : list Z) : Prop := {
  so_write : write_end (sio_files s) (stdout_write s) p;
  so_read : read_end (sio_files s) (stdout_read s) p;
  so_fd : lget (open_files (sio_files s)) 1 = Ret (stdout_write s);
  so_pipe : exists q, pipes (sio_files s) !! p = Some q /\ char_pipe q /\ contents q = l;
}.

Lemma stdout_with_pipe s (p : Z) (l l' : list Z) (q : pipe_t) :
  stdout_holds s p l -> char_pipe q -> contents q = l' ->
  stdout_holds (with_sfiles s (with_pipe (sio_files s) p q)) p l'.
Proof.
  intros [Hw Hr Hf _] Hq Hc. split; cbn; try done. exists q. split; [by apply lookup_insert_eq|done].
Qed.

Definition text (l : list Z) : Prop := Forall (fun c => 0 < c < 256) l.

Lemma text_u8 (l : list Z) : text l -> u8 <$> l = l.
Proof. induction 1 as [|c l Hc _ IH]; [done|]. rewrite fmap_cons, IH. f_equal. apply u8_small. lia. Qed.

Lemma put_loop_ok (l : list Z) s (d : D) :
  text l -> print (sio_out s) l = Ret d -> put_loop l s = VRet tt (with_out s d).
Proof.
  intros Hl. revert s. induction Hl as [|c l Hc _ IH]; intros s E; cbn in E.
  { injection E as <-. by destruct s. }
  rewrite u8_small in E by lia. apply obind_inv in E as (d1 & E1 & E2). cbn [put_loop]. vauto. rewrite E1. vauto.
  by rewrite (IH (with_out s d1)).
Qed.

(** C28: What a task writes comes out on the console.  A write call of a text
    to the standard output, with room in its pipe, and a turn of the output
    task put on the console what was still in the pipe followed by the text,
    character by character, and leave the pipe empty. *)
Theorem stdout_prints s (p : Z) (l data : list Z) (d : D) :
  stdout_holds s p l -> text l -> text data -> l ++ data <> [] -> (length l + length data <= 4096)%nat ->
  print (sio_out s) (l ++ data) = Ret d ->
  exists s1 s2, on_sfiles (syscall_write 1 data) s = VRet tt s1 /\ sio_out s1 = sio_out s /\
    stdout_handler s1 = VRet tt s2 /\ sio_out s2 = d /\ stdout_holds s2 p [].
Proof.
  intros Hs Hl Hdt Hne Hlen Hp. pose proof Hs as [Hw _ Hf (q & Hq & Hst & Hc)].
  destruct (pipe_write_fits q data) as (q1 & m & evs & E & Hc1 & _ & Hst1); [by right|rewrite Hc; lia|].
  assert (E1 : syscall_write 1 data (sio_files s) = VRet tt (with_pipe (sio_files s) p q1)).
  { unfold syscall_write, fd_file. vauto. rewrite Hf. vauto. by vrun (file_write_end _ _ p q q1 _ _ _ _ Hw Hq E). }
  set (s1 := with_sfiles s (with_pipe (sio_files s) p q1)).
  assert (H1 : stdout_holds s1 p (l ++ data)).
  { apply (stdout_with_pipe s p l); [done|by apply Hst1|]. by rewrite Hc1, Hc, text_u8. }
  pose proof H1 as [_ Hr1 _ (q1' & Hq1 & Hch & Hct)].
  assert (Ht : text (l ++ data)) by (by apply Forall_app).
  destruct (char_read_all q1') as (q2 & evs2 & E2 & Hst2 & Hc2); [done|by rewrite Hct| |].
  { rewrite Hct. intros Hin. unfold text in Ht. rewrite Forall_forall in Ht. apply Ht in Hin. lia. }
  rewrite Hct in E2. exists s1. eexists. split.
  { unfold on_sfiles, vzoom. by rewrite E1. }
  split; [done|]. unfold stdout_handler. vauto.
  assert (E3 : file_read (stdout_read s1) (replicate 0 0) (sio_files s1) =
    VRet (Z.of_nat (length (l ++ data)), l ++ data) (with_pipe (sio_files s1) p q2))
    by exact (file_read_end _ _ p q1' q2 [] _ _ _ Hr1 Hq1 E2).
  vrun (zoom_ret _ s1 _ _ E3). cbn beta iota. rewrite Nat2Z.id, firstn_all.
  rewrite (put_loop_ok (l ++ data) (with_sfiles s1 (with_pipe (sio_files s1) p q2)) d Ht Hp).
  split; [done|]. split; [done|]. destruct (stdout_with_pipe s1 p _ [] q2 H1 Hst2 Hc2). by split.
Qed.
End Console.

(** ** The wait of the output task *)

(** Where the output task is: before a read, between the read and its wait, or
    waiting for a signal; what is written and read by others goes on meanwhile. *)
Inductive out_pos := AtRead | AtGap | AtWait.
#[export] Instance out_pos_eq_dec : EqDecision out_pos.
Proof. solve_decision. Defined.
#[export] Instance cond_eq_dec : EqDecision cond.
Proof. solve_decision. Defined.
#[export] Instance event_eq_dec : EqDecision event.
Proof. solve_decision. Defined.

Inductive out_step : out_pos * pipe_t -> out_pos * pipe_t -> Prop :=
| os_read p p' n got evs : pipe_read p [] = Ret (PDone p' n got evs) -> out_step (AtRead, p) (AtGap, p')
| os_wait p : out_step (AtGap, p) (AtWait, p)
| os_write pos p p' data n m evs :
    pipe_write p data = Ret (PDone p' n m evs) ->
    out_step (pos, p) (if decide (pos = AtWait /\ ESignal CRead ∈ evs) then AtRead else pos, p').

(** A signal that comes between the read and the wait is lost: a text can stay
    in the pipe with the output task waiting, and from there only a further
    write moves anything. *)
Theorem stdout_lost_wakeup (q : pipe_t) (a b : list Z) :
  char_pipe q -> contents q = [] -> text a -> text b -> a <> [] -> (length a <= 4096)%nat -> (length b <= 4096)%nat ->
  exists p, rtc out_step (AtRead, q) (AtWait, p) /\ contents p = b /\
    forall st : out_pos * pipe_t, out_step (AtWait, p) st -> exists data n m evs, pipe_write p data = Ret (PDone st.2 n m evs).
Proof.
  intros Hq Hc Ha Hb Hne La Lb.
  destruct (pipe_write_fits q a) as (p1 & m1 & e1 & E1 & C1 & _ & P1); [by right|by rewrite Hc|].
  rewrite Hc, text_u8 in C1 by done. cbn [app] in C1. specialize (P1 Hq).
  destruct (char_read_all p1 P1) as (p2 & e2 & E2 & P2 & C2); [by rewrite C1| |].
  { rewrite C1. intros Hin. unfold text in Ha. rewrite Forall_forall in Ha. apply Ha in Hin. lia. }
  destruct (pipe_write_fits p2 b) as (p3 & m3 & e3 & E3 & C3 & _ & _); [by right|by rewrite C2|].
  rewrite C2, text_u8 in C3 by done. exists p3. split; [|split; [done|]].
  - pose proof (os_write AtRead _ _ _ _ _ _ E1) as S1. rewrite decide_False in S1 by naive_solver.
    pose proof (os_write AtGap _ _ _ _ _ _ E3) as S3. rewrite decide_False in S3 by naive_solver.
    eapply rtc_l; [exact S1|]. eapply rtc_l; [exact (os_read _ _ _ _ _ E2)|].
    eapply rtc_l; [exact S3|]. apply rtc_once, os_wait.
  - intros st Hst. inversion Hst; subst. eauto.
Qed.

(** ** A concrete system *)

(** The standard files as [stdio_init] makes them and [task_user_create_new]
    hands them to the shell, on the file layer at its start. *)
Definition palloc0 (m : gmap Z pipe_t) : Z := 0x900 + Z.of_nat (base.size m).
Definition zero_pipe (size : Z) : list Z := replicate (Z.to_nat size) 0.
Definition no_stdio : stdio num_table fun_blocks (list Z) :=
  mk_stdio (file_init boot_start []) (mk_keysym 0 0 0) 0 0 0 0 [].
Definition user_files {T W D} (s : stdio T W D) : stdio T W D :=
  with_sfiles s (with_open_files (sio_files s) (stdin_read s :: stdout_write s :: replicate 14 0)).
Definition stdio0 : stdio num_table fun_blocks (list Z) :=
  match stdio_init falloc0 cc_file palloc0 zero_pipe 8 9 0x5000 (mk_tmem 600 0xE0000000 0xE0001000 7)
    (mk_tmem 700 0xE0002000 0xE0003000 6) (demo_sched 0) no_stdio with
  | VRet _ s => user_files s
  | _ => no_stdio
  end.

Lemma new_pipe_ok (type : Z) : pipe_ok (pipe_alloc PIPE_SIZE type (zero_pipe PIPE_SIZE)).
Proof. split; [done|by vm_compute|by vm_compute|by vm_compute]. Qed.

Lemma stdio0_stdin : stdin_holds stdio0 0x900 [].
Proof.
  split; [eexists; split; [vm_compute; reflexivity|done]..|reflexivity|].
  exists (pipe_alloc PIPE_SIZE PIPE_TYPE_UNBUFFERED (zero_pipe PIPE_SIZE)).
  split; [vm_compute; reflexivity|]. split; [|by vm_compute]. split; [apply new_pipe_ok|done].
Qed.

Lemma stdio0_stdout : stdout_holds stdio0 0x901 [].
Proof.
  split; [eexists; split; [vm_compute; reflexivity|done]..|reflexivity|].
  exists (pipe_alloc PIPE_SIZE PIPE_TYPE_BUF_CHAR (zero_pipe PIPE_SIZE)).
  split; [vm_compute; reflexivity|]. split; [|by vm_compute]. split; [apply new_pipe_ok|done].
Qed.


Lemma stdout_prints_witness :
  exists s1 s2, on_sfiles (syscall_write 1 [104; 105; 10]) stdio0 = VRet tt s1 /\
    stdout_handler (Output0 := log_output) s1 = VRet tt s2 /\ sio_out s2 = [104; 105; 10].
Proof.
  destruct (stdout_prints (Output0 := log_output) stdio0 0x901 [] [104; 105; 10] [104; 105; 10])
    as (s1 & s2 & E1 & _ & E2 & E3 & _).
  - exact stdio0_stdout.
  - constructor.
  - repeat constructor; lia.
  - done.
  - cbn. lia.
  - vm_compute. reflexivity.
  - exact (ex_intro _ s1 (ex_intro _ s2 (conj E1 (conj E2 E3)))).
Defined.
