(* ===== verification/Pic.v ===== *)
(** The legacy interrupt controllers (src/src/kernel/int/pic.c): two 8259s with
    eight lines each, of which the kernel uses the masks. *)

From Stdlib Require Import ZArith Lia.
From stdpp Require Import base numbers list.
From S2P Require Import Prelude Ports.

Definition PIC_ICW1_ICW4 : Z := 0x01.
Definition PIC_ICW1_INIT : Z := 0x10.
Definition PIC_ICW4_8086 : Z := 0x01.
Definition PIC1_COMMAND : Z := 0x20.
Definition PIC2_COMMAND : Z := 0xA0.
Definition PIC1_DATA : Z := 0x21.
Definition PIC2_DATA : Z := 0xA1.
Definition NEW_MAIN_OFFSET : Z := 0x20.
Definition NEW_SECONDARY_OFFSET : Z := 0x28.

Section Pic.
Context {W : Type} `{!PortIO W}.

(** The port and the line at it. *)
Definition pic_line (index : Z) : Z * Z :=
  if index <? 8 then (PIC1_DATA, index) else (PIC2_DATA, index - 8).

Definition pic_setmask (w : W) (index : Z) : W :=
  let '(port, index) := pic_line index in
  let '(v, w) := inb w port in
  outb w (u8 (Z.lor v (Z.shiftl 1 index))) port.

Definition pic_clearmask (w : W) (index : Z) : W :=
  let '(port, index) := pic_line index in
  let '(v, w) := inb w port in
  outb w (u8 (Z.land v (Z.lnot (Z.shiftl 1 index)))) port.

Definition pic_init (w : W) : W :=
  let w := io_wait (outb w (Z.lor PIC_ICW1_INIT PIC_ICW1_ICW4) PIC1_COMMAND) in
  let w := io_wait (outb w (Z.lor PIC_ICW1_INIT PIC_ICW1_ICW4) PIC2_COMMAND) in
  let w := io_wait (outb w NEW_MAIN_OFFSET PIC1_DATA) in
  let w := io_wait (outb w NEW_SECONDARY_OFFSET PIC2_DATA) in
  let w := io_wait (outb w 4 PIC1_DATA) in
  let w := io_wait (outb w 2 PIC2_DATA) in
  let w := io_wait (outb w PIC_ICW4_8086 PIC1_DATA) in
  let w := io_wait (outb w PIC_ICW4_8086 PIC2_DATA) in
  let w := outb w 0xFF PIC1_DATA in
  outb w 0xFF PIC2_DATA.

Definition pic_sendEOI (w : W) (irq : Z) : W :=
  let w := if 8 <=? irq then outb w 0x20 PIC2_COMMAND else w in
  outb w 0x20 PIC1_COMMAND.
End Pic.

(** ** The documented behaviour of the pair *)

(** An 8259 takes three further initialisation words at its data port after the
    first word at its command port; otherwise the data port is its mask, and a
    command with bit 4 clear is an end of interrupt. *)
Record pic8259 := mk_pic { pending : nat; vector_base : Z; cascade : Z; icw4 : Z; imr : Z; eois : Z }.

Definition pic_command (p : pic8259) (v : Z) : pic8259 :=
  if Z.testbit v 4 then mk_pic 3 (vector_base p) (cascade p) (icw4 p) 0 (eois p)
  else mk_pic (pending p) (vector_base p) (cascade p) (icw4 p) (imr p) (eois p + 1).
Definition pic_data (p : pic8259) (v : Z) : pic8259 :=
  match pending p with
  | 3%nat => mk_pic 2 v (cascade p) (icw4 p) (imr p) (eois p)
  | 2%nat => mk_pic 1 (vector_base p) v (icw4 p) (imr p) (eois p)
  | 1%nat => mk_pic 0 (vector_base p) (cascade p) v (imr p) (eois p)
  | _ => mk_pic 0 (vector_base p) (cascade p) (icw4 p) v (eois p)
  end.

Class PicLaws (W : Type) `{!PortIO W} := {
  pic1 : W -> pic8259;
  pic2 : W -> pic8259;
  pic_read1 w : exists w', inb w PIC1_DATA = (imr (pic1 w), w') /\ pic1 w' = pic1 w /\ pic2 w' = pic2 w;
  pic_read2 w : exists w', inb w PIC2_DATA = (imr (pic2 w), w') /\ pic1 w' = pic1 w /\ pic2 w' = pic2 w;
  pic_wait w : pic1 (io_wait w) = pic1 w /\ pic2 (io_wait w) = pic2 w;
  pic_write w v port :
    pic1 (outb w v port) = (if port =? PIC1_COMMAND then pic_command (pic1 w) v
      else if port =? PIC1_DATA then pic_data (pic1 w) v else pic1 w) /\
    pic2 (outb w v port) = (if port =? PIC2_COMMAND then pic_command (pic2 w) v
      else if port =? PIC2_DATA then pic_data (pic2 w) v else pic2 w);
}.

Section Proofs.
Context {W : Type} `{!PortIO W} {laws : PicLaws W}.

(** What each write changes. *)
Lemma pic1_command1 (w : W) (v : Z) : pic1 (outb w v PIC1_COMMAND) = pic_command (pic1 w) v.
Proof. apply (pic_write w v PIC1_COMMAND). Qed.
Lemma pic1_command2 (w : W) (v : Z) : pic1 (outb w v PIC2_COMMAND) = pic1 w.
Proof. apply (pic_write w v PIC2_COMMAND). Qed.
Lemma pic1_data1 (w : W) (v : Z) : pic1 (outb w v PIC1_DATA) = pic_data (pic1 w) v.
Proof. apply (pic_write w v PIC1_DATA). Qed.
Lemma pic1_data2 (w : W) (v : Z) : pic1 (outb w v PIC2_DATA) = pic1 w.
Proof. apply (pic_write w v PIC2_DATA). Qed.
Lemma pic2_command1 (w : W) (v : Z) : pic2 (outb w v PIC1_COMMAND) = pic2 w.
Proof. apply (pic_write w v PIC1_COMMAND). Qed.
Lemma pic2_command2 (w : W) (v : Z) : pic2 (outb w v PIC2_COMMAND) = pic_command (pic2 w) v.
Proof. apply (pic_write w v PIC2_COMMAND). Qed.
Lemma pic2_data1 (w : W) (v : Z) : pic2 (outb w v PIC1_DATA) = pic2 w.
Proof. apply (pic_write w v PIC1_DATA). Qed.
Lemma pic2_data2 (w : W) (v : Z) : pic2 (outb w v PIC2_DATA) = pic_data (pic2 w) v.
Proof. apply (pic_write w v PIC2_DATA). Qed.
Lemma pic1_wait (w : W) : pic1 (io_wait w) = pic1 w. Proof. apply pic_wait. Qed.
Lemma pic2_wait (w : W) : pic2 (io_wait w) = pic2 w. Proof. apply pic_wait. Qed.
Hint Rewrite pic1_command1 pic1_command2 pic1_data1 pic1_data2 pic2_command1 pic2_command2 pic2_data1 pic2_data2
  pic1_wait pic2_wait : pic.

(** A line is masked. *)
Definition masked (w : W) (line : Z) : bool :=
  if line <? 8 then Z.testbit (imr (pic1 w)) line else Z.testbit (imr (pic2 w)) (line - 8).

(** After the initialisation the lines have the vectors 0x20 to 0x2F and are all
    masked. *)
Theorem pic_init_ok (w : W) (line : Z) :
  0 <= line < 16 ->
  masked (pic_init w) line = true /\
  vector_base (pic1 (pic_init w)) = 0x20 /\ vector_base (pic2 (pic_init w)) = 0x28 /\
  pending (pic1 (pic_init w)) = 0%nat /\ pending (pic2 (pic_init w)) = 0%nat.
Proof.
  intros Hl. unfold masked, pic_init. autorewrite with pic. cbn. split_and!; try done.
  assert (forall j, 0 <= j < 8 -> Z.testbit 255 j = true) as Hb.
  { intros j Hj. change 255 with (Z.ones 8). apply Z.ones_spec_low. lia. }
  destruct (Z.ltb_spec line 8); apply Hb; lia.
Qed.

Lemma pic_line_ok (index : Z) : 0 <= index < 16 ->
  (index < 8 /\ pic_line index = (PIC1_DATA, index)) \/ (8 <= index /\ pic_line index = (PIC2_DATA, index - 8)).
Proof. intros H. unfold pic_line. destruct (Z.ltb_spec index 8); [left|right]; split; done || lia. Qed.

Lemma setbit_test (v i j : Z) : 0 <= i < 8 -> 0 <= j < 8 ->
  Z.testbit (u8 (Z.lor v (Z.shiftl 1 i))) j = Z.testbit v j || (i =? j).
Proof.
  intros Hi Hj. unfold u8. rewrite wrap_testbit by lia. rewrite Z.lor_spec, Z.shiftl_1_l, Z.pow2_bits_eqb by lia.
  done.
Qed.

Lemma clearbit_test (v i j : Z) : 0 <= i < 8 -> 0 <= j < 8 ->
  Z.testbit (u8 (Z.land v (Z.lnot (Z.shiftl 1 i)))) j = Z.testbit v j && negb (i =? j).
Proof.
  intros Hi Hj. unfold u8. rewrite wrap_testbit by lia.
  rewrite Z.land_spec, Z.lnot_spec, Z.shiftl_1_l, Z.pow2_bits_eqb by lia. done.
Qed.

(** Masking a line masks that line, and no other; likewise unmasking. *)
Theorem pic_mask_ok (w : W) (index line : Z) :
  0 <= index < 16 -> 0 <= line < 16 -> pending (pic1 w) = 0%nat -> pending (pic2 w) = 0%nat ->
  masked (pic_setmask w index) line = masked w line || (index =? line) /\
  masked (pic_clearmask w index) line = masked w line && negb (index =? line).
Proof.
  intros Hi Hl P1 P2. unfold pic_setmask, pic_clearmask, masked.
  destruct (pic_line_ok index Hi) as [[H ->]|[H ->]].
  - destruct (pic_read1 w) as (w' & -> & E1 & E2).
    autorewrite with pic. rewrite E1, E2. unfold pic_data. rewrite P1.
    destruct (Z.ltb_spec line 8); cbn [imr]; [rewrite setbit_test, clearbit_test by lia; done|].
    destruct (Z.eqb_spec index line); [lia|]. by rewrite orb_false_r, andb_true_r.
  - destruct (pic_read2 w) as (w' & -> & E1 & E2).
    autorewrite with pic. rewrite E1, E2. unfold pic_data. rewrite P2.
    destruct (Z.ltb_spec line 8); cbn [imr].
    + destruct (Z.eqb_spec index line); [lia|]. by rewrite orb_false_r, andb_true_r.
    + rewrite setbit_test, clearbit_test by lia.
      replace (index - 8 =? line - 8) with (index =? line); [done|].
      destruct (Z.eqb_spec index line), (Z.eqb_spec (index - 8) (line - 8)); lia || done.
Qed.
End Proofs.

(** ** A concrete pair *)

Definition pics : Type := pic8259 * pic8259.
#[export] Instance pics_ports : PortIO pics := {
  inb w port := (if port =? PIC1_DATA then imr w.1 else if port =? PIC2_DATA then imr w.2 else 0, w);
  outb w v port :=
    (if port =? PIC1_COMMAND then pic_command w.1 v else if port =? PIC1_DATA then pic_data w.1 v else w.1,
     if port =? PIC2_COMMAND then pic_command w.2 v else if port =? PIC2_DATA then pic_data w.2 v else w.2);
  inl w _ := (0, w);
  outl w _ _ := w;
  outw w _ _ := w;
}.
#[export] Program Instance pics_laws : PicLaws pics := { pic1 := fst; pic2 := snd }.
Next Obligation. intros w. exists w. done. Qed.
Next Obligation. intros w. exists w. done. Qed.
Next Obligation. intros [a b]. done. Qed.
Next Obligation. intros [a b] v port. done. Qed.

Definition reset_pic : pic8259 := mk_pic 0 0 0 0 0 0.

(** The keyboard line alone is open after it was unmasked. *)
Example pic_keyboard_only :
  let w := pic_clearmask (pic_init (reset_pic, reset_pic)) 1 in
  map (fun k => masked w (Z.of_nat k)) (seq 0 16) = true :: false :: replicate 14 true.
Proof. reflexivity. Qed.
