(* ===== verification/Rtc.v ===== *)
(** The real-time clock (src/src/kernel/drivers/rtc.c) and the CMOS it is read
    from (src/src/kernel/drivers/cmos.c): decoding the registers, the seconds
    since 1970, and the interrupt that keeps the time. *)

From Stdlib Require Import ZArith Lia.
From stdpp Require Import base numbers list.
From S2P Require Import Prelude Ports Pic.

Definition SECONDS_IN_MINUTE : Z := 60.
Definition SECONDS_IN_HOUR : Z := SECONDS_IN_MINUTE * 60.
Definition SECONDS_IN_DAY : Z := SECONDS_IN_HOUR * 24.
Definition SECONDS_IN_YEAR : Z := SECONDS_IN_DAY * 365.

Record date_t := mk_date {
  second : Z; minute : Z; hour : Z; day : Z; month : Z; year : Z; century : Z;
}.

(** The static variables of both files. *)
Record clock := mk_clock {
  initial_date : date_t;
  time_since_startup_doubled : Z;
  initial_epoch_time : Z;
  is_nmi_enabled : Z;
  is_bin_mode : Z;
  is_24hour_mode : Z;
}.

Definition with_epoch (c : clock) (e : Z) : clock :=
  mk_clock (initial_date c) (time_since_startup_doubled c) e (is_nmi_enabled c) (is_bin_mode c) (is_24hour_mode c).
Definition with_date (c : clock) (d : date_t) : clock :=
  mk_clock d (time_since_startup_doubled c) (initial_epoch_time c) (is_nmi_enabled c) (is_bin_mode c) (is_24hour_mode c).
Definition with_nmi (c : clock) (n : Z) : clock :=
  mk_clock (initial_date c) (time_since_startup_doubled c) (initial_epoch_time c) n (is_bin_mode c) (is_24hour_mode c).
Definition with_modes (c : clock) (b h : Z) : clock :=
  mk_clock (initial_date c) (time_since_startup_doubled c) (initial_epoch_time c) (is_nmi_enabled c) b h.

(** The values at the start of the kernel. *)
Definition clock_start : clock := mk_clock (mk_date 0 0 0 0 0 0 0) 0 4 0 0 0.

(** ** rtc.c *)

Definition days_in_month : list Z := [31; 28; 31; 30; 31; 30; 31; 31; 30; 31; 30; 31].

Fixpoint month_loop (n : nat) (i days : Z) : outcome Z :=
  match n with
  | O => Ret days
  | S n => let! d := lget days_in_month i in month_loop n (i + 1) (u32 (days + d))
  end.
Definition rtc_convert_month_to_days (month : Z) : outcome Z := month_loop (Z.to_nat (month - 1)) 0 0.

Definition rtc_convert_date_to_time (c : clock) : outcome clock :=
  let d := initial_date c in
  let e := u32 (initial_epoch_time c + second d) in
  let e := u32 (e + minute d * SECONDS_IN_MINUTE) in
  let e := u32 (e + hour d * SECONDS_IN_HOUR) in
  let! days := rtc_convert_month_to_days (month d) in
  let tm_yday := u32 (day d + days - 1) in
  let e := u32 (e + u32 (tm_yday * SECONDS_IN_DAY)) in
  let tm_year := u32 (century d * 100 + year d - 1900) in
  let e := u32 (e + u32 (u32 (tm_year - 70) * SECONDS_IN_YEAR)) in
  let e := u32 (e + u32 (u32 (tm_year - 69) / 4 * SECONDS_IN_DAY)) in
  let e := u32 (e - u32 (u32 (tm_year - 1) / 100 * SECONDS_IN_DAY)) in
  let e := u32 (e + u32 (u32 (tm_year + 299) / 400 * SECONDS_IN_DAY)) in
  Ret (with_epoch c e).

Definition rtc_get_date (c : clock) : date_t := initial_date c.
Definition rtc_get_time_since_startup (c : clock) : Z := time_since_startup_doubled c / 2.
Definition rtc_get_epoch_time (c : clock) : Z :=
  u32 (initial_epoch_time c + time_since_startup_doubled c / 2).

Definition rtc_update_time (c : clock) : clock :=
  mk_clock (initial_date c) (u32 (time_since_startup_doubled c + 1)) (initial_epoch_time c) (is_nmi_enabled c)
    (is_bin_mode c) (is_24hour_mode c).

(** ** cmos.c *)

Definition DEFAULT_RTC_RATE : Z := 15.
Definition CMOS_REG_PORT : Z := 0x70.
Definition CMOS_READ_PORT : Z := 0x71.
Definition CMOS_SECONDS_PORT : Z := 0x00.
Definition CMOS_MINUTES_PORT : Z := 0x02.
Definition CMOS_HOURS_PORT : Z := 0x04.
Definition CMOS_DAY_PORT : Z := 0x07.
Definition CMOS_MONTH_PORT : Z := 0x08.
Definition CMOS_YEAR_PORT : Z := 0x09.
Definition CMOS_CENTURY_PORT : Z := 0x32.

Definition cmos_convert_bcn (input : Z) : Z := u8 (input / 16 * 10 + Z.land input 0xF).

Section Cmos.
Context {W : Type} `{!PortIO W}.

Definition cmos_get_reg_value (c : clock) (w : W) (reg : Z) : Z * W :=
  let w := outb w (u8 (Z.lor (Z.shiftl (is_nmi_enabled c) 7) reg)) CMOS_REG_PORT in
  let w := io_wait w in
  inb w CMOS_READ_PORT.

Definition cmos_activate_interrupt (w : W) (interrupt : Z) : W :=
  let w := outb w 0x8B CMOS_REG_PORT in
  let '(statusreg_b, w) := inb w CMOS_READ_PORT in
  let w := outb w 0x8B CMOS_REG_PORT in
  outb w (u8 (Z.lor statusreg_b interrupt)) CMOS_READ_PORT.

Definition cmos_deactivate_interrupt (w : W) (interrupt : Z) : W :=
  let w := outb w 0x8B CMOS_REG_PORT in
  let '(statusreg_b, w) := inb w CMOS_READ_PORT in
  let w := outb w 0x8B CMOS_REG_PORT in
  outb w (u8 (Z.land statusreg_b (Z.lnot interrupt))) CMOS_READ_PORT.

(** The seven registers, in the order of the reads. *)
Definition cmos_read_date (c : clock) (w : W) : date_t * W :=
  let '(s, w) := cmos_get_reg_value c w CMOS_SECONDS_PORT in
  let '(mi, w) := cmos_get_reg_value c w CMOS_MINUTES_PORT in
  let '(h, w) := cmos_get_reg_value c w CMOS_HOURS_PORT in
  let '(d, w) := cmos_get_reg_value c w CMOS_DAY_PORT in
  let '(mo, w) := cmos_get_reg_value c w CMOS_MONTH_PORT in
  let '(y, w) := cmos_get_reg_value c w CMOS_YEAR_PORT in
  let '(ce, w) := cmos_get_reg_value c w CMOS_CENTURY_PORT in
  (mk_date s mi h d mo y ce, w).

Definition to_24hour (d : date_t) : date_t :=
  let is_PM := Z.shiftr (hour d) 7 in
  let h := u8 (is_PM * 12 + hour d) in
  let h := if h =? 24 then 0 else h in
  mk_date (second d) (minute d) h (day d) (month d) (year d) (century d).

Definition from_bcd (d : date_t) : date_t :=
  mk_date (cmos_convert_bcn (second d)) (cmos_convert_bcn (minute d)) (cmos_convert_bcn (hour d))
    (cmos_convert_bcn (day d)) (cmos_convert_bcn (month d)) (cmos_convert_bcn (u8 (year d)))
    (cmos_convert_bcn (century d)).

Definition cmos_handle_update_interrupt (c : clock) (w : W) : outcome (clock * W) :=
  let '(d, w) := cmos_read_date c w in
  let d := if is_24hour_mode c =? 0 then to_24hour d else d in
  let d := if is_bin_mode c =? 0 then from_bcd d else d in
  let! c := rtc_convert_date_to_time (with_date c d) in
  let w := cmos_deactivate_interrupt w 0x10 in
  let w := cmos_activate_interrupt w 0x40 in
  Ret (c, w).

Definition nmi_enable (c : clock) (w : W) : clock * W :=
  let '(r, w) := inb w CMOS_REG_PORT in
  let w := outb w (Z.land r 0x7F) CMOS_REG_PORT in
  let w := io_wait w in
  let '(_, w) := inb w CMOS_READ_PORT in
  (with_nmi c 1, w).

Definition nmi_disable (c : clock) (w : W) : clock * W :=
  let '(r, w) := inb w CMOS_REG_PORT in
  let w := outb w (Z.lor r 0x80) CMOS_REG_PORT in
  let w := io_wait w in
  let '(_, w) := inb w CMOS_READ_PORT in
  (with_nmi c 0, w).

Definition cmos_check_statb_reg (c : clock) (w : W) : clock * W :=
  let '(statusreg_b, w) := cmos_get_reg_value c w 0x0B in
  (with_modes c (Z.land (Z.shiftr statusreg_b 2) 1) (Z.land (Z.shiftr statusreg_b 1) 1), w).

Definition rtc_set_frequency (w : W) (rate : Z) : W :=
  let rate := Z.land rate 0x0F in
  let w := outb w 0x0A CMOS_REG_PORT in
  let '(statusreg_a, w) := inb w CMOS_READ_PORT in
  let w := outb w 0x0A CMOS_REG_PORT in
  outb w (Z.lor (Z.land statusreg_a 0xF0) rate) CMOS_READ_PORT.

Definition cmos_init (c : clock) (w : W) : clock * W :=
  let w := rtc_set_frequency w DEFAULT_RTC_RATE in
  let '(c, w) := nmi_enable c w in
  let '(c, w) := cmos_check_statb_reg c w in
  (c, pic_clearmask w 8).

Definition rtc_setup_date (w : W) : W := cmos_activate_interrupt w 0x10.

Definition cmos_interrupt_handler (c : clock) (w : W) : outcome (clock * W) :=
  let w := outb w 0x0C CMOS_REG_PORT in
  let '(interrupt_type, w) := inb w CMOS_READ_PORT in
  if negb (Z.land (Z.shiftr interrupt_type 6) 1 =? 0) then Ret (rtc_update_time c, w)
  else if negb (Z.land (Z.shiftr interrupt_type 5) 1 =? 0) then Ret (c, w)
  else cmos_handle_update_interrupt c w.
End Cmos.

(** ** The calendar *)

Definition is_leap (y : Z) : bool := (y mod 4 =? 0) && (negb (y mod 100 =? 0) || (y mod 400 =? 0)).
Definition month_len (leap : bool) (m : Z) : Z := if (m =? 2) && leap then 29 else znth 0 days_in_month (m - 1).
Fixpoint days_of_years (n : nat) : Z :=
  match n with O => 0 | S n => days_of_years n + (if is_leap (1970 + Z.of_nat n) then 366 else 365) end.
Fixpoint days_of_months (leap : bool) (n : nat) : Z :=
  match n with O => 0 | S n => days_of_months leap n + month_len leap (Z.of_nat (S n)) end.

(** The seconds since the start of 1970, counted day by day. *)
Definition unix_time (y m d h mi s : Z) : Z :=
  86400 * (days_of_years (Z.to_nat (y - 1970)) + days_of_months (is_leap y) (Z.to_nat (m - 1)) + (d - 1)) +
  3600 * h + 60 * mi + s.

Definition full_year (d : date_t) : Z := century d * 100 + year d.
Record date_ok (d : date_t) : Prop := {
  ok_year : 1970 <= full_year d <= 2105;
  ok_month : 1 <= month d <= 12;
  ok_day : 1 <= day d <= month_len (is_leap (full_year d)) (month d);
  ok_hour : 0 <= hour d < 24;
  ok_minute : 0 <= minute d < 60;
  ok_second : 0 <= second d < 60;
}.

Lemma days_of_years_closed (n : nat) :
  let y := 1970 + Z.of_nat n in
  days_of_years n = 365 * Z.of_nat n + (y - 1969) / 4 - (y - 1901) / 100 + (y - 1601) / 400.
Proof.
  induction n as [|n IH]; [reflexivity|]. cbn [days_of_years]. cbn zeta in IH. rewrite IH. cbn zeta.
  rewrite Nat2Z.inj_succ. set (y := 1970 + Z.of_nat n). unfold is_leap.
  destruct (Z.eqb_spec (y mod 4) 0), (Z.eqb_spec (y mod 100) 0), (Z.eqb_spec (y mod 400) 0); cbn [andb orb negb];
    Z.div_mod_to_equations; lia.
Qed.

(** The table of the months has no leap day: behind February of a leap year the
    count is one day short. *)
Definition missing_day (leap : bool) (m : Z) : Z := if leap && (2 <? m) then 1 else 0.

Lemma months (P : Z -> Prop) (m : Z) :
  Forall P [1; 2; 3; 4; 5; 6; 7; 8; 9; 10; 11; 12] -> 1 <= m <= 12 -> P m.
Proof.
  intros HP Hm. rewrite Forall_forall in HP. apply HP. rewrite !elem_of_cons. lia.
Qed.

Lemma month_to_days_ok (leap : bool) (m : Z) : 1 <= m <= 12 ->
  rtc_convert_month_to_days m = Ret (days_of_months leap (Z.to_nat (m - 1)) - missing_day leap m).
Proof.
  intros Hm. pattern m. apply months; [|done]. clear. destruct leap;
    repeat (constructor; [vm_compute; reflexivity|]); constructor.
Qed.

Lemma days_of_months_bound (leap : bool) (m : Z) : 1 <= m <= 12 ->
  0 <= days_of_months leap (Z.to_nat (m - 1)) - missing_day leap m <= 334.
Proof.
  intros Hm. pattern m. apply months; [|done]. clear. destruct leap;
    repeat (constructor; [vm_compute; (congruence || split; congruence)|]); constructor.
Qed.

Lemma month_len_bound (leap : bool) (m : Z) : 1 <= m <= 12 -> month_len leap m <= 31.
Proof.
  intros Hm. pattern m. apply months; [|done]. clear. destruct leap;
    repeat (constructor; [vm_compute; (congruence || split; congruence)|]); constructor.
Qed.

(** Wrapping once at the end is enough: equality modulo 2^32 is a congruence. *)
#[local] Existing Instances eqm_setoid Zplus_eqm Zminus_eqm Zmult_eqm.

Lemma u32_eqm (a b : Z) : eqm (2 ^ 32) a b -> u32 a = u32 b.
Proof. done. Qed.
Lemma eqm_u32 (a : Z) : eqm (2 ^ 32) (u32 a) a.
Proof. apply Zmod_eqm. Qed.

(** The epoch the kernel computes: that of the calendar, one day short behind
    February of a leap year, on top of what the variable held before. *)
Definition kernel_epoch (e : Z) (d : date_t) : Z :=
  e + unix_time (full_year d) (month d) (day d) (hour d) (minute d) (second d)
    - 86400 * missing_day (is_leap (full_year d)) (month d).

Lemma rtc_epoch_ok (c : clock) :
  date_ok (initial_date c) ->
  rtc_convert_date_to_time c = Ret (with_epoch c (u32 (kernel_epoch (initial_epoch_time c) (initial_date c)))).
Proof.
  intros [Hy Hm Hd Hh Hmi Hs]. unfold rtc_convert_date_to_time, kernel_epoch, unix_time.
  set (d := initial_date c) in *. rewrite (month_to_days_ok (is_leap (full_year d))) by done. cbn [obind].
  pose proof (days_of_months_bound (is_leap (full_year d)) (month d) Hm) as Hb.
  pose proof (month_len_bound (is_leap (full_year d)) (month d) Hm) as Hl.
  rewrite (days_of_years_closed (Z.to_nat (full_year d - 1970))). rewrite Z2Nat.id by lia.
  set (dm := days_of_months _ _) in *. set (k := missing_day _ _) in *. unfold full_year in *.
  set (y := century d * 100 + year d) in *.
  rewrite (u32_small (y - 1900)) by lia. rewrite (u32_small (y - 1900 - 70)) by lia.
  rewrite (u32_small (y - 1900 - 69)) by lia. rewrite (u32_small (y - 1900 - 1)) by lia.
  rewrite (u32_small (y - 1900 + 299)) by lia. rewrite (u32_small (day d + _ - 1)) by lia.
  do 2 f_equal. apply u32_eqm. repeat rewrite eqm_u32.
  replace (y - 1900 - 69) with (y - 1969) by lia. replace (y - 1900 - 1) with (y - 1901) by lia.
  replace (y - 1900 + 299) with (y - 1601) by lia.
  replace (1970 + (y - 1970) - 1969) with (y - 1969) by lia. replace (1970 + (y - 1970) - 1901) with (y - 1901) by lia.
  replace (1970 + (y - 1970) - 1601) with (y - 1601) by lia.
  unfold SECONDS_IN_YEAR, SECONDS_IN_DAY, SECONDS_IN_HOUR, SECONDS_IN_MINUTE.
  match goal with |- eqm _ ?a ?b => replace a with b by lia end. reflexivity.
Qed.

(** ** The registers *)

(** The documented behaviour of the CMOS between two updates of the time: an
    index register behind the first port, the selected register behind the
    second one; reading register C clears it. *)
Class CmosLaws (W : Type) `{!PortIO W} := {
  cm_index : W -> Z;
  cm_reg : W -> Z -> Z;
  cm_select w v :
    cm_index (outb w v CMOS_REG_PORT) = Z.land v 0x7F /\ forall r, cm_reg (outb w v CMOS_REG_PORT) r = cm_reg w r;
  cm_wait w : cm_index (io_wait w) = cm_index w /\ forall r, cm_reg (io_wait w) r = cm_reg w r;
  cm_read w : exists w', inb w CMOS_READ_PORT = (cm_reg w (cm_index w), w') /\ cm_index w' = cm_index w /\
    forall r, cm_reg w' r = if (cm_index w =? 0x0C) && (r =? 0x0C) then 0 else cm_reg w r;
  cm_write w v r :
    cm_index w = 0x0B -> cm_reg (outb w v CMOS_READ_PORT) r = if r =? 0x0B then v else cm_reg w r;
}.

Section Update.
Context {W : Type} `{!PortIO W} {laws : CmosLaws W}.

(** The same registers. *)
Definition same_regs (w w' : W) : Prop := forall r, cm_reg w' r = cm_reg w r.

Lemma cm_read_other (w : W) : cm_index w <> 0x0C ->
  exists w', inb w CMOS_READ_PORT = (cm_reg w (cm_index w), w') /\ same_regs w w'.
Proof.
  intros H. destruct (cm_read w) as (w' & E & _ & Hr). exists w'. split; [done|]. intros r. rewrite Hr.
  by destruct (Z.eqb_spec (cm_index w) 12).
Qed.

Lemma get_reg_ok (c : clock) (w : W) (reg : Z) :
  is_nmi_enabled c = 0 \/ is_nmi_enabled c = 1 -> 0 <= reg < 128 -> reg <> 0x0C ->
  exists w', cmos_get_reg_value c w reg = (cm_reg w reg, w') /\ same_regs w w'.
Proof.
  intros Hn Hr Hc. unfold cmos_get_reg_value. set (v := u8 _).
  assert (Ev : Z.land v 0x7F = reg).
  { unfold v, u8, wrap. change 0x7F with (Z.ones 7). rewrite Z.land_ones by lia.
    rewrite <- (Z.mod_small reg (2 ^ 7)) at 2 by lia.
    apply Z.bits_inj_iff'. intros j Hj. rewrite <- !Z.land_ones by lia. rewrite !Z.land_spec, Z.lor_spec, Z.shiftl_spec by lia.
    destruct (Z.ltb_spec j 7); [|by rewrite (Z.ones_spec_high 7), !andb_false_r by lia].
    rewrite !Z.ones_spec_low, (Z.testbit_neg_r _ (j - 7)) by lia. cbn. by rewrite !andb_true_r. }
  destruct (cm_select w v) as [Es Er]. destruct (cm_wait (outb w v CMOS_REG_PORT)) as [Ei Ew].
  destruct (cm_read_other (io_wait (outb w v CMOS_REG_PORT))) as (w' & E & Hs); [by rewrite Ei, Es, Ev|].
  exists w'. rewrite E. rewrite Ei, Es, Ev, Ew, Er. split; [done|]. intros r. by rewrite Hs, Ew, Er.
Qed.

Definition date_regs (w : W) (d : date_t) : Prop :=
  cm_reg w CMOS_SECONDS_PORT = second d /\ cm_reg w CMOS_MINUTES_PORT = minute d /\ cm_reg w CMOS_HOURS_PORT = hour d /\
  cm_reg w CMOS_DAY_PORT = day d /\ cm_reg w CMOS_MONTH_PORT = month d /\ cm_reg w CMOS_YEAR_PORT = year d /\
  cm_reg w CMOS_CENTURY_PORT = century d.

Lemma read_date_ok (c : clock) (w : W) (d : date_t) :
  is_nmi_enabled c = 0 \/ is_nmi_enabled c = 1 -> date_regs w d ->
  exists w', cmos_read_date c w = (d, w') /\ same_regs w w'.
Proof.
  intros Hn (R1 & R2 & R3 & R4 & R5 & R6 & R7). unfold cmos_read_date.
  destruct (get_reg_ok c w CMOS_SECONDS_PORT Hn) as (w1 & -> & S1); [done..|].
  destruct (get_reg_ok c w1 CMOS_MINUTES_PORT Hn) as (w2 & -> & S2); [done..|].
  destruct (get_reg_ok c w2 CMOS_HOURS_PORT Hn) as (w3 & -> & S3); [done..|].
  destruct (get_reg_ok c w3 CMOS_DAY_PORT Hn) as (w4 & -> & S4); [done..|].
  destruct (get_reg_ok c w4 CMOS_MONTH_PORT Hn) as (w5 & -> & S5); [done..|].
  destruct (get_reg_ok c w5 CMOS_YEAR_PORT Hn) as (w6 & -> & S6); [done..|].
  destruct (get_reg_ok c w6 CMOS_CENTURY_PORT Hn) as (w7 & -> & S7); [done..|].
  unfold same_regs in *. exists w7. split; [|intros r; congruence].
  rewrite R1, S1, R2, S2, S1, R3, S3, S2, S1, R4, S4, S3, S2, S1, R5, S5, S4, S3, S2, S1, R6, S6, S5, S4, S3, S2, S1, R7.
  by destruct d.
Qed.

(** Status register B behind both writes. *)
Lemma statb_ok (w : W) :
  exists b, 0 <= b < 256 /\
    cm_reg (cmos_activate_interrupt (cmos_deactivate_interrupt w 0x10) 0x40) 0x0B = b /\
    (0 <= cm_reg w 0x0B < 256 -> Z.testbit b 4 = false /\ Z.testbit b 6 = true).
Proof.
  unfold cmos_activate_interrupt, cmos_deactivate_interrupt.
  assert (Hsel : forall w : W, cm_index (outb w 0x8B CMOS_REG_PORT) = 0x0B) by (intros w0; by rewrite (proj1 (cm_select w0 _))).
  destruct (cm_read_other (outb w 0x8B CMOS_REG_PORT)) as (w1 & -> & S1); [by rewrite Hsel|]. rewrite Hsel.
  set (v1 := u8 _). set (w2 := outb (outb w1 0x8B CMOS_REG_PORT) v1 CMOS_READ_PORT).
  destruct (cm_read_other (outb w2 0x8B CMOS_REG_PORT)) as (w3 & -> & S3); [by rewrite Hsel|]. rewrite Hsel.
  rewrite cm_write by apply Hsel. cbn [Z.eqb Pos.eqb].
  rewrite (proj2 (cm_select w2 _)). unfold w2 at 1. rewrite cm_write by apply Hsel. cbn [Z.eqb Pos.eqb].
  eexists. split; [apply u8_range|]. split; [done|]. intros Hb. unfold v1, u8.
  rewrite (proj2 (cm_select w _)). rewrite !wrap_testbit by lia. rewrite !Z.lor_spec, !wrap_testbit, !Z.land_spec, !Z.lnot_spec by lia.
  change (Z.testbit 16 4) with true. change (Z.testbit 64 6) with true. change (Z.testbit 64 4) with false.
  cbn [negb]. by rewrite andb_false_r, orb_true_r.
Qed.

(** ** Decoding *)

Definition to_bcd (x : Z) : Z := x / 10 * 16 + x mod 10.

Lemma bcd_roundtrip (x : Z) : 0 <= x < 100 -> cmos_convert_bcn (to_bcd x) = x.
Proof.
  intros Hx. unfold cmos_convert_bcn, to_bcd. change 0xF with (Z.ones 4). rewrite Z.land_ones by lia.
  change (2 ^ 4) with 16. rewrite u8_small; Z.div_mod_to_equations; lia.
Qed.

Definition date_bcd (d : date_t) : date_t :=
  mk_date (to_bcd (second d)) (to_bcd (minute d)) (to_bcd (hour d)) (to_bcd (day d)) (to_bcd (month d))
    (to_bcd (year d)) (to_bcd (century d)).

Lemma from_bcd_ok (d : date_t) :
  date_ok d -> 0 <= year d < 100 -> 0 <= century d < 100 -> from_bcd (date_bcd d) = d.
Proof.
  intros [Hy Hm Hd Hh Hmi Hs] Hy' Hc. pose proof (month_len_bound (is_leap (full_year d)) (month d) Hm).
  unfold from_bcd, date_bcd. cbn.
  assert (u8 (to_bcd (year d)) = to_bcd (year d)) as -> by (apply u8_small; unfold to_bcd; Z.div_mod_to_equations; lia).
  rewrite !bcd_roundtrip by lia. by destruct d.
Qed.

Lemma kernel_epoch_range (e : Z) (d : date_t) :
  date_ok d -> 0 <= e <= 3000000 -> 0 <= kernel_epoch e d < 2 ^ 32.
Proof.
  intros [Hy Hm Hd Hh Hmi Hs] He. unfold kernel_epoch, unix_time.
  pose proof (days_of_months_bound (is_leap (full_year d)) (month d) Hm).
  pose proof (month_len_bound (is_leap (full_year d)) (month d) Hm).
  rewrite days_of_years_closed, Z2Nat.id by lia. set (y := full_year d) in *.
  assert (0 <= (1970 + (y - 1970) - 1969) / 4 - (1970 + (y - 1970) - 1901) / 100 + (1970 + (y - 1970) - 1601) / 400 <= 33).
  { Z.div_mod_to_equations. lia. }
  lia.
Qed.

(** C30: The update interrupt in 24-hour mode, the registers holding a date
    between 1970 and 2105, in decimal or in binary as the mode says: the handler
    reads that date, and the time it computes is the seconds since 1970 as the
    calendar counts them, on top of what the variable held before, and one day
    short behind February of a leap year; no intermediate result overflows.
    Afterwards the update interrupt is off and the periodic one on. *)
Theorem cmos_update_epoch (c : clock) (w : W) (d : date_t) :
  is_24hour_mode c = 1 -> is_nmi_enabled c = 0 \/ is_nmi_enabled c = 1 ->
  date_ok d -> 0 <= year d < 100 -> 0 <= century d < 100 ->
  date_regs w (if is_bin_mode c =? 0 then date_bcd d else d) -> 0 <= cm_reg w 0x0B < 256 ->
  0 <= initial_epoch_time c <= 3000000 ->
  exists c' w', cmos_handle_update_interrupt c w = Ret (c', w') /\ rtc_get_date c' = d /\
    initial_epoch_time c' =
      initial_epoch_time c + unix_time (full_year d) (month d) (day d) (hour d) (minute d) (second d) -
      86400 * missing_day (is_leap (full_year d)) (month d) /\
    Z.testbit (cm_reg w' 0x0B) 4 = false /\ Z.testbit (cm_reg w' 0x0B) 6 = true.
Proof.
  intros H24 Hn Hok Hy Hc Hr Hb He. unfold cmos_handle_update_interrupt.
  destruct (read_date_ok c w _ Hn Hr) as (w' & -> & Hs). rewrite H24. cbn [Z.eqb].
  assert (Hd : (if is_bin_mode c =? 0 then from_bcd (if is_bin_mode c =? 0 then date_bcd d else d)
    else if is_bin_mode c =? 0 then date_bcd d else d) = d) by (destruct (is_bin_mode c =? 0); [by apply from_bcd_ok|done]).
  rewrite Hd, rtc_epoch_ok by done. cbn [obind].
  eexists _, _. split; [done|]. split; [done|]. split.
  - cbn. rewrite u32_small; [done|]. by apply kernel_epoch_range.
  - destruct (statb_ok w') as (b & _ & -> & H). apply H. by rewrite Hs.
Qed.

(** ** The periodic interrupt *)

Lemma update_iter (n : nat) (c : clock) :
  0 <= time_since_startup_doubled c -> time_since_startup_doubled c + Z.of_nat n < 2 ^ 32 ->
  time_since_startup_doubled (Nat.iter n rtc_update_time c) = time_since_startup_doubled c + Z.of_nat n /\
  initial_epoch_time (Nat.iter n rtc_update_time c) = initial_epoch_time c.
Proof.
  induction n as [|n IH]; intros H0 Hn; [cbn; split; lia|]. destruct IH as [E1 E2]; [lia..|].
  change (Nat.iter (S n) rtc_update_time c) with (rtc_update_time (Nat.iter n rtc_update_time c)).
  unfold rtc_update_time at 1 3. cbn [time_since_startup_doubled initial_epoch_time].
  rewrite E1, E2. split; [rewrite u32_small; lia|done].
Qed.

(** Two periodic interrupts are a second. *)
Theorem rtc_epoch_advances (n : nat) (c : clock) :
  time_since_startup_doubled c = 0 -> Z.of_nat n < 2 ^ 32 ->
  rtc_get_epoch_time (Nat.iter n rtc_update_time c) = u32 (initial_epoch_time c + Z.of_nat n / 2).
Proof.
  intros H0 Hn. destruct (update_iter n c) as [E1 E2]; [lia..|]. unfold rtc_get_epoch_time.
  rewrite E1, E2, H0. done.
Qed.

Lemma cmos_periodic (c : clock) (w : W) :
  Z.testbit (cm_reg w 0x0C) 6 = true -> exists w', cmos_interrupt_handler c w = Ret (rtc_update_time c, w').
Proof.
  intros Hb. unfold cmos_interrupt_handler. destruct (cm_select w 0x0C) as [Es Er].
  destruct (cm_read (outb w 0x0C CMOS_REG_PORT)) as (w' & -> & _). rewrite Es, Er. exists w'.
  change (Z.land 12 127) with 12.
  assert (E : Z.land (Z.shiftr (cm_reg w 12) 6) 1 = 1).
  { change 1 with (Z.ones 1) at 1. rewrite Z.land_ones by lia. change (2 ^ 1) with 2. rewrite Zmod_odd.
    rewrite <- Z.bit0_odd, Z.shiftr_spec by lia. change (0 + 6) with 6. by rewrite Hb. }
  by rewrite E.
Qed.
End Update.

(** ** A concrete clock *)

(** The registers as a function and the index. *)
Definition cmos_dev : Type := Z * (Z -> Z).
#[export] Instance cmos_dev_ports : PortIO cmos_dev := {
  inb w port :=
    if port =? CMOS_READ_PORT
    then (w.2 w.1, (w.1, fun r => if (w.1 =? 0x0C) && (r =? 0x0C) then 0 else w.2 r)) else (0, w);
  outb w v port :=
    if port =? CMOS_REG_PORT then (Z.land v 0x7F, w.2)
    else if port =? CMOS_READ_PORT then (w.1, fun r => if r =? w.1 then v else w.2 r) else w;
  inl w _ := (0, w);
  outl w _ _ := w;
  outw w _ _ := w;
}.
#[export] Program Instance cmos_dev_laws : CmosLaws cmos_dev := { cm_index := fst; cm_reg := snd }.
Next Obligation. intros [i f] v. done. Qed.
Next Obligation. intros [i f]. done. Qed.
Next Obligation. intros [i f]. by eexists. Qed.
Next Obligation. intros [i f] v r H. cbn in *. by subst. Qed.

(** 14 July 2023, 12:34:56. *)
Definition date0 : date_t := mk_date 56 34 12 14 7 23 20.
Definition dev0 : cmos_dev :=
  (0, fun r => if r =? 0 then 0x56 else if r =? 2 then 0x34 else if r =? 4 then 0x12 else if r =? 7 then 0x14
    else if r =? 8 then 0x07 else if r =? 9 then 0x23 else if r =? 0x32 then 0x20 else if r =? 0x0B then 0x12 else 0).
Definition clock24 : clock := with_modes clock_start 0 1.

Lemma cmos_update_epoch_witness :
  exists c' w', cmos_handle_update_interrupt clock24 dev0 = Ret (c', w') /\ rtc_get_date c' = date0 /\
    initial_epoch_time c' = 4 + 1689338096.
Proof.
  destruct (cmos_update_epoch clock24 dev0 date0) as (c' & w' & E & Ed & Ee & _);
    [reflexivity|left; reflexivity| |cbn; lia|cbn; lia| |cbn; lia|cbn; lia|].
  - split; vm_compute; split; (reflexivity || discriminate).
  - unfold date_regs. split_and!; reflexivity.
  - exists c', w'. split; [exact E|]. split; [exact Ed|]. rewrite Ee. vm_compute. reflexivity.
Defined.

(** In 12-hour mode the flag for the afternoon is left in the hour, which is
    then decoded: one in the afternoon is read as 93. *)
Theorem cmos_afternoon_hour :
  hour (from_bcd (to_24hour (mk_date 0 0 0x81 1 1 0x23 0x20))) = 93.
Proof. reflexivity. Qed.

(** The leap day: noon of 1 March 2024 is a day short. *)
Theorem rtc_leap_day_lost :
  exists c, rtc_convert_date_to_time (with_date clock_start (mk_date 0 0 12 1 3 24 20)) = Ret c /\
    initial_epoch_time c = 4 + unix_time 2024 3 1 12 0 0 - 86400.
Proof. by eexists. Qed.
