(* ===== verification/Descr.v ===== *)
(** The descriptor tables: segments (src/src/kernel/boot/gdt.c), the task state
    segment (src/src/kernel/boot/tss.c), interrupt gates
    (src/src/kernel/int/idt.c) and the handlers of the exceptions
    (src/src/kernel/int/isrs.c). *)

From Stdlib Require Import ZArith Lia String.
From stdpp Require Import base numbers list.
From S2P Require Import Prelude.

(** ** Segment descriptors *)

Definition GDT_ACCESS : Z := Z.shiftl 1 0.
Definition GDT_RW : Z := Z.shiftl 1 1.
Definition GDT_EXEC : Z := Z.shiftl 1 3.
Definition GDT_TYPE : Z := Z.shiftl 1 4.
Definition GDT_DPL0 : Z := Z.shiftl 0 5.
Definition GDT_DPL3 : Z := Z.shiftl 3 5.
Definition GDT_PRESENT : Z := Z.shiftl 1 7.
Definition GDT_SIZE : Z := Z.shiftl 1 2.
Definition GDT_GRAN : Z := Z.shiftl 1 3.
Definition GDT_ENTRIES : Z := 6.

Record gdt_entry_t := mk_gdt {
  g_limit : Z; g_base_1 : Z; g_base_2 : Z; g_access : Z; g_flags_limit : Z; g_base_3 : Z;
}.

Definition gdt_create (base limit flags access : Z) : gdt_entry_t :=
  mk_gdt (Z.land limit 0xFFFF) (Z.land base 0xFFFF) (Z.land (Z.shiftr base 16) 0xFF) (u8 access)
    (u8 (Z.lor (u8 (Z.shiftr limit 16)) (Z.shiftl flags 4))) (Z.land (Z.shiftr base 24) 0xFF).

(** [gdt_ptr_t]: the size minus one and the address of the table. *)
Record gdt_ptr_t := mk_gdt_ptr { gp_size : Z; gp_offset : Z }.

Definition GDT_ENTRY_SIZE : Z := 8.
Definition TSS_SIZE : Z := 104.

(** The table, for the addresses of the task state segment and of the table. *)
Definition gdt_init (tss table : Z) : list gdt_entry_t * gdt_ptr_t :=
  let flag := Z.lor GDT_SIZE GDT_GRAN in
  let access := [
    Z.lor (Z.lor (Z.lor (Z.lor GDT_RW GDT_EXEC) GDT_TYPE) GDT_DPL0) GDT_PRESENT;
    Z.lor (Z.lor (Z.lor GDT_RW GDT_TYPE) GDT_DPL0) GDT_PRESENT;
    Z.lor (Z.lor (Z.lor (Z.lor GDT_RW GDT_EXEC) GDT_TYPE) GDT_DPL3) GDT_PRESENT;
    Z.lor (Z.lor (Z.lor GDT_RW GDT_TYPE) GDT_DPL3) GDT_PRESENT] in
  let tss_access := Z.lor (Z.lor (Z.lor GDT_ACCESS GDT_EXEC) GDT_DPL0) GDT_PRESENT in
  (gdt_create 0 0 0 0 :: map (gdt_create 0 0xFFFFF flag) access ++ [gdt_create tss (TSS_SIZE - 1) 0 tss_access],
   mk_gdt_ptr (GDT_ENTRY_SIZE * GDT_ENTRIES - 1) table).

(** The 64 bits of a descriptor in memory. *)
Definition gdt_word (e : gdt_entry_t) : Z :=
  g_limit e + Z.shiftl (g_base_1 e) 16 + Z.shiftl (g_base_2 e) 32 + Z.shiftl (g_access e) 40 +
  Z.shiftl (g_flags_limit e) 48 + Z.shiftl (g_base_3 e) 56.

(** What the processor reads out of the 64 bits. *)
Record segment := mk_segment { seg_base : Z; seg_limit : Z; seg_flags : Z; seg_access : Z }.
Definition field (w lo n : Z) : Z := Z.shiftr w lo mod 2 ^ n.
Definition cpu_segment (w : Z) : segment :=
  mk_segment (field w 16 24 + 2 ^ 24 * field w 56 8) (field w 0 16 + 2 ^ 16 * field w 48 4) (field w 52 4) (field w 40 8).

(** ** Interrupt gates *)

Definition IDT_ENTRIES : Z := 256.
Definition N_OF_EXCEPTIONS : Z := 32.
Definition IRQ_OFFSET : Z := N_OF_EXCEPTIONS.
Definition LEGACY_PIC_OFFSET : Z := 16.
Definition IDT_32B_INT : Z := 0xE.
Definition IDT_PRESENT : Z := Z.shiftl 1 7.

Record idt_entry_t := mk_idt { i_offset_1 : Z; i_selector : Z; i_reserved : Z; i_flags : Z; i_offset_2 : Z }.
Definition idt_zero : idt_entry_t := mk_idt 0 0 0 0 0.

(** The member [reserved] stays as it was. *)
Definition idt_create (e : idt_entry_t) (offset flags : Z) : idt_entry_t :=
  mk_idt (Z.land offset 0xFFFF) 0x8 (i_reserved e) (Z.land flags 0xFF) (Z.land (Z.shiftr offset 16) 0xFFFF).

Definition idt_set (idt : list idt_entry_t) (n offset flags : Z) : outcome (list idt_entry_t) :=
  let! e := lget idt n in lset idt n (idt_create e offset flags).

Record idt_ptr_t := mk_idt_ptr { ip_limit : Z; ip_base : Z }.
Definition IDT_ENTRY_SIZE : Z := 8.
Definition idt_init (table : Z) : list idt_entry_t * idt_ptr_t :=
  (replicate (Z.to_nat IDT_ENTRIES) idt_zero, mk_idt_ptr (IDT_ENTRY_SIZE * IDT_ENTRIES - 1) table).

Definition idt_word (e : idt_entry_t) : Z :=
  i_offset_1 e + Z.shiftl (i_selector e) 16 + Z.shiftl (i_reserved e) 32 + Z.shiftl (i_flags e) 40 +
  Z.shiftl (i_offset_2 e) 48.

(** What the processor reads: offset, selector, type and whether it is present. *)
Record gate := mk_gate { gt_offset : Z; gt_selector : Z; gt_type : Z; gt_dpl : Z; gt_present : Z }.
Definition cpu_gate (w : Z) : gate :=
  mk_gate (field w 0 16 + 2 ^ 16 * field w 48 16) (field w 16 16) (field w 40 5) (field w 45 2) (field w 47 1).

(** ** Fields of sums *)

Lemma land_mod (x n : Z) : 0 <= n -> Z.land x (2 ^ n - 1) = x mod 2 ^ n.
Proof. intros Hn. rewrite <- Z.land_ones by lia. f_equal. rewrite Z.ones_equiv. lia. Qed.

(** A field of [a + 2^lo * f + 2^(lo+n) * b]. *)
Lemma field_sum (a f b lo n : Z) :
  0 <= lo -> 0 <= n -> 0 <= a < 2 ^ lo -> 0 <= f < 2 ^ n ->
  field (a + 2 ^ lo * (f + 2 ^ n * b)) lo n = f.
Proof.
  intros Hl Hn Ha Hf. unfold field. rewrite Z.shiftr_div_pow2 by lia.
  rewrite Z.mul_comm, Z.div_add, Z.div_small by lia. rewrite Z.add_0_l, Z.mul_comm, Z_mod_plus_full.
  by apply Z.mod_small.
Qed.

Lemma field_eq (w a f b lo n : Z) :
  w = a + 2 ^ lo * (f + 2 ^ n * b) -> 0 <= lo -> 0 <= n -> 0 <= a < 2 ^ lo -> 0 <= f < 2 ^ n -> field w lo n = f.
Proof. intros ->. apply field_sum. Qed.

(** The flags and the upper bits of the limit share a byte. *)
Lemma flags_limit_sum (h flags : Z) :
  0 <= h < 16 -> 0 <= flags < 16 -> u8 (Z.lor (u8 h) (Z.shiftl flags 4)) = h + 16 * flags.
Proof.
  intros Hh Hf. rewrite (u8_small h) by lia.
  assert (Z.lor h (Z.shiftl flags 4) = h + 16 * flags) as E.
  { rewrite Z.lor_comm, Z.shiftl_mul_pow2, lor_low by lia. lia. }
  rewrite E. apply u8_small. lia.
Qed.

(** A number as its low part, a field and the rest. *)
Lemma split_at (x n : Z) : 0 <= n -> x = x mod 2 ^ n + 2 ^ n * Z.shiftr x n.
Proof. intros Hn. rewrite Z.shiftr_div_pow2 by lia. pose proof (Z.div_mod x (2 ^ n)). lia. Qed.

Lemma base_parts (base : Z) : 0 <= base < 2 ^ 32 ->
  base = Z.land base 0xFFFF + 2 ^ 16 * Z.land (Z.shiftr base 16) 0xFF + 2 ^ 24 * Z.land (Z.shiftr base 24) 0xFF.
Proof.
  intros Hb. change 0xFFFF with (2 ^ 16 - 1). change 0xFF with (2 ^ 8 - 1). rewrite !land_mod by lia.
  rewrite !Z.shiftr_div_pow2 by lia. Z.div_mod_to_equations. lia.
Qed.

Lemma limit_parts (limit : Z) : 0 <= limit < 2 ^ 20 ->
  limit = Z.land limit 0xFFFF + 2 ^ 16 * Z.shiftr limit 16 /\ 0 <= Z.shiftr limit 16 < 16.
Proof.
  intros Hb. change 0xFFFF with (2 ^ 16 - 1). rewrite land_mod by lia. rewrite Z.shiftr_div_pow2 by lia.
  split; Z.div_mod_to_equations; lia.
Qed.

Lemma land_low_range (x n : Z) : 0 <= n -> 0 <= Z.land x (2 ^ n - 1) < 2 ^ n.
Proof. intros Hn. rewrite land_mod by done. apply Z.mod_pos_bound. lia. Qed.

(** What gdt_create stores is what the processor reads back: base, limit,
    flags and access byte of a descriptor survive the way through its 64 bits. *)
Theorem gdt_roundtrip (base limit flags access : Z) :
  0 <= base < 2 ^ 32 -> 0 <= limit < 2 ^ 20 -> 0 <= flags < 16 -> 0 <= access < 256 ->
  cpu_segment (gdt_word (gdt_create base limit flags access)) = mk_segment base limit flags access.
Proof.
  intros Hb Hl Hf Ha. destruct (limit_parts limit Hl) as [El Hh]. pose proof (base_parts base Hb) as Eb.
  unfold cpu_segment, gdt_word, gdt_create. cbn [g_limit g_base_1 g_base_2 g_access g_flags_limit g_base_3].
  rewrite flags_limit_sum by done. rewrite u8_small by lia. rewrite !Z.shiftl_mul_pow2 by lia.
  pose proof (land_low_range limit 16) as R1. pose proof (land_low_range base 16) as R2.
  pose proof (land_low_range (Z.shiftr base 16) 8) as R3. pose proof (land_low_range (Z.shiftr base 24) 8) as R4.
  change (2 ^ 16 - 1) with 0xFFFF in *. change (2 ^ 8 - 1) with 0xFF in *.
  set (l1 := Z.land limit 0xFFFF) in *. set (b1 := Z.land base 0xFFFF) in *.
  set (b2 := Z.land (Z.shiftr base 16) 0xFF) in *. set (b3 := Z.land (Z.shiftr base 24) 0xFF) in *.
  set (l2 := Z.shiftr limit 16) in *. set (w := _ + _ * 2 ^ 56).
  rewrite (field_eq w l1 (b1 + 2 ^ 16 * b2) (access + 2 ^ 8 * (l2 + 16 * flags + 2 ^ 8 * b3)) 16 24) by (unfold w; lia).
  rewrite (field_eq w (l1 + 2 ^ 16 * b1 + 2 ^ 32 * b2 + 2 ^ 40 * access + 2 ^ 48 * (l2 + 16 * flags)) b3 0 56 8)
    by (unfold w; lia).
  rewrite (field_eq w 0 l1 (b1 + 2 ^ 16 * (b2 + 2 ^ 8 * (access + 2 ^ 8 * (l2 + 16 * flags + 2 ^ 8 * b3)))) 0 16)
    by (unfold w; lia).
  rewrite (field_eq w (l1 + 2 ^ 16 * b1 + 2 ^ 32 * b2 + 2 ^ 40 * access) l2 (flags + 2 ^ 4 * b3) 48 4) by (unfold w; lia).
  rewrite (field_eq w (l1 + 2 ^ 16 * b1 + 2 ^ 32 * b2 + 2 ^ 40 * access + 2 ^ 48 * l2) flags b3 52 4) by (unfold w; lia).
  rewrite (field_eq w (l1 + 2 ^ 16 * b1 + 2 ^ 32 * b2) access (l2 + 16 * flags + 2 ^ 8 * b3) 40 8) by (unfold w; lia).
  f_equal; lia.
Qed.

(** ** The segments of the kernel *)

(** The granularity flag counts the limit in pages. *)
Definition seg_bytes (s : segment) : Z :=
  if Z.testbit (seg_flags s) 3 then (seg_limit s + 1) * 4096 else seg_limit s + 1.
Definition seg_dpl (s : segment) : Z := field (seg_access s) 5 2.
Definition seg_present (s : segment) : bool := Z.testbit (seg_access s) 7.
Definition seg_code (s : segment) : bool := Z.testbit (seg_access s) 4 && Z.testbit (seg_access s) 3.
Definition seg_data (s : segment) : bool := Z.testbit (seg_access s) 4 && negb (Z.testbit (seg_access s) 3).

(** The selectors 0x08 and 0x10 are the kernel's code and data, 0x18 and 0x20 the
    user's; each covers the whole address space. *)
Theorem gdt_flat (tss table : Z) :
  let l := map (fun e => cpu_segment (gdt_word e)) (gdt_init tss table).1 in
  map (fun s => (seg_present s, seg_code s, seg_data s, seg_dpl s, seg_base s, seg_bytes s)) (take 4 (tail l)) =
    [(true, true, false, 0, 0, 2 ^ 32); (true, false, true, 0, 0, 2 ^ 32);
     (true, true, false, 3, 0, 2 ^ 32); (true, false, true, 3, 0, 2 ^ 32)].
Proof. vm_compute. reflexivity. Qed.

(** The last descriptor is the task state segment: its address and its 104 bytes. *)
Theorem gdt_tss (tss table : Z) :
  0 <= tss < 2 ^ 32 ->
  (fun e => cpu_segment (gdt_word e)) <$> (gdt_init tss table).1 !! 5%nat = Some (mk_segment tss 103 0 0x89).
Proof. intros H. cbn [gdt_init fst lookup list_lookup app map fmap option_fmap option_map]. by rewrite gdt_roundtrip. Qed.

(** ** Gates *)

Lemma offset_parts (x : Z) : 0 <= x < 2 ^ 32 ->
  x = Z.land x 0xFFFF + 2 ^ 16 * Z.land (Z.shiftr x 16) 0xFFFF.
Proof.
  intros Hb. change 0xFFFF with (2 ^ 16 - 1). rewrite !land_mod by lia.
  rewrite !Z.shiftr_div_pow2 by lia. Z.div_mod_to_equations. lia.
Qed.

Lemma idt_gate (e : idt_entry_t) (offset : Z) :
  0 <= offset < 2 ^ 32 -> i_reserved e = 0 ->
  cpu_gate (idt_word (idt_create e offset (Z.lor IDT_PRESENT IDT_32B_INT))) = mk_gate offset 0x8 0xE 0 1.
Proof.
  intros Ho Hr. pose proof (offset_parts offset Ho) as E. unfold cpu_gate, idt_word, idt_create.
  cbn [i_offset_1 i_selector i_reserved i_flags i_offset_2]. rewrite Hr. change (Z.land _ 255) with 0x8E.
  rewrite !Z.shiftl_mul_pow2 by lia.
  pose proof (land_low_range offset 16) as R1. pose proof (land_low_range (Z.shiftr offset 16) 16) as R2.
  change (2 ^ 16 - 1) with 0xFFFF in *. set (o1 := Z.land offset 0xFFFF) in *. set (o2 := Z.land (Z.shiftr offset 16) 0xFFFF) in *.
  set (w := _ + _ * 2 ^ 48).
  rewrite (field_eq w 0 o1 (8 + 2 ^ 16 * (0 + 2 ^ 8 * (0x8E + 2 ^ 8 * o2))) 0 16) by (unfold w; lia).
  rewrite (field_eq w (o1 + 2 ^ 16 * 8 + 2 ^ 40 * 0x8E) o2 0 48 16) by (unfold w; lia).
  rewrite (field_eq w o1 8 (0 + 2 ^ 8 * (0x8E + 2 ^ 8 * o2)) 16 16) by (unfold w; lia).
  rewrite (field_eq w (o1 + 2 ^ 16 * 8) 0xE (4 + 2 ^ 3 * o2) 40 5) by (unfold w; lia).
  rewrite (field_eq w (o1 + 2 ^ 16 * 8 + 2 ^ 40 * 0xE) 0 (1 + 2 * o2) 45 2) by (unfold w; lia).
  rewrite (field_eq w (o1 + 2 ^ 16 * 8 + 2 ^ 40 * 0xE) 1 o2 47 1) by (unfold w; lia).
  f_equal. lia.
Qed.

(** ** The exceptions *)

Inductive isr :=
| isrDE | isrDB | isrNMI | isrBP | isrOF | isrBR | isrUD | isrNM | isrDF | isrCSO | isrTS | isrNP | isrSS | isrGP
| isrPF | isrRS | isrMF | isrAC | isrMC | isrXM | isrVE | isrCP | isrHV | isrVC | isrSX.
#[export] Instance isr_eq_dec : EqDecision isr.
Proof. solve_decision. Defined.

Definition error_messages : list string := [
  "divide-by-zero"; "debug"; "non-maskable interrupt"; "breakpoint"; "overflow"; "bound range exceeded";
  "invalid opcode"; "device not available"; "double fault"; "coprocessor segment overrun (LEGACY)"; "invalid tss";
  "segment not present"; "stack-segment fault"; "general protection fault"; "page fault";
  "reserved, shouldn't never be called"; "x87 floating point exception"; "alignment check"; "machine check";
  "SIMD floating-point exception"; "virtualization exception"; "control protection exception";
  "hypervisor injection exception"; "VMM comunication exception"; "Security exception"]%string.

(** The functions the macros call; the ones with a code are declared with it as
    a second argument. *)
Inductive isr_type := trap_handler | fault_handler | code_fault_handler | abort_handler | code_abort_handler.

Definition isr_def (i : isr) : isr_type * Z :=
  match i with
  | isrDE => (fault_handler, 0) | isrDB => (trap_handler, 1) | isrNMI => (fault_handler, 2) | isrBP => (trap_handler, 3)
  | isrOF => (trap_handler, 4) | isrBR => (fault_handler, 5) | isrUD => (fault_handler, 6) | isrNM => (fault_handler, 7)
  | isrDF => (code_abort_handler, 8) | isrCSO => (fault_handler, 9) | isrTS => (code_fault_handler, 10)
  | isrNP => (code_fault_handler, 11) | isrSS => (code_fault_handler, 12) | isrGP => (code_fault_handler, 13)
  | isrPF => (code_fault_handler, 14) | isrRS => (fault_handler, 15) | isrMF => (fault_handler, 16)
  | isrAC => (code_fault_handler, 17) | isrMC => (abort_handler, 18) | isrXM => (fault_handler, 19)
  | isrVE => (fault_handler, 20) | isrCP => (code_fault_handler, 21) | isrHV => (fault_handler, 22)
  | isrVC => (code_fault_handler, 23) | isrSX => (code_fault_handler, 24)
  end.
Definition takes_code (i : isr) : bool :=
  match (isr_def i).1 with code_fault_handler | code_abort_handler => true | _ => false end.

(** Running a handler: the message it prints; all but the traps abort. *)
Definition run_isr (i : isr) : outcome string :=
  let '(t, m) := isr_def i in
  let! msg := lget error_messages m in
  match t with trap_handler => Ret msg | _ => Panic end.

Definition int_handlers : list isr := [
  isrDE; isrDB; isrNMI; isrBP; isrOF; isrBR; isrUD;
  isrNM; isrDF; isrCSO; isrTS; isrNP; isrSS; isrGP;
  isrPF; isrRS; isrMF; isrAC; isrMC; isrXM; isrVE;
  isrCP; isrRS; isrRS; isrRS; isrRS; isrRS; isrRS;
  isrHV; isrVC; isrSX; isrRS].

(** [addr] gives the addresses of the handlers. *)
Fixpoint isrs_loop (addr : isr -> Z) (idt : list idt_entry_t) (l : list isr) (n : Z) : outcome (list idt_entry_t) :=
  match l with
  | [] => Ret idt
  | i :: l =>
      let! idt := idt_set idt n (addr i) (Z.lor IDT_PRESENT IDT_32B_INT) in
      isrs_loop addr idt l (n + 1)
  end.
Definition isrs_init (addr : isr -> Z) (idt : list idt_entry_t) : outcome (list idt_entry_t) :=
  isrs_loop addr idt int_handlers 0.

(** The vectors for which the processor pushes an error code. *)
Definition cpu_error_code (v : Z) : bool :=
  bool_decide (v ∈ [8; 10; 11; 12; 13; 14; 17; 21; 29; 30]).

Lemma isrs_loop_ok (addr : isr -> Z) (l : list isr) (idt : list idt_entry_t) (n : nat) :
  (n + List.length l <= List.length idt)%nat ->
  exists idt', isrs_loop addr idt l (Z.of_nat n) = Ret idt' /\ List.length idt' = List.length idt /\
    forall k, idt' !! k = if decide (n <= k < n + List.length l)%nat
      then (fun i => idt_create (default idt_zero (idt !! k)) (addr i) (Z.lor IDT_PRESENT IDT_32B_INT)) <$> l !! (k - n)%nat
      else idt !! k.
Proof.
  revert idt n. induction l as [|i l IH]; intros idt n Hn.
  { exists idt. split; [done|]. split; [done|]. intros k. rewrite decide_False; [done|cbn; lia]. }
  cbn [List.length] in Hn. cbn [isrs_loop]. unfold idt_set.
  destruct (lookup_lt_is_Some_2 idt n) as [e He]; [lia|].
  assert (E : lget idt (Z.of_nat n) = Ret e).
  { unfold lget. destruct (Z.ltb_spec (Z.of_nat n) 0); [lia|]. by rewrite Nat2Z.id, He. }
  rewrite E. cbn [obind]. rewrite lset_Ret by lia. cbn [obind]. rewrite Nat2Z.id.
  set (e' := idt_create e _ _). replace (Z.of_nat n + 1) with (Z.of_nat (S n)) by lia.
  destruct (IH (<[n := e']> idt) (S n)) as (idt' & Er & Hl & Hk); [rewrite length_insert; lia|].
  exists idt'. split; [done|]. rewrite length_insert in Hl. split; [done|]. intros k. rewrite Hk. cbn [List.length].
  destruct (decide (k = n)) as [->|Hkn].
  - rewrite decide_False, decide_True by lia. rewrite list_lookup_insert_eq, Nat.sub_diag by lia.
    cbn. by rewrite He.
  - rewrite list_lookup_insert_ne by done. destruct (decide (S n <= k < S n + List.length l)%nat).
    + rewrite decide_True by lia. replace (k - n)%nat with (S (k - S n)) by lia. done.
    + rewrite decide_False by lia. done.
Qed.

(** C36: After isrs_init on the cleared table each of the 32 exceptions has a
    present 32-bit interrupt gate in the kernel code segment that leads to its
    handler, and that handler takes an error code exactly when the processor
    pushes one; the gates of the interrupts behind them are not present. *)
Theorem isrs_gates (addr : isr -> Z) (table : Z) :
  (forall i, 0 <= addr i < 2 ^ 32) ->
  exists idt, isrs_init addr (idt_init table).1 = Ret idt /\ List.length idt = 256%nat /\
    (forall v, (v < 32)%nat -> exists e i, idt !! v = Some e /\ int_handlers !! v = Some i /\
      cpu_gate (idt_word e) = mk_gate (addr i) 0x8 0xE 0 1 /\ takes_code i = cpu_error_code (Z.of_nat v)) /\
    (forall v e, (32 <= v)%nat -> idt !! v = Some e -> gt_present (cpu_gate (idt_word e)) = 0).
Proof.
  intros Ha. unfold isrs_init. set (idt0 := (idt_init table).1).
  assert (L0 : List.length idt0 = 256%nat) by reflexivity.
  destruct (isrs_loop_ok addr int_handlers idt0 0) as (idt & E & Hl & Hk); [rewrite L0; cbn; lia|].
  exists idt. split; [done|]. split; [by rewrite Hl|]. split.
  - intros v Hv. destruct (lookup_lt_is_Some_2 int_handlers v) as [i Hi]; [cbn; lia|].
    rewrite Hk, decide_True by (cbn; lia). rewrite Nat.sub_0_r, Hi. cbn [fmap option_fmap option_map].
    eexists _, i. split; [done|]. split; [done|]. split.
    + apply idt_gate; [done|]. unfold idt0. cbn [idt_init fst]. rewrite lookup_replicate_2 by (unfold IDT_ENTRIES; lia). done.
    + assert (Forall (fun k => takes_code <$> int_handlers !! k = Some (cpu_error_code (Z.of_nat k))) (seq 0 32)) as Hc
        by (repeat constructor).
      rewrite Forall_forall in Hc. specialize (Hc v). rewrite Hi in Hc.
      cut (Some (takes_code i) = Some (cpu_error_code (Z.of_nat v))); [congruence|]. apply Hc, elem_of_seq. lia.
  - intros v e Hv He. rewrite Hk, decide_False in He by (cbn; lia). unfold idt0 in He. cbn [idt_init fst] in He.
    apply lookup_replicate in He as [-> _]. reflexivity.
Qed.

Lemma isrs_gates_witness : exists idt e, isrs_init (fun _ => 0xC0101234) (idt_init 0xD0000100).1 = Ret idt /\
  idt !! 14%nat = Some e /\ cpu_gate (idt_word e) = mk_gate 0xC0101234 0x8 0xE 0 1.
Proof.
  destruct (isrs_gates (fun _ => 0xC0101234) 0xD0000100) as (idt & E & _ & H & _); [intros; lia|].
  destruct (H 14%nat) as (e & i & He & _ & Hg & _); [lia|].
  exact (ex_intro _ idt (ex_intro _ e (conj E (conj He Hg)))).
Defined.

Lemma gdt_roundtrip_witness :
  cpu_segment (gdt_word (gdt_create 0xD0001234 103 0 0x89)) = mk_segment 0xD0001234 103 0 0x89.
Proof. apply gdt_roundtrip; lia. Defined.

(** Every handler finds its message, and only the traps return. *)
Theorem run_isr_ok (i : isr) :
  match (isr_def i).1 with trap_handler => exists m, run_isr i = Ret m | _ => run_isr i = Panic end.
Proof. destruct i; first [reflexivity|by eexists]. Qed.

(** ** The task state segment *)

Definition PAGE_LAST_DWORD : Z := (4096 - 1) / 4.

(** The members [tss_init] sets; the others are 0. *)
Record tss_t := mk_tss { tss_ss0 : Z; tss_esp0 : Z; tss_iopb : Z }.
Definition tss_init (stack : Z) : tss_t := mk_tss 0x10 (u32 (stack + PAGE_LAST_DWORD)) TSS_SIZE.

(** The stack for interrupts from user mode starts a quarter into its page: the
    offset of the last dword is given in dwords. *)
Theorem tss_stack_quarter (stack : Z) :
  0 <= stack < 2 ^ 32 - 4096 -> tss_esp0 (tss_init stack) = stack + 1023 /\ tss_esp0 (tss_init stack) mod 4 = (stack + 3) mod 4.
Proof.
  intros H. unfold tss_init, PAGE_LAST_DWORD. cbn [tss_esp0]. change ((4096 - 1) / 4) with 1023.
  rewrite u32_small by lia. split; [done|]. Z.div_mod_to_equations. lia.
Qed.
