(* ===== verification/Acpi.v ===== *)
(** The ACPI tables (src/src/kernel/drivers/rsdt.c): searching the root pointer,
    the checksums, and finding a table by its signature. *)

From Stdlib Require Import ZArith Lia.
From stdpp Require Import base numbers list.
From S2P Require Import Prelude.

Definition EBDA_START : Z := 0x40E.
Definition MAIN_BIOS_START : Z := 0xE0000.
Definition MAIN_BIOS_END : Z := 0xFFFFF.
Definition RSDP_SIGNATURE_SIZE : nat := 8.
Definition RSDT_SIGNATURE_SIZE : nat := 4.
(** "RSD PTR " *)
Definition RSDP_SIGNATURE : list Z := [82; 83; 68; 32; 80; 84; 82; 32].

(** Offsets and sizes of [rsdp_descriptor_t], [rsdp20_descriptor_t],
    [std_header_t] and [rsdt_t]. *)
Definition RSDP_REVISION : Z := 15.
Definition RSDP_RSDT_ADDR : Z := 16.
Definition RSDP_SIZE : Z := 20.
Definition RSDP_XSDT_ADDR : Z := 24.
Definition RSDP20_SIZE : Z := 36.
Definition HDR_LENGTH : Z := 4.
Definition HDR_SIZE : Z := 36.
Definition RSDT_SIZE : Z := 40.

Section Acpi.
(** The memory, byte by byte. *)
Context (mem : Z -> Z).

Definition bytes_at (a : Z) (n : nat) : list Z := map (fun k => mem (a + Z.of_nat k)) (seq 0 n).
Definition ld32 (a : Z) : Z := mem a + 2 ^ 8 * mem (a + 1) + 2 ^ 16 * mem (a + 2) + 2 ^ 24 * mem (a + 3).

(** ** The root pointer *)

(** The search, with fuel for every 16th address. *)
Fixpoint check_loop (fuel : nat) (start end_ : Z) : outcome Z :=
  match fuel with
  | O => NoFuel
  | S fuel =>
      if start <? end_ then
        if bool_decide (bytes_at start RSDP_SIGNATURE_SIZE = RSDP_SIGNATURE) then Ret start
        else check_loop fuel (start + 16) end_
      else Ret 0
  end.
Definition rsdp_check (start_addr end_addr : Z) : outcome Z :=
  check_loop (S (Z.to_nat ((end_addr - start_addr + 15) / 16))) start_addr end_addr.

Definition rsdp_find : outcome Z :=
  let! descriptor := rsdp_check EBDA_START (EBDA_START + 1024) in
  if negb (descriptor =? 0) then Ret descriptor
  else rsdp_check MAIN_BIOS_START MAIN_BIOS_END.

(** [for (; start < end; ++start) sum += *start;] for [n] bytes. *)
Fixpoint sum_loop (n : nat) (start sum : Z) : Z :=
  match n with O => sum | S n => sum_loop n (start + 1) (u8 (sum + mem start)) end.

Definition rsdp_checksum (rsdp version : Z) : Z :=
  let sum := sum_loop (Z.to_nat RSDP_SIZE) rsdp 0 in
  if (version =? 0) || negb (Z.land sum 1 =? 0) then Z.land (Z.lnot sum) 1
  else
    let sum := sum_loop (Z.to_nat (RSDP20_SIZE - RSDP_SIZE)) (rsdp + RSDP_SIZE) 0 in
    Z.land (Z.lnot sum) 1.

(** ** The table of tables *)

Definition rsdt_checksum (rsdt : Z) : bool :=
  sum_loop (Z.to_nat (ld32 (rsdt + HDR_LENGTH))) rsdt 0 =? 0.

(** [for (; entry < last; ++entry)]; 0 is NULL.  The pointers wrap round as
    the machine's do. *)
Fixpoint entry_loop (fuel : nat) (entry last : Z) (signature : list Z) : outcome Z :=
  match fuel with
  | O => NoFuel
  | S fuel =>
      if entry <? last then
        if bool_decide (bytes_at (ld32 entry) RSDT_SIGNATURE_SIZE = signature) then Ret (ld32 entry)
        else entry_loop fuel (u32 (entry + 4)) last signature
      else Ret 0
  end.
Definition rsdt_get_entry (rsdt : Z) (signature : list Z) : outcome Z :=
  let entry := u32 (rsdt + HDR_SIZE) in
  let entries := u32 (ld32 (rsdt + HDR_LENGTH) - HDR_SIZE) / 4 in
  let last := u32 (entry + 4 * entries) in
  entry_loop (S (Z.to_nat entries)) entry last signature.

(** [rsdt_init]: the variable [rsdt], the range that is mapped, and whether the
    set-up is reported as complete. *)
Definition rsdt_init : outcome (Z * option (Z * Z) * bool) :=
  let! rsdp := rsdp_find in
  if rsdp =? 0 then Ret (0, None, false)
  else
    let revision := mem (rsdp + RSDP_REVISION) in
    if rsdp_checksum rsdp revision =? 0 then Ret (0, None, false)
    else
      let rsdt := if negb (revision =? 0) then ld32 (rsdp + RSDP_XSDT_ADDR) else ld32 (rsdp + RSDP_RSDT_ADDR) in
      Ret (rsdt, Some (rsdt, RSDT_SIZE), rsdt_checksum rsdt).

(** ** Correctness *)

(** The sum of the bytes of a range. *)
Definition byte_sum (a : Z) (n : nat) : Z := foldr Z.add 0 (bytes_at a n).

Lemma bytes_at_S (a : Z) (n : nat) : bytes_at a (S n) = mem a :: bytes_at (a + 1) n.
Proof.
  unfold bytes_at. cbn [seq map]. rewrite Z.add_0_r. f_equal. rewrite <- fmap_S_seq.
  rewrite <- list_fmap_compose. apply list_fmap_ext. intros i x _. cbn. f_equal. lia.
Qed.

Lemma sum_loop_ok (n : nat) (a s : Z) : 0 <= s < 256 -> sum_loop n a s = (s + byte_sum a n) mod 256.
Proof.
  revert a s. induction n as [|n IH]; intros a s Hs; cbn [sum_loop].
  { unfold byte_sum. cbn. rewrite Z.add_0_r, Z.mod_small; lia. }
  rewrite IH by apply u8_range. unfold byte_sum. rewrite bytes_at_S. cbn [foldr].
  unfold u8, wrap. change (2 ^ 8) with 256. rewrite Zplus_mod_idemp_l. f_equal. lia.
Qed.

(** The checksum of a table passes exactly when its bytes add up to 0 modulo
    256. *)
Theorem rsdt_checksum_ok (rsdt : Z) :
  rsdt_checksum rsdt = true <-> byte_sum rsdt (Z.to_nat (ld32 (rsdt + HDR_LENGTH))) mod 256 = 0.
Proof. unfold rsdt_checksum. rewrite sum_loop_ok by lia. rewrite Z.add_0_l. apply Z.eqb_eq. Qed.

(** The checksum of the root pointer looks at the lowest bit only: every pointer
    whose bytes have an even sum passes. *)
Theorem rsdp_checksum_even (rsdp : Z) :
  rsdp_checksum rsdp 0 = 1 <-> byte_sum rsdp (Z.to_nat RSDP_SIZE) mod 2 = 0.
Proof.
  unfold rsdp_checksum. cbn [Z.eqb orb]. rewrite sum_loop_ok by lia. rewrite Z.add_0_l.
  set (s := byte_sum _ _). change 1 with (Z.ones 1) at 1. rewrite Z.land_ones by lia. change (2 ^ 1) with 2.
  unfold Z.lnot. Z.div_mod_to_equations. lia.
Qed.

(** The first entry with the signature. *)
Definition is_entry (rsdt k : Z) (signature : list Z) : Prop :=
  bytes_at (ld32 (rsdt + HDR_SIZE + 4 * k)) RSDT_SIGNATURE_SIZE = signature.
#[local] Instance is_entry_dec (rsdt k : Z) (signature : list Z) : Decision (is_entry rsdt k signature).
Proof. unfold is_entry. apply _. Defined.

(** The pointer reaches [last] before it wraps round. *)
Lemma entry_loop_ends (n : nat) (entry last : Z) (signature : list Z) :
  0 <= entry -> last < 2 ^ 32 -> (exists d, last = entry + 4 * d /\ d <= Z.of_nat n) ->
  exists r, entry_loop (S n) entry last signature = Ret r.
Proof.
  revert entry. induction n as [|n IH]; intros entry H0 Hl (d & -> & Hd);
    cbn [entry_loop]; destruct (Z.ltb_spec entry (entry + 4 * d)); try (by eexists); try lia.
  case_bool_decide; [by eexists|]. rewrite u32_small by lia. apply IH; [lia|done|]. exists (d - 1). lia.
Qed.

Lemma entry_loop_ok (rsdt : Z) (signature : list Z) (n : nat) (k : Z) :
  0 <= rsdt -> 0 <= k -> rsdt + HDR_SIZE + 4 * (k + Z.of_nat n) < 2 ^ 32 ->
  let e i := rsdt + HDR_SIZE + 4 * i in
  (exists j, k <= j < k + Z.of_nat n /\ is_entry rsdt j signature /\ (forall i, k <= i < j -> ~ is_entry rsdt i signature) /\
    entry_loop (S n) (e k) (e (k + Z.of_nat n)) signature = Ret (ld32 (e j))) \/
  (forall i, k <= i < k + Z.of_nat n -> ~ is_entry rsdt i signature) /\
    entry_loop (S n) (e k) (e (k + Z.of_nat n)) signature = Ret 0.
Proof.
  intros H0. revert k. induction n as [|n IH]; intros k Hk Hl e; unfold e in *; cbn [entry_loop].
  { right. rewrite Z.add_0_r, Z.ltb_irrefl. split; [lia|done]. }
  destruct (Z.ltb_spec (rsdt + HDR_SIZE + 4 * k) (rsdt + HDR_SIZE + 4 * (k + Z.of_nat (S n)))); [|lia].
  destruct (decide (is_entry rsdt k signature)) as [Hs|Hs].
  - left. exists k. rewrite bool_decide_true by done. split_and!; [lia|lia|done|lia|done].
  - rewrite bool_decide_false by done. rewrite u32_small by (unfold HDR_SIZE in *; lia).
    replace (rsdt + HDR_SIZE + 4 * k + 4) with (rsdt + HDR_SIZE + 4 * (k + 1)) by lia.
    replace (k + Z.of_nat (S n)) with (k + 1 + Z.of_nat n) by lia.
    destruct (IH (k + 1)) as [(j & Hj & Hm & Hf & E)|[Hf E]]; [lia|lia| |].
    + left. exists j. split_and!; try done; [lia|lia|]. intros i Hi. destruct (decide (i = k)) as [->|]; [done|].
      apply Hf. lia.
    + right. split; [|done]. intros i Hi. destruct (decide (i = k)) as [->|]; [done|]. apply Hf. lia.
Qed.

(** The number of entries of a table of at least the size of its header. *)
Definition entry_count (rsdt : Z) : Z := (ld32 (rsdt + HDR_LENGTH) - HDR_SIZE) / 4.

(** C37: The search of rsdt_get_entry ends whatever the table says of its length.
    For a table whose length is at least that of its header (36 bytes; below it
    the count of entries wraps round) and which does not run past the end of the
    address space, it returns the pointer of the first entry whose table has the
    signature, and NULL exactly when none has it. *)
Theorem rsdt_get_entry_first (rsdt : Z) (signature : list Z) :
  let len := ld32 (rsdt + HDR_LENGTH) in
  (exists r, rsdt_get_entry rsdt signature = Ret r) /\
  (0 <= rsdt -> HDR_SIZE <= len -> rsdt + len < 2 ^ 32 ->
   (exists j, 0 <= j < entry_count rsdt /\ is_entry rsdt j signature /\
     (forall i, 0 <= i < j -> ~ is_entry rsdt i signature) /\
     rsdt_get_entry rsdt signature = Ret (ld32 (rsdt + HDR_SIZE + 4 * j))) \/
   (forall i, 0 <= i < entry_count rsdt -> ~ is_entry rsdt i signature) /\ rsdt_get_entry rsdt signature = Ret 0).
Proof.
  intros len. unfold rsdt_get_entry. fold len. split.
  - set (entry := u32 (rsdt + HDR_SIZE)). set (n := u32 (len - HDR_SIZE) / 4).
    pose proof (u32_range (rsdt + HDR_SIZE)) as He. fold entry in He. pose proof (u32_range (len - HDR_SIZE)) as Hn.
    assert (0 <= n /\ 4 * n < 2 ^ 32) as [Hn0 Hn4] by (unfold n; Z.div_mod_to_equations; lia).
    destruct (Z.lt_ge_cases (entry + 4 * n) (2 ^ 32)) as [Hlt|Hge].
    + rewrite u32_small by lia. apply entry_loop_ends; [lia|done|]. exists n. lia.
    + cbn [entry_loop]. assert (u32 (entry + 4 * n) < entry).
      { unfold u32, wrap. rewrite <- (Z.mod_unique (entry + 4 * n) (2 ^ 32) 1 (entry + 4 * n - 2 ^ 32)); lia. }
      destruct (Z.ltb_spec entry (u32 (entry + 4 * n))); [lia|]. by eexists.
  - intros H0 Hl Hf. unfold HDR_SIZE in Hl. rewrite (u32_small (len - HDR_SIZE)) by (unfold HDR_SIZE; lia).
    change ((len - HDR_SIZE) / 4) with (entry_count rsdt).
    assert (0 <= entry_count rsdt /\ 4 * entry_count rsdt <= len - 36) as [Hc0 Hc4].
    { unfold entry_count. fold len. unfold HDR_SIZE. Z.div_mod_to_equations. lia. }
    rewrite (u32_small (rsdt + HDR_SIZE)) by (unfold HDR_SIZE; lia). rewrite u32_small by (unfold HDR_SIZE; lia).
    pose proof (entry_loop_ok rsdt signature (Z.to_nat (entry_count rsdt)) 0 H0 ltac:(lia)) as Hok. cbv zeta in Hok.
    rewrite !Z.add_0_l, Z.mul_0_r, Z.add_0_r, Z2Nat.id in Hok by done. apply Hok. unfold HDR_SIZE. lia.
Qed.

(** The places the search looks at. *)
Definition is_rsdp (a : Z) : Prop := bytes_at a RSDP_SIGNATURE_SIZE = RSDP_SIGNATURE.
#[local] Instance is_rsdp_dec (a : Z) : Decision (is_rsdp a).
Proof. unfold is_rsdp. apply _. Defined.

Lemma check_loop_ok (fuel : nat) (start end_ : Z) :
  end_ - start <= 16 * Z.of_nat fuel ->
  exists r, check_loop (S fuel) start end_ = Ret r /\
    ((exists k, 0 <= k /\ r = start + 16 * k /\ r < end_ /\ is_rsdp r /\ forall i, 0 <= i < k -> ~ is_rsdp (start + 16 * i)) \/
     (r = 0 /\ forall i, 0 <= i -> start + 16 * i < end_ -> ~ is_rsdp (start + 16 * i))).
Proof.
  revert start. induction fuel as [|fuel IH]; intros start Hf; cbn [check_loop]; destruct (Z.ltb_spec start end_); try lia.
  1, 3: exists 0; split; [done|]; right; split; [done|]; intros; lia.
  destruct (decide (is_rsdp start)) as [Hs|Hs].
  { rewrite bool_decide_true by done. exists start. split; [done|]. left. exists 0. split_and!; try lia; done. }
  rewrite bool_decide_false by done.
  assert (Hshift : forall i, 0 <= i -> (is_rsdp (start + 16 * i) -> i <> 0 /\ is_rsdp (start + 16 + 16 * (i - 1)))).
  { intros i Hi Hr. destruct (decide (i = 0)) as [->|]; [by rewrite Z.mul_0_r, Z.add_0_r in Hr|].
    split; [done|]. by replace (start + 16 + 16 * (i - 1)) with (start + 16 * i) by lia. }
  destruct (IH (start + 16)) as (r & E & [(k & Hk & Er & Hr & Hp & Hn)|[-> Hn]]); [lia| |].
  - exists r. split; [done|]. left. exists (k + 1). split_and!; try done; [lia|lia|].
    intros i Hi [Hne Hr']%Hshift; [|lia]. apply (Hn (i - 1)); [lia|done].
  - exists 0. split; [done|]. right. split; [done|]. intros i Hi He [Hne Hr']%Hshift; [|done].
    apply (Hn (i - 1)); [lia|lia|done].
Qed.

(** The search for the root pointer ends, with the first address it looks at
    that has the signature, or NULL when there is none. *)
Theorem rsdp_check_first (start end_ : Z) :
  exists r, rsdp_check start end_ = Ret r /\
    ((exists k, 0 <= k /\ r = start + 16 * k /\ r < end_ /\ is_rsdp r /\ forall i, 0 <= i < k -> ~ is_rsdp (start + 16 * i)) \/
     (r = 0 /\ forall i, 0 <= i -> start + 16 * i < end_ -> ~ is_rsdp (start + 16 * i))).
Proof.
  apply check_loop_ok. destruct (Z.le_gt_cases end_ start).
  - lia.
  - rewrite Z2Nat.id by (apply Z.div_pos; lia). Z.div_mod_to_equations. lia.
Qed.
End Acpi.

(** ** Concrete tables *)

(** A table at 0x1000 with two entries: "HPET" at 0x2000 and "APIC" at 0x3000. *)
Definition acpi_mem (a : Z) : Z :=
  znth 0 (if (0x1000 <=? a) && (a <? 0x1100) then
      replicate 4 0 ++ [44; 0; 0; 0] ++ replicate 28 0 ++ [0; 0x20; 0; 0] ++ [0; 0x30; 0; 0]
    else if (0x2000 <=? a) && (a <? 0x2100) then [72; 80; 69; 84]
    else if (0x3000 <=? a) && (a <? 0x3100) then [65; 80; 73; 67] else []) (a mod 0x100).

Lemma rsdt_get_entry_first_witness : rsdt_get_entry acpi_mem 0x1000 [65; 80; 73; 67] = Ret 0x3000.
Proof.
  destruct (rsdt_get_entry_first acpi_mem 0x1000 [65; 80; 73; 67]) as [_ H].
  destruct H as [(j & Hj & _ & Hn & E)|[Hn _]]; [lia|vm_compute; discriminate|vm_compute; reflexivity|..].
  - rewrite E. change (entry_count acpi_mem 0x1000) with 2 in Hj.
    destruct (decide (j = 0)) as [->|]; [|replace j with 1 by lia; reflexivity].
    exfalso. vm_compute in E. discriminate E.
  - exfalso. apply (Hn 1); [vm_compute; split; [discriminate|reflexivity]|reflexivity].
Defined.

(** A table of revision 2 has entries of eight bytes, which are read as entries
    of four: the second of them is the upper half of the first. *)
Definition xsdt_mem (a : Z) : Z :=
  znth 0 (if (0x1000 <=? a) && (a <? 0x1100) then
      replicate 4 0 ++ [52; 0; 0; 0] ++ replicate 28 0 ++ [0; 0x20; 0; 0; 0; 0; 0; 0] ++ [0; 0x30; 0; 0; 0; 0; 0; 0]
    else []) (a mod 0x100).
Theorem xsdt_entries_halved :
  entry_count xsdt_mem 0x1000 = 4 /\ map (fun k => ld32 xsdt_mem (0x1000 + HDR_SIZE + 4 * Z.of_nat k)) (seq 0 4) = [0x2000; 0; 0x3000; 0].
Proof. split; vm_compute; reflexivity. Qed.
