(* ===== verification/Apic.v ===== *)
(** The local and the I/O interrupt controllers (src/src/kernel/int/apic.c):
    reading their addresses from the ACPI table, masking and routing the
    interrupt lines. *)

From Stdlib Require Import ZArith Lia.
From stdpp Require Import base numbers list.
From S2P Require Import Prelude Ports Descr Acpi.

Definition MADT_TYPE_LAPIC : Z := 0.
Definition MADT_TYPE_IOAPIC : Z := 1.
Definition MADT_TYPE_IOAPIC_OVERRIDE : Z := 2.

Definition LAPIC_TASK_PRIO_REG : Z := 0x80.
Definition LAPIC_EOI_REG : Z := 0xB0.
Definition LAPIC_SIV_REG : Z := 0xF0.
Definition LAPIC_ERROR_STATUS_REG : Z := 0x280.
Definition LAPIC_TIMER_REG : Z := 0x320.
Definition LAPIC_LINT0_REG : Z := 0x350.
Definition LAPIC_LINT1_REG : Z := 0x360.
Definition LAPIC_ERROR_REG : Z := 0x370.
Definition LAPIC_INIT_COUNTER_REG : Z := 0x380.
Definition LAPIC_CURR_COUNTER_REG : Z := 0x390.
Definition LAPIC_TIMER_DIV_REG : Z := 0x3E0.
Definition LAPIC_SIZE : Z := 0x3F0.
Definition LAPIC_ENABLE : Z := 0x100.
Definition LAPIC_MASK : Z := 0x10000.
Definition LAPIC_TIMER_MASK : Z := Z.shiftl 1 16.
Definition LAPIC_TIMER_PERIODIC : Z := Z.shiftl 1 17.
Definition LAPIC_TIMER_DIVISION_X16 : Z := 0x3.
Definition IOAPIC_VER_REG : Z := 0x1.
Definition IOAPIC_IRQ_REG : Z := 0x10.
Definition IOAPIC_SIZE : Z := 0x10.
Definition IOAPIC_MASK : Z := Z.shiftl 1 16.

(** "APIC" *)
Definition MADT_SIGNATURE : list Z := [65; 80; 73; 67].

(** The static variables; the mapping is NULL before the record of the I/O
    controller was seen. *)
Record apic := mk_apic {
  processor_id : Z;
  ioapic_addr : Z;
  lapic_addr : Z;
  max_irqs : Z;
  ioapic_mapping : option (list Z);
}.
Definition apic_start : apic := mk_apic 0 0 0 0 None.
Definition with_mapping (a : apic) (l : list Z) : apic :=
  mk_apic (processor_id a) (ioapic_addr a) (lapic_addr a) (max_irqs a) (Some l).

Section Apic.
Context {W : Type} `{!MemIO W}.

Definition lapic_write_reg (a : apic) (w : W) (reg data : Z) : W := wr32 w (lapic_addr a + reg) data.
Definition lapic_read_reg (a : apic) (w : W) (reg : Z) : Z * W := rd32 w (lapic_addr a + reg).
Definition ioapic_write_reg (a : apic) (w : W) (index reg : Z) : W :=
  let w := wr32 w (ioapic_addr a) index in
  wr32 w (ioapic_addr a + 0x10) reg.
Definition ioapic_read_reg (a : apic) (w : W) (index : Z) : Z * W :=
  let w := wr32 w (ioapic_addr a) index in
  rd32 w (ioapic_addr a + 0x10).

(** ** The table *)

(** [mapping[irq_source] = global_int] *)
Definition set_mapping (a : apic) (irq v : Z) : outcome apic :=
  match ioapic_mapping a with
  | None => Undef
  | Some l => let! l := lset l irq v in Ret (with_mapping a l)
  end.

(** A record at [e]; the array of names for the message has ten elements.  The
    last component lists the ranges that are mapped. *)
Definition madt_entry (mem : Z -> Z) (a : apic) (w : W) (maps : list (Z * Z)) (e : Z) :
    outcome (apic * W * list (Z * Z)) :=
  let type := mem e in
  if 10 <=? type then Undef
  else if type =? MADT_TYPE_LAPIC then
    Ret (mk_apic (mem (e + 2)) (ioapic_addr a) (lapic_addr a) (max_irqs a) (ioapic_mapping a), w, maps)
  else if type =? MADT_TYPE_IOAPIC then
    let addr := ld32 mem (e + 4) in
    let a := mk_apic (processor_id a) addr (lapic_addr a) (max_irqs a) (ioapic_mapping a) in
    let '(ver, w) := ioapic_read_reg a w IOAPIC_VER_REG in
    let n := u32 (Z.shiftr ver 16 + 1) in
    Ret (mk_apic (processor_id a) addr (lapic_addr a) n (Some (replicate (Z.to_nat n) (-1))), w,
      maps ++ [(addr, IOAPIC_SIZE)])
  else if type =? MADT_TYPE_IOAPIC_OVERRIDE then
    let! a := set_mapping a (mem (e + 3)) (s32 (ld32 mem (e + 4))) in
    Ret (a, w, maps)
  else Ret (a, w, maps).

(** The records up to the end of the table.  A record advances by its length;
    one of length 0 is visited again and again, and the fuel, one round for
    every byte of the table, runs out. *)
Fixpoint madt_loop (fuel : nat) (mem : Z -> Z) (a : apic) (w : W) (maps : list (Z * Z)) (e madt_end : Z) :
    outcome (apic * W * list (Z * Z)) :=
  match fuel with
  | O => NoFuel
  | S fuel =>
      if e <? madt_end then
        let! (a, w, maps) := madt_entry mem a w maps e in
        madt_loop fuel mem a w maps (e + mem (e + 1)) madt_end
      else Ret (a, w, maps)
  end.

Definition MADT_HEADER_SIZE : Z := 44.
Definition madt_parse (mem : Z -> Z) (rsdt : Z) (a : apic) (w : W) : outcome (apic * W * list (Z * Z)) :=
  let! header := rsdt_get_entry mem rsdt MADT_SIGNATURE in
  if header =? 0 then Undef
  else
    let lapic := ld32 mem (header + 36) in
    let len := ld32 mem (header + 4) in
    madt_loop (S (Z.to_nat len)) mem (mk_apic (processor_id a) (ioapic_addr a) lapic (max_irqs a) (ioapic_mapping a)) w
      [(lapic, LAPIC_SIZE)] (header + MADT_HEADER_SIZE) (header + len).

(** ** The lines *)

Definition ioapic_get_irq (irq is_low : Z) : Z := IOAPIC_IRQ_REG + 2 * u8 irq + is_low.

Definition lapic_sendEOI (a : apic) (w : W) : W := lapic_write_reg a w LAPIC_EOI_REG 0.

Definition lapic_mask_int (a : apic) (w : W) : W :=
  let w := lapic_write_reg a w LAPIC_TIMER_REG LAPIC_TIMER_MASK in
  let w := lapic_write_reg a w LAPIC_LINT0_REG LAPIC_MASK in
  lapic_write_reg a w LAPIC_LINT1_REG LAPIC_MASK.

(** The model-specific register that is set in between is not modelled. *)
Definition lapic_init (a : apic) (w : W) : W :=
  let w := lapic_mask_int a w in
  let w := lapic_write_reg a w LAPIC_SIV_REG (Z.lor 0xFF LAPIC_ENABLE) in
  let w := lapic_write_reg a w LAPIC_ERROR_REG (IRQ_OFFSET + LEGACY_PIC_OFFSET + 19) in
  let w := lapic_write_reg a w LAPIC_ERROR_STATUS_REG 0 in
  let w := lapic_write_reg a w LAPIC_ERROR_STATUS_REG 0 in
  let w := lapic_sendEOI a w in
  lapic_write_reg a w LAPIC_TASK_PRIO_REG 0.

Fixpoint ioapic_init_loop (n : nat) (a : apic) (w : W) (i : Z) : W :=
  match n with
  | O => w
  | S n =>
      let w := ioapic_write_reg a w (ioapic_get_irq i 0) IOAPIC_MASK in
      let w := ioapic_write_reg a w (ioapic_get_irq i 1) 0 in
      ioapic_init_loop n a w (i + 1)
  end.
Definition ioapic_init (a : apic) (w : W) : W := ioapic_init_loop (Z.to_nat (max_irqs a)) a w 0.

(** The element is read before the index is compared with the size. *)
Definition ioapic_get_mapping (a : apic) (irq : Z) : outcome (Z * apic) :=
  match ioapic_mapping a with
  | None => Undef
  | Some l =>
      let! m := lget l irq in
      if m =? -2 then Panic
      else if (max_irqs a <=? irq) || (m =? -1) then
        let! l := lset l irq (-2) in
        Ret (irq, with_mapping a l)
      else Ret (u32 m, a)
  end.

Definition ioapic_legacy_irq_activate (a : apic) (w : W) (irq : Z) : outcome (apic * W) :=
  let! (irq, a) := ioapic_get_mapping a irq in
  let w := ioapic_write_reg a w (ioapic_get_irq irq 0) (u32 (IRQ_OFFSET + irq)) in
  let w := ioapic_write_reg a w (ioapic_get_irq irq 1) (u32 (Z.shiftl (processor_id a) 24)) in
  Ret (a, w).

Definition ioapic_irq_activate (a : apic) (w : W) (apic_irq irq : Z) : W :=
  let w := ioapic_write_reg a w (ioapic_get_irq apic_irq 0)
    (Z.lor (Z.shiftl 1 16) (u32 (IRQ_OFFSET + LEGACY_PIC_OFFSET + irq))) in
  ioapic_write_reg a w (ioapic_get_irq apic_irq 1) (u32 (Z.shiftl (processor_id a) 24)).

Definition ioapic_irq_set_mask (a : apic) (w : W) (irq : Z) : W :=
  let '(reg, w) := ioapic_read_reg a w (ioapic_get_irq irq 0) in
  ioapic_write_reg a w (ioapic_get_irq irq 0) (Z.lor reg (Z.shiftl 1 16)).

Definition ioapic_irq_clear_mask (a : apic) (w : W) (irq : Z) : W :=
  let '(reg, w) := ioapic_read_reg a w (ioapic_get_irq irq 0) in
  ioapic_write_reg a w (ioapic_get_irq irq 0) (Z.land reg (bnot 32 (Z.shiftl 1 16))).
End Apic.

(** ** The documented behaviour of the I/O controller *)

(** Its registers are reached through an index and a data window. *)
Class IoapicLaws (W : Type) `{!MemIO W} (base : Z) := {
  io_index : W -> Z;
  io_reg : W -> Z -> Z;
  io_select w v : io_index (wr32 w base v) = v /\ forall r, io_reg (wr32 w base v) r = io_reg w r;
  io_write w v : forall r, io_reg (wr32 w (base + 0x10) v) r = if r =? io_index w then v else io_reg w r;
  io_read w : exists w', rd32 w (base + 0x10) = (io_reg w (io_index w), w') /\ forall r, io_reg w' r = io_reg w r;
}.
Arguments io_index {W _} base {_} w.
Arguments io_reg {W _} base {_} w r.

Section Lines.
Context {W : Type} `{!MemIO W} (a : apic) {laws : IoapicLaws W (ioapic_addr a)}.
Local Notation reg := (io_reg (ioapic_addr a)).

Lemma write_reg_ok (w : W) (i v r : Z) : reg (ioapic_write_reg a w i v) r = if r =? i then v else reg w r.
Proof.
  unfold ioapic_write_reg. destruct (io_select (base:=ioapic_addr a) w i) as [Ei Er]. by rewrite io_write, Ei, Er.
Qed.

Lemma read_reg_ok (w : W) (i : Z) :
  exists w', ioapic_read_reg a w i = (reg w i, w') /\ forall r, reg w' r = reg w r.
Proof.
  unfold ioapic_read_reg. destruct (io_select (base:=ioapic_addr a) w i) as [Ei Er].
  destruct (io_read (base:=ioapic_addr a) (wr32 w (ioapic_addr a) i)) as (w' & E & Hr). exists w'.
  rewrite E, Ei, Er. split; [done|]. intros r. by rewrite Hr, Er.
Qed.

(** A line: masked, its vector and its destination. *)
Definition line_low (w : W) (n : Z) : Z := reg w (IOAPIC_IRQ_REG + 2 * n).
Definition line_high (w : W) (n : Z) : Z := reg w (IOAPIC_IRQ_REG + 2 * n + 1).
Definition line_masked (w : W) (n : Z) : bool := Z.testbit (line_low w n) 16.
Definition line_vector (w : W) (n : Z) : Z := line_low w n mod 256.

Lemma get_irq_ok (n k : Z) : 0 <= n < 120 -> ioapic_get_irq n k = IOAPIC_IRQ_REG + 2 * n + k.
Proof. intros Hn. unfold ioapic_get_irq. by rewrite u8_small by lia. Qed.

(** Writing the two registers of a line. *)
Lemma write_line_ok (w : W) (n lo hi : Z) :
  0 <= n < 120 ->
  let w' := ioapic_write_reg a (ioapic_write_reg a w (ioapic_get_irq n 0) lo) (ioapic_get_irq n 1) hi in
  line_low w' n = lo /\ line_high w' n = hi /\
  forall m, m <> n -> line_low w' m = line_low w m /\ line_high w' m = line_high w m.
Proof.
  intros Hn w'. unfold line_low, line_high, w'. rewrite !write_reg_ok, !get_irq_ok by done. unfold IOAPIC_IRQ_REG.
  split; [|split].
  - destruct (Z.eqb_spec (0x10 + 2 * n) (0x10 + 2 * n + 1)); [lia|].
    destruct (Z.eqb_spec (0x10 + 2 * n) (0x10 + 2 * n + 0)); [done|lia].
  - by rewrite Z.eqb_refl.
  - intros m Hm. rewrite !write_reg_ok.
    repeat match goal with |- context [?x =? ?y] => destruct (Z.eqb_spec x y); [lia|] end. done.
Qed.

Lemma init_loop_ok (n : nat) (w : W) (i : Z) :
  0 <= i -> i + Z.of_nat n <= 120 ->
  forall m, line_low (ioapic_init_loop n a w i) m = (if (i <=? m) && (m <? i + Z.of_nat n) then IOAPIC_MASK else line_low w m) /\
    line_high (ioapic_init_loop n a w i) m = (if (i <=? m) && (m <? i + Z.of_nat n) then 0 else line_high w m).
Proof.
  revert w i. induction n as [|n IH]; intros w i Hi Hn m; cbn [ioapic_init_loop].
  { destruct (Z.leb_spec i m), (Z.ltb_spec m (i + Z.of_nat 0)); done || lia. }
  destruct (write_line_ok w i IOAPIC_MASK 0) as (E1 & E3 & E2); [lia|].
  destruct (IH (ioapic_write_reg a (ioapic_write_reg a w (ioapic_get_irq i 0) IOAPIC_MASK) (ioapic_get_irq i 1) 0) (i + 1)
    ltac:(lia) ltac:(lia) m) as [-> ->].
  destruct (decide (m = i)) as [->|Hm].
  - destruct (Z.leb_spec (i + 1) i); [lia|]. cbn [andb]. rewrite E1, E3.
    destruct (Z.leb_spec i i), (Z.ltb_spec i (i + Z.of_nat (S n))); done || lia.
  - destruct (E2 m Hm) as [-> ->].
    destruct (Z.leb_spec (i + 1) m), (Z.leb_spec i m), (Z.ltb_spec m (i + 1 + Z.of_nat n)),
      (Z.ltb_spec m (i + Z.of_nat (S n))); done || lia.
Qed.

(** ** Routing *)

Lemma mask_bit (v : Z) : 0 <= v < 2 ^ 16 -> Z.testbit v 16 = false.
Proof.
  intros Hv. rewrite Z.testbit_eqb by lia. rewrite Z.div_small by lia. done.
Qed.

Lemma lget_range {A} (l : list A) (i : Z) (x : A) : lget l i = Ret x -> 0 <= i < Z.of_nat (length l).
Proof.
  unfold lget. destruct (Z.ltb_spec i 0); [done|]. destruct (l !! Z.to_nat i) eqn:E; [|done].
  apply lookup_lt_Some in E. lia.
Qed.

Lemma get_mapping_ok (l : list Z) (irq m : Z) :
  ioapic_mapping a = Some l -> lget l irq = Ret m -> irq < max_irqs a -> m <> -2 ->
  exists a', ioapic_get_mapping a irq = Ret (if m =? -1 then irq else u32 m, a') /\
    processor_id a' = processor_id a /\ ioapic_addr a' = ioapic_addr a /\
    ioapic_mapping a' = Some (if m =? -1 then <[Z.to_nat irq := -2]> l else l).
Proof.
  intros Hl Hm Hi H2. unfold ioapic_get_mapping. rewrite Hl, Hm. cbn [obind].
  destruct (Z.eqb_spec m (-2)); [done|]. destruct (Z.leb_spec (max_irqs a) irq); [lia|]. cbn [orb].
  destruct (Z.eqb_spec m (-1)); [|by exists a].
  rewrite lset_Ret by (by apply lget_range in Hm). cbn [obind]. by eexists.
Qed.

(** C33: ioapic_init masks every line and clears its destination.  Activating a
    legacy interrupt, in any state of the controller, opens the line the table
    maps it to, or the one with its own number when the table does not mention
    it: the line is unmasked, with the vector 32 plus its number and the
    processor of the table as destination.  Both registers of every other line
    keep their values.  An interrupt the table does not mention is marked as
    taken. *)
Theorem ioapic_routes (w : W) (l : list Z) (irq m : Z) :
  let n := if m =? -1 then irq else m in
  ioapic_mapping a = Some l -> Z.of_nat (length l) = max_irqs a -> max_irqs a <= 120 -> lget l irq = Ret m ->
  -1 <= m -> 0 <= n < max_irqs a -> 0 <= processor_id a < 256 ->
  (forall k, 0 <= k < max_irqs a -> line_low (ioapic_init a w) k = IOAPIC_MASK /\ line_high (ioapic_init a w) k = 0) /\
  exists a' w', ioapic_legacy_irq_activate a w irq = Ret (a', w') /\
    line_low w' n = 32 + n /\ line_masked w' n = false /\ line_vector w' n = 32 + n /\ line_high w' n = processor_id a * 2 ^ 24 /\
    (forall k, k <> n -> line_low w' k = line_low w k /\ line_high w' k = line_high w k) /\
    ioapic_mapping a' = Some (if m =? -1 then <[Z.to_nat irq := -2]> l else l).
Proof.
  intros n Hl Hlen Hmax Hm Hm1 Hn Hp.
  pose proof (lget_range _ _ _ Hm) as Hirq. rewrite Hlen in Hirq. split.
  { intros k Hk. unfold ioapic_init. destruct (init_loop_ok (Z.to_nat (max_irqs a)) w 0 ltac:(lia) ltac:(lia) k) as [-> ->].
    destruct (Z.leb_spec 0 k), (Z.ltb_spec k (0 + Z.of_nat (Z.to_nat (max_irqs a)))); done || lia. }
  destruct (get_mapping_ok l irq m Hl Hm ltac:(lia) ltac:(lia)) as (a' & E & Ep & Ea & Em).
  unfold ioapic_legacy_irq_activate. rewrite E. cbn [obind].
  assert (En : (if m =? -1 then irq else u32 m) = n).
  { unfold n in *. destruct (Z.eqb_spec m (-1)); [done|]. apply u32_small. lia. }
  assert (Hw : forall w0 i v, ioapic_write_reg a' w0 i v = ioapic_write_reg a w0 i v)
    by (intros; unfold ioapic_write_reg; by rewrite Ea).
  rewrite En, Ep, !Hw.
  destruct (write_line_ok w n (u32 (IRQ_OFFSET + n)) (u32 (Z.shiftl (processor_id a) 24))) as (E1 & E2 & E3); [lia|].
  set (w1 := ioapic_write_reg a _ (ioapic_get_irq n 1) _) in *.
  exists a', w1. split; [done|]. unfold line_masked, line_vector. rewrite E1, E2. unfold IRQ_OFFSET, N_OF_EXCEPTIONS. rewrite (u32_small (32 + n)) by lia.
  split; [done|]. split; [apply mask_bit; lia|]. split; [apply Z.mod_small; lia|].
  split; [rewrite Z.shiftl_mul_pow2, u32_small by lia; lia|]. split; [exact E3|done].
Qed.

(** Masking and unmasking a line changes its mask bit and nothing else. *)
Theorem ioapic_mask_ok (w : W) (n k : Z) :
  0 <= n < 120 -> 0 <= line_low w n < 2 ^ 32 ->
  line_masked (ioapic_irq_set_mask a w n) n = true /\ line_masked (ioapic_irq_clear_mask a w n) n = false /\
  line_vector (ioapic_irq_set_mask a w n) n = line_vector w n /\
  line_vector (ioapic_irq_clear_mask a w n) n = line_vector w n /\
  (k <> n -> line_low (ioapic_irq_set_mask a w n) k = line_low w k /\
             line_low (ioapic_irq_clear_mask a w n) k = line_low w k).
Proof.
  intros Hn Hr. unfold ioapic_irq_set_mask, ioapic_irq_clear_mask.
  destruct (read_reg_ok w (ioapic_get_irq n 0)) as (w' & -> & Hw).
  assert (Ei : ioapic_get_irq n 0 = IOAPIC_IRQ_REG + 2 * n) by (rewrite get_irq_ok by done; lia).
  rewrite Ei. unfold line_masked, line_vector, line_low in *. rewrite !write_reg_ok, Z.eqb_refl.
  set (v := reg w (IOAPIC_IRQ_REG + 2 * n)) in *.
  split; [|split; [|split; [|split]]].
  - rewrite Z.lor_spec. change (Z.testbit (Z.shiftl 1 16) 16) with true. by rewrite orb_true_r.
  - rewrite Z.land_spec. change (Z.testbit (bnot 32 (Z.shiftl 1 16)) 16) with false. by rewrite andb_false_r.
  - change 256 with (2 ^ 8). rewrite <- !Z.land_ones by lia. apply Z.bits_inj_iff'. intros j Hj.
    rewrite !Z.land_spec, Z.lor_spec, Z.shiftl_1_l, Z.pow2_bits_eqb by lia.
    destruct (Z.eqb_spec 16 j) as [<-|]; [by rewrite (Z.ones_spec_high 8), !andb_false_r by lia|]. by rewrite orb_false_r.
  - change 256 with (2 ^ 8). rewrite <- !Z.land_ones by lia. rewrite <- Z.land_assoc. f_equal.
  - intros Hk. destruct (Z.eqb_spec (IOAPIC_IRQ_REG + 2 * k) (IOAPIC_IRQ_REG + 2 * n)); [lia|]. by rewrite !Hw.
Qed.
End Lines.

(** ** A concrete controller *)

Definition io_dev : Type := Z * (Z -> Z).
Definition IO_BASE : Z := 0xFEC00000.
#[export] Instance io_dev_mem : MemIO io_dev := {
  rd32 w addr := (if addr =? IO_BASE + 0x10 then w.2 w.1 else 0, w);
  wr32 w addr v :=
    if addr =? IO_BASE then (v, w.2)
    else if addr =? IO_BASE + 0x10 then (w.1, fun r => if r =? w.1 then v else w.2 r) else w;
  rd64 w _ := (0, w);
  wr64 w _ _ := w;
}.
#[export] Program Instance io_dev_laws : IoapicLaws io_dev IO_BASE := { io_index := fst; io_reg := snd }.
Next Obligation. intros [i f] v. done. Qed.
Next Obligation. intros [i f] v r. done. Qed.
Next Obligation. intros [i f]. by eexists. Qed.

(** 24 lines, the timer of the legacy controller on line 2. *)
Definition apic0 : apic := mk_apic 1 IO_BASE 0xFEE00000 24 (Some (2 :: replicate 23 (-1))).

Lemma ioapic_routes_witness : exists a' w',
  ioapic_legacy_irq_activate apic0 ((0, fun _ => 0) : io_dev) 0 = Ret (a', w') /\
  line_masked (laws:=io_dev_laws) apic0 w' 2 = false /\ line_vector (laws:=io_dev_laws) apic0 w' 2 = 34.
Proof.
  destruct (ioapic_routes apic0 (laws:=io_dev_laws) (0, fun _ => 0) (2 :: replicate 23 (-1)) 0 2)
    as [_ (a' & w' & E & _ & H1 & H2 & _)]; [reflexivity|reflexivity|cbn; lia|reflexivity|lia|cbn; lia|cbn; lia|].
  exact (ex_intro _ a' (ex_intro _ w' (conj E (conj H1 H2)))).
Defined.

(** The table: a record of length 0 is never left, and one of a type above 9
    reads outside the array of names. *)
Theorem madt_zero_length {W : Type} `{!MemIO W} (fuel : nat) (mem : Z -> Z) (a : apic) (w : W) (maps : list (Z * Z)) (e e' : Z) :
  e < e' -> mem e = 3 -> mem (e + 1) = 0 -> madt_loop fuel mem a w maps e e' = NoFuel.
Proof.
  intros He Ht Hl. induction fuel as [|fuel IH]; [done|]. cbn [madt_loop].
  destruct (Z.ltb_spec e e'); [|lia]. unfold madt_entry. rewrite Ht. cbn. by rewrite Hl, Z.add_0_r.
Qed.

Theorem madt_unknown_type {W : Type} `{!MemIO W} (fuel : nat) (mem : Z -> Z) (a : apic) (w : W) (maps : list (Z * Z)) (e e' : Z) :
  e < e' -> 10 <= mem e -> madt_loop (S fuel) mem a w maps e e' = Undef.
Proof.
  intros He Ht. cbn [madt_loop]. destruct (Z.ltb_spec e e'); [|lia]. unfold madt_entry.
  destruct (Z.leb_spec 10 (mem e)); [done|lia].
Qed.
