(* ===== verification/Hpet.v ===== *)
(** The high-precision timer (src/src/kernel/drivers/hpet.c), and the start of
    the interrupt controllers that uses it to calibrate the timer of the local
    one ([apic_init] in src/src/kernel/int/apic.c). *)

From Stdlib Require Import ZArith Lia.
From stdpp Require Import base numbers list.
From S2P Require Import Prelude Ports Descr Acpi Apic.

Definition HPET_REG_CAPAB : Z := 0x0.
Definition HPET_REG_CONFIG : Z := 0x10.
Definition HPET_REG_COUNTER : Z := 0xF0.
Definition HPET_TIMER_REG_CAP : Z := 0x0.
Definition HPET_TIMER_REG_COMP : Z := 0x8.
Definition HPET_REGS_SIZE : Z := 0xF7.
Definition HPET_TIMER_ADDR_OFFSET : Z := 0x100.
Definition HPET_TIMER_SIZE : Z := 0x18.
Definition HPET_TIMER_OFFSET : Z := 0x20.
Definition HPET_LEGACY_REPL : Z := Z.shiftl 1 1.
Definition HPET_ENABLE : Z := Z.shiftl 1 0.
Definition HPET_LEVEL_TRIG : Z := Z.shiftl 1 1.
Definition HPET_INT_ENABLED : Z := Z.shiftl 1 2.
Definition HPET_PERIODIC : Z := Z.shiftl 1 3.
Definition HPET_IRQ_ROUTING : Z := Z.shiftl 0x1F 9.
Definition HPET_FSB_MAPPING : Z := Z.shiftl 1 14.
(** "HPET" *)
Definition HPET_SIGNATURE : list Z := [72; 80; 69; 84].

Record hpet := mk_hpet { timers : Z; period_ns : Z; hpet_addr : Z }.

Section Hpet.
Context {W : Type} `{!MemIO W}.

Definition hpet_get_reg (h : hpet) (reg : Z) : Z := hpet_addr h + reg.
Definition hpet_get_timer_reg (h : hpet) (reg timer : Z) : Z :=
  hpet_addr h + HPET_TIMER_ADDR_OFFSET + HPET_TIMER_OFFSET * timer + reg.

(** [*reg |= flag] and [*reg &= ~flag]: the flags are 32 bits wide, so their
    complement clears the upper half. *)
Definition reg_set (w : W) (addr flag : Z) : W :=
  let '(v, w) := rd64 w addr in wr64 w addr (Z.lor v flag).
Definition reg_clear (w : W) (addr flag : Z) : W :=
  let '(v, w) := rd64 w addr in wr64 w addr (Z.land v (bnot 32 flag)).

Definition hpet_set (h : hpet) (w : W) (reg flag : Z) : W := reg_set w (hpet_get_reg h reg) flag.
Definition hpet_clear (h : hpet) (w : W) (reg bit : Z) : W := reg_clear w (hpet_get_reg h reg) bit.
Definition hpet_timer_set (h : hpet) (w : W) (reg timer flag : Z) : W := reg_set w (hpet_get_timer_reg h reg timer) flag.
Definition hpet_timer_clear (h : hpet) (w : W) (reg timer flag : Z) : W :=
  reg_clear w (hpet_get_timer_reg h reg timer) flag.

Definition hpet_enable (h : hpet) (w : W) : W := hpet_set h w HPET_REG_CONFIG HPET_ENABLE.
Definition hpet_disable (h : hpet) (w : W) : W := hpet_clear h w HPET_REG_CONFIG HPET_ENABLE.

(** The ranges that are mapped are the last component. *)
Definition hpet_parse (mem : Z -> Z) (rsdt : Z) (h : hpet) (w : W) : outcome (hpet * W * list (Z * Z)) :=
  let! header := rsdt_get_entry mem rsdt HPET_SIGNATURE in
  if header =? 0 then Undef
  else
    let addr := ld32 mem (header + 44) in
    let '(cap, w) := rd64 w (addr + HPET_REG_CAPAB) in
    let n := Z.land (Z.shiftr cap 8) 0xF + 1 in
    let h := mk_hpet n (period_ns h) addr in
    Ret (h, w, (addr, HPET_REGS_SIZE) ::
      map (fun k => (hpet_get_timer_reg h HPET_TIMER_REG_CAP (Z.of_nat k), HPET_TIMER_SIZE)) (seq 0 (Z.to_nat n))).

(** [for (; ~HPET_INT_MAP(timer) & (1 << ioapic_irq); ++ioapic_irq);]; the shift
    is defined for 31 lines. *)
Fixpoint irq_loop (n : nat) (h : hpet) (w : W) (timer ioapic_irq : Z) : outcome (Z * W) :=
  match n with
  | O => Undef
  | S n =>
      let '(cap, w) := rd64 w (hpet_get_timer_reg h HPET_TIMER_REG_CAP timer) in
      if negb (Z.land (bnot 64 (Z.shiftr cap 32)) (Z.shiftl 1 ioapic_irq) =? 0)
      then irq_loop n h w timer (ioapic_irq + 1)
      else Ret (ioapic_irq, w)
  end.

Definition hpet_enable_timer (h : hpet) (w : W) (timer : Z) : outcome (Z * W) :=
  if timers h <=? timer then Ret (-1, w)
  else
    let! (ioapic_irq, w) := irq_loop 31 h w timer 0 in
    let w := hpet_timer_set h w HPET_TIMER_REG_CAP timer (Z.land HPET_IRQ_ROUTING (Z.shiftl ioapic_irq 9)) in
    let w := hpet_timer_clear h w HPET_TIMER_REG_CAP timer HPET_FSB_MAPPING in
    let w := hpet_timer_clear h w HPET_TIMER_REG_CAP timer HPET_PERIODIC in
    let w := hpet_timer_set h w HPET_TIMER_REG_CAP timer HPET_INT_ENABLED in
    let w := hpet_timer_set h w HPET_TIMER_REG_CAP timer HPET_LEVEL_TRIG in
    Ret (ioapic_irq, w).

Definition hpet_set_comparator (h : hpet) (w : W) (timer ns_100 : Z) : outcome W :=
  let! comparator_value := udiv (u64 (ns_100 * 100)) (period_ns h) in
  let '(counter, w) := rd64 w (hpet_get_reg h HPET_REG_COUNTER) in
  Ret (wr64 w (hpet_get_timer_reg h HPET_TIMER_REG_COMP timer) (u64 (counter + comparator_value))).

Definition hpet_create_timer (h : hpet) (a : apic) (idt : list idt_entry_t) (w : W) (timer irq handler : Z) :
    outcome (list idt_entry_t * W) :=
  let! (r, w) := hpet_enable_timer h w timer in
  let apic_irq := u32 r in
  let! idt := idt_set idt (IRQ_OFFSET + LEGACY_PIC_OFFSET + irq) handler (Z.lor IDT_PRESENT IDT_32B_INT) in
  let w := ioapic_irq_activate a w apic_irq irq in
  let w := ioapic_irq_clear_mask a w apic_irq in
  Ret (idt, w).

Definition hpet_init (mem : Z -> Z) (rsdt : Z) (h : hpet) (w : W) : outcome (hpet * W * list (Z * Z)) :=
  let! (h, w, maps) := hpet_parse mem rsdt h w in
  let '(cap, w) := rd64 w (hpet_get_reg h HPET_REG_CAPAB) in
  let h := mk_hpet (timers h) (u32 (Z.shiftr cap 32 / 1000000)) (hpet_addr h) in
  let w := hpet_clear h w HPET_REG_CONFIG HPET_LEGACY_REPL in
  let w := wr64 w (hpet_get_reg h HPET_REG_COUNTER) 0 in
  Ret (h, hpet_enable h w, maps).

(** ** The start of the interrupt controllers *)

(** Up to the loop that waits for the interrupt. *)
Definition lapic_timer_init1 (h : hpet) (a : apic) (w : W) : outcome W :=
  let w := lapic_write_reg a w LAPIC_TIMER_REG (IRQ_OFFSET + LEGACY_PIC_OFFSET + 0) in
  let w := lapic_write_reg a w LAPIC_TIMER_DIV_REG LAPIC_TIMER_DIVISION_X16 in
  let w := lapic_write_reg a w LAPIC_INIT_COUNTER_REG 0xFFFFFFFF in
  hpet_set_comparator h w 0 10000000.

(** The interrupt: [task_time] is the address of [task_time_handler]. *)
Definition lapic_timer_init2 (a : apic) (idt : list idt_entry_t) (w : W) (task_time : Z) : outcome (list idt_entry_t * W) :=
  let w := lapic_write_reg a w LAPIC_TIMER_REG LAPIC_TIMER_MASK in
  let '(count, w) := lapic_read_reg a w LAPIC_CURR_COUNTER_REG in
  let ticks := u32 (0xFFFFFFFF - count) in
  let w := ioapic_irq_set_mask a w 2 in
  let w := lapic_sendEOI a w in
  let! idt := idt_set idt (IRQ_OFFSET + LEGACY_PIC_OFFSET + 0) task_time 0x8E in
  let w := ioapic_irq_clear_mask a w 0 in
  let w := lapic_write_reg a w LAPIC_INIT_COUNTER_REG ticks in
  let w := lapic_write_reg a w LAPIC_TIMER_REG (Z.lor (IRQ_OFFSET + LEGACY_PIC_OFFSET + 0) LAPIC_TIMER_PERIODIC) in
  let w := lapic_write_reg a w LAPIC_TIMER_DIV_REG LAPIC_TIMER_DIVISION_X16 in
  Ret (idt, w).

(** [apic_init]; [tick] is the world while the kernel waits for the interrupt of
    the timer, and [init2] the address of [lapic_timer_init2]. *)
Definition apic_init (mem : Z -> Z) (rsdt : Z) (h : hpet) (a : apic) (idt : list idt_entry_t) (w : W)
    (init2 task_time : Z) (tick : W -> W) : outcome (apic * list idt_entry_t * W * list (Z * Z)) :=
  let! (a, w, maps) := madt_parse mem rsdt a w in
  let w := lapic_init a w in
  let w := ioapic_init a w in
  let! (idt, w) := hpet_create_timer h a idt w 0 1 init2 in
  let! w := lapic_timer_init1 h a w in
  let! (idt, w) := lapic_timer_init2 a idt (tick w) task_time in
  Ret (a, idt, w, maps).
End Hpet.

(** ** The documented behaviour of a timer *)

(** The configuration of a timer: the bits for the trigger, the interrupt, the
    period, the route and the bus can be written, the upper half is read-only. *)
Definition timer_bit (j : Z) : bool := ((1 <=? j) && (j <=? 3)) || ((9 <=? j) && (j <=? 14)).

Class HpetLaws (W : Type) `{!MemIO W} (h : hpet) := {
  hp_reg : W -> Z -> Z;
  hp_read w addr : exists w', rd64 w addr = (hp_reg w addr, w') /\ forall r, hp_reg w' r = hp_reg w r;
  hp_write w timer v j : 0 <= timer < timers h -> let addr := hpet_get_timer_reg h HPET_TIMER_REG_CAP timer in
    (timer_bit j = true -> Z.testbit (hp_reg (wr64 w addr v) addr) j = Z.testbit v j) /\
    (32 <= j -> Z.testbit (hp_reg (wr64 w addr v) addr) j = Z.testbit (hp_reg w addr) j);
}.
Arguments hp_reg {W _} h {_} w r.

Section Timer.
Context {W : Type} `{!MemIO W} (h : hpet) {laws : HpetLaws W h}.
Context (timer : Z) (Htimer : 0 <= timer < timers h).
Local Notation cap := (hpet_get_timer_reg h HPET_TIMER_REG_CAP timer).
Local Notation creg w := (hp_reg h w cap).

Lemma reg_set_ok (w : W) (flag j : Z) :
  (timer_bit j = true -> Z.testbit (creg (reg_set w cap flag)) j = Z.testbit (creg w) j || Z.testbit flag j) /\
  (32 <= j -> Z.testbit (creg (reg_set w cap flag)) j = Z.testbit (creg w) j).
Proof using Htimer.
  unfold reg_set. destruct (hp_read (h:=h) w cap) as (w' & -> & Hw).
  destruct (hp_write (h:=h) w' timer (Z.lor (creg w) flag) j Htimer) as [H1 H2].
  split; intros Hj; [rewrite H1 by done; by rewrite Z.lor_spec|by rewrite H2, Hw].
Qed.

Lemma reg_clear_ok (w : W) (k j : Z) :
  0 <= k < 32 ->
  (timer_bit j = true -> Z.testbit (creg (reg_clear w cap (Z.shiftl 1 k))) j = Z.testbit (creg w) j && negb (k =? j)) /\
  (32 <= j -> Z.testbit (creg (reg_clear w cap (Z.shiftl 1 k))) j = Z.testbit (creg w) j).
Proof using Htimer.
  intros Hk. unfold reg_clear. destruct (hp_read (h:=h) w cap) as (w' & -> & Hw).
  destruct (hp_write (h:=h) w' timer (Z.land (creg w) (bnot 32 (Z.shiftl 1 k))) j Htimer) as [H1 H2].
  split; intros Hj; [rewrite H1 by done|by rewrite H2, Hw]. rewrite Z.land_spec. f_equal.
  assert (0 <= j < 32) by (unfold timer_bit in Hj; bprop; lia).
  rewrite testbit_bnot, testbit_one by lia. by rewrite Z.eqb_sym.
Qed.

(** The line a timer may use, and the first of them. *)
Definition may_use (w : W) (n : Z) : bool := Z.testbit (creg w) (32 + n).
Definition first_line (w : W) (n : Z) : Prop :=
  0 <= n < 31 /\ may_use w n = true /\ forall i, 0 <= i < n -> may_use w i = false.

Lemma irq_loop_ok (k : nat) (w : W) (n i : Z) :
  first_line w n -> 0 <= i <= n -> n < i + Z.of_nat k ->
  exists w', irq_loop k h w timer i = Ret (n, w') /\ forall r, hp_reg h w' r = hp_reg h w r.
Proof.
  intros (Hn & Hu & Hf). revert w Hu Hf i. induction k as [|k IH]; intros w Hu Hf i Hi Hk; [lia|]. cbn [irq_loop].
  destruct (hp_read (h:=h) w cap) as (w' & -> & Hw). rewrite land_bit_zero, testbit_bnot, negb_involutive, Z.shiftr_spec by lia.
  rewrite Z.add_comm. fold (may_use w i). destruct (decide (i = n)) as [->|Hne].
  - rewrite Hu. cbn [negb]. by exists w'.
  - rewrite Hf by lia. cbn [negb].
    destruct (IH w') with (i := i + 1) as (w2 & E & H2); try lia; unfold may_use in *; [by rewrite Hw|intros; rewrite Hw; by apply Hf|].
    exists w2. split; [done|]. intros r. by rewrite H2.
Qed.

(** The route of a timer. *)
Definition route (w : W) : Z := Z.shiftr (creg w) 9 mod 32.

Lemma route_bit_ok (j : Z) : 0 <= j < 5 -> timer_bit (9 + j) = true.
Proof.
  intros Hj. unfold timer_bit. apply orb_true_iff. right. apply andb_true_iff. split; apply Z.leb_le; lia.
Qed.

Lemma route_bits (w : W) (n : Z) :
  0 <= n < 32 -> (forall j, 0 <= j < 5 -> Z.testbit (creg w) (9 + j) = Z.testbit n j) -> route w = n.
Proof.
  intros Hn Hj. unfold route. change 32 with (2 ^ 5) in *. rewrite <- (Z.mod_small n (2 ^ 5)) by done.
  apply Z.bits_inj_iff'. intros j H0. destruct (Z.ltb_spec j 5).
  - rewrite !Z.mod_pow2_bits_low, Z.shiftr_spec by lia. rewrite Z.add_comm. by apply Hj.
  - by rewrite !Z.mod_pow2_bits_high by lia.
Qed.

(** Enabling a timer whose route is still 0: it is routed to the first line it
    may use, its interrupt is on, and it is neither periodic nor on the bus.
    The trigger it is left with is the level. *)
Theorem hpet_enable_timer_ok (w : W) (n : Z) :
  first_line w n -> route w = 0 ->
  exists w', hpet_enable_timer h w timer = Ret (n, w') /\ route w' = n /\
    Z.testbit (creg w') 2 = true /\ Z.testbit (creg w') 3 = false /\ Z.testbit (creg w') 14 = false /\
    Z.testbit (creg w') 1 = true.
Proof using Htimer.
  intros Hf Hr. unfold hpet_enable_timer. destruct (Z.leb_spec (timers h) timer); [lia|].
  destruct (irq_loop_ok 31 w n 0 Hf) as (w0 & -> & H0); [destruct Hf; lia..|]. cbn [obind].
  eexists. split; [done|]. unfold hpet_timer_set, hpet_timer_clear, HPET_FSB_MAPPING, HPET_PERIODIC.
  assert (Hall : forall j, timer_bit j = true ->
    Z.testbit (creg (reg_set (reg_set (reg_clear (reg_clear (reg_set w0 cap (Z.land HPET_IRQ_ROUTING (Z.shiftl n 9))) cap
      (Z.shiftl 1 14)) cap (Z.shiftl 1 3)) cap HPET_INT_ENABLED) cap HPET_LEVEL_TRIG)) j =
    (((Z.testbit (creg w) j || Z.testbit (Z.land HPET_IRQ_ROUTING (Z.shiftl n 9)) j) && negb (14 =? j)) && negb (3 =? j))
      || (j =? 2) || (j =? 1)).
  { intros j Hj. rewrite !(proj1 (reg_set_ok _ _ j)) by done. rewrite (proj1 (reg_clear_ok _ 3 j ltac:(lia))), (proj1 (reg_clear_ok _ 14 j ltac:(lia))) by done.
    rewrite (proj1 (reg_set_ok _ _ j)) by done. rewrite H0. unfold HPET_INT_ENABLED, HPET_LEVEL_TRIG.
    by rewrite !testbit_one by lia. }
  assert (Hroute : forall j, 0 <= j < 5 -> Z.testbit (creg w) (9 + j) = false).
  { intros j Hj. assert (Z.testbit (route w) j = false) as E by (rewrite Hr; apply Z.bits_0).
    unfold route in E. change 32 with (2 ^ 5) in E. rewrite Z.mod_pow2_bits_low, Z.shiftr_spec in E by lia. by rewrite Z.add_comm. }
  assert (Hn : 0 <= n < 32) by (destruct Hf; lia). split.
  - apply route_bits; [done|]. intros j Hj. rewrite Hall by (by apply route_bit_ok). rewrite Hroute by done.
    rewrite Z.land_spec, Z.shiftl_spec by lia. replace (9 + j - 9) with j by lia. unfold HPET_IRQ_ROUTING.
    rewrite Z.shiftl_spec by lia. replace (9 + j - 9) with j by lia. change 0x1F with (Z.ones 5). rewrite Z.ones_spec_low by lia.
    destruct (Z.eqb_spec 14 (9 + j)), (Z.eqb_spec 3 (9 + j)), (Z.eqb_spec (9 + j) 2), (Z.eqb_spec (9 + j) 1); try lia.
    cbn. by rewrite !andb_true_r, !orb_false_r.
  - rewrite !Hall by done. cbn [Z.eqb Pos.eqb negb]. rewrite !andb_false_r, !orb_true_r. done.
Qed.
End Timer.
