(* ===== verification/Pci.v ===== *)
(** The PCI bus (src/src/kernel/drivers/pci.c): the address of a configuration
    register, and the search for the controllers the kernel knows. *)

From Stdlib Require Import ZArith Lia.
From stdpp Require Import base numbers list.
From S2P Require Import Prelude Ports.

Definition CONFIG_ADDR : Z := 0xCF8.
Definition CONFIG_DATA : Z := 0xCFC.

(** The arguments are 32 bits wide and the shifts wrap. *)
Definition pci_address (bus device func offset : Z) : Z :=
  Z.lor (Z.lor (Z.lor (Z.lor (u32 (Z.shiftl bus 16)) (u32 (Z.shiftl device 11))) (u32 (Z.shiftl func 8)))
    (Z.land offset 0xFC)) (Z.shiftl 1 31).

Section Pci.
Context {W : Type} `{!PortIO W}.

Definition pci_write_reg (w : W) (bus device func offset data : Z) : W :=
  let w := outl w (pci_address bus device func offset) CONFIG_ADDR in
  outw w data CONFIG_DATA.

Definition pci_read_reg (w : W) (bus device func offset : Z) : Z * W :=
  let w := outl w (pci_address bus device func offset) CONFIG_ADDR in
  inl w CONFIG_DATA.

(** What [ide_set] does with a controller is a parameter of the search. *)
Context {X : Type} (ide_set : X -> W -> Z -> Z -> Z -> X * W).
Local Notation St := (X * W)%type.

(** [check_bus] is the search of a further bus. *)
Section Bus.
Context (check_bus : Z -> St -> outcome St).

Definition pci_check_function (bus device func : Z) (s : St) : outcome St :=
  let '(x, w) := s in
  let '(pci_classes, w) := pci_read_reg w bus device func (Z.shiftl 2 2) in
  let class := Z.shiftr pci_classes 24 in
  let subclass := Z.land (Z.shiftr pci_classes 16) 0xFF in
  let '(x, w) :=
    if (class =? 1) && (subclass =? 1) then
      let '(x, w) := ide_set x w bus device func in
      let '(cmd, w) := pci_read_reg w bus device func (Z.shiftl 1 2) in
      let pci_command_reg := Z.land cmd 0xFFFF in
      (x, pci_write_reg w bus device func 0x6 (Z.lor pci_command_reg (Z.shiftl 1 2)))
    else (x, w) in
  if negb (class =? 0x6) || negb (subclass =? 0x4) then Ret (x, w)
  else
    let '(reg, w) := pci_read_reg w bus device func (Z.shiftl 6 2) in
    check_bus (Z.land (Z.shiftr reg 8) 0xFF) (x, w).

(** The functions from [func] on; the vendor is compared without its mask. *)
Fixpoint func_loop (n : nat) (bus device func : Z) (s : St) : outcome St :=
  match n with
  | O => Ret s
  | S n =>
      let '(vendor, w) := pci_read_reg s.2 bus device func 0 in
      if vendor =? 0xFFFF then Ret (s.1, w)
      else
        let! s := pci_check_function bus device func (s.1, w) in
        func_loop n bus device (func + 1) s
  end.

Definition pci_check_device (bus device : Z) (s : St) : outcome St :=
  let '(vendor, w) := pci_read_reg s.2 bus device 0 0 in
  if Z.land vendor 0xFFFF =? 0xFFFF then Ret (s.1, w)
  else
    let! s := pci_check_function bus device 0 (s.1, w) in
    let '(h, w) := pci_read_reg s.2 bus device 0 (Z.shiftl 3 2) in
    let pci_header := Z.land (Z.shiftr h 16) 0xFF in
    if Z.land pci_header 0x80 =? 0 then Ret (s.1, w)
    else func_loop 7 bus device 1 (s.1, w).

Fixpoint device_loop (n : nat) (bus device : Z) (s : St) : outcome St :=
  match n with
  | O => Ret s
  | S n => let! s := pci_check_device bus device s in device_loop n bus (device + 1) s
  end.
End Bus.

(** A bus, with fuel for the depth of the bridges. *)
Fixpoint pci_check_bus (fuel : nat) (bus : Z) (s : St) : outcome St :=
  match fuel with
  | O => NoFuel
  | S fuel => device_loop (pci_check_bus fuel) 32 bus 0 s
  end.

(** The further buses of a host with several functions: the loop ends at the
    first function that is there. *)
Fixpoint host_loop (fuel n : nat) (func : Z) (s : St) : outcome St :=
  match n with
  | O => Ret s
  | S n =>
      let '(v, w) := pci_read_reg s.2 0 0 func 0 in
      if negb (Z.land v 0xFFFF =? 0xFFFF) then Ret (s.1, w)
      else
        let! s := pci_check_bus fuel func (s.1, w) in
        host_loop fuel n (func + 1) s
  end.

Definition pci_init (fuel : nat) (s : St) : outcome St :=
  let '(h, w) := pci_read_reg s.2 0 0 0 (Z.shiftl 3 2) in
  let pci_header := Z.land (Z.shiftr h 16) 0xFF in
  let! s := pci_check_bus fuel 0 (s.1, w) in
  if Z.land pci_header 0x80 =? 0 then Ret s
  else host_loop fuel 7 1 s.
End Pci.

(** ** Addresses *)

Lemma pci_address_sum (bus device func offset : Z) :
  0 <= bus < 256 -> 0 <= device < 32 -> 0 <= func < 8 -> 0 <= offset < 256 ->
  pci_address bus device func offset = 2 ^ 31 + 2 ^ 16 * bus + 2 ^ 11 * device + 2 ^ 8 * func + 4 * (offset / 4).
Proof.
  intros Hb Hd Hf Ho. unfold pci_address. rewrite !Z.shiftl_mul_pow2 by lia. rewrite !u32_small by lia.
  assert (Z.land offset 0xFC = 4 * (offset / 4)) as ->.
  { apply Z.eqb_eq, (below_all 256 (fun x => Z.land x 0xFC =? 4 * (x / 4))); [reflexivity|done]. }
  rewrite (lor_low bus 16 (device * 2 ^ 11)) by lia.
  replace (bus * 2 ^ 16 + device * 2 ^ 11) with ((bus * 32 + device) * 2 ^ 11) by lia.
  rewrite (lor_low _ 11 (func * 2 ^ 8)) by lia.
  replace ((bus * 32 + device) * 2 ^ 11 + func * 2 ^ 8) with (((bus * 32 + device) * 8 + func) * 2 ^ 8) by lia.
  rewrite (lor_low _ 8 (4 * (offset / 4))) by (Z.div_mod_to_equations; lia).
  rewrite Z.lor_comm, lor_low by (Z.div_mod_to_equations; lia). Z.div_mod_to_equations. lia.
Qed.

(** What the bridge decodes: enable bit, bus, device, function and register. *)
Definition cfg_decode (a : Z) : Z * Z * Z * Z * Z :=
  (a / 2 ^ 31, a / 2 ^ 16 mod 256, a / 2 ^ 11 mod 32, a / 2 ^ 8 mod 8, a mod 256).

(** The address of a configuration register is decoded to the bus, device,
    function and aligned register it was built from, with the enable bit set. *)
Theorem pci_address_roundtrip (bus device func offset : Z) :
  0 <= bus < 256 -> 0 <= device < 32 -> 0 <= func < 8 -> 0 <= offset < 256 ->
  cfg_decode (pci_address bus device func offset) = (1, bus, device, func, 4 * (offset / 4)).
Proof.
  intros Hb Hd Hf Ho. rewrite pci_address_sum by done. unfold cfg_decode. repeat f_equal; Z.div_mod_to_equations; lia.
Qed.

(** ** The search *)

(** The documented behaviour of the configuration ports: the data port is the
    register that was selected. *)
Class PciLaws (W : Type) `{!PortIO W} := {
  cfg : W -> Z -> Z;
  cfg_read w a : exists w', inl (outl w a CONFIG_ADDR) CONFIG_DATA = (cfg w a, w') /\ forall x, cfg w' x = cfg w x;
  cfg_write w a v x : x <> a -> cfg (outw (outl w a CONFIG_ADDR) v CONFIG_DATA) x = cfg w x;
}.

Section Search.
Context {W : Type} `{!PortIO W} {laws : PciLaws W}.

(** The registers the search reads, at the start: all but the command and status
    registers, which it writes. *)
Context (c : Z -> Z).
Definition cfg_like (w : W) : Prop := forall a, a mod 256 <> 4 -> cfg w a = c a.

Definition creg (bus device func offset : Z) : Z := c (pci_address bus device func offset).
Definition has_class (bus device func k sub : Z) : bool :=
  (Z.shiftr (creg bus device func 8) 24 =? k) && (Z.land (Z.shiftr (creg bus device func 8) 16) 0xFF =? sub).
Definition present (bus device : Z) : bool := negb (Z.land (creg bus device 0 0) 0xFFFF =? 0xFFFF).
Definition multi (bus device : Z) : bool := negb (Z.land (Z.land (Z.shiftr (creg bus device 0 12) 16) 0xFF) 0x80 =? 0).

(** The functions of a device, in the order of the search. *)
Definition functions (bus device : Z) : list Z :=
  if present bus device then if multi bus device then [0; 1; 2; 3; 4; 5; 6; 7] else [0] else [].

Lemma read_ok (w : W) (bus device func offset : Z) :
  0 <= bus < 256 -> cfg_like w -> 0 <= device < 32 -> 0 <= func < 8 -> 0 <= offset < 256 -> offset / 4 <> 1 ->
  exists w', pci_read_reg w bus device func offset = (creg bus device func offset, w') /\ cfg_like w'.
Proof.
  intros Hbus Hc Hd Hf Ho H1. unfold pci_read_reg.
  destruct (cfg_read w (pci_address bus device func offset)) as (w' & -> & Hw). exists w'.
  rewrite Hc. { split; [done|]. intros a Ha. rewrite Hw. by apply Hc. }
  pose proof (pci_address_roundtrip bus device func offset Hbus Hd Hf Ho) as E. unfold cfg_decode in E.
  injection E as _ _ _ _ ->. lia.
Qed.

Lemma cmd_ok (w : W) (bus device func : Z) :
  0 <= bus < 256 -> cfg_like w -> 0 <= device < 32 -> 0 <= func < 8 ->
  exists cmd w', pci_read_reg w bus device func 4 = (cmd, w') /\
    forall v, cfg_like (pci_write_reg w' bus device func 6 v).
Proof.
  intros Hbus Hc Hd Hf. unfold pci_read_reg, pci_write_reg.
  destruct (cfg_read w (pci_address bus device func 4)) as (w' & -> & Hw). eexists _, w'. split; [done|].
  intros v a Ha. rewrite cfg_write; [rewrite Hw; by apply Hc|]. intros ->. apply Ha.
  rewrite pci_address_sum by lia. change (6 / 4) with 1. Z.div_mod_to_equations. lia.
Qed.

(** [ide_set] depends on registers the search does not change. *)
Context {X : Type} (ide_set : X -> W -> Z -> Z -> Z -> X * W) (use : X -> Z -> Z -> Z -> X).
Context (ide_set_ok : forall x w bus device func, cfg_like w ->
  exists w', ide_set x w bus device func = (use x bus device func, w') /\ cfg_like w').

Definition check_functions (bus device : Z) (l : list Z) (x : X) : X :=
  foldl (fun x f => if has_class bus device f 1 1 then use x bus device f else x) x l.
Definition check_devices (bus : Z) (l : list Z) (x : X) : X :=
  foldl (fun x d => check_functions bus d (functions bus d) x) x l.

Context (bus : Z) (Hbus : 0 <= bus < 256) (check_bus : Z -> X * W -> outcome (X * W)).
Context (no_bridge : forall device func, 0 <= device < 32 -> 0 <= func < 8 -> has_class bus device func 6 4 = false).
(** No register 0 reads exactly 0x0000FFFF; a function that is absent reads all
    ones. *)
Context (vendor_ok : forall device func, 0 <= device < 32 -> 0 <= func < 8 -> creg bus device func 0 <> 0xFFFF).

Lemma check_function_ok (x : X) (w : W) (device func : Z) :
  cfg_like w -> 0 <= device < 32 -> 0 <= func < 8 ->
  exists w', pci_check_function ide_set check_bus bus device func (x, w) = Ret (check_functions bus device [func] x, w') /\
    cfg_like w'.
Proof using All.
  intros Hc Hd Hf. unfold pci_check_function, check_functions. cbn [foldl].
  destruct (read_ok w bus device func 8 Hbus Hc Hd Hf) as (w1 & E1 & Hc1); [lia|done|].
  change (Z.shiftl 2 2) with 8. rewrite E1. change (Z.shiftl 1 2) with 4. fold (has_class bus device func 1 1).
  pose proof (no_bridge device func Hd Hf) as Hn. unfold has_class in Hn. apply andb_false_iff in Hn.
  assert (Hb : negb (Z.shiftr (creg bus device func 8) 24 =? 6) ||
    negb (Z.land (Z.shiftr (creg bus device func 8) 16) 0xFF =? 4) = true).
  { by destruct Hn as [->| ->]; cbn; rewrite ?orb_true_r. }
  destruct (has_class bus device func 1 1).
  - destruct (ide_set_ok x w1 bus device func Hc1) as (w2 & -> & Hc2).
    destruct (cmd_ok w2 bus device func Hbus Hc2 Hd Hf) as (cmd & w3 & -> & Hc3). cbn iota beta. rewrite Hb. by eexists.
  - rewrite Hb. by eexists.
Qed.

Lemma func_loop_ok (n : nat) (x : X) (w : W) (device func : Z) :
  cfg_like w -> 0 <= device < 32 -> 0 <= func -> func + Z.of_nat n = 8 ->
  exists w', func_loop ide_set check_bus n bus device func (x, w) =
    Ret (check_functions bus device (map (fun k => func + Z.of_nat k) (seq 0 n)) x, w') /\ cfg_like w'.
Proof using All.
  revert x w func. induction n as [|n IH]; intros x w func Hc Hd Hf Hn; [by exists w|]. cbn [func_loop fst snd].
  destruct (read_ok w bus device func 0 Hbus Hc Hd) as (w1 & -> & Hc1); [lia|lia|done|].
  destruct (Z.eqb_spec (creg bus device func 0) 0xFFFF) as [E|_]; [by apply vendor_ok in E; [| |lia]|].
  destruct (check_function_ok x w1 device func Hc1 Hd) as (w2 & -> & Hc2); [lia|]. cbn [obind].
  destruct (IH (check_functions bus device [func] x) w2 (func + 1)) as (w3 & -> & Hc3); [done|done|lia|lia|].
  exists w3. split; [|done]. do 2 f_equal. cbn [seq map]. rewrite Z.add_0_r. unfold check_functions. cbn [foldl].
  f_equal. rewrite <- fmap_S_seq, <- list_fmap_compose. apply list_fmap_ext. intros i k _. cbn. lia.
Qed.

Lemma check_device_ok (x : X) (w : W) (device : Z) :
  cfg_like w -> 0 <= device < 32 ->
  exists w', pci_check_device ide_set check_bus bus device (x, w) =
    Ret (check_functions bus device (functions bus device) x, w') /\ cfg_like w'.
Proof using All.
  intros Hc Hd. unfold pci_check_device, functions, present. cbn [fst snd].
  destruct (read_ok w bus device 0 0 Hbus Hc Hd) as (w1 & -> & Hc1); [lia|lia|done|].
  destruct (Z.eqb_spec (Z.land (creg bus device 0 0) 0xFFFF) 0xFFFF); cbn [negb]; [by exists w1|].
  destruct (check_function_ok x w1 device 0 Hc1 Hd) as (w2 & -> & Hc2); [lia|]. cbn [obind fst snd].
  change (Z.shiftl 3 2) with 12. destruct (read_ok w2 bus device 0 12 Hbus Hc2 Hd) as (w3 & -> & Hc3); [lia|lia|done|].
  unfold multi. destruct (Z.eqb_spec (Z.land (Z.land (Z.shiftr (creg bus device 0 12) 16) 0xFF) 0x80) 0); cbn [negb];
    [by exists w3|].
  destruct (func_loop_ok 7 (check_functions bus device [0] x) w3 device 1) as (w4 & -> & Hc4); [done|done|lia|lia|].
  by exists w4.
Qed.

Lemma device_loop_ok (n : nat) (x : X) (w : W) (device : Z) :
  cfg_like w -> 0 <= device -> device + Z.of_nat n = 32 ->
  exists w', device_loop ide_set check_bus n bus device (x, w) =
    Ret (check_devices bus (map (fun k => device + Z.of_nat k) (seq 0 n)) x, w') /\ cfg_like w'.
Proof using All.
  revert x w device. induction n as [|n IH]; intros x w device Hc Hd Hn; [by exists w|]. cbn [device_loop].
  destruct (check_device_ok x w device Hc) as (w1 & -> & Hc1); [lia|]. cbn [obind].
  destruct (IH (check_functions bus device (functions bus device) x) w1 (device + 1)) as (w2 & -> & Hc2); [done|lia|lia|].
  exists w2. split; [|done]. do 2 f_equal. cbn [seq map]. rewrite Z.add_0_r. unfold check_devices. cbn [foldl].
  f_equal. rewrite <- fmap_S_seq, <- list_fmap_compose. apply list_fmap_ext. intros i k _. cbn. lia.
Qed.
End Search.

(** On a bus without bridges the search ends, and uses exactly the IDE
    controllers among the functions of its devices, in the order of their
    numbers. *)
Theorem pci_check_bus_finds {W : Type} `{!PortIO W} {laws : PciLaws W} {X : Type} (c : Z -> Z)
    (ide_set : X -> W -> Z -> Z -> Z -> X * W) (use : X -> Z -> Z -> Z -> X) (fuel : nat) (bus : Z) (x : X) (w : W) :
  (forall x w bus device func, cfg_like c w ->
    exists w', ide_set x w bus device func = (use x bus device func, w') /\ cfg_like c w') ->
  0 <= bus < 256 -> cfg_like c w ->
  (forall device func, 0 <= device < 32 -> 0 <= func < 8 -> has_class c bus device func 6 4 = false) ->
  (forall device func, 0 <= device < 32 -> 0 <= func < 8 -> creg c bus device func 0 <> 0xFFFF) ->
  exists w', pci_check_bus ide_set (S fuel) bus (x, w) =
    Ret (check_devices c use bus (map Z.of_nat (seq 0 32)) x, w') /\ cfg_like c w'.
Proof.
  intros Hs Hb Hc Hn Hv. cbn [pci_check_bus].
  exact (device_loop_ok c ide_set use Hs bus Hb (pci_check_bus ide_set fuel) Hn Hv 32 x w 0 Hc ltac:(lia) ltac:(lia)).
Qed.

Lemma pci_address_roundtrip_witness : cfg_decode (pci_address 3 31 7 0x22) = (1, 3, 31, 7, 0x20).
Proof. apply (pci_address_roundtrip 3 31 7 0x22); lia. Defined.
