(* ===== verification/Ps2.v ===== *)
(** The PS/2 controller (src/src/kernel/drivers/ps2controller.c), against the
    documented behaviour of the 8042, and the interval timer
    (src/src/kernel/drivers/pit.c). *)

From Stdlib Require Import ZArith Lia.
From stdpp Require Import base numbers list.
From S2P Require Import Prelude Ports Pic Descr Apic.

Definition PS2_CMD_READ_BYTE : Z := 0x20.
Definition PS2_CMD_WRITE_BYTE : Z := 0x60.
Definition PS2_CMD_DISABLE2 : Z := 0xA7.
Definition PS2_CMD_ENABLE2 : Z := 0xA8.
Definition PS2_CMD_TEST2 : Z := 0xA9.
Definition PS2_CMD_TEST_CTRL : Z := 0xAA.
Definition PS2_CMD_TEST1 : Z := 0xAB.
Definition PS2_CMD_DISABLE1 : Z := 0xAD.
Definition PS2_CMD_ENABLE1 : Z := 0xAE.
Definition PS2_REG_INT1 : Z := Z.shiftl 1 0.
Definition PS2_REG_TRANSLAT : Z := Z.shiftl 1 6.
Definition PS2_DATAPORT : Z := 0x60.
Definition PS2_STATUSREG : Z := 0x64.
Definition PS2_COMMANDREG : Z := 0x64.

Section Ps2.
Context {W : Type} `{!PortIO W} (fuel : nat).

(** [while (!(inb(PS2_STATUSREG) & 0x1));] and the loop for bit 1, with fuel. *)
Fixpoint wait_response (fuel : nat) (w : W) : outcome W :=
  match fuel with
  | O => NoFuel
  | S fuel => let '(s, w) := inb w PS2_STATUSREG in if Z.land s 0x1 =? 0 then wait_response fuel w else Ret w
  end.
Fixpoint wait_input (fuel : nat) (w : W) : outcome W :=
  match fuel with
  | O => NoFuel
  | S fuel => let '(s, w) := inb w PS2_STATUSREG in if Z.land s 0x2 =? 0 then Ret w else wait_input fuel w
  end.

Definition ps2_getresponse (w : W) : outcome (Z * W) :=
  let! w := wait_response fuel w in
  Ret (inb w PS2_DATAPORT).

Definition ps2_sendnextbyte (w : W) (byte : Z) : outcome W :=
  let! w := wait_input fuel w in
  Ret (outb w byte PS2_DATAPORT).

(** The result says whether the response was the expected one; another one is
    only reported. *)
Definition ps2_sendcommand (w : W) (command expected_res : Z) : outcome (bool * W) :=
  let w := outb w command PS2_COMMANDREG in
  let! (ret, w) := ps2_getresponse w in
  Ret (ret =? expected_res, w).

Fixpoint ps2_flushbuffer (fuel : nat) (w : W) : outcome W :=
  match fuel with
  | O => NoFuel
  | S fuel =>
      let '(s, w) := inb w PS2_STATUSREG in
      if Z.land s 0x1 =? 0 then Ret w
      else let '(_, w) := inb w PS2_DATAPORT in ps2_flushbuffer fuel w
  end.

Definition ps2_setconfigbyte (w : W) : outcome W :=
  let w := outb w (PS2_CMD_READ_BYTE + 0) PS2_COMMANDREG in
  let! (config_byte, w) := ps2_getresponse w in
  let config_byte := Z.lor config_byte PS2_REG_INT1 in
  let config_byte := Z.land config_byte (bnot 8 PS2_REG_TRANSLAT) in
  let w := outb w (PS2_CMD_WRITE_BYTE + 0) PS2_COMMANDREG in
  ps2_sendnextbyte w config_byte.

(** The results are those of the three tests. *)
Definition ps2_init (w : W) : outcome (bool * bool * bool * W) :=
  let w := outb w PS2_CMD_DISABLE1 PS2_COMMANDREG in
  let w := outb w PS2_CMD_DISABLE2 PS2_COMMANDREG in
  let! w := ps2_flushbuffer fuel w in
  let! (t, w) := ps2_sendcommand w PS2_CMD_TEST_CTRL 0x55 in
  let! w := ps2_setconfigbyte w in
  let! (t1, w) := ps2_sendcommand w PS2_CMD_TEST1 0 in
  let! (t2, w) := ps2_sendcommand w PS2_CMD_TEST2 0 in
  let w := outb w PS2_CMD_ENABLE1 PS2_COMMANDREG in
  let w := outb w PS2_CMD_ENABLE2 PS2_COMMANDREG in
  Ret (t, t1, t2, w).
End Ps2.

(** ** The controller *)

(** The configuration byte, the bytes waiting to be read, whether the next byte
    at the data port is the configuration, and which ports are on. *)
Record i8042 := mk_8042 { cfgb : Z; outq : list Z; cfg_next : bool; port1 : bool; port2 : bool }.

(** A dual-channel controller without faults. *)
Definition ctl_command (s : i8042) (c : Z) : i8042 :=
  let 'mk_8042 b q n p1 p2 := s in
  if c =? 0x20 then mk_8042 b (q ++ [b]) n p1 p2
  else if c =? 0x60 then mk_8042 b q true p1 p2
  else if c =? 0xA7 then mk_8042 b q n p1 false
  else if c =? 0xA8 then mk_8042 b q n p1 true
  else if c =? 0xA9 then mk_8042 b (q ++ [0]) n p1 p2
  else if c =? 0xAA then mk_8042 b (q ++ [0x55]) n p1 p2
  else if c =? 0xAB then mk_8042 b (q ++ [0]) n p1 p2
  else if c =? 0xAD then mk_8042 b q n false p2
  else if c =? 0xAE then mk_8042 b q n true p2
  else s.
Definition ctl_data (s : i8042) (v : Z) : i8042 :=
  if cfg_next s then mk_8042 v (outq s) false (port1 s) (port2 s) else s.

(** While both ports are off nothing arrives on its own.  [ps2_wait] bounds the
    polls until the input buffer is free. *)
Class Ps2Laws (W : Type) `{!PortIO W} := {
  ctl : W -> i8042;
  ps2_wait : W -> nat;
  ps2_max : nat;
  ps2_wait_max w : (ps2_wait w <= ps2_max)%nat;
  ps2_command w c : ctl (outb w c PS2_COMMANDREG) = ctl_command (ctl w) c;
  ps2_data w v : ctl (outb w v PS2_DATAPORT) = ctl_data (ctl w) v;
  ps2_status w : exists s w', inb w PS2_STATUSREG = (s, w') /\ ctl w' = ctl w /\
    Z.testbit s 0 = negb (bool_decide (outq (ctl w) = [])) /\
    (Z.testbit s 1 = false \/ (S (ps2_wait w') <= ps2_wait w)%nat);
  ps2_read w b q : outq (ctl w) = b :: q -> exists w', inb w PS2_DATAPORT = (b, w') /\
    ctl w' = mk_8042 (cfgb (ctl w)) q (cfg_next (ctl w)) (port1 (ctl w)) (port2 (ctl w));
}.

Lemma land_one (s : Z) : (Z.land s 0x1 =? 0) = negb (Z.testbit s 0).
Proof. exact (land_bit_zero s 0 ltac:(lia)). Qed.
Lemma land_two (s : Z) : (Z.land s 0x2 =? 0) = negb (Z.testbit s 1).
Proof. exact (land_bit_zero s 1 ltac:(lia)). Qed.

Section Proofs.
Context {W : Type} `{!PortIO W} {laws : Ps2Laws W} (fuel : nat) (Hfuel : (ps2_max < fuel)%nat).

Lemma getresponse_ok (w : W) (b : Z) (q : list Z) :
  outq (ctl w) = b :: q ->
  exists w', ps2_getresponse fuel w = Ret (b, w') /\
    ctl w' = mk_8042 (cfgb (ctl w)) q (cfg_next (ctl w)) (port1 (ctl w)) (port2 (ctl w)).
Proof using Hfuel.
  intros Hq. unfold ps2_getresponse. destruct (Nat.lt_exists_pred _ _ Hfuel) as (k & -> & _). cbn [wait_response].
  destruct (ps2_status w) as (s & w1 & -> & E1 & Hb & _). rewrite land_one, Hb, Hq. cbn [negb].
  rewrite bool_decide_false by done. cbn [negb obind].
  destruct (ps2_read w1 b q) as (w2 & -> & E2); [by rewrite E1|]. exists w2. by rewrite E2, E1.
Qed.

Lemma sendnextbyte_ok (w : W) (v : Z) :
  exists w', ps2_sendnextbyte fuel w v = Ret w' /\ ctl w' = ctl_data (ctl w) v.
Proof using Hfuel.
  unfold ps2_sendnextbyte.
  assert (exists w', wait_input fuel w = Ret w' /\ ctl w' = ctl w) as (w' & -> & E).
  { assert (Hw : (ps2_wait w < fuel)%nat) by (pose proof (ps2_wait_max w); lia). revert w Hw.
    generalize fuel as n. induction n as [|k IH]; intros w Hw; [lia|]. cbn [wait_input].
    destruct (ps2_status w) as (s & w1 & -> & E1 & _ & Hb). rewrite land_two.
    destruct (Z.testbit s 1) eqn:Et; cbn [negb]; [|by exists w1]. destruct Hb as [|Hb]; [done|].
    destruct (IH w1) as (w2 & -> & E2); [lia|]. exists w2. split; [done|]. by rewrite E2. }
  cbn [obind]. eexists. split; [done|]. by rewrite ps2_data, E.
Qed.

Lemma flush_ok (w : W) (n : nat) :
  (length (outq (ctl w)) < n)%nat ->
  exists w', ps2_flushbuffer n w = Ret w' /\
    ctl w' = mk_8042 (cfgb (ctl w)) [] (cfg_next (ctl w)) (port1 (ctl w)) (port2 (ctl w)).
Proof.
  revert w. induction n as [|n IH]; intros w Hn; [lia|]. cbn [ps2_flushbuffer].
  destruct (ps2_status w) as (s & w1 & -> & E1 & Hb & _). rewrite land_one, Hb.
  destruct (outq (ctl w)) as [|b q] eqn:Eq.
  - rewrite bool_decide_true by done. cbn [negb]. exists w1. split; [done|]. rewrite E1. destruct (ctl w). cbn in *. by subst.
  - rewrite bool_decide_false by done. cbn [negb]. destruct (ps2_read w1 b q) as (w2 & -> & E2); [by rewrite E1|].
    destruct (IH w2) as (w3 & -> & E3); [rewrite E2; cbn in *; lia|]. exists w3. split; [done|]. by rewrite E3, E2, E1.
Qed.

(** The configuration: the interrupt of the keyboard is on and its scan codes
    are not translated, the other bits are kept. *)
Definition keyboard_config (b b' : Z) : Prop :=
  Z.testbit b' 0 = true /\ Z.testbit b' 6 = false /\ forall j, 0 < j < 8 -> j <> 6 -> Z.testbit b' j = Z.testbit b j.

Lemma config_bits (b : Z) : keyboard_config b (Z.land (Z.lor b PS2_REG_INT1) (bnot 8 PS2_REG_TRANSLAT)).
Proof.
  unfold keyboard_config, PS2_REG_INT1, PS2_REG_TRANSLAT. split_and!.
  - rewrite Z.land_spec, Z.lor_spec, testbit_bnot, !testbit_one by lia. cbn. by rewrite orb_true_r.
  - rewrite Z.land_spec, testbit_bnot, testbit_one by lia. by rewrite andb_false_r.
  - intros j Hj Hj6. rewrite Z.land_spec, Z.lor_spec, testbit_bnot, !testbit_one by lia.
    destruct (Z.eqb_spec j 0), (Z.eqb_spec j 6); try lia. by rewrite orb_false_r, andb_true_r.
Qed.

(** Starting the controller, whatever bytes were waiting in it: the set-up
    ends, the three self tests pass, no byte is left over, the keyboard
    interrupt is on without translation, the other configuration bits are as
    they were, and both ports are on. *)
Theorem ps2_init_ok (w : W) :
  (length (outq (ctl w)) < fuel)%nat -> cfg_next (ctl w) = false ->
  exists w', ps2_init fuel w = Ret (true, true, true, w') /\
    outq (ctl w') = [] /\ keyboard_config (cfgb (ctl w)) (cfgb (ctl w')) /\ port1 (ctl w') = true /\ port2 (ctl w') = true.
Proof using Hfuel.
  intros Hl Hn. unfold ps2_init. destruct (ctl w) as [b q n p1 p2] eqn:E0. cbn in Hl, Hn. subst n. cbn [cfgb].
  set (w1 := outb (outb w PS2_CMD_DISABLE1 PS2_COMMANDREG) PS2_CMD_DISABLE2 PS2_COMMANDREG).
  assert (E1 : ctl w1 = mk_8042 b q false false false) by (unfold w1; rewrite !ps2_command, E0; done).
  destruct (flush_ok w1 fuel) as (w2 & -> & E2); [by rewrite E1|]. rewrite E1 in E2. cbn in E2. cbn [obind].
  unfold ps2_sendcommand at 1. set (w3 := outb w2 PS2_CMD_TEST_CTRL PS2_COMMANDREG).
  assert (E3 : ctl w3 = mk_8042 b [0x55] false false false) by (unfold w3; rewrite ps2_command, E2; done).
  destruct (getresponse_ok w3 0x55 []) as (w4 & -> & E4); [by rewrite E3|]. rewrite E3 in E4. cbn in E4. cbn [obind].
  unfold ps2_setconfigbyte. set (w5 := outb w4 _ PS2_COMMANDREG).
  assert (E5 : ctl w5 = mk_8042 b [b] false false false) by (unfold w5; rewrite ps2_command, E4; done).
  destruct (getresponse_ok w5 b []) as (w6 & -> & E6); [by rewrite E5|]. rewrite E5 in E6. cbn in E6. cbn [obind].
  set (b' := Z.land _ _). set (w7 := outb w6 _ PS2_COMMANDREG).
  assert (E7 : ctl w7 = mk_8042 b [] true false false) by (unfold w7; rewrite ps2_command, E6; done).
  destruct (sendnextbyte_ok w7 b') as (w8 & -> & E8). rewrite E7 in E8. cbn in E8. cbn [obind].
  unfold ps2_sendcommand at 1. set (w9 := outb w8 PS2_CMD_TEST1 PS2_COMMANDREG).
  assert (E9 : ctl w9 = mk_8042 b' [0] false false false) by (unfold w9; rewrite ps2_command, E8; done).
  destruct (getresponse_ok w9 0 []) as (w10 & -> & E10); [by rewrite E9|]. rewrite E9 in E10. cbn in E10. cbn [obind].
  unfold ps2_sendcommand. set (w11 := outb w10 PS2_CMD_TEST2 PS2_COMMANDREG).
  assert (E11 : ctl w11 = mk_8042 b' [0] false false false) by (unfold w11; rewrite ps2_command, E10; done).
  destruct (getresponse_ok w11 0 []) as (w12 & -> & E12); [by rewrite E11|]. rewrite E11 in E12. cbn in E12. cbn [obind].
  eexists. split; [done|]. rewrite !ps2_command, E12. cbn. split_and!; [done|apply config_bits|done|done].
Qed.
End Proofs.

(** ** A concrete controller *)

#[export] Instance i8042_ports : PortIO i8042 := {
  inb s port :=
    if port =? PS2_STATUSREG then (if bool_decide (outq s = []) then 0 else 1, s)
    else match outq s with
      | [] => (0, s)
      | b :: q => (b, mk_8042 (cfgb s) q (cfg_next s) (port1 s) (port2 s))
      end;
  outb s v port := if port =? PS2_COMMANDREG then ctl_command s v else ctl_data s v;
  inl s _ := (0, s);
  outl s _ _ := s;
  outw s _ _ := s;
}.
#[export] Program Instance i8042_laws : Ps2Laws i8042 := { ctl s := s; ps2_wait _ := 0%nat; ps2_max := 0%nat }.
Next Obligation. done. Qed.
Next Obligation. done. Qed.
Next Obligation. done. Qed.
Next Obligation.
  intros s. eexists _, _. split; [reflexivity|]. split; [done|]. cbn. split; [by case_bool_decide|left; by case_bool_decide].
Qed.
Next Obligation. intros s b q E. cbn. rewrite E. by eexists. Qed.

Lemma ps2_init_ok_witness :
  exists s, ps2_init 10 (mk_8042 0x65 [0xFA; 0x1C] false true true) = Ret (true, true, true, s) /\ outq s = [].
Proof.
  destruct (ps2_init_ok (laws:=i8042_laws) 10 ltac:(cbn; lia) (mk_8042 0x65 [0xFA; 0x1C] false true true)) as (s & E & H & _);
    [cbn; lia|reflexivity|]. exact (ex_intro _ s (conj E H)).
Defined.

(** A controller that does not answer the test of the second port, as one with
    a single channel, stops the kernel. *)
Definition no_answer : Type := i8042.
#[local] Instance single_ports : PortIO no_answer := {
  inb := inb (W:=i8042);
  outb s v port := if (port =? PS2_COMMANDREG) && (v =? PS2_CMD_TEST2) then s else outb (W:=i8042) s v port;
  inl s _ := (0, s);
  outl s _ _ := s;
  outw s _ _ := s;
}.
Theorem ps2_single_channel_hangs (fuel : nat) :
  ps2_sendcommand (W:=no_answer) fuel (mk_8042 0 [] false false false) PS2_CMD_TEST2 0 = NoFuel.
Proof.
  unfold ps2_sendcommand, ps2_getresponse. cbn.
  assert (wait_response (W:=no_answer) fuel (mk_8042 0 [] false false false) = NoFuel) as E.
  { induction fuel as [|k IH]; [done|]. cbn. exact IH. }
  by rewrite E.
Qed.

(** ** The interval timer *)

Definition PIT_CHANNEL_0 : Z := 0x40.
Definition PIT_MODREG : Z := 0x43.

Section Pit.
Context {W : Type} `{!PortIO W}.

Definition pit_change_modreg (w : W) (modreg : Z) : W := outb w modreg PIT_MODREG.

Definition pit_readcount (w : W) : Z * W :=
  let '(lo, w) := inb w PIT_CHANNEL_0 in
  let '(hi, w) := inb w PIT_CHANNEL_0 in
  (u16 (Z.lor lo (Z.shiftl hi 8)), w).

Definition pit_setcount (w : W) (count : Z) : W := outb w (Z.land count 0xFF) PIT_CHANNEL_0.

Definition pit_init `{!MemIO W} (a : apic) (w : W) : outcome (apic * W) :=
  let pit_modreg := Z.lor (Z.lor 0 (Z.shiftl 1 5)) (Z.shiftl 1 1) in
  let w := pit_change_modreg w pit_modreg in
  let w := pit_setcount w 1 in
  ioapic_legacy_irq_activate a w 0.

Definition pit_on (w : W) : W := pic_clearmask w 0.
Definition pit_off (w : W) : W := pic_setmask w 0.
End Pit.
