(* ===== verification/Loader.v ===== *)
(** The program loader (src/src/kernel/proc/loader.c): a page directory for a new
    program, a copy of the kernel's on a page of the kernel heap. *)

From Stdlib Require Import ZArith Lia.
From stdpp Require Import base numbers list gmap.
From S2P Require Import Prelude Cstring Pmm Vmm.

(** The address of the copy, the heap and the memory. *)
Definition load_new_page_dir (h : kheap) (m : mem) (page_directory : Z) : outcome (Z * kheap * mem) :=
  let! (new_dir, h) := kmalloc h PAGE_FRAME_SIZE in
  Ret (new_dir, h, memcpy m new_dir page_directory (Z.to_nat PAGE_FRAME_SIZE)).

(** Entry [i] of the directory at [dir]. *)
Definition dir_entry (m : mem) (dir i : Z) : Z :=
  m (dir + 4 * i) + m (dir + 4 * i + 1) * 2 ^ 8 + m (dir + 4 * i + 2) * 2 ^ 16 + m (dir + 4 * i + 3) * 2 ^ 24.

Lemma page_copied (m : mem) (d s x : Z) : d + 4096 <= s \/ s + 4096 <= d ->
  memcpy m d s (Z.to_nat PAGE_FRAME_SIZE) x = if (d <=? x) && (x <? d + 4096) then m (s + (x - d)) else m x.
Proof. intros H. unfold memcpy. rewrite copy_up_spec by (unfold PAGE_FRAME_SIZE; lia). by rewrite Z.add_0_r. Qed.

(** With no free page on the stack the copy takes the next page below the stack:
    it is aligned when the stack is, every entry is that of the kernel's
    directory, and no byte outside the page changes. *)
Theorem load_new_page_dir_copies (h : kheap) (m : mem) (page_directory : Z) :
  kheap_stack_last h = SNull -> kheap_end h <= kheap_stack_end h -> 4096 < kheap_stack_end h < 2 ^ 32 ->
  let p := kheap_stack_end h - 4096 in
  p + 4096 <= page_directory \/ page_directory + 4096 <= p ->
  exists h' m', load_new_page_dir h m page_directory = Ret (p, h', m') /\ kheap_stack_end h' = p /\
    (forall i, 0 <= i < 1024 -> dir_entry m' p i = dir_entry m page_directory i) /\
    (forall x, x < p \/ p + 4096 <= x -> m' x = m x).
Proof.
  intros Hl He Hs p Hd. unfold load_new_page_dir, kmalloc, vmm_block_alloc. cbn [Z.eqb PAGE_FRAME_SIZE Pos.eqb].
  destruct (Z.ltb_spec (kheap_stack_end h) (kheap_end h)); [lia|]. rewrite Hl. cbn [obind].
  assert (u32 (kheap_stack_end h - PAGE_FRAME_SIZE) = p) as -> by (apply u32_small; unfold PAGE_FRAME_SIZE; lia).
  destruct (Z.eqb_spec p 0); [lia|]. cbn [obind].
  eexists _, _. split; [done|]. split; [done|]. split.
  - intros i Hi. unfold dir_entry. rewrite !page_copied by done.
    repeat match goal with |- context [(?a <=? ?b) && (?c <? ?d)] =>
      destruct (Z.leb_spec a b); [|lia]; destruct (Z.ltb_spec c d); [|lia]; cbn [andb] end.
    assert (Ea : forall k, page_directory + (p + 4 * i + k - p) = page_directory + 4 * i + k) by lia.
    rewrite !Ea. by replace (page_directory + (p + 4 * i - p)) with (page_directory + 4 * i) by lia.
  - intros x Hx. rewrite page_copied by done. destruct (Z.leb_spec p x), (Z.ltb_spec x (p + 4096)); cbn [andb]; done || lia.
Qed.

(** The last entry, through which the kernel reaches the tables of the current
    directory, is copied like the others: in the copy it still names the
    directory it was copied from. *)
Theorem load_keeps_recursive_entry (h : kheap) (m : mem) (page_directory : Z) :
  kheap_stack_last h = SNull -> kheap_end h <= kheap_stack_end h -> 4096 < kheap_stack_end h < 2 ^ 32 ->
  let p := kheap_stack_end h - 4096 in
  p + 4096 <= page_directory \/ page_directory + 4096 <= p ->
  exists h' m', load_new_page_dir h m page_directory = Ret (p, h', m') /\ dir_entry m' p 1023 = dir_entry m page_directory 1023.
Proof.
  intros Hl He Hs p Hd. destruct (load_new_page_dir_copies h m page_directory Hl He Hs Hd) as (h' & m' & E & _ & Hi & _).
  exists h', m'. split; [done|]. by apply Hi.
Qed.

(** A directory whose entries are the numbers of their bytes, on a heap whose
    page stack is empty. *)
Lemma load_new_page_dir_copies_witness :
  let h := mk_kheap [] ∅ 0xD0000000 0xD0001000 SNull 0xE0000000 0xDFFFF000 [] in
  exists h' m', load_new_page_dir h (fun x => x mod 256) 0xC0101000 = Ret (0xDFFFE000, h', m') /\
    dir_entry m' 0xDFFFE000 1023 = dir_entry (fun x => x mod 256) 0xC0101000 1023.
Proof.
  intros h. destruct (load_new_page_dir_copies h (fun x => x mod 256) 0xC0101000) as (h' & m' & E & _ & Hi & _);
    [reflexivity|cbn; lia|cbn; lia|cbn; lia|].
  exists h', m'. split; [exact E|]. apply Hi. lia.
Defined.
