(* ===== verification/Abort.v ===== *)
(** The ends of the kernel: abort and the stack protector of the C library
    (src/libc-src/stdlib/abort.c and ssp.c), and the two small users of the
    message functions that have no other state, vbe.c and irq.c under
    src/src/kernel.  In the other files a call of [abort] is the outcome [Panic];
    here it is the console at the moment the processor halts. *)

From Stdlib Require Import ZArith Lia String Ascii.
From stdpp Require Import base numbers list.
From S2P Require Import Prelude Ports Tty Serialport Printf.

(** The bytes of a literal. *)
Definition text (s : string) : list Z := map (fun c => Z.of_nat (nat_of_ascii c)) (list_ascii_of_string s).
Definition nl : string := String (ascii_of_nat 10) EmptyString.

Section Abort.
Context {W : Type} `{!PortIO W} (fuel : nat).
Notation console := (console (W := W)).

(** A message without a value, and one with a number. *)
Definition say (o : console) (s : string) : outcome console :=
  let! (o, _) := kprintf fuel o (text s ++ [0]) [] in Ret o.
Definition say_num (o : console) (s : string) (n : Z) : outcome console :=
  let! (o, _) := kprintf fuel o (text s ++ [0]) [VInt n] in Ret o.

Definition abort_msg : string := "kernel: panic: abort()" ++ nl.
Definition abort (o : console) : outcome console :=
  let! (o, _) := printf fuel o (text abort_msg ++ [0]) [] in say o abort_msg.

Definition STACK_CHK_GUARD : Z := 0xe2dee396.
Definition stack_chk_fail (o : console) : outcome console :=
  let! (o, _) := printf fuel o (text "kernel: panic: stack smashing detected" ++ [0]) [] in abort o.

Definition dump_stackelement (o : console) (edi esi ebp esp ebx edx ecx eax : Z) : outcome console :=
  let! o := say_num o ("EAX: %x" ++ nl) eax in
  let! o := say_num o ("ECX: %x" ++ nl) ecx in
  let! o := say_num o ("EDX: %x" ++ nl) edx in
  let! o := say_num o ("EBX: %x" ++ nl) ebx in
  let! o := say_num o ("ESP: %x" ++ nl) esp in
  let! o := say_num o ("EBP: %x" ++ nl) ebp in
  let! o := say_num o ("ESI: %x" ++ nl) esi in
  say_num o ("EDI: %x" ++ nl) edi.

(** The members of the boot information that describe the frame buffer. *)
Record fb_info := mk_fb { fb_flags : Z; framebuffer_addr : Z; framebuffer_pitch : Z; framebuffer_width : Z; framebuffer_height : Z }.
Definition MULTIBOOT_INFO_FRAMEBUFFER : Z := Z.shiftl 1 12.

(** The result also says whether the kernel stopped; [%x] takes 32 bits of the
    address. *)
Definition vbe_init (o : console) (fb : fb_info) : outcome (console * bool) :=
  if Z.land (fb_flags fb) MULTIBOOT_INFO_FRAMEBUFFER =? 0 then
    let! o := say o ("[ERROR][PMM] multiboot flags bit 12 isn't set" ++ nl) in
    let! o := abort o in
    Ret (o, true)
  else
    let! o := say_num o ("addr: %x" ++ nl) (u32 (framebuffer_addr fb)) in
    let! o := say_num o ("width: %d" ++ nl) (framebuffer_width fb) in
    let! o := say_num o ("height: %d" ++ nl) (framebuffer_height fb) in
    let! o := say_num o ("height: %d" ++ nl) (framebuffer_pitch fb) in
    Ret (o, false).

(** irq.c keeps a counter that nothing changes. *)
Definition spurious_case : Z := 0.
Definition irq_init (o : console) : outcome console := say o ("IRQ setup SUCCESS" ++ nl).
Definition irq_get_spurious_case : Z := spurious_case.
End Abort.

(** ** What they report *)

Section Reports.
Context {W : Type} `{!PortIO W} {laws : UartLaws W} (fuel : nat).

(** Messages of characters alone. *)
Definition plain (l : list Z) : Prop := Forall (fun c => c <> 0 /\ c <> 37 /\ 0 <= c < 256) l.

Lemma plain_items (l : list Z) :
  (map Chr l ≫= item_format) = l /\ (map Chr l ≫= item_args) = [] /\ (map Chr l ≫= item_text) = l.
Proof. induction l as [|c l (H1 & H2 & H3)]; [done|]. cbn. by rewrite H1, H2, H3. Qed.

Lemma plain_ok (l : list Z) : plain l -> Forall item_ok (map Chr l) /\ bytes l.
Proof. induction 1 as [|c l Hc _ [IH1 IH2]]; [by split; constructor|]. split; constructor; simpl; tauto. Qed.

(** The serial line ready to send. *)
Definition line_ready (o : console (W := W)) : Prop :=
  dlab (uart (con_serial o)) = false /\ loopback (uart (con_serial o)) = false.

(** The console after a message: the text on the line. *)
Definition said (o o' : console (W := W)) (l : list Z) : Prop :=
  con_tty o' = con_tty o /\ uart (con_serial o') = put_line (uart (con_serial o)) (crlf l).

Lemma kprintf_items (l : list item) (o : console (W := W)) :
  Forall item_ok l -> bytes (l ≫= item_text) -> Z.of_nat (length (l ≫= item_text)) <= INT_MAX ->
  (uart_max < fuel)%nat -> line_ready o ->
  exists o', (let! (o, _) := kprintf fuel o ((l ≫= item_format) ++ [0]) (l ≫= item_args) in Ret o) = Ret o' /\
    said o o' (l ≫= item_text) /\ line_ready o'.
Proof.
  intros Hl Hb Hm Hf [Hd Hlo]. destruct (kprintf_transmits fuel l o Hl Hm Hb Hf Hd Hlo) as (w & -> & U). cbn [obind].
  eexists. split; [done|]. split; [by split|]. unfold line_ready. cbn [con_serial]. rewrite U. by destruct (uart (con_serial o)).
Qed.

Lemma say_ok (s : string) (o : console (W := W)) :
  plain (text s) -> Z.of_nat (length (text s)) <= INT_MAX -> (uart_max < fuel)%nat -> line_ready o ->
  exists o', say fuel o s = Ret o' /\ said o o' (text s) /\ line_ready o'.
Proof.
  intros Hp Hm Hf Hr. destruct (plain_items (text s)) as (E1 & E2 & E3). destruct (plain_ok _ Hp) as [Hi Hb].
  destruct (kprintf_items (map Chr (text s)) o) as (o' & E & H); rewrite ?E3; try done.
  rewrite E1, E2 in E. rewrite E3 in H. by exists o'.
Qed.

(** A message on the screen. *)
Lemma printf_plain (l : list Z) (o : console (W := W)) :
  plain l -> Z.of_nat (length l) <= INT_MAX -> Forall (fun c => c <> 8) l -> tty_ok (con_tty o) ->
  exists t n, printf fuel o (l ++ [0]) [] = Ret (mk_console TERMINAL_OUT t (con_serial o), n) /\
    terminal_write (con_tty o) l = Ret t /\ tty_ok t.
Proof.
  intros Hp Hm H8 Ht. destruct (plain_items l) as (E1 & E2 & E3). destruct (plain_ok _ Hp) as [Hi Hb].
  pose proof (printf_terminal fuel (map Chr l) o Hi) as E. rewrite E1, E2, E3 in E.
  destruct (terminal_write_safe l (con_tty o) Ht) as (t & Et & Ht').
  { unfold plain in Hp. rewrite Forall_forall in H8, Hp |- *. intros c Hc. destruct (Hp c Hc) as (_ & _ & ?). rewrite u8_small by done. by apply H8. }
  rewrite E, Et by done. by eexists _, _.
Qed.

(** abort shows its message on the screen and sends it on the serial line, from
    any state of the two in which they work. *)
Theorem abort_reports (o : console (W := W)) :
  (uart_max < fuel)%nat -> line_ready o -> tty_ok (con_tty o) ->
  exists o', abort fuel o = Ret o' /\ tty_ok (con_tty o') /\
    terminal_write (con_tty o) (text abort_msg) = Ret (con_tty o') /\
    uart (con_serial o') = put_line (uart (con_serial o)) (crlf (text abort_msg)).
Proof.
  intros Hf Hr Ht. unfold abort.
  assert (Hp : plain (text abort_msg)) by (repeat constructor; done).
  destruct (printf_plain (text abort_msg) o Hp) as (t & n & -> & Et & Ht'); [done|repeat constructor; done|done|]. cbn [obind].
  destruct (say_ok abort_msg (mk_console TERMINAL_OUT t (con_serial o)) Hp) as (o' & -> & [S1 S2] & _); [done|done|done|].
  exists o'. rewrite S1. by split_and!.
Qed.

(** Without the flag for the frame buffer the kernel stops with a message. *)
Theorem vbe_init_stops (o : console (W := W)) (fb : fb_info) :
  (uart_max < fuel)%nat -> line_ready o -> tty_ok (con_tty o) -> Z.testbit (fb_flags fb) 12 = false ->
  exists o', vbe_init fuel o fb = Ret (o', true).
Proof.
  intros Hf Hr Ht Hb. unfold vbe_init, MULTIBOOT_INFO_FRAMEBUFFER. rewrite land_bit_zero, Hb by done. cbn [negb].
  destruct (say_ok ("[ERROR][PMM] multiboot flags bit 12 isn't set" ++ nl) o) as (o1 & -> & [S1 _] & R1);
    [repeat constructor; done|done|done|done|]. cbn [obind].
  destruct (abort_reports o1 Hf R1) as (o2 & -> & _); [by rewrite S1|]. by exists o2.
Qed.
End Reports.
