(* ===== verification/Ide.v ===== *)
(** The disk driver (src/src/kernel/drivers/ide.c): the registers of an IDE
    controller, finding the drives, and programming a transfer through the
    table of memory regions. *)

From Stdlib Require Import ZArith Lia.
From stdpp Require Import base numbers list.
From S2P Require Import Prelude Bytes Ports Pci Descr Acpi Apic.

Definition IDE_COMP_PORTS1 : Z := 0x1F0.
Definition IDE_COMP_CTRL_PORTS1 : Z := 0x3F6.
Definition IDE_COMP_PORTS2 : Z := 0x170.
Definition IDE_COMP_CTRL_PORTS2 : Z := 0x376.
Definition IDE_PROG_NATMODE1 : Z := Z.shiftl 1 0.
Definition IDE_PROG_NATMODE2 : Z := Z.shiftl 1 2.
Definition IDE_PROG_DMA : Z := Z.shiftl 1 7.
Definition IDE_ST_BUSY : Z := 0x80.
Definition IDE_ST_DATA_READY : Z := 0x8.
Definition IDE_ST_ERROR : Z := 0x1.
Definition IDE_CMD_READ_DMA : Z := 0xC8.
Definition IDE_CMD_READ_DMA_EXT : Z := 0x25.
Definition IDE_CMD_WRITE_DMA : Z := 0xCA.
Definition IDE_CMD_WRITE_DMA_EXT : Z := 0x35.
Definition IDE_CMD_IDENTIFY_PACKET : Z := 0xA1.
Definition IDE_CMD_IDENTIFY : Z := 0xEC.
Definition IDE_REG_DATA : Z := 0x0.
Definition IDE_REG_FEATURES : Z := 0x1.
Definition IDE_REG_SECCOUNT0 : Z := 0x2.
Definition IDE_REG_LBA0 : Z := 0x3.
Definition IDE_REG_LBA1 : Z := 0x4.
Definition IDE_REG_LBA2 : Z := 0x5.
Definition IDE_REG_HDDEVSEL : Z := 0x6.
Definition IDE_REG_COMMAND : Z := 0x7.
Definition IDE_REG_STATUS : Z := 0x7.
Definition IDE_REG_SECCOUNT1 : Z := 0x8.
Definition IDE_REG_LBA3 : Z := 0x9.
Definition IDE_REG_LBA4 : Z := 0xA.
Definition IDE_REG_LBA5 : Z := 0xB.
Definition IDE_REG_CONTROL : Z := 0xC.
Definition IDE_REG_BUS_COM : Z := 0xE.
Definition IDE_REG_BUS_STAT : Z := 0x10.
Definition IDE_IDENT_DTYPE : Z := 0.
Definition IDE_IDENT_MODEL : Z := 54.
Definition IDE_IDENT_CAPAB : Z := 98.
Definition IDE_IDENT_MAX_LBA : Z := 120.
Definition IDE_IDENT_COMSETS : Z := 164.
Definition IDE_IDENT_MAX_LBA_EXT : Z := 200.
Definition IDE_ATA : Z := 0.
Definition IDE_ATAPI : Z := 1.

Record ide_channel_t := mk_channel { c_addr : Z; c_ctrl_addr : Z; c_bus_master_addr : Z }.
Record ide_device_t := mk_device {
  dv_present : Z; dv_channel : Z; dv_drive : Z; dv_type : Z; dv_signature : Z; dv_capabilities : Z;
  dv_command_set : Z; dv_size : Z; dv_model : list Z;
}.
Record prd_entry_t := mk_prd { phys_addr : Z; byte_count : Z; prd_reserved : Z }.

(** The static variables; [actual_disk_req] is the device and the task. *)
Record ide := mk_ide {
  channels : list ide_channel_t;
  ide_devices : list ide_device_t;
  prd_table : list prd_entry_t;
  ide_mem_buffer : list Z;
  disk_req : Z * Z;
  is_ide_set : Z;
}.
Definition with_prd (s : ide) (l : list prd_entry_t) : ide :=
  mk_ide (channels s) (ide_devices s) l (ide_mem_buffer s) (disk_req s) (is_ide_set s).
Definition with_buf (s : ide) (b : list Z) : ide :=
  mk_ide (channels s) (ide_devices s) (prd_table s) b (disk_req s) (is_ide_set s).
Definition with_req (s : ide) (r : Z * Z) : ide :=
  mk_ide (channels s) (ide_devices s) (prd_table s) (ide_mem_buffer s) r (is_ide_set s).
Definition with_devices (s : ide) (l : list ide_device_t) : ide :=
  mk_ide (channels s) l (prd_table s) (ide_mem_buffer s) (disk_req s) (is_ide_set s).

(** The table has a KiB for its entries of eight bytes, the buffer four KiB. *)
Definition PRD_ENTRIES : Z := 128.
Definition MEM_BUFFER_SIZE : Z := 4096.

(** ** Registers *)

(** The three functions that access a register choose its port the same way; the
    port instructions take sixteen bits of it. *)
Definition ide_port (ch : ide_channel_t) (reg : Z) : Z :=
  if IDE_REG_BUS_COM <=? reg then c_bus_master_addr ch + (reg - 0xE)
  else if reg <=? IDE_REG_LBA5 then c_addr ch + (if IDE_REG_SECCOUNT1 <=? reg then reg - 0x6 else reg)
  else c_ctrl_addr ch + (reg - 0xC).

Section Ide.
Context {W : Type} `{!PortIO W} `{!MemIO W}.

Definition ide_set (s : ide) (w : W) (bus device func : Z) : ide * W :=
  let '(r2, w) := pci_read_reg w bus device func (Z.shiftl 2 2) in
  let prog_if := Z.land (Z.shiftr r2 8) 0xFF in
  let '(bar0, w) := pci_read_reg w bus device func (Z.shiftl 4 2) in
  let '(bar1, w) := pci_read_reg w bus device func (Z.shiftl 5 2) in
  let '(bar2, w) := pci_read_reg w bus device func (Z.shiftl 6 2) in
  let '(bar3, w) := pci_read_reg w bus device func (Z.shiftl 7 2) in
  let '(bar4, w) := pci_read_reg w bus device func (Z.shiftl 8 2) in
  let bar4 := if negb (Z.land bar4 1 =? 0) then Z.land bar4 0xFFFC else Z.land bar4 0xFFF0 in
  let nat1 := negb (Z.land prog_if IDE_PROG_NATMODE1 =? 0) in
  let nat2 := negb (Z.land prog_if IDE_PROG_NATMODE2 =? 0) in
  let dma := negb (Z.land prog_if IDE_PROG_DMA =? 0) in
  let ch0 := mk_channel (if nat1 then bar0 else IDE_COMP_PORTS1) (if nat1 then bar1 else IDE_COMP_CTRL_PORTS1)
    (if dma then bar4 else 0) in
  let ch1 := mk_channel (if nat2 then bar2 else IDE_COMP_PORTS2) (if nat2 then bar3 else IDE_COMP_CTRL_PORTS2)
    (if dma then bar4 + 8 else 0) in
  (mk_ide [ch0; ch1] (ide_devices s) (prd_table s) (ide_mem_buffer s) (disk_req s) 1, w).

Definition ide_write (s : ide) (w : W) (channel reg data : Z) : outcome W :=
  let! ch := lget (channels s) channel in
  Ret (outb w (u8 data) (u16 (ide_port ch reg))).
Definition ide_read (s : ide) (w : W) (channel reg : Z) : outcome (Z * W) :=
  let! ch := lget (channels s) channel in
  Ret (inb w (u16 (ide_port ch reg))).

(** The bytes of the words that are read. *)
Definition ide_read_buffer (s : ide) (w : W) (channel reg : Z) (count : nat) : outcome (list Z * W) :=
  let! ch := lget (channels s) channel in
  let '(l, w) := insl w (u16 (ide_port ch reg)) count in
  Ret (concat (map (le_bytes 4) l), w).

(** ** Drives *)

(** The loop that waits for the answer of a drive: whether it was an error. *)
Fixpoint identify_loop (fuel : nat) (s : ide) (w : W) (channel : Z) : outcome (bool * W) :=
  match fuel with
  | O => NoFuel
  | S fuel =>
      let! (status, w) := ide_read s w channel IDE_REG_STATUS in
      if negb (Z.land status IDE_ST_ERROR =? 0) then Ret (true, w)
      else if (Z.land status IDE_ST_BUSY =? 0) && negb (Z.land status IDE_ST_DATA_READY =? 0) then Ret (false, w)
      else identify_loop fuel s w channel
  end.

(** The characters of the model, each pair swapped. *)
Fixpoint model_loop (n : nat) (buffer : list Z) (i : Z) : outcome (list Z) :=
  match n with
  | O => Ret []
  | S n =>
      let! a := lget buffer (IDE_IDENT_MODEL + i + 1) in
      let! b := lget buffer (IDE_IDENT_MODEL + i) in
      let! l := model_loop n buffer (i + 2) in
      Ret (a :: b :: l)
  end.

(** The drive the answer describes. *)
Definition identify (buffer : list Z) (channel drive type : Z) : outcome ide_device_t :=
  let! signature := load_le buffer IDE_IDENT_DTYPE 2 in
  let! capabilities := load_le buffer IDE_IDENT_CAPAB 2 in
  let! command_set := load_le buffer IDE_IDENT_COMSETS 4 in
  let addressing_type := u8 (Z.land command_set (Z.shiftl 1 26)) in
  let info_index := if negb (addressing_type =? 0) then IDE_IDENT_MAX_LBA_EXT else IDE_IDENT_MAX_LBA in
  let! size := load_le buffer info_index 4 in
  let! model := model_loop 20 buffer 0 in
  Ret (mk_device 1 channel drive type signature capabilities command_set size (model ++ [0])).

Definition absent (d : ide_device_t) : ide_device_t :=
  mk_device 0 (dv_channel d) (dv_drive d) (dv_type d) (dv_signature d) (dv_capabilities d) (dv_command_set d)
    (dv_size d) (dv_model d).

Definition ide_detect_drive (fuel : nat) (s : ide) (w : W) (channel drive : Z) : outcome (ide * W) :=
  let index := channel * 2 + drive in
  let! d := lget (ide_devices s) index in
  let! l := lset (ide_devices s) index (absent d) in
  let s := with_devices s l in
  let! w := ide_write s w channel IDE_REG_HDDEVSEL (Z.lor 0xA0 (Z.shiftl drive 4)) in
  let! w := ide_write s w channel IDE_REG_COMMAND IDE_CMD_IDENTIFY in
  let! (st, w) := ide_read s w channel IDE_REG_STATUS in
  if st =? 0 then Ret (s, w)
  else
    let! (error, w) := identify_loop fuel s w channel in
    let! (type, w) :=
      (if error then
         let! (cl, w) := ide_read s w channel IDE_REG_LBA1 in
         let! (ch, w) := ide_read s w channel IDE_REG_LBA2 in
         if ((cl =? 0x14) && (ch =? 0xEB)) || ((cl =? 0x69) && (ch =? 0x96)) then
           let! w := ide_write s w channel IDE_REG_COMMAND IDE_CMD_IDENTIFY_PACKET in
           Ret (Some IDE_ATAPI, w)
         else Ret (None, w)
       else Ret (Some IDE_ATA, w)) in
    match type with
    | None => Ret (s, w)
    | Some type =>
        let! (buffer, w) := ide_read_buffer s w channel IDE_REG_DATA 256 in
        let! w := ide_write s w channel IDE_REG_COMMAND IDE_CMD_IDENTIFY in
        let! d := identify buffer channel drive type in
        let! l := lset (ide_devices s) index d in
        Ret (with_devices s l, w)
    end.

(** ** Transfers *)

(** The physical addresses of the table and of the buffer. *)
Context (prdt_phys buf_phys : Z).

Definition ide_set_prdt (s : ide) (w : W) (channel prdt_addr : Z) : outcome W :=
  let! ch := lget (channels s) channel in
  Ret (outl w prdt_addr (u16 (c_bus_master_addr ch + 0x4))).

Definition ide_set_prd_entry (s : ide) (k size : Z) : outcome ide :=
  let! l := lset (prd_table s) k (mk_prd (u32 (buf_phys + 1024 * k)) (u16 (if size =? 65536 then 0 else size)) 0) in
  Ret (with_prd s l).

(** The regions of a transfer of [size] bytes; [data] is the buffer of a write.
    A round fills an entry of the table, so the rounds end within the fuel or
    leave the table. *)
Fixpoint prd_loop (fuel : nat) (s : ide) (data : option (list Z)) (size count start : Z) : outcome (ide * Z) :=
  match fuel with
  | O => NoFuel
  | S fuel =>
      if u32 (size - start) =? 0 then Ret (s, count)
      else
        let prd_size := if 1024 <? size then 1024 else size in
        let! s := ide_set_prd_entry s count prd_size in
        let! s :=
          (match data with
           | Some d =>
               let! b := slice d start prd_size in
               let! m := splice (ide_mem_buffer s) (1024 * count) b in
               Ret (with_buf s m)
           | None => Ret s
           end) in
        prd_loop fuel s data size (count + 1) (u32 (start + prd_size))
  end.
Definition PRD_FUEL : nat := 130.

Definition mark_last (s : ide) (k : Z) : outcome ide :=
  let! e := lget (prd_table s) k in
  let! l := lset (prd_table s) k (mk_prd (phys_addr e) (byte_count e) (Z.lor (prd_reserved e) (Z.shiftl 1 15))) in
  Ret (with_prd s l).

Definition is_some {A} (o : option A) : bool := match o with Some _ => true | None => false end.

Definition ide_fill_prd_table (s : ide) (w : W) (channel : Z) (data : option (list Z)) (size : Z) : outcome (ide * W) :=
  let! w := ide_set_prdt s w channel prdt_phys in
  let! (s, count) := prd_loop PRD_FUEL s data size 0 0 in
  let! s := mark_last s (count - 1) in
  let! w := ide_write s w channel IDE_REG_BUS_COM (if is_some data then Z.shiftl 1 3 else 0) in
  let! w := ide_write s w channel IDE_REG_BUS_COM 1 in
  Ret (s, w).

Definition ide_read_disk_buffer (s : ide) (offset size : Z) : outcome (list Z) := slice (ide_mem_buffer s) offset size.

(** [while (~ide_read(channel, IDE_REG_STATUS) & (1 << 6));] *)
Fixpoint ready_loop (fuel : nat) (s : ide) (w : W) (channel : Z) : outcome W :=
  match fuel with
  | O => NoFuel
  | S fuel =>
      let! (st, w) := ide_read s w channel IDE_REG_STATUS in
      if Z.testbit st 6 then Ret w else ready_loop fuel s w channel
  end.

Definition ide_set_device (fuel : nat) (s : ide) (w : W) (d : ide_device_t) (lba sectors : Z) : outcome W :=
  let head := if 0x10000000 <? lba then 0 else Z.land (Z.shiftr lba 24) 0xF in
  let ch := dv_channel d in
  let! w := ide_write s w ch IDE_REG_HDDEVSEL (Z.lor (Z.lor 0xE0 (Z.shiftl (dv_drive d) 4)) head) in
  let! w := ide_write s w ch IDE_REG_FEATURES 0 in
  let! w := ready_loop fuel s w ch in
  let! w := ide_write s w ch IDE_REG_SECCOUNT1 0 in
  let! w := ide_write s w ch IDE_REG_LBA3
    (if 0x10000000 <? lba then b2z (negb (Z.shiftr lba 24 =? 0)) else 0) in
  let! w := ide_write s w ch IDE_REG_LBA4 0 in
  let! w := ide_write s w ch IDE_REG_LBA5 0 in
  let! w := ide_write s w ch IDE_REG_SECCOUNT0 sectors in
  let! w := ide_write s w ch IDE_REG_LBA0 (Z.land lba 0xFF) in
  let! w := ide_write s w ch IDE_REG_LBA1 (Z.land (Z.shiftr lba 8) 0xFF) in
  ide_write s w ch IDE_REG_LBA2 (Z.land (Z.shiftr lba 16) 0xFF).

(** Up to [task_block]; [task] is the current task. *)
Definition ide_access_disk (fuel : nat) (s : ide) (w : W) (task device_idx : Z) (data : option (list Z)) (lba size : Z) :
    outcome (ide * W) :=
  if size =? 0 then Ret (s, w)
  else
    let! d := lget (ide_devices s) device_idx in
    let s := with_req s (device_idx, task) in
    let! (s, w) := ide_fill_prd_table s w (dv_channel d) data size in
    let! w := ready_loop fuel s w (dv_channel d) in
    let! w := ide_set_device fuel s w d lba ((size - 1) / 512 + 1) in
    let! w := ide_write s w (dv_channel d) IDE_REG_BUS_STAT 1 in
    let! w := ide_write s w (dv_channel d) IDE_REG_CONTROL 0 in
    let command :=
      if is_some data then if 0x10000000 <? lba then IDE_CMD_WRITE_DMA_EXT else IDE_CMD_WRITE_DMA
      else if 0x10000000 <? lba then IDE_CMD_READ_DMA_EXT else IDE_CMD_READ_DMA in
    let! w := ide_write s w (dv_channel d) IDE_REG_COMMAND command in
    Ret (s, w).

Definition ide_write_disk (fuel : nat) (s : ide) (w : W) (task device_idx : Z) (buffer : list Z) (addr size : Z) :
    outcome (ide * W) :=
  ide_access_disk fuel s w task device_idx (Some buffer) (addr / 512) size.
Definition ide_read_disk (fuel : nat) (s : ide) (w : W) (task device_idx addr size : Z) : outcome (ide * W) :=
  ide_access_disk fuel s w task device_idx None (addr / 512) size.

(** ** The interrupt *)

(** The result is the task to wake up. *)
Definition ide_handler (s : ide) (a : apic) (w : W) : outcome (option Z * W) :=
  let! d := lget (ide_devices s) (disk_req s).1 in
  let! (bus_stat, w) := ide_read s w (dv_channel d) IDE_REG_BUS_STAT in
  let! (reg_stat, w) := ide_read s w (dv_channel d) IDE_REG_STATUS in
  let! w := ide_write s w (dv_channel d) IDE_REG_BUS_STAT (Z.shiftl 1 2) in
  if negb (Z.testbit bus_stat 2) then Ret (None, lapic_sendEOI a w)
  else
    let! w := ide_write s w (dv_channel d) IDE_REG_BUS_COM 0 in
    Ret (Some (disk_req s).2, lapic_sendEOI a w).

(** ** The start *)

(** [handler] is the address of [ide_handler]. *)
Definition ide_setup_int (s : ide) (a : apic) (idt : list idt_entry_t) (w : W) (channel irq handler : Z) :
    outcome (apic * list idt_entry_t * W) :=
  let! w := ide_write s w channel IDE_REG_CONTROL 0 in
  let! (a, w) := ioapic_legacy_irq_activate a w irq in
  let! idt := idt_set idt (IRQ_OFFSET + irq) handler (Z.lor IDT_PRESENT IDT_32B_INT) in
  Ret (a, idt, w).

Definition ide_reset (s : ide) (w : W) : outcome W :=
  let! w := ide_write s w 0 IDE_REG_CONTROL (Z.shiftl 1 2) in
  ide_write s w 0 IDE_REG_CONTROL 0.

Definition ide_init (fuel : nat) (s : ide) (a : apic) (idt : list idt_entry_t) (w : W) (handler : Z) :
    outcome (ide * apic * list idt_entry_t * W) :=
  if is_ide_set s =? 0 then Ret (s, a, idt, w)
  else
    let! (s, w) := ide_detect_drive fuel s w 0 0 in
    let! (s, w) := ide_detect_drive fuel s w 0 1 in
    let! (s, w) := ide_detect_drive fuel s w 1 0 in
    let! (s, w) := ide_detect_drive fuel s w 1 1 in
    let! (a, idt, w) := ide_setup_int s a idt w 0 14 handler in
    let! (a, idt, w) := ide_setup_int s a idt w 1 15 handler in
    let! w := ide_reset s w in
    Ret (s, a, idt, w).
End Ide.

(** ** The table of regions *)

(** The regions the controller reads: up to the entry that is marked as last. *)
Fixpoint regions (l : list prd_entry_t) : list (Z * Z) :=
  match l with
  | [] => []
  | e :: l => (phys_addr e, byte_count e) :: if Z.testbit (prd_reserved e) 15 then [] else regions l
  end.

(** The size of a region, and the sizes of transfers that fit: a part of a KiB,
    or whole KiBs, within the buffer. *)
Definition region_size (size : Z) : Z := if 1024 <? size then 1024 else size.
Definition fits (size : Z) (n : nat) : Prop :=
  0 < size /\ size = region_size size * Z.of_nat n /\ (0 < n <= 4)%nat.

(** A table and a buffer of the sizes that are reserved for them. *)
Definition mem_ok (s : ide) : Prop :=
  length (prd_table s) = Z.to_nat PRD_ENTRIES /\ length (ide_mem_buffer s) = Z.to_nat MEM_BUFFER_SIZE.

Section Prd.
Context (buf_phys : Z).
Definition prd_of (size : Z) (k : nat) : prd_entry_t :=
  mk_prd (u32 (buf_phys + 1024 * Z.of_nat k)) (region_size size) 0.

(** What the first [k] rounds leave. *)
Record filled (s : ide) (data : option (list Z)) (size : Z) (k : nat) (s' : ide) : Prop := {
  fl_prd : prd_table s' = map (prd_of size) (seq 0 k) ++ drop k (prd_table s);
  fl_buf : match data with
    | Some d => take (k * Z.to_nat (region_size size)) (ide_mem_buffer s') = take (k * Z.to_nat (region_size size)) d /\
        length (ide_mem_buffer s') = length (ide_mem_buffer s)
    | None => ide_mem_buffer s' = ide_mem_buffer s end;
  fl_rest : channels s' = channels s /\ ide_devices s' = ide_devices s /\ disk_req s' = disk_req s;
}.

Lemma fits_bounds (size : Z) (n : nat) : fits size n ->
  0 < region_size size <= 1024 /\ (n = 1%nat \/ region_size size = 1024) /\ size <= 4096.
Proof.
  intros (H0 & Hs & Hn). unfold region_size in *. destruct (Z.ltb_spec 1024 size); split_and!; try lia.
  left. nia.
Qed.

Lemma set_entry_ok (s : ide) (data : option (list Z)) (size : Z) (n k : nat) (s1 : ide) :
  mem_ok s -> fits size n -> (k < n)%nat -> filled s data size k s1 ->
  exists s2, ide_set_prd_entry buf_phys s1 (Z.of_nat k) (region_size size) = Ret s2 /\
    prd_table s2 = map (prd_of size) (seq 0 (S k)) ++ drop (S k) (prd_table s) /\
    ide_mem_buffer s2 = ide_mem_buffer s1 /\ channels s2 = channels s1 /\ ide_devices s2 = ide_devices s1 /\
    disk_req s2 = disk_req s1.
Proof.
  intros [Hp _] Hf Hk [Ht _ _]. destruct (fits_bounds _ _ Hf) as (Hr & _ & _). destruct Hf as (_ & _ & Hn).
  unfold PRD_ENTRIES in Hp. unfold ide_set_prd_entry.
  assert (Hl : length (prd_table s1) = 128%nat).
  { rewrite Ht, length_app, length_map, length_seq, length_drop. lia. }
  rewrite lset_Ret by lia. cbn [obind]. eexists. split; [done|]. cbn [with_prd prd_table ide_mem_buffer channels ide_devices disk_req].
  split_and!; try done. rewrite Nat2Z.id, Ht.
  rewrite insert_app_r_alt by (rewrite length_map, length_seq; done). rewrite length_map, length_seq, Nat.sub_diag.
  destruct (lookup_lt_is_Some_2 (prd_table s) k) as [e He]; [lia|]. rewrite (drop_S _ e k He).
  rewrite seq_S, map_app, <- app_assoc. cbn [app map Nat.add]. do 2 f_equal. unfold prd_of.
  destruct (Z.eqb_spec (region_size size) 65536); [lia|]. unfold u16. rewrite wrap_small by lia. done.
Qed.

Lemma copy_ok (s1 : ide) (d : list Z) (size : Z) (n k : nat) :
  fits size n -> (k < n)%nat -> Z.of_nat (length d) = size -> length (ide_mem_buffer s1) = 4096%nat ->
  take (k * Z.to_nat (region_size size)) (ide_mem_buffer s1) = take (k * Z.to_nat (region_size size)) d ->
  exists b m, slice d (Z.of_nat k * region_size size) (region_size size) = Ret b /\
    splice (ide_mem_buffer s1) (1024 * Z.of_nat k) b = Ret m /\
    take (S k * Z.to_nat (region_size size)) m = take (S k * Z.to_nat (region_size size)) d /\ length m = 4096%nat.
Proof.
  intros Hf Hk Hd Hb Ht. destruct (fits_bounds _ _ Hf) as (Hr & Hn & Hs). destruct Hf as (H0 & Hsz & Hn4).
  set (r := region_size size) in *. set (q := (k * Z.to_nat r)%nat) in *.
  assert (Hoff : Z.of_nat k * r = Z.of_nat q /\ 1024 * Z.of_nat k = Z.of_nat q) by (unfold q; destruct Hn; nia).
  destruct Hoff as [-> ->].
  assert (Hq : Z.of_nat q + r <= size) by (unfold q; nia).
  rewrite slice_Ret by lia. eexists _, _. split; [done|].
  assert (Lb : length (take (Z.to_nat r) (drop (Z.to_nat (Z.of_nat q)) d)) = Z.to_nat r).
  { rewrite length_take, length_drop. lia. }
  rewrite splice_Ret by (rewrite ?Lb; lia). split; [done|]. rewrite Nat2Z.id in *. rewrite Lb.
  assert (Lq : length (take q (ide_mem_buffer s1)) = q) by (rewrite length_take; lia).
  replace (S k * Z.to_nat r)%nat with (q + Z.to_nat r)%nat by (unfold q; lia). split.
  - rewrite app_assoc, take_app_le by (rewrite length_app, Lq, Lb; lia).
    rewrite take_ge by (rewrite length_app, Lq, Lb; lia). rewrite Ht, take_take_drop. done.
  - rewrite !length_app, Lq, Lb, length_drop. lia.
Qed.

Lemma prd_loop_ok (m : nat) (s : ide) (data : option (list Z)) (size : Z) (n k fuel : nat) (s1 : ide) :
  mem_ok s -> fits size n -> (forall d, data = Some d -> Z.of_nat (length d) = size) -> (k + m = n)%nat -> (m < fuel)%nat ->
  filled s data size k s1 ->
  exists s', prd_loop buf_phys fuel s1 data size (Z.of_nat k) (Z.of_nat k * region_size size) = Ret (s', Z.of_nat n) /\
    filled s data size n s'.
Proof.
  intros Hm Hf Hd. pose proof (fits_bounds _ _ Hf) as (Hr & _ & Hs4). pose proof Hf as (H0 & Hsz & Hn4).
  revert k fuel s1. induction m as [|m IH]; intros k fuel s1 Hk Hfu Hs1; (destruct fuel as [|fuel]; [lia|]); cbn [prd_loop].
  - assert (k = n) as -> by lia. rewrite Z.mul_comm, <- Hsz, Z.sub_diag. cbn. by exists s1.
  - rewrite u32_small by nia. destruct (Z.eqb_spec (size - Z.of_nat k * region_size size) 0); [nia|].
    fold (region_size size). destruct (set_entry_ok s data size n k s1 Hm Hf ltac:(lia) Hs1) as (s2 & -> & P2 & B2 & C2 & D2 & R2).
    cbn [obind]. replace (Z.of_nat k + 1) with (Z.of_nat (S k)) by lia.
    replace (u32 (Z.of_nat k * region_size size + region_size size)) with (Z.of_nat (S k) * region_size size)
      by (rewrite u32_small; nia).
    destruct Hs1 as [_ Hbuf (C1 & D1 & R1)]. destruct data as [d|].
    + destruct Hbuf as [Ht Hlen]. destruct Hm as [Hm1 Hm2]. unfold MEM_BUFFER_SIZE in Hm2.
      destruct (copy_ok s2 d size n k Hf ltac:(lia) (Hd d eq_refl) ltac:(rewrite B2; lia) ltac:(by rewrite B2)) as (b & mm & -> & E & Hmm & Lm).
      cbn [obind]. rewrite E. cbn [obind]. apply IH; [lia|lia|]. split; cbn; [done|split; [done|lia]|by rewrite C2, D2, R2].
    + cbn [obind]. apply IH; [lia|lia|]. split; [done|by rewrite B2|by rewrite C2, D2, R2].
Qed.

Lemma regions_marked (size : Z) (k n : nat) (e : prd_entry_t) (l : list prd_entry_t) :
  Z.testbit (prd_reserved e) 15 = true ->
  regions (map (prd_of size) (seq k n) ++ e :: l) =
    map (fun i => (u32 (buf_phys + 1024 * Z.of_nat i), region_size size)) (seq k n) ++ [(phys_addr e, byte_count e)].
Proof. intros He. revert k. induction n as [|n IH]; intros k; cbn [regions map app seq]; [by rewrite He|]. by rewrite IH. Qed.

Lemma filled_mem (s : ide) (data : option (list Z)) (size : Z) (n : nat) (s' : ide) :
  mem_ok s -> fits size n -> filled s data size n s' -> mem_ok s'.
Proof.
  intros [H1 H2] (_ & _ & Hn) [Hp Hb _]. split.
  - rewrite Hp, length_app, length_map, length_seq, length_drop, H1. unfold PRD_ENTRIES. lia.
  - destruct data; [destruct Hb|]; congruence.
Qed.

Lemma mark_last_ok (s : ide) (data : option (list Z)) (size : Z) (n : nat) (s1 : ide) :
  fits size n -> filled s data size n s1 ->
  exists s2, mark_last s1 (Z.of_nat n - 1) = Ret s2 /\
    regions (prd_table s2) = map (fun i => (u32 (buf_phys + 1024 * Z.of_nat i), region_size size)) (seq 0 n) /\
    ide_mem_buffer s2 = ide_mem_buffer s1 /\ channels s2 = channels s1 /\ ide_devices s2 = ide_devices s1 /\
    disk_req s2 = disk_req s1 /\ length (prd_table s2) = length (prd_table s1).
Proof.
  intros (_ & _ & Hn) [Ht _ _]. destruct n as [|k]; [lia|]. replace (Z.of_nat (S k) - 1) with (Z.of_nat k) by lia.
  rewrite seq_S, map_app, <- app_assoc in Ht. cbn [map app Nat.add] in Ht. set (l := drop (S k) (prd_table s)) in *.
  assert (Lk : length (map (prd_of size) (seq 0 k)) = k) by (by rewrite length_map, length_seq).
  unfold mark_last.
  assert (Eg : lget (prd_table s1) (Z.of_nat k) = Ret (prd_of size k)).
  { apply lget_Ret. split; [lia|]. rewrite Nat2Z.id, Ht, lookup_app_r, Lk, Nat.sub_diag by lia. done. }
  rewrite Eg. cbn [obind]. rewrite lset_Ret by (rewrite Ht, length_app, Lk; cbn; lia). cbn [obind].
  eexists. split; [done|]. cbn [with_prd prd_table ide_mem_buffer channels ide_devices disk_req].
  split_and!; try done; [|apply length_insert].
  rewrite Nat2Z.id, Ht, insert_app_r_alt, Lk, Nat.sub_diag by lia. cbn [insert list_insert].
  rewrite regions_marked by done. by rewrite seq_S, map_app.
Qed.

(** A size above a KiB that is not a whole number of KiBs: the rounds pass the
    end of the transfer and go on to the end of the table. *)
Theorem prd_loop_overruns (s : ide) (size : Z) :
  length (prd_table s) = Z.to_nat PRD_ENTRIES -> 1024 < size < 2 ^ 32 -> size mod 1024 <> 0 ->
  prd_loop buf_phys PRD_FUEL s None size 0 0 = Undef.
Proof.
  intros Hl Hs Hm. unfold PRD_ENTRIES in Hl.
  assert (H : forall m k fuel s, (k + m = 128)%nat -> (m < fuel)%nat -> length (prd_table s) = 128%nat ->
    prd_loop buf_phys fuel s None size (Z.of_nat k) (1024 * Z.of_nat k) = Undef);
    [|exact (H 128%nat 0%nat PRD_FUEL s eq_refl ltac:(unfold PRD_FUEL; lia) Hl)].
  clear s Hl. induction m as [|m IH]; intros k fuel s Hk Hf Hl; (destruct fuel as [|fuel]; [lia|]); cbn [prd_loop];
    (destruct (Z.eqb_spec (u32 (size - 1024 * Z.of_nat k)) 0) as [E|_];
      [exfalso; unfold u32, wrap in E; Z.div_mod_to_equations; lia|]);
    (destruct (Z.ltb_spec 1024 size); [|lia]); unfold ide_set_prd_entry.
  - assert (lset (prd_table s) (Z.of_nat k) (mk_prd (u32 (buf_phys + 1024 * Z.of_nat k)) (u16 1024) 0) = Undef) as E.
    { unfold lset. destruct (Z.ltb_spec (Z.of_nat k) (Z.of_nat (length (prd_table s)))); [lia|]. by rewrite andb_false_r. }
    cbn [Z.eqb Pos.eqb]. by rewrite E.
  - rewrite lset_Ret by lia. cbn [obind]. replace (Z.of_nat k + 1) with (Z.of_nat (S k)) by lia.
    rewrite (u32_small (1024 * Z.of_nat k + 1024)) by lia. replace (1024 * Z.of_nat k + 1024) with (1024 * Z.of_nat (S k)) by lia.
    apply IH; [lia|lia|]. cbn. by rewrite length_insert.
Qed.
End Prd.

(** ** The registers *)

(** The registers of the controller as latches: what was written last stays
    until the command runs.  [at_wait] bounds the polls until the drive is
    ready. *)
Class AtaLaws (W : Type) `{!PortIO W} := {
  at_reg : W -> Z -> Z;
  at_wait : W -> nat;
  at_max : nat;
  at_wait_max w : (at_wait w <= at_max)%nat;
  at_out w v p q : at_reg (outb w v p) q = if q =? p then v else at_reg w q;
  at_outl w v p q : at_reg (outl w v p) q = if q =? p then v else at_reg w q;
  at_in w p : exists v w', inb w p = (v, w') /\ (forall q, at_reg w' q = at_reg w q) /\
    (Z.testbit v 6 = true \/ (S (at_wait w') <= at_wait w)%nat);
}.

(** The writes of a piece of code, in order. *)
Definition upd (f : Z -> Z) (pv : Z * Z) : Z -> Z := fun q => if q =? pv.1 then pv.2 else f q.
Definition writes {W} `{!PortIO W} `{!AtaLaws W} (w w' : W) (l : list (Z * Z)) : Prop :=
  forall q, at_reg w' q = foldl upd (at_reg w) l q.

(** The ports of a channel do not overlap and have sixteen bits. *)
Definition ports_ok (ch : ide_channel_t) : Prop :=
  0 <= c_addr ch /\ c_addr ch + 8 <= c_ctrl_addr ch /\ c_ctrl_addr ch < c_bus_master_addr ch /\
  c_bus_master_addr ch + 8 <= 2 ^ 16.

Lemma ide_port_small (ch : ide_channel_t) (reg : Z) :
  ports_ok ch -> 0 <= reg <= IDE_REG_BUS_STAT -> u16 (ide_port ch reg) = ide_port ch reg.
Proof.
  intros (H1 & H2 & H3 & H4) Hr. unfold IDE_REG_BUS_STAT in Hr. apply wrap_small. unfold ide_port, IDE_REG_BUS_COM, IDE_REG_LBA5, IDE_REG_SECCOUNT1.
  destruct (Z.leb_spec 0xE reg); [lia|]. destruct (Z.leb_spec reg 0xB); [|lia]. destruct (Z.leb_spec 8 reg); lia.
Qed.

Section Regs.
Context {W : Type} `{!PortIO W} {laws : AtaLaws W}.

Lemma foldl_upd_ext (l : list (Z * Z)) (f g : Z -> Z) : (forall q, f q = g q) -> forall q, foldl upd f l q = foldl upd g l q.
Proof.
  revert f g. induction l as [|[p v] l IH]; intros f g H q; [apply H|]. cbn. apply IH. intros x. unfold upd. cbn. by rewrite H.
Qed.

Lemma writes_nil (w w' : W) : (forall q, at_reg w' q = at_reg w q) -> writes w w' [].
Proof. done. Qed.
Lemma writes_trans (w1 w2 w3 : W) (l1 l2 : list (Z * Z)) : writes w1 w2 l1 -> writes w2 w3 l2 -> writes w1 w3 (l1 ++ l2).
Proof. intros H1 H2 q. rewrite H2, foldl_app. by apply foldl_upd_ext. Qed.

Section Channel.
Context (s : ide) (channel : Z) (ch : ide_channel_t) (Hch : lget (channels s) channel = Ret ch) (Hp : ports_ok ch).

Lemma ide_write_ok (w : W) (reg v : Z) : 0 <= reg <= IDE_REG_BUS_STAT ->
  exists w', ide_write s w channel reg v = Ret w' /\ writes w w' [(ide_port ch reg, u8 v)].
Proof using Hch Hp.
  intros Hr. unfold ide_write. rewrite Hch. cbn [obind]. rewrite ide_port_small by done. eexists. split; [done|].
  intros q. by rewrite at_out.
Qed.

Lemma ready_ok (fuel : nat) (w : W) : (at_max < fuel)%nat -> exists w', ready_loop fuel s w channel = Ret w' /\ writes w w' [].
Proof using Hch.
  intros Hf. assert (Hw : (at_wait w < fuel)%nat) by (pose proof (at_wait_max w); lia). clear Hf. revert w Hw.
  induction fuel as [|fuel IH]; intros w Hw; [lia|]. cbn [ready_loop]. unfold ide_read. rewrite Hch. cbn [obind].
  destruct (at_in w (u16 (ide_port ch IDE_REG_STATUS))) as (v & w1 & -> & E1 & Hv).
  destruct (Z.testbit v 6) eqn:Ev; [exists w1; split; [done|exact E1]|]. destruct Hv as [|Hv]; [done|].
  destruct (IH w1) as (w2 & -> & E2); [lia|]. exists w2. split; [done|]. intros q. rewrite E2. apply E1.
Qed.
End Channel.

End Regs.

(** A write to a register of the channel. *)
Ltac ide_step Hch w' H :=
  match goal with
  | |- context [ide_write ?s ?w ?c ?r ?v] =>
      destruct (ide_write_ok s c _ Hch ltac:(done) w r v ltac:(done)) as (w' & -> & H); cbn [obind]
  end.

Section Programs.
Context {W : Type} `{!PortIO W} {laws : AtaLaws W}.

(** The writes of [ide_set_device] for an address of 28 bits. *)
Definition device_writes (ch : ide_channel_t) (drive lba sectors : Z) : list (Z * Z) :=
  [(c_addr ch + 6, u8 (Z.lor (Z.lor 0xE0 (Z.shiftl drive 4)) (Z.land (Z.shiftr lba 24) 0xF))); (c_addr ch + 1, 0);
   (c_addr ch + 2, 0); (c_addr ch + 3, 0); (c_addr ch + 4, 0); (c_addr ch + 5, 0); (c_addr ch + 2, u8 sectors);
   (c_addr ch + 3, u8 (Z.land lba 0xFF)); (c_addr ch + 4, u8 (Z.land (Z.shiftr lba 8) 0xFF));
   (c_addr ch + 5, u8 (Z.land (Z.shiftr lba 16) 0xFF))].

Lemma set_device_ok (fuel : nat) (s : ide) (w : W) (d : ide_device_t) (ch : ide_channel_t) (lba sectors : Z) :
  (at_max < fuel)%nat -> lget (channels s) (dv_channel d) = Ret ch -> ports_ok ch -> lba <= 0x10000000 ->
  exists w', ide_set_device fuel s w d lba sectors = Ret w' /\ writes w w' (device_writes ch (dv_drive d) lba sectors).
Proof.
  intros Hf Hch Hp Hl. unfold ide_set_device. destruct (Z.ltb_spec 0x10000000 lba); [lia|].
  ide_step Hch w1 H1. ide_step Hch w2 H2. destruct (ready_ok s _ _ Hch fuel w2 Hf) as (w3 & -> & H3). cbn [obind].
  ide_step Hch w4 H4. ide_step Hch w5 H5. ide_step Hch w6 H6. ide_step Hch w7 H7. ide_step Hch w8 H8.
  ide_step Hch w9 H9. ide_step Hch w10 H10. ide_step Hch w11 H11.
  exists w11. split; [done|].
  exact (writes_trans _ _ _ _ _ H1 (writes_trans _ _ _ _ _ H2 (writes_trans _ _ _ _ _ H3 (writes_trans _ _ _ _ _ H4
    (writes_trans _ _ _ _ _ H5 (writes_trans _ _ _ _ _ H6 (writes_trans _ _ _ _ _ H7 (writes_trans _ _ _ _ _ H8
    (writes_trans _ _ _ _ _ H9 (writes_trans _ _ _ _ _ H10 H11)))))))))).
Qed.

(** What the controller has been told: the drive, the sector, the number of
    sectors and the command. *)
Record told := mk_told { t_drive : Z; t_lba : Z; t_sectors : Z; t_command : Z; t_prdt : Z; t_started : Z }.
Definition told_of (w : W) (ch : ide_channel_t) : told :=
  let r k := at_reg w (c_addr ch + k) in
  mk_told (Z.land (Z.shiftr (r 6) 4) 1)
    (Z.land (r 6) 0xF * 2 ^ 24 + r 5 * 2 ^ 16 + r 4 * 2 ^ 8 + r 3) (r 2) (r 7)
    (at_reg w (c_bus_master_addr ch + 4)) (at_reg w (c_bus_master_addr ch)).

Lemma head_bits (drive head : Z) : drive = 0 \/ drive = 1 -> 0 <= head < 16 ->
  let v := u8 (Z.lor (Z.lor 0xE0 (Z.shiftl drive 4)) head) in Z.land (Z.shiftr v 4) 1 = drive /\ Z.land v 0xF = head.
Proof.
  intros Hd Hh v. assert (Hb : forall f, forallb (fun k => f (Z.of_nat k)) (seq 0 16) = true -> f head = true)
    by (intros f Hf; by apply (below_all 16 f)).
  split; apply Z.eqb_eq; unfold v; destruct Hd as [-> | ->].
  - by apply (Hb (fun head => Z.land (Z.shiftr (u8 (Z.lor (Z.lor 0xE0 (Z.shiftl 0 4)) head)) 4) 1 =? 0)).
  - by apply (Hb (fun head => Z.land (Z.shiftr (u8 (Z.lor (Z.lor 0xE0 (Z.shiftl 1 4)) head)) 4) 1 =? 1)).
  - by apply (Hb (fun head => Z.land (u8 (Z.lor (Z.lor 0xE0 (Z.shiftl 0 4)) head)) 0xF =? head)).
  - by apply (Hb (fun head => Z.land (u8 (Z.lor (Z.lor 0xE0 (Z.shiftl 1 4)) head)) 0xF =? head)).
Qed.

Lemma lba_parts (lba : Z) : 0 <= lba < 2 ^ 28 ->
  Z.land (Z.shiftr lba 24) 0xF * 2 ^ 24 + u8 (Z.land (Z.shiftr lba 16) 0xFF) * 2 ^ 16 +
    u8 (Z.land (Z.shiftr lba 8) 0xFF) * 2 ^ 8 + u8 (Z.land lba 0xFF) = lba /\ 0 <= Z.land (Z.shiftr lba 24) 0xF < 16.
Proof.
  intros Hl. change 0xFF with (2 ^ 8 - 1). change 0xF with (2 ^ 4 - 1). rewrite !land_mod by lia.
  unfold u8, wrap. rewrite !Zmod_mod, !Z.shiftr_div_pow2 by lia. split; Z.div_mod_to_equations; lia.
Qed.

(** The value of a register behind a list of writes to ports that are told apart
    by arithmetic. *)
Ltac eval_reg :=
  cbn [foldl]; unfold upd; cbn [fst snd];
  repeat match goal with
  | |- context [?x =? ?y] =>
      first [rewrite (proj2 (Z.eqb_neq x y)) by lia | rewrite (proj2 (Z.eqb_eq x y)) by lia]; cbn [andb orb negb]
  end.

Lemma told_ok (w w' : W) (ch : ide_channel_t) (drive lba sectors prdt dir command : Z) :
  ports_ok ch -> drive = 0 \/ drive = 1 -> 0 <= lba < 2 ^ 28 -> 0 < sectors < 256 -> 0 <= command < 256 ->
  writes w w' ([(c_bus_master_addr ch + 4, prdt); (c_bus_master_addr ch, dir); (c_bus_master_addr ch, 1)] ++
    device_writes ch drive lba sectors ++
    [(c_bus_master_addr ch + 2, 1); (c_ctrl_addr ch, 0); (c_addr ch + 7, command)]) ->
  told_of w' ch = mk_told drive lba sectors command prdt 1.
Proof.
  intros (Hp0 & Hp1 & Hp2 & Hp3) Hd Hl Hs Hc Hw. unfold told_of. cbn [app device_writes] in Hw.
  destruct (lba_parts lba Hl) as [El Hh]. destruct (head_bits drive _ Hd Hh) as [Ed Eh].
  rewrite !Hw. cbn [foldl]. unfold upd. cbn [fst snd].
  f_equal; eval_reg; try done.
  - rewrite Eh. done.
  - apply u8_small. lia.
Qed.
End Programs.

Section Access.
Context {W : Type} `{!PortIO W} {laws : AtaLaws W} (prdt_phys buf_phys : Z).

Lemma fill_ok (s : ide) (w : W) (channel : Z) (ch : ide_channel_t) (data : option (list Z)) (size : Z) (n : nat) :
  lget (channels s) channel = Ret ch -> ports_ok ch -> mem_ok s -> fits size n -> (forall d, data = Some d -> Z.of_nat (length d) = size) ->
  exists s' w', ide_fill_prd_table prdt_phys buf_phys s w channel data size = Ret (s', w') /\
    regions (prd_table s') = map (fun i => (u32 (buf_phys + 1024 * Z.of_nat i), region_size size)) (seq 0 n) /\
    (forall d, data = Some d -> take (Z.to_nat size) (ide_mem_buffer s') = d) /\
    channels s' = channels s /\ ide_devices s' = ide_devices s /\ disk_req s' = disk_req s /\ mem_ok s' /\
    writes w w' [(c_bus_master_addr ch + 4, prdt_phys); (c_bus_master_addr ch, u8 (if is_some data then Z.shiftl 1 3 else 0));
      (c_bus_master_addr ch, 1)].
Proof.
  intros Hch Hp Hm Hf Hd. unfold ide_fill_prd_table, ide_set_prdt. rewrite Hch. cbn [obind].
  replace (u16 (c_bus_master_addr ch + 4)) with (c_bus_master_addr ch + 4) by (symmetry; apply wrap_small; destruct Hp; lia).
  set (w1 := outl w prdt_phys (c_bus_master_addr ch + 4)).
  assert (H1 : writes w w1 [(c_bus_master_addr ch + 4, prdt_phys)]) by (intros q; unfold w1; by rewrite at_outl).
  destruct (prd_loop_ok buf_phys n s data size n 0 PRD_FUEL s Hm Hf Hd) as (s1 & E1 & Hs1);
    [lia|unfold PRD_FUEL; destruct Hf; lia|split; [by rewrite drop_0|by destruct data|done]|].
  change (Z.of_nat 0) with 0 in E1. rewrite Z.mul_0_l in E1. rewrite E1. cbn [obind].
  destruct (mark_last_ok buf_phys s data size n s1 Hf Hs1) as (s2 & -> & Hr & Hb2 & C2 & D2 & R2 & L2). cbn [obind].
  pose proof (filled_mem _ _ _ _ _ _ Hm Hf Hs1) as [Hm1 Hm2]. destruct Hs1 as [_ Hbuf (C1 & D1 & R1)].
  assert (Hch2 : lget (channels s2) channel = Ret ch) by (by rewrite C2, C1).
  ide_step Hch2 w2 H2. ide_step Hch2 w3 H3. exists s2, w3. split; [done|]. split; [done|]. split.
  { intros d ->. destruct Hbuf as [Ht _]. pose proof Hf as (H0 & Hsz & Hn). rewrite Hb2.
    replace (Z.to_nat size) with (n * Z.to_nat (region_size size))%nat by (rewrite Hsz at 2; destruct (fits_bounds _ _ Hf); lia).
    rewrite Ht, take_ge; [done|]. specialize (Hd d eq_refl). destruct (fits_bounds _ _ Hf). lia. }
  rewrite C2, C1, D2, D1, R2, R1. split_and!; try done; [split; congruence|].
  replace (ide_port ch IDE_REG_BUS_COM) with (c_bus_master_addr ch) in H2, H3 by (symmetry; exact (Z.add_0_r _)).
  exact (writes_trans _ _ _ _ _ H1 (writes_trans _ _ _ _ _ H2 H3)).
Qed.

Lemma access_ok (fuel : nat) (s : ide) (w : W) (task idx addr size : Z) (data : option (list Z))
    (d : ide_device_t) (ch : ide_channel_t) (n : nat) :
  (at_max < fuel)%nat -> lget (ide_devices s) idx = Ret d -> lget (channels s) (dv_channel d) = Ret ch -> ports_ok ch ->
  dv_drive d = 0 \/ dv_drive d = 1 -> mem_ok s -> fits size n -> 0 <= addr < 2 ^ 32 ->
  (forall l, data = Some l -> Z.of_nat (length l) = size) ->
  exists s' w', ide_access_disk prdt_phys buf_phys fuel s w task idx data (addr / 512) size = Ret (s', w') /\
    channels s' = channels s /\ ide_devices s' = ide_devices s /\ mem_ok s' /\
    told_of w' ch = mk_told (dv_drive d) (addr / 512) ((size - 1) / 512 + 1)
      (if is_some data then IDE_CMD_WRITE_DMA else IDE_CMD_READ_DMA) prdt_phys 1 /\
    regions (prd_table s') = map (fun i => (u32 (buf_phys + 1024 * Z.of_nat i), region_size size)) (seq 0 n) /\
    region_size size * Z.of_nat n = size /\ size <= MEM_BUFFER_SIZE /\
    (forall l, data = Some l -> take (Z.to_nat size) (ide_mem_buffer s') = l) /\ disk_req s' = (idx, task).
Proof.
  intros Hfu Hd Hch Hp Hdr Hm Hf Ha Hl. pose proof (fits_bounds _ _ Hf) as (Hr & _ & Hs4). pose proof Hf as (H0 & Hsz & _).
  unfold ide_access_disk. destruct (Z.eqb_spec size 0); [lia|]. rewrite Hd. cbn [obind].
  set (s0 := with_req s (idx, task)).
  destruct (fill_ok s0 w (dv_channel d) ch data size n Hch Hp Hm Hf Hl) as (s1 & w1 & -> & Hreg & Hdat & C1 & D1 & R1 & M1 & W1).
  cbn [obind]. assert (Hch1 : lget (channels s1) (dv_channel d) = Ret ch) by (by rewrite C1).
  destruct (ready_ok s1 _ _ Hch1 fuel w1 Hfu) as (w2 & -> & W2). cbn [obind].
  assert (Hlba : 0 <= addr / 512 < 2 ^ 23) by (Z.div_mod_to_equations; lia).
  destruct (set_device_ok fuel s1 w2 d ch (addr / 512) ((size - 1) / 512 + 1) Hfu Hch1 Hp) as (w3 & -> & W3); [lia|]. cbn [obind].
  ide_step Hch1 w4 W4. ide_step Hch1 w5 W5. destruct (Z.ltb_spec 0x10000000 (addr / 512)); [lia|].
  ide_step Hch1 w6 W6. exists s1, w6. do 4 (split; [done|]). split; [|split_and!; try done; by rewrite R1].
  assert (Hn : 0 < (size - 1) / 512 + 1 < 256) by (Z.div_mod_to_equations; lia).
  apply (told_ok w w6 ch _ _ _ _ (u8 (if is_some data then Z.shiftl 1 3 else 0))); try done; [lia|by destruct (is_some data)|].
  pose proof (writes_trans _ _ _ _ _ W1 (writes_trans _ _ _ _ _ W2 (writes_trans _ _ _ _ _ W3 (writes_trans _ _ _ _ _ W4
    (writes_trans _ _ _ _ _ W5 W6))))) as HW. cbn [app] in HW.
  replace (ide_port ch IDE_REG_CONTROL) with (c_ctrl_addr ch) in HW by (symmetry; exact (Z.add_0_r _)).
  destruct (is_some data); exact HW.
Qed.

(** C23: A transfer of up to 4 KiB, a part of a KiB or whole KiBs: the driver ends
    with the controller told the drive, the sector of the address, the number
    of sectors, the command and the table; the regions of the table are the
    consecutive KiBs of the buffer and add up to the size, none leaves the
    buffer, and for a write the buffer holds the data. *)
Theorem ide_access_programs (fuel : nat) (s : ide) (w : W) (task idx addr size : Z) (data : option (list Z))
    (d : ide_device_t) (ch : ide_channel_t) (n : nat) :
  (at_max < fuel)%nat -> lget (ide_devices s) idx = Ret d -> lget (channels s) (dv_channel d) = Ret ch -> ports_ok ch ->
  dv_drive d = 0 \/ dv_drive d = 1 -> mem_ok s -> fits size n -> 0 <= addr < 2 ^ 32 ->
  (forall l, data = Some l -> Z.of_nat (length l) = size) ->
  exists s' w', ide_access_disk prdt_phys buf_phys fuel s w task idx data (addr / 512) size = Ret (s', w') /\
    told_of w' ch = mk_told (dv_drive d) (addr / 512) ((size - 1) / 512 + 1)
      (if is_some data then IDE_CMD_WRITE_DMA else IDE_CMD_READ_DMA) prdt_phys 1 /\
    regions (prd_table s') = map (fun i => (u32 (buf_phys + 1024 * Z.of_nat i), region_size size)) (seq 0 n) /\
    region_size size * Z.of_nat n = size /\ size <= MEM_BUFFER_SIZE /\
    (forall l, data = Some l -> take (Z.to_nat size) (ide_mem_buffer s') = l) /\ disk_req s' = (idx, task).
Proof.
  intros Hfu Hd Hch Hp Hdr Hm Hf Ha Hl.
  destruct (access_ok fuel s w task idx addr size data d ch n Hfu Hd Hch Hp Hdr Hm Hf Ha Hl) as (s' & w' & E & _ & _ & _ & H).
  by exists s', w'.
Qed.
End Access.

(** Every address of the disk layer fits the short form: the long commands are
    never used. *)
Theorem ide_lba28 (addr : Z) : 0 <= addr < 2 ^ 32 -> addr / 512 < 0x10000000.
Proof. intros. Z.div_mod_to_equations. lia. Qed.

(** The bit for the long addresses is stored in eight bits and lost: the size of
    a drive is always taken from the short field. *)
Theorem identify_short_size (command_set : Z) : u8 (Z.land command_set (Z.shiftl 1 26)) = 0.
Proof.
  unfold u8, wrap. apply Z.bits_inj_iff'. intros j Hj. rewrite Z.bits_0. destruct (Z.ltb_spec j 8).
  - rewrite Z.mod_pow2_bits_low, Z.land_spec, testbit_one by lia. destruct (Z.eqb_spec j 26); [lia|]. by rewrite andb_false_r.
  - by rewrite Z.mod_pow2_bits_high by lia.
Qed.

(** In native mode the port is the base address register with its type bit. *)
Theorem ide_native_port :
  ide_port (mk_channel 0xC101 0xC201 0) IDE_REG_STATUS = 0xC108.
Proof. reflexivity. Qed.

(** ** A concrete controller *)

Definition latches : Type := Z -> Z.
#[export] Instance latch_ports : PortIO latches := {
  inb f p := (0x40, f);
  outb f v p := fun q => if q =? p then v else f q;
  inl f p := (0, f);
  outl f v p := fun q => if q =? p then v else f q;
  outw f v p := f;
}.
#[export] Program Instance latch_laws : AtaLaws latches := { at_reg f q := f q; at_wait _ := 0%nat; at_max := 0%nat }.
Next Obligation. done. Qed.
Next Obligation. done. Qed.
Next Obligation. done. Qed.
Next Obligation. intros f p. eexists _, f. split; [done|]. split; [done|]. by left. Qed.

Definition channel0 : ide_channel_t := mk_channel IDE_COMP_PORTS1 IDE_COMP_CTRL_PORTS1 0xC000.
Definition drive0 : ide_device_t := mk_device 1 0 0 IDE_ATA 0 0 0 65536 [].
Definition ide0 : ide :=
  mk_ide [channel0; channel0] [drive0; drive0; drive0; drive0] (replicate 128 (mk_prd 0 0 0)) (replicate 4096 0) (0, 0) 1.

(** A block of a KiB at byte 0x12400 is written from sector 146. *)
Lemma ide_access_programs_witness :
  exists s' w', ide_access_disk 0x101000 0x101400 1 ide0 ((fun _ => 0) : latches) 7 0 (Some (replicate 1024 5)) (0x12400 / 512) 1024 = Ret (s', w') /\
    told_of w' channel0 = mk_told 0 146 2 IDE_CMD_WRITE_DMA 0x101000 1 /\ regions (prd_table s') = [(0x101400, 1024)].
Proof.
  destruct (ide_access_programs (laws:=latch_laws) 0x101000 0x101400 1 ide0 (fun _ => 0) 7 0 0x12400 1024 (Some (replicate 1024 5))
    drive0 channel0 1) as (s' & w' & E & Ht & Hr & _);
    [cbn; lia|reflexivity|reflexivity|repeat split; try reflexivity; vm_compute; discriminate|left; reflexivity|split; reflexivity| |lia| |].
  - split; [reflexivity|]. split; [reflexivity|]. lia.
  - intros l [= <-]. reflexivity.
  - exact (ex_intro _ s' (ex_intro _ w' (conj E (conj Ht Hr)))).
Defined.
