(* ===== verification/IdeDisk.v ===== *)
(** The disk as the buffer cache sees it: the driver of Ide.v together with the
    direct memory access of the controller and its interrupt.  A request is
    programmed, the controller moves the bytes between the drive and the regions
    of the table, the interrupt wakes the task.  The drive and the controller
    are not part of the repository: what the driver relies on are the laws of
    [AtaDma].  The theorems show that the driver implements the interface of the
    buffer cache. *)

From Stdlib Require Import ZArith Lia.
From stdpp Require Import base numbers list gmap.
From S2P Require Import Prelude Bytes Ports Descr Acpi Apic HashTable Tables Lru Bio BioBlocks Ide.

(** ** The drives *)

(** [ata_byte w base drive x] is byte [x] of the drive on the channel with the
    ports at [base]; [ata_data] are the data ports, which the driver does not
    use for transfers.  [ata_run] is what a controller that was told a command
    does with the bytes of the regions of its table.  A transfer needs the start
    bit (bit 0) of the bus master command.  Bit 3 gives its direction, set for a
    transfer into memory: [ata_direction] tells whether the controller heeds it
    or takes the direction from the command of the drive. *)
Class AtaDma (W : Type) `{!PortIO W} `{!MemIO W} `{!AtaLaws W} := {
  ata_byte : W -> Z -> Z -> Z -> Z;
  ata_sectors : Z -> Z -> Z;
  ata_data : Z -> bool;
  ata_direction : bool;
  ata_run : W -> ide_channel_t -> list Z -> list Z * W;
  ata_out w v p b d x : ata_data p = false -> ata_byte (outb w v p) b d x = ata_byte w b d x;
  ata_outl w v p b d x : ata_data p = false -> ata_byte (outl w v p) b d x = ata_byte w b d x;
  ata_in w p b d x : ata_data p = false -> ata_byte (inb w p).2 b d x = ata_byte w b d x;
  ata_wr w a v b d x : ata_byte (wr32 w a v) b d x = ata_byte w b d x;
  ata_run_read w ch drive lba n prdt bm mem :
    told_of w ch = mk_told drive lba n IDE_CMD_READ_DMA prdt bm -> Z.testbit bm 0 = true ->
    (ata_direction = true -> Z.testbit bm 3 = true) -> 0 < n -> 0 <= lba ->
    lba + n <= ata_sectors (c_addr ch) drive -> Z.of_nat (length mem) = 512 * n ->
    exists w', ata_run w ch mem =
        (map (fun i => ata_byte w (c_addr ch) drive (512 * lba + Z.of_nat i)) (seq 0 (length mem)), w') /\
      (forall b d x, ata_byte w' b d x = ata_byte w b d x) /\
      Z.testbit (inb w' (c_bus_master_addr ch + 2)).1 2 = true;
  ata_run_write w ch drive lba n prdt bm mem :
    told_of w ch = mk_told drive lba n IDE_CMD_WRITE_DMA prdt bm -> Z.testbit bm 0 = true ->
    (ata_direction = true -> Z.testbit bm 3 = false) -> 0 < n -> 0 <= lba ->
    lba + n <= ata_sectors (c_addr ch) drive -> Z.of_nat (length mem) = 512 * n ->
    exists w', ata_run w ch mem = (mem, w') /\
      (forall b d x, ata_byte w' b d x =
        if (b =? c_addr ch) && (d =? drive) && (512 * lba <=? x) && (x <? 512 * (lba + n))
        then znth 0 mem (x - 512 * lba) else ata_byte w b d x) /\
      Z.testbit (inb w' (c_bus_master_addr ch + 2)).1 2 = true;
}.

(** ** Direct memory access *)

Section Dma.
Context (buf_phys : Z).

(** A count of 0 stands for 64 KiB. *)
Definition dma_size (n : Z) : Z := if n =? 0 then 65536 else n.

(** The bytes of the regions, in order, and storing them. *)
Fixpoint gather (buf : list Z) (rs : list (Z * Z)) : outcome (list Z) :=
  match rs with
  | [] => Ret []
  | (a, n) :: rs =>
      let! x := slice buf (a - buf_phys) (dma_size n) in
      let! l := gather buf rs in
      Ret (x ++ l)
  end.
Fixpoint scatter (buf : list Z) (rs : list (Z * Z)) (mem : list Z) : outcome (list Z) :=
  match rs with
  | [] => Ret buf
  | (a, n) :: rs =>
      let! buf := splice buf (a - buf_phys) (take (Z.to_nat (dma_size n)) mem) in
      scatter buf rs (drop (Z.to_nat (dma_size n)) mem)
  end.

Context (Hphys : 0 <= buf_phys /\ buf_phys + MEM_BUFFER_SIZE <= 2 ^ 32).

(** The regions of a transfer, from the [k]-th on. *)
Definition kib_regions (r : Z) (k m : nat) : list (Z * Z) :=
  map (fun i => (u32 (buf_phys + 1024 * Z.of_nat i), r)) (seq k m).

Lemma region_offset (i : nat) : (i < 4)%nat -> u32 (buf_phys + 1024 * Z.of_nat i) - buf_phys = 1024 * Z.of_nat i.
Proof using Hphys. intros Hi. unfold MEM_BUFFER_SIZE in Hphys. rewrite u32_small; lia. Qed.

Lemma gather_ok (r : nat) (m k : nat) (buf : list Z) :
  length buf = 4096%nat -> (0 < r <= 1024)%nat -> (k + m <= 4)%nat ->
  (forall i, (k <= i < k + m)%nat -> (1024 * i = i * r)%nat) ->
  gather buf (kib_regions (Z.of_nat r) k m) = Ret (take (m * r) (drop (k * r) buf)).
Proof using Hphys.
  intros Hl Hr. revert k. induction m as [|m IH]; intros k Hk Ho; [by rewrite take_0|].
  cbn [kib_regions map seq gather]. rewrite region_offset by lia. pose proof (Ho k ltac:(lia)) as Hkr.
  unfold dma_size. destruct (Z.eqb_spec (Z.of_nat r) 0); [lia|]. rewrite slice_Ret by lia. cbn [obind].
  fold (kib_regions (Z.of_nat r) (S k) m). rewrite IH; [|lia|intros; apply Ho; lia]. cbn [obind]. f_equal.
  replace (Z.to_nat (1024 * Z.of_nat k)) with (k * r)%nat by lia. rewrite Nat2Z.id.
  replace (S m * r)%nat with (r + m * r)%nat by lia. replace (S k * r)%nat with (k * r + r)%nat by lia.
  by rewrite <- drop_drop, take_take_drop.
Qed.

Lemma scatter_ok (r : nat) (m k : nat) (buf mem : list Z) :
  length buf = 4096%nat -> (0 < r <= 1024)%nat -> (k + m <= 4)%nat ->
  (forall i, (k <= i < k + m)%nat -> (1024 * i = i * r)%nat) -> length mem = (m * r)%nat ->
  exists buf', scatter buf (kib_regions (Z.of_nat r) k m) mem = Ret buf' /\ length buf' = 4096%nat /\
    take (k * r + m * r) buf' = take (k * r) buf ++ mem.
Proof using Hphys.
  intros Hl Hr. revert k buf mem Hl. induction m as [|m IH]; intros k buf mem Hl Hk Ho Hm.
  { exists buf. apply length_zero_iff_nil in Hm as ->. by rewrite Nat.add_0_r, app_nil_r. }
  cbn [kib_regions map seq scatter]. rewrite region_offset by lia. pose proof (Ho k ltac:(lia)) as Hkr.
  unfold dma_size. destruct (Z.eqb_spec (Z.of_nat r) 0); [lia|]. rewrite Nat2Z.id.
  assert (Lt : length (take r mem) = r) by (rewrite length_take; lia).
  rewrite splice_Ret by (rewrite ?Lt; lia). cbn [obind]. fold (kib_regions (Z.of_nat r) (S k) m).
  replace (Z.to_nat (1024 * Z.of_nat k)) with (k * r)%nat by lia. rewrite Lt.
  set (b1 := take (k * r) buf ++ take r mem ++ drop (k * r + r) buf).
  assert (Lk : length (take (k * r) buf) = (k * r)%nat) by (rewrite length_take; lia).
  destruct (IH (S k) b1 (drop r mem)) as (b2 & -> & L2 & H2).
  - unfold b1. rewrite !length_app, Lk, Lt, length_drop. lia.
  - lia.
  - intros; apply Ho; lia.
  - rewrite length_drop. lia.
  - exists b2. split; [done|]. split; [done|].
    replace (k * r + S m * r)%nat with (S k * r + m * r)%nat by lia. rewrite H2. unfold b1.
    replace (S k * r)%nat with (length (take (k * r) buf) + length (take r mem))%nat by (rewrite Lk, Lt; lia).
    rewrite <- length_app, app_assoc, take_app_length. by rewrite <- app_assoc, take_drop.
Qed.
End Dma.

(** ** Requests *)

Section Requests.
Context {W : Type} `{!PortIO W} `{!MemIO W} {laws : AtaLaws W} {dma : AtaDma W}.
Context (prdt_phys buf_phys : Z) (a : apic) (fuel : nat) (task : Z).

(** The controller carries out what it was told: it needs the start bit and the
    address of the table. *)
Definition complete (s : ide) (w : W) : outcome (ide * W) :=
  let! d := lget (ide_devices s) (disk_req s).1 in
  let! ch := lget (channels s) (dv_channel d) in
  let t := told_of w ch in
  if (t_prdt t =? prdt_phys) && Z.testbit (t_started t) 0 then
    let rs := regions (prd_table s) in
    let! mem := gather buf_phys (ide_mem_buffer s) rs in
    let '(mem, w) := ata_run w ch mem in
    let! b := scatter buf_phys (ide_mem_buffer s) rs mem in
    Ret (with_buf s b, w)
  else NoFuel.

(** [task_block] at the end of a request: the task goes on when the interrupt
    wakes it, and otherwise never. *)
Definition await (s : ide) (w : W) : outcome (ide * W) :=
  let! (s, w) := complete s w in
  let! (t, w) := ide_handler s a w in
  if bool_decide (t = Some task) then Ret (s, w) else NoFuel.

(** The calls of bio.c. *)
Definition dma_read (sw : ide * W) (device addr size : Z) : outcome (list Z * (ide * W)) :=
  let! (s, w) := ide_read_disk prdt_phys buf_phys fuel sw.1 sw.2 task device addr size in
  let! (s, w) := if size =? 0 then Ret (s, w) else await s w in
  let! l := ide_read_disk_buffer s 0 size in
  Ret (l, (s, w)).
Definition dma_write (sw : ide * W) (device addr : Z) (data : list Z) : outcome (ide * W) :=
  let size := Z.of_nat (length data) in
  let! (s, w) := ide_write_disk prdt_phys buf_phys fuel sw.1 sw.2 task device data addr size in
  if size =? 0 then Ret (s, w) else await s w.

(** ** Accesses leave the drives alone *)

Definition same_bytes (w w' : W) : Prop := forall b d x, ata_byte w' b d x = ata_byte w b d x.

Lemma same_trans (w1 w2 w3 : W) : same_bytes w1 w2 -> same_bytes w2 w3 -> same_bytes w1 w3.
Proof. intros H1 H2 b d x. by rewrite H2. Qed.

(** The registers the driver uses are not data ports. *)
Definition quiet (ch : ide_channel_t) : Prop :=
  (forall reg, 0 < reg <= IDE_REG_BUS_STAT -> ata_data (u16 (ide_port ch reg)) = false) /\
  ata_data (u16 (c_bus_master_addr ch + 4)) = false.

Section Quiet.
Context (chs : list ide_channel_t) (channel : Z) (ch : ide_channel_t).
Context (Hch : lget chs channel = Ret ch) (Hq : quiet ch).

Lemma write_same (s : ide) (w w' : W) (reg v : Z) :
  channels s = chs -> 0 < reg <= IDE_REG_BUS_STAT -> ide_write s w channel reg v = Ret w' -> same_bytes w w'.
Proof using Hch Hq.
  intros Hs Hr. unfold ide_write. rewrite Hs, Hch. intros [= <-] b d x. apply ata_out. by apply Hq.
Qed.

Lemma read_same (s : ide) (w w' : W) (reg v : Z) :
  channels s = chs -> 0 < reg <= IDE_REG_BUS_STAT -> ide_read s w channel reg = Ret (v, w') -> same_bytes w w'.
Proof using Hch Hq.
  intros Hs Hr. unfold ide_read. rewrite Hs, Hch. cbn [obind]. intros [= E] b d x.
  rewrite <- (ata_in w (u16 (ide_port ch reg)) b d x) by (by apply Hq). by rewrite E.
Qed.

Lemma ready_same (n : nat) (s : ide) (w w' : W) :
  channels s = chs -> ready_loop n s w channel = Ret w' -> same_bytes w w'.
Proof using Hch Hq.
  intros Hs. revert w. induction n as [|n IH]; intros w; [done|]. cbn [ready_loop]. intros E.
  apply obind_inv in E as ([st w1] & E1 & E). apply read_same in E1; [|done|done].
  destruct (Z.testbit st 6); [by injection E as <-|]. by eapply same_trans, IH.
Qed.

Ltac bytes_step :=
  match goal with
  | E : obind (ide_write _ ?w _ _ _) _ = Ret _ |- _ =>
      let w1 := fresh "w" in let E1 := fresh "E" in
      apply obind_inv in E as (w1 & E1 & E); apply write_same in E1; [|done|done];
      apply (same_trans _ w1); [exact E1|clear E1]
  | E : obind (ready_loop _ _ ?w _) _ = Ret _ |- _ =>
      let w1 := fresh "w" in let E1 := fresh "E" in
      apply obind_inv in E as (w1 & E1 & E); apply ready_same in E1; [|done];
      apply (same_trans _ w1); [exact E1|clear E1]
  | E : ide_write _ _ _ _ _ = Ret _ |- _ => by apply write_same in E
  end.

Lemma set_device_same (n : nat) (s : ide) (w w' : W) (d : ide_device_t) (lba sectors : Z) :
  channels s = chs -> dv_channel d = channel -> ide_set_device n s w d lba sectors = Ret w' -> same_bytes w w'.
Proof using Hch Hq. intros Hs Hd E. unfold ide_set_device in E. rewrite Hd in E. cbv zeta in E. repeat bytes_step. Qed.

Lemma prd_loop_channels (n : nat) (s s' : ide) (data : option (list Z)) (size count start c : Z) :
  prd_loop buf_phys n s data size count start = Ret (s', c) -> channels s' = channels s.
Proof using.
  revert s count start. induction n as [|n IH]; intros s count start; [done|]. cbn [prd_loop].
  destruct (u32 (size - start) =? 0); [by intros [= -> ->]|]. intros E.
  apply obind_inv in E as (s1 & E1 & E). apply obind_inv in E as (s2 & E2 & E). apply IH in E as ->.
  unfold ide_set_prd_entry in E1. apply obind_inv in E1 as (l & _ & [= <-]).
  destruct data as [d|]; [|by injection E2 as <-].
  apply obind_inv in E2 as (b & _ & E2). apply obind_inv in E2 as (m & _ & [= <-]). done.
Qed.

Lemma mark_last_channels (s s' : ide) (k : Z) : mark_last s k = Ret s' -> channels s' = channels s.
Proof using.
  intros E. unfold mark_last in E. apply obind_inv in E as (e & _ & E). by apply obind_inv in E as (l & _ & [= <-]).
Qed.

Lemma fill_same (s s' : ide) (w w' : W) (data : option (list Z)) (size : Z) :
  channels s = chs -> ide_fill_prd_table prdt_phys buf_phys s w channel data size = Ret (s', w') ->
  same_bytes w w' /\ channels s' = chs.
Proof using Hch Hq.
  intros Hs E. unfold ide_fill_prd_table in E. apply obind_inv in E as (w1 & E1 & E).
  unfold ide_set_prdt in E1. rewrite Hs, Hch in E1. injection E1 as <-.
  apply obind_inv in E as ([s1 c] & E1 & E). apply prd_loop_channels in E1.
  apply obind_inv in E as (s2 & E2 & E). apply mark_last_channels in E2.
  assert (channels s2 = chs) as Hs2 by congruence. split; [|].
  - apply (same_trans _ (outl w prdt_phys (u16 (c_bus_master_addr ch + 4))));
      [intros b d x; apply ata_outl, Hq|]. repeat bytes_step. by injection E as <- <-.
  - apply obind_inv in E as (w2 & _ & E). by apply obind_inv in E as (w3 & _ & [= <- <-]).
Qed.
End Quiet.

Lemma access_same (s s' : ide) (w w' : W) (idx : Z) (data : option (list Z)) (lba size : Z)
    (d : ide_device_t) (ch : ide_channel_t) :
  lget (ide_devices s) idx = Ret d -> lget (channels s) (dv_channel d) = Ret ch -> quiet ch -> size <> 0 ->
  ide_access_disk prdt_phys buf_phys fuel s w task idx data lba size = Ret (s', w') -> same_bytes w w'.
Proof.
  intros Hd Hch Hq H0. unfold ide_access_disk. destruct (Z.eqb_spec size 0); [done|]. rewrite Hd. cbn [obind]. intros E.
  apply obind_inv in E as ([s1 w1] & E1 & E).
  apply (fill_same (channels s) (dv_channel d) ch Hch Hq) in E1 as [H1 Hs1]; [|done]. apply (same_trans _ w1 _ H1).
  apply obind_inv in E as (w2 & E2 & E). apply (ready_same _ _ _ Hch Hq) in E2; [|done]. apply (same_trans _ w2 _ E2).
  apply obind_inv in E as (w3 & E3 & E). apply (set_device_same _ _ _ Hch Hq) in E3; [|done|done]. apply (same_trans _ w3 _ E3).
  apply obind_inv in E as (w4 & E4 & E). apply (write_same _ _ _ Hch Hq) in E4; [|done|done]. apply (same_trans _ w4 _ E4).
  apply obind_inv in E as (w5 & E5 & E). apply (write_same _ _ _ Hch Hq) in E5; [|done|done]. apply (same_trans _ w5 _ E5).
  apply obind_inv in E as (w6 & E6 & [= <- <-]). by apply (write_same _ _ _ Hch Hq) in E6.
Qed.

(** The interrupt wakes the task when the controller asked for it. *)
Lemma handler_wakes (s : ide) (w : W) (idx : Z) (d : ide_device_t) (ch : ide_channel_t) :
  lget (ide_devices s) idx = Ret d -> lget (channels s) (dv_channel d) = Ret ch -> ports_ok ch -> quiet ch ->
  disk_req s = (idx, task) -> Z.testbit (inb w (c_bus_master_addr ch + 2)).1 2 = true ->
  exists w', ide_handler s a w = Ret (Some task, w') /\ same_bytes w w'.
Proof.
  intros Hd Hch Hp Hq Hr Ht. unfold ide_handler. rewrite Hr. cbn [fst snd]. rewrite Hd. cbn [obind].
  unfold ide_read, ide_write. rewrite Hch. cbn [obind].
  assert (E : u16 (ide_port ch IDE_REG_BUS_STAT) = c_bus_master_addr ch + 2) by (by apply ide_port_small).
  pose proof (proj1 Hq IDE_REG_BUS_STAT ltac:(done)) as Q1. pose proof (proj1 Hq IDE_REG_STATUS ltac:(done)) as Q2.
  pose proof (proj1 Hq IDE_REG_BUS_COM ltac:(done)) as Q3. rewrite E in *.
  destruct (inb w (c_bus_master_addr ch + 2)) as [v w1] eqn:E1. cbn [fst obind] in *.
  destruct (inb w1 (u16 (ide_port ch IDE_REG_STATUS))) as [v2 w2] eqn:E2. cbn [obind]. rewrite Ht. cbn [negb].
  eexists. split; [done|]. intros b dr x. unfold lapic_sendEOI, lapic_write_reg.
  rewrite ata_wr, !ata_out by done. change w2 with (v2, w2).2. rewrite <- E2, ata_in by done.
  change w1 with (v, w1).2. by rewrite <- E1, ata_in.
Qed.

(** ** A whole request *)

Context (Hphys : 0 <= buf_phys /\ buf_phys + MEM_BUFFER_SIZE <= 2 ^ 32) (Hfuel : (at_max < fuel)%nat).

(** The channels and the drives that were found at the start. *)
Context (chs : list ide_channel_t) (devs : list ide_device_t).

Record driver_ok (s : ide) : Prop := {
  do_channels : channels s = chs;
  do_devices : ide_devices s = devs;
  do_mem : mem_ok s;
}.

(** The channel and the drive of an index. *)
Definition target (d : Z) : option (ide_channel_t * Z) :=
  match lget devs d with
  | Ret dv =>
      if dv_present dv =? 0 then None
      else match lget chs (dv_channel dv) with Ret ch => Some (ch, dv_drive dv) | _ => None end
  | _ => None
  end.
Record config_ok : Prop := {
  co_target d ch dr : target d = Some (ch, dr) -> ports_ok ch /\ quiet ch /\ (dr = 0 \/ dr = 1);
  co_distinct d d' ch dr ch' dr' : target d = Some (ch, dr) -> target d' = Some (ch', dr') -> d <> d' ->
    c_addr ch <> c_addr ch' \/ dr <> dr';
}.

Lemma target_inv (d : Z) (ch : ide_channel_t) (dr : Z) : target d = Some (ch, dr) ->
  exists dv, lget devs d = Ret dv /\ lget chs (dv_channel dv) = Ret ch /\ dv_drive dv = dr.
Proof.
  unfold target. destruct (lget devs d) as [dv| | |]; try done. destruct (dv_present dv =? 0); [done|].
  destruct (lget chs (dv_channel dv)) as [c| | |] eqn:E; try done. intros [= <- <-]. by exists dv.
Qed.

(** The regions of a transfer cover the start of the buffer. *)
Lemma buffer_regions (n : Z) (k : nat) (buf : list Z) :
  fits n k -> length buf = 4096%nat ->
  gather buf_phys buf (kib_regions buf_phys (region_size n) 0 k) = Ret (take (Z.to_nat n) buf) /\
  forall mem, length mem = Z.to_nat n -> exists b,
    scatter buf_phys buf (kib_regions buf_phys (region_size n) 0 k) mem = Ret b /\ length b = 4096%nat /\ take (Z.to_nat n) b = mem.
Proof using Hphys.
  clear Hfuel. intros Hf Hl. destruct (fits_bounds _ _ Hf) as (Hr & Hk & _). destruct Hf as (H0 & Hn & Hk4).
  set (r := Z.to_nat (region_size n)). replace (region_size n) with (Z.of_nat r) by lia.
  assert (Ho : forall i, (0 <= i < 0 + k)%nat -> (1024 * i = i * r)%nat) by (intros i Hi; unfold r; destruct Hk; nia).
  assert (Hkr : (k * r)%nat = Z.to_nat n) by (unfold r; lia). split.
  - rewrite gather_ok; [|done|done|lia|lia|done]. by rewrite Hkr.
  - intros mem Hm. destruct (scatter_ok buf_phys Hphys r k 0 buf mem Hl ltac:(lia) ltac:(lia) Ho ltac:(lia)) as (b & E & Lb & Hb).
    exists b. split; [done|]. split; [done|]. by rewrite <- Hkr.
Qed.

(** What a request leaves for the controller. *)
Record requested (s : ide) (w : W) (ch : ide_channel_t) (dr d addr n command : Z) (k : nat) : Prop := {
  rq_driver : driver_ok s;
  rq_told : told_of w ch = mk_told dr (addr / 512) (n / 512) command prdt_phys 1;
  rq_regions : regions (prd_table s) = kib_regions buf_phys (region_size n) 0 k;
  rq_task : disk_req s = (d, task);
}.

Lemma request_ok (s : ide) (w : W) (d addr n : Z) (data : option (list Z)) (ch : ide_channel_t) (dr : Z) (k : nat) :
  config_ok -> driver_ok s -> target d = Some (ch, dr) -> fits n k -> 0 <= addr < 2 ^ 32 -> n mod 512 = 0 ->
  (forall l, data = Some l -> Z.of_nat (length l) = n) ->
  exists s' w', ide_access_disk prdt_phys buf_phys fuel s w task d data (addr / 512) n = Ret (s', w') /\ same_bytes w w' /\
    requested s' w' ch dr d addr n (if is_some data then IDE_CMD_WRITE_DMA else IDE_CMD_READ_DMA) k /\
    (forall l, data = Some l -> take (Z.to_nat n) (ide_mem_buffer s') = l).
Proof using Hfuel.
  intros Hc [Hs1 Hs2 Hm] Ht Hf Ha Hn Hl. destruct (co_target Hc _ _ _ Ht) as (Hp & Hq & Hdr).
  destruct (target_inv _ _ _ Ht) as (dv & Hdv & Hch & Edr). rewrite <- Hs1 in Hch. rewrite <- Hs2 in Hdv. rewrite <- Edr in Hdr.
  destruct (access_ok prdt_phys buf_phys fuel s w task d addr n data dv ch k Hfuel Hdv Hch Hp Hdr Hm Hf Ha Hl)
    as (s' & w' & E & C1 & D1 & M1 & T1 & R1 & _ & _ & B1 & Q1).
  exists s', w'. split; [done|]. split.
  { eapply access_same, E; try done. destruct Hf; lia. }
  split; [|done]. split; [split; congruence| |done|done]. rewrite T1. f_equal; [done|].
  destruct Hf as (? & _ & _). Z.div_mod_to_equations; lia.
Qed.

Lemma await_ok (s : ide) (w w2 : W) (ch : ide_channel_t) (dr d addr n command : Z) (k : nat) (mem : list Z) :
  config_ok -> target d = Some (ch, dr) -> fits n k -> requested s w ch dr d addr n command k ->
  ata_run w ch (take (Z.to_nat n) (ide_mem_buffer s)) = (mem, w2) -> length mem = Z.to_nat n ->
  Z.testbit (inb w2 (c_bus_master_addr ch + 2)).1 2 = true ->
  exists s' w', await s w = Ret (s', w') /\ driver_ok s' /\ take (Z.to_nat n) (ide_mem_buffer s') = mem /\ same_bytes w2 w'.
Proof using Hphys.
  intros Hc Ht Hf [[Hs1 Hs2 [Hm1 Hm2]] T1 R1 Q1] Er Hl Hi. destruct (co_target Hc _ _ _ Ht) as (Hp & Hq & _).
  destruct (target_inv _ _ _ Ht) as (dv & Hdv & Hch & _). rewrite <- Hs1 in Hch. rewrite <- Hs2 in Hdv.
  destruct (buffer_regions n k (ide_mem_buffer s) Hf Hm2) as [Eg Hsc]. destruct (Hsc mem Hl) as (b & Es & Lb & Hb).
  unfold await, complete. rewrite Q1. cbn [fst]. rewrite Hdv. cbn [obind]. rewrite Hch. cbn [obind].
  rewrite T1. cbn [t_prdt t_started]. rewrite Z.eqb_refl. change (Z.testbit 1 0) with true. cbn [andb]. rewrite R1, Eg. cbn [obind]. rewrite Er, Es. cbn [obind].
  destruct (handler_wakes (with_buf s b) w2 d dv ch Hdv Hch Hp Hq Q1 Hi) as (w3 & -> & H3). cbn [obind].
  rewrite bool_decide_true by done. exists (with_buf s b), w3. split; [done|]. by split; [split; [done|done|split]|].
Qed.

(** ** The driver as a disk *)

(** The bytes behind an index, and the stretches that can be transferred. *)
Definition dma_content (sw : ide * W) (d x : Z) : Z :=
  match target d with Some (ch, dr) => ata_byte sw.2 (c_addr ch) dr x | None => 0 end.
Definition dma_valid (d addr n : Z) : Prop :=
  exists ch dr k, target d = Some (ch, dr) /\ fits n k /\ addr + n <= 512 * ata_sectors (c_addr ch) dr.

Lemma dma_read_ok (sw : ide * W) (d addr n : Z) :
  ata_direction = false -> config_ok -> driver_ok sw.1 -> dma_valid d addr n -> 0 <= addr < 2 ^ 32 -> addr mod 512 = 0 -> n mod 512 = 0 ->
  exists sw', dma_read sw d addr n = Ret (map (fun i => dma_content sw d (addr + Z.of_nat i)) (seq 0 (Z.to_nat n)), sw') /\
    driver_ok sw'.1 /\ forall d x, dma_content sw' d x = dma_content sw d x.
Proof using Hphys Hfuel.
  intros Hdir Hc Hs (ch & dr & k & Ht & Hf & Hcap) Ha Ha5 Hn. destruct (fits_bounds _ _ Hf) as (_ & _ & Hn4). pose proof Hf as [H0 _].
  unfold dma_read, ide_read_disk. destruct sw as [s w]. cbn [fst snd] in *.
  destruct (request_ok s w d addr n None ch dr k Hc Hs Ht Hf Ha Hn) as (s1 & w1 & -> & B1 & R1 & _); [done|].
  cbn [obind is_some] in *. destruct (Z.eqb_spec n 0); [lia|].
  assert (Lb : length (take (Z.to_nat n) (ide_mem_buffer s1)) = Z.to_nat n)
    by (rewrite length_take, (proj2 (do_mem _ (rq_driver _ _ _ _ _ _ _ _ _ R1))); unfold MEM_BUFFER_SIZE; lia).
  destruct (ata_run_read w1 ch dr (addr / 512) (n / 512) prdt_phys 1 (take (Z.to_nat n) (ide_mem_buffer s1))
    (rq_told _ _ _ _ _ _ _ _ _ R1)) as (w2 & Er & B2 & Hi);
    [done|congruence|Z.div_mod_to_equations; lia..|rewrite Lb; Z.div_mod_to_equations; lia|].
  rewrite Lb in Er.
  destruct (await_ok s1 w1 w2 ch dr d addr n _ k _ Hc Ht Hf R1 Er) as (s3 & w3 & -> & D3 & M3 & B3);
    [by rewrite length_map, length_seq|done|].
  cbn [obind]. unfold ide_read_disk_buffer.
  rewrite slice_Ret by (rewrite ?(proj2 (do_mem _ D3)); unfold MEM_BUFFER_SIZE; lia).
  cbn [obind]. rewrite drop_0, M3. exists (s3, w3). split; [|split; [exact D3|]].
  - do 2 f_equal. apply map_ext. intros i. unfold dma_content. rewrite Ht. cbn [snd]. rewrite B1. f_equal.
    Z.div_mod_to_equations; lia.
  - intros d' x. unfold dma_content. destruct (target d') as [[ch' dr']|]; [|done]. cbn [snd]. by rewrite B3, B2, B1.
Qed.

Lemma dma_write_ok (sw : ide * W) (d addr : Z) (l : list Z) :
  config_ok -> driver_ok sw.1 -> dma_valid d addr (Z.of_nat (length l)) -> 0 <= addr < 2 ^ 32 -> addr mod 512 = 0 ->
  Z.of_nat (length l) mod 512 = 0 ->
  exists sw', dma_write sw d addr l = Ret sw' /\ driver_ok sw'.1 /\
    forall d' x, dma_content sw' d' x =
      if (d' =? d) && (addr <=? x) && (x <? addr + Z.of_nat (length l)) then znth 0 l (x - addr) else dma_content sw d' x.
Proof using Hphys Hfuel.
  intros Hc Hs (ch & dr & k & Ht & Hf & Hcap) Ha Ha5 Hn. pose proof Hf as [H0 _]. set (n := Z.of_nat (length l)) in *.
  unfold dma_write, ide_write_disk. fold n. destruct sw as [s w]. cbn [fst snd] in *.
  destruct (request_ok s w d addr n (Some l) ch dr k Hc Hs Ht Hf Ha Hn) as (s1 & w1 & -> & B1 & R1 & Hb);
    [by intros ? [= <-]|].
  cbn [obind is_some] in *. destruct (Z.eqb_spec n 0); [lia|]. specialize (Hb l eq_refl).
  destruct (ata_run_write w1 ch dr (addr / 512) (n / 512) prdt_phys 1 l (rq_told _ _ _ _ _ _ _ _ _ R1)) as (w2 & Er & B2 & Hi);
    [done|done|Z.div_mod_to_equations; lia..|fold n; Z.div_mod_to_equations; lia|].
  rewrite <- Hb in Er at 1. destruct (await_ok s1 w1 w2 ch dr d addr n _ k _ Hc Ht Hf R1 Er) as (s3 & w3 & -> & D3 & _ & B3);
    [unfold n; lia|done|].
  eexists. split; [done|]. split; [exact D3|]. intros d' x. unfold dma_content.
  destruct (Z.eqb_spec d' d) as [->|Hne]; cbn [andb].
  - rewrite Ht. cbn [snd]. rewrite B3, B2, !Z.eqb_refl, B1. cbn [andb].
    replace (512 * (addr / 512)) with addr by (Z.div_mod_to_equations; lia).
    by replace (512 * (addr / 512 + n / 512)) with (addr + n) by (Z.div_mod_to_equations; lia).
  - destruct (target d') as [[ch' dr']|] eqn:Ht'; [|done]. cbn [snd]. rewrite B3, B2, B1.
    destruct (co_distinct Hc _ _ _ _ _ _ Ht' Ht Hne) as [Hd|Hd]; apply Z.eqb_neq in Hd; rewrite Hd, ?andb_false_r; done.
Qed.

Definition ide_disk : Disk (ide * W) := {| disk_read := dma_read; disk_write := dma_write |}.

(** A controller that heeds the direction bit does not carry out the reads. *)
Context (Hdir : ata_direction = false) (Hcfg : config_ok).
#[local] Existing Instance ide_disk.
#[local] Program Instance ide_disk_laws : DiskLaws (ide * W) :=
  { content := dma_content; disk_ok sw := driver_ok sw.1; disk_valid := dma_valid }.
Next Obligation. intros. by apply dma_read_ok. Qed.
Next Obligation. intros. by apply dma_write_ok. Qed.
End Requests.

(** ** Sequences of requests *)

Inductive dop :=
| DRead (d addr n : Z)
| DWrite (d addr : Z) (l : list Z).

Section Runs.
Context {W : Type} `{!Disk W}.

(** The answers of a sequence of requests. *)
Fixpoint run_dops (w : W) (os : list dop) : outcome (list (list Z) * W) :=
  match os with
  | [] => Ret ([], w)
  | DRead d addr n :: os =>
      let! (l, w) := disk_read w d addr n in
      let! (ls, w) := run_dops w os in
      Ret (l :: ls, w)
  | DWrite d addr l :: os => let! w := disk_write w d addr l in run_dops w os
  end.

(** A disk as bytes that are set and looked up. *)
Definition bytes_set (c : Z -> Z -> Z) (d addr : Z) (l : list Z) : Z -> Z -> Z := fun d' x =>
  if (d' =? d) && (addr <=? x) && (x <? addr + Z.of_nat (length l)) then znth 0 l (x - addr) else c d' x.
Fixpoint spec_dops (c : Z -> Z -> Z) (os : list dop) : list (list Z) * (Z -> Z -> Z) :=
  match os with
  | [] => ([], c)
  | DRead d addr n :: os =>
      let '(ls, c') := spec_dops c os in (map (fun i => c d (addr + Z.of_nat i)) (seq 0 (Z.to_nat n)) :: ls, c')
  | DWrite d addr l :: os => spec_dops (bytes_set c d addr l) os
  end.

Lemma spec_dops_ext (os : list dop) (c c' : Z -> Z -> Z) : (forall d x, c d x = c' d x) ->
  (spec_dops c os).1 = (spec_dops c' os).1 /\ forall d x, (spec_dops c os).2 d x = (spec_dops c' os).2 d x.
Proof.
  revert c c'. induction os as [|[d addr n|d addr l] os IH]; intros c c' H; cbn [spec_dops]; [done| |].
  - specialize (IH c c' H). destruct (spec_dops c os), (spec_dops c' os). cbn [fst snd] in *. destruct IH as [-> IH].
    split; [|done]. f_equal. apply map_ext. intros i. apply H.
  - apply IH. intros d' x. unfold bytes_set. by rewrite H.
Qed.

End Runs.

(** ** The driver refines a disk of bytes *)

Section Driver.
Context {W : Type} `{!PortIO W} `{!MemIO W} {laws : AtaLaws W} {dma : AtaDma W}.
Context (prdt_phys buf_phys : Z) (a : apic) (fuel : nat) (task : Z) (chs : list ide_channel_t) (devs : list ide_device_t).
Context (Hphys : 0 <= buf_phys /\ buf_phys + MEM_BUFFER_SIZE <= 2 ^ 32) (Hfuel : (at_max < fuel)%nat).
Context (Hcfg : config_ok chs devs).
#[local] Instance driver_disk : Disk (ide * W) := ide_disk prdt_phys buf_phys a fuel task.

(** Whole sectors of a drive that was found, within the drive and the buffer. *)
Definition request_valid (o : dop) : Prop :=
  match o with
  | DRead d addr n => dma_valid chs devs d addr n /\ 0 <= addr < 2 ^ 32 /\ 0 < n /\ addr mod 512 = 0 /\ n mod 512 = 0
  | DWrite d addr l => dma_valid chs devs d addr (Z.of_nat (length l)) /\ 0 <= addr < 2 ^ 32 /\ l <> [] /\ addr mod 512 = 0 /\
      Z.of_nat (length l) mod 512 = 0
  end.

(** What the bus master command of the driver, which is 1 for both directions,
    lets a controller do: writes, and reads if it does not heed bit 3. *)
Definition request_served (o : dop) : Prop :=
  match o with DRead _ _ _ => ata_direction = false | DWrite _ _ _ => True end.

Lemma run_dops_ok (os : list dop) (sw : ide * W) :
  driver_ok chs devs sw.1 -> Forall request_valid os -> Forall request_served os ->
  exists sw', run_dops sw os = Ret ((spec_dops (dma_content chs devs sw) os).1, sw') /\ driver_ok chs devs sw'.1 /\
    forall d x, dma_content chs devs sw' d x = (spec_dops (dma_content chs devs sw) os).2 d x.
Proof using Hphys Hfuel Hcfg.
  intros Hs Hv Hd. revert sw Hs Hd. induction Hv as [|[d addr n|d addr l] os Ho _ IH]; intros sw Hs Hd; cbn [run_dops spec_dops].
  - by exists sw.
  - apply Forall_cons in Hd as [Hd1 Hd]. destruct Ho as (V & Ha & Hn & Ha5 & Hn5). cbn [disk_read driver_disk ide_disk].
    destruct (dma_read_ok prdt_phys buf_phys a fuel task Hphys Hfuel chs devs sw d addr n) as (w1 & -> & H1 & C1); [done..|].
    cbn [obind]. destruct (IH w1 H1 Hd) as (w2 & -> & H2 & C2). cbn [obind].
    destruct (spec_dops_ext os _ _ C1) as [E1 E2]. exists w2. destruct (spec_dops (dma_content chs devs sw) os) as [ls c]. cbn [fst snd] in *.
    rewrite E1. split; [done|]. split; [done|]. intros. by rewrite C2.
  - apply Forall_cons in Hd as [_ Hd]. destruct Ho as (V & Ha & Hn & Ha5 & Hn5). cbn [disk_write driver_disk ide_disk].
    destruct (dma_write_ok prdt_phys buf_phys a fuel task Hphys Hfuel chs devs sw d addr l) as (w1 & -> & H1 & C1); [done..|].
    cbn [obind]. destruct (IH w1 H1 Hd) as (w2 & -> & H2 & C2).
    destruct (spec_dops_ext os (dma_content chs devs w1) (bytes_set (dma_content chs devs sw) d addr l) C1) as [E1 E2].
    exists w2. rewrite E1. split; [done|]. split; [done|]. intros. by rewrite C2.
Qed.

(** C4: The disk driver with its controller is a disk of bytes: every sequence of
    requests for whole sectors ends, each read returns the bytes of the drive as
    the writes before it left them, and afterwards every drive has the bytes the
    writes gave it; the driver is ready for the next request.  On a controller
    that heeds the direction bit of the bus master command this is for sequences
    of writes; reads are served by controllers that take the direction from the
    command of the drive, because the driver leaves the bit clear. *)
Theorem ide_disk_refines (os : list dop) (sw : ide * W) :
  driver_ok chs devs sw.1 -> Forall request_valid os -> Forall request_served os ->
  exists sw', run_dops sw os = Ret ((spec_dops (dma_content chs devs sw) os).1, sw') /\ driver_ok chs devs sw'.1 /\
    forall d x, dma_content chs devs sw' d x = (spec_dops (dma_content chs devs sw) os).2 d x.
Proof using Hphys Hfuel Hcfg. apply run_dops_ok. Qed.
End Driver.

(** ** The buffer cache over the driver *)

Section Refines.
Context {W : Type} `{!PortIO W} `{!MemIO W} {laws : AtaLaws W} {dma : AtaDma W}.
Context (prdt_phys buf_phys : Z) (a : apic) (fuel : nat) (task : Z) (chs : list ide_channel_t) (devs : list ide_device_t).
Context (Hphys : 0 <= buf_phys /\ buf_phys + MEM_BUFFER_SIZE <= 2 ^ 32) (Hfuel : (at_max < fuel)%nat).
Context (Hdir : ata_direction = false) (Hcfg : config_ok chs devs).
#[local] Instance this_disk : Disk (ide * W) := ide_disk prdt_phys buf_phys a fuel task.
#[local] Instance this_laws : DiskLaws (ide * W) := ide_disk_laws prdt_phys buf_phys a fuel task Hphys Hfuel chs devs Hdir Hcfg.

(** The buffer cache over the driver: what is stored in a buffer and written is
    on the drive, every other block of every drive is untouched, and reading the
    block again gives it back. *)
Theorem bio_write_reaches_drive {T : Type} `{!KTable T} {tl : KTableLaws T} (bs : Z)
    (s : bio T (ide * W)) (l : list Z) (p : Z) (b : bio_buf_t) (data : list Z) :
  512 <= bs /\ bs mod 512 = 0 -> bio_ok (dl := this_laws) bs s l -> bufs s !! p = Some b -> length data = Z.to_nat bs ->
  exists s1 s2, bio_store s p data = Ret s1 /\ bio_write s1 p = Ret s2 /\ bio_ok (dl := this_laws) bs s2 l /\
    map (fun i => dma_content chs devs (disk s2) (b_device b) (b_block b * bs + Z.of_nat i)) (seq 0 (Z.to_nat bs)) = data /\
    forall d k, (d, k) <> (b_device b, b_block b) ->
      map (fun i => dma_content chs devs (disk s2) d (k * bs + Z.of_nat i)) (seq 0 (Z.to_nat bs)) =
      map (fun i => dma_content chs devs (disk s) d (k * bs + Z.of_nat i)) (seq 0 (Z.to_nat bs)).
Proof using.
  intros Hbs H Hb Hl. destruct (store_write_ok (dl := this_laws) bs Hbs s l p b data H Hb Hl) as (s1 & s2 & E1 & E2 & Ho & D1 & D2 & _).
  by exists s1, s2.
Qed.

(** A block that is not cached is read from the drive. *)
Theorem bio_read_from_drive {T : Type} `{!KTable T} {tl : KTableLaws T} (bs : Z) (alloc : gmap Z bio_buf_t -> Z)
    (junk : Z -> Z -> list Z) (s : bio T (ide * W)) (l : list Z) (device block : Z) :
  512 <= bs /\ bs mod 512 = 0 -> (forall m, alloc m <> 0 /\ m !! alloc m = None) ->
  (forall p n, length (junk p n) = Z.to_nat n) -> bio_ok (dl := this_laws) bs s l -> block_ok bs device block ->
  dma_valid chs devs device (block * bs) bs -> available s l device block ->
  exists p s' b, bio_read alloc junk s device block bs = Ret (p, s') /\ bufs s' !! p = Some b /\
    b_data b = map (fun i => dma_content chs devs (disk s) device (block * bs + Z.of_nat i)) (seq 0 (Z.to_nat bs)) /\
    forall d x, dma_content chs devs (disk s') d x = dma_content chs devs (disk s) d x.
Proof using.
  intros Hbs Ha Hj H Hblk Hv Hav.
  destruct (cached_read_ok (dl := this_laws) bs Hbs alloc junk Ha Hj s l device block H Hblk Hv Hav)
    as (p & s' & l' & b & E & _ & Hb & _ & _ & _ & D & Sd & _).
  by exists p, s', b.
Qed.

(** The file system's blocks over the cache over the driver: whatever sequence of
    blocks it reads and changes, it sees the blocks of the drives as it found
    them and as it changed them, and afterwards they are on the drives. *)
Theorem blocks_on_drive {T : Type} `{!KTable T} {tl : KTableLaws T} (bs : Z) (alloc : gmap Z bio_buf_t -> Z)
    (junk : Z -> Z -> list Z) (os : list bop) (s : bio T (ide * W)) (l : list Z) :
  512 <= bs /\ bs mod 512 = 0 -> (forall m, alloc m <> 0 /\ m !! alloc m = None) ->
  (forall p n, length (junk p n) = Z.to_nat n) -> bio_ok (dl := this_laws) bs s l ->
  let on_drive (sw : ide * W) : fun_disk_blocks :=
    fun d k => map (fun i => dma_content chs devs sw d (k * bs + Z.of_nat i)) (seq 0 (Z.to_nat bs)) in
  all_servable (dl := this_laws) bs alloc junk s l (on_drive (disk s)) os ->
  exists s' l', run_bops bs alloc junk s os = Ret ((spec_bops (on_drive (disk s)) os).1, s') /\ bio_ok (dl := this_laws) bs s' l' /\
    forall d k, on_drive (disk s') d k = (spec_bops (on_drive (disk s)) os).2 d k.
Proof using.
  intros Hbs Ha Hj H on_drive Hserv.
  destruct (run_bops_sim (dl := this_laws) bs Hbs alloc junk Ha Hj os s l (on_drive (disk s))) as (s' & l' & E & [H' D']); [by split|done|].
  by exists s', l'.
Qed.
End Refines.

(** ** A concrete controller *)

(** A controller that is always ready and has always an interrupt to report. *)
Record dma_dev := mk_dma_dev { dv_regs : Z -> Z; dv_bytes : Z -> Z -> Z -> Z }.
Definition set_reg (w : dma_dev) (v p : Z) : dma_dev :=
  mk_dma_dev (fun q => if q =? p then v else dv_regs w q) (dv_bytes w).
#[export] Instance dma_dev_ports : PortIO dma_dev := {
  inb w p := (0x44, w); outb := set_reg; inl w p := (0, w); outl := set_reg; outw w v p := w;
}.
#[export] Instance dma_dev_mem : MemIO dma_dev := {
  rd32 w a := (0, w); wr32 w a v := w; rd64 w a := (0, w); wr64 w a v := w;
}.
#[export] Program Instance dma_dev_ata : AtaLaws dma_dev := { at_reg := dv_regs; at_wait _ := 0%nat; at_max := 0%nat }.
Next Obligation. done. Qed.
Next Obligation. done. Qed.
Next Obligation. done. Qed.
Next Obligation. intros w p. eexists _, w. split; [done|]. split; [done|]. by left. Qed.

(** The transfer of the command of the drive, when the start bit is set; this
    controller does not look at bit 3. *)
Definition dev_run (w : dma_dev) (ch : ide_channel_t) (mem : list Z) : list Z * dma_dev :=
  let t := told_of w ch in
  if negb (Z.testbit (t_started t) 0) then (mem, w)
  else if t_command t =? IDE_CMD_WRITE_DMA then
    (mem, mk_dma_dev (dv_regs w) (fun b d x =>
      if (b =? c_addr ch) && (d =? t_drive t) && (512 * t_lba t <=? x) && (x <? 512 * (t_lba t + t_sectors t))
      then znth 0 mem (x - 512 * t_lba t) else dv_bytes w b d x))
  else (map (fun i => dv_bytes w (c_addr ch) (t_drive t) (512 * t_lba t + Z.of_nat i)) (seq 0 (length mem)), w).

#[export] Program Instance dma_dev_dma : AtaDma dma_dev := {
  ata_byte := dv_bytes; ata_sectors _ _ := 65536; ata_data _ := false; ata_direction := false; ata_run := dev_run;
}.
Next Obligation. done. Qed.
Next Obligation. done. Qed.
Next Obligation. done. Qed.
Next Obligation. done. Qed.
Next Obligation. intros w ch drive lba n prdt bm mem Ht Hs _ _ _ _ _. exists w. unfold dev_run. rewrite Ht. cbn [t_started]. by rewrite Hs. Qed.
Next Obligation. intros w ch drive lba n prdt bm mem Ht Hs _ _ _ _ _. unfold dev_run. rewrite Ht. cbn [t_started]. rewrite Hs. by eexists. Qed.

(** One drive on the first channel. *)
Definition one_channel : list ide_channel_t := [channel0].
Definition one_drive : list ide_device_t := [drive0].
Definition dma0 : ide * dma_dev :=
  (mk_ide one_channel one_drive (replicate 128 (mk_prd 0 0 0)) (replicate 4096 0) (0, 0) 1,
   mk_dma_dev (fun _ => 0) (fun _ _ x => x mod 256)).

Lemma one_drive_target (d : Z) (ch : ide_channel_t) (dr : Z) :
  target one_channel one_drive d = Some (ch, dr) -> d = 0 /\ ch = channel0 /\ dr = 0.
Proof.
  intros Ht. destruct (target_inv _ _ _ _ _ Ht) as (dv & Hd & Hch & <-). apply lget_Ret in Hd as [H0 Hd].
  destruct (Z.to_nat d) as [|k] eqn:E; [|by destruct k]. injection Hd as <-. injection Hch as <-. split; [lia|done].
Qed.

Lemma one_drive_config : config_ok (W := dma_dev) one_channel one_drive.
Proof.
  split.
  - intros d ch dr (_ & -> & ->)%one_drive_target. split_and!; [repeat split; vm_compute; congruence|done|by left].
  - intros d d' ch dr ch' dr' (-> & _)%one_drive_target (-> & _)%one_drive_target. done.
Qed.

(** Two blocks are written, the second over half of the first, and read. *)
Definition demo_requests : list dop :=
  [DWrite 0 0x2000 (replicate 1024 5); DWrite 0 0x2200 (replicate 1024 6); DRead 0 0x2000 2048; DRead 0 0 512].

Lemma ide_disk_refines_witness :
  exists sw', @run_dops _ (ide_disk 0x101000 0x101400 apic_start 1 7) dma0 demo_requests =
    Ret ((spec_dops (dma_content one_channel one_drive dma0) demo_requests).1, sw').
Proof.
  destruct (ide_disk_refines 0x101000 0x101400 apic_start 1 7 one_channel one_drive
    ltac:(split; vm_compute; congruence) ltac:(cbn; lia) one_drive_config demo_requests dma0) as (sw' & E & _).
  - split; [done|done|by split].
  - assert (Hv : forall addr n k, fits n k -> 0 <= addr <= 0x10000 -> dma_valid (W := dma_dev) one_channel one_drive 0 addr n).
    { intros addr n k Hf Ha. exists channel0, 0, k. split; [done|]. split; [done|]. cbn.
      destruct (fits_bounds _ _ Hf). lia. }
    apply Forall_cons; split; [|apply Forall_cons; split; [|apply Forall_cons; split; [|apply Forall_cons; split; [|apply Forall_nil; exact I]]]].
    + split; [apply (Hv _ _ 1%nat); [split; [done|split; [done|lia]]|lia]|by split_and!].
    + split; [apply (Hv _ _ 1%nat); [split; [done|split; [done|lia]]|lia]|by split_and!].
    + split; [apply (Hv _ _ 2%nat); [split; [done|split; [done|lia]]|lia]|by split_and!].
    + split; [apply (Hv _ _ 1%nat); [split; [done|split; [done|lia]]|lia]|by split_and!].
  - by repeat constructor.
  - exact (ex_intro _ sw' E).
Defined.
