(* ===== verification/KMain.v ===== *)
(** The start of the kernel (src/src/kernel/k_main.c): the initialisations of
    the components that kernel_main calls, in the order of the code, up to the
    point where the shell is ready to run.  It is the sequence of the
    initialisations undisturbed: bio_init, the sleeps of ide_detect_drive, the
    blocking of the task at disk reads and the interrupts after STI are not part
    of it, so what they do to the scheduler in between is not modelled.  What
    the kernel finds in the machine is a record of parameters: the boot
    information, the ACPI memory, the addresses the linker and the allocator
    chose, the disk. *)

From Stdlib Require Import ZArith Lia String.
From stdpp Require Import base numbers list gmap.
From S2P Require Import Prelude Queue HashTable Pmm Page Vmm VmmPages Task Pipe Tty Keyboard Ports Serialport Printf Tables Lru.
From S2P Require Import Bytes Ext2 Ext2File Vfs Inode Dir Ext2Dir File Syscall Boot Stdio Pic Descr Acpi Apic Hpet Pci Ps2 Abort Ide.

(** ** What the kernel finds *)

Record machine := mk_machine {
  m_boot : multiboot_info_t;
  m_kernel_start : Z;
  m_kernel_end : Z;
  m_page_directory : Z;
  m_page_table1 : Z;
  m_acpi : Z -> Z;
  (** the addresses of the task structures of the kernel, the cleaner and the
      idle task, their stacks, the code and the directory *)
  m_tasks : Z * Z * Z;
  m_pages : Z * Z * Z * Z;
  m_funcs : Z * Z * Z * Z;
  m_user_init : Z;
  m_dir : Z;
  m_stdin : task_mem;
  m_stdout : task_mem;
  m_shell : task_mem;
  (** the tables and the stack of the task state segment *)
  m_tss : Z;
  m_gdt : Z;
  m_tss_stack : Z;
  m_idt : Z;
  (** the addresses of the handlers *)
  m_isr : isr -> Z;
  m_timer_init2 : Z;
  m_time_handler : Z;
  m_ide_handler : Z;
  m_keyboard_handler : Z;
}.

(** The blocks behind the buffer cache and what the allocators of the file layer
    return. *)
Record fs_params (B : Type) := mk_fs_params {
  fp_junk : Z -> list Z;
  fp_ialloc : gmap Z (icell B) -> Z;
  fp_inode : Z -> inode_t;
  fp_links : Z -> Z * Z;
  fp_dalloc : gmap Z dentry_t -> Z;
  fp_dentry : Z -> dentry_t;
  fp_salloc : gmap Z (list Z) -> Z;
  fp_bytes : Z -> Z -> list Z;
  fp_stale : Z -> list Z;
  fp_entries : Z -> list hash_entry_t;
  fp_falloc : gmap Z file_t -> Z;
  fp_file : Z -> file_t;
  fp_palloc : gmap Z pipe_t -> Z;
  fp_pipe : Z -> list Z;
  fp_open_files : list Z;
}.
Arguments fp_junk {B}. Arguments fp_ialloc {B}. Arguments fp_inode {B}. Arguments fp_links {B}. Arguments fp_dalloc {B}.
Arguments fp_dentry {B}. Arguments fp_salloc {B}. Arguments fp_bytes {B}. Arguments fp_stale {B}. Arguments fp_entries {B}.
Arguments fp_falloc {B}. Arguments fp_file {B}. Arguments fp_palloc {B}. Arguments fp_pipe {B}. Arguments fp_open_files {B}.

(** A run of the file layer; a task that blocks at the start waits for ever. *)
Definition vstate {S A} (r : vres S A) : outcome (A * S) :=
  match r with VRet a s => Ret (a, s) | VPanic => Panic | VUndef => Undef | VNoFuel | VBlock => NoFuel end.

Section Start.
Context {W B : Type} `{!PortIO W} `{!MemIO W} `{!Blocks B}.
Context (x : machine) (fp : fs_params B) (fuel : nat) (tick : W -> W).
Local Notation dirs := (dstate num_table B).

(** ** Memory and tasks *)

(** [page_init], [pmm_init], [vmm_init], [multitask_init]; [m] are the tables of
    the boot code. *)
Definition start_memory (m : vm pmm) (c : sched) : outcome (vm pmm * kheap * sched) :=
  let! m := page_init m (m_page_directory x) (m_page_table1 x) in
  let! p := pmm_init (m_boot x) (m_kernel_start x) (m_kernel_end x) in
  let m := mk_vm (cr3 m) (fmem m) p in
  let! (h, m) := vmm_init_paged m in
  let '(kernel, clean, idle) := m_tasks x in
  let! c := multitask_init c kernel clean idle (m_pages x) (m_funcs x) (m_dir x) in
  Ret (m, h, c).

(** ** Console and tables *)

Record tables := mk_tables { k_gdt : list gdt_entry_t * gdt_ptr_t; k_tss : tss_t; k_idt : list idt_entry_t; k_syscalls : list handler }.

(** [gdt_init], [tss_init], [idt_init], [isrs_init], [syscall_init]. *)
Definition start_tables : outcome tables :=
  let gdt := gdt_init (m_tss x) (m_gdt x) in
  let tss := tss_init (m_tss_stack x) in
  let '(idt, _) := idt_init (m_idt x) in
  let! idt := isrs_init (m_isr x) idt in
  let! calls := syscall_init in
  Ret (mk_tables gdt tss idt calls).

(** ** Controllers *)

(** The ranges of device memory a driver asks for, in the kernel's directory. *)
Fixpoint map_ranges (m : vm pmm) (l : list (Z * Z)) : outcome (vm pmm) :=
  match l with
  | [] => Ret m
  | (a, n) :: l => let! m := page_identity_map m (Z.shiftr (VIR2PHY (m_page_directory x)) 12) a n in map_ranges m l
  end.

Record devices := mk_devices { k_rsdt : Z; k_hpet : hpet; k_apic : apic; k_ide : ide }.

(** [rsdt_init], [hpet_init], [pic_init], [apic_init], [pci_init], [ide_init]. *)
Definition start_devices (m : vm pmm) (idt : list idt_entry_t) (h : hpet) (d : ide) (w : W) :
    outcome (vm pmm * list idt_entry_t * devices * W) :=
  let! (rsdt, range, _) := rsdt_init (m_acpi x) in
  let! m := map_ranges m (match range with Some r => [r] | None => [] end) in
  let! (h, w, maps) := hpet_init (m_acpi x) rsdt h w in
  let! m := map_ranges m maps in
  let w := pic_init w in
  let! (a, idt, w, maps) := apic_init (m_acpi x) rsdt h apic_start idt w (m_timer_init2 x) (m_time_handler x) tick in
  let! m := map_ranges m maps in
  let! (d, w) := pci_init ide_set fuel (d, w) in
  let! (d, a, idt, w) := ide_init fuel d a idt w (m_ide_handler x) in
  Ret (m, idt, mk_devices rsdt h a d, w).

(** ** Files *)

(** [ext2_init(0)], [inode_init], [dir_init], [file_init]; without an ext2 file
    system on the device nothing is registered. *)
Definition start_files (st : B) : outcome (fstate num_table B) :=
  let! it := ht_create INODE_TABLE_SIZE INODE_LOAD_FACTOR 0 in
  let! dt := ht_create DIR_TABLE_SIZE DIR_LOAD_FACTOR HT_PTRKEY in
  let no : icache num_table B := mk_icache it ∅ (mk_lru ∅ 0 0) 0 (replicate 4 None) st in
  let! found := ext2_init (fp_junk fp) st 0 in
  let! (ditfs, ic) :=
    match found with
    | Some (sb, bgds) =>
        vstate (ext2_register sb bgds (fp_ialloc fp) (fp_inode fp) (fp_links fp) (fp_dalloc fp) (fp_dentry fp)
          (fp_salloc fp) (fp_bytes fp) (fp_stale fp) (fp_entries fp) (replicate 4 None) 0 no)
    | None => Ret (replicate 4 None, no)
    end in
  let ic := inode_init it (itfs ic) (fs ic) in
  let! (_, s) := vstate (dir_init (fp_salloc fp) (fp_bytes fp) (fp_stale fp) ditfs (dir_empty dt 0 ic)) in
  Ret (file_init s (fp_open_files fp)).

(** ** Keyboard, standard files and shell *)

(** The gate and the interrupt line of the keyboard, then its commands. *)
Definition keyboard_start (k : kbd queue_t) (a : apic) (idt : list idt_entry_t) (w : W) :
    outcome (kbd queue_t * apic * list idt_entry_t * W) :=
  let! idt := idt_set idt (IRQ_OFFSET + 1) (m_keyboard_handler x) 0x8E in
  let! (a, w) := ioapic_legacy_irq_activate a w 1 in
  let w := ioapic_irq_clear_mask a w 1 in
  let! k := keyboard_init k in
  Ret (k, a, idt, w).

Definition start_shell (c : sched) : outcome sched :=
  let t := m_shell x in
  let '(terminate, _, _, _) := m_funcs x in
  let! (c, _) := task_user_create_new c (tm_task t) (tm_stack t) (tm_kstack t) (tm_func t) terminate (m_user_init x) (m_dir x) in
  task_add_node c (tm_task t).

(** ** The whole start *)

Record kernel := mk_kernel {
  k_vm : vm pmm;
  k_heap : kheap;
  k_sched : sched;
  k_tables : tables;
  k_devices : devices;
  k_kbd : kbd queue_t;
  k_stdio : stdio num_table B (console (W := W));
}.

Definition welcome : string := "welcome to BulbOS" ++ nl ++ nl.
Definition boot_success : string := "boot success :)" ++ nl.

Definition start_sequence (m : vm pmm) (c : sched) (t : tty) (h : hpet) (d : ide) (k : kbd queue_t) (st : B) (w : W) :
    outcome kernel :=
  let! (m, heap, c) := start_memory m c in
  let! t := terminal_initialize t in
  let '(_, w) := serial_initialize w in
  let! tb := start_tables in
  let! (m, idt, dv, w) := start_devices m (k_idt tb) h d w in
  let! f := start_files st in
  let! (_, _, _, w) := ps2_init fuel w in
  let! (k, a, idt, w) := keyboard_start k (k_apic dv) idt w in
  let '(terminate, _, _, init) := m_funcs x in
  let s0 := mk_stdio f (mk_keysym 0 0 0) 0 0 0 0 (mk_console TERMINAL_OUT t w) in
  let! (c, s) := vstate (stdio_init (fp_falloc fp) (fp_file fp) (fp_palloc fp) (fp_pipe fp) terminate init (m_dir x)
    (m_stdin x) (m_stdout x) c s0) in
  let! (o, _) := printf fuel (sio_out s) (text welcome ++ [0]) [] in
  let! o := say fuel o boot_success in
  let! c := start_shell c in
  Ret (mk_kernel m heap c (mk_tables (k_gdt tb) (k_tss tb) idt (k_syscalls tb))
    (mk_devices (k_rsdt dv) (k_hpet dv) a (k_ide dv)) k (with_out s o)).
End Start.

(** ** A concrete machine *)

(** The keyboard controller, the latches of the memory-mapped devices, the
    address of the PCI configuration and the bytes sent on the serial line. *)
Record board := mk_board { bd_kbc : i8042; bd_mem : Z -> Z; bd_pci : Z; bd_line : list Z }.

Definition IOAPIC_AT : Z := 0xFEC00000.
Definition LAPIC_AT : Z := 0xFEE00000.
Definition HPET_AT : Z := 0xFED00000.

(** The registers behind the window of the I/O controller are latches too. *)
Definition bd_cell (b : board) (a : Z) : Z := if a =? IOAPIC_AT + 0x10 then 2 ^ 32 + bd_mem b IOAPIC_AT else a.
Definition bd_store (b : board) (a v : Z) : board :=
  let c := bd_cell b a in mk_board (bd_kbc b) (fun q => if q =? c then v else bd_mem b q) (bd_pci b) (bd_line b).

(** One PCI device: an IDE controller without drives. *)
Definition pci_config (address : Z) : Z :=
  if address =? 0x80000800 then 0x70108086
  else if address =? 0x80000808 then 0x01018000
  else if address =? 0x8000080C then 0
  else if address =? 0x80000820 then 0xC001
  else if (address <? 0x80000900) && (0x80000800 <=? address) then 0
  else 0xFFFFFFFF.

#[export] Instance board_ports : PortIO board := {
  inb b p :=
    if (p =? PS2_DATAPORT) || (p =? PS2_STATUSREG) then
      let '(v, k) := inb (bd_kbc b) p in (v, mk_board k (bd_mem b) (bd_pci b) (bd_line b))
    else if p =? SERIAL_COM1 + SERIAL_REG_LINE_STAT then (0x60, b) else (0, b);
  outb b v p :=
    if (p =? PS2_DATAPORT) || (p =? PS2_STATUSREG) then mk_board (outb (bd_kbc b) v p) (bd_mem b) (bd_pci b) (bd_line b)
    else if p =? SERIAL_COM1 then mk_board (bd_kbc b) (bd_mem b) (bd_pci b) (bd_line b ++ [v]) else b;
  inl b p := (if p =? CONFIG_DATA then pci_config (bd_pci b) else 0, b);
  outl b v p := if p =? CONFIG_ADDR then mk_board (bd_kbc b) (bd_mem b) v (bd_line b) else b;
  outw b v p := b;
}.
#[export] Instance board_mem : MemIO board := {
  rd32 b a := (bd_mem b (bd_cell b a), b); wr32 := bd_store;
  rd64 b a := (bd_mem b a, b); wr64 := bd_store;
}.

(** A timer with a period of 10 ns that can use every line, and an I/O
    controller with 24 lines. *)
Definition board0 : board :=
  mk_board (mk_8042 0x65 [0xFA] false true true)
    (fun a => if a =? HPET_AT then 10000000 * 2 ^ 32 else if a =? HPET_AT + 0x100 then 0xFFFFFFFF * 2 ^ 32
      else if a =? 2 ^ 32 + 1 then 0x170020 else 0) 0 [].

(** The root pointer, the root table with two entries, and the two tables. *)
Definition board_acpi (a : Z) : Z :=
  znth 0 (if a / 0x100 =? 0xE00 then RSDP_SIGNATURE ++ [1] ++ replicate 7 0 ++ [0; 0x10; 0; 0]
    else if a / 0x100 =? 0x10 then replicate 4 0 ++ [44; 0; 0; 0] ++ replicate 28 0 ++ [0; 0x20; 0; 0] ++ [0; 0x30; 0; 0]
    else if a / 0x100 =? 0x20 then HPET_SIGNATURE ++ replicate 40 0 ++ [0; 0; 0xD0; 0xFE]
    else if a / 0x100 =? 0x30 then
      MADT_SIGNATURE ++ [64; 0; 0; 0] ++ replicate 28 0 ++ [0; 0; 0xE0; 0xFE] ++ replicate 4 0 ++
      [0; 8; 3; 0; 0; 0; 0; 0] ++ [1; 12; 0; 0; 0; 0; 0xC0; 0xFE; 0; 0; 0; 0]
    else []) (a mod 0x100).

(** The tables of the boot code: the directory in frame 0x101, the kernel's
    four megabytes mapped through frame 0x103. *)
Definition board_vm : vm pmm :=
  mk_vm 0x101 (fun f i => if f =? 0x101 then (if i =? 768 then 0x103007 else 0)
    else if f =? 0x103 then i * 4096 + 7 else 0) (mk_pmm [] 0 0).

Definition board_boot : multiboot_info_t :=
  mk_mbinfo 0x41 640 0x2000 [mk_mmap 0 0 0x9FC00 0 1; mk_mmap 0x100000 0 0x700000 0 1].

Definition board_machine : machine :=
  mk_machine board_boot 0x100000 0xC0110000 0xC0101000 0xC0102000 board_acpi
    (0xD0000100, 0xD0000200, 0xD0000300) (0xDFFF0000, 0xDFFF1000, 0xDFFF2000, 0xDFFF3000)
    (0xC0100100, 0xC0100200, 0xC0100300, 0xC0100400) 0xC0100500 0x101000
    (mk_tmem 0xD0000400 0xDFFF4000 0xDFFF5000 0xC0100600) (mk_tmem 0xD0000500 0xDFFF6000 0xDFFF7000 0xC0100700)
    (mk_tmem 0xD0000600 0xDFFF8000 0xDFFF9000 0xC0100800)
    0xC0108000 0xD0000700 0xDFFFA000 0xD0000800 (fun _ => 0xC0100900)
    0xC0100A00 0xC0100B00 0xC0100C00 0xC0100D00.

Definition board_fs : fs_params fun_blocks :=
  mk_fs_params fun_blocks (fun n => replicate (Z.to_nat n) 0xCC) iallocb junk_inode0 junk_links0 dalloc0 junk_dentry0 salloc0
    junk_bytes0 stale0 zeroed falloc0 cc_file palloc0 zero_pipe (replicate 16 0).

Definition sched_zero : sched :=
  mk_sched (fun p => mk_task 0 0 0 0 0 0 0 0 0) 0 0 0 0 0 0 0 0 0 0 0 0 0 0.
Definition ide_zero : ide :=
  mk_ide [mk_channel 0 0 0; mk_channel 0 0 0] (replicate 4 (mk_device 0 0 0 0 0 0 0 0 [])) (replicate 128 (mk_prd 0 0 0))
    (replicate 4096 0) (0, 0) 0.

Definition board_tty : tty := mk_tty 0 0 0 (replicate 2000 0) 0.
Notation board_kernel :=
  (start_sequence board_machine board_fs 100 (id : board -> board) board_vm sched_zero board_tty (mk_hpet 0 0 0) ide_zero kbd0 boot_disk board0).

(** ** The tasks after the start *)

(** What making a task leaves alone. *)
Lemma create_inv (c c' : sched) (t stack kstack func terminate init dir : Z) (w : list (Z * Z)) :
  task_kernel_create_new c t stack kstack func terminate init dir = Ret (c', w) ->
  (forall q, q <> t -> tasks c' q = tasks c q) /\ current_task c' = current_task c /\
  schedule_tasks c' = schedule_tasks c /\ idle_task c' = idle_task c.
Proof.
  intros E. unfold task_kernel_create_new, task_create_new in E. destruct (t =? 0) eqn:Et; [done|]. cbn [obind] in E.
  unfold tload, tstore in E. rewrite Et in E. cbn [obind] in E. injection E as <- _. simpl. split_and!; try done.
  intros q Hq. by rewrite !tput_ne.
Qed.

(** The chain of ready tasks, the current and the idle task. *)
Record lined (c : sched) (cur idle : Z) (l : list Z) : Prop := {
  ln_chain : chain (tasks c) (schedule_tasks c) l;
  ln_current : current_task c = cur;
  ln_idle : idle_task c = idle;
}.

Lemma create_lined (c c' : sched) (cur idle t stack kstack func terminate init dir : Z) (w : list (Z * Z)) (l : list Z) :
  task_kernel_create_new c t stack kstack func terminate init dir = Ret (c', w) -> t ∉ l -> lined c cur idle l -> lined c' cur idle l.
Proof.
  intros (Q & C & S & I)%create_inv Ht [A B D]. split; [|congruence..]. rewrite S. eapply chain_frame, A.
  intros x Hx. rewrite Q; [done|]. by intros ->.
Qed.

Lemma add_lined (c c' : sched) (cur idle t : Z) (l : list Z) :
  task_add_node c t = Ret c' -> t <> 0 -> t ∉ l -> lined c cur idle l -> lined c' cur idle (t :: l).
Proof.
  intros E H0 Ht [A B D]. destruct (add_node_spec c t l H0 Ht A) as (s & E' & A' & C & I & _). rewrite E in E'.
  injection E' as <-. split; [done|congruence..].
Qed.

Lemma multitask_lined (c c' : sched) (kernel clean idle : Z) (pages funcs : Z * Z * Z * Z) (dir : Z) :
  multitask_init c kernel clean idle pages funcs dir = Ret c' -> idle <> 0 -> schedule_tasks c = 0 ->
  lined c' kernel idle [idle].
Proof.
  intros E H0 Hs. unfold multitask_init in E. destruct pages as [[[p1 p2] p3] p4], funcs as [[[f1 f2] f3] f4].
  destruct (kernel =? 0); [done|]. apply obind_inv in E as ([c1 w1] & E1 & E). apply obind_inv in E as ([c2 w2] & E2 & E).
  eapply create_lined in E1; [|apply not_elem_of_nil|by split; [exact Hs|..]].
  eapply create_lined in E2; [|apply not_elem_of_nil|exact E1].
  eapply (add_lined _ _ kernel idle) in E; [exact E|done|apply not_elem_of_nil|]. destruct E2 as [A B D]. by split.
Qed.

(** An address apart from those of a list. *)
Ltac notin := rewrite ?not_elem_of_cons; split_and!; try done; apply not_elem_of_nil.

Lemma stdio_lined {T W D} (falloc : gmap Z file_t -> Z) (junk_file : Z -> file_t) (palloc : gmap Z pipe_t -> Z)
    (junk_pipe : Z -> list Z) (terminate init dir cur idle : Z) (min mout : task_mem) (c c' : sched) (s s' : stdio T W D) (l : list Z) :
  stdio_init falloc junk_file palloc junk_pipe terminate init dir min mout c s = VRet c' s' ->
  tm_task mout <> 0 -> tm_task min ∉ l -> tm_task mout ∉ l -> lined c cur idle l -> lined c' cur idle (tm_task mout :: l).
Proof.
  intros E H0 Hi Ho L. unfold stdio_init, stdin_init, stdout_init, new_kernel_task in E.
  apply vbind_inv in E as (c5 & s5 & E1 & E2). apply vbind_inv in E1 as ([r1 r2] & s6 & _ & E1).
  apply vbind_inv in E1 as (u & s7 & _ & [E1 ->]%vlift_inv). apply obind_inv in E1 as ([c6 w6] & E1 & [= ->]).
  apply vbind_inv in E2 as ([r3 r4] & s8 & _ & E2). apply vbind_inv in E2 as (u2 & s9 & _ & E2).
  apply vbind_inv in E2 as (c7 & s10 & [E3 ->]%vlift_inv & [E2 ->]%vlift_inv). apply obind_inv in E3 as ([c8 w8] & E3 & [= ->]).
  apply (add_lined _ _ _ _ _ _ E2); [done|done|]. apply (create_lined _ _ _ _ _ _ _ _ _ _ _ _ _ E3); [done|].
  by apply (create_lined _ _ _ _ _ _ _ _ _ _ _ _ _ E1).
Qed.

Section StartTasks.
Context {W B : Type} `{!PortIO W} `{!MemIO W} `{!Blocks B}.
Context (x : machine) (fp : fs_params B) (fuel : nat) (tick : W -> W).

(** The structures of the tasks are apart. *)
Definition tasks_apart : Prop :=
  let '(_, _, idle) := m_tasks x in
  NoDup [0; idle; tm_task (m_stdin x); tm_task (m_stdout x); tm_task (m_shell x)].

(** After the initialisations, undisturbed, the shell and the output task are
    ready in front of the idle task, and the kernel's own task runs. *)
Theorem start_tasks (m : vm pmm) (c : sched) (t : tty) (h : hpet) (d : ide) (k : kbd queue_t) (st : B) (w : W)
    (r : kernel (W := W) (B := B)) :
  tasks_apart -> schedule_tasks c = 0 -> start_sequence x fp fuel tick m c t h d k st w = Ret r ->
  let '(kernel, _, idle) := m_tasks x in
  lined (k_sched r) kernel idle [tm_task (m_shell x); tm_task (m_stdout x); idle].
Proof.
  unfold tasks_apart, start_sequence, start_memory. destruct (m_tasks x) as [[kernel clean] idle]. intros Hnd Hc E.
  rewrite !NoDup_cons, !not_elem_of_cons in Hnd. destruct Hnd as ((N1 & N2 & N3 & N4 & _) & (N5 & N6 & N7 & _) & (N8 & N9 & _) & (N10 & _) & _).
  apply obind_inv in E as ([[m1 heap] c1] & E0 & E). apply obind_inv in E0 as (m2 & _ & E0). apply obind_inv in E0 as (p & _ & E0).
  apply obind_inv in E0 as ([h1 m4] & _ & E0). apply obind_inv in E0 as (c2 & L & [= _ _ <-]).
  apply multitask_lined in L; [|done|done].
  apply obind_inv in E as (t1 & _ & E). destruct (serial_initialize w) as [z w1]. apply obind_inv in E as (tb & _ & E).
  apply obind_inv in E as ([[[m3 idt] dv] w2] & _ & E). apply obind_inv in E as (f & _ & E).
  apply obind_inv in E as ([[[b1 b2] b3] w3] & _ & E). apply obind_inv in E as ([[[k1 a] idt1] w4] & _ & E).
  destruct (m_funcs x) as [[[f1 f2] f3] f4] eqn:Ef.
  apply obind_inv in E as ([c3 s] & Es & E). apply obind_inv in E as ([o z1] & _ & E). apply obind_inv in E as (o1 & _ & E).
  apply obind_inv in E as (c4 & Ec & [= <-]). cbn [k_sched].
  assert (L3 : lined c3 kernel idle [tm_task (m_stdout x); idle]).
  { destruct (stdio_init _ _ _ _ _ _ _ _ _ _ _) as [c3' s'| | | |] eqn:E1; try discriminate Es. injection Es as -> ->.
    eapply stdio_lined; [exact E1|done|notin|notin|exact L]. }
  unfold start_shell in Ec. rewrite Ef in Ec. apply obind_inv in Ec as ([c9 w9] & E9 & Ec).
  assert (Hn : tm_task (m_shell x) ∉ [tm_task (m_stdout x); idle]) by notin.
  apply (add_lined _ _ _ _ _ _ Ec); [done|done|]. by apply (create_lined _ _ _ _ _ _ _ _ _ _ _ _ _ E9).
Qed.
End StartTasks.

(** ** The concrete machine starts *)

(** The gates that are set: the exceptions, the keyboard, the two disk channels
    and the timers. *)
Definition set_gates (idt : list idt_entry_t) : list Z :=
  List.filter (fun n => negb (i_flags (znth idt_zero idt n) =? 0)) (seqZ 0 256).

(** The start returns; the ready tasks are the shell, the output task and the
    idle task; the gates are those of the exceptions and of the devices; the
    screen shows the greeting and the serial line has the report; the keyboard
    has got its reset; the registers of the timer and of the two interrupt
    controllers are mapped to themselves; the heap has its first page; the root is the working directory. *)
Theorem board_boots :
  match board_kernel with
  | Ret k =>
      (current_task (k_sched k), schedule_tasks (k_sched k)) = (0xD0000100, 0xD0000600) /\
      set_gates (k_idt (k_tables k)) = seqZ 0 32 ++ [33; 46; 47; 48; 49] /\
      map (fun c => Z.land c 0xFF) (take 17 (terminal_buffer (con_tty (sio_out (k_stdio k))))) = text "welcome to BulbOS" /\
      drop 2 (bd_line (con_serial (sio_out (k_stdio k)))) = text boot_success ++ [13] /\
      sent (k_kbd k) = [0xFF] /\
      (walk (k_vm k) IOAPIC_AT, walk (k_vm k) LAPIC_AT, walk (k_vm k) HPET_AT) =
        (Some (IOAPIC_AT / 4096), Some (LAPIC_AT / 4096), Some (HPET_AT / 4096)) /\
      bool_decide (is_Some (walk (k_vm k) KHEAP_LIST_START)) = true /\
      cur_dir (dirs (sio_files (k_stdio k))) = 0x1000 /\
      (period_ns (k_hpet (k_devices k)), max_irqs (k_apic (k_devices k)), is_ide_set (k_ide (k_devices k))) = (10, 24, 1)
  | _ => False
  end.
Proof. vm_compute. repeat split; reflexivity. Qed.

Definition returns {A} (o : outcome A) : bool := match o with Ret _ => true | _ => false end.
Lemma returns_ex {A} (o : outcome A) : returns o = true -> exists a, o = Ret a.
Proof. destruct o; try done. eauto. Qed.

Lemma board_returns : returns board_kernel = true.
Proof. vm_compute. reflexivity. Qed.

Lemma board_apart : tasks_apart board_machine.
Proof.
  unfold tasks_apart. cbn [m_tasks board_machine m_stdin m_stdout m_shell tm_task].
  repeat constructor; rewrite ?elem_of_cons, ?elem_of_nil; lia.
Qed.

Lemma start_tasks_witness :
  exists k, board_kernel = Ret k /\ lined (k_sched k) 0xD0000100 0xD0000300 [0xD0000600; 0xD0000500; 0xD0000300].
Proof.
  destruct (returns_ex _ board_returns) as [k E]. exists k. split; [exact E|].
  exact (start_tasks board_machine board_fs 100 (id : board -> board) board_vm sched_zero board_tty (mk_hpet 0 0 0)
    ide_zero kbd0 boot_disk board0 k board_apart eq_refl E).
Defined.
